(* ===== verification/_CoqProject ===== *)
-Q . S2P
Prelude.v
CInt.v
Memory.v
P4Spec.v
Pna.v
Pipeline.v
Steps.v
Headers.v
Checksum.v
Deparse.v
Chain.v
Host.v
Crc32Table.v
Crc.v
CrcMessages.v
Samples.v
Ipip.v
Routing.v
RoutingPath.v
TunnelPath.v
Calc.v
Ingress.v
SimpleL3.v
RedirectL2.v
ArpRespond.v
ArpNetwork.v
Ipv6.v
Flow.v
Flowtracker.v
FlowtrackerIpv6.v
Cpus.v
Pipelines.v
Hosts.v
