(* ===== verification/Prelude.v ===== *)
(** * Verification of the p4tc example pipelines

    The repository holds eight P4 programs and the eBPF C code that the P4TC
    back end generated from them.  The C code is what runs, and what is
    modelled here: for every program the files [generated/..._parser.h],
    [generated/..._parser.c] and [generated/..._control_blocks.c] under src/, and of
    src/include what they use.

    ** The programs

    A pipeline is a pair of traffic-control classifiers on one packet.
    [tc_parse_func] parses the packet ([run_parser]) and leaves the headers and
    the number of parsed bits in a per-CPU map; [tc_ingress_func] takes them
    from there, applies the tables and writes the headers back ([process]),
    and then drops the packet, sends it to a port or hands it to the kernel.
    The two meet in three places: the map ([hdr_md_cpumap], field [w_cpumap]),
    the control block of the packet ([pna_global_metadata] in [skb->cb], field
    [skb_cb]) and the packet itself.  The tables are state of the kernel
    ([w_kern]): a program reads them, and the flow trackers add to them.

    ** The files, and what they model

    - [Prelude] (this file): the monad of C function bodies, with fall-through,
      [goto]/[return] and undefined memory access as three outcomes; tactics.
    - [CInt]: integers of fixed width and byte order (ebpf_common.h,
      bpf_endian.h).  [Memory]: loads and stores with their bounds
      (ebpf_kernel.h and the macros of the parser headers).
    - [P4Spec]: the abstract specification of [extract] and [emit], by the
      field widths of a P4 header type.
    - [Pna]: include/pna.h, and the kernel as a class [P4tcKernel] with its
      documented behaviour [P4tcKernelOk].
    - [Pipeline]: the frames of [run_parser], [process], [tc_parse_func] and
      [tc_ingress_func], and the statements their bodies are made of.  [Steps]:
      their symbolic execution.
    - [Headers]: the Ethernet, IPv4 and port headers; [Ipv6]: the IPv6 header;
      [ArpRespond] has the two ARP headers.  [Deparse]: the blocks of the
      deparsers.
    - [Checksum]: [csum16_add], [csum16_sub] and the updates of the IPv4 checksum
      made with them.  [Crc32Table], [Crc]: [crc16_update], [crc32_update] and the
      table of include/crc32.h.
    - [Chain]: both classifiers in sequence; what a program promises of a packet
      as a whole ([behaviour], [Implements]), and one theorem ([program_run]) by
      which a program whose parser, control and deparser meet their local
      specifications ([program_ok]) implements the composition of these.
    - [Samples]: a machine and a kernel at which the theorems are applied.
    - One file per program.  [Ipip]: tunnels/ipip.  [Routing]: routing.  [Calc]:
      calc.  [SimpleL3] and [RedirectL2] (over [Ingress]): simple/simple_l3 and
      simple/redirect_l2.  [ArpRespond]: arp_responder.  [Flowtracker] and
      [FlowtrackerIpv6] (over [Flow]): stateful-progs/flowtracker and
      stateful-progs/flowtracker_ipv6.
    - Programs together.  [RoutingPath]: a path through routers.  [TunnelPath]:
      the two ends of a tunnel, with routers between them.  [ArpNetwork]:
      responders that hear each other.  [Cpus]: a tracker on several CPUs, as a
      step relation over the packets in progress and the shared tables.  [CrcMessages]: messages in parts, and
      errors in messages.  [Host]: a host that runs a pipeline at the ingress
      hook, as a step relation over the packets at the hook, the tables and the
      scratch area, and what it needs of a pipeline ([PipelineOk]).
      [Pipelines]: the eight programs are instances.  [Hosts]: what follows for
      them, and for the hosts that track flows.

    In a program's file the definitions have the names of the code: the parser
    states ([start], [parse_ipv4], ...), the key structs as functions from the
    fields to the bytes of the key, the action identifiers, one definition per
    action and per table application ([..._apply]), [main_control] or
    [ingress_control] for the control block, [deparse_hdr_...] for the
    blocks of the deparser, then [process], [run_parser] and the entry points.
    A struct is a record, a header's [ebpf_valid] one of its fields.  Code that
    the compiler writes out at every use (extraction and emission of a header)
    is one definition over the struct concerned.

    ** The theorems

    - Behaviour of each program, on every branch: [ipip_encapsulates],
      [ipip_decapsulates], [ipip_passes], [ipip_drops]; [routing_forwards],
      [routing_drops]; [calc_computes], [calc_drops];
      [simple_l3_forwards], [simple_l3_drops], [simple_l3_passes];
      [redirect_l2_redirects], [redirect_l2_miss], [redirect_l2_drops];
      [arp_replies], [arp_drops], [arp_other]; [flowtracker_miss],
      [flowtracker_hit], [flowtracker_drops], [flowtracker_truncated];
      [flowtracker_ipv6_tracks], [flowtracker_ipv6_drops].  They relate the bytes
      of the packet that arrives with those of the packet that leaves, its port
      and the state of the tables.
    - Composition: [ipip_tunnel], that a packet through both ends of a tunnel is
      the packet that was sent, and [ipip_tunnel_path], that it is so through
      any network; [flowtracker_cpus] and [flowtracker_ipv6_cpus], that on any
      number of CPUs, however their lookups and creations are interleaved, the
      table refines a set of flows and every packet gets its due;
      [flowtracker_flows] and [flowtracker_ipv6_flows], the same of packets one
      after the other; [flowtracker_key_inj], that flows do not collide.
    - Networks: [routing_path], that a packet gets over fewer routers than its
      TTL says, and what is left of it; [arp_no_storm], that responders do not
      answer each other.
    - Hosts: [pipelines_progress] (memory safety: whatever arrives at a host that
      runs one of the programs, no packet is stuck), [pipelines_settle]
      (handling ends; what arrived is then, as a permutation, what was dropped,
      passed on and sent, each with the bytes its specification says),
      [pipelines_second_pass] (a packet that was handed to the kernel is not
      processed again), [flowtracker_host] and [flowtracker_ipv6_host] (the set
      of flows, with the packets of both passes interleaved in any way).  An
      access outside of the packet is the outcome [Fault], which ends as
      [None], for which the host has no step.  The lemmas named [..._total]
      state the same of one packet.
    - The parts: [crc16_update_correct] and [crc32_update_correct] against a
      bit-serial shift register, [crc32_fields] for the fields of a tuple,
      [crc32_burst] for the errors the CRC-32 detects, [ipv6_roundtrip], [extern_random_range]; in
      [Headers], [Checksum] and [Deparse] the lemmas that extraction and
      emission implement [P4Spec] and that the updated IPv4 checksum is that of
      the updated header.

    The theorems about programs hold for either byte order of the machine, any
    kernel that meets [P4tcKernelOk], any state of the tables and every packet
    that [arrives]: at least an Ethernet header long, marked neither dropped
    nor passed on, with its bit offsets in range.  [crc32_update_correct] is
    for little-endian machines; on others the function is not the CRC for
    messages of more than eight bytes.  On all of them [crc16_update] and
    [crc32_update] take messages of up to eight bytes from the last byte on
    ([crc_order]).

    ** Bounds and fuel

    Parsers have no loops.  Bit offsets are [u32], which buffers below [2^28]
    bytes ([small]) never wrap; packets are below that, and what a deparser has
    emitted is below [2^16] ([tiny]).  The loops over the bytes of an object or
    an array recur on the number of bytes left.  The loop of [crc32_update]
    takes eight bytes per iteration; its fuel is the length of the message, and
    the theorem says that this is enough for every length below [2^16], the
    range of the parameter's type.

    ** Not modelled

    - Kernel functions without code here: table lookup, entry creation, ageing
      of entries, [bpf_skb_adjust_room] and [bpf_redirect] are the parameters of
      [P4tcKernel]; meters, counters, registers and the XDP variants that
      pna.h declares are not called by any program.  Inline externs of pna.h
      that call the kernel take its answer as an argument.
    - The registration macros of maps, and trace output.
    - The code of the ingress hook.  What [Host] says of it is its documented
      behaviour: [TC_ACT_SHOT] drops, [TC_ACT_OK] passes the packet to the stack,
      and [bpf_redirect] either refuses ([TC_ACT_SHOT]) or asks for the packet
      to be sent or, with [BPF_F_INGRESS], to be received again with its control
      block, on which the generated code relies ([RedirectOk]).  Each pass of
      a packet is run to its end before the next one: the map between the two
      classifiers is per CPU.  In [Host] a pass runs without interruption;
      [Cpus] is about CPUs in parallel, which share the tables.  There the
      lookup of a pass and its creation happen at two moments (each is atomic
      in the kernel), and the program itself is run on a kernel that answers
      from these two ([split_kernel]): no tracker looks anything up between its
      lookup and its creation.  Only the trackers change tables, so that a
      run of another program meets the same tables throughout.  Entries do not
      age, a lookup changes nothing (it does not restart the idle timer of the
      entry it hits), and the control plane does not change the tables meanwhile.
      That a table gets every flow is conditional on its size ([room_for]).
    - The vendored headers in src/include/bpf other than bpf_endian.h, the P4
      sources, the templates and JSON files for the control plane, and the
      shell scripts. *)

From stdpp Require Export base list numbers.
From coqutil Require Export Datatypes.RecordSetters.
Export OCamlLikeNotations.

(** Record updates compute. *)
#[global] Arguments constant {E} _ _ /.

#[export] Set Default Goal Selector "!".

Declare Scope p4tc_scope.
Delimit Scope p4tc_scope with p4tc.
Global Open Scope Z_scope.

(** ** The control effects of the C functions

    A C function body is a computation over a local state [S].  It can fall
    through to the next statement ([Ret]), leave the body by a [goto] or a
    [return] ([Exit], with the label or the returned value of type [E]), or
    access memory outside of the buffer it was given ([Fault]). *)

Inductive outcome (S E A : Type) : Type :=
| Ret (a : A) (s : S)
| Exit (e : E) (s : S)
| Fault.
Arguments Ret {S E A} _ _.
Arguments Exit {S E A} _ _.
Arguments Fault {S E A}.

Definition M (S E A : Type) : Type := S -> outcome S E A.

Definition ret {S E A} (a : A) : M S E A := fun s => Ret a s.

Definition bind {S E A B} (m : M S E A) (k : A -> M S E B) : M S E B :=
  fun s => match m s with
           | Ret a s' => k a s'
           | Exit e s' => Exit e s'
           | Fault => Fault
           end.

Definition exit {S E A} (e : E) : M S E A := fun s => Exit e s.

Definition fault {S E A} : M S E A := fun _ => Fault.

Definition get {S E} : M S E S := fun s => Ret s s.

Definition modify {S E} (f : S -> S) : M S E unit := fun s => Ret tt (f s).

Definition gets {S E A} (f : S -> A) : M S E A := fun s => Ret (f s) s.

(** [if (b) m], without an else branch. *)
Definition when {S E} (b : bool) (m : M S E unit) : M S E unit :=
  if b then m else ret tt.

(** A read that is undefined outside of the buffer. *)
Definition lift_option {S E A} (o : option A) : M S E A :=
  match o with Some a => ret a | None => fault end.

Notation "x <- m ;; k" := (bind m (fun x => k))
  (at level 100, m at next level, right associativity) : p4tc_scope.
Notation "m ;; k" := (bind m (fun _ => k))
  (at level 100, k at level 200, right associativity) : p4tc_scope.
Global Open Scope p4tc_scope.

(** ** Equations of the monad *)

Lemma bind_Ret {S E A B} (m : M S E A) (k : A -> M S E B) s a s' :
  m s = Ret a s' -> bind m k s = k a s'.
Proof. intros H. unfold bind. by rewrite H. Qed.

Lemma bind_Exit {S E A B} (m : M S E A) (k : A -> M S E B) s e s' :
  m s = Exit e s' -> bind m k s = Exit e s'.
Proof. intros H. unfold bind. by rewrite H. Qed.

Lemma bind_assoc {S E A B C} (m : M S E A) (k : A -> M S E B) (k' : B -> M S E C) s :
  bind (bind m k) k' s = bind m (fun a => bind (k a) k') s.
Proof. unfold bind. by destruct (m s). Qed.

(** ** Lists of a known length *)

(** [destruct_length l H] turns a list of a literal length (hypothesis
    [H : length l = n]) into its explicit form. *)
Ltac destruct_length l H :=
  repeat (let x := fresh "x" in
          destruct l as [|x l]; [discriminate H|]; injection H as H);
  apply nil_length_inv in H; subst l.

(** Case analysis on an integer comparison of the goal, discarding the
    impossible case. *)
Ltac zcase :=
  match goal with
  | |- context [?x <? ?y] => destruct (Z.ltb_spec x y); try (exfalso; lia)
  | |- context [?x <=? ?y] => destruct (Z.leb_spec x y); try (exfalso; lia)
  | |- context [?x =? ?y] => destruct (Z.eqb_spec x y); try (exfalso; lia)
  end.

(** Splits the first [n] elements off a list that has at least [n]. *)
Lemma list_split_at {A} (n : nat) (l : list A) :
  (n <= length l)%nat -> exists a b, l = a ++ b /\ length a = n.
Proof.
  intros H. exists (take n l), (drop n l).
  by rewrite take_drop, length_take_le.
Qed.
