(* ===== verification/CInt.v ===== *)
(** Machine integers, byte order and the byte-swapping macros
    (include/ebpf_common.h, include/bpf/bpf_endian.h).

    An unsigned [w]-bit C integer is a [Z] in [0 .. 2^w - 1]; conversions
    wrap.  The object representation of an integer is a list of bytes whose
    order depends on the target's byte order, as bpf_endian.h selects it. *)

From S2P Require Import Prelude.

(** ** Widths (ebpf_common.h) *)

Definition u8 (x : Z) : Z := x mod 2 ^ 8.
Definition u16 (x : Z) : Z := x mod 2 ^ 16.
Definition u32 (x : Z) : Z := x mod 2 ^ 32.
Definition u64 (x : Z) : Z := x mod 2 ^ 64.

Arguments u8 : simpl never.
Arguments u16 : simpl never.
Arguments u32 : simpl never.
Arguments u64 : simpl never.

Definition is_byte (b : Z) : Prop := 0 <= b < 256.
Definition bytes (l : list Z) : Prop := Forall is_byte l.

(** ** Byte order *)

Inductive endian := LittleEndian | BigEndian.

Class ByteOrder := byte_order : endian.

(** The value of a byte string read in little-endian and in big-endian
    (network) order, and the [n] bytes of a value in both orders. *)
Fixpoint le_val (l : list Z) : Z :=
  match l with [] => 0 | b :: l => b + 256 * le_val l end.

Definition be_val (l : list Z) : Z := le_val (rev l).

Fixpoint le_bytes (n : nat) (v : Z) : list Z :=
  match n with O => [] | S n => v mod 256 :: le_bytes n (v / 256) end.

Definition be_bytes (n : nat) (v : Z) : list Z := rev (le_bytes n v).

(** Reading and writing an integer object of the target. *)
Definition host_val `{ByteOrder} (l : list Z) : Z :=
  match byte_order with LittleEndian => le_val l | BigEndian => be_val l end.

Definition host_bytes `{ByteOrder} (n : nat) (v : Z) : list Z :=
  match byte_order with LittleEndian => le_bytes n v | BigEndian => be_bytes n v end.

(** ** bpf_endian.h *)

(** [___bpf_mvb(x, b, n, m)]: byte [n] of the [b]-bit [x] moved to byte [m].
    The shifts are those of the promoted operand, which has at least the
    width of [int]. *)
Definition bpf_mvb (x b n m : Z) : Z :=
  let promoted := Z.max b 32 in
  let x := x mod 2 ^ b in
  let x := Z.shiftl x (b - (n + 1) * 8) mod 2 ^ promoted in
  Z.shiftl (Z.shiftr x (b - 8)) (m * 8) mod 2 ^ promoted.

Definition bpf_swab16 (x : Z) : Z :=
  u16 (Z.lor (bpf_mvb x 16 0 1) (bpf_mvb x 16 1 0)).

Definition bpf_swab32 (x : Z) : Z :=
  u32 (Z.lor (Z.lor (Z.lor (bpf_mvb x 32 0 3) (bpf_mvb x 32 1 2))
               (bpf_mvb x 32 2 1)) (bpf_mvb x 32 3 0)).

Definition bpf_swab64 (x : Z) : Z :=
  u64 (Z.lor (Z.lor (Z.lor (Z.lor (Z.lor (Z.lor (Z.lor
         (bpf_mvb x 64 0 7) (bpf_mvb x 64 1 6)) (bpf_mvb x 64 2 5))
         (bpf_mvb x 64 3 4)) (bpf_mvb x 64 4 3)) (bpf_mvb x 64 5 2))
         (bpf_mvb x 64 6 1)) (bpf_mvb x 64 7 0)).

(** The compiler's [__builtin_bswap]: the [n] bytes of the operand reversed. *)
Definition bswap (n : nat) (x : Z) : Z := be_val (le_bytes n x).

Definition ntoh `{ByteOrder} (n : nat) (x : Z) : Z :=
  match byte_order with
  | LittleEndian => bswap n x
  | BigEndian => x mod 256 ^ Z.of_nat n
  end.

Definition bpf_ntohs `{ByteOrder} (x : Z) : Z := ntoh 2 x.
Definition bpf_htons `{ByteOrder} (x : Z) : Z := ntoh 2 x.
Definition bpf_ntohl `{ByteOrder} (x : Z) : Z := ntoh 4 x.
Definition bpf_htonl `{ByteOrder} (x : Z) : Z := ntoh 4 x.
Definition bpf_be64_to_cpu `{ByteOrder} (x : Z) : Z := ntoh 8 x.
Definition bpf_cpu_to_be64 `{ByteOrder} (x : Z) : Z := ntoh 8 x.

(** ** Byte strings and values *)

Lemma pow256_pos n : 0 < 256 ^ Z.of_nat n.
Proof. apply Z.pow_pos_nonneg; lia. Qed.

Lemma pow256_S n : 256 ^ Z.of_nat (S n) = 256 * 256 ^ Z.of_nat n.
Proof. rewrite Nat2Z.inj_succ, Z.pow_succ_r; lia. Qed.

Lemma length_le_bytes n v : length (le_bytes n v) = n.
Proof. revert v; induction n as [|n IH]; intros v; simpl; [done|by rewrite IH]. Qed.

Lemma length_be_bytes n v : length (be_bytes n v) = n.
Proof. unfold be_bytes. by rewrite length_rev, length_le_bytes. Qed.

Lemma bytes_le_bytes n v : bytes (le_bytes n v).
Proof.
  revert v; induction n as [|n IH]; intros v; constructor; [|apply IH].
  unfold is_byte. apply Z.mod_pos_bound. lia.
Qed.

Lemma bytes_rev l : bytes l -> bytes (rev l).
Proof. apply List.Forall_rev. Qed.

Lemma bytes_app l1 l2 : bytes (l1 ++ l2) <-> bytes l1 /\ bytes l2.
Proof. apply Forall_app. Qed.

Lemma bytes_cons b l : bytes (b :: l) <-> is_byte b /\ bytes l.
Proof. apply List.Forall_cons_iff. Qed.

Lemma bytes_nil : bytes [].
Proof. constructor. Qed.

(** Splits a [bytes] hypothesis about an explicit list. *)
Ltac split_bytes H :=
  lazymatch type of H with
  | bytes (_ :: _) => let Hx := fresh "Hx" in
                      apply bytes_cons in H as [Hx H]; split_bytes H
  | _ => idtac
  end.

(** Proves [bytes] of an explicit list from the hypotheses on its elements. *)
Ltac solve_bytes :=
  rewrite ?bytes_app, ?bytes_cons;
  repeat split; try assumption; try apply bytes_nil; try (unfold is_byte in *; lia).

Lemma bytes_lookup l i b : bytes l -> l !! i = Some b -> is_byte b.
Proof. intros H. by apply Forall_lookup_1. Qed.

Lemma le_val_bound l : bytes l -> 0 <= le_val l < 256 ^ Z.of_nat (length l).
Proof.
  unfold bytes, is_byte.
  induction 1 as [|b l Hb Hl IH]; [simpl; lia|].
  rewrite length_cons, pow256_S. cbn [le_val]. lia.
Qed.

Lemma le_val_le_bytes n v : le_val (le_bytes n v) = v mod 256 ^ Z.of_nat n.
Proof.
  revert v; induction n as [|n IH]; intros v; cbn [le_bytes le_val].
  - by rewrite Z.mod_1_r.
  - rewrite IH, pow256_S, Z.rem_mul_r by (pose proof (pow256_pos n); lia). lia.
Qed.

Lemma le_bytes_le_val l : bytes l -> le_bytes (length l) (le_val l) = l.
Proof.
  unfold bytes, is_byte.
  induction 1 as [|b l Hb Hl IH]; [done|].
  cbn [length le_bytes le_val]. f_equal.
  - rewrite Z.mul_comm, Z.mod_add by lia. by apply Z.mod_small.
  - rewrite Z.mul_comm, Z.div_add, Z.div_small by lia. by rewrite Z.add_0_l.
Qed.

Lemma be_val_bound l : bytes l -> 0 <= be_val l < 256 ^ Z.of_nat (length l).
Proof.
  intros H. unfold be_val. rewrite <- length_rev. by apply le_val_bound, bytes_rev.
Qed.

Lemma be_val_be_bytes n v : be_val (be_bytes n v) = v mod 256 ^ Z.of_nat n.
Proof. unfold be_val, be_bytes. by rewrite rev_involutive, le_val_le_bytes. Qed.

Lemma be_bytes_be_val l : bytes l -> be_bytes (length l) (be_val l) = l.
Proof.
  intros H. unfold be_val, be_bytes. rewrite <- length_rev.
  by rewrite le_bytes_le_val, rev_involutive by (by apply bytes_rev).
Qed.

Lemma le_bytes_mod n v : le_bytes n (v mod 256 ^ Z.of_nat n) = le_bytes n v.
Proof.
  rewrite <- (le_val_le_bytes n v).
  rewrite <- (length_le_bytes n v) at 1. apply le_bytes_le_val, bytes_le_bytes.
Qed.

Section ByteOrderLemmas.
Context `{ByteOrder}.

Lemma length_host_bytes n v : length (host_bytes n v) = n.
Proof. unfold host_bytes. destruct byte_order; auto using length_le_bytes, length_be_bytes. Qed.

Lemma bytes_host_bytes n v : bytes (host_bytes n v).
Proof.
  unfold host_bytes, be_bytes. destruct byte_order; auto using bytes_le_bytes, bytes_rev.
Qed.

Lemma host_bytes_host_val l : bytes l -> host_bytes (length l) (host_val l) = l.
Proof.
  intros Hl. unfold host_bytes, host_val.
  destruct byte_order; auto using le_bytes_le_val, be_bytes_be_val.
Qed.

Lemma host_val_host_bytes n v : host_val (host_bytes n v) = v mod 256 ^ Z.of_nat n.
Proof.
  unfold host_bytes, host_val.
  destruct byte_order; [apply le_val_le_bytes|apply be_val_be_bytes].
Qed.

Lemma host_val_bound l : bytes l -> 0 <= host_val l < 256 ^ Z.of_nat (length l).
Proof.
  intros Hl. unfold host_val. destruct byte_order; auto using le_val_bound, be_val_bound.
Qed.

(** Loading in network order: on both byte orders the swapped host value
    is the big-endian value of the bytes in memory. *)
Lemma ntoh_host_val l : bytes l -> ntoh (length l) (host_val l) = be_val l.
Proof.
  intros Hl. unfold ntoh, host_val, bswap. destruct byte_order.
  - by rewrite le_bytes_le_val.
  - by apply Z.mod_small, be_val_bound.
Qed.

(** Storing in network order. *)
Lemma host_bytes_ntoh n x : host_bytes n (ntoh n x) = be_bytes n x.
Proof.
  unfold host_bytes, ntoh, bswap, be_bytes. destruct byte_order.
  - unfold be_val. rewrite <- (length_le_bytes n x) at 1. rewrite <- length_rev.
    by rewrite le_bytes_le_val by (by apply bytes_rev, bytes_le_bytes).
  - by rewrite le_bytes_mod.
Qed.

Lemma ntoh_bound n x : 0 <= ntoh n x < 256 ^ Z.of_nat n.
Proof.
  unfold ntoh, bswap. destruct byte_order.
  - pose proof (be_val_bound _ (bytes_le_bytes n x)) as Hb.
    by rewrite length_le_bytes in Hb.
  - apply Z.mod_pos_bound, pow256_pos.
Qed.

Lemma ntoh_involutive n x : 0 <= x < 256 ^ Z.of_nat n -> ntoh n (ntoh n x) = x.
Proof.
  intros Hx. rewrite <- (length_host_bytes n (ntoh n x)) at 1.
  rewrite <- (Z.mod_small (ntoh n x) (256 ^ Z.of_nat n)) by apply ntoh_bound.
  rewrite <- host_val_host_bytes, length_host_bytes.
  rewrite <- (length_host_bytes n (ntoh n x)) at 1.
  rewrite ntoh_host_val by apply bytes_host_bytes.
  rewrite host_bytes_ntoh, be_val_be_bytes. by apply Z.mod_small.
Qed.
End ByteOrderLemmas.

(** ** The byte-swapping macros *)

(** [Z.lor] of parts that do not overlap is a sum. *)
Lemma lor_disjoint_add hi lo k :
  0 <= k -> 0 <= lo < 2 ^ k -> Z.lor (hi * 2 ^ k) lo = hi * 2 ^ k + lo.
Proof.
  intros Hk Hlo. assert (Hland : Z.land (hi * 2 ^ k) lo = 0).
  { rewrite <- Z.shiftl_mul_pow2 by done.
    apply Z.bits_inj'; intros i Hi. rewrite Z.land_spec, Z.bits_0.
    destruct (Z.lt_ge_cases i k); [by rewrite Z.shiftl_spec_low|].
    rewrite (Z.testbit_eqb lo) by done.
    rewrite Z.div_small; [by rewrite andb_false_r|].
    split; [lia|]. eapply Z.lt_le_trans; [apply Hlo|]. apply Z.pow_le_mono_r; lia. }
  symmetry. rewrite <- Z.lxor_lor by done. by apply Z.add_nocarry_lxor.
Qed.

(** A value has [n] bits when the others are clear, which bitwise operations
    preserve. *)
Lemma lt_pow2_bits n x :
  0 <= n -> 0 <= x -> x < 2 ^ n <-> forall i, n <= i -> Z.testbit x i = false.
Proof.
  intros Hn Hx. split.
  - intros Hlt i Hi. destruct (Z.eq_dec x 0) as [->|Hx0]; [apply Z.bits_0|].
    apply Z.bits_above_log2; [done|]. apply Z.log2_lt_pow2; [lia|].
    eapply Z.lt_le_trans; [exact Hlt|]. apply Z.pow_le_mono_r; lia.
  - intros Hb. apply Z.nle_gt. intros Hge. pose proof (Z.pow_pos_nonneg 2 n ltac:(lia) Hn).
    assert (Hl : n <= Z.log2 x) by (rewrite <- (Z.log2_pow2 n) by done; by apply Z.log2_le_mono).
    specialize (Hb _ Hl). rewrite Z.bit_log2 in Hb by lia. done.
Qed.

Lemma land_bound n a b : 0 <= n -> 0 <= a < 2 ^ n -> 0 <= b < 2 ^ n -> 0 <= Z.land a b < 2 ^ n.
Proof.
  intros Hn [Ha Ha'] [Hb Hb']. assert (0 <= Z.land a b) by (apply Z.land_nonneg; lia).
  split; [done|]. apply lt_pow2_bits; [done..|]. intros i Hi. rewrite Z.land_spec.
  by rewrite (proj1 (lt_pow2_bits n a Hn Ha) Ha' i Hi).
Qed.

Lemma lor_bound n a b : 0 <= n -> 0 <= a < 2 ^ n -> 0 <= b < 2 ^ n -> 0 <= Z.lor a b < 2 ^ n.
Proof.
  intros Hn [Ha Ha'] [Hb Hb']. assert (0 <= Z.lor a b) by (by apply Z.lor_nonneg).
  split; [done|]. apply lt_pow2_bits; [done..|]. intros i Hi. rewrite Z.lor_spec.
  by rewrite (proj1 (lt_pow2_bits n a Hn Ha) Ha' i Hi), (proj1 (lt_pow2_bits n b Hn Hb) Hb' i Hi).
Qed.

Lemma lxor_bound n a b : 0 <= n -> 0 <= a < 2 ^ n -> 0 <= b < 2 ^ n -> 0 <= Z.lxor a b < 2 ^ n.
Proof.
  intros Hn [Ha Ha'] [Hb Hb'].
  assert (0 <= Z.lxor a b) by (apply Z.lxor_nonneg; split; done).
  split; [done|]. apply lt_pow2_bits; [done..|]. intros i Hi. rewrite Z.lxor_spec.
  by rewrite (proj1 (lt_pow2_bits n a Hn Ha) Ha' i Hi), (proj1 (lt_pow2_bits n b Hn Hb) Hb' i Hi).
Qed.

(** [___bpf_mvb] moves one byte of an operand that is not promoted. *)
Lemma bpf_mvb_spec x b n m :
  32 <= b -> 0 <= n -> 0 <= m -> (n + 1) * 8 <= b -> (m + 1) * 8 <= b ->
  bpf_mvb x b n m = (x / 2 ^ (8 * n)) mod 256 * 2 ^ (8 * m).
Proof.
  intros Hb Hn Hm Hnb Hmb. unfold bpf_mvb. rewrite Z.max_l by done. cbn zeta.
  rewrite !Z.shiftl_mul_pow2, Z.shiftr_div_pow2 by lia.
  replace (2 ^ b) with (2 ^ ((n + 1) * 8) * 2 ^ (b - (n + 1) * 8)) at 2
    by (rewrite <- Z.pow_add_r by lia; f_equal; lia).
  rewrite Z.mul_mod_distr_r by (apply Z.pow_nonzero; lia).
  replace (2 ^ (b - 8)) with (2 ^ (8 * n) * 2 ^ (b - (n + 1) * 8))
    by (rewrite <- Z.pow_add_r by lia; f_equal; lia).
  rewrite Z.div_mul_cancel_r by (apply Z.pow_nonzero; lia).
  replace (2 ^ b) with (2 ^ ((n + 1) * 8) * 2 ^ (b - (n + 1) * 8)) at 1
    by (rewrite <- Z.pow_add_r by lia; f_equal; lia).
  rewrite Z.rem_mul_r by (apply Z.pow_nonzero + apply Z.pow_pos_nonneg; lia).
  rewrite (Z.mul_comm (2 ^ ((n + 1) * 8)) (_ mod _)), Z.mod_add by (apply Z.pow_nonzero; lia).
  rewrite Z.mod_mod by (apply Z.pow_nonzero; lia).
  replace ((n + 1) * 8) with (8 * n + 8) by lia. rewrite Z.pow_add_r by lia.
  rewrite Z.rem_mul_r by (apply Z.pow_nonzero + apply Z.pow_pos_nonneg; lia).
  rewrite (Z.mul_comm (2 ^ (8 * n))), Z.div_add by (apply Z.pow_nonzero; lia).
  rewrite (Z.div_small (_ mod _)) by (apply Z.mod_pos_bound, Z.pow_pos_nonneg; lia).
  change (2 ^ 8) with 256. rewrite Z.add_0_l, (Z.mul_comm m 8). apply Z.mod_small.
  pose proof (Z.mod_pos_bound (x / 2 ^ (8 * n)) 256 ltac:(lia)).
  pose proof (Z.pow_pos_nonneg 2 (8 * m) ltac:(lia) ltac:(lia)).
  split; [nia|]. apply Z.lt_le_trans with (2 ^ (8 * m + 8)).
  - rewrite Z.pow_add_r by lia. change (2 ^ 8) with 256. nia.
  - apply Z.pow_le_mono_r; lia.
Qed.

Lemma swab_step acc b k k' :
  k' = k + 8 -> 0 <= k -> 0 <= b < 256 ->
  Z.lor (acc * 2 ^ k') (b * 2 ^ k) = (acc * 256 + b) * 2 ^ k.
Proof.
  intros -> Hk Hb. rewrite lor_disjoint_add.
  - rewrite Z.pow_add_r by lia. lia.
  - lia.
  - rewrite Z.pow_add_r by lia. change (2 ^ 8) with 256.
    pose proof (Z.pow_pos_nonneg 2 k ltac:(lia) ltac:(lia)). nia.
Qed.

Lemma byte_range x : 0 <= x mod 256 < 256.
Proof. apply Z.mod_pos_bound. lia. Qed.

Lemma div_byte_shift x n : 0 <= n -> x / 2 ^ (8 * n) / 256 = x / 2 ^ (8 * (n + 1)).
Proof.
  intros Hn. rewrite Z.div_div by (try apply Z.pow_nonzero; lia).
  f_equal. replace (8 * (n + 1)) with (8 * n + 8) by lia. by rewrite Z.pow_add_r by lia.
Qed.

(** The macros written with shifts and masks, which the compiler uses for
    constant operands, and the builtin agree. *)
Ltac solve_swab :=
  unfold bswap, be_val; cbn -[Z.div Z.modulo Z.mul Z.add Z.pow];
  rewrite !bpf_mvb_spec by lia;
  rewrite !swab_step by (lia || apply byte_range);
  rewrite ?Z.div_div by lia;
  repeat match goal with |- context [_ / (?a * ?b)] => let v := eval vm_compute in (a * b) in
                                                       change (a * b) with v end;
  repeat match goal with |- context [2 ^ ?k] => let v := eval vm_compute in (2 ^ k) in
                                               change (2 ^ k) with v end;
  rewrite ?Z.div_1_r, ?Z.mul_1_r;
  repeat match goal with |- context [?x mod 256] =>
    let b := fresh "b" in let H := fresh "Hb" in
    pose proof (byte_range x) as H; set (b := x mod 256) in *; clearbody b end;
  rewrite Z.mod_small by lia; lia.

Lemma bpf_swab16_bswap x : bpf_swab16 x = bswap 2 x.
Proof.
  replace (bswap 2 x) with (bswap 2 (x mod 65536))
    by (unfold bswap; by rewrite (le_bytes_mod 2 x : le_bytes 2 (x mod 65536) = _)).
  unfold bpf_swab16, bpf_mvb, u16. cbn zeta. change (Z.max 16 32) with 32.
  change (2 ^ 16) with 65536.
  pose proof (Z.mod_pos_bound x 65536 ltac:(lia)) as Hw.
  generalize dependent (x mod 65536). intros w Hw.
  rewrite !Z.shiftl_mul_pow2, !Z.shiftr_div_pow2 by lia.
  change (16 - (0 + 1) * 8) with 8. change (16 - (1 + 1) * 8) with 0. change (16 - 8) with 8.
  change (1 * 8) with 8. change (0 * 8) with 0. change (2 ^ 0) with 1. rewrite !Z.mul_1_r.
  rewrite !(Z.mod_small _ (2 ^ 32)), Z.div_mul by (Z.to_euclidean_division_equations; lia).
  rewrite lor_disjoint_add by (Z.to_euclidean_division_equations; lia).
  change (bswap 2 w) with (le_val [(w / 256) mod 256; w mod 256]). cbn [le_val].
  change (2 ^ 8) with 256. Z.to_euclidean_division_equations. lia.
Qed.

Lemma bpf_swab32_bswap x : bpf_swab32 x = bswap 4 x.
Proof. unfold bpf_swab32, u32. solve_swab. Qed.

Lemma bpf_swab64_bswap x : bpf_swab64 x = bswap 8 x.
Proof. unfold bpf_swab64, u64. solve_swab. Qed.
