(* ===== verification/Memory.v ===== *)
(** Byte buffers and the access macros of the generated programs:
    [load_byte], [load_half], [load_word], [load_dword] of
    include/ebpf_kernel.h and [EBPF_MASK], [BYTES], [write_partial],
    [write_byte] of every generated ..._parser.h.

    A buffer is the list of its bytes; an access outside of it is [None],
    so that the absence of such accesses can be stated. *)

From S2P Require Import Prelude CInt.

(** ** Reading *)

(** [n] consecutive bytes from index [i]. *)
Fixpoint load_nat (data : list Z) (i n : nat) : option (list Z) :=
  match n with
  | O => Some []
  | S n => match data !! i, load_nat data (S i) n with
           | Some b, Some bs => Some (b :: bs)
           | _, _ => None
           end
  end.

Definition load (data : list Z) (b : Z) (n : nat) : option (list Z) :=
  if b <? 0 then None else load_nat data (Z.to_nat b) n.

Section Loads.
Context `{ByteOrder}.

(** Without conversion: the object at this address. *)
Definition load_byte (data : list Z) (b : Z) : option Z := host_val <$> load data b 1.
Definition load_half_ne (data : list Z) (b : Z) : option Z := host_val <$> load data b 2.
Definition load_word_ne (data : list Z) (b : Z) : option Z := host_val <$> load data b 4.
Definition load_dword_ne (data : list Z) (b : Z) : option Z := host_val <$> load data b 8.

(** With conversion from network order. *)
Definition load_half (data : list Z) (b : Z) : option Z :=
  bpf_ntohs <$> load_half_ne data b.
Definition load_word (data : list Z) (b : Z) : option Z :=
  bpf_ntohl <$> load_word_ne data b.
Definition load_dword (data : list Z) (b : Z) : option Z :=
  bpf_be64_to_cpu <$> load_dword_ne data b.
End Loads.

(** [EBPF_MASK(t, w)] for the instances of the programs, whose [w] is below
    the width of [int]. *)
Definition EBPF_MASK (w : Z) : Z := Z.shiftl 1 w - 1.

Definition BYTES (w : Z) : Z := w / 8.
Arguments EBPF_MASK : simpl never.
Arguments BYTES : simpl never.

(** ** Writing *)

Definition write_byte (data : list Z) (offset v : Z) : option (list Z) :=
  if (0 <=? offset) && (offset <? Z.of_nat (length data))
  then Some (<[Z.to_nat offset := u8 v]> data) else None.

(** The byte [write_partial] stores over [old]: [w] bits at bit [s]. *)
Definition partial_byte (old w s v : Z) : Z :=
  u8 (Z.lor (Z.land old (Z.lnot (Z.shiftl (EBPF_MASK w) s))) (Z.shiftl v s)).

Definition write_partial (data : list Z) (a w s v : Z) : option (list Z) :=
  if a <? 0 then None else
  match data !! Z.to_nat a with
  | Some old => Some (<[Z.to_nat a := partial_byte old w s v]> data)
  | None => None
  end.

(** ** Reading relative to a prefix of the buffer *)

Lemma load_nat_app a l i n : load_nat (a ++ l) (length a + i) n = load_nat l i n.
Proof.
  revert i; induction n as [|n IH]; intros i; [done|]. cbn [load_nat].
  rewrite lookup_app_r by lia. replace (length a + i - length a)%nat with i by lia.
  rewrite <- (IH (S i)). by rewrite <- Nat.add_succ_r.
Qed.

Lemma load_app a l c n :
  0 <= c -> load (a ++ l) (Z.of_nat (length a) + c) n = load_nat l (Z.to_nat c) n.
Proof.
  intros Hc. unfold load. destruct (Z.ltb_spec (Z.of_nat (length a) + c) 0); [lia|].
  rewrite Z2Nat.inj_add, Nat2Z.id by lia. apply load_nat_app.
Qed.

Lemma load_nat_take l n : (n <= length l)%nat -> load_nat l 0 n = Some (take n l).
Proof.
  revert l; induction n as [|n IH]; intros l Hl; [done|].
  destruct l as [|b l]; [simpl in Hl; lia|]. cbn [load_nat take]. simpl.
  rewrite (load_nat_app [b] l 0 n : load_nat (b :: l) 1 n = _).
  rewrite IH by (simpl in Hl; lia). done.
Qed.

Lemma load_nat_length l i n bs : load_nat l i n = Some bs -> length bs = n.
Proof.
  revert i bs; induction n as [|n IH]; intros i bs Hl; simpl in Hl; [by simplify_eq|].
  repeat case_match; simplify_eq. simpl. f_equal. eauto.
Qed.

Lemma load_nat_bytes l i n bs : bytes l -> load_nat l i n = Some bs -> bytes bs.
Proof.
  intros Hb. revert i bs; induction n as [|n IH]; intros i bs Hl; simpl in Hl;
    [simplify_eq; constructor|].
  repeat case_match; simplify_eq. constructor; [by eapply bytes_lookup|by eapply IH].
Qed.

Lemma BYTES_mul8_add o c : 0 <= c -> BYTES (8 * o + c) = o + c / 8.
Proof. intros Hc. unfold BYTES. rewrite Z.mul_comm, Z.add_comm, Z.div_add by lia. lia. Qed.

Lemma write_byte_app a l c v :
  0 <= c < Z.of_nat (length l) ->
  write_byte (a ++ l) (Z.of_nat (length a) + c) v
  = Some (a ++ <[Z.to_nat c := u8 v]> l).
Proof.
  intros Hc. unfold write_byte. rewrite length_app.
  destruct (Z.leb_spec 0 (Z.of_nat (length a) + c)); [|lia].
  destruct (Z.ltb_spec (Z.of_nat (length a) + c) (Z.of_nat (length a + length l))); [|lia].
  cbn [andb]. f_equal. rewrite Z2Nat.inj_add, Nat2Z.id by lia.
  by rewrite insert_app_r.
Qed.

Lemma write_partial_app a l c w s v old :
  0 <= c -> l !! Z.to_nat c = Some old ->
  write_partial (a ++ l) (Z.of_nat (length a) + c) w s v
  = Some (a ++ <[Z.to_nat c := partial_byte old w s v]> l).
Proof.
  intros Hc Hold. unfold write_partial.
  destruct (Z.ltb_spec (Z.of_nat (length a) + c) 0); [lia|].
  rewrite Z2Nat.inj_add, Nat2Z.id by lia.
  rewrite lookup_app_r by lia. replace (length a + Z.to_nat c - length a)%nat
    with (Z.to_nat c) by lia.
  rewrite Hold. by rewrite insert_app_r.
Qed.
