(* ===== verification/P4Spec.v ===== *)
(** The abstract specification of header extraction and emission.

    A P4 header type is the list of its field widths.  [packet.extract]
    reads the packet bits in network order and cuts them into fields;
    [packet.emit] concatenates the fields.  The generated C code must
    implement exactly this, whatever the byte order of the target. *)

From S2P Require Import Prelude CInt.

Definition widths := list nat.

Definition total (ws : widths) : nat := sum_list ws.

(** The fields of a bit string of [total ws] bits, most significant first. *)
Fixpoint p4_fields (ws : widths) (v : Z) : list Z :=
  match ws with
  | [] => []
  | w :: ws => v / 2 ^ Z.of_nat (total ws) :: p4_fields ws (v mod 2 ^ Z.of_nat (total ws))
  end.

Fixpoint p4_pack (ws : widths) (vs : list Z) : Z :=
  match ws, vs with
  | w :: ws, v :: vs => v * 2 ^ Z.of_nat (total ws) + p4_pack ws vs
  | _, _ => 0
  end.

Definition p4_extract (ws : widths) (bs : list Z) : list Z := p4_fields ws (be_val bs).

Definition p4_emit (ws : widths) (vs : list Z) : list Z :=
  be_bytes (total ws / 8) (p4_pack ws vs).

(** A field value fits its width. *)
Definition fits (w : nat) (v : Z) : Prop := 0 <= v < 2 ^ Z.of_nat w.

(** Field lists whose elements fit by assumption. *)
Ltac solve_fits :=
  repeat (first [assumption | apply List.Forall2_nil | apply List.Forall2_cons]).

(** ** Round trips *)

Lemma pow2_pos n : 0 < 2 ^ Z.of_nat n.
Proof. apply Z.pow_pos_nonneg; lia. Qed.

Lemma total_app ws1 ws2 : total (ws1 ++ ws2) = (total ws1 + total ws2)%nat.
Proof. induction ws1 as [|w ws IH]; [done|]. unfold total in *. simpl. rewrite IH. lia. Qed.

Lemma pow2_total_cons w ws :
  2 ^ Z.of_nat (total (w :: ws)) = 2 ^ Z.of_nat w * 2 ^ Z.of_nat (total ws).
Proof. unfold total. simpl. rewrite Nat2Z.inj_add. by rewrite Z.pow_add_r by lia. Qed.

Lemma pow2_bytes n : 2 ^ Z.of_nat (8 * n) = 256 ^ Z.of_nat n.
Proof. rewrite Nat2Z.inj_mul. by rewrite Z.pow_mul_r by lia. Qed.

Lemma p4_fields_fit ws v :
  0 <= v < 2 ^ Z.of_nat (total ws) -> Forall2 fits ws (p4_fields ws v).
Proof.
  revert v; induction ws as [|w ws IH]; intros v Hv; [constructor|].
  rewrite pow2_total_cons in Hv. cbn [p4_fields].
  pose proof (pow2_pos (total ws)). constructor.
  - unfold fits. split; [apply Z.div_pos; lia|].
    apply Z.div_lt_upper_bound; lia.
  - apply IH, Z.mod_pos_bound. lia.
Qed.

Lemma p4_pack_fields ws v :
  0 <= v < 2 ^ Z.of_nat (total ws) -> p4_pack ws (p4_fields ws v) = v.
Proof.
  revert v; induction ws as [|w ws IH]; intros v Hv; [simpl in *; lia|].
  cbn [p4_fields p4_pack]. pose proof (pow2_pos (total ws)).
  rewrite IH by (apply Z.mod_pos_bound; lia).
  rewrite Z.mul_comm. symmetry. apply Z.div_mod. lia.
Qed.

Lemma p4_pack_bound ws vs :
  Forall2 fits ws vs -> 0 <= p4_pack ws vs < 2 ^ Z.of_nat (total ws).
Proof.
  induction 1 as [|w v ws vs Hv Hvs IH]; [simpl; lia|].
  rewrite pow2_total_cons. cbn [p4_pack]. unfold fits in Hv.
  pose proof (pow2_pos (total ws)). nia.
Qed.

Lemma p4_fields_pack ws vs : Forall2 fits ws vs -> p4_fields ws (p4_pack ws vs) = vs.
Proof.
  induction 1 as [|w v ws vs Hv Hvs IH]; [done|]. cbn [p4_fields p4_pack].
  pose proof (p4_pack_bound _ _ Hvs). pose proof (pow2_pos (total ws)). f_equal.
  - rewrite Z.div_add_l by lia. rewrite Z.div_small by lia. lia.
  - rewrite Z.add_comm, Z.mod_add by lia. by rewrite Z.mod_small by lia.
Qed.

Lemma mul8_div8 n : (n mod 8 = 0)%nat -> (8 * (n / 8) = n)%nat.
Proof. intros Hn. symmetry. by apply Nat.Div0.div_exact. Qed.

Lemma p4_extract_emit ws vs :
  (total ws mod 8 = 0)%nat -> Forall2 fits ws vs -> p4_extract ws (p4_emit ws vs) = vs.
Proof.
  intros Hw Hvs. unfold p4_extract, p4_emit. rewrite be_val_be_bytes.
  rewrite <- pow2_bytes, mul8_div8 by done.
  rewrite Z.mod_small by (by apply p4_pack_bound). by apply p4_fields_pack.
Qed.

Lemma p4_emit_extract ws bs :
  total ws = (8 * length bs)%nat -> bytes bs -> p4_emit ws (p4_extract ws bs) = bs.
Proof.
  intros Hw Hbs. unfold p4_extract, p4_emit.
  rewrite p4_pack_fields by (rewrite Hw, pow2_bytes; by apply be_val_bound).
  rewrite Hw, Nat.mul_comm, Nat.div_mul by lia. by apply be_bytes_be_val.
Qed.

Lemma p4_extract_fit ws bs :
  total ws = (8 * length bs)%nat -> bytes bs -> Forall2 fits ws (p4_extract ws bs).
Proof.
  intros Hw Hbs. apply p4_fields_fit. rewrite Hw, pow2_bytes. by apply be_val_bound.
Qed.

Lemma length_p4_emit ws vs : length (p4_emit ws vs) = (total ws / 8)%nat.
Proof. apply length_be_bytes. Qed.

Lemma bytes_p4_emit ws vs : bytes (p4_emit ws vs).
Proof. apply bytes_rev, bytes_le_bytes. Qed.

(** ** Extraction and emission byte-aligned group by byte-aligned group *)

Lemma le_val_app l1 l2 :
  le_val (l1 ++ l2) = le_val l1 + 256 ^ Z.of_nat (length l1) * le_val l2.
Proof.
  induction l1 as [|b l IH]; [simpl; lia|].
  rewrite length_cons, pow256_S. cbn [app le_val]. rewrite IH. lia.
Qed.

Lemma be_val_app l1 l2 :
  be_val (l1 ++ l2) = be_val l1 * 256 ^ Z.of_nat (length l2) + be_val l2.
Proof. unfold be_val. rewrite rev_app_distr, le_val_app, length_rev. lia. Qed.

Lemma p4_fields_app ws1 ws2 v1 v2 :
  0 <= v1 < 2 ^ Z.of_nat (total ws1) -> 0 <= v2 < 2 ^ Z.of_nat (total ws2) ->
  p4_fields (ws1 ++ ws2) (v1 * 2 ^ Z.of_nat (total ws2) + v2)
  = p4_fields ws1 v1 ++ p4_fields ws2 v2.
Proof.
  intros Hv1 Hv2. revert v1 Hv1; induction ws1 as [|w ws IH]; intros v1 Hv1; cbn [app p4_fields].
  - f_equal. simpl in Hv1. lia.
  - pose proof (pow2_pos (total ws)). pose proof (pow2_pos (total ws2)).
    set (B := 2 ^ Z.of_nat (total ws2)) in *. set (A := 2 ^ Z.of_nat (total ws)) in *.
    assert (HAB : 2 ^ Z.of_nat (total (ws ++ ws2)) = B * A)
      by (rewrite total_app, Nat2Z.inj_add, Z.pow_add_r by lia; apply Z.mul_comm).
    assert (Hdiv : (v1 * B + v2) / B = v1)
      by (rewrite Z.div_add_l, Z.div_small by lia; lia).
    rewrite HAB, <- Z.div_div, Hdiv by lia. f_equal.
    rewrite Z.rem_mul_r, Hdiv by lia.
    rewrite Z.add_comm, (Z.mul_comm v1 B), (Z.add_comm _ v2), (Z.mul_comm B v1), Z.mod_add by lia.
    rewrite (Z.mod_small v2) by lia. rewrite (Z.mul_comm B). apply IH, Z.mod_pos_bound. lia.
Qed.

Lemma p4_pack_app ws1 ws2 vs1 vs2 :
  length ws1 = length vs1 ->
  p4_pack (ws1 ++ ws2) (vs1 ++ vs2)
  = p4_pack ws1 vs1 * 2 ^ Z.of_nat (total ws2) + p4_pack ws2 vs2.
Proof.
  revert vs1; induction ws1 as [|w ws IH]; intros [|v vs] Hl; try done.
  cbn [app p4_pack]. rewrite IH by (simpl in Hl; lia).
  rewrite total_app, Nat2Z.inj_add, Z.pow_add_r by lia. lia.
Qed.

Lemma p4_extract_app ws1 ws2 bs1 bs2 :
  total ws1 = (8 * length bs1)%nat -> total ws2 = (8 * length bs2)%nat ->
  bytes bs1 -> bytes bs2 ->
  p4_extract (ws1 ++ ws2) (bs1 ++ bs2) = p4_extract ws1 bs1 ++ p4_extract ws2 bs2.
Proof.
  intros H1 H2 Hb1 Hb2. unfold p4_extract. rewrite be_val_app, <- pow2_bytes, <- H2.
  apply p4_fields_app; [rewrite H1|rewrite H2]; rewrite pow2_bytes; by apply be_val_bound.
Qed.

Lemma be_bytes_app n1 n2 v1 v2 :
  0 <= v1 < 256 ^ Z.of_nat n1 -> 0 <= v2 < 256 ^ Z.of_nat n2 ->
  be_bytes (n1 + n2) (v1 * 256 ^ Z.of_nat n2 + v2) = be_bytes n1 v1 ++ be_bytes n2 v2.
Proof.
  intros H1 H2.
  rewrite <- (be_bytes_be_val (be_bytes n1 v1 ++ be_bytes n2 v2)).
  - rewrite length_app, !length_be_bytes. f_equal.
    rewrite be_val_app, !be_val_be_bytes, length_be_bytes. by rewrite !Z.mod_small by done.
  - apply bytes_app. split; apply bytes_rev, bytes_le_bytes.
Qed.

Lemma p4_emit_app ws1 ws2 vs1 vs2 :
  (total ws1 mod 8 = 0)%nat -> (total ws2 mod 8 = 0)%nat ->
  Forall2 fits ws1 vs1 -> Forall2 fits ws2 vs2 ->
  p4_emit (ws1 ++ ws2) (vs1 ++ vs2) = p4_emit ws1 vs1 ++ p4_emit ws2 vs2.
Proof.
  intros H1 H2 Hv1 Hv2. unfold p4_emit.
  rewrite p4_pack_app by (by eapply Forall2_length). rewrite total_app.
  pose proof (p4_pack_bound _ _ Hv1) as Hp1. pose proof (p4_pack_bound _ _ Hv2) as Hp2.
  apply mul8_div8 in H1, H2. rewrite <- H1, pow2_bytes in Hp1.
  rewrite <- H2, pow2_bytes in Hp2.
  replace ((total ws1 + total ws2) / 8)%nat with (total ws1 / 8 + total ws2 / 8)%nat.
  - rewrite <- H2 at 2. rewrite pow2_bytes. by apply be_bytes_app.
  - apply (Nat.div_unique _ _ _ 0); lia.
Qed.

(** A field that is a whole number of bytes. *)
Lemma p4_extract_1 w bs : p4_extract [w] bs = [be_val bs].
Proof. unfold p4_extract, total. simpl. by rewrite Z.div_1_r. Qed.

Lemma p4_emit_1 n v : p4_emit [8 * n]%nat [v] = be_bytes n v.
Proof.
  unfold p4_emit. replace (total [8 * n] / 8)%nat with n
    by (apply (Nat.div_unique _ _ _ 0); unfold total; simpl; lia).
  f_equal. simpl. lia.
Qed.

(** Peeling the leading whole-byte field, or a leading group, off a header. *)
Lemma p4_emit_cons n ws v vs :
  (total ws mod 8 = 0)%nat -> fits (8 * n) v -> Forall2 fits ws vs ->
  p4_emit ((8 * n)%nat :: ws) (v :: vs) = be_bytes n v ++ p4_emit ws vs.
Proof.
  intros Hw Hv Hvs.
  rewrite <- p4_emit_1. apply (p4_emit_app [8 * n]%nat ws [v] vs); [|done|by constructor|done].
  unfold total. cbn [sum_list foldr]. rewrite Nat.add_0_r, Nat.mul_comm. apply Nat.Div0.mod_mul.
Qed.

Lemma p4_emit_group2 w1 w2 ws v1 v2 vs :
  ((w1 + w2) mod 8 = 0)%nat -> (total ws mod 8 = 0)%nat ->
  fits w1 v1 -> fits w2 v2 -> Forall2 fits ws vs ->
  p4_emit (w1 :: w2 :: ws) (v1 :: v2 :: vs) = p4_emit [w1; w2] [v1; v2] ++ p4_emit ws vs.
Proof.
  intros H12 Hw H1 H2 Hvs. apply (p4_emit_app [w1; w2] ws [v1; v2] vs); try done.
  - unfold total. cbn [sum_list foldr]. by rewrite Nat.add_0_r.
  - solve_fits.
Qed.

Lemma p4_extract_cons n ws bs1 bs2 :
  length bs1 = n -> total ws = (8 * length bs2)%nat -> bytes bs1 -> bytes bs2 ->
  p4_extract ((8 * n)%nat :: ws) (bs1 ++ bs2) = [be_val bs1] ++ p4_extract ws bs2.
Proof.
  intros <- Hw Hb1 Hb2.
  rewrite <- (p4_extract_1 (8 * length bs1)) at 1.
  apply (p4_extract_app [8 * length bs1]%nat ws bs1 bs2); [|done|done|done].
  unfold total. simpl. lia.
Qed.

(** ** The groups of fields that share bytes in IPv4 *)

Lemma be_val_1 b : be_val [b] = b.
Proof. unfold be_val. simpl. lia. Qed.

Lemma be_val_2 b c : be_val [b; c] = b * 256 + c.
Proof. unfold be_val. simpl. lia. Qed.

Lemma p4_extract_4_4 b : is_byte b -> p4_extract [4; 4]%nat [b] = [b / 16; b mod 16].
Proof.
  intros Hb. unfold p4_extract. rewrite be_val_1.
  change (p4_fields [4; 4]%nat b) with [b / 16; (b mod 16) / 1]. by rewrite Z.div_1_r.
Qed.

Lemma p4_extract_3_13 b c :
  is_byte b -> is_byte c ->
  p4_extract [3; 13]%nat [b; c] = [b / 32; be_val [b; c] mod 8192].
Proof.
  intros Hb Hc. unfold p4_extract. set (v := be_val [b; c]).
  change (p4_fields [3; 13]%nat v) with [v / 8192; (v mod 8192) / 1]. rewrite Z.div_1_r.
  subst v. rewrite be_val_2. f_equal. unfold is_byte in *.
  Z.to_euclidean_division_equations. lia.
Qed.

Lemma p4_emit_4_4 v w :
  0 <= v < 16 -> 0 <= w < 16 -> p4_emit [4; 4]%nat [v; w] = [v * 16 + w].
Proof.
  intros Hv Hw. unfold p4_emit. cbn [p4_pack].
  change (be_bytes (total [4; 4]%nat / 8)) with (be_bytes 1).
  change (2 ^ Z.of_nat (total [4]%nat)) with 16. change (2 ^ Z.of_nat (total [])) with 1.
  unfold be_bytes. cbn [le_bytes rev app]. f_equal. rewrite Z.mod_small; lia.
Qed.

Lemma p4_emit_3_13 v w :
  0 <= v < 8 -> 0 <= w < 2 ^ 13 ->
  p4_emit [3; 13]%nat [v; w] = [v * 32 + w / 256; w mod 256].
Proof.
  intros Hv Hw. change (2 ^ 13) with 8192 in Hw. unfold p4_emit. cbn [p4_pack].
  change (be_bytes (total [3; 13]%nat / 8)) with (be_bytes 2).
  change (2 ^ Z.of_nat (total [13]%nat)) with 8192. change (2 ^ Z.of_nat (total [])) with 1.
  unfold be_bytes. cbn [le_bytes rev app].
  f_equal; [|f_equal]; Z.to_euclidean_division_equations; lia.
Qed.
