(* ===== verification/Pna.v ===== *)
(** The PNA architecture header (include/pna.h), the socket buffer and the
    kernel functions the generated programs call.

    The kernel is a parameter: the class [P4tcKernel] collects the functions
    whose code is not in the repository (table lookup, entry creation,
    [bpf_skb_adjust_room], [bpf_redirect]), and [P4tcKernelOk] the documented
    behaviour that theorems may assume. *)

From S2P Require Import Prelude CInt Memory.

(** ** pna.h: parser errors *)

Definition NoError : Z := 0.
Definition PacketTooShort : Z := 1.
Definition NoMatch : Z := 2.
Definition StackOutOfBounds : Z := 3.
Definition HeaderTooShort : Z := 4.
Definition ParserTimeout : Z := 5.
Definition ParserInvalidArgument : Z := 6.

(** ** linux/pkt_cls.h *)

Definition TC_ACT_OK : Z := 0.
Definition TC_ACT_SHOT : Z := 2.
Definition TC_ACT_PIPE : Z := 3.
Definition BPF_F_INGRESS : Z := 1.
Definition BPF_ADJ_ROOM_MAC : Z := 1.

(** ** pna.h: global metadata *)

Inductive MirrorType := NO_MIRROR | PRE_MODIFY | POST_MODIFY.

(** It lives in the control block [skb->cb] of the packet, so both programs
    of a pipeline and a redirected packet see it. *)
Record pna_global_metadata := {
  recirculated : bool;
  drop_flag : bool;
  egress_port : Z;
  mirror_type : MirrorType;
  mirror_slot_id : Z;
  parser_error : Z;
  mirror_session_id : Z;
  mark : Z;
  pass_to_kernel : bool
}.

Record sk_buff := {
  skb_data : list Z;       (* bytes between data and data_end *)
  skb_data_meta : list Z;  (* bytes between data_meta and data *)
  skb_ifindex : Z;
  skb_cb : pna_global_metadata
}.

(** ** pna.h: parameters and results of the table functions *)

Record p4tc_table_entry_act_bpf_params__local := {
  params_pipeid : Z;
  params_tblid : Z
}.

Record p4tc_table_entry_act_bpf := {
  act_id : Z;
  act_hit : bool;
  act_is_default_miss_act : bool;
  act_is_default_hit_act : bool;
  act_params : list Z        (* u8 params[124] *)
}.

Record p4tc_table_entry_create_bpf_params__local := {
  create_act_bpf_act_id : Z;
  create_profile_id : Z;
  create_pipeid : Z;
  create_tblid : Z;
  create_handle : Z;
  create_classid : Z;
  create_chain : Z;
  create_proto : Z;
  create_prio : Z
}.

(** The global a pipeline is configured with ([struct p4tc_filter_fields] of
    every ..._parser.h). *)
Record p4tc_filter_fields := {
  ff_pipeid : Z;
  ff_handle : Z;
  ff_classid : Z;
  ff_chain : Z;
  ff_blockid : Z;
  ff_proto : Z;
  ff_prio : Z
}.

(** A field of the action parameters, read as the programs do through their
    packed [_value] structs: [n] bytes at offset [off] of the union. *)
Definition act_field `{ByteOrder} (value : p4tc_table_entry_act_bpf) (off n : nat) : option Z :=
  host_val <$> load_nat (act_params value) off n.

(** Key structs are packed, zero-filled and aligned to 8 bytes. *)
Definition pad8 (l : list Z) : list Z :=
  l ++ replicate ((8 - length l mod 8) mod 8)%nat 0.

(** ** The kernel *)

Class P4tcKernel := {
  kstate : Type;
  bpf_p4tc_tbl_read :
    kstate -> sk_buff -> p4tc_table_entry_act_bpf_params__local -> list Z ->
    option p4tc_table_entry_act_bpf;
  bpf_p4tc_entry_create_on_miss :
    kstate -> sk_buff -> p4tc_table_entry_create_bpf_params__local -> list Z ->
    Z * kstate;
  bpf_skb_adjust_room : sk_buff -> Z -> Z -> Z -> Z * sk_buff;
  bpf_redirect : Z -> Z -> Z
}.

(** [struct p4tc_table_entry_act_bpf] has 124 parameter bytes. *)
Definition wf_act (value : p4tc_table_entry_act_bpf) : Prop :=
  length (act_params value) = 124%nat /\ bytes (act_params value).

(** The length of the Ethernet header, where [BPF_ADJ_ROOM_MAC] inserts. *)
Definition ETH_HLEN : nat := 14.

(** The documented behaviour of a successful
    [bpf_skb_adjust_room(skb, len_diff, BPF_ADJ_ROOM_MAC, 0)]: room is added
    or removed between the layer 2 and the layer 3 headers. *)
Definition adjusted (skb skb' : sk_buff) (len_diff : Z) : Prop :=
  exists room,
    bytes room /\
    Z.of_nat (length room) = Z.max 0 len_diff /\
    (ETH_HLEN + Z.to_nat (- len_diff) <= length (skb_data skb))%nat /\
    skb_data skb' = take ETH_HLEN (skb_data skb) ++ room
                    ++ drop (ETH_HLEN + Z.to_nat (- len_diff)) (skb_data skb) /\
    skb_ifindex skb' = skb_ifindex skb /\
    skb_cb skb' = skb_cb skb.

(** Table values are well-formed; lookup and creation depend on the packet
    only through its network namespace, that is, its device. *)
Class P4tcKernelOk (K : P4tcKernel) : Prop := {
  tbl_read_dev : forall k skb skb' params key,
    skb_ifindex skb = skb_ifindex skb' ->
    bpf_p4tc_tbl_read k skb params key = bpf_p4tc_tbl_read k skb' params key;
  entry_create_dev : forall k skb skb' params key,
    skb_ifindex skb = skb_ifindex skb' ->
    bpf_p4tc_entry_create_on_miss k skb params key
    = bpf_p4tc_entry_create_on_miss k skb' params key;
  tbl_read_wf : forall k skb params key value,
    bpf_p4tc_tbl_read k skb params key = Some value -> wf_act value;
  adjust_room_ok : forall skb len_diff skb',
    bpf_skb_adjust_room skb len_diff BPF_ADJ_ROOM_MAC 0 = (0, skb') ->
    adjusted skb skb' len_diff
}.

(** ** pna.h: the static inline externs *)

Definition U32_MAX : Z := u32 (Z.lnot 0).

Section Externs.
Variable bpf_p4tc_ext_hash_crc16 : list Z -> Z -> Z.
Variable bpf_p4tc_ext_hash_crc32 : list Z -> Z -> Z.
Variable bpf_p4tc_ext_hash_16bit_complement : list Z -> Z -> Z.

(** [hash % max] is undefined in C for [max = 0]. *)
Definition bpf_p4tc_ext_hash_base_crc16 (data : list Z) (base max seed : Z) : option Z :=
  let hash := u16 (bpf_p4tc_ext_hash_crc16 data seed) in
  if max =? 0 then None else Some (u16 (u32 (base + hash mod max))).

Definition bpf_p4tc_ext_hash_base_crc32 (data : list Z) (base max seed : Z) : option Z :=
  let hash := u32 (bpf_p4tc_ext_hash_crc32 data seed) in
  if max =? 0 then None else Some (u32 (base + hash mod max)).

Definition bpf_p4tc_ext_hash_base_16bit_complement (data : list Z) (base max seed : Z)
  : option Z :=
  let hash := u16 (bpf_p4tc_ext_hash_16bit_complement data seed) in
  if max =? 0 then None else Some (u16 (u32 (base + hash mod max))).
End Externs.

(** [bpf_get_prandom_u32()] is the argument [rand]. *)
Definition bpf_p4tc_extern_random (rand min max : Z) : Z :=
  if max =? U32_MAX then u32 (min + rand) else u32 (min + rand) mod u32 (max + 1).

(** The macros [send_to_port] and [drop_packet]. *)
Definition send_to_port (x : Z) (m : pna_global_metadata) : pna_global_metadata :=
  { m with egress_port := x }.

Definition drop_packet (m : pna_global_metadata) : pna_global_metadata :=
  { m with drop_flag := true }.

(** ** Properties of the externs *)

Lemma hash_base_crc16_range hash data base max seed r :
  0 <= base -> 0 < max -> base + max <= 2 ^ 16 ->
  bpf_p4tc_ext_hash_base_crc16 hash data base max seed = Some r ->
  base <= r < base + max.
Proof.
  unfold bpf_p4tc_ext_hash_base_crc16, u16, u32. intros Hb Hm Hbm.
  destruct (Z.eqb_spec max 0); [lia|]. intros [= <-].
  pose proof (Z.mod_pos_bound (hash data seed mod 2 ^ 16) max ltac:(lia)).
  rewrite (Z.mod_small _ (2 ^ 32)) by lia. rewrite Z.mod_small by lia. lia.
Qed.

(** C30: the results of [bpf_p4tc_extern_random(min, max)] are the numbers from
    0 to [max], all of them: none is above [max], and those below [min] are
    returned too, for some value of the kernel's generator. *)
Theorem extern_random_range min max v :
  0 <= min < 2 ^ 32 -> 0 <= max < 2 ^ 32 ->
  (exists rand, 0 <= rand < 2 ^ 32 /\ bpf_p4tc_extern_random rand min max = v)
  <-> 0 <= v <= max.
Proof.
  intros Hmin Hmax. unfold bpf_p4tc_extern_random, U32_MAX, u32.
  change (Z.lnot 0 mod 2 ^ 32) with (2 ^ 32 - 1). split.
  - intros (rand & _ & <-). destruct (Z.eqb_spec max (2 ^ 32 - 1)) as [->|Hne].
    + pose proof (Z.mod_pos_bound (min + rand) (2 ^ 32)). lia.
    + rewrite (Z.mod_small (max + 1)) by lia.
      pose proof (Z.mod_pos_bound ((min + rand) mod 2 ^ 32) (max + 1)). lia.
  - intros Hv. exists ((v - min) mod 2 ^ 32). split; [apply Z.mod_pos_bound; lia|].
    rewrite Zplus_mod_idemp_r. replace (min + (v - min)) with v by lia.
    rewrite (Z.mod_small v (2 ^ 32)) by lia. destruct (Z.eqb_spec max (2 ^ 32 - 1)) as [_|Hne]; [done|].
    rewrite (Z.mod_small (max + 1)) by lia. apply Z.mod_small. lia.
Qed.

Lemma extern_random_range_witness :
  (exists rand, 0 <= rand < 2 ^ 32 /\ bpf_p4tc_extern_random rand 5 10 = 0) <-> 0 <= 0 <= 10.
Proof. refine (extern_random_range 5 10 0 _ _); split; reflexivity || discriminate. Defined.
