(* ===== verification/Pipeline.v ===== *)
(** The frame every generated program shares: the cursor of the parser
    ([run_parser] of the ..._parser.c files), the state of [process] and of its
    deparser (files ..._control_blocks.c), and the entry points [tc_parse_func] and
    [tc_ingress_func].

    A program instantiates it with its header struct [H], its metadata struct
    [U], its parser states and its [process] body. *)

From S2P Require Import Prelude CInt Memory Pna.

(** ** State shared by the two programs of a pipeline *)

(** [struct hdr_md], the value of the per-CPU map [hdr_md_cpumap]. *)
Record hdr_md {H U : Type} := mk_hdr_md {
  cpumap_hdr : H;
  cpumap_usermeta : U;
  md_packetOffsetInBits : Z;
  md_hook : Z
}.
Arguments hdr_md : clear implicits.

(** What one packet sees: the socket buffer, the result of looking key 0 up
    in [hdr_md_cpumap] ([None] is NULL), the kernel, and the last
    [bpf_redirect(ifindex, flags)] request. *)
Record world `{P4tcKernel} {H U : Type} := mk_world {
  w_skb : sk_buff;
  w_cpumap : option (hdr_md H U);
  w_kern : kstate;
  w_redirect : option (Z * Z)
}.
Arguments world {_} H U.

(** ** The parser's locals *)

(** The only label a parser jumps out to: [goto reject]. *)
Inductive label := reject.

Record pstate {H : Type} := mk_pstate {
  ps_pkt : list Z;        (* pkt .. ebpf_packetEnd *)
  ps_hdr_start : Z;       (* hdr_start - pkt *)
  ps_offset : Z;          (* ebpf_packetOffsetInBits *)
  ps_error : Z;           (* ebpf_errorCode *)
  ps_hdr : H              (* *hdr *)
}.
Arguments pstate : clear implicits.

Definition P (H A : Type) : Type := M (pstate H) label A.

(** ** The locals of [process] *)

Record xstate `{P4tcKernel} {H U : Type} := mk_xstate {
  x_skb : sk_buff;
  x_hdr : H;
  x_meta : U;
  x_offset : Z;           (* ebpf_packetOffsetInBits *)
  x_kern : kstate
}.
Arguments xstate {_} H U.

(** [process] is left by [return]: the exit carries the returned int. *)
Definition X `{P4tcKernel} (H U A : Type) : Type := M (xstate H U) Z A.

(** ** Statements of the parser *)

Section ParserOps.
Context `{BO : ByteOrder} {H : Type}.

(** [if (ebpf_packetEnd < hdr_start + BYTES(bits + 0)) { ... goto reject; }] *)
Definition require (bits : Z) : P H unit := fun s =>
  if Z.of_nat (length (ps_pkt s)) <? ps_hdr_start s + BYTES (bits + 0)
  then Exit reject { s with ps_error := PacketTooShort }
  else Ret tt s.

(** [load_xxx(pkt, BYTES(ebpf_packetOffsetInBits) + k)] *)
Definition load_byte_at (k : Z) : P H Z := fun s =>
  lift_option (load_byte (ps_pkt s) (BYTES (ps_offset s) + k)) s.
Definition load_half_at (k : Z) : P H Z := fun s =>
  lift_option (load_half (ps_pkt s) (BYTES (ps_offset s) + k)) s.
Definition load_word_at (k : Z) : P H Z := fun s =>
  lift_option (load_word (ps_pkt s) (BYTES (ps_offset s) + k)) s.

(** [__builtin_memcpy(&x, pkt + BYTES(ebpf_packetOffsetInBits), n)] for an
    object [x] of [size] bytes whose value is [old]. *)
Definition memcpy_at (size n : nat) (old : Z) : P H Z := fun s =>
  lift_option ((fun bs => host_val (bs ++ drop n (host_bytes size old)))
                 <$> load (ps_pkt s) (BYTES (ps_offset s)) n) s.

(** [ebpf_packetOffsetInBits += bits] *)
Definition advance (bits : Z) : P H unit := fun s =>
  Ret tt { s with ps_offset := u32 (ps_offset s + bits) }.

(** [hdr_start += BYTES(bits)] *)
Definition hdr_start_advance (bits : Z) : P H unit := fun s =>
  Ret tt { s with ps_hdr_start := ps_hdr_start s + BYTES bits }.

Definition get_hdr : P H H := fun s => Ret (ps_hdr s) s.
Definition set_hdr (h : H) : P H unit := fun s => Ret tt { s with ps_hdr := h }.

Definition accept : P H unit := ret tt.

(** [hdr_start_save = hdr_start; ..._save = ebpf_packetOffsetInBits; m;
    hdr_start = hdr_start_save; ...]: what is read is not consumed. *)
Definition lookahead {A} (m : P H A) : P H A := fun s =>
  match m s with
  | Ret x s' => Ret x { s' with ps_hdr_start := ps_hdr_start s; ps_offset := ps_offset s }
  | Exit e s' => Exit e s'
  | Fault => Fault
  end.
End ParserOps.

(** ** Statements of [process] *)

Section ProcessOps.
Context `{BO : ByteOrder} `{K : P4tcKernel} {H U : Type}.

Definition get_headers : X H U H := fun s => Ret (x_hdr s) s.
Definition set_headers (h : H) : X H U unit := fun s => Ret tt { s with x_hdr := h }.
Definition get_meta : X H U U := fun s => Ret (x_meta s) s.
Definition set_meta (m : U) : X H U unit := fun s => Ret tt { s with x_meta := m }.
Definition get_skb : X H U sk_buff := fun s => Ret (x_skb s) s.

(** An assignment through [compiler_meta__]. *)
Definition compiler_meta (f : pna_global_metadata -> pna_global_metadata) : X H U unit :=
  fun s => Ret tt { s with x_skb -> skb_cb ::= f }.

(** [drop_packet()], and the two statements [send_to_port(x)] compiles to. *)
Definition do_drop_packet : X H U unit := compiler_meta drop_packet.
Definition do_send_to_port (port : Z) : X H U unit :=
  compiler_meta (fun m => { m with drop_flag := false }) ;;
  compiler_meta (send_to_port port).

Definition tbl_read (params : p4tc_table_entry_act_bpf_params__local) (key : list Z)
  : X H U (option p4tc_table_entry_act_bpf) :=
  fun s => Ret (bpf_p4tc_tbl_read (x_kern s) (x_skb s) params key) s.

Definition entry_create_on_miss (params : p4tc_table_entry_create_bpf_params__local)
    (key : list Z) : X H U Z :=
  fun s => let '(r, k) := bpf_p4tc_entry_create_on_miss (x_kern s) (x_skb s) params key in
           Ret r { s with x_kern := k }.

(** A field of the looked-up value's union. *)
Definition value_field (value : p4tc_table_entry_act_bpf) (off n : nat) : X H U Z :=
  lift_option (act_field value off n).

(** [if (compiler_meta__->drop) return TC_ACT_SHOT;] *)
Definition return_if_dropped : X H U unit := fun s =>
  if drop_flag (skb_cb (x_skb s)) then Exit TC_ACT_SHOT s else Ret tt s.

(** The resizing of the packet for the headers to emit. *)
Definition adjust_room (outHeaderOffset : Z) : X H U unit := fun s =>
  if outHeaderOffset =? 0 then Ret tt s else
  let '(returnCode, skb) :=
    bpf_skb_adjust_room (x_skb s) outHeaderOffset BPF_ADJ_ROOM_MAC 0 in
  let s := { s with x_skb := skb } in
  if returnCode =? 0 then Ret tt s else Exit TC_ACT_SHOT s.

Definition reset_offset : X H U unit := fun s => Ret tt { s with x_offset := 0 }.

(** [if (ebpf_packetEnd < pkt + BYTES(ebpf_packetOffsetInBits + bits))
     return TC_ACT_SHOT;] *)
Definition require_out (bits : Z) : X H U unit := fun s =>
  if Z.of_nat (length (skb_data (x_skb s))) <? BYTES (u32 (x_offset s + bits))
  then Exit TC_ACT_SHOT s else Ret tt s.

Definition set_data (data : list Z) (s : xstate H U) : xstate H U :=
  { s with x_skb -> skb_data := data }.

(** [write_byte(pkt, BYTES(ebpf_packetOffsetInBits) + k, v)] *)
Definition write_byte_at (k v : Z) : X H U unit := fun s =>
  match write_byte (skb_data (x_skb s)) (BYTES (x_offset s) + k) v with
  | Some data => Ret tt (set_data data s)
  | None => Fault
  end.

(** [write_partial(pkt + BYTES(ebpf_packetOffsetInBits) + k, w, s, v)] *)
Definition write_partial_at (k w sh v : Z) : X H U unit := fun s =>
  match write_partial (skb_data (x_skb s)) (BYTES (x_offset s) + k) w sh v with
  | Some data => Ret tt (set_data data s)
  | None => Fault
  end.

(** [ebpf_byte = ((char* )(&x))[i]] for an object of [size] bytes. *)
Definition byte_of (size : nat) (x : Z) (i : nat) : Z := nth i (host_bytes size x) 0.

(** [ebpf_byte = ...[i]; write_byte(pkt, BYTES(...) + i, ebpf_byte);] for
    the bytes [i .. i + n - 1] of an object. *)
Fixpoint write_object_from (size : nat) (x : Z) (i n : nat) : X H U unit :=
  match n with
  | O => ret tt
  | S n => write_byte_at (Z.of_nat i) (byte_of size x i) ;;
           write_object_from size x (S i) n
  end.

Definition write_object (size n : nat) (x : Z) : X H U unit :=
  write_object_from size x 0 n.

Definition advance_out (bits : Z) : X H U unit := fun s =>
  Ret tt { s with x_offset := u32 (x_offset s + bits) }.
End ProcessOps.

(** ** Entry points *)

Section Drivers.
Context `{BO : ByteOrder} `{K : P4tcKernel} {H U : Type}.

(** The header and metadata structs after
    [__builtin_memset(hdrMd, 0, sizeof(struct hdr_md))]. *)
Variable (hdr0 : H) (meta0 : U).

(** [run_parser]: the lookup of the per-CPU scratch area, the parser states
    from [start] on, and the labels [reject] and [accept].  [None] is a
    memory access outside of the packet. *)
Definition run_parser_frame (start : P H unit) (w : world H U)
  : option (Z * world H U) :=
  match w_cpumap w with
  | None => Some (TC_ACT_SHOT, w)
  | Some _ =>
    let accept (s : pstate H) (w : world H U) :=
      Some (-1, { w with w_cpumap :=
                    Some (mk_hdr_md H U (ps_hdr s) meta0 (ps_offset s) 0) }) in
    match start (mk_pstate H (skb_data (w_skb w)) 0 0 NoError hdr0) with
    | Ret _ s => accept s w
    | Exit reject s =>
      if ps_error s =? 0
      then Some (TC_ACT_SHOT, { w with w_cpumap :=
                                  Some (mk_hdr_md H U (ps_hdr s) meta0 0 0) })
      else accept s { w with w_skb -> skb_cb -> parser_error := ps_error s }
    | Fault => None
    end
  end.

Definition tc_parse_frame (run_parser : world H U -> option (Z * world H U))
    (w : world H U) : option (Z * world H U) :=
  match run_parser w with
  | Some (r, w) => Some (if r =? -1 then TC_ACT_PIPE else r, w)
  | None => None
  end.

(** [process]: the lookup of the scratch area the parser filled, then the
    body, which gets [hdr_start - pkt]. *)
Definition process_frame (body : Z -> X H U unit) (w : world H U)
  : option (Z * world H U) :=
  match w_cpumap w with
  | None => Some (TC_ACT_SHOT, w)
  | Some md =>
    let leave (r : Z) (s : xstate H U) :=
      Some (r, { w with w_skb := x_skb s; w_kern := x_kern s;
                        w_cpumap := Some { md with cpumap_hdr := x_hdr s;
                                                   cpumap_usermeta := x_meta s } }) in
    match body (BYTES (md_packetOffsetInBits md))
               (mk_xstate _ H U (w_skb w) (cpumap_hdr md) (cpumap_usermeta md)
                          (md_packetOffsetInBits md) (w_kern w)) with
    | Ret _ s => leave (-1) s
    | Exit r s => leave r s
    | Fault => None
    end
  end.

(** [sizeof(struct internal_metadata)] *)
Definition sizeof_internal_metadata : Z := 4.

(** The restoring of the packet's EtherType from the metadata area. *)
Definition restore_ether_type (skb : sk_buff) : option (Z * sk_buff) :=
  if sizeof_internal_metadata <=? Z.of_nat (length (skb_data_meta skb)) then
    if Z.of_nat (length (skb_data skb)) <? 12 + 2 then Some (TC_ACT_SHOT, skb) else
    match load_half_ne (skb_data_meta skb) 0 with
    | None => None
    | Some pkt_ether_type =>
      match write_byte (skb_data skb) 12 (nth 0 (host_bytes 2 pkt_ether_type) 0) with
      | None => None
      | Some data =>
        match write_byte data 13 (nth 1 (host_bytes 2 pkt_ether_type) 0) with
        | None => None
        | Some data => Some (-1, { skb with skb_data := data })
        end
      end
    end
  else Some (-1, skb).

(** [bpf_redirect(ifindex, flags)], whose result is returned. *)
Definition redirect (ifindex flags : Z) (w : world H U) : Z * world H U :=
  (bpf_redirect ifindex flags, { w with w_redirect := Some (ifindex, flags) }).

(** The first block of [tc_ingress_func]: a packet that has not been
    recirculated is marked and gets its EtherType back. *)
Definition enter (w : world H U) : option (Z * world H U) :=
  if recirculated (skb_cb (w_skb w)) then Some (-1, w) else
  let w := { w with w_skb -> skb_cb -> mark := 153 } in
  match restore_ether_type (w_skb w) with
  | Some (r, skb) => Some (r, { w with w_skb := skb })
  | None => None
  end.

(** Its last statements: a packet without a port goes to the kernel's
    receive path of its own device. *)
Definition forward (w : world H U) : Z * world H U :=
  let m := skb_cb (w_skb w) in
  if negb (drop_flag m) && (egress_port m =? 0) then
    let w := { w with w_skb -> skb_cb -> pass_to_kernel := true } in
    redirect (skb_ifindex (w_skb w)) BPF_F_INGRESS w
  else redirect (egress_port m) 0 w.

Definition tc_ingress_frame (process : world H U -> option (Z * world H U))
    (w : world H U) : option (Z * world H U) :=
  if pass_to_kernel (skb_cb (w_skb w)) then Some (TC_ACT_OK, w) else
  match enter w with
  | None => None
  | Some (r, w) =>
    if negb (r =? -1) then Some (r, w) else
    match process w with
    | None => None
    | Some (r, w) => if negb (r =? -1) then Some (r, w) else Some (forward w)
    end
  end.
End Drivers.

(** ** The filter's action list

    The filter that binds a pipeline runs the [p4tc/parse] program and, if
    its verdict is [TC_ACT_PIPE], the [p4tc/main] program. *)
Definition tc_chain {W : Type} (tc_parse_func tc_ingress_func : W -> option (Z * W))
    (w : W) : option (Z * W) :=
  match tc_parse_func w with
  | Some (r, w) => if r =? TC_ACT_PIPE then tc_ingress_func w else Some (r, w)
  | None => None
  end.
