(* ===== verification/Steps.v ===== *)
(** Symbolic execution of the parser's and the deparser's statements.

    The lemmas follow one normal form: the buffer is [a ++ l], where [a] is
    what the cursor has passed, and the bit offset is [8 * length a + c].
    Parsing reads [l]; emission replaces the front of [l] and moves it to
    [a]. *)

From S2P Require Import Prelude CInt Memory Pna P4Spec Pipeline.

(** ** The two cursors *)

(** A parser state whose cursor is [c] bits behind [a]. *)
Definition cursor_in {H} (s : pstate H) (a l : list Z) (c : Z) : pstate H :=
  mk_pstate H (a ++ l) (ps_hdr_start s) (8 * Z.of_nat (length a) + c) (ps_error s) (ps_hdr s).

Definition with_data (skb : sk_buff) (data : list Z) : sk_buff :=
  {| skb_data := data; skb_data_meta := skb_data_meta skb;
     skb_ifindex := skb_ifindex skb; skb_cb := skb_cb skb |}.

Definition cursor_out `{K : P4tcKernel} {H U} (s : xstate H U) (a l : list Z) (c : Z)
  : xstate H U :=
  mk_xstate _ H U (with_data (x_skb s) (a ++ l)) (x_hdr s) (x_meta s)
    (8 * Z.of_nat (length a) + c) (x_kern s).

(** Buffers are far below the 512 MiB at which the bit offset wraps; the
    kernel bounds the linear part of a packet by 64 KiB. *)
Definition small (l : list Z) : Prop := Z.of_nat (length l) < 2 ^ 28.

(** Emission starts at offset 0 and writes a handful of headers. *)
Definition tiny (l : list Z) : Prop := Z.of_nat (length l) < 2 ^ 16.

Ltac solve_small :=
  unfold tiny, small in *;
  rewrite ?length_app, ?length_take, ?length_host_bytes, ?length_be_bytes in *; cbn; lia.

Lemma u32_small x : 0 <= x < 2 ^ 32 -> u32 x = x.
Proof. apply Z.mod_small. Qed.

(** ** Parser statements *)

Section ParserSteps.
Context `{BO : ByteOrder} {H : Type}.
Implicit Types (s : pstate H) (a l : list Z).

Lemma load_at_app {B} (f : list Z -> B) s a l c k n bs :
  0 <= c -> 0 <= k -> load_nat l (Z.to_nat (c / 8 + k)) n = Some bs ->
  lift_option (E:=label) (f <$> load (ps_pkt (cursor_in s a l c))
                         (BYTES (ps_offset (cursor_in s a l c)) + k) n)
    (cursor_in s a l c) = Ret (f bs) (cursor_in s a l c).
Proof.
  intros Hc Hk Hl. unfold cursor_in; cbn. rewrite BYTES_mul8_add by done.
  rewrite <- Z.add_assoc, load_app, Hl by (apply Z.add_nonneg_nonneg; [apply Z.div_pos; lia|done]).
  done.
Qed.

Lemma load_byte_at_app s a l c k b :
  0 <= c -> 0 <= k -> load_nat l (Z.to_nat (c / 8 + k)) 1 = Some [b] ->
  load_byte_at k (cursor_in s a l c) = Ret b (cursor_in s a l c).
Proof.
  intros Hc Hk Hl. unfold load_byte_at, load_byte.
  rewrite (load_at_app _ _ _ _ _ _ _ _ Hc Hk Hl). f_equal.
  unfold host_val, be_val. destruct byte_order; simpl; lia.
Qed.

Lemma load_half_at_app s a l c k b1 b2 :
  0 <= c -> 0 <= k -> load_nat l (Z.to_nat (c / 8 + k)) 2 = Some [b1; b2] ->
  bytes [b1; b2] ->
  load_half_at k (cursor_in s a l c) = Ret (be_val [b1; b2]) (cursor_in s a l c).
Proof.
  intros Hc Hk Hl Hb. unfold load_half_at, load_half, load_half_ne.
  rewrite <- option_fmap_compose, (load_at_app _ _ _ _ _ _ _ _ Hc Hk Hl). f_equal.
  cbn. by apply (ntoh_host_val [b1; b2]).
Qed.

Lemma load_word_at_app s a l c k b1 b2 b3 b4 :
  0 <= c -> 0 <= k -> load_nat l (Z.to_nat (c / 8 + k)) 4 = Some [b1; b2; b3; b4] ->
  bytes [b1; b2; b3; b4] ->
  load_word_at k (cursor_in s a l c) = Ret (be_val [b1; b2; b3; b4]) (cursor_in s a l c).
Proof.
  intros Hc Hk Hl Hb. unfold load_word_at, load_word, load_word_ne.
  rewrite <- option_fmap_compose, (load_at_app _ _ _ _ _ _ _ _ Hc Hk Hl). f_equal.
  cbn. by apply (ntoh_host_val [b1; b2; b3; b4]).
Qed.

Lemma memcpy_at_app s a l c size n old bs :
  0 <= c -> load_nat l (Z.to_nat (c / 8)) n = Some bs ->
  memcpy_at size n old (cursor_in s a l c)
  = Ret (host_val (bs ++ drop n (host_bytes size old))) (cursor_in s a l c).
Proof.
  intros Hc Hl. unfold memcpy_at.
  replace (BYTES (ps_offset (cursor_in s a l c)))
    with (BYTES (ps_offset (cursor_in s a l c)) + 0) by lia.
  rewrite (load_at_app _ _ _ _ _ 0 n bs); [done|done|done|]. by rewrite Z.add_0_r.
Qed.

Lemma advance_app s a l c k c' :
  c + k = c' -> small a -> 0 <= c' < 2 ^ 16 ->
  advance k (cursor_in s a l c) = Ret tt (cursor_in s a l c').
Proof.
  intros <- Ha Hc. unfold advance, cursor_in, small in *; cbn.
  rewrite u32_small by lia. do 2 f_equal. lia.
Qed.

Lemma require_app s a l c n bits :
  ps_hdr_start s = Z.of_nat (length a) -> bits = 8 * Z.of_nat n -> (n <= length l)%nat ->
  require bits (cursor_in s a l c) = Ret tt (cursor_in s a l c).
Proof.
  intros Hs -> Hl. unfold require, cursor_in; cbn. rewrite length_app, Z.add_0_r.
  unfold BYTES. rewrite Z.mul_comm, Z.div_mul by lia. by zcase.
Qed.

Lemma require_short s a l c n bits :
  ps_hdr_start s = Z.of_nat (length a) -> bits = 8 * Z.of_nat n -> (length l < n)%nat ->
  require bits (cursor_in s a l c)
  = Exit reject (cursor_in { s with ps_error := PacketTooShort } a l c).
Proof.
  intros Hs -> Hl. unfold require, cursor_in; cbn. rewrite length_app, Z.add_0_r.
  unfold BYTES. rewrite Z.mul_comm, Z.div_mul by lia. by zcase.
Qed.

Lemma get_hdr_in s a l c :
  get_hdr (cursor_in s a l c) = Ret (ps_hdr s) (cursor_in s a l c).
Proof. reflexivity. Qed.

Lemma set_hdr_in h s a l c :
  set_hdr h (cursor_in s a l c) = Ret tt (cursor_in { s with ps_hdr := h } a l c).
Proof. reflexivity. Qed.

Lemma hdr_start_advance_in k s a l c :
  hdr_start_advance k (cursor_in s a l c)
  = Ret tt (cursor_in { s with ps_hdr_start := ps_hdr_start s + BYTES k } a l c).
Proof. reflexivity. Qed.

(** Moving the bytes that were consumed to the passed part. *)
Lemma cursor_in_shift s a b l n c :
  c = 8 * Z.of_nat n -> length b = n ->
  cursor_in s a (b ++ l) c = cursor_in s (a ++ b) l 0.
Proof.
  intros -> Hb. unfold cursor_in. rewrite app_assoc, length_app, Hb.
  destruct s; cbn. f_equal. lia.
Qed.
End ParserSteps.

(** ** Header boundaries

    Between two headers [hdr_start] and the offset agree: the parser is at
    the boundary behind [a], with [l] still to come. *)
Definition boundary {H} (err : Z) (h : H) (a l : list Z) : pstate H :=
  cursor_in (mk_pstate H [] (Z.of_nat (length a)) 0 err h) a l 0.

Section Boundary.
Context {H : Type}.
Implicit Types (h : H) (a l : list Z).

Lemma boundary_initial h data : mk_pstate H data 0 0 NoError h = boundary NoError h [] data.
Proof. reflexivity. Qed.

Lemma boundary_offset err h a l :
  ps_offset (boundary err h a l) = 8 * Z.of_nat (length a).
Proof. unfold boundary, cursor_in. cbn. lia. Qed.

Lemma boundary_require err h a l n bits :
  bits = 8 * Z.of_nat n -> (n <= length l)%nat ->
  require bits (boundary err h a l) = Ret tt (boundary err h a l).
Proof. intros Hb Hl. exact (require_app (mk_pstate H [] _ 0 err h) a l 0 n bits eq_refl Hb Hl). Qed.

Lemma boundary_short err h a l n bits :
  bits = 8 * Z.of_nat n -> (length l < n)%nat ->
  require bits (boundary err h a l) = Exit reject (boundary PacketTooShort h a l).
Proof.
  intros Hb Hl.
  exact (require_short (mk_pstate H [] _ 0 err h) a l 0 n bits eq_refl Hb Hl).
Qed.

Lemma get_hdr_boundary err h a l :
  get_hdr (boundary err h a l) = Ret h (boundary err h a l).
Proof. reflexivity. Qed.

Lemma set_hdr_boundary err h h' a l :
  set_hdr h' (boundary err h a l) = Ret tt (boundary err h' a l).
Proof. reflexivity. Qed.

(** The statement that ends an extraction. *)
Lemma boundary_next {A} err h a b l n bits (x : A) :
  bits = 8 * Z.of_nat n -> length b = n ->
  (hdr_start_advance bits ;; ret x)
    (cursor_in (mk_pstate H [] (Z.of_nat (length a)) 0 err h) a (b ++ l) bits)
  = Ret x (boundary err h (a ++ b) l).
Proof.
  intros Hb Hl. rewrite (bind_Ret _ _ _ _ _ (hdr_start_advance_in _ _ _ _ _)).
  unfold ret, boundary. rewrite (cursor_in_shift _ a b l n bits Hb Hl).
  cbn. do 3 f_equal. rewrite length_app, Hb. unfold BYTES.
  rewrite (Z.mul_comm 8), Z.div_mul by lia. lia.
Qed.
End Boundary.

(** One statement of a parser body. *)
Ltac pstep :=
  lazymatch goal with
  | |- bind get_hdr _ _ = _ => rewrite (bind_Ret _ _ _ _ _ (get_hdr_in _ _ _ _))
  | |- bind (set_hdr _) _ _ = _ => rewrite (bind_Ret _ _ _ _ _ (set_hdr_in _ _ _ _ _))
  | |- bind (load_byte_at _) _ _ = _ =>
      erewrite bind_Ret by (apply load_byte_at_app; [lia|lia|reflexivity])
  | |- bind (load_half_at _) _ _ = _ =>
      erewrite bind_Ret by (apply load_half_at_app; [lia|lia|reflexivity|solve_bytes])
  | |- bind (load_word_at _) _ _ = _ =>
      erewrite bind_Ret by (apply load_word_at_app; [lia|lia|reflexivity|solve_bytes])
  | |- bind (memcpy_at _ _ _) _ _ = _ =>
      erewrite bind_Ret by (apply memcpy_at_app; [lia|reflexivity])
  | |- bind (advance ?k) _ (cursor_in ?s ?a ?l ?c) = _ =>
      let c' := eval vm_compute in (c + k) in
      rewrite (bind_Ret _ _ _ _ _ (advance_app s a l c k c' eq_refl ltac:(assumption) ltac:(lia)))
  | |- hdr_start_advance _ _ = _ => rewrite hdr_start_advance_in
  end; cbv beta.

(** ** Deparser statements *)

Section DeparserSteps.
Context `{BO : ByteOrder} `{K : P4tcKernel} {H U : Type}.
Implicit Types (s : xstate H U) (a l : list Z).

Lemma require_out_app s a l n bits :
  bits = 8 * Z.of_nat n -> small a -> Z.of_nat n < 2 ^ 16 -> (n <= length l)%nat ->
  require_out bits (cursor_out s a l 0) = Ret tt (cursor_out s a l 0).
Proof.
  intros -> Ha Hn Hl. unfold require_out, cursor_out, small in *; cbn.
  rewrite length_app, u32_small by lia. unfold BYTES.
  replace (8 * Z.of_nat (length a) + 0 + 8 * Z.of_nat n)
    with ((Z.of_nat (length a) + Z.of_nat n) * 8) by lia.
  rewrite Z.div_mul by lia.
  by zcase.
Qed.

Lemma require_out_short s a l n bits :
  bits = 8 * Z.of_nat n -> small a -> Z.of_nat n < 2 ^ 16 -> (length l < n)%nat ->
  require_out bits (cursor_out s a l 0) = Exit TC_ACT_SHOT (cursor_out s a l 0).
Proof.
  intros -> Ha Hn Hl. unfold require_out, cursor_out, small in *; cbn.
  rewrite length_app, u32_small by lia. unfold BYTES.
  replace (8 * Z.of_nat (length a) + 0 + 8 * Z.of_nat n)
    with ((Z.of_nat (length a) + Z.of_nat n) * 8) by lia.
  rewrite Z.div_mul by lia.
  by zcase.
Qed.

Lemma get_headers_out s a l c :
  get_headers (cursor_out s a l c) = Ret (x_hdr s) (cursor_out s a l c).
Proof. reflexivity. Qed.

Lemma set_headers_out h s a l c :
  set_headers h (cursor_out s a l c) = Ret tt (cursor_out { s with x_hdr := h } a l c).
Proof. reflexivity. Qed.

Lemma advance_out_app s a l c k c' :
  c + k = c' -> small a -> 0 <= c' < 2 ^ 16 ->
  advance_out k (cursor_out s a l c) = Ret tt (cursor_out s a l c').
Proof.
  intros <- Ha Hc. unfold advance_out, cursor_out, small in *; cbn.
  rewrite u32_small by lia. do 2 f_equal. lia.
Qed.

Lemma write_byte_at_app s a l c k v :
  0 <= c -> 0 <= k -> c / 8 + k < Z.of_nat (length l) ->
  write_byte_at k v (cursor_out s a l c)
  = Ret tt (cursor_out s a (<[Z.to_nat (c / 8 + k) := u8 v]> l) c).
Proof.
  intros Hc Hk Hl. unfold write_byte_at, cursor_out; cbn.
  rewrite BYTES_mul8_add, <- Z.add_assoc by done.
  rewrite write_byte_app by (split; [apply Z.add_nonneg_nonneg; [apply Z.div_pos; lia|done]|done]).
  done.
Qed.

Lemma write_partial_at_app s a l c k w sh v old :
  0 <= c -> 0 <= k -> l !! Z.to_nat (c / 8 + k) = Some old ->
  write_partial_at k w sh v (cursor_out s a l c)
  = Ret tt (cursor_out s a (<[Z.to_nat (c / 8 + k) := partial_byte old w sh v]> l) c).
Proof.
  intros Hc Hk Hl. unfold write_partial_at, cursor_out; cbn.
  rewrite BYTES_mul8_add, <- Z.add_assoc by done.
  erewrite write_partial_app; [done| |done].
  apply Z.add_nonneg_nonneg; [apply Z.div_pos; lia|done].
Qed.

Lemma cursor_out_shift s a b l n c :
  c = 8 * Z.of_nat n -> length b = n ->
  cursor_out s a (b ++ l) c = cursor_out s (a ++ b) l 0.
Proof.
  intros -> Hb. unfold cursor_out. rewrite app_assoc, length_app, Hb.
  destruct s; cbn. f_equal. lia.
Qed.

Lemma cursor_out_shift1 s a x l : cursor_out s a (x :: l) 8 = cursor_out s (a ++ [x]) l 0.
Proof. by apply (cursor_out_shift s a [x] l 1). Qed.

Lemma cursor_out_shift2 s a x y l :
  cursor_out s a (x :: y :: l) 16 = cursor_out s (a ++ [x; y]) l 0.
Proof. by apply (cursor_out_shift s a [x; y] l 2). Qed.

Lemma byte_of_u8 size x i : u8 (byte_of size x i) = byte_of size x i.
Proof.
  unfold byte_of, u8. apply Z.mod_small.
  destruct (nth_in_or_default i (host_bytes size x) 0) as [Hin| ->]; [|lia].
  pose proof (bytes_host_bytes size x) as Hb. unfold bytes in Hb.
  rewrite List.Forall_forall in Hb. apply (Hb _ Hin).
Qed.

Lemma write_object_from_app size x i n s a done old l :
  (i + n <= size)%nat -> length done = i -> length old = n ->
  write_object_from size x i n (cursor_out s a (done ++ old ++ l) 0)
  = Ret tt (cursor_out s a (done ++ take n (drop i (host_bytes size x)) ++ l) 0).
Proof.
  revert i done old; induction n as [|n IH]; intros i dn old Hi Hd Ho.
  - apply nil_length_inv in Ho. by subst old.
  - destruct old as [|b old]; [done|]. cbn [write_object_from].
    rewrite (bind_Ret _ _ _ tt _
      (write_byte_at_app s a (dn ++ (b :: old) ++ l) 0 (Z.of_nat i) _
         ltac:(lia) ltac:(lia) ltac:(rewrite !length_app; change (0 / 8) with 0; cbn; lia))).
    rewrite Z.div_0_l, Z.add_0_l, Nat2Z.id, byte_of_u8 by lia.
    rewrite insert_app_r_alt by lia. replace (i - length dn)%nat with 0%nat by lia.
    cbn [app]. change (<[0%nat := ?v]> (?x :: ?y)) with (v :: y).
    rewrite cons_middle, app_assoc.
    rewrite (IH (S i) (dn ++ [byte_of size x i]) old)
      by (rewrite ?length_app; simpl in *; lia).
    do 2 f_equal. rewrite <- app_assoc. cbn [app]. f_equal.
    rewrite (drop_S (host_bytes size x) (byte_of size x i) i); [done|].
    unfold byte_of. rewrite nth_lookup.
    destruct (host_bytes size x !! i) eqn:E; [done|].
    apply lookup_ge_None_1 in E. rewrite length_host_bytes in E. lia.
Qed.
End DeparserSteps.

(** ** Emitting whole fields *)

Section EmitFields.
Context `{BO : ByteOrder} `{K : P4tcKernel} {H U : Type}.
Implicit Types (s : xstate H U) (a l : list Z).

(** The first [n] bytes of an object of [size] bytes are stored and the
    cursor passes them. *)
Lemma emit_object {A} size n x s a l (k : unit -> X H U A) bits :
  bits = 8 * Z.of_nat n -> (n <= size)%nat -> (n <= length l)%nat -> small a ->
  Z.of_nat n < 2 ^ 12 ->
  bind (write_object size n x) (fun _ => bind (advance_out bits) k) (cursor_out s a l 0)
  = k tt (cursor_out s (a ++ take n (host_bytes size x)) (drop n l) 0).
Proof.
  intros -> Hsz Hl Ha Hn. unfold write_object.
  rewrite <- (take_drop n l) at 1.
  rewrite (bind_Ret _ _ _ tt _
    (write_object_from_app size x 0 n s a [] (take n l) (drop n l)
       ltac:(lia) eq_refl ltac:(rewrite length_take; lia))).
  rewrite drop_0. cbn [app].
  rewrite (bind_Ret _ _ _ tt _
    (advance_out_app s a _ 0 (8 * Z.of_nat n) (8 * Z.of_nat n) eq_refl Ha ltac:(lia))).
  erewrite cursor_out_shift; [done|done|].
  rewrite length_take, length_host_bytes. lia.
Qed.

Lemma take_host_bytes n x : take n (host_bytes n x) = host_bytes n x.
Proof. apply take_ge. by rewrite length_host_bytes. Qed.

Lemma host_bytes_1 x : host_bytes 1 x = be_bytes 1 x.
Proof. unfold host_bytes. by destruct byte_order. Qed.

Lemma byte_of_1 x : is_byte x -> byte_of 1 x 0 = x.
Proof.
  intros Hx. unfold byte_of. rewrite host_bytes_1. unfold be_bytes. simpl.
  by apply Z.mod_small.
Qed.

Lemma byte_of_ntoh n x i : byte_of n (ntoh n x) i = nth i (be_bytes n x) 0.
Proof. unfold byte_of. by rewrite host_bytes_ntoh. Qed.
End EmitFields.

(** ** Bit fields that share a byte *)

(** A boolean property of bytes is decided by trying all of them. *)
Definition all_bytes : list Z := map Z.of_nat (seq 0 256).

Lemma byte_in_all_bytes b : is_byte b -> In b all_bytes.
Proof.
  intros Hb. unfold all_bytes. apply in_map_iff. exists (Z.to_nat b).
  unfold is_byte in Hb. split; [lia|]. apply in_seq. lia.
Qed.

Lemma byte_check (f : Z -> bool) b : forallb f all_bytes = true -> is_byte b -> f b = true.
Proof. intros Hf Hb. rewrite forallb_forall in Hf. by apply Hf, byte_in_all_bytes. Qed.

Lemma byte_check2 (f : Z -> Z -> bool) b c :
  forallb (fun x => forallb (f x) all_bytes) all_bytes = true ->
  is_byte b -> is_byte c -> f b c = true.
Proof.
  intros Hf Hb Hc. apply (byte_check (f b)); [|done].
  by apply (byte_check (fun x => forallb (f x) all_bytes)).
Qed.

Definition check_partial_high (w sh : Z) : bool :=
  forallb (fun old => forallb (fun v =>
    partial_byte old w sh v =? (v * 2 ^ sh) mod 256 + old mod 2 ^ sh) all_bytes) all_bytes.

Definition check_partial_low (w : Z) : bool :=
  forallb (fun old => forallb (fun v =>
    (2 ^ w <=? v) || (partial_byte old w 0 v =? old / 2 ^ w * 2 ^ w + v)) all_bytes) all_bytes.

(** A field at the top of its byte: higher bits of the value are cut off. *)
Lemma partial_byte_high w sh old v :
  check_partial_high w sh = true -> is_byte old -> is_byte v ->
  partial_byte old w sh v = (v * 2 ^ sh) mod 256 + old mod 2 ^ sh.
Proof.
  intros Hc Ho Hv. apply Z.eqb_eq.
  by apply (byte_check2 (fun old v =>
    partial_byte old w sh v =? (v * 2 ^ sh) mod 256 + old mod 2 ^ sh)).
Qed.

(** A field at the bottom of its byte: the value has to fit. *)
Lemma partial_byte_low w old v :
  check_partial_low w = true -> is_byte old -> is_byte v -> v < 2 ^ w ->
  partial_byte old w 0 v = old / 2 ^ w * 2 ^ w + v.
Proof.
  intros Hc Ho Hv Hlt. apply Z.eqb_eq.
  pose proof (byte_check2 (fun old v =>
    (2 ^ w <=? v) || (partial_byte old w 0 v =? old / 2 ^ w * 2 ^ w + v)) old v Hc Ho Hv) as Hb.
  apply orb_prop in Hb. destruct Hb as [Hb|Hb]; [|done]. apply Z.leb_le in Hb. lia.
Qed.

Lemma partial_4_4 old v : is_byte old -> is_byte v ->
  partial_byte old 4 4 v = (v * 16) mod 256 + old mod 16.
Proof. apply (partial_byte_high 4 4). vm_compute. reflexivity. Qed.

Lemma partial_3_5 old v : is_byte old -> is_byte v ->
  partial_byte old 3 5 v = (v * 32) mod 256 + old mod 32.
Proof. apply (partial_byte_high 3 5). vm_compute. reflexivity. Qed.

Lemma partial_4_0 old v : is_byte old -> 0 <= v < 16 ->
  partial_byte old 4 0 v = old / 16 * 16 + v.
Proof.
  intros Ho Hv. apply (partial_byte_low 4); [vm_compute; reflexivity|done| |lia].
  unfold is_byte. lia.
Qed.

Lemma partial_5_0 old v : is_byte old -> 0 <= v < 32 ->
  partial_byte old 5 0 v = old / 32 * 32 + v.
Proof.
  intros Ho Hv. apply (partial_byte_low 5); [vm_compute; reflexivity|done| |lia].
  unfold is_byte. lia.
Qed.

Section EmitBitFields.
Context `{BO : ByteOrder} `{K : P4tcKernel} {H U : Type}.
Implicit Types (s : xstate H U) (a l : list Z).

(** Two 4-bit fields. *)
Lemma emit_nibbles {A} v w s a old l (k : unit -> X H U A) :
  is_byte old -> 0 <= v < 16 -> 0 <= w < 16 -> small a ->
  bind (write_partial_at 0 4 4 (Z.shiftr (byte_of 1 v 0) 0)) (fun _ =>
  bind (advance_out 4) (fun _ =>
  bind (write_partial_at 0 4 0 (Z.shiftr (byte_of 1 w 0) 0)) (fun _ =>
  bind (advance_out 4) k))) (cursor_out s a (old :: l) 0)
  = k tt (cursor_out s (a ++ [v * 16 + w]) l 0).
Proof.
  intros Ho Hv Hw Ha. rewrite !byte_of_1 by (unfold is_byte; lia). rewrite !Z.shiftr_0_r.
  erewrite bind_Ret by (eapply write_partial_at_app; [lia|lia|reflexivity]).
  erewrite bind_Ret by (apply (advance_out_app _ _ _ _ _ 4); [reflexivity|done|lia]).
  cbn [Z.to_nat Z.add Z.div]. change (Z.to_nat (0 / 8 + 0)) with 0%nat.
  change (<[0%nat := ?x]> (_ :: ?y)) with (x :: y).
  erewrite bind_Ret by (eapply write_partial_at_app; [lia|lia|reflexivity]).
  erewrite bind_Ret by (apply (advance_out_app _ _ _ _ _ 8); [reflexivity|done|lia]).
  change (Z.to_nat (4 / 8 + 0)) with 0%nat. change (<[0%nat := ?x]> (_ :: ?y)) with (x :: y).
  rewrite partial_4_4 by (unfold is_byte in *; lia).
  rewrite (Z.mod_small (v * 16)) by lia.
  pose proof (Z.mod_pos_bound old 16 ltac:(lia)).
  rewrite partial_4_0 by (unfold is_byte; lia).
  rewrite Z.div_add_l, (Z.div_small (old mod 16)), Z.add_0_r by lia.
  by rewrite cursor_out_shift1.
Qed.

(** A 3-bit and a 13-bit field. *)
Lemma emit_flags_fragOffset {A} v w s a old0 old1 l (k : unit -> X H U A) :
  is_byte old0 -> is_byte old1 -> 0 <= v < 8 -> 0 <= w < 2 ^ 13 -> small a ->
  bind (write_partial_at 0 3 5 (Z.shiftr (byte_of 1 v 0) 0)) (fun _ =>
  bind (advance_out 3) (fun _ =>
  bind (write_partial_at 0 5 0 (Z.shiftr (byte_of 2 (bpf_htons (Z.shiftl w 3)) 0) 3)) (fun _ =>
  bind (write_partial_at 1 3 5 (byte_of 2 (bpf_htons (Z.shiftl w 3)) 0)) (fun _ =>
  bind (write_partial_at 1 5 0 (Z.shiftr (byte_of 2 (bpf_htons (Z.shiftl w 3)) 1) 3)) (fun _ =>
  bind (advance_out 13) k))))) (cursor_out s a (old0 :: old1 :: l) 0)
  = k tt (cursor_out s (a ++ [v * 32 + w / 256; w mod 256]) l 0).
Proof.
  intros Ho0 Ho1 Hv Hw Ha. unfold bpf_htons. rewrite !byte_of_ntoh.
  rewrite byte_of_1 by (unfold is_byte; lia). rewrite Z.shiftr_0_r.
  unfold be_bytes. cbn [rev app le_bytes nth].
  rewrite Z.shiftl_mul_pow2, !Z.shiftr_div_pow2 by lia.
  change (2 ^ 3) with 8. change (2 ^ 13) with 8192 in Hw.
  set (b0 := (w * 8 / 256) mod 256). set (b1 := (w * 8) mod 256).
  assert (Hb0 : b0 = w / 32) by (subst b0; Z.to_euclidean_division_equations; lia).
  assert (Hb1 : b1 / 8 = w mod 32) by (subst b1; Z.to_euclidean_division_equations; lia).
  pose proof (Z.mod_pos_bound w 32 ltac:(lia)).
  assert (0 <= w / 32 < 256) by (Z.to_euclidean_division_equations; lia).
  assert (0 <= w / 256 < 32) by (Z.to_euclidean_division_equations; lia).
  rewrite Hb0, Hb1. clearbody b0 b1.
  erewrite bind_Ret by (eapply write_partial_at_app; [lia|lia|reflexivity]).
  erewrite bind_Ret by (apply (advance_out_app _ _ _ _ _ 3); [reflexivity|done|lia]).
  change (Z.to_nat (0 / 8 + 0)) with 0%nat. change (<[0%nat := ?x]> (_ :: ?y)) with (x :: y).
  erewrite bind_Ret by (eapply write_partial_at_app; [lia|lia|reflexivity]).
  change (Z.to_nat (3 / 8 + 0)) with 0%nat. change (<[0%nat := ?x]> (_ :: ?y)) with (x :: y).
  erewrite bind_Ret by (eapply write_partial_at_app; [lia|lia|reflexivity]).
  change (Z.to_nat (3 / 8 + 1)) with 1%nat.
  change (<[1%nat := ?x]> (?z :: _ :: ?y)) with (z :: x :: y).
  erewrite bind_Ret by (eapply write_partial_at_app; [lia|lia|reflexivity]).
  erewrite bind_Ret by (apply (advance_out_app _ _ _ _ _ 16); [reflexivity|done|lia]).
  change (Z.to_nat (3 / 8 + 1)) with 1%nat.
  change (<[1%nat := ?x]> (?z :: _ :: ?y)) with (z :: x :: y).
  rewrite cursor_out_shift2. do 3 f_equal.
  pose proof (Z.mod_pos_bound old0 32 ltac:(lia)).
  pose proof (Z.mod_pos_bound old1 32 ltac:(lia)).
  pose proof (Z.mod_pos_bound (w / 32 * 32) 256 ltac:(lia)).
  assert (Hm : (w / 32 * 32) mod 256 mod 32 = 0)
    by (Z.to_euclidean_division_equations; lia).
  f_equal; [|f_equal].
  - rewrite partial_3_5 by (unfold is_byte in *; lia).
    rewrite (Z.mod_small (v * 32)) by lia.
    replace (w / 32 / 8) with (w / 256) by (by rewrite Z.div_div by lia).
    rewrite partial_5_0 by (unfold is_byte; lia).
    rewrite Z.div_add_l, (Z.div_small (old0 mod 32)) by lia. lia.
  - rewrite partial_3_5 by (unfold is_byte in *; lia).
    rewrite partial_5_0 by (unfold is_byte in *; try lia; Z.to_euclidean_division_equations; lia).
    Z.to_euclidean_division_equations; lia.
Qed.
End EmitBitFields.
