(* ===== verification/Headers.v ===== *)
(** The header types the programs share: [ethernet_t], [ipv4_t] and the
    port headers [tcp_t] and [udp_t], with the code that extracts them from
    the packet (..._parser.c) and the code that emits them
    (..._control_blocks.c).

    The compiler inlines this code at every use; the definitions take the
    struct that is filled or emitted and return it, the caller stores it in
    the program's [headers_t]. *)

From S2P Require Import Prelude CInt Memory Pna P4Spec Pipeline Steps.

(** ** Structs (..._parser.h) *)

(** The MAC addresses occupy the first 6 bytes of 64-bit objects, in network
    order. *)
Record ethernet_t := {
  eth_dstAddr : Z;      (* u64 *)
  eth_srcAddr : Z;      (* u64 *)
  eth_etherType : Z;    (* u16 *)
  eth_valid : Z         (* u8 ebpf_valid *)
}.

(** The addresses are kept in network order, the other fields in host order. *)
Record ipv4_t := {
  ip_version : Z;        (* u8 *)
  ip_ihl : Z;            (* u8 *)
  ip_diffserv : Z;       (* u8 *)
  ip_totalLen : Z;       (* u16 *)
  ip_identification : Z; (* u16 *)
  ip_flags : Z;          (* u8 *)
  ip_fragOffset : Z;     (* u16 *)
  ip_ttl : Z;            (* u8 *)
  ip_protocol : Z;       (* u8 *)
  ip_hdrChecksum : Z;    (* u16 *)
  ip_srcAddr : Z;        (* u32 *)
  ip_dstAddr : Z;        (* u32 *)
  ip_valid : Z           (* u8 ebpf_valid *)
}.

(** [tcp_t] and [udp_t] of the flow trackers: only the ports are extracted. *)
Record ports_t := {
  srcPort : Z;           (* u16 *)
  dstPort : Z;           (* u16 *)
  ports_valid : Z        (* u8 ebpf_valid *)
}.

(** After [__builtin_memset(hdrMd, 0, ...)]. *)
Definition ethernet0 : ethernet_t := Build_ethernet_t 0 0 0 0.
Definition ipv4_0 : ipv4_t := Build_ipv4_t 0 0 0 0 0 0 0 0 0 0 0 0 0.
Definition ports0 : ports_t := Build_ports_t 0 0 0.

(** [hdr->x.isValid()] compiles to a test of the byte. *)
Definition is_valid (v : Z) : bool := negb (v =? 0).

(** ** Extraction *)

Section Extract.
Context `{BO : ByteOrder} {H : Type}.

Definition extract_ethernet (eth : ethernet_t) : P H ethernet_t :=
  require 112 ;;
  dst <- memcpy_at 8 6 (eth_dstAddr eth) ;;
  advance 48 ;;
  src <- memcpy_at 8 6 (eth_srcAddr eth) ;;
  advance 48 ;;
  etherType <- load_half_at 0 ;;
  advance 16 ;;
  hdr_start_advance 112 ;;
  ret {| eth_dstAddr := dst; eth_srcAddr := src;
         eth_etherType := u16 etherType; eth_valid := 1 |}.

Definition extract_ipv4 (ip : ipv4_t) : P H ipv4_t :=
  require 160 ;;
  version <- load_byte_at 0 ;;
  advance 4 ;;
  ihl <- load_byte_at 0 ;;
  advance 4 ;;
  diffserv <- load_byte_at 0 ;;
  advance 8 ;;
  totalLen <- load_half_at 0 ;;
  advance 16 ;;
  identification <- load_half_at 0 ;;
  advance 16 ;;
  flags <- load_byte_at 0 ;;
  advance 3 ;;
  fragOffset <- load_half_at 0 ;;
  advance 13 ;;
  ttl <- load_byte_at 0 ;;
  advance 8 ;;
  protocol <- load_byte_at 0 ;;
  advance 8 ;;
  hdrChecksum <- load_half_at 0 ;;
  advance 16 ;;
  srcAddr <- memcpy_at 4 4 (ip_srcAddr ip) ;;
  advance 32 ;;
  dstAddr <- memcpy_at 4 4 (ip_dstAddr ip) ;;
  advance 32 ;;
  hdr_start_advance 160 ;;
  ret {| ip_version := u8 (Z.land (Z.shiftr version 4) (EBPF_MASK 4));
         ip_ihl := u8 (Z.land ihl (EBPF_MASK 4));
         ip_diffserv := u8 diffserv;
         ip_totalLen := u16 totalLen;
         ip_identification := u16 identification;
         ip_flags := u8 (Z.land (Z.shiftr flags 5) (EBPF_MASK 3));
         ip_fragOffset := u16 (Z.land fragOffset (EBPF_MASK 13));
         ip_ttl := u8 ttl;
         ip_protocol := u8 protocol;
         ip_hdrChecksum := u16 hdrChecksum;
         ip_srcAddr := srcAddr;
         ip_dstAddr := dstAddr;
         ip_valid := 1 |}.

Definition extract_ports : P H ports_t :=
  require 32 ;;
  src <- load_half_at 0 ;;
  advance 16 ;;
  dst <- load_half_at 0 ;;
  advance 16 ;;
  hdr_start_advance 32 ;;
  ret {| srcPort := u16 src; dstPort := u16 dst; ports_valid := 1 |}.
End Extract.

(** ** Emission *)

Section Emit.
Context `{BO : ByteOrder} `{K : P4tcKernel} {H U : Type}.

(** Emission swaps the multi-byte fields of the struct in place; the struct
    as it is left behind is returned. *)
Definition emit_ethernet (eth : ethernet_t) : X H U ethernet_t :=
  require_out 112 ;;
  write_object 8 6 (eth_dstAddr eth) ;;
  advance_out 48 ;;
  write_object 8 6 (eth_srcAddr eth) ;;
  advance_out 48 ;;
  let etherType := bpf_htons (eth_etherType eth) in
  write_object 2 2 etherType ;;
  advance_out 16 ;;
  ret { eth with eth_etherType := etherType }.

Definition emit_ipv4 (ip : ipv4_t) : X H U ipv4_t :=
  require_out 160 ;;
  write_partial_at 0 4 4 (Z.shiftr (byte_of 1 (ip_version ip) 0) 0) ;;
  advance_out 4 ;;
  write_partial_at 0 4 0 (Z.shiftr (byte_of 1 (ip_ihl ip) 0) 0) ;;
  advance_out 4 ;;
  write_object 1 1 (ip_diffserv ip) ;;
  advance_out 8 ;;
  let totalLen := bpf_htons (ip_totalLen ip) in
  write_object 2 2 totalLen ;;
  advance_out 16 ;;
  let identification := bpf_htons (ip_identification ip) in
  write_object 2 2 identification ;;
  advance_out 16 ;;
  write_partial_at 0 3 5 (Z.shiftr (byte_of 1 (ip_flags ip) 0) 0) ;;
  advance_out 3 ;;
  let fragOffset := bpf_htons (Z.shiftl (ip_fragOffset ip) 3) in
  write_partial_at 0 5 0 (Z.shiftr (byte_of 2 fragOffset 0) 3) ;;
  write_partial_at 1 3 5 (byte_of 2 fragOffset 0) ;;
  write_partial_at 1 5 0 (Z.shiftr (byte_of 2 fragOffset 1) 3) ;;
  advance_out 13 ;;
  write_object 1 1 (ip_ttl ip) ;;
  advance_out 8 ;;
  write_object 1 1 (ip_protocol ip) ;;
  advance_out 8 ;;
  let hdrChecksum := bpf_htons (ip_hdrChecksum ip) in
  write_object 2 2 hdrChecksum ;;
  advance_out 16 ;;
  write_object 4 4 (ip_srcAddr ip) ;;
  advance_out 32 ;;
  write_object 4 4 (ip_dstAddr ip) ;;
  advance_out 32 ;;
  ret { ip with ip_totalLen := totalLen; ip_identification := identification;
                ip_fragOffset := fragOffset; ip_hdrChecksum := hdrChecksum }.

Definition emit_ports (h : ports_t) : X H U ports_t :=
  require_out 32 ;;
  let src := bpf_htons (srcPort h) in
  write_object 2 2 src ;;
  advance_out 16 ;;
  let dst := bpf_htons (dstPort h) in
  write_object 2 2 dst ;;
  advance_out 16 ;;
  ret { h with srcPort := src; dstPort := dst }.
End Emit.

(** ** The P4 header types and the abstraction of the structs *)

Definition ethernet_widths : widths := [48; 48; 16]%nat.
Definition ipv4_widths : widths := [4; 4; 8; 16; 16; 3; 13; 8; 8; 16; 32; 32]%nat.
Definition ports_widths : widths := [16; 16]%nat.

Section Abstraction.
Context `{BO : ByteOrder}.

(** A MAC address in a zeroed 64-bit object, and back. *)
Definition mac_object (v : Z) : Z := host_val (be_bytes 6 v ++ [0; 0]).
Definition mac_value (x : Z) : Z := be_val (take 6 (host_bytes 8 x)).

Definition ethernet_fields (e : ethernet_t) : list Z :=
  [mac_value (eth_dstAddr e); mac_value (eth_srcAddr e); eth_etherType e].

Definition ethernet_of_fields (vs : list Z) : ethernet_t :=
  match vs with
  | [d; s; t] => Build_ethernet_t (mac_object d) (mac_object s) t 1
  | _ => ethernet0
  end.

Definition ipv4_fields (ip : ipv4_t) : list Z :=
  [ip_version ip; ip_ihl ip; ip_diffserv ip; ip_totalLen ip; ip_identification ip;
   ip_flags ip; ip_fragOffset ip; ip_ttl ip; ip_protocol ip; ip_hdrChecksum ip;
   bpf_ntohl (ip_srcAddr ip); bpf_ntohl (ip_dstAddr ip)].

Definition ipv4_of_fields (vs : list Z) : ipv4_t :=
  match vs with
  | [v; ihl; ds; tl; id; fl; fo; ttl; pr; hc; src; dst] =>
    Build_ipv4_t v ihl ds tl id fl fo ttl pr hc (bpf_htonl src) (bpf_htonl dst) 1
  | _ => ipv4_0
  end.

Definition ports_fields (h : ports_t) : list Z := [srcPort h; dstPort h].

Definition ports_of_fields (vs : list Z) : ports_t :=
  match vs with [s; d] => Build_ports_t s d 1 | _ => ports0 end.

(** What extraction leaves in a struct, and what emission writes. *)
Definition ethernet_of_bytes (bs : list Z) := ethernet_of_fields (p4_extract ethernet_widths bs).
Definition ipv4_of_bytes (bs : list Z) := ipv4_of_fields (p4_extract ipv4_widths bs).
Definition ports_of_bytes (bs : list Z) := ports_of_fields (p4_extract ports_widths bs).
Definition ethernet_to_bytes (e : ethernet_t) := p4_emit ethernet_widths (ethernet_fields e).
Definition ipv4_to_bytes (ip : ipv4_t) := p4_emit ipv4_widths (ipv4_fields ip).
Definition ports_to_bytes (h : ports_t) := p4_emit ports_widths (ports_fields h).

(** Every field holds a value of its width. *)
Definition wf_ethernet (e : ethernet_t) : Prop :=
  0 <= eth_etherType e < 2 ^ 16.
Definition wf_ipv4 (ip : ipv4_t) : Prop :=
  Forall2 fits ipv4_widths (ipv4_fields ip) /\
  0 <= ip_srcAddr ip < 2 ^ 32 /\ 0 <= ip_dstAddr ip < 2 ^ 32.
Definition wf_ports (h : ports_t) : Prop :=
  0 <= srcPort h < 2 ^ 16 /\ 0 <= dstPort h < 2 ^ 16.
End Abstraction.

(** ** Bit arithmetic of the extracted fields *)

Lemma EBPF_MASK_ones w : EBPF_MASK w = Z.ones w.
Proof. unfold EBPF_MASK, Z.ones. lia. Qed.

Lemma u8_byte b : is_byte b -> u8 b = b.
Proof. apply Z.mod_small. Qed.

Lemma u16_be_val b c : is_byte b -> is_byte c -> u16 (be_val [b; c]) = be_val [b; c].
Proof.
  intros Hb Hc. apply Z.mod_small. rewrite be_val_2. unfold is_byte in *. lia.
Qed.

Lemma u32_be_val b c d e :
  is_byte b -> is_byte c -> is_byte d -> is_byte e ->
  u32 (be_val [b; c; d; e]) = be_val [b; c; d; e].
Proof. intros. apply Z.mod_small. apply (be_val_bound [b; c; d; e]). solve_bytes. Qed.

Lemma u8_high b sh w :
  is_byte b -> 0 <= sh -> 0 <= w -> sh + w = 8 ->
  u8 (Z.land (Z.shiftr b sh) (EBPF_MASK w)) = b / 2 ^ sh.
Proof.
  intros Hb Hs Hw Hsw. unfold is_byte in Hb.
  rewrite EBPF_MASK_ones, Z.land_ones, Z.shiftr_div_pow2 by lia.
  assert (Hr : 0 <= b / 2 ^ sh < 2 ^ w).
  { split; [apply Z.div_pos; [lia|apply Z.pow_pos_nonneg; lia]|].
    apply Z.div_lt_upper_bound; [apply Z.pow_pos_nonneg; lia|].
    rewrite <- Z.pow_add_r, Hsw by lia. lia. }
  rewrite (Z.mod_small _ (2 ^ w)) by done. apply Z.mod_small.
  split; [lia|]. eapply Z.lt_le_trans; [apply Hr|]. apply Z.pow_le_mono_r; lia.
Qed.

Lemma u8_low b w :
  0 <= w <= 8 -> u8 (Z.land b (EBPF_MASK w)) = b mod 2 ^ w.
Proof.
  intros Hw. rewrite EBPF_MASK_ones, Z.land_ones by lia. apply Z.mod_small.
  pose proof (Z.mod_pos_bound b (2 ^ w) ltac:(apply Z.pow_pos_nonneg; lia)).
  split; [lia|]. eapply Z.lt_le_trans; [apply H|]. apply Z.pow_le_mono_r; lia.
Qed.

Lemma u16_low b w :
  0 <= w <= 16 -> u16 (Z.land b (EBPF_MASK w)) = b mod 2 ^ w.
Proof.
  intros Hw. rewrite EBPF_MASK_ones, Z.land_ones by lia. apply Z.mod_small.
  pose proof (Z.mod_pos_bound b (2 ^ w) ltac:(apply Z.pow_pos_nonneg; lia)).
  split; [lia|]. eapply Z.lt_le_trans; [apply H|]. apply Z.pow_le_mono_r; lia.
Qed.

(** ** Extraction implements the P4 header types *)

Section ExtractSpec.
Context `{BO : ByteOrder} {H : Type}.
Implicit Types (h : H) (a l : list Z).

Lemma memcpy_mac (bs : list Z) :
  length bs = 6%nat -> bytes bs ->
  host_val (bs ++ drop 6 (host_bytes 8 0)) = mac_object (be_val bs).
Proof.
  intros Hl Hb. unfold mac_object.
  replace (be_bytes 6 (be_val bs)) with bs
    by (rewrite <- Hl; symmetry; by apply be_bytes_be_val).
  unfold host_bytes. by destruct byte_order.
Qed.

Lemma memcpy_word (bs : list Z) old :
  length bs = 4%nat -> bytes bs ->
  host_val (bs ++ drop 4 (host_bytes 4 old)) = bpf_htonl (be_val bs).
Proof.
  intros Hl Hb. rewrite drop_ge, app_nil_r by (rewrite length_host_bytes; lia).
  unfold bpf_htonl. rewrite <- Hl. rewrite <- ntoh_host_val by done.
  rewrite ntoh_involutive; [done|]. by apply host_val_bound.
Qed.

Lemma ethernet_of_bytes_explicit b0 b1 b2 b3 b4 b5 c0 c1 c2 c3 c4 c5 t0 t1 :
  bytes [b0; b1; b2; b3; b4; b5; c0; c1; c2; c3; c4; c5; t0; t1] ->
  ethernet_of_bytes [b0; b1; b2; b3; b4; b5; c0; c1; c2; c3; c4; c5; t0; t1]
  = Build_ethernet_t (mac_object (be_val [b0; b1; b2; b3; b4; b5]))
      (mac_object (be_val [c0; c1; c2; c3; c4; c5])) (be_val [t0; t1]) 1.
Proof.
  intros Hb. split_bytes Hb. unfold ethernet_of_bytes.
  pose proof (p4_extract_app [48]%nat [48; 16]%nat [b0; b1; b2; b3; b4; b5]
    [c0; c1; c2; c3; c4; c5; t0; t1] eq_refl eq_refl ltac:(solve_bytes) ltac:(solve_bytes))
    as E1.
  pose proof (p4_extract_app [48]%nat [16]%nat [c0; c1; c2; c3; c4; c5] [t0; t1]
    eq_refl eq_refl ltac:(solve_bytes) ltac:(solve_bytes)) as E2.
  cbn [app] in E1, E2. unfold ethernet_widths. by rewrite E1, E2, !p4_extract_1.
Qed.

Lemma extract_ethernet_ok err h a b l :
  length b = 14%nat -> bytes b -> small a ->
  extract_ethernet ethernet0 (boundary err h a (b ++ l))
  = Ret (ethernet_of_bytes b) (boundary err h (a ++ b) l).
Proof.
  intros Hl Hb Ha. rewrite <- (boundary_next err h a b l 14 112 (ethernet_of_bytes b)) by done.
  unfold extract_ethernet.
  erewrite bind_Ret by (apply (boundary_require _ _ _ _ 14); [done|rewrite length_app; lia]).
  destruct_length b Hl. rewrite ethernet_of_bytes_explicit by done. split_bytes Hb.
  cbn [app]. unfold boundary. repeat pstep.
  unfold ethernet0; cbn [eth_dstAddr eth_srcAddr].
  rewrite !memcpy_mac, u16_be_val by (reflexivity || solve_bytes). reflexivity.
Qed.

Lemma extract_ethernet_short err h a l eth :
  (length l < 14)%nat ->
  extract_ethernet eth (boundary err h a l) = Exit reject (boundary PacketTooShort h a l).
Proof. intros Hl. apply bind_Exit. by apply (boundary_short _ _ _ _ 14). Qed.

Lemma ipv4_of_bytes_explicit b0 b1 b2 b3 b4 b5 b6 b7 b8 b9 c0 c1 c2 c3 c4 c5 c6 c7 c8 c9 :
  bytes [b0; b1; b2; b3; b4; b5; b6; b7; b8; b9; c0; c1; c2; c3; c4; c5; c6; c7; c8; c9] ->
  ipv4_of_bytes [b0; b1; b2; b3; b4; b5; b6; b7; b8; b9; c0; c1; c2; c3; c4; c5; c6; c7; c8; c9]
  = Build_ipv4_t (b0 / 16) (b0 mod 16) b1 (be_val [b2; b3]) (be_val [b4; b5])
      (b6 / 32) (be_val [b6; b7] mod 8192) b8 b9 (be_val [c0; c1])
      (bpf_htonl (be_val [c2; c3; c4; c5])) (bpf_htonl (be_val [c6; c7; c8; c9])) 1.
Proof.
  intros Hb. split_bytes Hb. unfold ipv4_of_bytes.
  pose proof (p4_extract_app [4; 4]%nat [8; 16; 16; 3; 13; 8; 8; 16; 32; 32]%nat [b0]
    [b1; b2; b3; b4; b5; b6; b7; b8; b9; c0; c1; c2; c3; c4; c5; c6; c7; c8; c9]
    eq_refl eq_refl ltac:(solve_bytes) ltac:(solve_bytes)) as E1.
  pose proof (p4_extract_app [8]%nat [16; 16; 3; 13; 8; 8; 16; 32; 32]%nat [b1]
    [b2; b3; b4; b5; b6; b7; b8; b9; c0; c1; c2; c3; c4; c5; c6; c7; c8; c9]
    eq_refl eq_refl ltac:(solve_bytes) ltac:(solve_bytes)) as E2.
  pose proof (p4_extract_app [16]%nat [16; 3; 13; 8; 8; 16; 32; 32]%nat [b2; b3]
    [b4; b5; b6; b7; b8; b9; c0; c1; c2; c3; c4; c5; c6; c7; c8; c9]
    eq_refl eq_refl ltac:(solve_bytes) ltac:(solve_bytes)) as E3.
  pose proof (p4_extract_app [16]%nat [3; 13; 8; 8; 16; 32; 32]%nat [b4; b5]
    [b6; b7; b8; b9; c0; c1; c2; c3; c4; c5; c6; c7; c8; c9]
    eq_refl eq_refl ltac:(solve_bytes) ltac:(solve_bytes)) as E4.
  pose proof (p4_extract_app [3; 13]%nat [8; 8; 16; 32; 32]%nat [b6; b7]
    [b8; b9; c0; c1; c2; c3; c4; c5; c6; c7; c8; c9]
    eq_refl eq_refl ltac:(solve_bytes) ltac:(solve_bytes)) as E5.
  pose proof (p4_extract_app [8]%nat [8; 16; 32; 32]%nat [b8]
    [b9; c0; c1; c2; c3; c4; c5; c6; c7; c8; c9]
    eq_refl eq_refl ltac:(solve_bytes) ltac:(solve_bytes)) as E6.
  pose proof (p4_extract_app [8]%nat [16; 32; 32]%nat [b9]
    [c0; c1; c2; c3; c4; c5; c6; c7; c8; c9]
    eq_refl eq_refl ltac:(solve_bytes) ltac:(solve_bytes)) as E7.
  pose proof (p4_extract_app [16]%nat [32; 32]%nat [c0; c1] [c2; c3; c4; c5; c6; c7; c8; c9]
    eq_refl eq_refl ltac:(solve_bytes) ltac:(solve_bytes)) as E8.
  pose proof (p4_extract_app [32]%nat [32]%nat [c2; c3; c4; c5] [c6; c7; c8; c9]
    eq_refl eq_refl ltac:(solve_bytes) ltac:(solve_bytes)) as E9.
  cbn [app] in E1, E2, E3, E4, E5, E6, E7, E8, E9. unfold ipv4_widths.
  rewrite E1, E2, E3, E4, E5, E6, E7, E8, E9, !p4_extract_1.
  rewrite p4_extract_4_4, p4_extract_3_13 by assumption. cbn [app]. by rewrite !be_val_1.
Qed.

Lemma extract_ipv4_ok err h a b l ip :
  length b = 20%nat -> bytes b -> small a ->
  extract_ipv4 ip (boundary err h a (b ++ l))
  = Ret (ipv4_of_bytes b) (boundary err h (a ++ b) l).
Proof.
  intros Hl Hb Ha. rewrite <- (boundary_next err h a b l 20 160 (ipv4_of_bytes b)) by done.
  unfold extract_ipv4.
  erewrite bind_Ret by (apply (boundary_require _ _ _ _ 20); [done|rewrite length_app; lia]).
  destruct_length b Hl. rewrite ipv4_of_bytes_explicit by done. split_bytes Hb.
  cbn [app]. unfold boundary. repeat pstep.
  rewrite !u8_high, u8_low, u16_low by (done || lia).
  rewrite !memcpy_word, !u16_be_val, !u8_byte by (reflexivity || solve_bytes).
  reflexivity.
Qed.

Lemma extract_ipv4_short err h a l ip :
  (length l < 20)%nat ->
  extract_ipv4 ip (boundary err h a l) = Exit reject (boundary PacketTooShort h a l).
Proof. intros Hl. apply bind_Exit. by apply (boundary_short _ _ _ _ 20). Qed.

Lemma ports_of_bytes_explicit b0 b1 b2 b3 :
  bytes [b0; b1; b2; b3] ->
  ports_of_bytes [b0; b1; b2; b3] = Build_ports_t (be_val [b0; b1]) (be_val [b2; b3]) 1.
Proof.
  intros Hb. split_bytes Hb. unfold ports_of_bytes, ports_widths.
  pose proof (p4_extract_app [16]%nat [16]%nat [b0; b1] [b2; b3] eq_refl eq_refl
    ltac:(solve_bytes) ltac:(solve_bytes)) as E.
  cbn [app] in E. by rewrite E, !p4_extract_1.
Qed.

Lemma extract_ports_ok err h a b l :
  length b = 4%nat -> bytes b -> small a ->
  extract_ports (boundary err h a (b ++ l))
  = Ret (ports_of_bytes b) (boundary err h (a ++ b) l).
Proof.
  intros Hl Hb Ha. rewrite <- (boundary_next err h a b l 4 32 (ports_of_bytes b)) by done.
  unfold extract_ports.
  erewrite bind_Ret by (apply (boundary_require _ _ _ _ 4); [done|rewrite length_app; lia]).
  destruct_length b Hl. rewrite ports_of_bytes_explicit by done. split_bytes Hb.
  cbn [app]. unfold boundary. repeat pstep.
  rewrite !u16_be_val by solve_bytes. reflexivity.
Qed.

Lemma extract_ports_short err h a l :
  (length l < 4)%nat ->
  extract_ports (boundary err h a l) = Exit reject (boundary PacketTooShort h a l).
Proof. intros Hl. apply bind_Exit. by apply (boundary_short _ _ _ _ 4). Qed.
End ExtractSpec.

(** ** Emission implements the P4 header types *)

Section EmitSpec.
Context `{BO : ByteOrder} `{K : P4tcKernel} {H U : Type}.
Implicit Types (s : xstate H U) (a l : list Z).

Lemma be_bytes_mac_value x : be_bytes 6 (mac_value x) = take 6 (host_bytes 8 x).
Proof.
  unfold mac_value.
  replace 6%nat with (length (take 6 (host_bytes 8 x))) at 1
    by (rewrite length_take, length_host_bytes; lia).
  apply be_bytes_be_val, Forall_take, bytes_host_bytes.
Qed.

Lemma be_bytes_ntohl x : 0 <= x < 2 ^ 32 -> be_bytes 4 (bpf_ntohl x) = host_bytes 4 x.
Proof.
  intros Hx. unfold bpf_ntohl. rewrite <- host_bytes_ntoh, ntoh_involutive by done. done.
Qed.

Lemma mac_value_bound x : 0 <= mac_value x < 2 ^ 48.
Proof.
  unfold mac_value. pose proof (be_val_bound (take 6 (host_bytes 8 x))
    (Forall_take _ _ _ (bytes_host_bytes 8 x))) as Hb.
  by rewrite length_take, length_host_bytes in Hb.
Qed.

Lemma ethernet_to_bytes_explicit e :
  wf_ethernet e ->
  ethernet_to_bytes e = take 6 (host_bytes 8 (eth_dstAddr e))
    ++ take 6 (host_bytes 8 (eth_srcAddr e)) ++ be_bytes 2 (eth_etherType e).
Proof.
  intros He. unfold ethernet_to_bytes, ethernet_widths, ethernet_fields.
  pose proof (mac_value_bound (eth_dstAddr e)) as Hd.
  pose proof (mac_value_bound (eth_srcAddr e)) as Hs.
  pose proof (p4_emit_app [48]%nat [48; 16]%nat [mac_value (eth_dstAddr e)]
    [mac_value (eth_srcAddr e); eth_etherType e] eq_refl eq_refl
    ltac:(repeat constructor; apply Hd)
    ltac:(repeat constructor; first [apply Hs|apply He])) as E1.
  pose proof (p4_emit_app [48]%nat [16]%nat [mac_value (eth_srcAddr e)] [eth_etherType e]
    eq_refl eq_refl ltac:(repeat constructor; apply Hs)
    ltac:(repeat constructor; apply He)) as E2.
  cbn [app] in E1, E2. rewrite E1, E2.
  rewrite (p4_emit_1 6 (mac_value (eth_dstAddr e))), (p4_emit_1 6), (p4_emit_1 2).
  by rewrite !be_bytes_mac_value.
Qed.

Lemma emit_ethernet_ok s e a old l :
  wf_ethernet e -> length old = 14%nat -> tiny a ->
  emit_ethernet e (cursor_out s a (old ++ l) 0)
  = Ret { e with eth_etherType := bpf_htons (eth_etherType e) }
      (cursor_out s (a ++ ethernet_to_bytes e) l 0).
Proof.
  intros He Ho Ha. rewrite ethernet_to_bytes_explicit by done. unfold emit_ethernet.
  erewrite bind_Ret
    by (apply (require_out_app _ _ _ 14); [done|solve_small|lia|rewrite length_app; lia]).
  destruct_length old Ho. cbn [app].
  rewrite emit_object by (done || solve_small). cbn [drop].
  rewrite emit_object by (done || solve_small). cbn [drop].
  cbn zeta.
  rewrite emit_object by (done || solve_small). cbn [drop].
  unfold bpf_htons. by rewrite take_host_bytes, host_bytes_ntoh, drop_0, <- !app_assoc.
Qed.

Lemma emit_ethernet_short s e a l :
  (length l < 14)%nat -> tiny a ->
  emit_ethernet e (cursor_out s a l 0) = Exit TC_ACT_SHOT (cursor_out s a l 0).
Proof.
  intros Hl Ha. apply bind_Exit. by apply (require_out_short _ _ _ 14); [|solve_small|lia|].
Qed.

Lemma length_ethernet_to_bytes e : length (ethernet_to_bytes e) = 14%nat.
Proof. apply length_p4_emit. Qed.

Lemma ipv4_to_bytes_explicit ip :
  wf_ipv4 ip ->
  ipv4_to_bytes ip = [ip_version ip * 16 + ip_ihl ip] ++ be_bytes 1 (ip_diffserv ip)
    ++ be_bytes 2 (ip_totalLen ip) ++ be_bytes 2 (ip_identification ip)
    ++ [ip_flags ip * 32 + ip_fragOffset ip / 256; ip_fragOffset ip mod 256]
    ++ be_bytes 1 (ip_ttl ip) ++ be_bytes 1 (ip_protocol ip)
    ++ be_bytes 2 (ip_hdrChecksum ip)
    ++ host_bytes 4 (ip_srcAddr ip) ++ host_bytes 4 (ip_dstAddr ip).
Proof.
  intros (Hf & Hs & Hd). unfold ipv4_to_bytes, ipv4_widths, ipv4_fields in *.
  rewrite !List.Forall2_cons_iff in Hf.
  destruct Hf as (Hv & Hi & Hds & Htl & Hid & Hfl & Hfo & Httl & Hpr & Hhc & Hsr & Hdt & _).
  rewrite (p4_emit_group2 4 4), (p4_emit_cons 1), !(p4_emit_cons 2), (p4_emit_group2 3 13),
    !(p4_emit_cons 1), (p4_emit_cons 2), (p4_emit_cons 4), (p4_emit_1 4)
    by (done || solve_fits).
  by rewrite p4_emit_4_4, p4_emit_3_13, !be_bytes_ntohl.
Qed.

Lemma emit_ipv4_ok s ip a old l :
  wf_ipv4 ip -> length old = 20%nat -> bytes old -> tiny a ->
  emit_ipv4 ip (cursor_out s a (old ++ l) 0)
  = Ret { ip with ip_totalLen := bpf_htons (ip_totalLen ip);
                  ip_identification := bpf_htons (ip_identification ip);
                  ip_fragOffset := bpf_htons (Z.shiftl (ip_fragOffset ip) 3);
                  ip_hdrChecksum := bpf_htons (ip_hdrChecksum ip) }
      (cursor_out s (a ++ ipv4_to_bytes ip) l 0).
Proof.
  intros Hip Ho Hb Ha. rewrite ipv4_to_bytes_explicit by done. unfold emit_ipv4.
  erewrite bind_Ret
    by (apply (require_out_app _ _ _ 20); [done|solve_small|lia|rewrite length_app; lia]).
  destruct Hip as (Hf & Hs & Hd). unfold ipv4_widths, ipv4_fields in Hf.
  rewrite !List.Forall2_cons_iff in Hf.
  destruct Hf as (Hv & Hi & Hds & Htl & Hid & Hfl & Hfo & Httl & Hpr & Hhc & Hsr & Hdt & _).
  destruct_length old Ho. split_bytes Hb. cbn [app]. cbn zeta.
  unfold tiny in Ha. rewrite emit_nibbles by (done || solve_small).
  do 3 (rewrite emit_object by (done || solve_small); cbn [drop]).
  rewrite emit_flags_fragOffset by (done || solve_small).
  do 5 (rewrite emit_object by (done || solve_small); cbn [drop]).
  unfold bpf_htons. rewrite !take_host_bytes, !host_bytes_ntoh, !host_bytes_1, drop_0.
  by rewrite <- !app_assoc.
Qed.

Lemma emit_ipv4_short s ip a l :
  (length l < 20)%nat -> tiny a ->
  emit_ipv4 ip (cursor_out s a l 0) = Exit TC_ACT_SHOT (cursor_out s a l 0).
Proof.
  intros Hl Ha. apply bind_Exit. by apply (require_out_short _ _ _ 20); [|solve_small|lia|].
Qed.

Lemma length_ipv4_to_bytes ip : length (ipv4_to_bytes ip) = 20%nat.
Proof. apply length_p4_emit. Qed.

Lemma ports_to_bytes_explicit h :
  wf_ports h -> ports_to_bytes h = be_bytes 2 (srcPort h) ++ be_bytes 2 (dstPort h).
Proof.
  intros (Hs & Hd). unfold ports_to_bytes, ports_widths, ports_fields.
  rewrite (p4_emit_cons 2), (p4_emit_1 2) by (done || solve_fits). done.
Qed.

Lemma emit_ports_ok s h a old l :
  wf_ports h -> length old = 4%nat -> tiny a ->
  emit_ports h (cursor_out s a (old ++ l) 0)
  = Ret { h with srcPort := bpf_htons (srcPort h); dstPort := bpf_htons (dstPort h) }
      (cursor_out s (a ++ ports_to_bytes h) l 0).
Proof.
  intros Hh Ho Ha. rewrite ports_to_bytes_explicit by done. unfold emit_ports.
  erewrite bind_Ret
    by (apply (require_out_app _ _ _ 4); [done|solve_small|lia|rewrite length_app; lia]).
  destruct_length old Ho. cbn [app]. cbn zeta.
  do 2 (rewrite emit_object by (done || solve_small); cbn [drop]).
  unfold bpf_htons. rewrite !take_host_bytes, !host_bytes_ntoh, drop_0.
  by rewrite <- !app_assoc.
Qed.

Lemma emit_ports_short s h a l :
  (length l < 4)%nat -> tiny a ->
  emit_ports h (cursor_out s a l 0) = Exit TC_ACT_SHOT (cursor_out s a l 0).
Proof.
  intros Hl Ha. apply bind_Exit. by apply (require_out_short _ _ _ 4); [|solve_small|lia|].
Qed.

Lemma length_ports_to_bytes h : length (ports_to_bytes h) = 4%nat.
Proof. apply length_p4_emit. Qed.
End EmitSpec.

(** ** What extraction leaves is well-formed, and emission restores the bytes *)

Section RoundTrips.
Context `{BO : ByteOrder}.

Lemma mac_value_object v : 0 <= v < 2 ^ 48 -> mac_value (mac_object v) = v.
Proof.
  intros Hv. unfold mac_value, mac_object.
  replace (host_bytes 8 (host_val (be_bytes 6 v ++ [0; 0]))) with (be_bytes 6 v ++ [0; 0]).
  - rewrite take_app_length' by (by rewrite length_be_bytes).
    rewrite be_val_be_bytes. by apply Z.mod_small.
  - symmetry. replace 8%nat with (length (be_bytes 6 v ++ [0; 0]))
      by (by rewrite length_app, length_be_bytes).
    apply host_bytes_host_val, bytes_app. split; [apply bytes_rev, bytes_le_bytes|].
    solve_bytes.
Qed.

Lemma ntohl_htonl x : 0 <= x < 2 ^ 32 -> bpf_ntohl (bpf_htonl x) = x.
Proof. by apply (ntoh_involutive 4). Qed.

Lemma ethernet_of_bytes_wf bs : length bs = 14%nat -> bytes bs -> wf_ethernet (ethernet_of_bytes bs).
Proof.
  intros Hl Hb. destruct_length bs Hl. rewrite ethernet_of_bytes_explicit by done.
  split_bytes Hb. unfold wf_ethernet. cbn [eth_etherType].
  by apply (be_val_bound [_; _]); solve_bytes.
Qed.

Lemma ipv4_of_bytes_fields bs :
  length bs = 20%nat -> bytes bs -> ipv4_fields (ipv4_of_bytes bs) = p4_extract ipv4_widths bs.
Proof.
  intros Hl Hb. unfold ipv4_of_bytes.
  pose proof (p4_extract_fit ipv4_widths bs ltac:(by rewrite Hl) Hb) as Hf.
  pose proof (Forall2_length Hf) as Hlen. symmetry in Hlen.
  destruct (p4_extract ipv4_widths bs) as [|v vs]; [done|].
  injection Hlen as Hlen. destruct_length vs Hlen.
  unfold ipv4_widths in Hf. rewrite !List.Forall2_cons_iff in Hf.
  destruct Hf as (_&_&_&_&_&_&_&_&_&_&Hs&Hd&_).
  unfold ipv4_of_fields, ipv4_fields; cbn -[bpf_ntohl bpf_htonl].
  by rewrite !ntohl_htonl.
Qed.

Lemma ipv4_of_bytes_wf bs : length bs = 20%nat -> bytes bs -> wf_ipv4 (ipv4_of_bytes bs).
Proof.
  intros Hl Hb. split.
  - rewrite ipv4_of_bytes_fields by done. apply p4_extract_fit; [by rewrite Hl|done].
  - destruct_length bs Hl. rewrite ipv4_of_bytes_explicit by done. cbn.
    split; apply (ntoh_bound 4).
Qed.

Lemma ipv4_of_bytes_valid bs : length bs = 20%nat -> bytes bs -> ip_valid (ipv4_of_bytes bs) = 1.
Proof. intros Hl Hb. destruct_length bs Hl. by rewrite ipv4_of_bytes_explicit. Qed.

Lemma ethernet_of_bytes_valid bs :
  length bs = 14%nat -> bytes bs -> eth_valid (ethernet_of_bytes bs) = 1.
Proof. intros Hl Hb. destruct_length bs Hl. by rewrite ethernet_of_bytes_explicit. Qed.

Lemma ipv4_to_of_bytes bs :
  length bs = 20%nat -> bytes bs -> ipv4_to_bytes (ipv4_of_bytes bs) = bs.
Proof.
  intros Hl Hb. unfold ipv4_to_bytes. rewrite ipv4_of_bytes_fields by done.
  apply p4_emit_extract; [by rewrite Hl|done].
Qed.

Lemma ethernet_to_of_bytes bs :
  length bs = 14%nat -> bytes bs -> ethernet_to_bytes (ethernet_of_bytes bs) = bs.
Proof.
  intros Hl Hb. unfold ethernet_to_bytes.
  assert (Hf : ethernet_fields (ethernet_of_bytes bs) = p4_extract ethernet_widths bs).
  { unfold ethernet_of_bytes.
    pose proof (p4_extract_fit ethernet_widths bs ltac:(by rewrite Hl) Hb) as Hf.
    pose proof (Forall2_length Hf) as Hlen. symmetry in Hlen.
    destruct (p4_extract ethernet_widths bs) as [|v vs]; [done|].
    injection Hlen as Hlen. destruct_length vs Hlen.
    unfold ethernet_widths in Hf. rewrite !List.Forall2_cons_iff in Hf.
    destruct Hf as (Hd&Hs&_). unfold ethernet_of_fields, ethernet_fields.
    cbn [eth_dstAddr eth_srcAddr eth_etherType]. by rewrite !mac_value_object. }
  rewrite Hf. apply p4_emit_extract; [by rewrite Hl|done].
Qed.

Lemma ports_to_of_bytes bs :
  length bs = 4%nat -> bytes bs -> ports_to_bytes (ports_of_bytes bs) = bs.
Proof.
  intros Hl Hb. unfold ports_to_bytes.
  assert (Hf : ports_fields (ports_of_bytes bs) = p4_extract ports_widths bs).
  { destruct_length bs Hl. rewrite ports_of_bytes_explicit by done.
    split_bytes Hb. symmetry.
    pose proof (p4_extract_cons 2 [16]%nat [x; x0] [x1; x2] eq_refl eq_refl
      ltac:(solve_bytes) ltac:(solve_bytes)) as E.
    cbn [app] in E. rewrite p4_extract_1 in E. apply E. }
  rewrite Hf. apply p4_emit_extract; [by rewrite Hl|done].
Qed.

Lemma ports_of_bytes_wf bs : length bs = 4%nat -> bytes bs -> wf_ports (ports_of_bytes bs).
Proof.
  intros Hl Hb. destruct_length bs Hl. rewrite ports_of_bytes_explicit by done.
  split_bytes Hb.
  split; cbn [srcPort dstPort]; by apply (be_val_bound [_; _]); solve_bytes.
Qed.
End RoundTrips.

(** Well-formedness, field by field. *)
Lemma wf_ipv4_iff `{ByteOrder} ip :
  wf_ipv4 ip <->
  (0 <= ip_version ip < 16 /\ 0 <= ip_ihl ip < 16 /\ 0 <= ip_diffserv ip < 256 /\
   0 <= ip_totalLen ip < 65536 /\ 0 <= ip_identification ip < 65536 /\
   0 <= ip_flags ip < 8 /\ 0 <= ip_fragOffset ip < 8192 /\ 0 <= ip_ttl ip < 256 /\
   0 <= ip_protocol ip < 256 /\ 0 <= ip_hdrChecksum ip < 65536 /\
   0 <= ip_srcAddr ip < 4294967296 /\ 0 <= ip_dstAddr ip < 4294967296).
Proof.
  unfold wf_ipv4, ipv4_widths, ipv4_fields. rewrite !List.Forall2_cons_iff.
  pose proof (ntoh_bound 4 (ip_srcAddr ip)) as Hs. pose proof (ntoh_bound 4 (ip_dstAddr ip)) as Hd.
  split.
  - intros ((?&?&?&?&?&?&?&?&?&?&?&?&?)&?&?). repeat (split; [assumption|]). assumption.
  - intros (?&?&?&?&?&?&?&?&?&?&?&?). split; [|split; assumption].
    repeat (split; [assumption|]). apply List.Forall2_nil.
Qed.

(** Well-formedness of an updated header, from that of the old one. *)
Ltac solve_wf_field :=
  first [ split; assumption
        | apply (Z.mod_pos_bound _ (2 ^ 16)); lia
        | apply (Z.mod_pos_bound _ (2 ^ 8)); lia
        | cbn; lia ].

Ltac solve_wf_ipv4 :=
  rewrite ?wf_ipv4_iff in *;
  repeat match goal with H : _ /\ _ |- _ => destruct H end;
  repeat (split; [solve_wf_field|]); solve_wf_field.

(** ** Extraction at an offset of the packet *)

Definition slice (n k : nat) (data : list Z) : list Z := take k (drop n data).

(** The parser between two headers, [n] bytes into [data]. *)
Definition at_pos {H} (err : Z) (h : H) (data : list Z) (n : nat) : pstate H :=
  boundary err h (take n data) (drop n data).

Section ExtractAt.
Context `{BO : ByteOrder} {H : Type}.
Implicit Types (h : H) (data : list Z).

Lemma slice_bytes n k data : bytes data -> bytes (slice n k data).
Proof. intros Hb. by apply Forall_take, Forall_drop. Qed.

Lemma length_slice n k data : (n + k <= length data)%nat -> length (slice n k data) = k.
Proof. intros Hl. unfold slice. rewrite length_take, length_drop. lia. Qed.

Lemma at_pos_slice err h data n k :
  at_pos err h data n
  = boundary err h (take n data) (slice n k data ++ drop (n + k) data).
Proof.
  unfold at_pos, slice. by rewrite <- drop_drop, take_drop.
Qed.

Lemma at_pos_next err h data n k :
  boundary err h (take n data ++ slice n k data) (drop (n + k) data)
  = at_pos err h data (n + k).
Proof. unfold at_pos, slice. by rewrite take_take_drop. Qed.

Lemma small_take n data : small data -> small (take n data).
Proof. unfold small. rewrite length_take. lia. Qed.

Lemma extract_ethernet_at err h data n :
  bytes data -> small data ->
  extract_ethernet ethernet0 (at_pos err h data n)
  = if (length (drop n data) <? 14)%nat then Exit reject (at_pos PacketTooShort h data n)
    else Ret (ethernet_of_bytes (slice n 14 data)) (at_pos err h data (n + 14)).
Proof.
  intros Hb Hs. destruct (Nat.ltb_spec (length (drop n data)) 14) as [Hl|Hl].
  - by apply extract_ethernet_short.
  - rewrite length_drop in Hl. rewrite (at_pos_slice err h data n 14).
    rewrite extract_ethernet_ok; [|apply length_slice; lia|by apply slice_bytes
                                  |by apply small_take].
    by rewrite at_pos_next.
Qed.

Lemma extract_ipv4_at err h data n ip :
  bytes data -> small data ->
  extract_ipv4 ip (at_pos err h data n)
  = if (length (drop n data) <? 20)%nat then Exit reject (at_pos PacketTooShort h data n)
    else Ret (ipv4_of_bytes (slice n 20 data)) (at_pos err h data (n + 20)).
Proof.
  intros Hb Hs. destruct (Nat.ltb_spec (length (drop n data)) 20) as [Hl|Hl].
  - by apply extract_ipv4_short.
  - rewrite length_drop in Hl. rewrite (at_pos_slice err h data n 20).
    rewrite extract_ipv4_ok; [|apply length_slice; lia|by apply slice_bytes
                              |by apply small_take].
    by rewrite at_pos_next.
Qed.

Lemma extract_ports_at err h data n :
  bytes data -> small data ->
  extract_ports (at_pos err h data n)
  = if (length (drop n data) <? 4)%nat then Exit reject (at_pos PacketTooShort h data n)
    else Ret (ports_of_bytes (slice n 4 data)) (at_pos err h data (n + 4)).
Proof.
  intros Hb Hs. destruct (Nat.ltb_spec (length (drop n data)) 4) as [Hl|Hl].
  - by apply extract_ports_short.
  - rewrite length_drop in Hl. rewrite (at_pos_slice err h data n 4).
    rewrite extract_ports_ok; [|apply length_slice; lia|by apply slice_bytes
                               |by apply small_take].
    by rewrite at_pos_next.
Qed.

Lemma get_hdr_at err h data n : get_hdr (at_pos err h data n) = Ret h (at_pos err h data n).
Proof. reflexivity. Qed.

Lemma lookahead_at {A} (m : P H A) err h data n x n' :
  m (at_pos err h data n) = Ret x (at_pos err h data n') ->
  lookahead m (at_pos err h data n) = Ret x (at_pos err h data n).
Proof.
  intros E. unfold lookahead. rewrite E. unfold at_pos, boundary, cursor_in. cbn.
  by rewrite !take_drop.
Qed.

Lemma lookahead_exit {A} (m : P H A) s e s' :
  m s = Exit e s' -> lookahead m s = Exit e s'.
Proof. intros E. unfold lookahead. by rewrite E. Qed.

Lemma set_hdr_at err h h' data n :
  set_hdr h' (at_pos err h data n) = Ret tt (at_pos err h' data n).
Proof. reflexivity. Qed.
End ExtractAt.

(** ** Slices of a packet given as a concatenation *)

Lemma slice_0 (a l : list Z) n : length a = n -> slice 0 n (a ++ l) = a.
Proof. intros <-. unfold slice. rewrite drop_0. by apply take_app_length. Qed.

Lemma slice_app (a l : list Z) n m k :
  length a = n -> (n <= m)%nat -> slice m k (a ++ l) = slice (m - n) k l.
Proof. intros <- Hm. unfold slice. by rewrite drop_app_ge. Qed.

Lemma drop_app_sub (a l : list Z) n m :
  length a = n -> (n <= m)%nat -> drop m (a ++ l) = drop (m - n) l.
Proof. intros <- Hm. by rewrite drop_app_ge. Qed.

Lemma slice_ethernet (data : list Z) :
  (14 <= length data)%nat ->
  slice 0 14 data = take 12 data ++ [nth 12 data 0; nth 13 data 0].
Proof.
  intros Hl. rewrite <- (take_drop 12 data) at 1 3 4.
  assert (H12 : length (take 12 data) = 12%nat) by (rewrite length_take; lia).
  assert (Hd : (2 <= length (drop 12 data))%nat) by (rewrite length_drop; lia).
  generalize dependent (take 12 data). generalize dependent (drop 12 data).
  intros d Hd t Ht. destruct d as [|x [|y d]]; [simpl in Hd; lia..|].
  by destruct_length t Ht.
Qed.

Section FieldValues.
Context `{BO : ByteOrder}.

Lemma etherType_of_bytes macs t0 t1 :
  length macs = 12%nat -> bytes (macs ++ [t0; t1]) ->
  eth_etherType (ethernet_of_bytes (macs ++ [t0; t1])) = be_val [t0; t1].
Proof.
  intros Hl Hb. destruct_length macs Hl. cbn [app] in *.
  by rewrite ethernet_of_bytes_explicit.
Qed.

Lemma etherType_of_slice data :
  (14 <= length data)%nat -> bytes data ->
  eth_etherType (ethernet_of_bytes (slice 0 14 data)) = nth 12 data 0 * 256 + nth 13 data 0.
Proof.
  intros Hl Hb. rewrite <- (take_drop 14 data). rewrite (slice_0 (take 14 data));
    [|rewrite length_take; lia].
  pose proof (Forall_take _ 14 _ Hb) as Hb'.
  assert (Hl' : length (take 14 data) = 14%nat) by (rewrite length_take; lia).
  generalize dependent (take 14 data). generalize (drop 14 data). intros l h Hb' Hl'.
  destruct_length h Hl'. rewrite ethernet_of_bytes_explicit by exact Hb'.
  cbn [eth_etherType app nth]. apply be_val_2.
Qed.

(** The fields of an emitted header are those of the struct. *)
Lemma p4_extract_ipv4_to_bytes ip :
  wf_ipv4 ip -> p4_extract ipv4_widths (ipv4_to_bytes ip) = ipv4_fields ip.
Proof. intros (Hf & _). by apply p4_extract_emit. Qed.

Lemma host_val_ntohl bs : length bs = 4%nat -> bytes bs -> bpf_ntohl (host_val bs) = be_val bs.
Proof. intros Hl Hb. unfold bpf_ntohl. rewrite <- Hl. by apply ntoh_host_val. Qed.

Lemma mac_object_bytes bs :
  length bs = 6%nat -> bytes bs -> take 6 (host_bytes 8 (mac_object (be_val bs))) = bs.
Proof.
  intros Hl Hb. rewrite <- be_bytes_mac_value, mac_value_object.
  - rewrite <- Hl. by apply be_bytes_be_val.
  - pose proof (be_val_bound bs Hb) as Hv. by rewrite Hl in Hv.
Qed.

(** The addresses of an extracted Ethernet header, as 64-bit objects. *)
Lemma ethernet_of_bytes_parts dst src t0 t1 :
  length dst = 6%nat -> length src = 6%nat -> bytes (dst ++ src ++ [t0; t1]) ->
  ethernet_of_bytes (dst ++ src ++ [t0; t1])
  = Build_ethernet_t (mac_object (be_val dst)) (mac_object (be_val src)) (be_val [t0; t1]) 1.
Proof.
  intros Hd Hs Hb. destruct_length dst Hd. destruct_length src Hs. cbn [app] in *.
  by rewrite ethernet_of_bytes_explicit.
Qed.

(** Emission of a header whose addresses are given as objects. *)
Lemma ethernet_to_bytes_parts d s t0 t1 v :
  is_byte t0 -> is_byte t1 ->
  ethernet_to_bytes (Build_ethernet_t d s (be_val [t0; t1]) v)
  = take 6 (host_bytes 8 d) ++ take 6 (host_bytes 8 s) ++ [t0; t1].
Proof.
  intros H0 H1. assert (Hb : bytes [t0; t1]) by solve_bytes.
  rewrite ethernet_to_bytes_explicit.
  - cbn [eth_dstAddr eth_srcAddr eth_etherType]. do 2 f_equal. by apply (be_bytes_be_val [t0; t1]).
  - unfold wf_ethernet. cbn [eth_etherType]. by apply (be_val_bound [t0; t1]).
Qed.

Lemma ltb_drop (data : list Z) n k :
  (n <= length data)%nat -> (length (drop n data) <? k)%nat = (length data <? n + k)%nat.
Proof.
  intros Hn. rewrite length_drop.
  destruct (Nat.ltb_spec (length data - n) k), (Nat.ltb_spec (length data) (n + k)); lia.
Qed.

Lemma protocol_of_bytes ip :
  length ip = 20%nat -> bytes ip -> ip_protocol (ipv4_of_bytes ip) = nth 9 ip 0.
Proof. intros Hl Hb. destruct_length ip Hl. by rewrite ipv4_of_bytes_explicit. Qed.

Lemma ttl_of_bytes ip :
  length ip = 20%nat -> bytes ip -> ip_ttl (ipv4_of_bytes ip) = nth 8 ip 0.
Proof. intros Hl Hb. destruct_length ip Hl. by rewrite ipv4_of_bytes_explicit. Qed.

Lemma protocol_field ip v ihl ds tl id fl fo ttl pr hc src dst :
  length ip = 20%nat -> bytes ip ->
  p4_extract ipv4_widths ip = [v; ihl; ds; tl; id; fl; fo; ttl; pr; hc; src; dst] ->
  nth 9 ip 0 = pr /\ ip_version (ipv4_of_bytes ip) = v.
Proof.
  intros Hl Hb. rewrite <- ipv4_of_bytes_fields, <- protocol_of_bytes by done.
  generalize (ipv4_of_bytes ip). intros i Hf.
  pose proof (f_equal (fun l => nth 8 l 0) Hf) as H8.
  pose proof (f_equal (fun l => nth 0 l 0) Hf) as H0.
  cbn [nth ipv4_fields] in H8, H0. split; assumption.
Qed.

Lemma dstAddr_of_bytes ip :
  length ip = 20%nat -> bytes ip ->
  ip_dstAddr (ipv4_of_bytes ip) = host_val (slice 16 4 ip).
Proof.
  intros Hl Hb. destruct_length ip Hl. rewrite ipv4_of_bytes_explicit by done.
  cbn [ip_dstAddr]. unfold slice. cbn [drop take].
  rewrite <- (ntoh_host_val [_; _; _; _]) by (split_bytes Hb; solve_bytes).
  unfold bpf_htonl. rewrite (ntoh_involutive 4); [done|].
  apply (host_val_bound [_; _; _; _]). split_bytes Hb; solve_bytes.
Qed.

Lemma srcAddr_of_bytes ip :
  length ip = 20%nat -> bytes ip ->
  ip_srcAddr (ipv4_of_bytes ip) = host_val (slice 12 4 ip).
Proof.
  intros Hl Hb. destruct_length ip Hl. rewrite ipv4_of_bytes_explicit by done.
  cbn [ip_srcAddr]. unfold slice. cbn [drop take].
  rewrite <- (ntoh_host_val [_; _; _; _]) by (split_bytes Hb; solve_bytes).
  unfold bpf_htonl. rewrite (ntoh_involutive 4); [done|].
  apply (host_val_bound [_; _; _; _]). split_bytes Hb; solve_bytes.
Qed.
End FieldValues.

(** ** IPv4 frames *)

(** An Ethernet frame that carries an IPv4 header. *)
Definition ipv4_frame (macs ip payload : list Z) : list Z := (macs ++ [8; 0]) ++ ip ++ payload.

Definition is_ipv4_frame (macs ip payload data : list Z) : Prop :=
  data = ipv4_frame macs ip payload /\ length macs = 12%nat /\ length ip = 20%nat.

Section Frames.
Implicit Types (macs ip payload data : list Z).

Lemma drop_frame macs ip payload n :
  length macs = 12%nat -> length ip = 20%nat ->
  drop (34 + n) (ipv4_frame macs ip payload) = drop n payload.
Proof.
  intros Hm Hi. unfold ipv4_frame.
  rewrite (drop_app_sub _ _ 14), (drop_app_sub _ _ 20)
    by (rewrite ?length_app, ?Hm; cbn; lia). f_equal. lia.
Qed.

Lemma frame_parts macs ip payload data :
  is_ipv4_frame macs ip payload data -> bytes data ->
  bytes (macs ++ [8; 0]) /\ bytes ip /\ bytes payload.
Proof.
  intros (-> & _) Hb. unfold ipv4_frame in Hb.
  by apply bytes_app in Hb as [? [? ?]%bytes_app].
Qed.

Lemma frame_slices macs ip payload data :
  is_ipv4_frame macs ip payload data ->
  length data = (34 + length payload)%nat /\ slice 0 14 data = macs ++ [8; 0] /\
  slice 14 20 data = ip /\ drop 34 data = payload.
Proof.
  intros (-> & Hm & Hi). assert (He : length (macs ++ [8; 0]) = 14%nat) by (by rewrite length_app, Hm).
  split_and!.
  - unfold ipv4_frame. rewrite !length_app, Hm, Hi. done.
  - apply slice_0, He.
  - unfold ipv4_frame. rewrite (slice_app _ _ 14 14) by (done || lia).
    by apply (slice_0 _ _ 20).
  - by rewrite (drop_frame _ _ _ 0 Hm Hi : drop 34 _ = _), drop_0.
Qed.

Lemma etherType_frame `{BO : ByteOrder} macs :
  length macs = 12%nat -> bytes (macs ++ [8; 0]) ->
  (eth_etherType (ethernet_of_bytes (macs ++ [8; 0])) =? 0x800) = true.
Proof. intros Hm Hb. by rewrite etherType_of_bytes. Qed.
End Frames.
