(* ===== verification/Checksum.v ===== *)
(** The one's complement arithmetic of the parser headers ([csum16_add] and
    [csum16_sub] of every ..._parser.h) and the Internet checksum (RFC 1071)
    it implements. *)

From S2P Require Import Prelude CInt Memory Pna P4Spec Pipeline Steps Headers.

(** ** The C functions *)

Definition csum16_add (csum addend : Z) : Z :=
  let res := u16 (csum + addend) in
  u16 (res + (if res <? addend then 1 else 0)).

Definition csum16_sub (csum addend : Z) : Z :=
  csum16_add csum (u16 (Z.lnot addend)).

(** [chk.set_state(~ip.hdrChecksum); chk.subtract({ip.ttl, ip.protocol}); ...;
    chk.add({ip.ttl, ip.protocol})] around the assignment of [ttl]. *)
Definition chk_replace_ttl (ip : ipv4_t) (ttl : Z) : Z :=
  let chk_state := u16 (Z.lnot (ip_hdrChecksum ip)) in
  let chk_state := csum16_sub chk_state
    (u16 (Z.lor (Z.shiftl (ip_ttl ip) 8) (ip_protocol ip))) in
  csum16_add chk_state (u16 (Z.lor (Z.shiftl ttl 8) (ip_protocol ip))).

(** The TTL is decremented and its word replaced in the checksum. *)
Definition decrement_ttl (ip : ipv4_t) : ipv4_t :=
  let ttl := u8 (ip_ttl ip + 255) in
  { ip with ip_ttl := ttl; ip_hdrChecksum := u16 (Z.lnot (chk_replace_ttl ip ttl)) }.

(** ** RFC 1071 *)

(** The 16-bit words of a byte string, in network order. *)
Fixpoint be_words (bs : list Z) : list Z :=
  match bs with
  | b :: c :: bs => be_val [b; c] :: be_words bs
  | [b] => [be_val [b; 0]]
  | [] => []
  end.

Definition zsum (l : list Z) : Z := foldr Z.add 0 l.

(** The one's complement sum of the words is all ones: 65535 is the only
    representation of zero a sum of words that are not all zero can have. *)
Definition internet_checksum_ok (bs : list Z) : Prop :=
  0 < zsum (be_words bs) /\ zsum (be_words bs) mod 65535 = 0.

(** The words of an IPv4 header, from its fields. *)
Definition ipv4_words `{ByteOrder} (ip : ipv4_t) : list Z :=
  [ip_version ip * 4096 + ip_ihl ip * 256 + ip_diffserv ip; ip_totalLen ip;
   ip_identification ip; ip_flags ip * 8192 + ip_fragOffset ip;
   ip_ttl ip * 256 + ip_protocol ip; ip_hdrChecksum ip;
   bpf_ntohl (ip_srcAddr ip) / 65536; bpf_ntohl (ip_srcAddr ip) mod 65536;
   bpf_ntohl (ip_dstAddr ip) / 65536; bpf_ntohl (ip_dstAddr ip) mod 65536].

(** ** End-around carry *)

Definition word (x : Z) : Prop := 0 <= x < 65536.

Lemma u16_word x : word x -> u16 x = x.
Proof. apply Z.mod_small. Qed.

Lemma word_u16 x : word (u16 x).
Proof. apply Z.mod_pos_bound. lia. Qed.

Lemma u16_lnot x : word x -> u16 (Z.lnot x) = 65535 - x.
Proof.
  unfold word. intros Hx. unfold u16, Z.lnot. change (2 ^ 16) with 65536.
  symmetry. apply (Z.mod_unique _ _ (-1)); lia.
Qed.

(** The carry out of the addition is added back. *)
Lemma csum16_add_spec x y :
  word x -> word y ->
  csum16_add x y = if x + y <? 65536 then x + y else x + y - 65535.
Proof.
  unfold word. intros Hx Hy. unfold csum16_add, u16. change (2 ^ 16) with 65536.
  destruct (Z.ltb_spec (x + y) 65536) as [H|H].
  - rewrite (Z.mod_small (x + y)) by lia.
    destruct (Z.ltb_spec (x + y) y); [lia|]. rewrite Z.add_0_r. by apply Z.mod_small; lia.
  - replace ((x + y) mod 65536) with (x + y - 65536)
      by (apply (Z.mod_unique _ _ 1); lia).
    destruct (Z.ltb_spec (x + y - 65536) y); [|lia]. rewrite Z.mod_small; lia.
Qed.

Lemma csum16_add_word x y : word (csum16_add x y).
Proof. apply word_u16. Qed.

Lemma csum16_sub_word x y : word (csum16_sub x y).
Proof. apply word_u16. Qed.

(** What a chain of [csum16_add] and [csum16_sub] keeps track of: a value
    modulo 65535, which is zero only if nothing was added. *)
Definition csum_of (s v : Z) : Prop := word s /\ exists q, v = s + 65535 * q.

Lemma csum_of_0 : csum_of 0 0.
Proof. split; [unfold word; lia|]. by exists 0. Qed.

Lemma csum_of_add s v x : csum_of s v -> word x -> csum_of (csum16_add s x) (v + x).
Proof.
  intros (Hs & q & ->) Hx. split; [apply csum16_add_word|].
  rewrite csum16_add_spec by done.
  destruct (Z.ltb_spec (s + x) 65536); [exists q|exists (q + 1)]; lia.
Qed.

Lemma csum_of_sub s v x : csum_of s v -> word x -> csum_of (csum16_sub s x) (v - x).
Proof.
  intros Hs Hx. unfold csum16_sub. rewrite u16_lnot by done.
  assert (Hw : word (65535 - x)) by (unfold word in *; lia).
  destruct (csum_of_add s v _ Hs Hw) as (H1 & q & E). split; [done|].
  exists (q - 1). lia.
Qed.

Lemma csum_of_lnot x : word x -> csum_of (u16 (Z.lnot x)) (- x).
Proof.
  intros Hx. rewrite u16_lnot by done.
  split; [unfold word in *; lia|]. exists (-1). lia.
Qed.

(** A nonzero sum of words never becomes the zero pattern. *)
Lemma csum16_add_pos x y : word x -> word y -> 0 < x + y -> 0 < csum16_add x y.
Proof.
  intros Hx Hy Hxy. rewrite csum16_add_spec by done.
  unfold word in *. destruct (Z.ltb_spec (x + y) 65536); lia.
Qed.

(** The complement of the sum [s] of the other words makes the whole sum a
    multiple of 65535. *)
Lemma csum_complement s v : csum_of s v -> (v + u16 (Z.lnot s)) mod 65535 = 0.
Proof.
  intros (Hs & q & ->). rewrite u16_lnot by done.
  replace (s + 65535 * q + (65535 - s)) with ((q + 1) * 65535) by lia.
  apply Z.mod_mul. lia.
Qed.

(** The receiver's check computes the same predicate. *)
Lemma zsum_words_nonneg l : Forall word l -> 0 <= zsum l.
Proof. induction 1 as [|x l Hx Hl IH]; unfold word in *; simpl; lia. Qed.

Lemma foldl_csum l s v :
  Forall word l -> csum_of s v -> csum_of (foldl csum16_add s l) (v + zsum l).
Proof.
  intros Hl. revert s v. induction Hl as [|x l Hx Hl IH]; intros s v Hs; simpl.
  - by rewrite Z.add_0_r.
  - rewrite Z.add_assoc. apply IH. by apply csum_of_add.
Qed.

Lemma foldl_csum_pos l s :
  Forall word l -> word s -> 0 < s + zsum l -> 0 < foldl csum16_add s l.
Proof.
  intros Hl. revert s. induction Hl as [|x l Hx Hl IH]; intros s Hs H; simpl in *; [lia|].
  apply IH; [apply csum16_add_word|]. pose proof (zsum_words_nonneg _ Hl).
  pose proof (csum16_add_spec s x Hs Hx) as E. unfold word in *.
  destruct (Z.ltb_spec (s + x) 65536); lia.
Qed.

Lemma foldl_csum_zero l : Forall word l -> zsum l = 0 -> foldl csum16_add 0 l = 0.
Proof.
  induction 1 as [|x l Hx Hl IH]; intros Hz; simpl in *; [done|].
  pose proof (zsum_words_nonneg _ Hl). unfold word in Hx.
  assert (x = 0) as -> by lia. apply IH. lia.
Qed.

Lemma be_words_word bs : bytes bs -> Forall word (be_words bs).
Proof.
  assert (Hind : forall n bs, (length bs <= n)%nat -> bytes bs -> Forall word (be_words bs)).
  { induction n as [|n IH]; intros [|b [|c l]] Hn Hb; simpl in Hn; try lia;
      split_bytes Hb; cbn [be_words]; constructor; try constructor;
      try (rewrite be_val_2; unfold word, is_byte in *; lia).
    apply IH; [lia|]. done. }
  intros Hb. by apply (Hind (length bs)).
Qed.

Lemma csum16_foldl_ok bs :
  bytes bs -> foldl csum16_add 0 (be_words bs) = 65535 <-> internet_checksum_ok bs.
Proof.
  intros Hb. pose proof (be_words_word bs Hb) as Hw. unfold internet_checksum_ok.
  pose proof (zsum_words_nonneg _ Hw) as Hnn.
  destruct (foldl_csum _ 0 0 Hw csum_of_0) as (Hs & q & E).
  pose proof (foldl_csum_pos _ 0 Hw ltac:(unfold word; lia)) as Hpos.
  set (s := foldl csum16_add 0 (be_words bs)) in *. unfold word in Hs.
  rewrite Z.add_0_l in E. split.
  - intros Hall. split; [|rewrite E, Hall].
    + destruct (Z.eq_dec (zsum (be_words bs)) 0) as [Hz|]; [|lia].
      pose proof (foldl_csum_zero _ Hw Hz). lia.
    + replace (65535 + 65535 * q) with ((q + 1) * 65535) by lia. apply Z.mod_mul. lia.
  - intros (Hgt & Hm). specialize (Hpos ltac:(lia)).
    rewrite E, (Z.mul_comm 65535), Z.mod_add in Hm by lia.
    destruct (Z.eq_dec s 65535) as [|Hne]; [done|].
    rewrite Z.mod_small in Hm by lia. lia.
Qed.

(** The words of the bytes on the wire. *)
Lemma be_words_ipv4_to_bytes `{ByteOrder} ip :
  wf_ipv4 ip -> be_words (ipv4_to_bytes ip) = ipv4_words ip.
Proof.
  intros Hip. rewrite ipv4_to_bytes_explicit by done.
  destruct Hip as (Hf & Hs & Hd). unfold ipv4_widths, ipv4_fields in Hf.
  rewrite !List.Forall2_cons_iff in Hf.
  destruct Hf as (Hv & Hi & Hds & Htl & Hid & Hfl & Hfo & Httl & Hpr & Hhc & Hsr & Hdt & _).
  rewrite <- !be_bytes_ntohl by done. unfold ipv4_words.
  set (src := bpf_ntohl _) in *. set (dst := bpf_ntohl (ip_dstAddr ip)) in *.
  clearbody src dst. unfold fits in *.
  unfold be_bytes. cbn [le_bytes rev app be_words]. rewrite !be_val_2.
  change (2 ^ Z.of_nat 4) with 16 in *. change (2 ^ Z.of_nat 8) with 256 in *.
  change (2 ^ Z.of_nat 16) with 65536 in *. change (2 ^ Z.of_nat 3) with 8 in *.
  change (2 ^ Z.of_nat 13) with 8192 in *. change (2 ^ Z.of_nat 32) with 4294967296 in *.
  repeat (apply (f_equal2 (@cons Z)); [Z.to_euclidean_division_equations; lia|]).
  done.
Qed.

Lemma ipv4_words_word `{ByteOrder} ip : wf_ipv4 ip -> Forall word (ipv4_words ip).
Proof.
  intros Hip. rewrite <- be_words_ipv4_to_bytes by done. apply be_words_word, bytes_p4_emit.
Qed.

(** ** The words the generated code feeds to the checksum *)

Lemma lor_shift hi lo k :
  0 <= k -> 0 <= lo < 2 ^ k -> Z.lor (Z.shiftl hi k) lo = hi * 2 ^ k + lo.
Proof. intros Hk Hlo. rewrite Z.shiftl_mul_pow2 by done. by apply lor_disjoint_add. Qed.

Lemma chk_word_version v ihl ds :
  0 <= v < 16 -> 0 <= ihl < 16 -> 0 <= ds < 256 ->
  u16 (Z.lor (Z.lor (Z.shiftl v 12) (Z.shiftl ihl 8)) ds) = v * 4096 + ihl * 256 + ds.
Proof.
  intros Hv Hi Hd. rewrite (Z.shiftl_mul_pow2 ihl 8) by lia.
  rewrite (lor_shift v (ihl * 2 ^ 8) 12) by lia.
  replace (v * 2 ^ 12 + ihl * 2 ^ 8) with ((v * 16 + ihl) * 2 ^ 8) by lia.
  rewrite lor_disjoint_add by lia. rewrite u16_word by (unfold word; lia). lia.
Qed.

Lemma chk_word_flags fl fo :
  0 <= fl < 8 -> 0 <= fo < 8192 -> u16 (Z.lor (Z.shiftl fl 13) fo) = fl * 8192 + fo.
Proof. intros Hf Ho. rewrite lor_shift by lia. apply u16_word. unfold word. lia. Qed.

Lemma chk_word_ttl ttl pr :
  0 <= ttl < 256 -> 0 <= pr < 256 -> u16 (Z.lor (Z.shiftl ttl 8) pr) = ttl * 256 + pr.
Proof. intros Ht Hp. rewrite lor_shift by lia. apply u16_word. unfold word. lia. Qed.

Lemma chk_word_high x : 0 <= x < 4294967296 -> u16 (Z.shiftr x 16) = x / 65536.
Proof.
  intros Hx. rewrite Z.shiftr_div_pow2 by lia. apply u16_word. unfold word.
  change (2 ^ 16) with 65536. Z.to_euclidean_division_equations. lia.
Qed.

Lemma chk_word_low x : u16 x = x mod 65536.
Proof. done. Qed.

(** ** Header checksums *)

Section HeaderChecksum.
Context `{BO : ByteOrder}.

(** The sum of the words other than the checksum. *)
Definition sum_but_checksum (ip : ipv4_t) : Z := zsum (ipv4_words ip) - ip_hdrChecksum ip.

Lemma sum_but_checksum_set ip c :
  sum_but_checksum { ip with ip_hdrChecksum := c } = sum_but_checksum ip.
Proof. destruct ip. cbv -[Z.add Z.sub Z.mul Z.div Z.modulo bpf_ntohl]. lia. Qed.

Lemma internet_checksum_ok_iff ip :
  wf_ipv4 ip ->
  internet_checksum_ok (ipv4_to_bytes ip) <->
  0 < sum_but_checksum ip + ip_hdrChecksum ip /\
  (sum_but_checksum ip + ip_hdrChecksum ip) mod 65535 = 0.
Proof.
  intros Hip. unfold internet_checksum_ok. rewrite be_words_ipv4_to_bytes by done.
  unfold sum_but_checksum. by rewrite Z.sub_add.
Qed.

Lemma sum_but_checksum_pos ip : wf_ipv4 ip -> 0 < ip_ttl ip \/ 0 < ip_version ip ->
  0 < sum_but_checksum ip.
Proof.
  intros Hip Hp. apply wf_ipv4_iff in Hip.
  pose proof (ntoh_bound 4 (ip_srcAddr ip)) as Hs.
  pose proof (ntoh_bound 4 (ip_dstAddr ip)) as Hd.
  change (256 ^ Z.of_nat 4) with 4294967296 in *.
  unfold sum_but_checksum, zsum, ipv4_words, bpf_ntohl. cbn [foldr].
  set (src := ntoh 4 (ip_srcAddr ip)) in *. set (dst := ntoh 4 (ip_dstAddr ip)) in *.
  assert (0 <= src / 65536 /\ 0 <= src mod 65536) by (Z.to_euclidean_division_equations; lia).
  assert (0 <= dst / 65536 /\ 0 <= dst mod 65536) by (Z.to_euclidean_division_equations; lia).
  lia.
Qed.

(** Only the word of the TTL changes with the TTL. *)
Lemma sum_but_checksum_ttl ip t c :
  sum_but_checksum { ip with ip_ttl := t; ip_hdrChecksum := c } - sum_but_checksum ip
  = (t - ip_ttl ip) * 256.
Proof. destruct ip. cbv -[Z.add Z.sub Z.mul Z.div Z.modulo bpf_ntohl]. lia. Qed.

(** The incremental update of the generated code: complement, subtract the
    old word, add the new one. *)
Lemma csum_of_ttl_update hc ttl ttl' pr :
  word hc -> 0 <= ttl < 256 -> 0 <= ttl' < 256 -> 0 <= pr < 256 ->
  csum_of (csum16_add (csum16_sub (u16 (Z.lnot hc)) (u16 (Z.lor (Z.shiftl ttl 8) pr)))
             (u16 (Z.lor (Z.shiftl ttl' 8) pr)))
    (- hc + (ttl' - ttl) * 256).
Proof.
  intros Hc Ht Ht' Hp. rewrite !chk_word_ttl by done.
  replace (- hc + (ttl' - ttl) * 256)
    with (- hc - (ttl * 256 + pr) + (ttl' * 256 + pr)) by lia.
  apply csum_of_add; [apply csum_of_sub; [by apply csum_of_lnot|]|]; unfold word; lia.
Qed.

(** A checksum computed from scratch verifies. *)
Lemma checksum_fresh_ok ip s :
  wf_ipv4 ip -> csum_of s (sum_but_checksum ip) -> 0 < sum_but_checksum ip ->
  ip_hdrChecksum ip = u16 (Z.lnot s) -> internet_checksum_ok (ipv4_to_bytes ip).
Proof.
  intros Hip Hs Hp Hc. apply internet_checksum_ok_iff; [done|].
  rewrite Hc. split; [|by apply csum_complement].
  pose proof (word_u16 (Z.lnot s)). unfold word in *. lia.
Qed.

(** A checksum that is updated for the change of some words verifies if the
    old one did. *)
Lemma checksum_update_ok ip ip' s :
  wf_ipv4 ip -> wf_ipv4 ip' -> 0 < sum_but_checksum ip' ->
  csum_of s (- ip_hdrChecksum ip + (sum_but_checksum ip' - sum_but_checksum ip)) ->
  ip_hdrChecksum ip' = u16 (Z.lnot s) ->
  internet_checksum_ok (ipv4_to_bytes ip) -> internet_checksum_ok (ipv4_to_bytes ip').
Proof.
  intros Hip Hip' Hp Hs Hc. rewrite !internet_checksum_ok_iff by done.
  intros (_ & Hm). pose proof (csum_complement _ _ Hs) as Hm'.
  rewrite Hc. split; [pose proof (word_u16 (Z.lnot s)); unfold word in *; lia|].
  apply Z.mod_divide in Hm, Hm'; [|lia..]. apply Z.mod_divide; [lia|].
  replace (sum_but_checksum ip' + u16 (Z.lnot s))
    with ((sum_but_checksum ip + ip_hdrChecksum ip)
          + (- ip_hdrChecksum ip + (sum_but_checksum ip' - sum_but_checksum ip)
             + u16 (Z.lnot s))) by lia.
  by apply Z.divide_add_r.
Qed.

(** *** Decrementing the TTL *)

Lemma decrement_ttl_wf ip : wf_ipv4 ip -> wf_ipv4 (decrement_ttl ip).
Proof. intros H. solve_wf_ipv4. Qed.

Lemma decrement_ttl_fields (ip : ipv4_t) v ihl ds tl id fl fo ttl pr hc src dst :
  ipv4_fields ip = [v; ihl; ds; tl; id; fl; fo; ttl; pr; hc; src; dst] ->
  ipv4_fields (decrement_ttl ip)
  = [v; ihl; ds; tl; id; fl; fo; (ttl - 1) mod 2 ^ 8; pr;
     ip_hdrChecksum (decrement_ttl ip); src; dst].
Proof.
  intros Hf. injection Hf; intros. subst.
  replace ((ip_ttl ip - 1) mod 2 ^ 8) with (ip_ttl (decrement_ttl ip)); [reflexivity|].
  change (ip_ttl (decrement_ttl ip)) with (u8 (ip_ttl ip + 255)). unfold u8.
  replace (ip_ttl ip + 255) with (ip_ttl ip - 1 + 1 * 2 ^ 8) by lia.
  by rewrite Z.mod_add.
Qed.

(** A header that verifies still does. *)
Lemma decrement_ttl_checksum ip :
  wf_ipv4 ip -> 0 < ip_version ip ->
  internet_checksum_ok (ipv4_to_bytes ip) ->
  internet_checksum_ok (ipv4_to_bytes (decrement_ttl ip)).
Proof.
  intros Hip Hv. pose proof (decrement_ttl_wf ip Hip) as Hw.
  eapply checksum_update_ok; [done|done| | |reflexivity].
  - apply sum_but_checksum_pos; [done|by right].
  - unfold decrement_ttl. rewrite sum_but_checksum_ttl.
    apply wf_ipv4_iff in Hip as (?&?&?&?&?&?&?&?&?&?&?&?).
    by apply csum_of_ttl_update; [..|apply byte_range|].
Qed.
End HeaderChecksum.
