(* ===== verification/Deparse.v ===== *)
(** The deparser's common blocks and what they leave in the packet: making
    room for the headers to emit, and emitting a header that is valid. *)

From S2P Require Import Prelude CInt Memory Pna P4Spec Pipeline Steps Headers.

(** ** The blocks [if (hdr->x.ebpf_valid) { ... }] *)

Section Blocks.
Context `{BO : ByteOrder} `{K : P4tcKernel} {H U : Type}.

Definition emit_ethernet_block (get : H -> ethernet_t) (set : ethernet_t -> H -> H)
  : X H U unit :=
  hdr <- get_headers ;;
  when (is_valid (eth_valid (get hdr)))
    (e <- emit_ethernet (get hdr) ;; set_headers (set e hdr)).

Definition emit_ipv4_block (get : H -> ipv4_t) (set : ipv4_t -> H -> H) : X H U unit :=
  hdr <- get_headers ;;
  when (is_valid (ip_valid (get hdr)))
    (ip <- emit_ipv4 (get hdr) ;; set_headers (set ip hdr)).

(** The same for a struct in a local variable, which is not used again. *)
Definition emit_local_ipv4 (ip : ipv4_t) : X H U unit :=
  when (is_valid (ip_valid ip)) (_ <- emit_ipv4 ip ;; ret tt).

Definition emit_ports_block (get : H -> ports_t) (set : ports_t -> H -> H) : X H U unit :=
  hdr <- get_headers ;;
  when (is_valid (ports_valid (get hdr)))
    (h <- emit_ports (get hdr) ;; set_headers (set h hdr)).

(** The bytes they emit, and the structs they leave. *)
Definition out_ethernet (e : ethernet_t) : list Z :=
  if is_valid (eth_valid e) then ethernet_to_bytes e else [].
Definition out_ipv4 (ip : ipv4_t) : list Z :=
  if is_valid (ip_valid ip) then ipv4_to_bytes ip else [].
Definition out_ports (h : ports_t) : list Z :=
  if is_valid (ports_valid h) then ports_to_bytes h else [].

Definition left_ethernet (e : ethernet_t) : ethernet_t :=
  { e with eth_etherType := bpf_htons (eth_etherType e) }.
Definition left_ipv4 (ip : ipv4_t) : ipv4_t :=
  { ip with ip_totalLen := bpf_htons (ip_totalLen ip);
            ip_identification := bpf_htons (ip_identification ip);
            ip_fragOffset := bpf_htons (Z.shiftl (ip_fragOffset ip) 3);
            ip_hdrChecksum := bpf_htons (ip_hdrChecksum ip) }.
Definition left_ports (h : ports_t) : ports_t :=
  { h with srcPort := bpf_htons (srcPort h); dstPort := bpf_htons (dstPort h) }.
End Blocks.

(** The kernel makes room in every packet of [n] bytes. *)
Definition room_available `{P4tcKernel} (n : nat) (d : Z) : Prop :=
  d = 0 \/ forall skb, length (skb_data skb) = n ->
                     fst (bpf_skb_adjust_room skb d BPF_ADJ_ROOM_MAC 0) = 0.

Section BlockLemmas.
Context `{BO : ByteOrder} `{K : P4tcKernel} {H U : Type}.
Implicit Types (s : xstate H U) (a l : list Z).

Lemma out_ipv4_valid ip : ip_valid ip = 1 -> out_ipv4 ip = ipv4_to_bytes ip.
Proof. intros Hv. unfold out_ipv4. by rewrite Hv. Qed.

Lemma out_ipv4_invalid ip : ip_valid ip = 0 -> out_ipv4 ip = [].
Proof. intros Hv. unfold out_ipv4. by rewrite Hv. Qed.

Lemma out_ethernet_valid e : eth_valid e = 1 -> out_ethernet e = ethernet_to_bytes e.
Proof. intros Hv. unfold out_ethernet. by rewrite Hv. Qed.

Lemma out_ethernet_frame macs t0 t1 :
  length macs = 12%nat -> bytes (macs ++ [t0; t1]) ->
  out_ethernet (ethernet_of_bytes (macs ++ [t0; t1])) = macs ++ [t0; t1].
Proof.
  intros Hm Hb. assert (He : length (macs ++ [t0; t1]) = 14%nat) by (by rewrite length_app, Hm).
  rewrite out_ethernet_valid by (by apply ethernet_of_bytes_valid).
  by apply ethernet_to_of_bytes.
Qed.

(** A parsed Ethernet header that nobody changed. *)
Lemma out_ethernet_same data :
  (14 <= length data)%nat -> bytes data ->
  out_ethernet (ethernet_of_bytes (slice 0 14 data)) ++ drop 14 data = data /\
  length (out_ethernet (ethernet_of_bytes (slice 0 14 data))) = 14%nat.
Proof.
  intros Hl Hb. assert (Hs : length (slice 0 14 data) = 14%nat) by (apply length_slice; lia).
  assert (Hbs : bytes (slice 0 14 data)) by by apply slice_bytes.
  rewrite out_ethernet_valid, ethernet_to_of_bytes by (done || by apply ethernet_of_bytes_valid).
  split; [|exact Hs]. unfold slice. rewrite drop_0. apply take_drop.
Qed.

(** Rewriting the destination address of an extracted header. *)
Lemma out_ethernet_dst macs t0 t1 d :
  length macs = 12%nat -> bytes (macs ++ [t0; t1]) ->
  out_ethernet { (ethernet_of_bytes (macs ++ [t0; t1])) with eth_dstAddr := d }
  = (take 6 (host_bytes 8 d) ++ drop 6 macs) ++ [t0; t1].
Proof.
  intros Hm Hb. apply bytes_app in Hb as [Hbm Hbt]. split_bytes Hbt.
  rewrite <- (take_drop 6 macs) at 1. rewrite <- !app_assoc.
  rewrite ethernet_of_bytes_parts; [|rewrite length_take; lia|rewrite length_drop; lia|].
  - rewrite out_ethernet_valid by done.
    etransitivity; [exact (ethernet_to_bytes_parts d _ t0 t1 1 Hx Hx0)|].
    rewrite mac_object_bytes; [done|rewrite length_drop; lia|by apply Forall_drop].
  - rewrite app_assoc, take_drop. solve_bytes.
Qed.

(** Rewriting both addresses. *)
Lemma out_ethernet_addrs macs t0 t1 d c :
  length macs = 12%nat -> bytes (macs ++ [t0; t1]) ->
  out_ethernet { (ethernet_of_bytes (macs ++ [t0; t1])) with eth_dstAddr := d; eth_srcAddr := c }
  = take 6 (host_bytes 8 d) ++ take 6 (host_bytes 8 c) ++ [t0; t1].
Proof.
  intros Hm Hb. apply bytes_app in Hb as [Hbm Hbt]. split_bytes Hbt.
  rewrite <- (take_drop 6 macs) at 1. rewrite <- !app_assoc.
  rewrite ethernet_of_bytes_parts; [|rewrite length_take; lia|rewrite length_drop; lia|].
  - rewrite out_ethernet_valid by done. exact (ethernet_to_bytes_parts d c t0 t1 1 Hx Hx0).
  - rewrite app_assoc, take_drop. solve_bytes.
Qed.

(** The addresses of an extracted header, emitted in the other order. *)
Lemma ethernet_addrs macs t0 t1 :
  length macs = 12%nat -> bytes (macs ++ [t0; t1]) ->
  let e := ethernet_of_bytes (macs ++ [t0; t1]) in
  take 6 (host_bytes 8 (eth_dstAddr e)) = take 6 macs /\
  take 6 (host_bytes 8 (eth_srcAddr e)) = drop 6 macs /\
  0 <= eth_dstAddr e < 2 ^ 64.
Proof.
  intros Hm Hb. cbn zeta. apply bytes_app in Hb as [Hbm Hbt].
  assert (H6 : length (take 6 macs) = 6%nat) by (rewrite length_take; lia).
  assert (H6' : length (drop 6 macs) = 6%nat) by (rewrite length_drop; lia).
  rewrite <- (take_drop 6 macs) at 1 3 5 6. rewrite <- !app_assoc.
  rewrite ethernet_of_bytes_parts; [|done|done|rewrite app_assoc, take_drop; by apply bytes_app].
  cbn [eth_dstAddr eth_srcAddr]. split; [|split].
  - apply mac_object_bytes; [done|by apply Forall_take].
  - apply mac_object_bytes; [done|by apply Forall_drop].
  - unfold mac_object.
    pose proof (host_val_bound (be_bytes 6 (be_val (take 6 macs)) ++ [0; 0])) as Hv.
    rewrite length_app, length_be_bytes in Hv. apply Hv, bytes_app.
    split; [apply bytes_rev, bytes_le_bytes|solve_bytes].
Qed.

Lemma length_out_ethernet e :
  length (out_ethernet e) = if is_valid (eth_valid e) then 14%nat else 0%nat.
Proof. unfold out_ethernet. case_match; [apply length_ethernet_to_bytes|done]. Qed.

Lemma length_out_ipv4 ip :
  length (out_ipv4 ip) = if is_valid (ip_valid ip) then 20%nat else 0%nat.
Proof. unfold out_ipv4. case_match; [apply length_ipv4_to_bytes|done]. Qed.

Lemma length_out_ports h :
  length (out_ports h) = if is_valid (ports_valid h) then 4%nat else 0%nat.
Proof. unfold out_ports. case_match; [apply length_ports_to_bytes|done]. Qed.

Lemma emit_ethernet_block_ok get set s a l :
  let e := get (x_hdr s) in
  wf_ethernet e -> tiny a -> (length (out_ethernet e) <= length l)%nat ->
  emit_ethernet_block get set (cursor_out s a l 0)
  = Ret tt (cursor_out
      { s with x_hdr := if is_valid (eth_valid e) then set (left_ethernet e) (x_hdr s)
                        else x_hdr s }
      (a ++ out_ethernet e) (drop (length (out_ethernet e)) l) 0).
Proof.
  cbn zeta. intros Hw Ha Hl. unfold emit_ethernet_block.
  rewrite (bind_Ret _ _ _ _ _ (get_headers_out _ _ _ _)).
  rewrite length_out_ethernet in *. unfold out_ethernet, when.
  destruct (is_valid (eth_valid (get (x_hdr s)))).
  - rewrite <- (take_drop 14 l) at 1.
    rewrite (bind_Ret _ _ _ _ _ (emit_ethernet_ok s _ a (take 14 l) (drop 14 l) Hw
               ltac:(rewrite length_take; lia) Ha)).
    apply set_headers_out.
  - rewrite app_nil_r, drop_0. by destruct s.
Qed.

Lemma emit_ipv4_block_ok get set s a l :
  let ip := get (x_hdr s) in
  wf_ipv4 ip -> tiny a -> bytes l -> (length (out_ipv4 ip) <= length l)%nat ->
  emit_ipv4_block get set (cursor_out s a l 0)
  = Ret tt (cursor_out
      { s with x_hdr := if is_valid (ip_valid ip) then set (left_ipv4 ip) (x_hdr s)
                        else x_hdr s }
      (a ++ out_ipv4 ip) (drop (length (out_ipv4 ip)) l) 0).
Proof.
  cbn zeta. intros Hw Ha Hb Hl. unfold emit_ipv4_block.
  rewrite (bind_Ret _ _ _ _ _ (get_headers_out _ _ _ _)).
  rewrite length_out_ipv4 in *. unfold out_ipv4, when.
  destruct (is_valid (ip_valid (get (x_hdr s)))).
  - rewrite <- (take_drop 20 l) at 1.
    rewrite (bind_Ret _ _ _ _ _ (emit_ipv4_ok s _ a (take 20 l) (drop 20 l) Hw
               ltac:(rewrite length_take; lia) (Forall_take _ _ _ Hb) Ha)).
    apply set_headers_out.
  - rewrite app_nil_r, drop_0. by destruct s.
Qed.

Lemma emit_ports_block_ok get set s a l :
  let h := get (x_hdr s) in
  wf_ports h -> tiny a -> (length (out_ports h) <= length l)%nat ->
  emit_ports_block get set (cursor_out s a l 0)
  = Ret tt (cursor_out
      { s with x_hdr := if is_valid (ports_valid h) then set (left_ports h) (x_hdr s)
                        else x_hdr s }
      (a ++ out_ports h) (drop (length (out_ports h)) l) 0).
Proof.
  cbn zeta. intros Hw Ha Hl. unfold emit_ports_block.
  rewrite (bind_Ret _ _ _ _ _ (get_headers_out _ _ _ _)).
  rewrite length_out_ports in *. unfold out_ports, when.
  destruct (is_valid (ports_valid (get (x_hdr s)))).
  - rewrite <- (take_drop 4 l) at 1.
    rewrite (bind_Ret _ _ _ _ _ (emit_ports_ok s _ a (take 4 l) (drop 4 l) Hw
               ltac:(rewrite length_take; lia) Ha)).
    apply set_headers_out.
  - rewrite app_nil_r, drop_0. by destruct s.
Qed.
End BlockLemmas.

(** ** Making room *)

Section Resize.
Context `{BO : ByteOrder} `{K : P4tcKernel} `{!P4tcKernelOk K} {H U : Type}.
Implicit Types (s : xstate H U).

(** Resizing replaces the parsed bytes by [n] arbitrary ones and keeps the
    rest of the packet. *)
Lemma adjusted_front skb skb' d p payload n :
  adjusted skb skb' d -> skb_data skb = p ++ payload -> bytes p ->
  Z.of_nat n = Z.of_nat (length p) + d -> (14 <= length p)%nat -> (14 <= n)%nat ->
  exists front, length front = n /\ bytes front /\ skb_data skb' = front ++ payload.
Proof.
  intros (room & Hrb & Hrl & Hlen & Hd & _) E Hp Hn H14 Hn14.
  rewrite E in *. clear E. unfold ETH_HLEN in *.
  rewrite take_app_le, drop_app_le in Hd by lia.
  exists (take 14 p ++ room ++ drop (14 + Z.to_nat (- d)) p). split_and!.
  - rewrite !length_app, length_take, length_drop. lia.
  - apply bytes_app; split; [by apply Forall_take|].
    apply bytes_app; split; [done|by apply Forall_drop].
  - by rewrite Hd, <- !app_assoc.
Qed.

Lemma resize_cases {A} (k : X H U A) s p payload d n :
  skb_data (x_skb s) = p ++ payload -> bytes p ->
  Z.of_nat n = Z.of_nat (length p) + d ->
  d = 0 \/ (14 <= length p)%nat /\ (14 <= n)%nat ->
  (exists skb', (adjust_room d ;; reset_offset ;; k) s
                = Exit TC_ACT_SHOT { s with x_skb := skb' }
                /\ ~ room_available (length (p ++ payload)) d) \/
  (exists skb' front,
     length front = n /\ bytes front /\ skb_data skb' = front ++ payload /\
     skb_ifindex skb' = skb_ifindex (x_skb s) /\ skb_cb skb' = skb_cb (x_skb s) /\
     (adjust_room d ;; reset_offset ;; k) s
     = k (cursor_out { s with x_skb := skb' } [] (front ++ payload) 0)).
Proof.
  intros E Hp Hn Hd.
  assert (Hunf : forall r, bpf_skb_adjust_room (x_skb s) d BPF_ADJ_ROOM_MAC 0 = r ->
    (adjust_room d ;; reset_offset ;; k) s
    = if d =? 0 then (reset_offset ;; k) s else
      if fst r =? 0 then (reset_offset ;; k) { s with x_skb := snd r }
      else Exit TC_ACT_SHOT { s with x_skb := snd r }).
  { intros r <-. unfold bind at 1, adjust_room. destruct (d =? 0); [done|].
    destruct (bpf_skb_adjust_room _ _ _ _) as [rc skb']. cbn [fst snd].
    by destruct (rc =? 0). }
  rewrite (Hunf _ eq_refl). clear Hunf.
  destruct (Z.eqb_spec d 0) as [->|Hd0].
  - right. exists (x_skb s), p. split_and!; try done; [lia|].
    unfold reset_offset, bind, cursor_out, with_data. cbn. f_equal.
    destruct s as [[] ? ? ? ?]; cbn in *. by subst.
  - destruct Hd as [|[Hp14 Hn14]]; [lia|].
    destruct (bpf_skb_adjust_room (x_skb s) d BPF_ADJ_ROOM_MAC 0) as [rc skb'] eqn:Er. cbn [fst snd].
    destruct (Z.eqb_spec rc 0) as [->|Hrc].
    + right. pose proof (adjust_room_ok _ _ _ Er) as Ha.
      destruct (adjusted_front _ _ _ _ _ _ Ha E Hp Hn Hp14 Hn14) as (front & Hf & Hb & Ed).
      destruct Ha as (_ & _ & _ & _ & _ & Hi & Hc).
      exists skb', front. split_and!; try done.
      unfold reset_offset, bind, cursor_out, with_data. cbn. f_equal.
      destruct s as [? ? ? ? ?], skb'; cbn in *. by subst.
    + left. exists skb'. split; [done|]. intros [|Hr]; [done|].
      specialize (Hr (x_skb s)). rewrite Er, E in Hr. specialize (Hr eq_refl).
      cbn in Hr. by subst.
Qed.

Lemma resize_ok {A} (k : X H U A) s p payload d n :
  skb_data (x_skb s) = p ++ payload -> bytes p ->
  Z.of_nat n = Z.of_nat (length p) + d ->
  d = 0 \/ (14 <= length p)%nat /\ (14 <= n)%nat ->
  room_available (length (p ++ payload)) d ->
  exists skb' front,
     length front = n /\ bytes front /\ skb_data skb' = front ++ payload /\
     skb_ifindex skb' = skb_ifindex (x_skb s) /\ skb_cb skb' = skb_cb (x_skb s) /\
     (adjust_room d ;; reset_offset ;; k) s
     = k (cursor_out { s with x_skb := skb' } [] (front ++ payload) 0).
Proof.
  intros E Hp Hn Hd Hr.
  destruct (resize_cases k s p payload d n E Hp Hn Hd) as [(? & _ & Hno)|?]; done.
Qed.

Lemma return_if_dropped_no {A} (k : unit -> X H U A) s :
  drop_flag (skb_cb (x_skb s)) = false -> bind return_if_dropped k s = k tt s.
Proof. intros E. unfold return_if_dropped, bind. by rewrite E. Qed.

Lemma return_if_dropped_yes {A} (k : unit -> X H U A) s :
  drop_flag (skb_cb (x_skb s)) = true ->
  bind return_if_dropped k s = Exit TC_ACT_SHOT s.
Proof. intros E. unfold return_if_dropped, bind. by rewrite E. Qed.
End Resize.

(** ** Sequences of emission blocks *)

Section Emits.
Context `{BO : ByteOrder} `{K : P4tcKernel} {H U : Type}.
Implicit Types (s : xstate H U) (a l : list Z) (pre : H -> Prop) (out : H -> list Z)
  (mods : H -> H -> Prop).

(** [m] emits [out] of the headers it finds, and changes the headers only as
    [mods] allows. *)
Definition emits (m : X H U unit) pre out mods : Prop :=
  forall s a l,
    pre (x_hdr s) -> bytes l -> tiny (a ++ out (x_hdr s)) ->
    (length (out (x_hdr s)) <= length l)%nat ->
    exists h, mods (x_hdr s) h /\
      m (cursor_out s a l 0)
      = Ret tt (cursor_out { s with x_hdr := h } (a ++ out (x_hdr s))
                  (drop (length (out (x_hdr s))) l) 0).

Definition updates {T} (set : T -> H -> H) (h h' : H) : Prop :=
  h' = h \/ exists t, h' = set t h.

Lemma emits_ethernet get set :
  emits (emit_ethernet_block get set) (fun h => wf_ethernet (get h))
    (fun h => out_ethernet (get h)) (updates set).
Proof.
  intros s a l Hp Hb Ht Hl. eexists. split; cycle 1.
  - apply emit_ethernet_block_ok; [done|unfold tiny in *; rewrite length_app in Ht; lia|done].
  - unfold updates. case_match; eauto.
Qed.

Lemma emits_ipv4 get set :
  emits (emit_ipv4_block get set) (fun h => wf_ipv4 (get h))
    (fun h => out_ipv4 (get h)) (updates set).
Proof.
  intros s a l Hp Hb Ht Hl. eexists. split; cycle 1.
  - apply emit_ipv4_block_ok;
      [done|unfold tiny in *; rewrite length_app in Ht; lia|done|done].
  - unfold updates. case_match; eauto.
Qed.

Lemma emits_ports get set :
  emits (emit_ports_block get set) (fun h => wf_ports (get h))
    (fun h => out_ports (get h)) (updates set).
Proof.
  intros s a l Hp Hb Ht Hl. eexists. split; cycle 1.
  - apply emit_ports_block_ok; [done|unfold tiny in *; rewrite length_app in Ht; lia|done].
  - unfold updates. case_match; eauto.
Qed.

Lemma emits_local ip :
  emits (emit_local_ipv4 ip) (fun _ => wf_ipv4 ip) (fun _ => out_ipv4 ip) eq.
Proof.
  intros s a l Hp Hb Ht Hl. exists (x_hdr s). split; [done|].
  rewrite length_out_ipv4 in Hl. unfold emit_local_ipv4, when, out_ipv4 in *.
  destruct (is_valid (ip_valid ip)).
  - rewrite <- (take_drop 20 l) at 1.
    rewrite (bind_Ret _ _ _ _ _ (emit_ipv4_ok s ip a (take 20 l) (drop 20 l) Hp
               ltac:(rewrite length_take; lia) (Forall_take _ _ _ Hb)
               ltac:(unfold tiny in *; rewrite length_app in Ht; lia))).
    rewrite length_ipv4_to_bytes. by destruct s.
  - rewrite app_nil_r, drop_0. by destruct s.
Qed.

(** Later blocks emit what they would have emitted first, provided the
    earlier ones leave their headers alone. *)
Lemma emits_seq m1 m2 pre1 pre2 out1 out2 mods1 mods2 :
  emits m1 pre1 out1 mods1 -> emits m2 pre2 out2 mods2 ->
  (forall h h', mods1 h h' -> out2 h' = out2 h /\ (pre2 h -> pre2 h')) ->
  emits (m1 ;; m2) (fun h => pre1 h /\ pre2 h) (fun h => out1 h ++ out2 h)
    (fun h h' => exists h1, mods1 h h1 /\ mods2 h1 h').
Proof.
  intros H1 H2 Hf s a l [Hp1 Hp2] Hb Ht Hl. cbv beta in *.
  rewrite !length_app in Hl. unfold tiny in Ht. rewrite !length_app in Ht.
  destruct (H1 s a l Hp1 Hb) as (h1 & Hm1 & E1);
    [unfold tiny; rewrite length_app; lia|lia|].
  destruct (Hf _ _ Hm1) as [Ho2 Hp2'].
  destruct (H2 { s with x_hdr := h1 } (a ++ out1 (x_hdr s))
              (drop (length (out1 (x_hdr s))) l)) as (h2 & Hm2 & E2);
    change (x_hdr { s with x_hdr := h1 }) with h1 in *.
  - by apply Hp2'.
  - by apply Forall_drop.
  - rewrite Ho2. unfold tiny. rewrite !length_app. lia.
  - rewrite Ho2, length_drop. lia.
  - exists h2. split; [eauto|]. rewrite (bind_Ret _ _ _ _ _ E1), E2, Ho2.
    by rewrite drop_drop, <- app_assoc, <- length_app.
Qed.
End Emits.

(** ** The deparser *)

Section Deparser.
Context `{BO : ByteOrder} `{K : P4tcKernel} `{!P4tcKernelOk K} {H U : Type}.
Implicit Types (s : xstate H U).

(** From the test of [compiler_meta__->drop] to the reset of the offset:
    the packet gets the room the headers need. *)
Definition make_room (outHeaderLength : H -> Z) (hdr_start : Z) : X H U unit :=
  return_if_dropped ;;
  hdr <- get_headers ;;
  adjust_room (BYTES (outHeaderLength hdr) - hdr_start) ;;
  reset_offset.

(** Given a packet whose first bytes are what was parsed, the deparser
    drops it, or replaces those bytes by [out] of the headers. *)
Lemma deparser_frame_spec outHeaderLength emit pre out mods s p payload :
  emits emit pre out mods ->
  (forall h, BYTES (outHeaderLength h) = Z.of_nat (length (out h))) ->
  skb_data (x_skb s) = p ++ payload -> bytes (p ++ payload) -> pre (x_hdr s) ->
  Z.of_nat (length (out (x_hdr s))) < 65536 ->
  length p = length (out (x_hdr s)) \/ (14 <= length p /\ 14 <= length (out (x_hdr s)))%nat ->
  drop_flag (skb_cb (x_skb s)) = false ->
  let d := Z.of_nat (length (out (x_hdr s))) - Z.of_nat (length p) in
  (exists s', (make_room outHeaderLength (Z.of_nat (length p)) ;; emit) s
              = Exit TC_ACT_SHOT s' /\ ~ room_available (length (p ++ payload)) d) \/
  (exists s', (make_room outHeaderLength (Z.of_nat (length p)) ;; emit) s = Ret tt s' /\
     skb_data (x_skb s') = out (x_hdr s) ++ payload /\
     skb_ifindex (x_skb s') = skb_ifindex (x_skb s) /\
     skb_cb (x_skb s') = skb_cb (x_skb s) /\ x_kern s' = x_kern s).
Proof.
  cbn zeta. intros Hem HL E Hb Hpre Hn Hp Hd. apply bytes_app in Hb as [Hbp Hbpl].
  set (n := length (out (x_hdr s))) in *.
  assert (Hdep : (make_room outHeaderLength (Z.of_nat (length p)) ;; emit) s
    = (adjust_room (Z.of_nat n - Z.of_nat (length p)) ;; reset_offset ;; emit) s).
  { unfold make_room. rewrite bind_assoc, return_if_dropped_no by done.
    rewrite bind_assoc. unfold bind at 1, get_headers. by rewrite bind_assoc, HL. }
  rewrite Hdep. clear Hdep.
  destruct (resize_cases emit s p payload (Z.of_nat n - Z.of_nat (length p)) n E Hbp)
    as [(skb' & Er & Hno)|(skb' & front & Hf & Hbf & Ed & Hii & Hcb & Er)]; [lia|lia| |].
  { left. eexists. split; [exact Er|done]. }
  right. rewrite Er.
  destruct (Hem { s with x_skb := skb' } [] (front ++ payload)) as (h & _ & Eo);
    change (x_hdr { s with x_skb := skb' }) with (x_hdr s) in *; cbn [app] in *.
  - done.
  - by apply bytes_app.
  - unfold tiny. lia.
  - rewrite length_app. lia.
  - eexists. split; [exact Eo|]. cbn. rewrite drop_app_length' by done. done.
Qed.
End Deparser.
