(* ===== verification/Chain.v ===== *)
(** One packet's way through a pipeline: the entry points around the parser
    and [process], the accesses of a control block, and the interface a
    program of the repository implements.

    A program is specified by what it does to a packet as a whole
    ([behaviour]); the class [Implements] says that its two C programs do
    that, without ever touching memory outside of the packet. *)

From S2P Require Import Prelude CInt Memory Pna P4Spec Pipeline Steps Headers Deparse.

(** How a parser can end: at [accept], at [reject] without an error code, or
    at [reject] because the packet is too short. *)
Inductive verdict := Accepted | Rejected | TooShort.

(** ** The control block's accesses *)

Section Control.
Context `{BO : ByteOrder} `{K : P4tcKernel} `{!P4tcKernelOk K} {H U : Type}.
Implicit Types (s : xstate H U).

(** [n] bytes at offset [off] of the action parameters. *)
Definition param (value : p4tc_table_entry_act_bpf) (off n : nat) : Z :=
  host_val (slice off n (act_params value)).

Lemma value_field_ok value off n s :
  wf_act value -> (off + n <= 124)%nat ->
  value_field value off n s = Ret (param value off n) s.
Proof.
  intros (Hl & _) Hn. unfold value_field, act_field, param, slice.
  replace (load_nat (act_params value) off n)
    with (load_nat (drop off (act_params value)) 0 n).
  - rewrite load_nat_take; [done|]. rewrite length_drop. lia.
  - rewrite <- (load_nat_app (take off (act_params value))), take_drop.
    f_equal. rewrite length_take. lia.
Qed.

Lemma param_bound value off n :
  wf_act value -> (off + n <= 124)%nat -> 0 <= param value off n < 256 ^ Z.of_nat n.
Proof.
  intros (Hl & Hb) Hn. unfold param.
  pose proof (host_val_bound _ (slice_bytes off n _ Hb)) as Hv.
  by rewrite length_slice in Hv by lia.
Qed.

Lemma param_ntohl value off :
  wf_act value -> (off + 4 <= 124)%nat ->
  bpf_ntohl (param value off 4) = be_val (slice off 4 (act_params value)).
Proof.
  intros (Hl & Hb) Ho. apply host_val_ntohl; [apply length_slice; lia|by apply slice_bytes].
Qed.

(** A MAC address parameter, as it is copied to the header. *)
Lemma param_mac value off :
  wf_act value -> (off + 8 <= 124)%nat ->
  take 6 (host_bytes 8 (param value off 8)) = slice off 6 (act_params value).
Proof.
  intros (Hl & Hb) Ho. unfold param. pose proof (slice_bytes off 8 _ Hb) as Hb8.
  pose proof (length_slice off 8 (act_params value) ltac:(lia)) as Hl8.
  rewrite <- Hl8 at 1. rewrite host_bytes_host_val by done.
  unfold slice. by rewrite take_take.
Qed.

(** The state with other headers and metadata. *)
Definition put s (h : H) (u : U) (m : pna_global_metadata) : xstate H U :=
  mk_xstate _ H U { (x_skb s) with skb_cb := m } h u (x_offset s) (x_kern s).

Definition put3 s (st : H * U * pna_global_metadata) : xstate H U :=
  put s st.1.1 st.1.2 st.2.

Lemma put_id s : put s (x_hdr s) (x_meta s) (skb_cb (x_skb s)) = s.
Proof. by destruct s as [[] ? ? ? ?]. Qed.

Lemma put_put s h u m h' u' m' : put (put s h u m) h' u' m' = put s h' u' m'.
Proof. done. Qed.

(** [send_to_port] after [compiler_meta__->drop = false]. *)
Definition to_port (port : Z) (m : pna_global_metadata) : pna_global_metadata :=
  send_to_port port { m with drop_flag := false }.

Lemma get_headers_put s h u m : get_headers (put s h u m) = Ret h (put s h u m).
Proof. done. Qed.
Lemma set_headers_put s h u m h' : set_headers h' (put s h u m) = Ret tt (put s h' u m).
Proof. done. Qed.
Lemma get_meta_put s h u m : get_meta (put s h u m) = Ret u (put s h u m).
Proof. done. Qed.
Lemma set_meta_put s h u m u' : set_meta u' (put s h u m) = Ret tt (put s h u' m).
Proof. done. Qed.
Lemma get_skb_put {A} (k : sk_buff -> X H U A) s h u m :
  bind get_skb k (put s h u m) = k { (x_skb s) with skb_cb := m } (put s h u m).
Proof. done. Qed.
(** A lookup sees the packet that entered, whatever was assigned since. *)
Lemma tbl_read_put {A} (k : option p4tc_table_entry_act_bpf -> X H U A) s h u m params key :
  bind (tbl_read params key) k (put s h u m)
  = k (bpf_p4tc_tbl_read (x_kern s) (x_skb s) params key) (put s h u m).
Proof.
  unfold bind, tbl_read. cbn [x_kern x_skb put]. by rewrite (tbl_read_dev _ _ (x_skb s)).
Qed.
Lemma do_send_to_port_put s h u m port :
  do_send_to_port port (put s h u m) = Ret tt (put s h u (to_port port m)).
Proof. done. Qed.
Lemma do_drop_packet_put s h u m :
  do_drop_packet (put s h u m) = Ret tt (put s h u (drop_packet m)).
Proof. done. Qed.
End Control.

(** One statement of a control block. *)
Ltac xstep :=
  first
    [ rewrite (bind_Ret _ _ _ _ _ (get_headers_put _ _ _ _))
    | rewrite (bind_Ret _ _ _ _ _ (set_headers_put _ _ _ _ _))
    | rewrite (bind_Ret _ _ _ _ _ (get_meta_put _ _ _ _))
    | rewrite (bind_Ret _ _ _ _ _ (set_meta_put _ _ _ _ _))
    | rewrite get_skb_put; cbn [skb_ifindex]
    | rewrite set_headers_put | rewrite do_send_to_port_put | rewrite do_drop_packet_put
    | erewrite bind_Ret by (apply value_field_ok; [assumption|lia]) ]; cbv beta.

(** ** Entering the main program *)

Section Entry.
Context `{BO : ByteOrder} `{K : P4tcKernel} {H U : Type}.
Implicit Types (w : world H U).

(** The EtherType the ingress hook saved is put back; nothing else of the
    packet changes. *)
Lemma restore_ether_type_cases skb p payload :
  skb_data skb = p ++ payload -> (14 <= length p)%nat -> bytes p ->
  bytes (skb_data_meta skb) ->
  exists p', restore_ether_type skb = Some (-1, with_data skb (p' ++ payload)) /\
             length p' = length p /\ bytes p'.
Proof.
  intros E Hp Hb Hm. unfold restore_ether_type, sizeof_internal_metadata.
  destruct (Z.leb_spec 4 (Z.of_nat (length (skb_data_meta skb)))) as [H4|H4].
  - rewrite E, length_app. destruct (Z.ltb_spec (Z.of_nat (length p + length payload)) (12 + 2)).
    { lia. }
    destruct (skb_data_meta skb) as [|m0 [|m1 ms]] eqn:Em; [simpl in H4; lia..|].
    replace (load_half_ne (m0 :: m1 :: ms) 0) with (Some (host_val [m0; m1])) by reflexivity.
    set (b0 := nth 0 (host_bytes 2 (host_val [m0; m1])) 0).
    set (b1 := nth 1 (host_bytes 2 (host_val [m0; m1])) 0).
    assert (W0 : write_byte (p ++ payload) 12 b0 = Some (<[12%nat := u8 b0]> (p ++ payload)))
      by (apply (write_byte_app [] (p ++ payload) 12 b0); rewrite length_app; lia).
    assert (W1 : forall l, 14 <= Z.of_nat (length l) ->
              write_byte l 13 b1 = Some (<[13%nat := u8 b1]> l))
      by (intros l Hl; apply (write_byte_app [] l 13 b1); lia).
    rewrite W0, W1 by (rewrite length_insert, length_app; lia).
    exists (<[13%nat := u8 b1]> (<[12%nat := u8 b0]> p)). split_and!.
    + rewrite !insert_app_l by (rewrite ?length_insert; lia). done.
    + by rewrite !length_insert.
    + apply Forall_insert; [apply Forall_insert; [done|]|]; apply byte_range.
  - exists p. split_and!; [|done..]. unfold with_data. rewrite <- E. by destruct skb.
Qed.

(** From the entry point to [process] and back. *)
Definition tc_result (o : option (Z * world H U)) : option (Z * world H U) :=
  match o with
  | Some (r, w) => if negb (r =? -1) then Some (r, w) else Some (forward w)
  | None => None
  end.

Definition same_metadata (m m' : pna_global_metadata) : Prop :=
  { m with mark := 0 } = { m' with mark := 0 }.

Lemma tc_ingress_run process w p payload :
  pass_to_kernel (skb_cb (w_skb w)) = false ->
  skb_data (w_skb w) = p ++ payload -> (14 <= length p)%nat -> bytes p ->
  bytes (skb_data_meta (w_skb w)) ->
  exists skb p',
    skb_data skb = p' ++ payload /\ length p' = length p /\ bytes p' /\
    skb_ifindex skb = skb_ifindex (w_skb w) /\
    same_metadata (skb_cb skb) (skb_cb (w_skb w)) /\
    tc_ingress_frame process w = tc_result (process { w with w_skb := skb }).
Proof.
  intros Hk E Hp Hb Hm. unfold tc_ingress_frame. rewrite Hk. unfold enter.
  destruct (recirculated (skb_cb (w_skb w))) eqn:Hr.
  - exists (w_skb w), p. split_and!; try done. by destruct w.
  - set (skb1 := w_skb { w with w_skb -> skb_cb -> mark := 153 }).
    destruct (restore_ether_type_cases skb1 p payload E Hp Hb Hm) as (p' & Er & Hl & Hb').
    rewrite Er. exists (with_data skb1 (p' ++ payload)), p'. by split_and!.
Qed.

(** [run_parser] from what its states do. *)
Variable (hdr0 : H) (meta0 : U).

Definition parsed (w : world H U) (h : H) (n : nat) : world H U :=
  { w with w_cpumap := Some (mk_hdr_md H U h meta0 (8 * Z.of_nat n) 0) }.

Definition parser_outcome (v : verdict) (h : H) (data : list Z) (n : nat)
  : outcome (pstate H) label unit :=
  match v with
  | Accepted => Ret tt (at_pos NoError h data n)
  | Rejected => Exit reject (at_pos NoError h data n)
  | TooShort => Exit reject (at_pos PacketTooShort h data n)
  end.

(** Only the second drops the packet.  In the third the parser records the
    error, and the main program sees the headers extracted so far. *)
Definition parser_result (v : verdict) (h : H) (n : nat) (w : world H U) : Z * world H U :=
  match v with
  | Accepted => (-1, parsed w h n)
  | Rejected => (TC_ACT_SHOT, { w with w_cpumap := Some (mk_hdr_md H U h meta0 0 0) })
  | TooShort =>
    (-1, parsed { w with w_skb -> skb_cb -> parser_error := PacketTooShort } h n)
  end.

Lemma run_parser_spec start w v h n :
  start (at_pos NoError hdr0 (skb_data (w_skb w)) 0)
  = parser_outcome v h (skb_data (w_skb w)) n ->
  (n <= length (skb_data (w_skb w)))%nat -> w_cpumap w <> None ->
  run_parser_frame hdr0 meta0 start w = Some (parser_result v h n w).
Proof.
  intros Hs Hn Hc. unfold run_parser_frame. rewrite boundary_initial.
  unfold at_pos in Hs. rewrite take_0, drop_0 in Hs. rewrite Hs.
  destruct (w_cpumap w); [|done].
  destruct v; cbn -[at_pos]; unfold parsed, at_pos; rewrite ?boundary_offset;
    rewrite ?length_take_le by done; done.
Qed.

(** The chain, given the parser's verdict. *)
Lemma tc_chain_pipe parser ingress w w1 :
  parser w = Some (-1, w1) -> tc_chain (tc_parse_frame parser) ingress w = ingress w1.
Proof. intros E. unfold tc_chain, tc_parse_frame. by rewrite E. Qed.

Lemma tc_chain_shot parser ingress w w1 :
  parser w = Some (TC_ACT_SHOT, w1) ->
  tc_chain (tc_parse_frame parser) ingress w = Some (TC_ACT_SHOT, w1).
Proof. intros E. unfold tc_chain, tc_parse_frame. by rewrite E. Qed.
End Entry.

(** ** A pipeline from end to end *)

Section Chain.
Context `{BO : ByteOrder} `{K : P4tcKernel} {H U : Type}.
Variable (hdr0 : H) (meta0 : U) (start : P H unit) (body : Z -> X H U unit).
Implicit Types (w : world H U).

(** A packet that the filter sees for the first time.  The scratch map has
    its one entry: key 0 of a per-CPU array always has a value. *)
Record arrives w : Prop := {
  arr_cpumap : w_cpumap w <> None;
  arr_pass : pass_to_kernel (skb_cb (w_skb w)) = false;
  arr_drop : drop_flag (skb_cb (w_skb w)) = false;
  arr_port : egress_port (skb_cb (w_skb w)) = 0;
  arr_eth : (14 <= length (skb_data (w_skb w)))%nat;
  arr_bytes : bytes (skb_data (w_skb w));
  arr_small : small (skb_data (w_skb w));
  arr_meta : bytes (skb_data_meta (w_skb w))
}.

(** The packet is dropped. *)
Definition shot (o : option (Z * world H U)) : Prop :=
  exists w', o = Some (TC_ACT_SHOT, w').

(** The packet leaves through [port] with the given bytes; port 0 stands
    for the kernel's receive path on the device it came from. *)
Definition delivered (port ifindex : Z) (data : list Z) (k : kstate)
    (o : option (Z * world H U)) : Prop :=
  exists r w', o = Some (r, w') /\ skb_data (w_skb w') = data /\ w_kern w' = k /\
    if port =? 0
    then r = bpf_redirect ifindex BPF_F_INGRESS /\
         w_redirect w' = Some (ifindex, BPF_F_INGRESS) /\
         pass_to_kernel (skb_cb (w_skb w')) = true
    else r = bpf_redirect port 0 /\ w_redirect w' = Some (port, 0).

(** The state in which [process] finds the packet: the parsed bytes [p]
    have their original length, but maybe another EtherType. *)
Record enters w (s : xstate H U) (h : H) (p payload : list Z) : Prop := {
  ent_hdr : x_hdr s = h;
  ent_meta : x_meta s = meta0;
  ent_data : skb_data (x_skb s) = p ++ payload;
  ent_bytes : bytes (p ++ payload);
  ent_ifindex : skb_ifindex (x_skb s) = skb_ifindex (w_skb w);
  ent_drop : drop_flag (skb_cb (x_skb s)) = false;
  ent_port : egress_port (skb_cb (x_skb s)) = 0;
  ent_kern : x_kern s = w_kern w
}.

Definition chain w : option (Z * world H U) :=
  tc_chain (tc_parse_frame (run_parser_frame hdr0 meta0 start))
           (tc_ingress_frame (process_frame body)) w.

(** Dropped by the parser: the tables are those the packet found. *)
Lemma chain_rejected_kern w h n :
  arrives w -> (n <= length (skb_data (w_skb w)))%nat ->
  start (at_pos NoError hdr0 (skb_data (w_skb w)) 0)
  = parser_outcome Rejected h (skb_data (w_skb w)) n ->
  exists w', chain w = Some (TC_ACT_SHOT, w') /\ w_kern w' = w_kern w.
Proof.
  intros Ha Hn Hs. eexists. split.
  - apply tc_chain_shot.
    exact (run_parser_spec hdr0 meta0 start w Rejected h n Hs Hn (arr_cpumap w Ha)).
  - done.
Qed.

Lemma chain_rejected w h n :
  arrives w -> (n <= length (skb_data (w_skb w)))%nat ->
  start (at_pos NoError hdr0 (skb_data (w_skb w)) 0)
  = parser_outcome Rejected h (skb_data (w_skb w)) n ->
  shot (chain w).
Proof.
  intros Ha Hn Hs. destruct (chain_rejected_kern w h n Ha Hn Hs) as (w' & E & _). by exists w'.
Qed.

Lemma same_metadata_drop m m' : same_metadata m m' -> drop_flag m = drop_flag m'.
Proof. destruct m, m'. unfold same_metadata. cbn. congruence. Qed.

Lemma same_metadata_port m m' : same_metadata m m' -> egress_port m = egress_port m'.
Proof. destruct m, m'. unfold same_metadata. cbn. congruence. Qed.

(** [process] right after the parser. *)
Lemma process_parsed w h n skb :
  process_frame body { parsed meta0 w h n with w_skb := skb }
  = let leave (r : Z) (s : xstate H U) :=
      Some (r, mk_world _ H U (x_skb s)
                 (Some (mk_hdr_md H U (x_hdr s) (x_meta s) (8 * Z.of_nat n) 0))
                 (x_kern s) (w_redirect w)) in
    match body (Z.of_nat n) (mk_xstate _ H U skb h meta0 (8 * Z.of_nat n) (w_kern w)) with
    | Ret _ s => leave (-1) s
    | Exit r s => leave r s
    | Fault => None
    end.
Proof.
  unfold process_frame. cbn -[Z.mul]. unfold BYTES.
  by rewrite (Z.mul_comm 8), Z.div_mul by lia.
Qed.

Lemma chain_run w v h n :
  arrives w -> (14 <= n <= length (skb_data (w_skb w)))%nat -> v <> Rejected ->
  start (at_pos NoError hdr0 (skb_data (w_skb w)) 0)
  = parser_outcome v h (skb_data (w_skb w)) n ->
  exists s p,
    length p = n /\ enters w s h p (drop n (skb_data (w_skb w))) /\
    (forall s', body (Z.of_nat n) s = Exit TC_ACT_SHOT s' -> shot (chain w)) /\
    (forall s', body (Z.of_nat n) s = Ret tt s' ->
       skb_ifindex (x_skb s') = skb_ifindex (w_skb w) ->
       drop_flag (skb_cb (x_skb s')) = false ->
       delivered (egress_port (skb_cb (x_skb s'))) (skb_ifindex (w_skb w))
         (skb_data (x_skb s')) (x_kern s') (chain w)).
Proof.
  intros Ha Hn Hv Hs.
  pose proof (run_parser_spec hdr0 meta0 start w v h n Hs ltac:(lia) (arr_cpumap w Ha)) as Hp.
  assert (exists w1, run_parser_frame hdr0 meta0 start w = Some (-1, parsed meta0 w1 h n) /\
    w_kern w1 = w_kern w /\ skb_data (w_skb w1) = skb_data (w_skb w) /\
    skb_data_meta (w_skb w1) = skb_data_meta (w_skb w) /\
    skb_ifindex (w_skb w1) = skb_ifindex (w_skb w) /\
    drop_flag (skb_cb (w_skb w1)) = false /\ egress_port (skb_cb (w_skb w1)) = 0 /\
    pass_to_kernel (skb_cb (w_skb w1)) = false) as (w1 & Ep & Hk & Hd & Hm & Hi & Hdr & Hpt & Hpk).
  { destruct v; [|done|]; eexists; (split; [exact Hp|]); destruct Ha; by split_and!. }
  clear Hp. set (w2 := parsed meta0 w1 h n).
  destruct (tc_ingress_run (process_frame body) w2 (take n (skb_data (w_skb w)))
              (drop n (skb_data (w_skb w)))) as (skb & p & Esk & Hlp & Hbp & Hif & Hsm & Er).
  - done.
  - cbn [w_skb w2 parsed]. by rewrite take_drop.
  - rewrite length_take. lia.
  - apply Forall_take, (arr_bytes w Ha).
  - change (skb_data_meta (w_skb w2)) with (skb_data_meta (w_skb w1)). rewrite Hm.
    apply (arr_meta w Ha).
  - assert (Hc : chain w = tc_result (process_frame body { w2 with w_skb := skb }))
      by (unfold chain; by rewrite (tc_chain_pipe _ _ _ _ Ep)).
    rewrite length_take, Nat.min_l in Hlp by lia.
    change (w_skb w2) with (w_skb w1) in *.
    exists (mk_xstate _ H U skb h meta0 (8 * Z.of_nat n) (w_kern w1)), p.
    split_and!; [done| | |].
    + constructor; try done; cbn [x_skb x_kern].
      * apply bytes_app; split; [done|]. apply Forall_drop, (arr_bytes w Ha).
      * by rewrite Hif.
      * by rewrite (same_metadata_drop _ _ Hsm).
      * by rewrite (same_metadata_port _ _ Hsm).
    + intros s' Es. rewrite Hc. unfold w2. rewrite process_parsed, Es. by eexists.
    + intros s' Es His Hds. rewrite Hc. unfold w2. rewrite process_parsed, Es.
      destruct s' as [[data' meta' ifx' cb'] h' u' o' k']. cbn [x_skb skb_ifindex skb_cb] in *.
      subst ifx'. unfold tc_result, delivered, forward.
      cbn [negb Z.eqb Pos.eqb w_skb skb_cb]. rewrite Hds. cbn [negb andb].
      destruct (egress_port cb' =? 0); eexists _, _; split; try reflexivity; by split_and!.
Qed.
End Chain.

(** ** The contract of a pipeline *)

(** What happens to a packet: it is dropped, or the bytes [out] leave through
    [port], which takes [grow] more bytes than arrived (the kernel may refuse
    them) and leaves the kernel's tables in state [k]. *)
Inductive behaviour `{P4tcKernel} :=
| Discard
| Send (port : Z) (out : list Z) (grow : Z) (k : kstate).

Section Contract.
Context `{BO : ByteOrder} `{K : P4tcKernel} {H U : Type}.

Definition behaves (b : behaviour) (w : world H U) (o : option (Z * world H U)) : Prop :=
  match b with
  | Discard => shot o
  | Send port out grow k =>
    (shot o /\ ~ room_available (length (skb_data (w_skb w))) grow) \/
    delivered port (skb_ifindex (w_skb w)) out k o
  end.

(** The same for the body of [process], which gets the packet [w]. *)
Definition body_behaves (b : behaviour) (w : world H U)
    (o : outcome (xstate H U) Z unit) : Prop :=
  match b with
  | Discard => exists s, o = Exit TC_ACT_SHOT s
  | Send port out grow k =>
    (exists s, o = Exit TC_ACT_SHOT s /\
               ~ room_available (length (skb_data (w_skb w))) grow) \/
    (exists s, o = Ret tt s /\ skb_data (x_skb s) = out /\
               skb_ifindex (x_skb s) = skb_ifindex (w_skb w) /\
               drop_flag (skb_cb (x_skb s)) = false /\
               egress_port (skb_cb (x_skb s)) = port /\ x_kern s = k)
  end.

Lemma chain_behaves hdr0 meta0 start body b w v h n :
  arrives w -> (14 <= n <= length (skb_data (w_skb w)))%nat -> v <> Rejected ->
  start (at_pos NoError hdr0 (skb_data (w_skb w)) 0)
  = parser_outcome v h (skb_data (w_skb w)) n ->
  (forall s p, length p = n -> enters meta0 w s h p (drop n (skb_data (w_skb w))) ->
     body_behaves b w (body (Z.of_nat n) s)) ->
  behaves b w (chain hdr0 meta0 start body w).
Proof.
  intros Ha Hn Hv Hs Hb.
  destruct (chain_run hdr0 meta0 start body w v h n Ha Hn Hv Hs)
    as (s & p & Hlp & Hent & Hshot & Hsend).
  specialize (Hb s p Hlp Hent). destruct b as [|port out grow k]; cbn in *.
  - destruct Hb as [s' Es]. eauto.
  - destruct Hb as [(s' & Es & Hno)|(s' & Es & <- & Hi & Hd & <- & <-)]; eauto.
Qed.

Section DeparserBehaviour.
Context `{!P4tcKernelOk K} (outHeaderLength : H -> Z) (emit : X H U unit)
  (pre : H -> Prop) (out : H -> list Z) (mods : H -> H -> Prop).
Hypothesis emit_ok : emits emit pre out mods.
Hypothesis length_ok : forall h, BYTES (outHeaderLength h) = Z.of_nat (length (out h)).

(** The deparser in the state a control block leaves. *)
Lemma deparser_sends w s p payload :
  skb_data (x_skb s) = p ++ payload -> bytes (p ++ payload) ->
  skb_ifindex (x_skb s) = skb_ifindex (w_skb w) ->
  drop_flag (skb_cb (x_skb s)) = false -> pre (x_hdr s) ->
  length (p ++ payload) = length (skb_data (w_skb w)) ->
  Z.of_nat (length (out (x_hdr s))) < 65536 ->
  length p = length (out (x_hdr s)) \/ (14 <= length p /\ 14 <= length (out (x_hdr s)))%nat ->
  body_behaves
    (Send (egress_port (skb_cb (x_skb s))) (out (x_hdr s) ++ payload)
       (Z.of_nat (length (out (x_hdr s))) - Z.of_nat (length p)) (x_kern s)) w
    ((make_room outHeaderLength (Z.of_nat (length p)) ;; emit) s).
Proof.
  intros Ed Eb Ei Edr Hpre Hlen Hn Hp. cbn [body_behaves]. rewrite <- Hlen.
  destruct (deparser_frame_spec outHeaderLength emit pre out mods s p payload)
    as [(s' & Es & Hno)|(s' & Es & E1 & E2 & E3 & E4)]; try done.
  - left. by exists s'.
  - right. exists s'. rewrite E1, E2, E3, E4. by split_and!.
Qed.

Lemma deparser_behaves meta0 w s h0 h u m p payload :
  enters meta0 w s h0 p payload -> drop_flag m = false -> pre h ->
  length (p ++ payload) = length (skb_data (w_skb w)) ->
  Z.of_nat (length (out h)) < 65536 ->
  length p = length (out h) \/ (14 <= length p /\ 14 <= length (out h))%nat ->
  body_behaves
    (Send (egress_port m) (out h ++ payload)
       (Z.of_nat (length (out h)) - Z.of_nat (length p)) (w_kern w)) w
    ((make_room outHeaderLength (Z.of_nat (length p)) ;; emit) (put s h u m)).
Proof.
  intros [Eh Eu Ed Eb Ei Edr Ept <-] Hm Hpre Hlen Hn Hp.
  exact (deparser_sends w (put s h u m) p payload Ed Eb Ei Hm Hpre Hlen Hn Hp).
Qed.

Lemma deparser_drops s h u m n :
  drop_flag m = true ->
  exists s', (make_room outHeaderLength n ;; emit) (put s h u m) = Exit TC_ACT_SHOT s'.
Proof.
  intros Hd. eexists. unfold make_room. rewrite bind_assoc.
  by apply return_if_dropped_yes.
Qed.
End DeparserBehaviour.

Lemma frame_bytes (w : world H U) macs ip payload :
  arrives w -> is_ipv4_frame macs ip payload (skb_data (w_skb w)) ->
  length ip = 20%nat /\ bytes ip.
Proof.
  intros Ha Hf. destruct (frame_parts _ _ _ _ Hf (arr_bytes w Ha)) as (_ & Hb & _).
  destruct Hf as (_ & _ & Hi). by split.
Qed.

Class Implements (program : world H U -> option (Z * world H U))
    (spec : kstate -> sk_buff -> behaviour) : Prop :=
  implements : forall w, arrives w -> behaves (spec (w_kern w) (w_skb w)) w (program w).

(** No access of an implementation is outside of the packet, and it always
    comes to a verdict. *)
Lemma implements_total program spec `{!Implements program spec} w :
  arrives w -> exists r w', program w = Some (r, w').
Proof.
  intros Ha. pose proof (implements w Ha) as Hb. unfold behaves in Hb.
  destruct (spec _ _) as [|port out grow k]; [by destruct Hb as [w' ->]; eauto|].
  destruct Hb as [[[w' ->] _]|(r & w' & -> & _)]; eauto.
Qed.

(** With room for its headers, the packet that the specification sends is
    delivered. *)
Lemma implements_send program spec `{!Implements program spec} w port out grow k :
  arrives w -> spec (w_kern w) (w_skb w) = Send port out grow k ->
  room_available (length (skb_data (w_skb w))) grow ->
  delivered port (skb_ifindex (w_skb w)) out k (program w).
Proof.
  intros Ha Es Hr. pose proof (implements w Ha) as Hb. rewrite Es in Hb.
  by destruct Hb as [[_ Hno]|].
Qed.

Lemma implements_discard program spec `{!Implements program spec} w :
  arrives w -> spec (w_kern w) (w_skb w) = Discard -> shot (program w).
Proof. intros Ha Es. pose proof (implements w Ha) as Hb. by rewrite Es in Hb. Qed.
End Contract.

(** ** Programs that are a control block and a deparser

    Most programs run one control block and then their deparser.  Such a
    program is specified by its P4 parser and by what its control block makes
    of the headers: [None] drops the packet, [Some (h, port, k)] sends it. *)

Section Program.
Context `{BO : ByteOrder} `{K : P4tcKernel} `{!P4tcKernelOk K} {H U : Type}.
Variable (hdr0 : H) (meta0 : U) (start : P H unit) (main_control : X H U unit).
Variable (outHeaderLength : H -> Z) (emit : X H U unit).
Variable (pre : H -> Prop) (out : H -> list Z) (mods : H -> H -> Prop).
Variable (parse : list Z -> verdict * H * nat).
Variable (control : kstate -> sk_buff -> H -> option (H * Z * kstate)).

Definition program_spec (k : kstate) (skb : sk_buff) : behaviour :=
  let '(v, h, n) := parse (skb_data skb) in
  match v with
  | Rejected => Discard
  | _ =>
    match control k skb h with
    | None => Discard
    | Some (h', port, k') =>
      Send port (out h' ++ drop n (skb_data skb))
        (Z.of_nat (length (out h')) - Z.of_nat n) k'
    end
  end.

(** What the deparser may rely on. *)
Definition sendable (h : H) : Prop :=
  pre h /\ (14 <= length (out h))%nat /\ Z.of_nat (length (out h)) < 65536.

Record program_ok : Prop := {
  ok_start : forall data, bytes data -> small data ->
    start (at_pos NoError hdr0 data 0)
    = let '(v, h, n) := parse data in parser_outcome v h data n;
  ok_emit : emits emit pre out mods;
  ok_length : forall h, BYTES (outHeaderLength h) = Z.of_nat (length (out h));
  ok_parse : forall data, bytes data -> (14 <= length data)%nat ->
    let '(v, h, n) := parse data in sendable h /\ (14 <= n <= length data)%nat;
  ok_sendable : forall k skb h h' port k',
    sendable h -> control k skb h = Some (h', port, k') -> sendable h';
  ok_dev : forall k skb skb' h,
    skb_ifindex skb = skb_ifindex skb' -> control k skb h = control k skb' h;
  ok_control : forall (s : xstate H U) h m,
    drop_flag m = false -> egress_port m = 0 ->
    match control (x_kern s) (x_skb s) h with
    | None => exists s',
        main_control (put s h meta0 m) = Ret tt s' /\ drop_flag (skb_cb (x_skb s')) = true
    | Some (h', port, k') => exists u' m',
        main_control (put s h meta0 m) = Ret tt (put { s with x_kern := k' } h' u' m') /\
        drop_flag m' = false /\ egress_port m' = port
    end
}.

Definition program_body (n : Z) : X H U unit :=
  main_control ;; make_room outHeaderLength n ;; emit.

Lemma program_run w :
  program_ok -> arrives w ->
  behaves (program_spec (w_kern w) (w_skb w)) w (chain hdr0 meta0 start program_body w).
Proof.
  intros [Hst Hem HL Hpa Hse Hdev Hco] Ha. unfold program_spec.
  specialize (Hst _ (arr_bytes w Ha) (arr_small w Ha)).
  specialize (Hpa _ (arr_bytes w Ha) (arr_eth w Ha)).
  destruct (parse (skb_data (w_skb w))) as [[v h] n]. destruct Hpa as [Hsh Hn].
  assert (Hv : v = Rejected \/ v <> Rejected) by (destruct v; auto).
  destruct Hv as [->|Hv]; [exact (chain_rejected hdr0 meta0 start _ w h n Ha (proj2 Hn) Hst)|].
  set (b := match control _ _ _ with Some _ => _ | None => _ end).
  replace (match v with Rejected => _ | _ => _ end) with b by by destruct v.
  apply (chain_behaves hdr0 meta0 start program_body b w v h n Ha Hn Hv Hst).
  intros s p <- Hent. pose proof Hent as [Eh Eu Ed Eb Ei Edr Ept Ek].
  specialize (Hco s h (skb_cb (x_skb s)) Edr Ept). specialize (Hse (w_kern w) (w_skb w) h).
  unfold b. rewrite (Hdev _ _ (w_skb w)), Ek in Hco by exact Ei.
  unfold program_body. rewrite <- (put_id s), Eh, Eu.
  destruct (control (w_kern w) (w_skb w) h) as [[[h' port] k']|].
  - destruct Hco as (u' & m' & Em & Hd & <-). rewrite (bind_Ret _ _ _ _ _ Em).
    destruct (Hse h' _ k' Hsh eq_refl) as (Hp' & Hl' & Hs').
    set (s' := put { s with x_kern := k' } h' u' m') in *.
    pose proof (deparser_sends outHeaderLength emit pre out mods Hem HL w s' p _ Ed Eb Ei Hd Hp')
      as Hsend.
    change (x_hdr s') with h' in Hsend. change (x_kern s') with k' in Hsend.
    change (skb_cb (x_skb s')) with m' in Hsend. apply Hsend.
    + rewrite length_app, length_drop. lia.
    + exact Hs'.
    + right. split; [apply Hn|exact Hl'].
  - destruct Hco as (s' & Em & Hd). rewrite (bind_Ret _ _ _ _ _ Em). cbn [body_behaves].
    eexists. unfold make_room. rewrite bind_assoc. by apply return_if_dropped_yes.
Qed.
End Program.
