(* ===== verification/Host.v ===== *)
(** A host that runs a pipeline at the ingress hook of its devices.

    Packets wait in any order and are processed one at a time; all of them
    share the kernel's tables and the per-CPU scratch area, which still holds
    what the packet before left there.  A packet that a pipeline hands to the
    kernel ([bpf_redirect] with [BPF_F_INGRESS]) comes to the same hook again,
    with its control block, so that the pipeline sees it twice.  The class
    [PipelineOk] states what this needs of a pipeline; the theorems hold for
    whatever has an instance. *)

From stdpp Require Import relations.
From S2P Require Import Prelude CInt Memory Pna P4Spec Pipeline Steps Headers Deparse Chain.

(** ** The second pass *)

Section SecondPass.
Context `{BO : ByteOrder} `{K : P4tcKernel} {H U : Type}.
Variable (hdr0 : H) (meta0 : U) (start : P H unit) (body : Z -> X H U unit).
Implicit Types (w : world H U).

(** A packet that is marked for the kernel gets as far as the first test of
    [tc_ingress_func]; the parser before it may still drop the packet. *)
Lemma chain_second w v h n :
  pass_to_kernel (skb_cb (w_skb w)) = true -> w_cpumap w <> None ->
  start (at_pos NoError hdr0 (skb_data (w_skb w)) 0)
  = parser_outcome v h (skb_data (w_skb w)) n ->
  (n <= length (skb_data (w_skb w)))%nat ->
  exists w',
    chain hdr0 meta0 start body w
    = Some (match v with Rejected => TC_ACT_SHOT | _ => TC_ACT_OK end, w') /\
    skb_data (w_skb w') = skb_data (w_skb w) /\ w_kern w' = w_kern w.
Proof.
  intros Hp Hc Hs Hn. pose proof (run_parser_spec hdr0 meta0 start w v h n Hs Hn Hc) as Er.
  unfold chain.
  destruct v;
    [rewrite (tc_chain_pipe _ _ _ _ Er)|rewrite (tc_chain_shot _ _ _ _ Er)
    |rewrite (tc_chain_pipe _ _ _ _ Er)].
  - unfold tc_ingress_frame. change (skb_cb (w_skb (parsed _ _ _ _))) with (skb_cb (w_skb w)).
    rewrite Hp. by eexists.
  - by eexists.
  - unfold tc_ingress_frame.
    change (pass_to_kernel (skb_cb (w_skb (parsed _ _ _ _)))) with (pass_to_kernel (skb_cb (w_skb w))).
    rewrite Hp. by eexists.
Qed.

(** The scratch area is never taken away. *)
Lemma run_parser_scratch w r w' :
  run_parser_frame hdr0 meta0 start w = Some (r, w') -> w_cpumap w <> None -> w_cpumap w' <> None.
Proof.
  unfold run_parser_frame. destruct (w_cpumap w); [|done].
  destruct (start _) as [[]|[]|]; [| |done]; [by intros [= <- <-]|].
  destruct (_ =? 0); by intros [= <- <-].
Qed.

Lemma process_scratch w r w' :
  process_frame body w = Some (r, w') -> w_cpumap w <> None -> w_cpumap w' <> None.
Proof.
  unfold process_frame. destruct (w_cpumap w); [|done].
  destruct (body _ _); [| |done]; by intros [= <- <-].
Qed.

Lemma forward_scratch w : w_cpumap (forward w).2 = w_cpumap w.
Proof. unfold forward. by destruct (_ && _). Qed.

Lemma enter_scratch w r w' : enter w = Some (r, w') -> w_cpumap w' = w_cpumap w.
Proof.
  unfold enter. destruct (recirculated _); [by intros [= <- <-]|].
  destruct (restore_ether_type _) as [[]|]; [|done]. by intros [= <- <-].
Qed.

Lemma chain_scratch w r w' :
  chain hdr0 meta0 start body w = Some (r, w') -> w_cpumap w <> None -> w_cpumap w' <> None.
Proof.
  unfold chain, tc_chain, tc_parse_frame. intros E Hc.
  destruct (run_parser_frame _ _ _ w) as [[r1 w1]|] eqn:E1; [|done].
  pose proof (run_parser_scratch _ _ _ E1 Hc) as H1.
  destruct (_ =? TC_ACT_PIPE); [|by injection E as <- <-].
  unfold tc_ingress_frame in E. destruct (pass_to_kernel _); [by injection E as <- <-|].
  destruct (enter w1) as [[r2 w2]|] eqn:E2; [|done]. apply enter_scratch in E2.
  rewrite <- E2 in H1. destruct (negb _); [by injection E as <- <-|].
  destruct (process_frame body w2) as [[r3 w3]|] eqn:E3; [|done].
  pose proof (process_scratch _ _ _ E3 H1) as H3. destruct (negb _); [by injection E as <- <-|].
  injection E as E. by rewrite <- forward_scratch, E in H3.
Qed.
End SecondPass.

(** ** Pipelines *)

Record pipeline `{K : P4tcKernel} := mk_pipeline {
  pl_H : Type;                               (* struct headers_t *)
  pl_U : Type;                               (* struct metadata_t *)
  pl_run : world pl_H pl_U -> option (Z * world pl_H pl_U);
  pl_spec : kstate -> sk_buff -> behaviour;
  pl_verdict : list Z -> verdict             (* how its parser ends *)
}.

Definition after_parser (v : verdict) : Z :=
  match v with Rejected => TC_ACT_SHOT | _ => TC_ACT_OK end.

(** The buffer of a packet that waits for its first or second pass. *)
Definition frame_data (data : list Z) : Prop :=
  (14 <= length data)%nat /\ bytes data /\ small data.

(** It came from a device, whose index is positive. *)
Definition on_wire (skb : sk_buff) : Prop := 0 < skb_ifindex skb < 2 ^ 32.

Section Interface.
Context `{BO : ByteOrder} `{K : P4tcKernel}.

Class PipelineOk (p : pipeline) : Prop := {
  pl_implements :: Implements (pl_run p) (pl_spec p);
  pl_second : forall w,
    pass_to_kernel (skb_cb (w_skb w)) = true -> w_cpumap w <> None ->
    frame_data (skb_data (w_skb w)) ->
    exists w', pl_run p w = Some (after_parser (pl_verdict p (skb_data (w_skb w))), w') /\
      skb_data (w_skb w') = skb_data (w_skb w) /\ w_kern w' = w_kern w;
  pl_scratch : forall w r w',
    pl_run p w = Some (r, w') -> w_cpumap w <> None -> w_cpumap w' <> None;
  pl_sends : forall k skb port out grow k',
    frame_data (skb_data skb) -> pl_spec p k skb = Send port out grow k' ->
    bytes out /\ (14 <= length out)%nat /\
    Z.of_nat (length out) < Z.of_nat (length (skb_data skb)) + 2 ^ 10;
  pl_resends : forall k skb out grow k',
    frame_data (skb_data skb) -> on_wire skb -> pl_spec p k skb = Send 0 out grow k' ->
    pl_verdict p out <> Rejected
}.

(** A pipeline as the programs are built: a parser and a body. *)
Section OfChain.
Context {H U : Type} (hdr0 : H) (meta0 : U) (start : P H unit) (body : Z -> X H U unit).
Context (spec : kstate -> sk_buff -> behaviour) (parse : list Z -> verdict * H * nat).

Definition chain_pipeline : pipeline :=
  mk_pipeline _ H U (chain hdr0 meta0 start body) spec (fun data => (parse data).1.1).

Lemma chain_pipeline_ok :
  Implements (chain hdr0 meta0 start body) spec ->
  (forall data, bytes data -> small data ->
     start (at_pos NoError hdr0 data 0)
     = let '(v, h, n) := parse data in parser_outcome v h data n) ->
  (forall data, bytes data -> (14 <= length data)%nat ->
     let '(v, h, n) := parse data in (n <= length data)%nat) ->
  (forall k skb port out grow k',
     frame_data (skb_data skb) -> spec k skb = Send port out grow k' ->
     bytes out /\ (14 <= length out)%nat /\
    Z.of_nat (length out) < Z.of_nat (length (skb_data skb)) + 2 ^ 10) ->
  (forall k skb out grow k',
     frame_data (skb_data skb) -> on_wire skb -> spec k skb = Send 0 out grow k' ->
     (parse out).1.1 <> Rejected) ->
  PipelineOk chain_pipeline.
Proof.
  intros Hi Hs Hn Ho Hr. split; [exact Hi| |intros w r w'; apply chain_scratch|exact Ho|exact Hr].
  intros w Hp Hc (Hl & Hb & Hsm). specialize (Hs _ Hb Hsm). specialize (Hn _ Hb Hl).
  cbn [chain_pipeline pl_run pl_verdict]. destruct (parse _) as [[v h] n].
  exact (chain_second hdr0 meta0 start body w v h n Hp Hc Hs Hn).
Qed.
End OfChain.
End Interface.

(** ** The host *)

(** [bpf_redirect] returns [TC_ACT_REDIRECT], or [TC_ACT_SHOT] if it refuses. *)
Definition TC_ACT_REDIRECT : Z := 7.

Class RedirectOk (K : P4tcKernel) : Prop :=
  redirect_result : forall ifindex flags,
    bpf_redirect ifindex flags = TC_ACT_REDIRECT \/ bpf_redirect ifindex flags = TC_ACT_SHOT.

Section Host.
Context `{BO : ByteOrder} `{K : P4tcKernel} (p : pipeline).

(** A packet is kept with what it was when it arrived: first so, then as it is. *)
Record host := mk_host {
  h_kern : kstate;
  h_scratch : hdr_md (pl_H p) (pl_U p);
  h_queue : list (sk_buff * sk_buff);       (* at the hook, for their first or second pass *)
  h_arrived : list sk_buff;                 (* all that ever came, the last one first *)
  h_dropped : list sk_buff;                 (* as they arrived *)
  h_stack : list (sk_buff * sk_buff);       (* received by the kernel's stack *)
  h_sent : list (sk_buff * (Z * sk_buff))   (* on their way out, with the port *)
}.

Definition initial (st : host) : Prop :=
  h_queue st = [] /\ h_arrived st = [] /\ h_dropped st = [] /\ h_stack st = [] /\ h_sent st = [].

(** A packet from a device: its control block is cleared. *)
Definition fresh (skb : sk_buff) : Prop :=
  pass_to_kernel (skb_cb skb) = false /\ drop_flag (skb_cb skb) = false /\
  egress_port (skb_cb skb) = 0 /\ Z.of_nat (length (skb_data skb)) < 2 ^ 16 /\
  frame_data (skb_data skb) /\ bytes (skb_data_meta skb) /\ on_wire skb.

(** What the pipeline finds when it is run on a packet. *)
Definition packet_world (st : host) (skb : sk_buff) : world (pl_H p) (pl_U p) :=
  mk_world _ _ _ skb (Some (h_scratch st)) (h_kern st) None.

Definition scratch_of (st : host) (w : world (pl_H p) (pl_U p)) : hdr_md (pl_H p) (pl_U p) :=
  match w_cpumap w with Some md => md | None => h_scratch st end.

(** The host after the pipeline left [w] behind, without and with the packet. *)
Definition left_by (st : host) (queue : list (sk_buff * sk_buff)) (w : world (pl_H p) (pl_U p)) : host :=
  mk_host (w_kern w) (scratch_of st w) queue (h_arrived st) (h_dropped st) (h_stack st) (h_sent st).

Definition on_device (skb : sk_buff) (ifindex : Z) : sk_buff :=
  Build_sk_buff (skb_data skb) (skb_data_meta skb) ifindex (skb_cb skb).

Inductive receive : host -> host -> Prop :=
| receive_packet st skb :
  fresh skb ->
  receive st { st with h_queue := h_queue st ++ [(skb, skb)]; h_arrived := skb :: h_arrived st }.

(** The hook takes some packet [skb] out of the queue, runs the pipeline and
    follows its verdict. *)
Inductive handle : host -> host -> Prop :=
| handle_shot st q1 q2 skb0 skb w :
  h_queue st = q1 ++ (skb0, skb) :: q2 -> pl_run p (packet_world st skb) = Some (TC_ACT_SHOT, w) ->
  handle st { (left_by st (q1 ++ q2) w) with h_dropped := skb0 :: h_dropped st }
| handle_ok st q1 q2 skb0 skb w :
  h_queue st = q1 ++ (skb0, skb) :: q2 -> pl_run p (packet_world st skb) = Some (TC_ACT_OK, w) ->
  handle st { (left_by st (q1 ++ q2) w) with h_stack := (skb0, w_skb w) :: h_stack st }
| handle_ingress st q1 q2 skb0 skb w ifindex :
  h_queue st = q1 ++ (skb0, skb) :: q2 -> pl_run p (packet_world st skb) = Some (TC_ACT_REDIRECT, w) ->
  w_redirect w = Some (ifindex, BPF_F_INGRESS) ->
  handle st (left_by st (q1 ++ q2 ++ [(skb0, on_device (w_skb w) ifindex)]) w)
| handle_egress st q1 q2 skb0 skb w port :
  h_queue st = q1 ++ (skb0, skb) :: q2 -> pl_run p (packet_world st skb) = Some (TC_ACT_REDIRECT, w) ->
  w_redirect w = Some (port, 0) ->
  handle st { (left_by st (q1 ++ q2) w) with h_sent := (skb0, (port, w_skb w)) :: h_sent st }.

Definition step (st st' : host) : Prop := receive st st' \/ handle st st'.

Definition reachable (st : host) : Prop := exists st0, initial st0 /\ rtc step st0 st.

(** ** Every packet is handled *)

(** A packet at the hook: on its first pass, or on its second. *)
Definition returning (skb : sk_buff) : Prop :=
  pass_to_kernel (skb_cb skb) = true /\ frame_data (skb_data skb) /\
  pl_verdict p (skb_data skb) <> Rejected.

Definition host_ok (st : host) : Prop :=
  Forall (fun pkt => fresh pkt.2 \/ returning pkt.2) (h_queue st).

Context `{!PipelineOk p} `{!RedirectOk K}.

Lemma fresh_arrives st skb : fresh skb -> arrives (packet_world st skb).
Proof. intros (? & ? & ? & _ & (? & ? & ?) & ? & _). by split. Qed.

(** What the program makes of a packet that it does not drop: it leaves through
    [port] as [data]. *)
Definition makes (k : kstate) (skb : sk_buff) (port : Z) (data : list Z) : Prop :=
  exists grow k', pl_spec p k skb = Send port data grow k'.

(** What the first pass can come to. *)
Inductive first_pass (k : kstate) (skb : sk_buff) : Z -> world (pl_H p) (pl_U p) -> Prop :=
| first_shot w : first_pass k skb TC_ACT_SHOT w
| first_ingress w :
  w_redirect w = Some (skb_ifindex skb, BPF_F_INGRESS) ->
  returning (w_skb w) -> makes k skb 0 (skb_data (w_skb w)) -> first_pass k skb TC_ACT_REDIRECT w
| first_egress w port :
  w_redirect w = Some (port, 0) -> port <> 0 -> makes k skb port (skb_data (w_skb w)) ->
  first_pass k skb TC_ACT_REDIRECT w.

Lemma run_fresh st skb :
  fresh skb ->
  exists r w, pl_run p (packet_world st skb) = Some (r, w) /\ first_pass (h_kern st) skb r w.
Proof.
  intros Hf. pose proof (fresh_arrives st skb Hf) as Ha. destruct Hf as (_ & _ & _ & Hl & Hd & _ & Hw).
  pose proof (implements (packet_world st skb) Ha) as Hb. unfold behaves in Hb.
  cbn [packet_world w_kern w_skb] in Hb.
  destruct (pl_spec p (h_kern st) skb) as [|port out grow k'] eqn:Es.
  { destruct Hb as (w & E). eexists _, w. split; [exact E|constructor]. }
  destruct Hb as [[(w & E) _]|(r & w & E & Ed & _ & Hr)];
    [eexists _, w; split; [exact E|constructor]|].
  eexists r, w. split; [exact E|].
  destruct (pl_sends _ _ _ _ _ _ Hd Es) as (Hob & Hol & Hou).
  assert (Hm : makes (h_kern st) skb port (skb_data (w_skb w))) by (rewrite Ed; by eexists _, _).
  destruct (Z.eqb_spec port 0) as [->|Hport].
  - destruct Hr as (-> & Hr & Hp). destruct (redirect_result (skb_ifindex skb) BPF_F_INGRESS) as [-> | ->];
      [|constructor]. apply first_ingress; [exact Hr| |exact Hm]. split; [exact Hp|]. rewrite Ed.
    split; [split; [lia|]; split; [exact Hob|unfold small; lia]|].
    exact (pl_resends _ _ _ _ _ Hd Hw Es).
  - destruct Hr as (-> & Hr). destruct (redirect_result port 0) as [-> | ->]; [|constructor].
    by apply (first_egress _ _ _ port).
Qed.

Lemma run_returning st skb :
  returning skb ->
  exists w, pl_run p (packet_world st skb) = Some (TC_ACT_OK, w) /\
    skb_data (w_skb w) = skb_data skb /\ w_kern w = h_kern st.
Proof.
  intros (Hp & Hd & Hv). destruct (pl_second (packet_world st skb)) as (w & E & Hs); try done.
  exists w. split; [|exact Hs]. rewrite E. cbn [packet_world w_skb]. by destruct (pl_verdict p _).
Qed.

(** No packet is stuck: whatever packet is chosen, there is a next state. *)
Lemma handle_progress st q1 skb0 skb q2 :
  host_ok st -> h_queue st = q1 ++ (skb0, skb) :: q2 ->
  exists st', handle st st' /\ (exists q3, h_queue st' = q1 ++ q2 ++ q3).
Proof.
  intros Hok Eq. unfold host_ok in Hok. rewrite Eq in Hok.
  apply Forall_app in Hok as [_ Hok]. apply Forall_cons_1 in Hok as [[Hf|Hr] _].
  - destruct (run_fresh st skb Hf) as (r & w & E & Hp).
    destruct Hp as [w|w Hw Hr _|w port Hw _ _]; eexists; split.
    + by eapply handle_shot.
    + exists []. by rewrite app_nil_r.
    + by eapply handle_ingress.
    + by eexists.
    + by eapply handle_egress.
    + exists []. by rewrite app_nil_r.
  - destruct (run_returning st skb Hr) as (w & E & _). eexists; split.
    + by eapply handle_ok.
    + exists []. by rewrite app_nil_r.
Qed.

(** What a run says about the packet it was for. *)
Lemma queued_run st skb r w :
  fresh skb \/ returning skb -> pl_run p (packet_world st skb) = Some (r, w) ->
  (fresh skb /\ first_pass (h_kern st) skb r w) \/
  (returning skb /\ r = TC_ACT_OK /\ skb_data (w_skb w) = skb_data skb /\
   w_kern w = h_kern st).
Proof.
  intros [Hf|Hr] E.
  - destruct (run_fresh st skb Hf) as (r' & w' & E' & Hp). simplify_eq. by left.
  - destruct (run_returning st skb Hr) as (w' & E' & Hd & Hk). simplify_eq. right.
    by split_and!.
Qed.

Lemma queued_in st q1 skb0 skb q2 :
  host_ok st -> h_queue st = q1 ++ (skb0, skb) :: q2 ->
  (fresh skb \/ returning skb) /\ Forall (fun pkt => fresh pkt.2 \/ returning pkt.2) (q1 ++ q2).
Proof.
  unfold host_ok. intros Hok Eq. rewrite Eq in Hok. apply Forall_app in Hok as [H1 H2].
  apply Forall_cons_1 in H2 as [H2 H3]. split; [exact H2|]. by apply Forall_app.
Qed.

(** A packet that is redirected to the hook has had its first pass only, and so
    has one that is sent. *)
Lemma ingress_run st skb w ifindex :
  fresh skb \/ returning skb -> pl_run p (packet_world st skb) = Some (TC_ACT_REDIRECT, w) ->
  w_redirect w = Some (ifindex, BPF_F_INGRESS) ->
  fresh skb /\ ifindex = skb_ifindex skb /\ returning (on_device (w_skb w) ifindex) /\
  makes (h_kern st) skb 0 (skb_data (w_skb w)).
Proof.
  intros Hq E Hw. destruct (queued_run _ _ _ _ Hq E) as [[Hf Hp]|(_ & Hno & _)]; [|done].
  split; [exact Hf|].
  inversion Hp as [|w0 Hw0 Hr Hm|w0 port Hw0]; subst; rewrite Hw in Hw0; simplify_eq. by split_and!.
Qed.

Lemma egress_run st skb w port :
  fresh skb \/ returning skb -> pl_run p (packet_world st skb) = Some (TC_ACT_REDIRECT, w) ->
  w_redirect w = Some (port, 0) ->
  fresh skb /\ port <> 0 /\ makes (h_kern st) skb port (skb_data (w_skb w)).
Proof.
  intros Hq E Hw. destruct (queued_run _ _ _ _ Hq E) as [[Hf Hp]|(_ & Hno & _)]; [|done].
  split; [exact Hf|].
  inversion Hp as [|w0 Hw0|w0 port0 Hw0 Hp0 Hm]; subst; rewrite Hw in Hw0; simplify_eq. by split.
Qed.

(** A packet that goes to the stack is on its second pass. *)
Lemma accepted_run st skb w :
  fresh skb \/ returning skb -> pl_run p (packet_world st skb) = Some (TC_ACT_OK, w) ->
  returning skb /\ skb_data (w_skb w) = skb_data skb.
Proof.
  intros Hq E. destruct (queued_run _ _ _ _ Hq E) as [[_ Hp]|(Hr & _ & Hd & _)]; [inversion Hp|by split].
Qed.

Lemma host_ok_step st st' : host_ok st -> step st st' -> host_ok st'.
Proof.
  intros Hok [Hr|Hh].
  - destruct Hr as [st skb Hf]. unfold host_ok. cbn. apply Forall_app. split; [exact Hok|].
    constructor; [by left|constructor].
  - destruct Hh as [st q1 q2 skb0 skb w Eq E|st q1 q2 skb0 skb w Eq E|st q1 q2 skb0 skb w i Eq E Hw|st q1 q2 skb0 skb w port Eq E Hw];
      destruct (queued_in _ _ _ _ _ Hok Eq) as [Hs Hq]; [exact Hq|exact Hq| |exact Hq].
    destruct (ingress_run _ _ _ _ Hs E Hw) as (_ & _ & Hr & _). apply Forall_app in Hq as [H1 H2].
    unfold host_ok. cbn. apply Forall_app. split; [exact H1|]. apply Forall_app. split; [exact H2|].
    constructor; [by right|constructor].
Qed.

Lemma reachable_ok st : reachable st -> host_ok st.
Proof.
  intros (st0 & (Hq & _) & Hs). assert (Hok : host_ok st0) by (unfold host_ok; by rewrite Hq).
  clear Hq. induction Hs as [|st0 st1 st2 H1 _ IH]; [exact Hok|]. apply IH. by eapply host_ok_step.
Qed.

Lemma reachable_step st st' : reachable st -> step st st' -> reachable st'.
Proof. intros (st0 & Hi & Hs) H. exists st0. split; [exact Hi|]. by eapply rtc_r. Qed.

Lemma reachable_handles n st st' : reachable st -> nsteps handle n st st' -> reachable st'.
Proof.
  intros Hr Hn. revert Hr; induction Hn as [st|n st st1 st' H1 _ IH]; intros Hr; [exact Hr|].
  apply IH, (reachable_step st); [exact Hr|by right].
Qed.

(** *** No packet is lost or duplicated *)

Definition accounted (st : host) : Prop :=
  h_arrived st ≡ₚ map fst (h_queue st) ++ h_dropped st ++ map fst (h_stack st) ++ map fst (h_sent st).

Lemma accounted_step st st' : accounted st -> step st st' -> accounted st'.
Proof.
  unfold accounted. intros Ha [Hr|Hh].
  - destruct Hr as [[] skb _]. cbn in *. rewrite Ha, map_app, <- app_assoc. cbn. by rewrite Permutation_middle.
  - destruct Hh as [st q1 q2 skb0 skb w Eq E|st q1 q2 skb0 skb w Eq E|st q1 q2 skb0 skb w i Eq E Hw|st q1 q2 skb0 skb w port Eq E Hw];
      rewrite Eq, map_app in Ha; cbn in *; rewrite !map_app, Ha, <- !app_assoc; cbn; solve_Permutation.
Qed.

Lemma reachable_accounted st : reachable st -> accounted st.
Proof.
  intros (st0 & (H1 & H2 & H3 & H4 & H5) & Hs).
  assert (Ha : accounted st0) by (unfold accounted; by rewrite H1, H2, H3, H4, H5).
  clear H1 H2 H3 H4 H5. induction Hs as [|st0 st1 st2 Hst _ IH]; [exact Ha|].
  apply IH. by eapply accounted_step.
Qed.

(** *** Every packet comes to what its program makes of it *)

(** A packet on its second pass, one on the stack and one on its way out. *)
Definition fated (st : host) : Prop :=
  Forall (fun pkt => fresh pkt.2 /\ pkt.2 = pkt.1 \/
                     returning pkt.2 /\ exists k, makes k pkt.1 0 (skb_data pkt.2)) (h_queue st) /\
  Forall (fun pkt => exists k, makes k pkt.1 0 (skb_data pkt.2)) (h_stack st) /\
  Forall (fun pkt => pkt.2.1 <> 0 /\ exists k, makes k pkt.1 pkt.2.1 (skb_data pkt.2.2)) (h_sent st).

Lemma fated_ok st : fated st -> host_ok st.
Proof. intros (Hq & _). eapply List.Forall_impl; [|exact Hq]. intros pkt [[Hf _]|[Hr _]]; auto. Qed.

Lemma fated_step st st' : fated st -> step st st' -> fated st'.
Proof.
  intros Hf Hs. pose proof (fated_ok st Hf) as Hok. destruct Hf as (Hq & Hk & Ho). unfold fated.
  destruct Hs as [Hr|Hh].
  - destruct Hr as [[] skb Hfr]. cbn in *. split_and!; [|done|done].
    apply Forall_app. split; [exact Hq|]. constructor; [by left|constructor].
  - destruct Hh as [st q1 q2 skb0 skb w Eq E|st q1 q2 skb0 skb w Eq E|st q1 q2 skb0 skb w i Eq E Hw|st q1 q2 skb0 skb w port Eq E Hw];
      destruct (queued_in _ _ _ _ _ Hok Eq) as [Hs _]; rewrite Eq in Hq;
      apply Forall_app in Hq as [Hq1 Hq]; apply Forall_cons_1 in Hq as [Hp Hq2];
      cbn [fst snd] in Hp; cbn; (split_and!; try done); try (by apply Forall_app).
    + destruct (accepted_run _ _ _ Hs E) as [Hr Hd]. constructor; [|exact Hk]. cbn. rewrite Hd.
      destruct Hp as [[Hf _]|[_ Hp]]; [|exact Hp]. destruct Hf as (Hf & _), Hr as (Hr & _). congruence.
    + destruct (ingress_run _ _ _ _ Hs E Hw) as (Hf & _ & Hr & Hm).
      apply Forall_app. split; [exact Hq1|]. apply Forall_app. split; [exact Hq2|].
      constructor; [|constructor]. right. split; [exact Hr|]. exists (h_kern st).
      destruct Hp as [[_ ->]|[Hp _]]; [exact Hm|]. destruct Hf as (Hf & _), Hp as (Hp & _). congruence.
    + destruct (egress_run _ _ _ _ Hs E Hw) as (Hf & Hport & Hm). constructor; [|exact Ho].
      split; [exact Hport|]. exists (h_kern st).
      destruct Hp as [[_ <-]|[Hp _]]; [exact Hm|]. destruct Hf as (Hf & _), Hp as (Hp & _). congruence.
Qed.

Lemma reachable_fated st : reachable st -> fated st.
Proof.
  intros (st0 & (H1 & _ & _ & H4 & H5) & Hs).
  assert (Hf : fated st0) by (unfold fated; rewrite H1, H4, H5; split_and!; constructor).
  clear H1 H4 H5. induction Hs as [|st0 st1 st2 Hst _ IH]; [exact Hf|]. apply IH. by eapply fated_step.
Qed.

(** *** Handling ends *)

Definition passes_left (skb : sk_buff) : nat := if pass_to_kernel (skb_cb skb) then 1 else 2.
Definition work (st : host) : nat := sum_list_with (fun pkt => passes_left pkt.2) (h_queue st).

Lemma passes_left_range skb : (1 <= passes_left skb <= 2)%nat.
Proof. unfold passes_left. case_match; lia. Qed.

Lemma handle_work st st' : host_ok st -> handle st st' -> (work st' < work st)%nat.
Proof.
  intros Hok Hh. unfold work.
  destruct Hh as [st q1 q2 skb0 skb w Eq E|st q1 q2 skb0 skb w Eq E|st q1 q2 skb0 skb w i Eq E Hw|st q1 q2 skb0 skb w port Eq E Hw];
    destruct (queued_in _ _ _ _ _ Hok Eq) as [Hs _]; pose proof (passes_left_range skb);
    cbn; rewrite Eq, !sum_list_with_app; cbn; [lia..| |lia].
  destruct (ingress_run _ _ _ _ Hs E Hw) as (Hf & _ & Hr & _).
  assert (E1 : passes_left skb = 2%nat) by (unfold passes_left; by rewrite (proj1 Hf)).
  assert (E2 : passes_left (on_device (w_skb w) i) = 1%nat) by (unfold passes_left; by rewrite (proj1 Hr)).
  rewrite E1, E2. lia.
Qed.

Lemma handle_bound n st st' :
  host_ok st -> nsteps handle n st st' -> (n + work st' <= work st)%nat /\ host_ok st'.
Proof.
  intros Hok Hn. revert Hok; induction Hn as [st|n st st1 st' H1 _ IH]; intros Hok; [by split|].
  pose proof (handle_work _ _ Hok H1) as Hw.
  destruct IH as [Hb Hok']; [by eapply host_ok_step; [|right]|]. split; [lia|exact Hok'].
Qed.

(** The host can always go on until nothing is left. *)
Lemma handle_drains st :
  host_ok st -> exists n st', nsteps handle n st st' /\ h_queue st' = [].
Proof.
  remember (work st) as m eqn:Em. revert st Em. induction (lt_wf m) as [m _ IH]; intros st -> Hok.
  destruct (h_queue st) as [|[skb0 skb] q] eqn:Eq; [exists 0%nat, st; by split; [constructor|]|].
  destruct (handle_progress st [] skb0 skb q Hok Eq) as (st1 & Hh & _).
  destruct (IH (work st1) (handle_work _ _ Hok Hh) st1 eq_refl) as (n & st' & Hn & E).
  { apply (host_ok_step st); [exact Hok|by right]. }
  exists (S n), st'. split; [by eapply nsteps_l|exact E].
Qed.

Lemma work_queue st : (work st <= 2 * length (h_queue st))%nat.
Proof.
  unfold work. induction (h_queue st) as [|[skb0 skb] q IH]; [done|]. cbn [sum_list_with length snd].
  pose proof (passes_left_range skb). lia.
Qed.

Lemma idle_empty st : host_ok st -> (forall st', ~ handle st st') -> h_queue st = [].
Proof.
  intros Hok Hidle. destruct (h_queue st) as [|[skb0 skb] q] eqn:Eq; [done|].
  destruct (handle_progress st [] skb0 skb q Hok Eq) as (st' & Hh & _). by destruct (Hidle st').
Qed.
End Host.

(** ** What programs of the common form send *)

Section Sends.
Context `{BO : ByteOrder} `{K : P4tcKernel} `{!P4tcKernelOk K}.

(** Headers, and the rest of the packet after the parsed part. *)
Lemma bytes_sent hs n data port k k0 grow grow0 out0 out port0 :
  frame_data data -> bytes hs -> (14 <= length hs < 1024)%nat ->
  Send port (hs ++ drop n data) grow k = Send port0 out0 grow0 k0 -> out = out0 ->
  bytes out /\ (14 <= length out)%nat /\
  Z.of_nat (length out) < Z.of_nat (length data) + 2 ^ 10.
Proof.
  intros (_ & Hb & _) Hh Hl [= <- <- <- <-] ->. split; [|split].
  - apply bytes_app. split; [exact Hh|by apply Forall_drop].
  - rewrite length_app. lia.
  - rewrite length_app, length_drop. change (2 ^ 10) with 1024. lia.
Qed.

Lemma bytes_out_ethernet e : bytes (out_ethernet e).
Proof. unfold out_ethernet. case_match; [apply bytes_p4_emit|constructor]. Qed.
Lemma bytes_out_ipv4 ip : bytes (out_ipv4 ip).
Proof. unfold out_ipv4. case_match; [apply bytes_p4_emit|constructor]. Qed.

Lemma program_sends {H U} (hdr0 : H) (meta0 : U) start control outHeaderLength emit pre out mods parse
    (effect : kstate -> sk_buff -> H -> option (H * Z * kstate)) k skb port o grow k' :
  program_ok hdr0 meta0 start control outHeaderLength emit pre out mods parse effect ->
  (forall h, bytes (out h) /\ (length (out h) < 1024)%nat) ->
  frame_data (skb_data skb) ->
  program_spec out parse effect k skb = Send port o grow k' ->
  bytes o /\ (14 <= length o)%nat /\
  Z.of_nat (length o) < Z.of_nat (length (skb_data skb)) + 2 ^ 10.
Proof.
  intros Hok Ho Hd. unfold program_spec.
  pose proof (ok_parse _ _ _ _ _ _ _ _ _ _ _ Hok _ (proj1 (proj2 Hd)) (proj1 Hd)) as Hp.
  destruct (parse (skb_data skb)) as [[v h] n]. destruct Hp as [Hh _].
  destruct v; [|done|];
    (destruct (effect k skb h) as [[[h' port'] k1]|] eqn:Ee; [|done]);
    destruct (ok_sendable _ _ _ _ _ _ _ _ _ _ _ Hok _ _ _ _ _ _ Hh Ee) as (_ & Hl & _);
    destruct (Ho h') as [Hb Hs]; intros E;
    by apply (bytes_sent _ _ _ _ _ _ _ _ _ _ _ Hd Hb (conj Hl Hs) E).
Qed.
End Sends.
