(* ===== verification/Crc.v ===== *)
(** The CRC functions every ..._parser.h defines (here those of
    ipip_parser.h): [crc16_update], which works bit by bit, and
    [crc32_update], which takes eight bytes at a time from the tables of
    include/crc32.h.

    Both are compared with one reference definition, the shift register that
    takes the message bit by bit.  They treat messages of up to eight bytes
    as integers of the host: those are taken from their last byte on. *)

From S2P Require Import Prelude CInt Memory P4Spec Steps Crc32Table.

(** ** The functions *)

(** [reg & 1 ? (reg >> 1) ^ poly : reg >> 1] *)
Definition crc_step (poly reg : Z) : Z :=
  if Z.odd reg then Z.lxor (Z.shiftr reg 1) poly else Z.shiftr reg 1.

Section Functions.
Context `{BO : ByteOrder}.

(** The loop of [crc16_update] from its [n]-th iteration before the end on;
    [pos] is [data] relative to the argument. *)
Fixpoint crc16_loop (poly : Z) (data : list Z) (data_size : Z) (n : nat) (pos reg : Z)
  : option Z :=
  match n with
  | O => Some reg
  | S n =>
    match load_byte data pos with
    | None => None
    | Some b =>
      let reg := Nat.iter 8 (crc_step poly) (u16 (Z.lxor reg b)) in
      crc16_loop poly data data_size n (if data_size <=? 8 then pos - 1 else pos + 1) reg
    end
  end.

Definition crc16_update (reg : Z) (data : list Z) (data_size poly : Z) : option Z :=
  crc16_loop poly data data_size (Z.to_nat data_size)
    (if data_size <=? 8 then data_size - 1 else 0) reg.

Definition crc16_finalize (reg : Z) : Z := reg.

(** [crc32_table[(u16)(offset + (u8)key)]] *)
Definition crc32_lookup (offset key : Z) : Z :=
  nth (Z.to_nat (u16 (offset + u8 key))) crc32_table 0.

(** The eight lookups of an iteration. *)
Definition crc32_slice (one two : Z) : Z :=
  let lookup_value8 := crc32_lookup 1792 (Z.land one 0xFF) in
  let lookup_value7 := crc32_lookup 1536 (Z.land (Z.shiftr one 8) 0xFF) in
  let lookup_value6 := crc32_lookup 1280 (Z.land (Z.shiftr one 16) 0xFF) in
  let lookup_value5 := crc32_lookup 1024 (Z.shiftr one 24) in
  let lookup_value4 := crc32_lookup 768 (Z.land two 0xFF) in
  let lookup_value3 := crc32_lookup 512 (Z.land (Z.shiftr two 8) 0xFF) in
  let lookup_value2 := crc32_lookup 256 (Z.land (Z.shiftr two 16) 0xFF) in
  let lookup_value1 := crc32_lookup 0 (Z.shiftr two 24) in
  Z.lxor (Z.lxor (Z.lxor (Z.lxor (Z.lxor (Z.lxor (Z.lxor
    lookup_value8 lookup_value7) lookup_value6) lookup_value5)
    lookup_value4) lookup_value3) lookup_value2) lookup_value1.

(** [for (u16 i = data_size; i >= 8; i -= 8)]; [current] is the pointer
    relative to [data], in bytes.  The result is [current], [tmp] and [*reg]. *)
Fixpoint crc32_slices (fuel : nat) (data : list Z) (data_size i current tmp reg : Z)
  : option (Z * Z * Z) :=
  if negb (8 <=? i) then Some (current, tmp, reg) else
  match fuel with
  | O => None
  | S fuel =>
    let current := if data_size =? 8 then 4 else current in
    match load_word_ne data current with
    | None => None
    | Some word1 =>
      let one := Z.lxor (if data_size =? 8 then bpf_swab32 word1 else word1) reg in
      let current := if data_size =? 8 then current - 4 else current + 4 in
      match load_word_ne data current with
      | None => None
      | Some word2 =>
        let two := if data_size =? 8 then bpf_swab32 word2 else word2 in
        let current := if data_size =? 8 then current - 4 else current + 4 in
        crc32_slices fuel data data_size (u16 (i - 8)) current (u16 (tmp + 8))
          (crc32_slice one two)
      end
    end
  end.

(** [for (u16 i = tmp; i < data_size; i++)], byte by byte in steps of
    [dir].  The key is at most 255, so the test [std_algo_lookup_key >= 0]
    always succeeds. *)
Fixpoint crc32_bytes (n : nat) (data : list Z) (dir currentChar reg : Z) : option Z :=
  match n with
  | O => Some reg
  | S n =>
    match load_byte data currentChar with
    | None => None
    | Some b =>
      let std_algo_lookup_key := Z.lxor (Z.land reg 0xFF) b in
      let lookup_value := crc32_lookup 0 (Z.land std_algo_lookup_key 255) in
      crc32_bytes n data dir (currentChar + dir) (Z.lxor (Z.shiftr reg 8) lookup_value)
    end
  end.

(** [poly] is not used: the tables are those of one polynomial. *)
Definition crc32_update (reg : Z) (data : list Z) (data_size poly : Z) : option Z :=
  match crc32_slices (Z.to_nat data_size) data data_size data_size 0 0 reg with
  | None => None
  | Some (current, tmp, reg) =>
    let n := Z.to_nat (data_size - tmp) in
    if data_size <? 8 then crc32_bytes n data (-1) (current + data_size - 1) reg
    else crc32_bytes n data 1 current reg
  end.

Definition crc32_finalize (reg : Z) : Z := Z.lxor reg 0xFFFFFFFF.
End Functions.

(** ** The reference *)

(** One bit of the message enters the register. *)
Definition crc_ref_bit (poly reg : Z) (b : bool) : Z :=
  if xorb (Z.odd reg) b then Z.lxor (Z.shiftr reg 1) poly else Z.shiftr reg 1.

Definition byte_bits (b : Z) : list bool := map (Z.testbit b) [0; 1; 2; 3; 4; 5; 6; 7].

Definition crc_ref (poly reg : Z) (message : list Z) : Z :=
  fold_left (crc_ref_bit poly) (flat_map byte_bits message) reg.

(** The order in which the functions take the bytes. *)
Definition crc_order (data : list Z) : list Z :=
  if (length data <=? 8)%nat then rev data else data.

(** The CRC-32 polynomial, bit-reversed. *)
Definition CRC32_POLY : Z := 0xEDB88320.

(** The check value of CRC-32: the CRC of "123456789". *)
Example crc32_check_value :
  option_map crc32_finalize
    (crc32_update (BO := LittleEndian) 0xFFFFFFFF [49; 50; 51; 52; 53; 54; 55; 56; 57] 9 CRC32_POLY)
  = Some 0xCBF43926.
Proof. vm_compute. reflexivity. Qed.

(** ** The shift register is linear *)

Section Register.
Context (poly : Z).

Local Notation "'steps' n" := (Nat.iter n (crc_step poly)) (at level 9, n at level 8).

Lemma odd_lxor x y : Z.odd (Z.lxor x y) = xorb (Z.odd x) (Z.odd y).
Proof. by rewrite <- !Z.bit0_odd, Z.lxor_spec. Qed.

Lemma crc_step_lxor x y : crc_step poly (Z.lxor x y) = Z.lxor (crc_step poly x) (crc_step poly y).
Proof.
  unfold crc_step. rewrite odd_lxor, Z.shiftr_lxor.
  destruct (Z.odd x), (Z.odd y); cbn [xorb]; try reflexivity.
  - rewrite (Z.lxor_comm (Z.shiftr y 1) poly), Z.lxor_assoc, <- (Z.lxor_assoc poly poly).
    by rewrite Z.lxor_nilpotent, Z.lxor_0_l.
  - by rewrite !Z.lxor_assoc, (Z.lxor_comm poly).
  - by rewrite Z.lxor_assoc.
Qed.

Lemma steps_lxor n x y : steps n (Z.lxor x y) = Z.lxor (steps n x) (steps n y).
Proof. induction n as [|n IH]; [done|]. rewrite !Nat.iter_succ, IH. apply crc_step_lxor. Qed.

Lemma steps_add n m x : steps (n + m) x = steps m (steps n x).
Proof.
  rewrite Nat.add_comm. induction m as [|m IH]; [done|]. cbn [Nat.add].
  by rewrite !Nat.iter_succ, IH.
Qed.

(** Bits above the ones that are shifted out only move. *)
Lemma crc_step_double x : crc_step poly (2 * x) = x.
Proof.
  unfold crc_step. rewrite Z.odd_mul. cbn [Z.odd andb].
  rewrite Z.shiftr_div_pow2 by lia. change (2 ^ 1) with 2. rewrite Z.mul_comm. by apply Z.div_mul.
Qed.

Lemma steps_shiftl n x : steps n (Z.shiftl x (Z.of_nat n)) = x.
Proof.
  induction n as [|n IH]; [apply Z.shiftl_0_r|]. rewrite <- (Nat.add_1_l n), steps_add.
  cbn [Nat.iter]. rewrite <- IH at 2. f_equal.
  rewrite !Z.shiftl_mul_pow2, Nat2Z.inj_succ, Z.pow_succ_r by lia.
  replace (x * (2 * 2 ^ Z.of_nat n)) with (2 * (x * 2 ^ Z.of_nat n)) by lia. apply crc_step_double.
Qed.

Lemma crc_step_bound n x :
  0 < n -> 0 <= poly < 2 ^ n -> 0 <= x < 2 ^ n -> 0 <= crc_step poly x < 2 ^ n.
Proof.
  intros Hn Hp Hx. unfold crc_step.
  assert (Hs : 0 <= Z.shiftr x 1 < 2 ^ n).
  { rewrite Z.shiftr_div_pow2 by lia. change (2 ^ 1) with 2. Z.to_euclidean_division_equations. lia. }
  destruct (Z.odd x); [|exact Hs]. apply lxor_bound; [lia|exact Hs|exact Hp].
Qed.

Lemma steps_bound n k x :
  0 < n -> 0 <= poly < 2 ^ n -> 0 <= x < 2 ^ n -> 0 <= steps k x < 2 ^ n.
Proof. intros Hn Hp Hx. induction k as [|k IH]; [exact Hx|]. rewrite Nat.iter_succ. by apply crc_step_bound. Qed.

(** *** Bytes *)

Definition crc_byte (reg b : Z) : Z := steps 8 (Z.lxor reg b).

Lemma crc_byte_bound n reg b :
  8 <= n -> 0 <= poly < 2 ^ n -> 0 <= reg < 2 ^ n -> is_byte b -> 0 <= crc_byte reg b < 2 ^ n.
Proof.
  intros Hn Hp Hr Hb. apply steps_bound; [lia|exact Hp|]. apply lxor_bound; [lia|exact Hr|].
  unfold is_byte in Hb. assert (2 ^ 8 <= 2 ^ n) by (apply Z.pow_le_mono_r; lia).
  change (2 ^ 8) with 256 in *. lia.
Qed.

Lemma crc_bytes_bound n l reg :
  8 <= n -> 0 <= poly < 2 ^ n -> 0 <= reg < 2 ^ n -> bytes l ->
  0 <= fold_left crc_byte l reg < 2 ^ n.
Proof.
  intros Hn Hp Hr Hb. revert reg Hr; induction Hb as [|b l Hb Hl IH]; intros reg Hr; [exact Hr|].
  cbn [fold_left]. apply IH, crc_byte_bound; assumption.
Qed.

(** The first bit of a message, and the others above it. *)
Fixpoint bits_val (l : list bool) : Z :=
  match l with [] => 0 | b :: l => Z.lxor (Z.b2z b) (2 * bits_val l) end.

Lemma crc_ref_bit_step reg b : crc_ref_bit poly reg b = crc_step poly (Z.lxor reg (Z.b2z b)).
Proof.
  unfold crc_ref_bit, crc_step. rewrite odd_lxor, Z.shiftr_lxor.
  replace (Z.odd (Z.b2z b)) with b by by destruct b.
  replace (Z.shiftr (Z.b2z b) 1) with 0 by by destruct b. by rewrite Z.lxor_0_r.
Qed.

Lemma crc_bits l reg :
  steps (length l) (Z.lxor reg (bits_val l)) = fold_left (crc_ref_bit poly) l reg.
Proof.
  revert reg; induction l as [|b l IH]; intros reg; [by cbn; rewrite Z.lxor_0_r|].
  cbn [fold_left bits_val length]. rewrite <- IH, crc_ref_bit_step.
  change (S (length l)) with (1 + length l)%nat. rewrite steps_add.
  apply (f_equal (steps (length l))).
  change (crc_step poly (Z.lxor reg (Z.lxor (Z.b2z b) (2 * bits_val l)))
          = Z.lxor (crc_step poly (Z.lxor reg (Z.b2z b))) (bits_val l)).
  by rewrite <- Z.lxor_assoc, (crc_step_lxor (Z.lxor reg _)), crc_step_double.
Qed.

Lemma bits_val_byte b : is_byte b -> bits_val (byte_bits b) = b.
Proof.
  intros Hb. apply Z.eqb_eq.
  apply (byte_check (fun b => bits_val (byte_bits b) =? b)); [vm_compute; reflexivity|exact Hb].
Qed.

(** The reference, byte by byte. *)
Lemma crc_ref_bytes l reg : bytes l -> crc_ref poly reg l = fold_left crc_byte l reg.
Proof.
  intros Hl. revert reg; induction Hl as [|b l Hb Hl IH]; intros reg; [done|].
  unfold crc_ref in *. cbn [flat_map]. rewrite fold_left_app. cbn [fold_left]. rewrite <- IH. f_equal.
  unfold crc_byte. rewrite <- (bits_val_byte b Hb) at 2. by rewrite <- crc_bits.
Qed.

(** *** Words *)

Lemma le_val_cons_lxor b l :
  is_byte b -> le_val (b :: l) = Z.lxor b (Z.shiftl (le_val l) 8).
Proof.
  intros Hb. cbn [le_val]. rewrite Z.shiftl_mul_pow2 by lia.
  rewrite <- Z.add_nocarry_lxor; [change (2 ^ 8) with 256; lia|].
  apply Z.bits_inj'. intros i Hi. rewrite Z.land_spec, Z.bits_0.
  destruct (Z.lt_ge_cases i 8) as [Hlt|Hge].
  - by rewrite Z.mul_pow2_bits_low, andb_false_r by done.
  - rewrite (Z.bits_above_log2 b i), andb_false_l; [done|unfold is_byte in Hb; lia|].
    destruct (Z.eq_dec b 0) as [->|]; [cbn; lia|].
    apply Z.log2_lt_pow2; [unfold is_byte in Hb; lia|].
    unfold is_byte in Hb. assert (2 ^ 8 <= 2 ^ i) by (apply Z.pow_le_mono_r; lia).
    change (2 ^ 8) with 256 in *. lia.
Qed.

(** The bytes of a little-endian word enter from its lowest on. *)
Lemma crc_word l reg :
  bytes l -> steps (8 * length l) (Z.lxor reg (le_val l)) = fold_left crc_byte l reg.
Proof.
  intros Hl. revert reg; induction Hl as [|b l Hb Hl IH]; intros reg; [by cbn; rewrite Z.lxor_0_r|].
  cbn [fold_left length]. rewrite <- IH. rewrite Nat.mul_succ_r, Nat.add_comm, steps_add. f_equal.
  rewrite le_val_cons_lxor, <- Z.lxor_assoc, steps_lxor by done.
  f_equal. apply (steps_shiftl 8).
Qed.

(** The lowest byte of a register is processed apart from the others. *)
Lemma split_low x : x = Z.lxor (Z.land x 255) (Z.shiftl (Z.shiftr x 8) 8).
Proof.
  change 255 with (Z.ones 8). apply Z.bits_inj'. intros i Hi.
  rewrite Z.lxor_spec, Z.land_spec.
  destruct (Z.lt_ge_cases i 8) as [Hlt|Hge].
  - rewrite Z.ones_spec_low, Z.shiftl_spec_low by lia. by rewrite andb_true_r, xorb_false_r.
  - rewrite Z.ones_spec_high, Z.shiftl_spec, Z.shiftr_spec by lia.
    rewrite andb_false_r, xorb_false_l. f_equal. lia.
Qed.

Lemma steps_low m x : steps (8 + m) x = Z.lxor (steps (8 + m) (Z.land x 255)) (steps m (Z.shiftr x 8)).
Proof.
  rewrite (split_low x) at 1. rewrite steps_lxor. f_equal.
  rewrite steps_add. f_equal. apply (steps_shiftl 8).
Qed.
End Register.

(** ** The order of the bytes *)

Section Loops.
Context `{BO : ByteOrder}.

(** From [pos], in steps of [dir], the buffer holds [l]. *)
Fixpoint reads (data : list Z) (dir pos : Z) (l : list Z) : Prop :=
  match l with
  | [] => True
  | b :: l => load_byte data pos = Some b /\ reads data dir (pos + dir) l
  end.

Lemma load_byte_lookup data pos b :
  0 <= pos -> data !! Z.to_nat pos = Some b -> load_byte data pos = Some b.
Proof.
  intros Hp E. unfold load_byte, load. destruct (Z.ltb_spec pos 0); [lia|].
  cbn [load_nat]. rewrite E. cbn. f_equal. unfold host_val, be_val. destruct byte_order; cbn; lia.
Qed.

Lemma reads_forward pre l post : reads (pre ++ l ++ post) 1 (Z.of_nat (length pre)) l.
Proof.
  revert pre; induction l as [|b l IH]; intros pre; [done|]. split.
  - apply load_byte_lookup; [lia|]. rewrite Nat2Z.id, lookup_app_r, Nat.sub_diag by lia. done.
  - replace (Z.of_nat (length pre) + 1) with (Z.of_nat (length (pre ++ [b])))
      by (rewrite length_app; cbn; lia).
    specialize (IH (pre ++ [b])). by rewrite <- app_assoc in IH.
Qed.

Lemma reads_backward l post : reads (l ++ post) (-1) (Z.of_nat (length l) - 1) (rev l).
Proof.
  revert post; induction l as [|b l IH] using rev_ind; intros post; [done|].
  rewrite rev_app_distr, length_app, <- app_assoc. cbn [rev app length reads]. split.
  - apply load_byte_lookup; [lia|]. replace (Z.to_nat _) with (length l) by lia.
    by rewrite lookup_app_r, Nat.sub_diag by lia.
  - replace (Z.of_nat (length l + 1) - 1 + -1) with (Z.of_nat (length l) - 1) by lia. apply IH.
Qed.

(** Where the functions start, and in which direction they go. *)
Lemma reads_order data :
  let small := Z.of_nat (length data) <=? 8 in
  reads data (if small then -1 else 1) (if small then Z.of_nat (length data) - 1 else 0)
    (crc_order data).
Proof.
  cbn zeta. unfold crc_order.
  destruct (Z.leb_spec (Z.of_nat (length data)) 8), (Nat.leb_spec (length data) 8); try lia.
  - pose proof (reads_backward data []) as Hr. by rewrite app_nil_r in Hr.
  - pose proof (reads_forward [] data []) as Hr. by rewrite app_nil_r in Hr.
Qed.

Lemma length_crc_order data : length (crc_order data) = length data.
Proof. unfold crc_order. destruct (_ <=? _)%nat; [apply length_rev|done]. Qed.

Lemma bytes_crc_order data : bytes data -> bytes (crc_order data).
Proof. intros Hb. unfold crc_order. destruct (_ <=? _)%nat; [by apply bytes_rev|done]. Qed.

(** *** crc16 *)

Lemma crc16_loop_spec poly data data_size l pos reg :
  0 <= poly < 2 ^ 16 -> 0 <= reg < 2 ^ 16 -> bytes l ->
  reads data (if data_size <=? 8 then -1 else 1) pos l ->
  crc16_loop poly data data_size (length l) pos reg = Some (fold_left (crc_byte poly) l reg).
Proof.
  intros Hp Hr Hl. revert pos reg Hr; induction Hl as [|b l Hb Hl IH]; intros pos reg Hr Hd; [done|].
  destruct Hd as [E Hd]. cbn [crc16_loop length fold_left]. rewrite E. cbv zeta.
  assert (Hx : 0 <= Z.lxor reg b < 2 ^ 16)
    by (apply lxor_bound; [lia|exact Hr|unfold is_byte in Hb; lia]).
  replace (u16 (Z.lxor reg b)) with (Z.lxor reg b) by (symmetry; by apply Z.mod_small).
  change (Nat.iter 8 (crc_step poly) (Z.lxor reg b)) with (crc_byte poly reg b).
  replace (if data_size <=? 8 then pos - 1 else pos + 1)
    with (pos + (if data_size <=? 8 then -1 else 1)) by (destruct (data_size <=? 8); lia).
  apply IH; [|exact Hd]. apply crc_byte_bound; [lia|exact Hp|exact Hr|exact Hb].
Qed.

(** *** crc32, byte by byte *)

(** The entry for byte [b] at distance [j] from the end of the slice. *)
Definition crc32_entry_ok (j : nat) (b : Z) : bool :=
  crc32_lookup (256 * Z.of_nat j) b =? Nat.iter (8 * S j) (crc_step CRC32_POLY) b.

Definition crc32_table_ok : bool :=
  forallb (fun j => forallb (crc32_entry_ok j) all_bytes) (seq 0 8).

Lemma crc32_table_checked : crc32_table_ok = true.
Proof. vm_compute. reflexivity. Qed.

Lemma crc32_lookup_spec j offset n b :
  (j < 8)%nat -> offset = 256 * Z.of_nat j -> n = (8 * S j)%nat -> is_byte b ->
  crc32_lookup offset b = Nat.iter n (crc_step CRC32_POLY) b.
Proof.
  intros Hj -> -> Hb.
  assert (Hin : In j (seq 0 8)) by (apply in_seq; lia).
  pose proof (proj1 (forallb_forall _ _) crc32_table_checked j Hin) as Hok.
  exact (proj1 (Z.eqb_eq _ _) (byte_check (crc32_entry_ok j) b Hok Hb)).
Qed.

Lemma land_255_byte x : is_byte (Z.land x 255).
Proof. change 255 with (Z.ones 8). rewrite Z.land_ones by lia. apply byte_range. Qed.

Lemma land_255_id b : is_byte b -> Z.land b 255 = b.
Proof. intros Hb. change 255 with (Z.ones 8). rewrite Z.land_ones by lia. by apply Z.mod_small. Qed.

Lemma lxor_byte a b : is_byte a -> is_byte b -> is_byte (Z.lxor a b).
Proof. intros Ha Hb. by apply (lxor_bound 8). Qed.

Lemma crc32_byte_step reg b :
  is_byte b ->
  Z.lxor (Z.shiftr reg 8) (crc32_lookup 0 (Z.land (Z.lxor (Z.land reg 0xFF) b) 255))
  = crc_byte CRC32_POLY reg b.
Proof.
  intros Hb. pose proof (land_255_byte reg) as Hr.
  rewrite land_255_id by by apply lxor_byte.
  rewrite (crc32_lookup_spec 0 0 8) by (done || lia || by apply lxor_byte).
  assert (E : Z.lxor reg b
    = Z.lxor (Z.shiftl (Z.shiftr reg 8) 8) (Z.lxor (Z.land reg 255) b)).
  { rewrite (split_low reg) at 1. by rewrite (Z.lxor_comm (Z.land reg 255)), Z.lxor_assoc. }
  unfold crc_byte. rewrite E, (steps_lxor _ 8 (Z.shiftl _ _)).
  pose proof (steps_shiftl CRC32_POLY 8 (Z.shiftr reg 8)) as Es.
  change (Z.of_nat 8) with 8 in Es. by rewrite Es.
Qed.

Lemma crc32_bytes_spec data dir l pos reg :
  bytes l -> reads data dir pos l ->
  crc32_bytes (length l) data dir pos reg = Some (fold_left (crc_byte CRC32_POLY) l reg).
Proof.
  intros Hl. revert pos reg; induction Hl as [|b l Hb Hl IH]; intros pos reg Hd; [done|].
  destruct Hd as [E Hd]. cbn [crc32_bytes length fold_left]. rewrite E. cbv zeta.
  rewrite crc32_byte_step by exact Hb. by apply IH.
Qed.

(** *** crc32, eight bytes at a time *)

Local Notation "'steps32' n" := (Nat.iter n (crc_step CRC32_POLY)) (at level 9, n at level 8).

Lemma shiftr_shiftr8 x k : 0 <= k -> Z.shiftr (Z.shiftr x k) 8 = Z.shiftr x (k + 8).
Proof. intros Hk. by rewrite Z.shiftr_shiftr by lia. Qed.

(** A word that has [m] more bits to go, by its four bytes. *)
Lemma steps_word m x :
  steps32 (32 + m) x
  = Z.lxor (Z.lxor (Z.lxor (steps32 (32 + m) (Z.land x 255))
      (steps32 (24 + m) (Z.land (Z.shiftr x 8) 255)))
      (steps32 (16 + m) (Z.land (Z.shiftr x 16) 255)))
      (steps32 (8 + m) (Z.shiftr x 24)).
Proof.
  pose proof (steps_low CRC32_POLY (24 + m) x) as E1.
  pose proof (steps_low CRC32_POLY (16 + m) (Z.shiftr x 8)) as E2.
  pose proof (steps_low CRC32_POLY (8 + m) (Z.shiftr x 16)) as E3.
  rewrite shiftr_shiftr8 in E2, E3 by lia. change (8 + 8) with 16 in E2. change (16 + 8) with 24 in E3.
  change (8 + (24 + m))%nat with (32 + m)%nat in E1. change (8 + (16 + m))%nat with (24 + m)%nat in E2.
  change (8 + (8 + m))%nat with (16 + m)%nat in E3.
  by rewrite E1, E2, E3, !Z.lxor_assoc.
Qed.

Lemma byte_of_word x : 0 <= x < 2 ^ 32 -> is_byte (Z.shiftr x 24).
Proof.
  intros Hx. rewrite Z.shiftr_div_pow2 by lia. change (2 ^ 32) with 4294967296 in Hx.
  change (2 ^ 24) with 16777216. unfold is_byte. Z.to_euclidean_division_equations. lia.
Qed.

Lemma crc32_slice_spec one two :
  0 <= one < 2 ^ 32 -> 0 <= two < 2 ^ 32 ->
  crc32_slice one two = Z.lxor (steps32 64 one) (steps32 32 two).
Proof.
  intros H1 H2. pose proof (byte_of_word _ H1) as B1. pose proof (byte_of_word _ H2) as B2.
  unfold crc32_slice.
  rewrite (crc32_lookup_spec 7 1792 64), (crc32_lookup_spec 6 1536 56),
    (crc32_lookup_spec 5 1280 48), (crc32_lookup_spec 4 1024 40), (crc32_lookup_spec 3 768 32),
    (crc32_lookup_spec 2 512 24), (crc32_lookup_spec 1 256 16), (crc32_lookup_spec 0 0 8)
    by (reflexivity || lia || assumption || apply land_255_byte).
  pose proof (steps_word 32 one) as E1. pose proof (steps_word 0 two) as E2.
  cbn [Nat.add] in E1, E2. rewrite E1, E2. by rewrite !Z.lxor_assoc.
Qed.

(** An iteration takes the bytes of its two words. *)
Lemma crc32_chunk w1 w2 reg :
  length w1 = 4%nat -> length w2 = 4%nat -> bytes w1 -> bytes w2 -> 0 <= reg < 2 ^ 32 ->
  crc32_slice (Z.lxor (le_val w1) reg) (le_val w2) = fold_left (crc_byte CRC32_POLY) (w1 ++ w2) reg.
Proof.
  intros L1 L2 B1 B2 Hr.
  pose proof (le_val_bound w1 B1) as V1. pose proof (le_val_bound w2 B2) as V2.
  rewrite L1 in V1. rewrite L2 in V2. change (256 ^ Z.of_nat 4) with (2 ^ 32) in V1, V2.
  rewrite crc32_slice_spec by (exact V2 || (apply lxor_bound; [lia|exact V1|exact Hr])).
  pose proof (crc_word CRC32_POLY w1 reg B1) as E1. rewrite L1 in E1. change (8 * 4)%nat with 32%nat in E1.
  rewrite fold_left_app, <- E1, (Z.lxor_comm (le_val w1)).
  rewrite <- crc_word by exact B2. rewrite L2. change (8 * 4)%nat with 32%nat.
  change 64%nat with (32 + 32)%nat. rewrite steps_add.
  symmetry. exact (steps_lxor CRC32_POLY 32 _ _).
Qed.
End Loops.

(** ** The functions compute the CRC *)

(** A load at the start of [l] within a buffer, on a little-endian machine. *)
Lemma load_word_le pre w post :
  length w = 4%nat ->
  load_word_ne (H := LittleEndian) (pre ++ w ++ post) (Z.of_nat (length pre)) = Some (le_val w).
Proof.
  intros L. unfold load_word_ne. pose proof (load_app pre (w ++ post) 0 4) as E.
  rewrite Z.add_0_r in E. rewrite E by lia. unfold load. cbn [Z.ltb Z.compare].
  change (Z.to_nat 0) with 0%nat. rewrite load_nat_take by (rewrite length_app; lia).
  by rewrite take_app_length' by done.
Qed.

Lemma crc32_slices_stop `{ByteOrder} fuel data data_size i current tmp reg :
  i < 8 -> crc32_slices fuel data data_size i current tmp reg = Some (current, tmp, reg).
Proof. intros Hi. destruct fuel; cbn [crc32_slices]; by zcase. Qed.

(** The slices take the message up to the last seven bytes at most. *)
Lemma crc32_slices_spec fuel pre l reg :
  let data_size := Z.of_nat (length pre + length l) in
  data_size <> 8 -> data_size < 2 ^ 16 -> bytes l -> 0 <= reg < 2 ^ 32 ->
  (length l <= 8 * fuel)%nat ->
  exists l1 l2, l = l1 ++ l2 /\
    crc32_slices (BO := LittleEndian) fuel (pre ++ l) data_size (Z.of_nat (length l))
      (Z.of_nat (length pre)) (Z.of_nat (length pre)) reg
    = Some (Z.of_nat (length (pre ++ l1)), Z.of_nat (length (pre ++ l1)),
            fold_left (crc_byte CRC32_POLY) l1 reg).
Proof.
  cbv zeta. revert pre l reg; induction fuel as [|fuel IH]; intros pre l reg H8 H16 Hl Hr Hf.
  { exists [], l. split; [done|]. rewrite crc32_slices_stop, app_nil_r by lia. done. }
  destruct (Nat.lt_ge_cases (length l) 8) as [Hlt|Hge].
  { exists [], l. split; [done|]. rewrite crc32_slices_stop, app_nil_r by lia. done. }
  destruct (list_split_at 4 l) as (w1 & l' & -> & L1); [lia|].
  rewrite length_app in *. destruct (list_split_at 4 l') as (w2 & l'' & -> & L2); [lia|].
  rewrite length_app in *. apply bytes_app in Hl as [B1 Hl]. apply bytes_app in Hl as [B2 Hl].
  pose proof (crc_bytes_bound CRC32_POLY 32 (w1 ++ w2) reg ltac:(lia) ltac:(done) Hr
    (proj2 (bytes_app _ _) (conj B1 B2))) as Hr'.
  specialize (IH (pre ++ w1 ++ w2) l'' (fold_left (crc_byte CRC32_POLY) (w1 ++ w2) reg)).
  rewrite !length_app, L1, L2 in IH.
  destruct IH as (l1 & l2 & -> & E); [lia|lia|exact Hl|exact Hr'|lia|].
  exists (w1 ++ w2 ++ l1), l2. split; [by rewrite <- !app_assoc|].
  rewrite L1, L2. cbn [crc32_slices]. zcase. cbn [negb]. zcase.
  rewrite (load_word_le pre w1) by exact L1. cbv zeta.
  replace (Z.of_nat (length pre) + 4) with (Z.of_nat (length (pre ++ w1)))
    by (rewrite length_app; lia).
  rewrite (app_assoc pre w1), (load_word_le (pre ++ w1) w2) by exact L2.
  rewrite crc32_chunk by assumption.
  rewrite length_app in E. rewrite <- !app_assoc in *. rewrite !length_app, ?L1, ?L2 in *.
  assert (Hu : u16 (Z.of_nat (length pre) + 8) = Z.of_nat (length pre + (4 + 4)))
    by (unfold u16; rewrite Z.mod_small; lia).
  assert (Hi : u16 (Z.of_nat (4 + (4 + (length l1 + length l2))) - 8) = Z.of_nat (length l1 + length l2))
    by (unfold u16; rewrite Z.mod_small; lia).
  rewrite Hu, Hi.
  replace (Z.of_nat (length pre + 4) + 4) with (Z.of_nat (length pre + (4 + 4))) by lia.
  replace (length pre + (4 + (4 + (length l1 + length l2))))%nat
    with (length pre + (4 + 4) + (length l1 + length l2))%nat by lia.
  by rewrite E, (app_assoc w1), <- fold_left_app.
Qed.

(** A message of eight bytes is one slice, from its last byte on. *)
Lemma crc32_update_8 data reg poly :
  length data = 8%nat -> bytes data -> 0 <= reg < 2 ^ 32 ->
  crc32_update (BO := LittleEndian) reg data 8 poly
  = Some (fold_left (crc_byte CRC32_POLY) (rev data) reg).
Proof.
  intros L Hb Hr. destruct (list_split_at 4 data) as (w1 & w2 & -> & L1); [lia|].
  assert (L2 : length w2 = 4%nat) by (rewrite length_app in L; lia).
  apply bytes_app in Hb as [B1 B2].
  unfold crc32_update. change (Z.to_nat 8) with 8%nat. cbn [crc32_slices].
  change (negb (8 <=? 8)) with false. change (8 =? 8) with true. cbv iota.
  pose proof (load_word_le w1 w2 [] L2) as E2. rewrite app_nil_r, L1 in E2.
  pose proof (load_word_le [] w1 w2 L1 : load_word_ne (H := LittleEndian) (w1 ++ w2) 0 = _) as E1.
  change (Z.of_nat 4) with 4 in E2. rewrite E2. change (4 - 4) with 0.
  cbv zeta. rewrite E1, !bpf_swab32_bswap. unfold bswap, be_val.
  rewrite <- L2 at 1. rewrite <- L1 at 1. rewrite !le_bytes_le_val by assumption.
  rewrite crc32_chunk by (rewrite ?length_rev; auto using bytes_rev).
  rewrite rev_app_distr. reflexivity.
Qed.

(** C14: [crc16_update] computes the CRC of its bytes, for every polynomial
    of 16 bits, in the same order: up to eight are taken from the last on. *)
Theorem crc16_update_correct `{BO : ByteOrder} reg data poly :
  0 <= reg < 2 ^ 16 -> 0 <= poly < 2 ^ 16 -> bytes data -> Z.of_nat (length data) < 2 ^ 16 ->
  crc16_update reg data (Z.of_nat (length data)) poly = Some (crc_ref poly reg (crc_order data)).
Proof.
  intros Hr Hp Hb _. pose proof (reads_order data) as Hd. pose proof (bytes_crc_order data Hb) as Ho.
  cbv zeta in Hd. pose proof (crc16_loop_spec poly data _ _ _ reg Hp Hr Ho Hd) as E.
  rewrite length_crc_order in E. rewrite crc_ref_bytes by exact Ho.
  unfold crc16_update. rewrite Nat2Z.id. exact E.
Qed.

Lemma crc16_update_correct_witness :
  crc16_update (BO := LittleEndian) 0 [0x12; 0x34] (Z.of_nat 2) 0xA001
  = Some (crc_ref 0xA001 0 (crc_order [0x12; 0x34])).
Proof.
  refine (crc16_update_correct (BO := LittleEndian) 0 [0x12; 0x34] 0xA001 _ _ _ _);
    [split; reflexivity || discriminate..| |reflexivity].
  repeat constructor; discriminate.
Defined.

(** The table-driven function against the reference. *)
Lemma crc32_update_spec reg data poly :
  0 <= reg < 2 ^ 32 -> bytes data -> Z.of_nat (length data) < 2 ^ 16 ->
  crc32_update (BO := LittleEndian) reg data (Z.of_nat (length data)) poly
  = Some (crc_ref CRC32_POLY reg (crc_order data)).
Proof.
  intros Hr Hb Hl. pose proof (bytes_crc_order data Hb) as Ho. rewrite crc_ref_bytes by exact Ho.
  destruct (Nat.eq_dec (length data) 8%nat) as [E|E].
  { rewrite E. change (Z.of_nat 8) with 8. rewrite crc32_update_8 by assumption.
    unfold crc_order. by rewrite E. }
  pose proof (reads_order (BO := LittleEndian) data) as Hd. cbv zeta in Hd. unfold crc32_update.
  destruct (Z.ltb_spec (Z.of_nat (length data)) 8).
  - rewrite crc32_slices_stop, Z.sub_0_r, Nat2Z.id by lia. cbn [Z.add].
    destruct (Z.leb_spec (Z.of_nat (length data)) 8); [|lia].
    pose proof (crc32_bytes_spec data (-1) _ _ reg Ho Hd) as E'. rewrite length_crc_order in E'. exact E'.
  - destruct (crc32_slices_spec (length data) [] data reg) as (l1 & l2 & -> & Es);
      [cbn; lia|cbn; lia|exact Hb|exact Hr|lia|].
    cbn [app length Nat.add] in Es. change (Z.of_nat 0) with 0 in Es. rewrite Nat2Z.id, Es.
    apply bytes_app in Hb as [_ B2].
    replace (Z.to_nat _) with (length l2) by (rewrite length_app; lia).
    rewrite crc32_bytes_spec; [|exact B2|].
    + unfold crc_order. destruct (Nat.leb_spec (length (l1 ++ l2)) 8); [lia|]. by rewrite fold_left_app.
    + pose proof (reads_forward (BO := LittleEndian) l1 l2 []) as Hf. by rewrite app_nil_r in Hf.
Qed.

(** C11: one call of [crc32_update], which takes eight bytes at a time from
    tables, on a little-endian machine and for fewer than 2^16 bytes: it ends
    with the register of the bit-serial CRC-32 and never reads outside of the
    bytes.  The order in which they enter the register is that of the code
    ([crc_order]): from the first to the last for more than eight bytes, but
    from the last to the first for up to eight. *)
Theorem crc32_update_correct reg data poly :
  0 <= reg < 2 ^ 32 -> bytes data -> Z.of_nat (length data) < 2 ^ 16 ->
  crc32_update (BO := LittleEndian) reg data (Z.of_nat (length data)) poly
  = Some (crc_ref CRC32_POLY reg (crc_order data)).
Proof. apply crc32_update_spec. Qed.

Lemma crc32_update_correct_witness :
  crc32_update (BO := LittleEndian) 0xFFFFFFFF (seqZ 1 19) (Z.of_nat 19) 0
  = Some (crc_ref CRC32_POLY 0xFFFFFFFF (seqZ 1 19)).
Proof.
  refine (crc32_update_correct 0xFFFFFFFF (seqZ 1 19) 0 _ _ _);
    [split; [discriminate|reflexivity]| |reflexivity].
  repeat constructor; discriminate.
Defined.
