(* ===== verification/CrcMessages.v ===== *)
(** The CRC-32 of messages that are given in parts, and which errors it
    detects. *)

From S2P Require Import Prelude CInt Memory P4Spec Steps Crc32Table Crc.

(** ** Errors the shift register detects *)

(** A polynomial of [n] bits whose highest bit is set: the register's state
    can be recovered from the one after it. *)
Section Detection.
Context (n poly : Z) (Hn : 8 <= n) (Hpoly : 2 ^ (n - 1) <= poly < 2 ^ n).

Lemma poly_bound : 0 <= poly < 2 ^ n.
Proof. pose proof (Z.pow_nonneg 2 (n - 1)). lia. Qed.

Lemma crc_step_zero x : 0 <= x < 2 ^ n -> crc_step poly x = 0 -> x = 0.
Proof.
  intros Hx. unfold crc_step.
  assert (Ep : 2 ^ n = 2 * 2 ^ (n - 1)) by (rewrite <- Z.pow_succ_r by lia; f_equal; lia).
  pose proof (Z.div2_odd x) as Eo. rewrite Z.div2_spec in Eo. destruct (Z.odd x); cbn [Z.b2z] in Eo.
  - intros E. apply Z.lxor_eq in E. lia.
  - lia.
Qed.

Lemma lxor_zero_eq (f : Z -> Z) x y :
  f (Z.lxor x y) = Z.lxor (f x) (f y) -> (f (Z.lxor x y) = 0 -> Z.lxor x y = 0) -> f x = f y -> x = y.
Proof. intros Hl Hz E. apply Z.lxor_eq, Hz. by rewrite Hl, E, Z.lxor_nilpotent. Qed.

Lemma crc_step_inj x y :
  0 <= x < 2 ^ n -> 0 <= y < 2 ^ n -> crc_step poly x = crc_step poly y -> x = y.
Proof.
  intros Hx Hy. apply lxor_zero_eq; [apply crc_step_lxor|].
  apply crc_step_zero, lxor_bound; [lia|exact Hx|exact Hy].
Qed.

Lemma steps_inj k x y :
  0 <= x < 2 ^ n -> 0 <= y < 2 ^ n ->
  Nat.iter k (crc_step poly) x = Nat.iter k (crc_step poly) y -> x = y.
Proof.
  intros Hx Hy. induction k as [|k IH]; [done|]. rewrite !Nat.iter_succ. intros E. apply IH.
  pose proof poly_bound. by apply crc_step_inj; [apply steps_bound; lia..|].
Qed.

(** The same bytes keep different registers different. *)
Lemma crc_bytes_inj l x y :
  0 <= x < 2 ^ n -> 0 <= y < 2 ^ n -> bytes l ->
  fold_left (crc_byte poly) l x = fold_left (crc_byte poly) l y -> x = y.
Proof.
  intros Hx Hy Hl. rewrite <- !crc_word by exact Hl. intros E.
  pose proof poly_bound.
  assert (Hlx : forall z, 0 <= z < 2 ^ n -> Nat.iter (8 * length l) (crc_step poly) z = 0 -> z = 0).
  { intros z Hz Ez. apply (steps_inj (8 * length l)); [exact Hz|lia|].
    rewrite Ez. clear. induction (8 * length l)%nat as [|k IH]; [done|]. rewrite Nat.iter_succ, <- IH. done. }
  rewrite !steps_lxor in E. apply Z.lxor_eq. apply Hlx; [by apply lxor_bound; [lia|..]|].
  rewrite steps_lxor. apply (f_equal (fun z => Z.lxor z (Nat.iter (8 * length l) (crc_step poly) (le_val l)))) in E.
  rewrite !Z.lxor_assoc, Z.lxor_nilpotent, !Z.lxor_0_r in E. by rewrite E, Z.lxor_nilpotent.
Qed.

(** Different bytes that fit the register make it different. *)
Lemma crc_word_inj w1 w2 x :
  0 <= x < 2 ^ n -> bytes w1 -> bytes w2 -> length w1 = length w2 -> 8 * Z.of_nat (length w1) <= n ->
  fold_left (crc_byte poly) w1 x = fold_left (crc_byte poly) w2 x -> w1 = w2.
Proof.
  intros Hx B1 B2 Hl Hw. rewrite <- !crc_word, <- Hl by assumption. intros E.
  assert (Hb : forall w, bytes w -> length w = length w1 -> 0 <= le_val w < 2 ^ n).
  { intros w Bw Lw. pose proof (le_val_bound w Bw) as Hv. rewrite Lw in Hv.
    change 256 with (2 ^ 8) in Hv. rewrite <- Z.pow_mul_r in Hv by lia.
    pose proof (Z.pow_le_mono_r 2 (8 * Z.of_nat (length w1)) n). lia. }
  pose proof (Hb w1 B1 eq_refl) as V1. pose proof (Hb w2 B2 (eq_sym Hl)) as V2.
  apply steps_inj in E; [|by apply lxor_bound; [lia|..]..].
  apply (f_equal (Z.lxor x)) in E. rewrite <- !Z.lxor_assoc, !Z.lxor_nilpotent, !Z.lxor_0_l in E.
  rewrite <- (le_bytes_le_val w1 B1), <- (le_bytes_le_val w2 B2), E. by rewrite Hl.
Qed.

(** An error burst that fits the register is detected. *)
Lemma crc_burst pre w1 w2 post x :
  0 <= x < 2 ^ n -> bytes pre -> bytes w1 -> bytes w2 -> bytes post -> length w1 = length w2 ->
  8 * Z.of_nat (length w1) <= n -> w1 <> w2 ->
  fold_left (crc_byte poly) (pre ++ w1 ++ post) x <> fold_left (crc_byte poly) (pre ++ w2 ++ post) x.
Proof.
  intros Hx Bp B1 B2 Bq Hl Hw Hne E. rewrite !fold_left_app in E.
  pose proof (crc_bytes_bound poly n pre x Hn poly_bound Hx Bp) as Hp.
  apply Hne, (crc_word_inj w1 w2 _ Hp B1 B2 Hl Hw).
  by apply (crc_bytes_inj post) in E; [|by apply crc_bytes_bound; [lia|apply poly_bound|..]..|].
Qed.
End Detection.

(** ** Messages *)

(** The fields of a tuple, given to the function one after the other: the
    register is the pointer argument of every call. *)
Fixpoint crc32_updates (reg : Z) (fields : list (list Z)) (poly : Z) : option Z :=
  match fields with
  | [] => Some reg
  | data :: fields =>
    match crc32_update (BO := LittleEndian) reg data (Z.of_nat (length data)) poly with
    | Some reg => crc32_updates reg fields poly
    | None => None
    end
  end.

(** The CRC-32 of a tuple of fields, whatever their sizes, is the CRC of
    one message: of the fields one after the other, each of up to eight bytes
    from its last byte on, so in the order of the wire for the integers of a
    little-endian machine. *)
Theorem crc32_fields reg fields poly :
  0 <= reg < 2 ^ 32 -> Forall (fun data => bytes data /\ Z.of_nat (length data) < 2 ^ 16) fields ->
  crc32_updates reg fields poly = Some (crc_ref CRC32_POLY reg (concat (map crc_order fields))).
Proof.
  intros Hr Hf. revert reg Hr; induction Hf as [|data fields [Hb Hl] Hf IH]; intros reg Hr; [done|].
  pose proof (bytes_crc_order data Hb) as Bo. cbn [crc32_updates].
  rewrite crc32_update_spec, crc_ref_bytes by assumption.
  rewrite IH by (apply crc_bytes_bound; [lia|done|exact Hr|exact Bo]).
  cbn [map concat]. rewrite <- crc_ref_bytes by exact Bo.
  unfold crc_ref. by rewrite flat_map_app, fold_left_app.
Qed.

Lemma crc32_fields_witness :
  crc32_updates 0xFFFFFFFF [[1; 0; 0; 10]; [2; 0; 0; 10]; [17]; seqZ 1 12] 0
  = Some (crc_ref CRC32_POLY 0xFFFFFFFF ([10; 0; 0; 1; 10; 0; 0; 2; 17] ++ seqZ 1 12)).
Proof.
  refine (crc32_fields 0xFFFFFFFF [[1; 0; 0; 10]; [2; 0; 0; 10]; [17]; seqZ 1 12] 0 _ _);
    [split; [discriminate|reflexivity]|].
  repeat (apply List.Forall_cons; [split; [repeat constructor; discriminate|reflexivity]|]).
  apply List.Forall_nil.
Defined.

(** A burst in the order in which the function takes the bytes. *)
Lemma crc_order_burst reg pre w1 w2 post :
  0 <= reg < 2 ^ 32 -> bytes (pre ++ w1 ++ post) -> bytes w2 ->
  length w1 = length w2 -> (length w1 <= 4)%nat -> w1 <> w2 ->
  crc_ref CRC32_POLY reg (crc_order (pre ++ w1 ++ post))
  <> crc_ref CRC32_POLY reg (crc_order (pre ++ w2 ++ post)).
Proof.
  intros Hr Hb B2 Hl H4 Hne. apply bytes_app in Hb as [Bp [B1 Bq]%bytes_app].
  assert (Hb2 : bytes (pre ++ w2 ++ post)) by (by rewrite !bytes_app).
  assert (Hb1 : bytes (pre ++ w1 ++ post)) by (by rewrite !bytes_app).
  rewrite !crc_ref_bytes by (by apply bytes_crc_order). unfold crc_order.
  replace (length (pre ++ w2 ++ post)) with (length (pre ++ w1 ++ post))
    by (by rewrite !length_app, Hl).
  assert (Hp : 2 ^ (32 - 1) <= CRC32_POLY < 2 ^ 32) by done.
  destruct (_ <=? _)%nat.
  - rewrite !rev_app_distr, <- !app_assoc.
    apply (crc_burst 32 CRC32_POLY); rewrite ?length_rev; try apply bytes_rev; try done; try lia.
    intros E. apply Hne. by rewrite <- (rev_involutive w1), E, rev_involutive.
  - apply (crc_burst 32 CRC32_POLY); try done; lia.
Qed.

(** C15: on a little-endian machine and for messages of fewer than 2^16 bytes
    [crc32_update] detects every burst of errors of up to four bytes: two
    messages that differ, but nowhere outside of four bytes in a row, have
    different CRCs, whatever the register was before. *)
Theorem crc32_burst reg pre w1 w2 post poly :
  0 <= reg < 2 ^ 32 -> bytes (pre ++ w1 ++ post) -> bytes w2 ->
  length w1 = length w2 -> (length w1 <= 4)%nat -> w1 <> w2 ->
  Z.of_nat (length (pre ++ w1 ++ post)) < 2 ^ 16 ->
  let size := Z.of_nat (length (pre ++ w1 ++ post)) in
  exists c1 c2,
    crc32_update (BO := LittleEndian) reg (pre ++ w1 ++ post) size poly = Some c1 /\
    crc32_update (BO := LittleEndian) reg (pre ++ w2 ++ post) size poly = Some c2 /\
    crc32_finalize c1 <> crc32_finalize c2.
Proof.
  intros Hr Hb B2 Hl H4 Hne Hs. cbn zeta.
  pose proof (crc_order_burst reg pre w1 w2 post Hr Hb B2 Hl H4 Hne) as Hc.
  assert (Hl' : length (pre ++ w1 ++ post) = length (pre ++ w2 ++ post)) by (by rewrite !length_app, Hl).
  assert (Hb2 : bytes (pre ++ w2 ++ post)).
  { apply bytes_app in Hb as [Bp [B1 Bq]%bytes_app]. by rewrite !bytes_app. }
  do 2 eexists. split; [by apply crc32_update_spec|]. split.
  - rewrite Hl'. apply crc32_update_spec; [exact Hr|exact Hb2|by rewrite <- Hl'].
  - unfold crc32_finalize. intros E. apply Hc.
    apply (f_equal (fun z => Z.lxor z 0xFFFFFFFF)) in E.
    by rewrite !Z.lxor_assoc, Z.lxor_nilpotent, !Z.lxor_0_r in E.
Qed.

Lemma crc32_burst_witness :
  exists c1 c2,
    crc32_update (BO := LittleEndian) 0xFFFFFFFF (seqZ 1 7 ++ [1; 2; 3; 4] ++ seqZ 1 9) 20 0 = Some c1 /\
    crc32_update (BO := LittleEndian) 0xFFFFFFFF (seqZ 1 7 ++ [1; 2; 3; 5] ++ seqZ 1 9) 20 0 = Some c2 /\
    crc32_finalize c1 <> crc32_finalize c2.
Proof.
  refine (crc32_burst 0xFFFFFFFF (seqZ 1 7) [1; 2; 3; 4] [1; 2; 3; 5] (seqZ 1 9) 0 _ _ _ eq_refl _ _ _).
  - split; [discriminate|reflexivity].
  - repeat constructor; discriminate.
  - repeat constructor; discriminate.
  - cbn. lia.
  - discriminate.
  - reflexivity.
Defined.
