(* ===== verification/Samples.v ===== *)
(** A concrete little-endian machine and kernel, at which the theorems are
    applied: the tables are a list of rows, room is made whenever the packet
    holds the bytes to keep. *)

From S2P Require Import Prelude CInt Memory Pna Pipeline Steps Headers Deparse Chain.

#[export] Instance little_endian : ByteOrder := LittleEndian.

(** A row: table, key and value. *)
Definition table_row : Type := Z * list Z * p4tc_table_entry_act_bpf.

Definition wf_act_dec (value : p4tc_table_entry_act_bpf) : bool :=
  Nat.eqb (length (act_params value)) 124 &&
  forallb (fun b => (0 <=? b) && (b <? 256)) (act_params value).

(** The first row that matches; rows whose value is not a parameter block are
    not part of the table. *)
Fixpoint sample_read (rows : list table_row) (tblid : Z) (key : list Z)
  : option p4tc_table_entry_act_bpf :=
  match rows with
  | [] => None
  | (t, key', value) :: rows =>
    if (t =? tblid) && bool_decide (key = key') && wf_act_dec value then Some value
    else sample_read rows tblid key
  end.

Definition sample_adjust (skb : sk_buff) (len_diff : Z) : Z * sk_buff :=
  let del := Z.to_nat (- len_diff) in
  if (ETH_HLEN + del <=? length (skb_data skb))%nat then
    (0, { skb with skb_data := take ETH_HLEN (skb_data skb)
                               ++ replicate (Z.to_nat len_diff) 0
                               ++ drop (ETH_HLEN + del) (skb_data skb) })
  else (-34, skb).

(** Creation on a miss adds a row with the action id and no parameters. *)
#[export] Instance sample_kernel : P4tcKernel := {
  kstate := list table_row;
  bpf_p4tc_tbl_read rows skb params key := sample_read rows (params_tblid params) key;
  bpf_p4tc_entry_create_on_miss rows skb params key :=
    (0, (create_tblid params, key,
         Build_p4tc_table_entry_act_bpf (create_act_bpf_act_id params) true false false
           (replicate 124 0)) :: rows);
  bpf_skb_adjust_room skb len_diff mode flags := sample_adjust skb len_diff;
  bpf_redirect ifindex flags := 7
}.

Lemma wf_act_dec_ok value : wf_act_dec value = true -> wf_act value.
Proof.
  unfold wf_act_dec. intros H. apply andb_prop in H as [Hl Hb].
  split; [by apply Nat.eqb_eq|]. apply List.Forall_forall. intros b Hin.
  rewrite forallb_forall in Hb. specialize (Hb b Hin).
  apply andb_prop in Hb as [H0 H1]. unfold is_byte. lia.
Qed.

#[export] Instance sample_kernel_ok : P4tcKernelOk sample_kernel.
Proof.
  split.
  - done.
  - done.
  - intros rows skb params key value. cbn.
    induction rows as [|[[t key'] v] rows IH]; cbn; [done|].
    destruct (_ && _ && _) eqn:E; [|done]. intros [= <-].
    apply andb_prop in E as [_ E]. by apply wf_act_dec_ok.
  - intros skb d skb'. cbn. unfold sample_adjust.
    destruct (Nat.leb_spec (ETH_HLEN + Z.to_nat (- d)) (length (skb_data skb))); [|done].
    intros [= <-]. exists (replicate (Z.to_nat d) 0). split_and!; try done.
    + apply Forall_replicate. unfold is_byte. lia.
    + rewrite length_replicate. lia.
Qed.

Lemma sample_room n d : (14 + Z.to_nat (- d) <= n)%nat -> room_available n d.
Proof.
  intros Hn. right. intros skb <-. cbn. unfold sample_adjust, ETH_HLEN.
  by destruct (Nat.leb_spec (14 + Z.to_nat (- d)) (length (skb_data skb))); [|lia].
Qed.

Definition sample_metadata : pna_global_metadata := {|
  recirculated := false; drop_flag := false; egress_port := 0; mirror_type := NO_MIRROR;
  mirror_slot_id := 0; parser_error := 0; mirror_session_id := 0; mark := 0;
  pass_to_kernel := false |}.

Definition sample_skb (data : list Z) : sk_buff :=
  {| skb_data := data; skb_data_meta := []; skb_ifindex := 2; skb_cb := sample_metadata |}.

Definition sample_world {H U} (h : H) (u : U) (rows : list table_row) (data : list Z)
  : world H U :=
  mk_world _ H U (sample_skb data) (Some (mk_hdr_md H U h u 0 0)) rows None.

Definition sample_filter : p4tc_filter_fields := Build_p4tc_filter_fields 1 0 0 0 0 8 1.

(** A value with the given leading parameter bytes. *)
Definition sample_value (id : Z) (params : list Z) : p4tc_table_entry_act_bpf :=
  Build_p4tc_table_entry_act_bpf id true false false
    (params ++ replicate (124 - length params) 0).

Definition is_bytes (l : list Z) : bool := forallb (fun b => (0 <=? b) && (b <? 256)) l.

Lemma is_bytes_ok l : is_bytes l = true -> bytes l.
Proof.
  unfold is_bytes. rewrite forallb_forall. intros Hb. apply List.Forall_forall.
  intros b Hin. specialize (Hb b Hin). apply andb_prop in Hb as [H0 H1]. unfold is_byte. lia.
Qed.

Lemma sample_arrives {H U} (h : H) (u : U) rows data :
  is_bytes data && (14 <=? length data)%nat && (Z.of_nat (length data) <? 65536) = true ->
  arrives (sample_world h u rows data).
Proof.
  intros Hd. apply andb_prop in Hd as [Hd Hs]. apply andb_prop in Hd as [Hb Hl].
  apply Nat.leb_le in Hl. apply Z.ltb_lt in Hs.
  split; try done; cbn [sample_world w_skb sample_skb skb_data].
  - by apply is_bytes_ok.
  - unfold small. lia.
  - apply bytes_nil.
Qed.

(** A UDP packet of 28 bytes from 10.0.0.1 to 10.0.0.2 with TTL 64. *)
Definition sample_macs : list Z := [2; 0; 0; 0; 0; 1; 2; 0; 0; 0; 0; 2].
Definition sample_ip : list Z :=
  [69; 0; 0; 28; 0; 1; 0; 0; 64; 17; 102; 206; 10; 0; 0; 1; 10; 0; 0; 2].
Definition sample_payload : list Z := [0; 7; 0; 7; 0; 8; 0; 0].
Definition sample_frame : list Z := ipv4_frame sample_macs sample_ip sample_payload.

(** Discharges the hypotheses of a theorem at a concrete packet. *)
Ltac sample_tac :=
  first
    [ apply sample_arrives; vm_compute; reflexivity
    | split; [vm_compute; reflexivity|split; reflexivity]
    | apply sample_room; vm_compute; lia
    | lia
    | vm_compute; reflexivity
    | vm_compute; discriminate
    | vm_compute; lia ].
