(* ===== verification/Ipip.v ===== *)
(** The IP-in-IP tunnel endpoint (tunnels/ipip/generated): the parser of
    ipip_parser.c and the control block of ipip_control_blocks.c.

    A port in table [Main.fwd_table] either encapsulates what it receives
    ([Main.set_ipip]), or forwards it ([Main.set_nh]); in both cases a packet
    that arrives encapsulated is decapsulated. *)

From S2P Require Import Prelude CInt Memory Pna P4Spec Pipeline Steps Headers Checksum Deparse Chain Samples.

(** ** Data (ipip_parser.h) *)

Record metadata_t := {
  meta_src : Z;    (* u32 *)
  meta_dst : Z;    (* u32 *)
  meta_push : Z    (* u8 bool *)
}.

Record headers_t := {
  ethernet : ethernet_t;
  outer : ipv4_t;
  inner : ipv4_t
}.

(** Assignments to a member. *)
Definition set_ethernet (e : ethernet_t) (hdr : headers_t) := { hdr with ethernet := e }.
Definition set_outer (ip : ipv4_t) (hdr : headers_t) := { hdr with outer := ip }.
Definition set_inner (ip : ipv4_t) (hdr : headers_t) := { hdr with inner := ip }.

(** After [__builtin_memset(hdrMd, 0, sizeof(struct hdr_md))]. *)
Definition headers0 : headers_t := Build_headers_t ethernet0 ipv4_0 ipv4_0.
Definition metadata0 : metadata_t := Build_metadata_t 0 0 0.

(** ** The parser (ipip_parser.c) *)

Section Parser.
Context `{BO : ByteOrder}.

Definition parse_ipv4_inner : P headers_t unit :=
  hdr <- get_hdr ;;
  ip <- extract_ipv4 (inner hdr) ;;
  set_hdr { hdr with inner := ip } ;;
  accept.

Definition parse_ipv4 : P headers_t unit :=
  hdr <- get_hdr ;;
  ip <- extract_ipv4 (outer hdr) ;;
  set_hdr { hdr with outer := ip } ;;
  if ip_protocol ip =? 4 then parse_ipv4_inner else accept.

Definition start : P headers_t unit :=
  hdr <- get_hdr ;;
  eth <- extract_ethernet (ethernet hdr) ;;
  set_hdr { hdr with ethernet := eth } ;;
  if eth_etherType eth =? 0x800 then parse_ipv4 else exit reject.

Definition run_parser `{K : P4tcKernel} (w : world headers_t metadata_t) :=
  run_parser_frame headers0 metadata0 start w.

Definition tc_parse_func `{K : P4tcKernel} (w : world headers_t metadata_t) :=
  tc_parse_frame run_parser w.
End Parser.

(** ** The table (ipip_control_blocks.c) *)

Definition MAIN_FWD_TABLE_ACT_MAIN_SET_IPIP : Z := 1.
Definition MAIN_FWD_TABLE_ACT_MAIN_SET_NH : Z := 2.
Definition MAIN_FWD_TABLE_ACT_MAIN_DROP : Z := 3.
Definition MAIN_FWD_TABLE_ACT_NOACTION : Z := 0.

Section Control.
Context `{BO : ByteOrder} `{K : P4tcKernel} (filter : p4tc_filter_fields).

(** [struct Main_fwd_table_key]: [keysz], [maskid], [field0]. *)
Definition Main_fwd_table_key (keysz maskid field0 : Z) : list Z :=
  pad8 (host_bytes 4 keysz ++ host_bytes 4 maskid ++ host_bytes 4 field0).

(** The union [u] of [struct Main_fwd_table_value]. *)
Definition Main_set_ipip_src (value : p4tc_table_entry_act_bpf)
  : X headers_t metadata_t Z := value_field value 0 4.
Definition Main_set_ipip_dst (value : p4tc_table_entry_act_bpf)
  : X headers_t metadata_t Z := value_field value 4 4.
Definition Main_set_ipip_port (value : p4tc_table_entry_act_bpf)
  : X headers_t metadata_t Z := value_field value 8 4.
Definition Main_set_nh_dmac (value : p4tc_table_entry_act_bpf)
  : X headers_t metadata_t Z := value_field value 0 8.
Definition Main_set_nh_port (value : p4tc_table_entry_act_bpf)
  : X headers_t metadata_t Z := value_field value 8 4.

Definition Main_set_ipip (value : p4tc_table_entry_act_bpf) : X headers_t metadata_t unit :=
  meta <- get_meta ;;
  src <- Main_set_ipip_src value ;;
  dst <- Main_set_ipip_dst value ;;
  set_meta { meta with meta_src := src; meta_dst := dst; meta_push := 1 } ;;
  port <- Main_set_ipip_port value ;;
  do_send_to_port port.

Definition Main_set_nh (value : p4tc_table_entry_act_bpf) : X headers_t metadata_t unit :=
  hdr <- get_headers ;;
  dmac <- Main_set_nh_dmac value ;;
  set_headers { hdr with ethernet -> eth_dstAddr := dmac } ;;
  port <- Main_set_nh_port value ;;
  do_send_to_port port.

(** [fwd_table_0.apply()] *)
Definition fwd_table_params : p4tc_table_entry_act_bpf_params__local :=
  {| params_pipeid := ff_pipeid filter; params_tblid := 1 |}.

Definition fwd_table_apply : X headers_t metadata_t unit :=
  skb <- get_skb ;;
  act_bpf <- tbl_read fwd_table_params (Main_fwd_table_key 32 0 (u32 (skb_ifindex skb))) ;;
  match act_bpf with
  | None => ret tt
  | Some value =>
    if act_id value =? MAIN_FWD_TABLE_ACT_MAIN_SET_IPIP then Main_set_ipip value
    else if act_id value =? MAIN_FWD_TABLE_ACT_MAIN_SET_NH then Main_set_nh value
    else if act_id value =? MAIN_FWD_TABLE_ACT_MAIN_DROP then do_drop_packet
    else ret tt
  end.

(** The control [Main]. *)
Definition main_control : X headers_t metadata_t unit :=
  hdr <- get_headers ;;
  when (is_valid (ip_valid (outer hdr)))
    (fwd_table_apply ;;
     hdr <- get_headers ;;
     when (is_valid (ip_valid (inner hdr)))
       (set_headers { hdr with outer -> ip_valid := 0 })).

(** ** The deparser's checksums *)

(** [chk.add({ip.version, ip.ihl, ..., ip.dstAddr})] *)
Definition chk_add_header (chk_state : Z) (ip : ipv4_t) : Z :=
  let chk_state := csum16_add chk_state
    (u16 (Z.lor (Z.lor (Z.shiftl (ip_version ip) 12) (Z.shiftl (ip_ihl ip) 8))
                (ip_diffserv ip))) in
  let chk_state := csum16_add chk_state (ip_totalLen ip) in
  let chk_state := csum16_add chk_state (ip_identification ip) in
  let chk_state := csum16_add chk_state
    (u16 (Z.lor (Z.shiftl (ip_flags ip) 13) (ip_fragOffset ip))) in
  let chk_state := csum16_add chk_state
    (u16 (Z.lor (Z.shiftl (ip_ttl ip) 8) (ip_protocol ip))) in
  let srcAddr_tmp := bpf_ntohl (ip_srcAddr ip) in
  let chk_state := csum16_add chk_state (u16 (Z.shiftr srcAddr_tmp 16)) in
  let chk_state := csum16_add chk_state (u16 srcAddr_tmp) in
  let dstAddr_tmp := bpf_ntohl (ip_dstAddr ip) in
  let chk_state := csum16_add chk_state (u16 (Z.shiftr dstAddr_tmp 16)) in
  csum16_add chk_state (u16 dstAddr_tmp).

(** The outer header of an encapsulated packet, before and after the
    checksum is computed. *)
Definition outer_header (meta : metadata_t) (outer : ipv4_t) : ipv4_t :=
  { outer with ip_srcAddr := meta_src meta; ip_dstAddr := meta_dst meta;
               ip_ttl := 64; ip_protocol := 4;
               ip_totalLen := u16 (ip_totalLen outer + 20);
               ip_hdrChecksum := 0 }.

Definition push_outer (meta : metadata_t) (outer : ipv4_t) : ipv4_t :=
  let ip := outer_header meta outer in
  let chk_state := chk_add_header 0 ip in
  { ip with ip_hdrChecksum := u16 (Z.lnot chk_state) }.

Definition ipip_push : X headers_t metadata_t unit :=
  meta <- get_meta ;;
  hdr <- get_headers ;;
  when (is_valid (meta_push meta) && is_valid (ip_valid (outer hdr)))
    (set_headers { hdr with outer := push_outer meta (outer hdr);
                            inner := decrement_ttl (outer hdr) }).

(** ** The deparser *)

Definition outHeaderLength (hdr : headers_t) : Z :=
  (if is_valid (eth_valid (ethernet hdr)) then 112 else 0)
  + (if is_valid (ip_valid (outer hdr)) then 160 else 0)
  + (if is_valid (ip_valid (inner hdr)) then 160 else 0).

Definition deparse_hdr_ethernet : X headers_t metadata_t unit :=
  emit_ethernet_block ethernet set_ethernet.
Definition deparse_hdr_outer : X headers_t metadata_t unit :=
  emit_ipv4_block outer set_outer.
Definition deparse_hdr_inner : X headers_t metadata_t unit :=
  emit_ipv4_block inner set_inner.

Definition deparser (hdr_start : Z) : X headers_t metadata_t unit :=
  make_room outHeaderLength hdr_start ;;
  deparse_hdr_ethernet ;;
  deparse_hdr_outer ;;
  deparse_hdr_inner.

Definition ipip_body (hdr_start : Z) : X headers_t metadata_t unit :=
  main_control ;; ipip_push ;; deparser hdr_start.

Definition process (w : world headers_t metadata_t) :=
  process_frame ipip_body w.

Definition tc_ingress_func (w : world headers_t metadata_t) :=
  tc_ingress_frame process w.

(** The pipeline as the filter runs it. *)
Definition ipip (w : world headers_t metadata_t) :=
  tc_chain tc_parse_func tc_ingress_func w.
End Control.

(** ** What the parser computes *)

Section ParserSpec.
Context `{BO : ByteOrder}.

(** The P4 parser: how it ends, the headers and the number of bytes
    extracted. *)
Definition ipip_parse (data : list Z) : verdict * headers_t * nat :=
  if (length data <? 14)%nat then (TooShort, headers0, 0%nat) else
  let hdr := { headers0 with ethernet := ethernet_of_bytes (slice 0 14 data) } in
  if negb (eth_etherType (ethernet hdr) =? 0x800) then (Rejected, hdr, 14%nat) else
  if (length data <? 34)%nat then (TooShort, hdr, 14%nat) else
  let hdr := { hdr with outer := ipv4_of_bytes (slice 14 20 data) } in
  if negb (ip_protocol (outer hdr) =? 4) then (Accepted, hdr, 34%nat) else
  if (length data <? 54)%nat then (TooShort, hdr, 34%nat) else
  (Accepted, { hdr with inner := ipv4_of_bytes (slice 34 20 data) }, 54%nat).

Lemma parse_ipv4_inner_spec h data :
  bytes data -> small data -> (34 <= length data)%nat ->
  parse_ipv4_inner (at_pos NoError h data 34)
  = if (length data <? 54)%nat then parser_outcome TooShort h data 34
    else parser_outcome Accepted { h with inner := ipv4_of_bytes (slice 34 20 data) } data 54.
Proof.
  intros Hb Hs Hl. unfold parse_ipv4_inner.
  rewrite (bind_Ret _ _ _ _ _ (get_hdr_at _ _ _ _)). unfold bind at 1.
  rewrite extract_ipv4_at, ltb_drop by done. cbn [Nat.add].
  by destruct (length data <? 54)%nat.
Qed.

Lemma ipip_start_spec data :
  bytes data -> small data ->
  start (at_pos NoError headers0 data 0)
  = let '(v, h, n) := ipip_parse data in parser_outcome v h data n.
Proof.
  intros Hb Hs. unfold start, ipip_parse.
  rewrite (bind_Ret _ _ _ _ _ (get_hdr_at _ _ _ _)). unfold bind at 1.
  cbn [ethernet headers0]. rewrite extract_ethernet_at, ltb_drop by (done || lia).
  cbn [Nat.add]. destruct (Nat.ltb_spec (length data) 14) as [|H14]; [done|].
  rewrite (bind_Ret _ _ _ _ _ (set_hdr_at _ _ _ _ _)).
  cbn [ethernet]. destruct (_ =? 0x800); cbn [negb]; [|done].
  unfold parse_ipv4. rewrite (bind_Ret _ _ _ _ _ (get_hdr_at _ _ _ _)). unfold bind at 1.
  rewrite extract_ipv4_at, ltb_drop by done. cbn [Nat.add].
  destruct (Nat.ltb_spec (length data) 34) as [|H34]; [done|].
  rewrite (bind_Ret _ _ _ _ _ (set_hdr_at _ _ _ _ _)). cbn [outer].
  destruct (_ =? 4); cbn [negb]; [|done].
  rewrite parse_ipv4_inner_spec by done. by destruct (length data <? 54)%nat.
Qed.
End ParserSpec.

(** ** What the control block computes *)

(** A row of the table. *)
Inductive action :=
| SetIpip (src dst port : Z)
| SetNh (dmac port : Z)
| Drop
| NoAction.

Section ControlSpec.
Context `{BO : ByteOrder} `{K : P4tcKernel} `{!P4tcKernelOk K} (filter : p4tc_filter_fields).

Definition fwd_action (act_bpf : option p4tc_table_entry_act_bpf) : action :=
  match act_bpf with
  | None => NoAction
  | Some value =>
    if act_id value =? 1 then SetIpip (param value 0 4) (param value 4 4) (param value 8 4)
    else if act_id value =? 2 then SetNh (param value 0 8) (param value 8 4)
    else if act_id value =? 3 then Drop
    else NoAction
  end.

Definition fwd_lookup (k : kstate) (skb : sk_buff) : option p4tc_table_entry_act_bpf :=
  bpf_p4tc_tbl_read k skb (fwd_table_params filter)
    (Main_fwd_table_key 32 0 (u32 (skb_ifindex skb))).

Definition control_state : Type := headers_t * metadata_t * pna_global_metadata.

Definition run_action (a : action) (st : control_state) : control_state :=
  let '(h, u, m) := st in
  match a with
  | SetIpip src dst port => (h, Build_metadata_t src dst 1, to_port port m)
  | SetNh dmac port => ({ h with ethernet -> eth_dstAddr := dmac }, u, to_port port m)
  | Drop => (h, u, drop_packet m)
  | NoAction => st
  end.

(** A packet that has an inner header loses its outer one. *)
Definition decap (h : headers_t) : headers_t :=
  if is_valid (ip_valid (inner h)) then { h with outer -> ip_valid := 0 } else h.

Definition encap (u : metadata_t) (h : headers_t) : headers_t :=
  if is_valid (meta_push u) && is_valid (ip_valid (outer h))
  then { h with outer := push_outer u (outer h); inner := decrement_ttl (outer h) } else h.

Definition ipip_control (a : action) (st : control_state) : control_state :=
  let '(h, u, m) := st in
  if is_valid (ip_valid (outer h)) then
    let '(h, u, m) := run_action a (h, u, m) in (encap u (decap h), u, m)
  else (encap u h, u, m).

Lemma fwd_table_apply_spec (s : xstate headers_t metadata_t) h u m :
  fwd_table_apply filter (put s h u m)
  = Ret tt (put3 s (run_action (fwd_action (fwd_lookup (x_kern s) (x_skb s))) (h, u, m))).
Proof.
  unfold fwd_table_apply, fwd_lookup. xstep. rewrite tbl_read_put.
  destruct (bpf_p4tc_tbl_read _ _ _ _) as [value|] eqn:E; [|done].
  apply tbl_read_wf in E. unfold fwd_action, MAIN_FWD_TABLE_ACT_MAIN_SET_IPIP,
    MAIN_FWD_TABLE_ACT_MAIN_SET_NH, MAIN_FWD_TABLE_ACT_MAIN_DROP.
  destruct (act_id value =? 1); [|destruct (act_id value =? 2); [|destruct (act_id value =? 3)]].
  - unfold Main_set_ipip, Main_set_ipip_src, Main_set_ipip_dst, Main_set_ipip_port.
    repeat xstep. by destruct u.
  - unfold Main_set_nh, Main_set_nh_dmac, Main_set_nh_port. by repeat xstep.
  - by xstep.
  - done.
Qed.

Lemma control_spec (s : xstate headers_t metadata_t) h u m (k : X headers_t metadata_t unit) :
  (main_control filter ;; ipip_push ;; k) (put s h u m)
  = k (put3 s (ipip_control (fwd_action (fwd_lookup (x_kern s) (x_skb s))) (h, u, m))).
Proof.
  assert (Hpush : forall h u m, (ipip_push ;; k) (put s h u m) = k (put s (encap u h) u m)).
  { intros. unfold ipip_push, encap. rewrite bind_assoc. xstep. rewrite bind_assoc. xstep.
    unfold when, ret, bind. by destruct (_ && _). }
  unfold main_control, ipip_control, when. rewrite bind_assoc. xstep.
  destruct (is_valid (ip_valid (outer h))); [|by apply Hpush].
  rewrite bind_assoc. unfold bind at 1. rewrite fwd_table_apply_spec.
  destruct (run_action _ _) as [[h' u'] m'].
  change (put3 s (h', u', m')) with (put s h' u' m').
  rewrite bind_assoc. xstep. unfold decap.
  destruct (is_valid (ip_valid (inner h'))); unfold bind at 1; apply Hpush.
Qed.
End ControlSpec.

(** ** What the deparser emits *)

Section DeparserSpec.
Context `{BO : ByteOrder} `{K : P4tcKernel} `{!P4tcKernelOk K} (filter : p4tc_filter_fields).
Implicit Types (h : headers_t) (u : metadata_t).

Definition wf_headers h : Prop :=
  wf_ethernet (ethernet h) /\ wf_ipv4 (outer h) /\ wf_ipv4 (inner h).

(** The IPv4 headers come after an Ethernet header. *)
Definition layered h : Prop :=
  is_valid (eth_valid (ethernet h)) = false ->
  is_valid (ip_valid (outer h)) = false /\ is_valid (ip_valid (inner h)) = false.

Definition headers_bytes h : list Z :=
  out_ethernet (ethernet h) ++ out_ipv4 (outer h) ++ out_ipv4 (inner h).

Lemma ipip_BYTES_outHeaderLength h :
  BYTES (outHeaderLength h) = Z.of_nat (length (headers_bytes h)).
Proof.
  unfold headers_bytes, outHeaderLength.
  rewrite !length_app, length_out_ethernet, !length_out_ipv4.
  by repeat case_match.
Qed.

Lemma length_headers_bytes h :
  layered h ->
  (if is_valid (eth_valid (ethernet h)) then 14 <= length (headers_bytes h)
   else length (headers_bytes h) = 0)%nat /\ (length (headers_bytes h) <= 54)%nat.
Proof.
  unfold layered, headers_bytes. rewrite !length_app, length_out_ethernet, !length_out_ipv4.
  intros Hl. destruct (is_valid (eth_valid _)); [repeat case_match; lia|].
  destruct (Hl eq_refl) as [-> ->]. simpl. lia.
Qed.

Definition emit_headers : X headers_t metadata_t unit :=
  deparse_hdr_ethernet ;; deparse_hdr_outer ;; deparse_hdr_inner.

Lemma ipip_emits_headers : exists mods, emits emit_headers wf_headers headers_bytes mods.
Proof.
  assert (H2 := emits_seq (U := metadata_t) _ _ _ _ _ _ _ _ (emits_ipv4 outer set_outer)
                  (emits_ipv4 inner set_inner)
                  ltac:(by intros h h' [->|[ip ->]])).
  assert (H1 := emits_seq (U := metadata_t) _ _ _ _ _ _ _ _ (emits_ethernet ethernet set_ethernet) H2
                  ltac:(by intros h h' [->|[e ->]])).
  eexists. exact H1.
Qed.

End DeparserSpec.

(** ** The pipeline *)

Section Pipeline.
Context `{BO : ByteOrder} `{K : P4tcKernel} `{!P4tcKernelOk K} (filter : p4tc_filter_fields).
Implicit Types (h : headers_t) (u : metadata_t) (w : world headers_t metadata_t).

(** What the main program does to the headers, and where it sends them. *)
Definition ipip_headers (a : action) h : headers_t :=
  if is_valid (ip_valid (outer h)) then
    match a with
    | SetIpip src dst _ => encap (Build_metadata_t src dst 1) (decap h)
    | SetNh dmac _ => decap { h with ethernet -> eth_dstAddr := dmac }
    | _ => decap h
    end
  else h.

Definition action_port (a : action) : option Z :=
  match a with
  | SetIpip _ _ port | SetNh _ port => Some port
  | Drop => None
  | NoAction => Some 0
  end.

Definition ipip_port (a : action) h : option Z :=
  if is_valid (ip_valid (outer h)) then action_port a else Some 0.

Definition ipip_spec (k : kstate) (skb : sk_buff) : behaviour :=
  let '(v, h, n) := ipip_parse (skb_data skb) in
  match v with
  | Rejected => Discard
  | _ =>
    let a := fwd_action (fwd_lookup filter k skb) in
    match ipip_port a h with
    | None => Discard
    | Some port =>
      let out := headers_bytes (ipip_headers a h) in
      Send port (out ++ drop n (skb_data skb)) (Z.of_nat (length out) - Z.of_nat n) k
    end
  end.

Lemma ipip_control_cases a h m :
  drop_flag m = false -> egress_port m = 0 ->
  exists u m', ipip_control a (h, metadata0, m) = (ipip_headers a h, u, m') /\
    match ipip_port a h with
    | None => drop_flag m' = true
    | Some port => drop_flag m' = false /\ egress_port m' = port
    end.
Proof.
  intros Hd Hp. unfold ipip_control, ipip_headers, ipip_port.
  destruct (is_valid (ip_valid (outer h))); [|by eexists _, _].
  destruct a; eexists _, _; (split; [reflexivity|]); done.
Qed.

(** *** Well-formedness *)

Lemma push_outer_wf u ip :
  wf_ipv4 ip -> 0 <= meta_src u < 2 ^ 32 -> 0 <= meta_dst u < 2 ^ 32 ->
  wf_ipv4 (push_outer u ip).
Proof.
  intros H Hs Hd. solve_wf_ipv4.
Qed.

Lemma decap_wf h : wf_headers h -> wf_headers (decap h).
Proof. intros (? & ? & ?). unfold decap. by case_match. Qed.

Lemma fwd_action_wf k skb :
  match fwd_action (fwd_lookup filter k skb) with
  | SetIpip src dst _ => 0 <= src < 2 ^ 32 /\ 0 <= dst < 2 ^ 32
  | _ => True
  end.
Proof.
  unfold fwd_action, fwd_lookup.
  destruct (bpf_p4tc_tbl_read _ _ _ _) as [value|] eqn:E; [|done].
  apply tbl_read_wf in E. repeat case_match; simplify_eq; try done.
  split; apply (param_bound value _ 4 E); lia.
Qed.

Lemma decap_ethernet h : ethernet (decap h) = ethernet h.
Proof. unfold decap. by destruct (is_valid _). Qed.

Lemma encap_ethernet u h : ethernet (encap u h) = ethernet h.
Proof. unfold encap. by destruct (_ && _). Qed.

Lemma ipip_headers_wf k skb h :
  wf_headers h -> layered h -> eth_valid (ethernet h) = 1 ->
  let h' := ipip_headers (fwd_action (fwd_lookup filter k skb)) h in
  wf_headers h' /\ layered h' /\ eth_valid (ethernet h') = 1.
Proof.
  intros Hw Hl He. pose proof (fwd_action_wf k skb) as Ha. cbn zeta.
  set (a := fwd_action _) in *.
  assert (He' : eth_valid (ethernet (ipip_headers a h)) = 1).
  { unfold ipip_headers. destruct (is_valid (ip_valid (outer h))); [|done].
    destruct a; rewrite ?encap_ethernet, decap_ethernet; exact He. }
  split_and!; [|intros Hno; by rewrite He' in Hno|done].
  unfold ipip_headers. destruct (is_valid (ip_valid (outer h))); [|exact Hw].
  destruct a; try by apply decap_wf. destruct Ha as [Hs Hd].
  pose proof (decap_wf h Hw) as (? & ? & ?). unfold encap.
  destruct (_ && _); [|done].
  split; [done|]. split; [by apply push_outer_wf|by apply decrement_ttl_wf].
Qed.

Lemma ipip_parse_ok data :
  bytes data -> (14 <= length data)%nat ->
  let '(v, h, n) := ipip_parse data in
  wf_headers h /\ layered h /\ eth_valid (ethernet h) = 1 /\ (14 <= n <= length data)%nat.
Proof.
  intros Hb H14. unfold ipip_parse.
  assert (Hw0 : wf_ipv4 ipv4_0) by (apply wf_ipv4_iff; cbn; lia).
  assert (He : forall e, e = ethernet_of_bytes (slice 0 14 data) ->
               wf_ethernet e /\ eth_valid e = 1).
  { intros e ->. split; [apply ethernet_of_bytes_wf|apply ethernet_of_bytes_valid];
      try (apply length_slice; lia); by apply slice_bytes. }
  specialize (He _ eq_refl) as [Hew Hev].
  assert (Hi : forall n, (n + 20 <= length data)%nat -> wf_ipv4 (ipv4_of_bytes (slice n 20 data))).
  { intros n Hn. apply ipv4_of_bytes_wf; [by apply length_slice|by apply slice_bytes]. }
  repeat (match goal with
          | |- context [(length data <? ?k)%nat] => destruct (Nat.ltb_spec (length data) k)
          | |- context [negb ?b] => destruct b; cbn [negb]
          end); try lia;
    (split; [split; [|split]; first [exact Hew | exact Hw0 | apply Hi; lia]|]);
    (split; [intros Hno;
       change (is_valid (eth_valid (ethernet_of_bytes (slice 0 14 data))) = false) in Hno;
       by rewrite Hev in Hno|]);
    (split; [done|lia]).
Qed.

Lemma ipip_run w :
  arrives w -> behaves (ipip_spec (w_kern w) (w_skb w)) w (ipip filter w).
Proof.
  intros Ha. unfold ipip_spec.
  pose proof (ipip_start_spec _ (arr_bytes w Ha) (arr_small w Ha)) as Hs.
  pose proof (ipip_parse_ok _ (arr_bytes w Ha) (arr_eth w Ha)) as Hok.
  destruct (ipip_parse (skb_data (w_skb w))) as [[v h] n].
  destruct Hok as (Hw & Hl & He & Hn).
  assert (Hv : v = Rejected \/ v <> Rejected) by (destruct v; auto).
  destruct Hv as [->|Hv].
  { exact (chain_rejected headers0 metadata0 start _ w h n Ha (proj2 Hn) Hs). }
  destruct (ipip_headers_wf (w_kern w) (w_skb w) h Hw Hl He) as (Hw' & Hl' & He').
  set (a := fwd_action (fwd_lookup filter (w_kern w) (w_skb w))) in *.
  replace (match v with Rejected => _ | _ => _ end)
    with (match ipip_port a h with
          | None => Discard
          | Some port =>
            let out := headers_bytes (ipip_headers a h) in
            Send port (out ++ drop n (skb_data (w_skb w)))
              (Z.of_nat (length out) - Z.of_nat n) (w_kern w)
          end) by by destruct v.
  change (ipip filter w) with (chain headers0 metadata0 start (ipip_body filter) w).
  apply (chain_behaves headers0 metadata0 start (ipip_body filter) _ w v h n Ha Hn Hv Hs).
  intros s p Hlp Hent. pose proof Hent as [Eh Eu Ed Eb Ei Edr Ept Ek].
  destruct (ipip_control_cases a h (skb_cb (x_skb s)) Edr Ept) as (u & m & Ec & Hm).
  unfold ipip_body. rewrite <- (put_id s), control_spec, Eh, Eu, Ek.
  unfold fwd_lookup. rewrite (tbl_read_dev _ _ (w_skb w)), Ei by done.
  change (fwd_action _) with a. rewrite Ec.
  change (put3 s _) with (put s (ipip_headers a h) u m).
  destruct ipip_emits_headers as [mods Hem].
  destruct (ipip_port a h) as [port|].
  - destruct Hm as [Hmd <-]. rewrite <- Hlp.
    destruct (length_headers_bytes _ Hl') as [H14 H54]. rewrite He' in H14.
    apply (deparser_behaves outHeaderLength emit_headers wf_headers headers_bytes mods Hem
             ipip_BYTES_outHeaderLength metadata0 w s h _ u m p _); rewrite ?Hlp; try done.
    + rewrite length_app, Hlp, length_drop. lia.
    + lia.
    + right. cbn in H14. lia.
  - by apply deparser_drops.
Qed.

#[export] Instance ipip_implements : Implements (ipip filter) ipip_spec := ipip_run.
End Pipeline.

(** ** Checksums of an encapsulated packet *)

Section Checksums.
Context `{BO : ByteOrder}.

Lemma chk_add_header_spec ip :
  wf_ipv4 ip -> csum_of (chk_add_header 0 ip) (sum_but_checksum ip).
Proof.
  intros Hip. pose proof (ipv4_words_word ip Hip) as Hw.
  apply wf_ipv4_iff in Hip as (?&?&?&?&?&?&?&?&?&?&?&?).
  pose proof (ntoh_bound 4 (ip_srcAddr ip)) as Hs.
  pose proof (ntoh_bound 4 (ip_dstAddr ip)) as Hd.
  change (256 ^ Z.of_nat 4) with 4294967296 in *.
  unfold ipv4_words in Hw. rewrite !List.Forall_cons_iff in Hw.
  destruct Hw as (W0 & W1 & W2 & W3 & W4 & _ & W6 & W7 & W8 & W9 & _).
  unfold bpf_ntohl in W6, W7, W8, W9.
  unfold chk_add_header. cbv zeta. unfold bpf_ntohl.
  rewrite chk_word_version, chk_word_flags, chk_word_ttl, !chk_word_high, !chk_word_low by done.
  replace (sum_but_checksum ip) with
    (0 + (ip_version ip * 4096 + ip_ihl ip * 256 + ip_diffserv ip) + ip_totalLen ip
     + ip_identification ip + (ip_flags ip * 8192 + ip_fragOffset ip)
     + (ip_ttl ip * 256 + ip_protocol ip)
     + ntoh 4 (ip_srcAddr ip) / 65536 + ntoh 4 (ip_srcAddr ip) mod 65536
     + ntoh 4 (ip_dstAddr ip) / 65536 + ntoh 4 (ip_dstAddr ip) mod 65536)
    by (unfold sum_but_checksum, ipv4_words, zsum, bpf_ntohl; cbn [foldr]; lia).
  repeat (apply csum_of_add; [|done]). apply csum_of_0.
Qed.

Lemma push_outer_checksum u ip :
  wf_ipv4 ip -> 0 <= meta_src u < 2 ^ 32 -> 0 <= meta_dst u < 2 ^ 32 ->
  internet_checksum_ok (ipv4_to_bytes (push_outer u ip)).
Proof.
  intros Hip Hs Hd. pose proof (push_outer_wf u ip Hip Hs Hd) as Hw.
  assert (Hw0 : wf_ipv4 (outer_header u ip)) by solve_wf_ipv4.
  eapply (checksum_fresh_ok _ (chk_add_header 0 (outer_header u ip))); [done| | |reflexivity].
  - unfold push_outer. rewrite sum_but_checksum_set. by apply chk_add_header_spec.
  - apply sum_but_checksum_pos; [done|]. left. by cbn.
Qed.

End Checksums.

(** ** Encapsulation and decapsulation, end to end *)

Section EndToEnd.
Context `{BO : ByteOrder} `{K : P4tcKernel} `{!P4tcKernelOk K} (filter : p4tc_filter_fields).
Implicit Types (w : world headers_t metadata_t) (macs ip payload : list Z).

Lemma ipip_parse_frame macs ip payload data :
  is_ipv4_frame macs ip payload data -> bytes data ->
  let h := Build_headers_t (ethernet_of_bytes (macs ++ [8; 0])) (ipv4_of_bytes ip) ipv4_0 in
  ipip_parse data
  = if negb (ip_protocol (ipv4_of_bytes ip) =? 4) then (Accepted, h, 34%nat)
    else if (length payload <? 20)%nat then (TooShort, h, 34%nat)
    else (Accepted, set_inner (ipv4_of_bytes (take 20 payload)) h, 54%nat).
Proof.
  intros (-> & Hm & Hi) Hb. unfold ipv4_frame in *. cbv zeta.
  assert (He : length (macs ++ [8; 0]) = 14%nat) by (rewrite length_app, Hm; done).
  apply bytes_app in Hb as [Hbe Hb].
  assert (Hlen : length ((macs ++ [8; 0]) ++ ip ++ payload) = (14 + (20 + length payload))%nat)
    by (rewrite !length_app, Hm, Hi; done).
  unfold ipip_parse. rewrite Hlen.
  destruct (Nat.ltb_spec (14 + (20 + length payload)) 14); [lia|].
  rewrite (slice_0 _ _ 14 He). cbv zeta.
  change (eth_etherType (ethernet _)) with
    (eth_etherType (ethernet_of_bytes (macs ++ [8; 0]))).
  rewrite etherType_of_bytes by done. rewrite be_val_2.
  change (8 * 256 + 0 =? 2048) with true. cbn [negb].
  destruct (Nat.ltb_spec (14 + (20 + length payload)) 34); [lia|].
  rewrite (slice_app _ _ 14 14) by (done || lia).
  change (14 - 14)%nat with 0%nat. rewrite (slice_0 _ _ 20 Hi).
  change (ip_protocol (outer _)) with (ip_protocol (ipv4_of_bytes ip)).
  destruct (negb _); [done|].
  replace (14 + (20 + length payload) <? 54)%nat with (length payload <? 20)%nat
    by (destruct (Nat.ltb_spec (length payload) 20),
                 (Nat.ltb_spec (14 + (20 + length payload)) 54); lia).
  destruct (length payload <? 20)%nat; [done|].
  rewrite (slice_app _ _ 14 34), (slice_app _ _ 20 (34 - 14)) by (done || lia).
  done.
Qed.

Lemma ipip_headers_push e o src dst port :
  ip_valid o = 1 ->
  ipip_headers (SetIpip src dst port) (Build_headers_t e o ipv4_0)
  = Build_headers_t e (push_outer (Build_metadata_t src dst 1) o) (decrement_ttl o).
Proof.
  intros Ho. unfold ipip_headers, decap, encap. cbn [outer inner]. rewrite Ho.
  change (is_valid 1) with true. change (is_valid (ip_valid ipv4_0)) with false.
  cbv iota. cbn [outer meta_push]. by rewrite Ho.
Qed.

(** Decapsulation wins over encapsulation. *)
Lemma ipip_headers_pop a e o i :
  ip_valid o = 1 -> ip_valid i = 1 ->
  ipip_headers a (Build_headers_t e o i)
  = Build_headers_t (match a with SetNh dmac _ => { e with eth_dstAddr := dmac } | _ => e end)
      { o with ip_valid := 0 } i.
Proof.
  intros Ho Hi. unfold ipip_headers, decap. cbn [outer]. rewrite Ho.
  change (is_valid 1) with true. cbv iota.
  destruct a; cbn [inner]; change (inner { Build_headers_t e o i with ethernet -> eth_dstAddr := _ })
    with i; by rewrite Hi.
Qed.

(** What is sent for an encapsulating port. *)
Lemma ipip_spec_push w macs ip payload src dst port :
  bytes (skb_data (w_skb w)) -> is_ipv4_frame macs ip payload (skb_data (w_skb w)) ->
  nth 9 ip 0 <> 4 ->
  fwd_action (fwd_lookup filter (w_kern w) (w_skb w)) = SetIpip src dst port ->
  ipip_spec filter (w_kern w) (w_skb w)
  = Send port
      (ipv4_frame macs (ipv4_to_bytes (push_outer (Build_metadata_t src dst 1) (ipv4_of_bytes ip)))
         (ipv4_to_bytes (decrement_ttl (ipv4_of_bytes ip)) ++ payload)) 20 (w_kern w).
Proof.
  intros Hb Hf Hp Ha. unfold ipip_spec. rewrite (ipip_parse_frame _ _ _ _ Hf Hb), Ha.
  destruct Hf as (E & Hm & Hi). pose proof Hb as Hb'. rewrite E in Hb'. unfold ipv4_frame in Hb'.
  apply bytes_app in Hb' as [Hbe Hb']. apply bytes_app in Hb' as [Hbi _].
  rewrite protocol_of_bytes by done. destruct (Z.eqb_spec (nth 9 ip 0) 4) as [|_]; [done|].
  cbn [negb]. pose proof (ipv4_of_bytes_valid ip Hi Hbi) as Hv.
  rewrite ipip_headers_push by done. unfold ipip_port, headers_bytes. cbn [outer inner ethernet].
  rewrite Hv, out_ethernet_frame, !out_ipv4_valid by done.
  change (is_valid 1) with true. cbv iota. f_equal.
  - rewrite E, (drop_frame _ _ _ 0 Hm Hi : drop 34 _ = _), drop_0.
    unfold ipv4_frame. by rewrite <- !app_assoc.
  - rewrite !length_app, !length_ipv4_to_bytes, Hm. done.
Qed.

(** What is sent of an encapsulated packet. *)
Lemma ipip_spec_pop w macs ip inn payload port :
  bytes (skb_data (w_skb w)) ->
  is_ipv4_frame macs ip (inn ++ payload) (skb_data (w_skb w)) ->
  nth 9 ip 0 = 4 -> length inn = 20%nat ->
  let a := fwd_action (fwd_lookup filter (w_kern w) (w_skb w)) in
  action_port a = Some port ->
  ipip_spec filter (w_kern w) (w_skb w)
  = Send port
      (ipv4_frame
         (match a with SetNh dmac _ => take 6 (host_bytes 8 dmac) ++ drop 6 macs | _ => macs end)
         inn payload) (-20) (w_kern w).
Proof.
  intros Hb Hf Hp Hin a Hport. unfold ipip_spec. rewrite (ipip_parse_frame _ _ _ _ Hf Hb).
  fold a. destruct Hf as (E & Hm & Hi). pose proof Hb as Hb'. rewrite E in Hb'.
  unfold ipv4_frame in Hb'.
  apply bytes_app in Hb' as [Hbe Hb']. apply bytes_app in Hb' as [Hbi Hb'].
  apply bytes_app in Hb' as [Hbn _].
  rewrite protocol_of_bytes, Hp by done. cbn [negb Z.eqb Pos.eqb].
  rewrite length_app, Hin. cbn [Nat.ltb Nat.leb Nat.add].
  rewrite take_app_length' by done. unfold set_inner.
  pose proof (ipv4_of_bytes_valid ip Hi Hbi) as Hv.
  pose proof (ipv4_of_bytes_valid inn Hin Hbn) as Hvn.
  change ({ _ with inner := _ }) with
    (Build_headers_t (ethernet_of_bytes (macs ++ [8; 0])) (ipv4_of_bytes ip) (ipv4_of_bytes inn)).
  unfold ipip_port. cbn [outer]. rewrite Hv. change (is_valid 1) with true. cbv iota.
  rewrite Hport, ipip_headers_pop by done. unfold headers_bytes. cbn [outer inner ethernet].
  rewrite out_ipv4_invalid, out_ipv4_valid, ipv4_to_of_bytes by done. cbn [app].
  set (e := match a with SetNh _ _ => _ | _ => _ end).
  set (macs' := match a with SetNh _ _ => _ | _ => _ end).
  assert (He : out_ethernet e = macs' ++ [8; 0] /\ length macs' = 12%nat).
  { subst e macs'. pose proof (out_ethernet_frame macs 8 0 Hm Hbe) as Ho.
    destruct a as [| dmac p | |]; [done| |done|done].
    split; [exact (out_ethernet_dst macs 8 0 dmac Hm Hbe)|].
    rewrite length_app, length_take, length_host_bytes, length_drop. lia. }
  destruct He as [-> Hm']. f_equal.
  - rewrite E, (drop_frame _ _ _ 20 Hm Hi : drop 54 _ = _), drop_app_length' by done.
    unfold ipv4_frame. by rewrite <- !app_assoc.
  - rewrite !length_app, Hin, Hm'. done.
Qed.

(** What is sent of a packet with one header that no row claims. *)
Lemma ipip_spec_plain w macs ip payload :
  bytes (skb_data (w_skb w)) -> is_ipv4_frame macs ip payload (skb_data (w_skb w)) ->
  nth 9 ip 0 <> 4 ->
  fwd_action (fwd_lookup filter (w_kern w) (w_skb w)) = NoAction ->
  ipip_spec filter (w_kern w) (w_skb w) = Send 0 (skb_data (w_skb w)) 0 (w_kern w).
Proof.
  intros Hb Hf Hp Ha. unfold ipip_spec. rewrite (ipip_parse_frame _ _ _ _ Hf Hb), Ha.
  destruct Hf as (E & Hm & Hi). pose proof Hb as Hb'. rewrite E in Hb'. unfold ipv4_frame in Hb'.
  apply bytes_app in Hb' as [Hbe Hb']. apply bytes_app in Hb' as [Hbi _].
  rewrite protocol_of_bytes by done. destruct (Z.eqb_spec (nth 9 ip 0) 4) as [|_]; [done|].
  cbn [negb]. pose proof (ipv4_of_bytes_valid ip Hi Hbi) as Hv.
  unfold ipip_port, ipip_headers, decap. cbn [outer inner]. rewrite Hv.
  change (is_valid 1) with true. change (is_valid (ip_valid ipv4_0)) with false. cbv iota.
  unfold headers_bytes. cbn [outer inner ethernet action_port].
  rewrite out_ethernet_frame, out_ipv4_valid, ipv4_to_of_bytes, out_ipv4_invalid by done.
  f_equal.
  - rewrite E, (drop_frame _ _ _ 0 Hm Hi : drop 34 _ = _), drop_0, app_nil_r.
    unfold ipv4_frame. by rewrite <- !app_assoc.
  - rewrite !length_app, Hm, Hi. done.
Qed.

(** What is sent of a frame that ends inside its IPv4 header. *)
Lemma ipip_spec_short w :
  arrives w ->
  let data := skb_data (w_skb w) in
  nth 12 data 0 * 256 + nth 13 data 0 = 0x800 -> (length data < 34)%nat ->
  ipip_spec filter (w_kern w) (w_skb w) = Send 0 data 0 (w_kern w).
Proof.
  intros Ha data Ht Hl. pose proof (arr_eth w Ha) as H14. pose proof (arr_bytes w Ha) as Hb.
  unfold ipip_spec, ipip_parse. fold data in H14, Hb |- *.
  destruct (Nat.ltb_spec (length data) 14); [lia|]. cbv zeta.
  change (eth_etherType (ethernet _)) with (eth_etherType (ethernet_of_bytes (slice 0 14 data))).
  rewrite etherType_of_slice, Ht by done. cbn [negb Z.eqb Pos.eqb].
  destruct (Nat.ltb_spec (length data) 34); [|lia].
  change { headers0 with ethernet := ethernet_of_bytes (slice 0 14 data) }
    with (Build_headers_t (ethernet_of_bytes (slice 0 14 data)) ipv4_0 ipv4_0).
  unfold ipip_port, ipip_headers. cbn [outer].
  change (is_valid (ip_valid ipv4_0)) with false. cbv iota.
  unfold headers_bytes. cbn [ethernet outer inner].
  rewrite !out_ipv4_invalid, !app_nil_r by done.
  destruct (out_ethernet_same data H14 Hb) as [Ed El]. by rewrite Ed, El.
Qed.

Lemma push_outer_fields u (ip : ipv4_t) v ihl ds tl id fl fo ttl pr hc src dst :
  ipv4_fields ip = [v; ihl; ds; tl; id; fl; fo; ttl; pr; hc; src; dst] ->
  ipv4_fields (push_outer u ip)
  = [v; ihl; ds; (tl + 20) mod 2 ^ 16; id; fl; fo; 64; 4;
     ip_hdrChecksum (push_outer u ip); bpf_ntohl (meta_src u); bpf_ntohl (meta_dst u)].
Proof. intros Hf. injection Hf; intros. subst. reflexivity. Qed.

Lemma fwd_lookup_ipip k skb value :
  fwd_lookup filter k skb = Some value -> act_id value = MAIN_FWD_TABLE_ACT_MAIN_SET_IPIP ->
  wf_act value /\
  fwd_action (fwd_lookup filter k skb)
  = SetIpip (param value 0 4) (param value 4 4) (param value 8 4).
Proof.
  intros El Ea. split; [by eapply tbl_read_wf|]. rewrite El. unfold fwd_action. by rewrite Ea.
Qed.

(** What the first endpoint sends. *)
Lemma tunnel_enter w macs ip payload src dst port v ihl ds tl id fl fo ttl pr hc sa da :
  arrives w -> is_ipv4_frame macs ip payload (skb_data (w_skb w)) ->
  p4_extract ipv4_widths ip = [v; ihl; ds; tl; id; fl; fo; ttl; pr; hc; sa; da] ->
  pr <> 4 ->
  fwd_action (fwd_lookup filter (w_kern w) (w_skb w)) = SetIpip src dst port ->
  room_available (length (skb_data (w_skb w))) 20 ->
  exists outer_ip inner_ip outer_hc inner_hc,
    (length outer_ip = 20%nat /\ bytes outer_ip /\ length inner_ip = 20%nat) /\
    delivered port (skb_ifindex (w_skb w))
      (ipv4_frame macs outer_ip (inner_ip ++ payload)) (w_kern w) (ipip filter w) /\
    p4_extract ipv4_widths outer_ip
    = [v; ihl; ds; (tl + 20) mod 2 ^ 16; id; fl; fo; 64; 4; outer_hc; bpf_ntohl src; bpf_ntohl dst] /\
    internet_checksum_ok outer_ip /\
    p4_extract ipv4_widths inner_ip
    = [v; ihl; ds; tl; id; fl; fo; (ttl - 1) mod 2 ^ 8; pr; inner_hc; sa; da] /\
    (0 < v -> internet_checksum_ok ip -> internet_checksum_ok inner_ip).
Proof.
  intros Ha Hf Hip Hpr Hact Hroom.
  destruct (frame_bytes _ _ _ _ Ha Hf) as [Hl Hb].
  destruct (protocol_field _ _ _ _ _ _ _ _ _ _ _ _ _ Hl Hb Hip) as [Hn Hv].
  pose proof (ipv4_of_bytes_wf ip Hl Hb) as Hwf. pose proof (decrement_ttl_wf _ Hwf) as Hwi.
  pose proof (fwd_action_wf filter (w_kern w) (w_skb w)) as Hu. rewrite Hact in Hu.
  destruct Hu as [Hs Hd]. set (u := Build_metadata_t src dst 1).
  pose proof (push_outer_wf u _ Hwf Hs Hd) as Hwo.
  rewrite <- ipv4_of_bytes_fields in Hip by done.
  exists (ipv4_to_bytes (push_outer u (ipv4_of_bytes ip))),
    (ipv4_to_bytes (decrement_ttl (ipv4_of_bytes ip))),
    (ip_hdrChecksum (push_outer u (ipv4_of_bytes ip))),
    (ip_hdrChecksum (decrement_ttl (ipv4_of_bytes ip))).
  split; [split_and!; [apply length_ipv4_to_bytes|apply bytes_p4_emit|apply length_ipv4_to_bytes]|].
  split; [|split; [|split; [|split]]].
  - eapply (implements_send (ipip filter) (ipip_spec filter)); [exact Ha| |exact Hroom].
    apply ipip_spec_push; [apply (arr_bytes w Ha)|done|by rewrite Hn|done].
  - by rewrite p4_extract_ipv4_to_bytes, (push_outer_fields u _ _ _ _ _ _ _ _ _ _ _ _ _ Hip).
  - exact (push_outer_checksum u _ Hwf Hs Hd).
  - by rewrite p4_extract_ipv4_to_bytes, (decrement_ttl_fields _ _ _ _ _ _ _ _ _ _ _ _ _ Hip).
  - intros Hv0 Hc. apply (decrement_ttl_checksum _ Hwf); [rewrite Hv; exact Hv0|].
    rewrite (ipv4_to_of_bytes _ Hl Hb). exact Hc.
Qed.

(** What the second endpoint sends; [next_macs]: which destination address a
    row writes. *)
Definition next_macs (a : action) macs : list Z :=
  match a with
  | SetNh dmac _ => take 6 (host_bytes 8 dmac) ++ drop 6 macs
  | _ => macs
  end.

Lemma tunnel_leave w macs ip inn payload port :
  arrives w -> is_ipv4_frame macs ip (inn ++ payload) (skb_data (w_skb w)) ->
  nth 9 ip 0 = 4 -> length inn = 20%nat ->
  let a := fwd_action (fwd_lookup filter (w_kern w) (w_skb w)) in
  action_port a = Some port ->
  room_available (length (skb_data (w_skb w))) (-20) ->
  delivered port (skb_ifindex (w_skb w)) (ipv4_frame (next_macs a macs) inn payload)
    (w_kern w) (ipip filter w).
Proof.
  intros Ha Hf Hp Hin a Hport Hroom.
  apply (implements_send (ipip filter) (ipip_spec filter) w port _ (-20)); try assumption.
  apply (ipip_spec_pop w macs ip inn payload port); try assumption. apply (arr_bytes w Ha).
Qed.

(** C1: a packet with a complete IPv4 header of another protocol than 4
    that arrives on an encapsulating port leaves, if the kernel grants 20 more
    bytes for a packet of its length, through the configured port as Ethernet, a new outer IPv4 header, the inner header,
    and the payload.  The outer header is a copy of the original one with
    the tunnel's addresses, TTL 64, protocol 4, a total length that is 20
    bytes longer, and a checksum that verifies.  The inner header is the
    original one with its TTL decremented and a checksum that verifies if
    the original checksum did. *)
Theorem ipip_encapsulates w macs ip payload value v ihl ds tl id fl fo ttl pr hc src dst :
  arrives w -> is_ipv4_frame macs ip payload (skb_data (w_skb w)) ->
  p4_extract ipv4_widths ip = [v; ihl; ds; tl; id; fl; fo; ttl; pr; hc; src; dst] ->
  pr <> 4 ->
  fwd_lookup filter (w_kern w) (w_skb w) = Some value ->
  act_id value = MAIN_FWD_TABLE_ACT_MAIN_SET_IPIP ->
  room_available (length (skb_data (w_skb w))) 20 ->
  exists outer_ip inner_ip outer_hc inner_hc,
    delivered (param value 8 4) (skb_ifindex (w_skb w))
      (ipv4_frame macs outer_ip (inner_ip ++ payload)) (w_kern w) (ipip filter w) /\
    p4_extract ipv4_widths outer_ip
    = [v; ihl; ds; (tl + 20) mod 2 ^ 16; id; fl; fo; 64; 4; outer_hc;
       be_val (slice 0 4 (act_params value)); be_val (slice 4 4 (act_params value))] /\
    internet_checksum_ok outer_ip /\
    p4_extract ipv4_widths inner_ip
    = [v; ihl; ds; tl; id; fl; fo; (ttl - 1) mod 2 ^ 8; pr; inner_hc; src; dst] /\
    (0 < v -> internet_checksum_ok ip -> internet_checksum_ok inner_ip).
Proof.
  intros Ha Hf Hip Hpr El Ea Hroom. destruct (fwd_lookup_ipip _ _ _ El Ea) as [Hval Hact].
  destruct (tunnel_enter w macs ip payload _ _ _ _ _ _ _ _ _ _ _ _ _ _ _ Ha Hf Hip Hpr Hact Hroom)
    as (outer_ip & inner_ip & outer_hc & inner_hc & _ & Hd & Ho & Hco & Hi & Hci).
  exists outer_ip, inner_ip, outer_hc, inner_hc. split; [exact Hd|].
  rewrite !param_ntohl in Ho by (done || lia). by split_and!.
Qed.

(** C18: a packet whose IPv4 header says protocol 4 loses that header: what
    follows it leaves unchanged behind the Ethernet header, through the port
    of the row that its ingress port selects (also on an encapsulating
    port), with the row's destination address, if the kernel takes 20 bytes
    off a packet of its length. *)
Theorem ipip_decapsulates w macs ip inn payload port :
  arrives w -> is_ipv4_frame macs ip (inn ++ payload) (skb_data (w_skb w)) ->
  nth 9 ip 0 = 4 -> length inn = 20%nat ->
  let a := fwd_action (fwd_lookup filter (w_kern w) (w_skb w)) in
  action_port a = Some port ->
  room_available (length (skb_data (w_skb w))) (-20) ->
  delivered port (skb_ifindex (w_skb w)) (ipv4_frame (next_macs a macs) inn payload)
    (w_kern w) (ipip filter w).
Proof. apply tunnel_leave. Qed.

End EndToEnd.

Section Tunnel.
Context `{BO : ByteOrder} `{K : P4tcKernel} `{!P4tcKernelOk K}.
Context (filter filter2 : p4tc_filter_fields).
Implicit Types (w : world headers_t metadata_t) (macs ip payload : list Z).

(** C2: two endpoints make a tunnel.  What the first sends of a packet of
    another protocol than 4 and the second receives leaves the second as the
    original packet: the same payload behind the same IPv4 header, except for
    a TTL that is one less and a checksum that still verifies.  Both kernels
    have to grant the change of length. *)
Theorem ipip_tunnel w w2 macs ip payload src dst tport port
    v ihl ds tl id fl fo ttl pr hc sa da :
  arrives w -> is_ipv4_frame macs ip payload (skb_data (w_skb w)) ->
  p4_extract ipv4_widths ip = [v; ihl; ds; tl; id; fl; fo; ttl; pr; hc; sa; da] ->
  pr <> 4 -> 0 < v -> internet_checksum_ok ip ->
  fwd_action (fwd_lookup filter (w_kern w) (w_skb w)) = SetIpip src dst tport ->
  room_available (length (skb_data (w_skb w))) 20 ->
  arrives w2 ->
  (forall r w', ipip filter w = Some (r, w') ->
     skb_data (w_skb w2) = skb_data (w_skb w')) ->
  let a := fwd_action (fwd_lookup filter2 (w_kern w2) (w_skb w2)) in
  action_port a = Some port ->
  room_available (length (skb_data (w_skb w2))) (-20) ->
  exists inner_ip inner_hc,
    delivered port (skb_ifindex (w_skb w2)) (ipv4_frame (next_macs a macs) inner_ip payload)
      (w_kern w2) (ipip filter2 w2) /\
    p4_extract ipv4_widths inner_ip
    = [v; ihl; ds; tl; id; fl; fo; (ttl - 1) mod 2 ^ 8; pr; inner_hc; sa; da] /\
    internet_checksum_ok inner_ip.
Proof.
  intros Ha Hf Hip Hpr Hv0 Hc Hact Hroom Ha2 Hrecv a Hport Hroom2.
  destruct (tunnel_enter filter w macs ip payload _ _ _ _ _ _ _ _ _ _ _ _ _ _ _ Ha Hf Hip Hpr Hact Hroom)
    as (outer_ip & inner_ip & outer_hc & inner_hc & (Hlo & Hbo & Hli) & Hd & Ho & _ & Hi & Hci).
  destruct Hd as (r & w' & Er & Ed & _). specialize (Hrecv r w' Er). rewrite Ed in Hrecv.
  exists inner_ip, inner_hc. split; [|split; [exact Hi|by apply Hci]].
  apply (tunnel_leave filter2 w2 macs outer_ip inner_ip payload port); try assumption.
  - destruct Hf as (_ & Hm & _). by split_and!.
  - eapply (protocol_field outer_ip); [exact Hlo|exact Hbo|exact Ho].
Qed.

(** Every access of the parser and of the deparser is inside the packet,
    whatever the packet, the tables and the kernel's answer to the request
    for room: the two programs come to a verdict for every packet. *)
Theorem ipip_total w : arrives w -> exists r w', ipip filter w = Some (r, w').
Proof. apply (implements_total (ipip filter) (ipip_spec filter)). Qed.

(** C31: frames that are not of the IPv4 type are dropped, and so are frames
    with a complete IPv4 header for whose ingress port the answer to the lookup
    is the drop action.  (Frames of the IPv4 type that end inside their IPv4
    header are not dropped even on such a port: see [ipip_passes].) *)
Theorem ipip_drops w :
  arrives w ->
  nth 12 (skb_data (w_skb w)) 0 * 256 + nth 13 (skb_data (w_skb w)) 0 <> 0x800 \/
  (34 <= length (skb_data (w_skb w)))%nat /\
  fwd_action (fwd_lookup filter (w_kern w) (w_skb w)) = Drop ->
  shot (ipip filter w).
Proof.
  intros Ha Hd. apply (implements_discard (ipip filter) (ipip_spec filter)); [exact Ha|].
  pose proof (arr_bytes w Ha) as Hb. pose proof (arr_eth w Ha) as H14.
  unfold ipip_spec, ipip_parse. set (data := skb_data (w_skb w)) in *.
  destruct (Nat.ltb_spec (length data) 14); [lia|]. cbv zeta.
  change (eth_etherType (ethernet _)) with (eth_etherType (ethernet_of_bytes (slice 0 14 data))).
  rewrite etherType_of_slice by assumption.
  destruct (Z.eqb_spec (nth 12 data 0 * 256 + nth 13 data 0) 2048) as [E|E]; [|done].
  destruct Hd as [|[H34 ->]]; [done|]. cbn [negb].
  destruct (Nat.ltb_spec (length data) 34); [lia|].
  assert (Hi : ip_valid (ipv4_of_bytes (slice 14 20 data)) = 1).
  { apply ipv4_of_bytes_valid; [apply length_slice; lia|by apply slice_bytes]. }
  unfold ipip_port. destruct (negb _).
  - change (ip_valid (outer _)) with (ip_valid (ipv4_of_bytes (slice 14 20 data))).
    by rewrite Hi.
  - destruct (length data <? 54)%nat;
      change (ip_valid (outer _)) with (ip_valid (ipv4_of_bytes (slice 14 20 data)));
      by rewrite Hi.
Qed.

(** C32: a packet that is not encapsulated and for whose ingress port the
    kernel's lookup returns no value, or one whose action is NoAction, is not
    dropped by the program, and neither is a frame of the IPv4 type that ends
    inside its IPv4 header, whatever the table says of its port: they go,
    unchanged, to the kernel's receive path on the device they came from.
    (A default action of the table drops the packet only if the lookup answers
    with it, which is [ipip_drops].) *)
Theorem ipip_passes w :
  arrives w ->
  let data := skb_data (w_skb w) in
  nth 12 data 0 * 256 + nth 13 data 0 = 0x800 ->
  (length data < 34)%nat \/
  (exists macs ip payload, is_ipv4_frame macs ip payload data /\ nth 9 ip 0 <> 4 /\
     fwd_action (fwd_lookup filter (w_kern w) (w_skb w)) = NoAction) ->
  delivered 0 (skb_ifindex (w_skb w)) data (w_kern w) (ipip filter w).
Proof.
  intros Ha data Ht Hd.
  apply (implements_send (ipip filter) (ipip_spec filter) w 0 _ 0); [exact Ha| |by left].
  destruct Hd as [Hl|(macs & ip & payload & Hf & Hp & El)].
  - by apply ipip_spec_short.
  - by apply (ipip_spec_plain filter w macs ip payload); [apply (arr_bytes w Ha)| | |].
Qed.
End Tunnel.

(** ** The theorems at concrete packets *)

Section Witnesses.
Definition sample_push : table_row :=
  (1, Main_fwd_table_key 32 0 2, sample_value 1 [192; 168; 0; 1; 192; 168; 0; 2; 5; 0; 0; 0]).
Definition sample_pop : table_row :=
  (1, Main_fwd_table_key 32 0 2,
   sample_value 2 [2; 0; 0; 0; 0; 9; 0; 0; 6; 0; 0; 0]).
Definition sample_drop : table_row := (1, Main_fwd_table_key 32 0 2, sample_value 3 []).

Definition ipip_world (rows : list table_row) (data : list Z) : world headers_t metadata_t :=
  sample_world headers0 metadata0 rows data.

(** What the encapsulating endpoint sends of it. *)
Definition sample_sent : list Z :=
  match ipip sample_filter (ipip_world [sample_push] sample_frame) with
  | Some (_, w) => skb_data (w_skb w)
  | None => []
  end.

Example sample_sent_eq :
  sample_sent
  = sample_macs ++ [8; 0]
    ++ [69; 0; 0; 48; 0; 1; 0; 0; 64; 4; 249; 117; 192; 168; 0; 1; 192; 168; 0; 2]
    ++ [69; 0; 0; 28; 0; 1; 0; 0; 63; 17; 103; 206; 10; 0; 0; 1; 10; 0; 0; 2]
    ++ sample_payload.
Proof. vm_compute. reflexivity. Qed.

Ltac sample_frame_tac := split; [reflexivity|split; reflexivity].

Lemma ipip_encapsulates_witness :
  exists outer_ip inner_ip outer_hc inner_hc,
    delivered 5 2 (ipv4_frame sample_macs outer_ip (inner_ip ++ sample_payload)) [sample_push]
      (ipip sample_filter (ipip_world [sample_push] sample_frame)) /\
    p4_extract ipv4_widths outer_ip
    = [4; 5; 0; 48; 1; 0; 0; 64; 4; outer_hc; 3232235521; 3232235522] /\
    internet_checksum_ok outer_ip /\
    p4_extract ipv4_widths inner_ip
    = [4; 5; 0; 28; 1; 0; 0; 63; 17; inner_hc; 167772161; 167772162] /\
    (0 < 4 -> internet_checksum_ok sample_ip -> internet_checksum_ok inner_ip).
Proof.
  refine (ipip_encapsulates sample_filter (ipip_world [sample_push] sample_frame)
    sample_macs sample_ip sample_payload sample_push.2
    4 5 0 28 1 0 0 64 17 26318 167772161 167772162 _ _ _ _ _ _ _).
  - apply sample_arrives. vm_compute. reflexivity.
  - sample_frame_tac.
  - vm_compute. reflexivity.
  - lia.
  - vm_compute. reflexivity.
  - reflexivity.
  - apply sample_room. vm_compute. lia.
Defined.

Lemma ipip_decapsulates_witness :
  delivered 6 2
    (ipv4_frame [2; 0; 0; 0; 0; 9; 2; 0; 0; 0; 0; 2]
       [69; 0; 0; 28; 0; 1; 0; 0; 63; 17; 103; 206; 10; 0; 0; 1; 10; 0; 0; 2] sample_payload)
    [sample_pop] (ipip sample_filter (ipip_world [sample_pop] sample_sent)).
Proof.
  refine (ipip_decapsulates sample_filter (ipip_world [sample_pop] sample_sent)
    sample_macs [69; 0; 0; 48; 0; 1; 0; 0; 64; 4; 249; 117; 192; 168; 0; 1; 192; 168; 0; 2]
    [69; 0; 0; 28; 0; 1; 0; 0; 63; 17; 103; 206; 10; 0; 0; 1; 10; 0; 0; 2] sample_payload 6 _ _ _ _ _ _).
  - apply sample_arrives. vm_compute. reflexivity.
  - split; [vm_compute; reflexivity|split; reflexivity].
  - reflexivity.
  - reflexivity.
  - vm_compute. reflexivity.
  - apply sample_room. vm_compute. lia.
Defined.

Lemma ipip_tunnel_witness :
  exists inner_ip inner_hc,
    delivered 6 2 (ipv4_frame [2; 0; 0; 0; 0; 9; 2; 0; 0; 0; 0; 2] inner_ip sample_payload)
      [sample_pop] (ipip sample_filter (ipip_world [sample_pop] sample_sent)) /\
    p4_extract ipv4_widths inner_ip
    = [4; 5; 0; 28; 1; 0; 0; 63; 17; inner_hc; 167772161; 167772162] /\
    internet_checksum_ok inner_ip.
Proof.
  refine (ipip_tunnel sample_filter sample_filter (ipip_world [sample_push] sample_frame)
    (ipip_world [sample_pop] sample_sent) sample_macs sample_ip sample_payload
    (host_val [192; 168; 0; 1]) (host_val [192; 168; 0; 2]) 5 6
    4 5 0 28 1 0 0 64 17 26318 167772161 167772162 _ _ _ _ _ _ _ _ _ _ _ _).
  - apply sample_arrives. vm_compute. reflexivity.
  - sample_frame_tac.
  - vm_compute. reflexivity.
  - lia.
  - lia.
  - split; [vm_compute; reflexivity|vm_compute; reflexivity].
  - vm_compute. reflexivity.
  - apply sample_room. vm_compute. lia.
  - apply sample_arrives. vm_compute. reflexivity.
  - intros r w' E. cbn [ipip_world sample_world w_skb sample_skb skb_data].
    unfold sample_sent. by rewrite E.
  - vm_compute. reflexivity.
  - apply sample_room. vm_compute. lia.
Defined.

Lemma ipip_total_witness :
  exists r w', ipip sample_filter (ipip_world [] (replicate 20 255)) = Some (r, w').
Proof. apply ipip_total, sample_arrives. vm_compute. reflexivity. Defined.

Lemma ipip_drops_witness :
  shot (ipip sample_filter (ipip_world [sample_drop] sample_frame)) /\
  shot (ipip sample_filter (ipip_world [] (replicate 20 255))).
Proof.
  split.
  - apply ipip_drops; [apply sample_arrives; vm_compute; reflexivity|].
    right. split; [vm_compute; lia|vm_compute; reflexivity].
  - apply ipip_drops; [apply sample_arrives; vm_compute; reflexivity|].
    left. vm_compute. discriminate.
Defined.

Lemma ipip_passes_witness :
  delivered 0 2 sample_frame [] (ipip sample_filter (ipip_world [] sample_frame)) /\
  delivered 0 2 (take 20 sample_frame) [sample_drop]
    (ipip sample_filter (ipip_world [sample_drop] (take 20 sample_frame))).
Proof.
  split.
  - apply (ipip_passes sample_filter (ipip_world [] sample_frame));
      [apply sample_arrives; vm_compute; reflexivity|reflexivity|].
    right. exists sample_macs, sample_ip, sample_payload.
    split; [sample_frame_tac|]. split; [discriminate|reflexivity].
  - apply (ipip_passes sample_filter (ipip_world [sample_drop] (take 20 sample_frame)));
      [apply sample_arrives; vm_compute; reflexivity|reflexivity|].
    left. vm_compute. lia.
Defined.
End Witnesses.
