(* ===== verification/Routing.v ===== *)
(** The IPv4 router (routing/generated): the parser of routing_parser.c and
    the control block of routing_control_blocks.c.

    Table [Main.fib_table] maps the destination address to a next-hop index,
    table [Main.nh_table] the index to a MAC address and a port. *)

From S2P Require Import Prelude CInt Memory Pna P4Spec Pipeline Steps Headers Checksum Deparse Chain Samples.

(** ** Data (routing_parser.h) *)

Record metadata_t := {}.

Record headers_t := {
  ethernet : ethernet_t;
  ip : ipv4_t
}.

Definition set_ethernet (e : ethernet_t) (hdr : headers_t) := { hdr with ethernet := e }.

Definition headers0 : headers_t := Build_headers_t ethernet0 ipv4_0.
Definition metadata0 : metadata_t := Build_metadata_t.

(** ** The parser (routing_parser.c) *)

Section Parser.
Context `{BO : ByteOrder}.

Definition parse_ipv4 : P headers_t unit :=
  hdr <- get_hdr ;;
  i <- extract_ipv4 (ip hdr) ;;
  set_hdr { hdr with ip := i } ;;
  accept.

Definition start : P headers_t unit :=
  hdr <- get_hdr ;;
  eth <- extract_ethernet (ethernet hdr) ;;
  set_hdr { hdr with ethernet := eth } ;;
  if eth_etherType eth =? 0x800 then parse_ipv4 else exit reject.

Definition run_parser `{K : P4tcKernel} (w : world headers_t metadata_t) :=
  run_parser_frame headers0 metadata0 start w.

Definition tc_parse_func `{K : P4tcKernel} (w : world headers_t metadata_t) :=
  tc_parse_frame run_parser w.
End Parser.

(** ** The tables (routing_control_blocks.c) *)

Definition MAIN_FIB_TABLE_ACT_MAIN_SET_NHID : Z := 3.
Definition MAIN_FIB_TABLE_ACT_NOACTION : Z := 0.
Definition MAIN_NH_TABLE_ACT_MAIN_DROP : Z := 1.
Definition MAIN_NH_TABLE_ACT_MAIN_SET_NH : Z := 2.
Definition MAIN_NH_TABLE_ACT_NOACTION : Z := 0.

Section Control.
Context `{BO : ByteOrder} `{K : P4tcKernel} (filter : p4tc_filter_fields).

(** [struct Main_fib_table_key] and [struct Main_nh_table_key]. *)
Definition Main_fib_table_key (keysz maskid field0 : Z) : list Z :=
  pad8 (host_bytes 4 keysz ++ host_bytes 4 maskid ++ host_bytes 4 field0).
Definition Main_nh_table_key (keysz maskid field0 : Z) : list Z :=
  pad8 (host_bytes 4 keysz ++ host_bytes 4 maskid ++ host_bytes 4 field0).

(** The unions of [struct Main_fib_table_value] and
    [struct Main_nh_table_value]. *)
Definition Main_set_nhid_index (value : p4tc_table_entry_act_bpf)
  : X headers_t metadata_t Z := value_field value 0 4.
Definition Main_set_nh_dmac (value : p4tc_table_entry_act_bpf)
  : X headers_t metadata_t Z := value_field value 0 8.
Definition Main_set_nh_port (value : p4tc_table_entry_act_bpf)
  : X headers_t metadata_t Z := value_field value 8 4.

Definition fib_table_params : p4tc_table_entry_act_bpf_params__local :=
  {| params_pipeid := ff_pipeid filter; params_tblid := 2 |}.
Definition nh_table_params : p4tc_table_entry_act_bpf_params__local :=
  {| params_pipeid := ff_pipeid filter; params_tblid := 1 |}.

(** [fib_table_0.apply()]: the new value of the local [nh_index_0]. *)
Definition fib_table_apply (nh_index_0 : Z) : X headers_t metadata_t Z :=
  hdr <- get_headers ;;
  act_bpf <- tbl_read fib_table_params (Main_fib_table_key 32 0 (ip_dstAddr (ip hdr))) ;;
  match act_bpf with
  | None => ret nh_index_0
  | Some value =>
    if act_id value =? MAIN_FIB_TABLE_ACT_MAIN_SET_NHID then Main_set_nhid_index value
    else ret nh_index_0
  end.

Definition Main_set_nh (value : p4tc_table_entry_act_bpf) : X headers_t metadata_t unit :=
  hdr <- get_headers ;;
  dmac <- Main_set_nh_dmac value ;;
  set_headers { hdr with ethernet -> eth_dstAddr := dmac } ;;
  port <- Main_set_nh_port value ;;
  do_send_to_port port.

(** [nh_table_0.apply()] *)
Definition nh_table_apply (nh_index_0 : Z) : X headers_t metadata_t unit :=
  act_bpf <- tbl_read nh_table_params (Main_nh_table_key 32 0 nh_index_0) ;;
  match act_bpf with
  | None => ret tt
  | Some value =>
    if act_id value =? MAIN_NH_TABLE_ACT_MAIN_DROP then do_drop_packet
    else if act_id value =? MAIN_NH_TABLE_ACT_MAIN_SET_NH then Main_set_nh value
    else ret tt
  end.

(** The control [Main]. *)
Definition main_control : X headers_t metadata_t unit :=
  hdr <- get_headers ;;
  if is_valid (ip_valid (ip hdr)) && (1 <? ip_ttl (ip hdr)) then
    nh_index_0 <- fib_table_apply 0 ;;
    nh_table_apply nh_index_0
  else do_drop_packet.

(** ** The deparser *)

(** The local copy [ip_1] of the header, with its TTL decremented. *)
Definition update_ip : X headers_t metadata_t ipv4_t :=
  hdr <- get_headers ;;
  let ip_1 := decrement_ttl (ip hdr) in
  set_headers { hdr with ip := ip_1 } ;;
  ret ip_1.

Definition outHeaderLength (ip_1 : ipv4_t) (hdr : headers_t) : Z :=
  (if is_valid (eth_valid (ethernet hdr)) then 112 else 0)
  + (if is_valid (ip_valid ip_1) then 160 else 0).

Definition deparse_hdr_ethernet : X headers_t metadata_t unit :=
  emit_ethernet_block ethernet set_ethernet.
Definition deparse_ip_1 (ip_1 : ipv4_t) : X headers_t metadata_t unit :=
  emit_local_ipv4 ip_1.

Definition deparser (hdr_start : Z) (ip_1 : ipv4_t) : X headers_t metadata_t unit :=
  make_room (outHeaderLength ip_1) hdr_start ;;
  deparse_hdr_ethernet ;;
  deparse_ip_1 ip_1.

Definition routing_body (hdr_start : Z) : X headers_t metadata_t unit :=
  main_control ;;
  ip_1 <- update_ip ;;
  deparser hdr_start ip_1.

Definition process (w : world headers_t metadata_t) := process_frame routing_body w.

Definition tc_ingress_func (w : world headers_t metadata_t) :=
  tc_ingress_frame process w.

(** The pipeline as the filter runs it. *)
Definition routing (w : world headers_t metadata_t) :=
  tc_chain tc_parse_func tc_ingress_func w.
End Control.

(** ** What the parser computes *)

Section ParserSpec.
Context `{BO : ByteOrder}.

Definition routing_parse (data : list Z) : verdict * headers_t * nat :=
  if (length data <? 14)%nat then (TooShort, headers0, 0%nat) else
  let hdr := { headers0 with ethernet := ethernet_of_bytes (slice 0 14 data) } in
  if negb (eth_etherType (ethernet hdr) =? 0x800) then (Rejected, hdr, 14%nat) else
  if (length data <? 34)%nat then (TooShort, hdr, 14%nat) else
  (Accepted, { hdr with ip := ipv4_of_bytes (slice 14 20 data) }, 34%nat).

Lemma routing_start_spec data :
  bytes data -> small data ->
  start (at_pos NoError headers0 data 0)
  = let '(v, h, n) := routing_parse data in parser_outcome v h data n.
Proof.
  intros Hb Hs. unfold start, routing_parse.
  rewrite (bind_Ret _ _ _ _ _ (get_hdr_at _ _ _ _)). unfold bind at 1.
  cbn [ethernet headers0]. rewrite extract_ethernet_at, ltb_drop by (done || lia).
  cbn [Nat.add]. destruct (Nat.ltb_spec (length data) 14) as [|H14]; [done|].
  rewrite (bind_Ret _ _ _ _ _ (set_hdr_at _ _ _ _ _)).
  cbn [ethernet]. destruct (_ =? 0x800); cbn [negb]; [|done].
  unfold parse_ipv4. rewrite (bind_Ret _ _ _ _ _ (get_hdr_at _ _ _ _)). unfold bind at 1.
  rewrite extract_ipv4_at, ltb_drop by done. cbn [Nat.add].
  by destruct (Nat.ltb_spec (length data) 34).
Qed.
End ParserSpec.

(** ** What the control block computes *)

(** The decision of the two tables. *)
Inductive next_hop :=
| NextHop (dmac port : Z)
| Unreachable
| NoRoute.

Section ControlSpec.
Context `{BO : ByteOrder} `{K : P4tcKernel} `{!P4tcKernelOk K} (filter : p4tc_filter_fields).

Definition fib_lookup (k : kstate) (skb : sk_buff) (dst : Z) : option p4tc_table_entry_act_bpf :=
  bpf_p4tc_tbl_read k skb (fib_table_params filter) (Main_fib_table_key 32 0 dst).

Definition nh_lookup (k : kstate) (skb : sk_buff) (index : Z) : option p4tc_table_entry_act_bpf :=
  bpf_p4tc_tbl_read k skb (nh_table_params filter) (Main_nh_table_key 32 0 index).

Definition nh_index (act_bpf : option p4tc_table_entry_act_bpf) : Z :=
  match act_bpf with
  | Some value => if act_id value =? 3 then param value 0 4 else 0
  | None => 0
  end.

Definition nh_action (act_bpf : option p4tc_table_entry_act_bpf) : next_hop :=
  match act_bpf with
  | Some value =>
    if act_id value =? 1 then Unreachable
    else if act_id value =? 2 then NextHop (param value 0 8) (param value 8 4)
    else NoRoute
  | None => NoRoute
  end.

(** The next hop of a destination address. *)
Definition route (k : kstate) (skb : sk_buff) (dst : Z) : next_hop :=
  nh_action (nh_lookup k skb (nh_index (fib_lookup k skb dst))).

Definition forwardable (i : ipv4_t) : bool := is_valid (ip_valid i) && (1 <? ip_ttl i).

Definition run_route (r : next_hop) (st : headers_t * metadata_t * pna_global_metadata) :=
  let '(h, u, m) := st in
  match r with
  | NextHop dmac port => ({ h with ethernet -> eth_dstAddr := dmac }, u, to_port port m)
  | Unreachable => (h, u, drop_packet m)
  | NoRoute => st
  end.

Definition routing_control (r : next_hop) (st : headers_t * metadata_t * pna_global_metadata) :=
  let '(h, u, m) := st in
  if forwardable (ip h) then run_route r st else (h, u, drop_packet m).

Lemma fib_table_apply_spec {A} (s : xstate headers_t metadata_t) h u m
    (k : Z -> X headers_t metadata_t A) :
  bind (fib_table_apply filter 0) k (put s h u m)
  = k (nh_index (fib_lookup (x_kern s) (x_skb s) (ip_dstAddr (ip h)))) (put s h u m).
Proof.
  unfold fib_table_apply, fib_lookup. rewrite bind_assoc. xstep.
  rewrite bind_assoc, tbl_read_put. unfold nh_index, MAIN_FIB_TABLE_ACT_MAIN_SET_NHID.
  destruct (bpf_p4tc_tbl_read _ _ _ _) as [value|] eqn:E; [|done].
  apply tbl_read_wf in E. destruct (act_id value =? 3); [|done].
  unfold Main_set_nhid_index. by xstep.
Qed.

Lemma nh_table_apply_spec (s : xstate headers_t metadata_t) h u m i :
  nh_table_apply filter i (put s h u m)
  = Ret tt (put3 s (run_route (nh_action (nh_lookup (x_kern s) (x_skb s) i)) (h, u, m))).
Proof.
  unfold nh_table_apply, nh_lookup. rewrite tbl_read_put.
  unfold nh_action, MAIN_NH_TABLE_ACT_MAIN_DROP, MAIN_NH_TABLE_ACT_MAIN_SET_NH.
  destruct (bpf_p4tc_tbl_read _ _ _ _) as [value|] eqn:E; [|done].
  apply tbl_read_wf in E.
  destruct (act_id value =? 1); [by xstep|]. destruct (act_id value =? 2); [|done].
  unfold Main_set_nh, Main_set_nh_dmac, Main_set_nh_port. by repeat xstep.
Qed.

Lemma main_control_spec (s : xstate headers_t metadata_t) h u m :
  main_control filter (put s h u m)
  = Ret tt (put3 s (routing_control (route (x_kern s) (x_skb s) (ip_dstAddr (ip h))) (h, u, m))).
Proof.
  unfold main_control, routing_control, forwardable. xstep.
  destruct (_ && _); [|by xstep]. rewrite fib_table_apply_spec. apply nh_table_apply_spec.
Qed.
End ControlSpec.

(** ** The pipeline *)

Section Pipeline.
Context `{BO : ByteOrder} `{K : P4tcKernel} `{!P4tcKernelOk K} (filter : p4tc_filter_fields).
Implicit Types (h : headers_t) (w : world headers_t metadata_t).

Definition next_ethernet (r : next_hop) (e : ethernet_t) : ethernet_t :=
  match r with NextHop dmac _ => { e with eth_dstAddr := dmac } | _ => e end.

Definition next_port (r : next_hop) : option Z :=
  match r with NextHop _ port => Some port | Unreachable => None | NoRoute => Some 0 end.

Definition routing_bytes (r : next_hop) h : list Z :=
  out_ethernet (next_ethernet r (ethernet h)) ++ out_ipv4 (decrement_ttl (ip h)).

Definition routing_spec (k : kstate) (skb : sk_buff) : behaviour :=
  let '(v, h, n) := routing_parse (skb_data skb) in
  match v with
  | Rejected => Discard
  | _ =>
    let r := route filter k skb (ip_dstAddr (ip h)) in
    if forwardable (ip h) then
      match next_port r with
      | Some port => Send port (routing_bytes r h ++ drop n (skb_data skb))
                       (Z.of_nat (length (routing_bytes r h)) - Z.of_nat n) k
      | None => Discard
      end
    else Discard
  end.

Lemma emits_ip ip_1 : exists mods,
  emits (U := metadata_t) (deparse_hdr_ethernet ;; deparse_ip_1 ip_1)
    (fun h => wf_ethernet (ethernet h) /\ wf_ipv4 ip_1)
    (fun h => out_ethernet (ethernet h) ++ out_ipv4 ip_1) mods.
Proof.
  eexists. exact (emits_seq (U := metadata_t) _ _ _ _ _ _ _ _
    (emits_ethernet ethernet set_ethernet) (emits_local ip_1)
    ltac:(by intros h h' [->|[e ->]])).
Qed.

Lemma routing_BYTES_outHeaderLength ip_1 h :
  BYTES (outHeaderLength ip_1 h)
  = Z.of_nat (length (out_ethernet (ethernet h) ++ out_ipv4 ip_1)).
Proof.
  unfold outHeaderLength. rewrite length_app, length_out_ethernet, length_out_ipv4.
  by repeat case_match.
Qed.

Lemma routing_parse_ok data :
  bytes data -> (14 <= length data)%nat ->
  let '(v, h, n) := routing_parse data in
  wf_ethernet (ethernet h) /\ wf_ipv4 (ip h) /\ eth_valid (ethernet h) = 1 /\
  (14 <= n <= length data)%nat.
Proof.
  intros Hb H14. unfold routing_parse.
  assert (Hw0 : wf_ipv4 ipv4_0) by (apply wf_ipv4_iff; cbn; lia).
  assert (Hew : wf_ethernet (ethernet_of_bytes (slice 0 14 data)))
    by (apply ethernet_of_bytes_wf; [apply length_slice; lia|by apply slice_bytes]).
  assert (Hev : eth_valid (ethernet_of_bytes (slice 0 14 data)) = 1)
    by (apply ethernet_of_bytes_valid; [apply length_slice; lia|by apply slice_bytes]).
  assert (Hi : (34 <= length data)%nat -> wf_ipv4 (ipv4_of_bytes (slice 14 20 data)))
    by (intros Hn; apply ipv4_of_bytes_wf; [by apply length_slice|by apply slice_bytes]).
  destruct (Nat.ltb_spec (length data) 14); [lia|].
  destruct (negb _); [by split_and!; try lia|].
  destruct (Nat.ltb_spec (length data) 34); [by split_and!; try lia|].
  specialize (Hi ltac:(lia)). by split_and!; try lia.
Qed.

(** The deparser after the control block. *)
Lemma update_ip_bind {A} (k : ipv4_t -> X headers_t metadata_t A) s h u m :
  bind update_ip k (put s h u m)
  = k (decrement_ttl (ip h)) (put s { h with ip := decrement_ttl (ip h) } u m).
Proof. reflexivity. Qed.

Lemma routing_deparse_send w s h0 h u m n p payload :
  enters metadata0 w s h0 p payload -> drop_flag m = false -> length p = n -> (14 <= n)%nat ->
  length (p ++ payload) = length (skb_data (w_skb w)) ->
  wf_ethernet (ethernet h) -> wf_ipv4 (ip h) -> eth_valid (ethernet h) = 1 ->
  let out := out_ethernet (ethernet h) ++ out_ipv4 (decrement_ttl (ip h)) in
  body_behaves
    (Send (egress_port m) (out ++ payload) (Z.of_nat (length out) - Z.of_nat n) (w_kern w)) w
    ((ip_1 <- update_ip ;; deparser (Z.of_nat n) ip_1) (put s h u m)).
Proof.
  cbn zeta. intros Hent Hm <- Hn Hlen He Hi Hv. rewrite update_ip_bind.
  destruct (emits_ip (decrement_ttl (ip h))) as [mods Hem].
  assert (Ho : (14 <= length (out_ethernet (ethernet h) ++ out_ipv4 (decrement_ttl (ip h))) <= 34)%nat).
  { rewrite length_app, length_out_ethernet, length_out_ipv4, Hv. cbn. case_match; lia. }
  pose proof (deparser_behaves (outHeaderLength (decrement_ttl (ip h))) _ _ _ mods Hem
           (routing_BYTES_outHeaderLength _) metadata0 w s h0
           { h with ip := decrement_ttl (ip h) } u m p payload Hent Hm) as Hd.
  refine (Hd _ Hlen _ _).
  - split; [exact He|by apply decrement_ttl_wf].
  - cbv beta. change (ethernet { h with ip := _ }) with (ethernet h). lia.
  - right. split; [exact Hn|]. apply Ho.
Qed.

Lemma routing_deparse_drop w s h u m n :
  drop_flag m = true ->
  body_behaves Discard w ((ip_1 <- update_ip ;; deparser n ip_1) (put s h u m)).
Proof.
  intros Hm. rewrite update_ip_bind.
  exact (deparser_drops (outHeaderLength (decrement_ttl (ip h)))
           (deparse_hdr_ethernet ;; deparse_ip_1 (decrement_ttl (ip h))) s _ u m n Hm).
Qed.

Lemma routing_run w :
  arrives w -> behaves (routing_spec (w_kern w) (w_skb w)) w (routing filter w).
Proof.
  intros Ha. unfold routing_spec.
  pose proof (routing_start_spec _ (arr_bytes w Ha) (arr_small w Ha)) as Hs.
  pose proof (routing_parse_ok _ (arr_bytes w Ha) (arr_eth w Ha)) as Hok.
  destruct (routing_parse (skb_data (w_skb w))) as [[v h] n].
  destruct Hok as (Hwe & Hwi & He & Hn).
  set (r := route filter (w_kern w) (w_skb w) (ip_dstAddr (ip h))).
  assert (Hv : v = Rejected \/ v <> Rejected) by (destruct v; auto).
  destruct Hv as [->|Hv].
  { exact (chain_rejected headers0 metadata0 start _ w h n Ha (proj2 Hn) Hs). }
  set (b := if forwardable (ip h) then _ else _).
  replace (match v with Rejected => _ | _ => _ end) with b by by destruct v.
  change (routing filter w) with (chain headers0 metadata0 start (routing_body filter) w).
  apply (chain_behaves headers0 metadata0 start (routing_body filter) _ w v h n Ha Hn Hv Hs).
  intros s p Hlp Hent. pose proof Hent as [Eh Eu Ed Eb Ei Edr Ept Ek].
  assert (Er : route filter (x_kern s) (x_skb s) (ip_dstAddr (ip (x_hdr s))) = r).
  { unfold r, route, nh_lookup, fib_lookup. rewrite Ek, Eh.
    by rewrite !(tbl_read_dev _ (x_skb s) (w_skb w)) by exact Ei. }
  unfold routing_body. rewrite <- (put_id s).
  rewrite (bind_Ret _ _ _ _ _ (main_control_spec filter s _ _ _)), Er, Eh, Eu.
  unfold b, routing_control. destruct (forwardable (ip h)).
  - assert (Hlen : length (p ++ drop n (skb_data (w_skb w))) = length (skb_data (w_skb w)))
      by (rewrite length_app, Hlp, length_drop; lia).
    destruct r as [dmac port| |]; cbn [run_route next_port].
    + pose proof (routing_deparse_send w s h { h with ethernet -> eth_dstAddr := dmac } metadata0
               (to_port port (skb_cb (x_skb s))) n p _ Hent eq_refl Hlp (proj1 Hn) Hlen) as Hd.
      specialize (Hd Hwe). specialize (Hd Hwi). specialize (Hd He).
      exact Hd.
    + by apply routing_deparse_drop.
    + rewrite <- Ept.
      exact (routing_deparse_send w s h h _ _ n p _ Hent Edr Hlp (proj1 Hn) Hlen Hwe Hwi He).
  - by apply routing_deparse_drop.
Qed.

#[export] Instance routing_implements : Implements (routing filter) routing_spec := routing_run.
End Pipeline.

(** ** Forwarding, end to end *)

Section EndToEnd.
Context `{BO : ByteOrder} `{K : P4tcKernel} `{!P4tcKernelOk K} (filter : p4tc_filter_fields).
Implicit Types (w : world headers_t metadata_t) (macs ip payload : list Z).

Lemma routing_parse_frame macs ip payload data :
  is_ipv4_frame macs ip payload data -> bytes data ->
  routing_parse data
  = (Accepted, Build_headers_t (ethernet_of_bytes (macs ++ [8; 0])) (ipv4_of_bytes ip), 34%nat).
Proof.
  intros Hf Hb. destruct (frame_slices _ _ _ _ Hf) as (Hl & He & Hi & _).
  destruct (frame_parts _ _ _ _ Hf Hb) as (Hbe & _). destruct Hf as (_ & Hm & _).
  unfold routing_parse. rewrite Hl, He, Hi. cbv zeta.
  destruct (Nat.ltb_spec (34 + length payload) 14); [lia|].
  change (eth_etherType (ethernet _)) with
    (eth_etherType (ethernet_of_bytes (macs ++ [8; 0]))).
  rewrite (etherType_frame macs Hm Hbe). cbn [negb].
  destruct (Nat.ltb_spec (34 + length payload) 34); [lia|]. reflexivity.
Qed.

(** The destination address as the tables see it. *)
Definition dst_of ip : Z := host_val (slice 16 4 ip).

Definition routed_macs (r : next_hop) macs : list Z :=
  match r with
  | NextHop dmac _ => take 6 (host_bytes 8 dmac) ++ drop 6 macs
  | _ => macs
  end.

Lemma length_routed_macs r macs : length macs = 12%nat -> length (routed_macs r macs) = 12%nat.
Proof.
  intros Hm. unfold routed_macs. destruct r; [|exact Hm|exact Hm].
  rewrite length_app, length_take, length_host_bytes, length_drop. lia.
Qed.

Lemma routing_spec_frame w macs ip payload :
  bytes (skb_data (w_skb w)) -> is_ipv4_frame macs ip payload (skb_data (w_skb w)) ->
  let r := route filter (w_kern w) (w_skb w) (dst_of ip) in
  routing_spec filter (w_kern w) (w_skb w)
  = if 1 <? nth 8 ip 0 then
      match next_port r with
      | Some port =>
        Send port (ipv4_frame (routed_macs r macs)
                     (ipv4_to_bytes (decrement_ttl (ipv4_of_bytes ip))) payload) 0 (w_kern w)
      | None => Discard
      end
    else Discard.
Proof.
  intros Hb Hf r. unfold routing_spec. rewrite (routing_parse_frame _ _ _ _ Hf Hb).
  destruct (frame_slices _ _ _ _ Hf) as (_ & _ & _ & Hd).
  destruct (frame_parts _ _ _ _ Hf Hb) as (Hbe & Hbi & _). destruct Hf as (_ & Hm & Hi).
  cbn [Routing.ip]. rewrite dstAddr_of_bytes by assumption. fold (dst_of ip) r.
  unfold forwardable. rewrite ipv4_of_bytes_valid, ttl_of_bytes by assumption.
  change (is_valid 1) with true. cbn [andb]. destruct (1 <? nth 8 ip 0); [|done].
  destruct (next_port r) as [port|]; [|done].
  unfold routing_bytes. cbn [Routing.ip ethernet].
  assert (He : out_ethernet (next_ethernet r (ethernet_of_bytes (macs ++ [8; 0])))
               = routed_macs r macs ++ [8; 0]).
  { pose proof (out_ethernet_frame macs 8 0 Hm Hbe) as Ho. unfold routed_macs, next_ethernet.
    destruct r as [dmac p | |]; [exact (out_ethernet_dst macs 8 0 dmac Hm Hbe)|done|done]. }
  pose proof (length_routed_macs r macs Hm) as Hm'. rewrite He. rewrite out_ipv4_valid by (exact (ipv4_of_bytes_valid ip Hi Hbi)).
  rewrite Hd. f_equal.
  - unfold ipv4_frame. by rewrite <- !app_assoc.
  - rewrite !length_app, length_ipv4_to_bytes, Hm'. done.
Qed.

(** C9: a packet with a TTL above 1 whose destination has a next hop leaves
    through the next hop's port, addressed to the next hop, with its TTL
    decremented by one and every other field and the payload unchanged; its
    header checksum verifies if it did on arrival. *)
Theorem routing_forwards w macs ip payload fv nv v ihl ds tl id fl fo ttl pr hc src dst :
  arrives w -> is_ipv4_frame macs ip payload (skb_data (w_skb w)) ->
  p4_extract ipv4_widths ip = [v; ihl; ds; tl; id; fl; fo; ttl; pr; hc; src; dst] ->
  1 < ttl ->
  fib_lookup filter (w_kern w) (w_skb w) (dst_of ip) = Some fv ->
  act_id fv = MAIN_FIB_TABLE_ACT_MAIN_SET_NHID ->
  nh_lookup filter (w_kern w) (w_skb w) (param fv 0 4) = Some nv ->
  act_id nv = MAIN_NH_TABLE_ACT_MAIN_SET_NH ->
  exists ip' hc',
    delivered (param nv 8 4) (skb_ifindex (w_skb w))
      (ipv4_frame (slice 0 6 (act_params nv) ++ drop 6 macs) ip' payload)
      (w_kern w) (routing filter w) /\
    p4_extract ipv4_widths ip' = [v; ihl; ds; tl; id; fl; fo; ttl - 1; pr; hc'; src; dst] /\
    (0 < v -> internet_checksum_ok ip -> internet_checksum_ok ip').
Proof.
  intros Ha Hf Hip Httl Ef Af En An.
  destruct (frame_bytes _ _ _ _ Ha Hf) as [Hl Hb].
  pose proof (ipv4_of_bytes_wf ip Hl Hb) as Hwf. pose proof (decrement_ttl_wf _ Hwf) as Hwd.
  assert (Hr : route filter (w_kern w) (w_skb w) (dst_of ip)
               = NextHop (param nv 0 8) (param nv 8 4)).
  { unfold route. rewrite Ef. unfold nh_index. rewrite Af. cbn [Z.eqb].
    change (MAIN_FIB_TABLE_ACT_MAIN_SET_NHID =? 3) with true. cbv iota. rewrite En.
    unfold nh_action. by rewrite An. }
  rewrite <- ipv4_of_bytes_fields in Hip by assumption.
  assert (Et : ttl = nth 8 ip 0).
  { rewrite <- ttl_of_bytes by assumption.
    pose proof (f_equal (fun l => nth 7 l 0) Hip) as H7. by cbn [nth ipv4_fields] in H7. }
  assert (Ev : v = ip_version (ipv4_of_bytes ip)).
  { pose proof (f_equal (fun l => nth 0 l 0) Hip) as H0. by cbn [nth ipv4_fields] in H0. }
  exists (ipv4_to_bytes (decrement_ttl (ipv4_of_bytes ip))),
    (ip_hdrChecksum (decrement_ttl (ipv4_of_bytes ip))). split; [|split].
  - rewrite <- param_mac by (try lia; by eapply tbl_read_wf).
    apply (implements_send (routing filter) (routing_spec filter) w _ _ 0); [exact Ha| |by left].
    rewrite (routing_spec_frame w macs ip payload (arr_bytes w Ha) Hf), Hr. rewrite <- Et.
    apply Z.ltb_lt in Httl. by rewrite Httl.
  - rewrite p4_extract_ipv4_to_bytes by assumption.
    rewrite (decrement_ttl_fields _ _ _ _ _ _ _ _ _ _ _ _ _ Hip).
    rewrite Z.mod_small; [done|].
    apply wf_ipv4_iff in Hwf. rewrite Et, <- ttl_of_bytes by assumption.
    rewrite Et, <- ttl_of_bytes in Httl by assumption. lia.
  - rewrite Ev. intros Hv0 Hc. apply (decrement_ttl_checksum _ Hwf Hv0).
    by rewrite (ipv4_to_of_bytes _ Hl Hb).
Qed.

(** No packet whose TTL is 0 or 1 leaves the router, whatever the tables
    hold. *)
Theorem routing_expired w macs ip payload :
  arrives w -> is_ipv4_frame macs ip payload (skb_data (w_skb w)) -> nth 8 ip 0 <= 1 ->
  shot (routing filter w).
Proof.
  intros Ha Hf Ht. apply (implements_discard (routing filter) (routing_spec filter)); [exact Ha|].
  rewrite (routing_spec_frame w macs ip payload (arr_bytes w Ha) Hf).
  by destruct (Z.ltb_spec 1 (nth 8 ip 0)); [lia|].
Qed.

(** C33: frames that are not IPv4, frames that are too short for an IPv4
    header, and packets to an unreachable next hop are dropped. *)
Theorem routing_drops w :
  arrives w ->
  nth 12 (skb_data (w_skb w)) 0 * 256 + nth 13 (skb_data (w_skb w)) 0 <> 0x800 \/
  (length (skb_data (w_skb w)) < 34)%nat \/
  route filter (w_kern w) (w_skb w) (dst_of (slice 14 20 (skb_data (w_skb w)))) = Unreachable ->
  shot (routing filter w).
Proof.
  intros Ha Hd. apply (implements_discard (routing filter) (routing_spec filter)); [exact Ha|].
  pose proof (arr_bytes w Ha) as Hb. pose proof (arr_eth w Ha) as H14.
  unfold routing_spec, routing_parse. set (data := skb_data (w_skb w)) in *.
  destruct (Nat.ltb_spec (length data) 14); [lia|]. cbv zeta.
  change (eth_etherType (ethernet _)) with (eth_etherType (ethernet_of_bytes (slice 0 14 data))).
  rewrite etherType_of_slice by assumption.
  destruct (Z.eqb_spec (nth 12 data 0 * 256 + nth 13 data 0) 2048) as [E|E]; [|done].
  cbn [negb]. destruct (Nat.ltb_spec (length data) 34); [done|].
  destruct Hd as [|[|Hr]]; [done|lia|].
  change (Routing.ip { { headers0 with ethernet := _ } with Routing.ip := ?i }) with i.
  rewrite dstAddr_of_bytes; [|apply length_slice; lia|by apply slice_bytes].
  fold (dst_of (slice 14 20 data)). rewrite Hr. by destruct (forwardable _).
Qed.

(** Every access of the router is inside the packet. *)
Theorem routing_total w : arrives w -> exists r w', routing filter w = Some (r, w').
Proof. apply (implements_total (routing filter) (routing_spec filter)). Qed.
End EndToEnd.

(** ** The theorems at concrete packets *)

Section Witnesses.
(** 10.0.0.2 is reached through next hop 7. *)
Definition sample_fib : table_row :=
  (2, Main_fib_table_key 32 0 (dst_of sample_ip), sample_value 3 [7; 0; 0; 0]).
Definition sample_nh : table_row :=
  (1, Main_nh_table_key 32 0 7, sample_value 2 [2; 0; 0; 0; 0; 9; 0; 0; 6; 0; 0; 0]).
Definition sample_unreachable : table_row := (1, Main_nh_table_key 32 0 7, sample_value 1 []).

Definition routing_world (rows : list table_row) (data : list Z) : world headers_t metadata_t :=
  sample_world headers0 metadata0 rows data.

Lemma routing_forwards_witness :
  exists ip' hc',
    delivered 6 2
      (ipv4_frame [2; 0; 0; 0; 0; 9; 2; 0; 0; 0; 0; 2] ip' sample_payload)
      [sample_fib; sample_nh]
      (routing sample_filter (routing_world [sample_fib; sample_nh] sample_frame)) /\
    p4_extract ipv4_widths ip' = [4; 5; 0; 28; 1; 0; 0; 63; 17; hc'; 167772161; 167772162] /\
    (0 < 4 -> internet_checksum_ok sample_ip -> internet_checksum_ok ip').
Proof.
  refine (routing_forwards sample_filter (routing_world [sample_fib; sample_nh] sample_frame)
    sample_macs sample_ip sample_payload sample_fib.2 sample_nh.2
    4 5 0 28 1 0 0 64 17 26318 167772161 167772162 _ _ _ _ _ _ _ _); sample_tac.
Defined.

Lemma routing_expired_witness :
  shot (routing sample_filter (routing_world [sample_fib; sample_nh]
    (ipv4_frame sample_macs
       [69; 0; 0; 28; 0; 1; 0; 0; 1; 17; 165; 206; 10; 0; 0; 1; 10; 0; 0; 2] sample_payload))).
Proof.
  apply (routing_expired sample_filter _ sample_macs
    [69; 0; 0; 28; 0; 1; 0; 0; 1; 17; 165; 206; 10; 0; 0; 1; 10; 0; 0; 2] sample_payload);
    sample_tac.
Defined.

Lemma routing_drops_witness :
  shot (routing sample_filter (routing_world [sample_fib; sample_unreachable] sample_frame)).
Proof. apply routing_drops; [sample_tac|]. right; right. vm_compute. reflexivity. Defined.

Lemma routing_total_witness :
  exists r w', routing sample_filter (routing_world [] (replicate 30 255)) = Some (r, w').
Proof. apply routing_total. sample_tac. Defined.
End Witnesses.
