(* ===== verification/RoutingPath.v ===== *)
(** A packet on its way through a network of routers, each with a kernel,
    tables and a filter of its own. *)

From S2P Require Import Prelude CInt Memory Pna P4Spec Pipeline Steps Headers Checksum Deparse.
From S2P Require Import Chain Samples Routing.

(** ** A path *)

Section Path.
Context `{BO : ByteOrder}.

Record router := mk_router {
  r_kernel : P4tcKernel;
  r_kernel_ok : P4tcKernelOk r_kernel;
  r_filter : p4tc_filter_fields
}.

(** One hop: the router is given the packet and does not drop it. *)
Inductive hop (R : router) : list Z -> list Z -> Prop :=
| hop_forward (w w' : @world (r_kernel R) headers_t metadata_t) r :
  arrives w -> routing (r_filter R) w = Some (r, w') -> r <> TC_ACT_SHOT ->
  hop R (skb_data (w_skb w)) (skb_data (w_skb w')).

(** The packet after each router has forwarded what the one before it sent;
    the routers may differ, and the same one may come again and again. *)
Inductive path : list router -> list Z -> list Z -> Prop :=
| path_here data : path [] data data
| path_hop R Rs data1 data2 data3 :
  hop R data1 data2 -> path Rs data2 data3 -> path (R :: Rs) data1 data3.

Lemma hop_frame R macs ip payload data data' :
  is_ipv4_frame macs ip payload data -> hop R data data' ->
  bytes ip /\ 1 < nth 8 ip 0 /\
  exists macs', is_ipv4_frame macs' (ipv4_to_bytes (decrement_ttl (ipv4_of_bytes ip))) payload data'.
Proof.
  intros Hf Hh. revert Hf. destruct Hh as [w w' r Ha E Hr]. intros Hf.
  destruct R as [K HK filter]. cbn [r_kernel r_filter] in *.
  destruct (frame_bytes w macs ip payload Ha Hf) as [Hl Hb]. split; [exact Hb|].
  pose proof (implements w Ha : behaves _ w (routing filter w)) as Hbe.
  rewrite (routing_spec_frame filter w macs ip payload (arr_bytes w Ha) Hf) in Hbe.
  assert (Hno : ~ shot (routing filter w)) by (intros (w1 & E1); congruence).
  destruct (Z.ltb_spec 1 (nth 8 ip 0)) as [Ht|]; [|done]. split; [exact Ht|].
  set (r0 := route _ _ _ _) in Hbe. destruct (next_port r0) as [port|]; [|done].
  destruct Hbe as [[Hs _]|(r1 & w1 & E1 & Hd & _)]; [done|].
  rewrite E in E1. injection E1 as <- <-. exists (routed_macs r0 macs).
  split_and!; [exact Hd|apply length_routed_macs, Hf|apply length_ipv4_to_bytes].
Qed.

(** The header after one hop. *)
Lemma hop_header ip v ihl ds tl id fl fo ttl pr hc src dst :
  length ip = 20%nat -> bytes ip -> 1 < nth 8 ip 0 ->
  p4_extract ipv4_widths ip = [v; ihl; ds; tl; id; fl; fo; ttl; pr; hc; src; dst] ->
  let ip' := ipv4_to_bytes (decrement_ttl (ipv4_of_bytes ip)) in
  1 < ttl /\
  (exists hc', p4_extract ipv4_widths ip' = [v; ihl; ds; tl; id; fl; fo; ttl - 1; pr; hc'; src; dst]) /\
  (0 < v -> internet_checksum_ok ip -> internet_checksum_ok ip').
Proof.
  intros Hl Hb Ht Hip. cbn zeta. pose proof (ipv4_of_bytes_wf ip Hl Hb) as Hwf.
  pose proof (decrement_ttl_wf _ Hwf) as Hwd. rewrite <- ipv4_of_bytes_fields in Hip by assumption.
  assert (Et : ttl = ip_ttl (ipv4_of_bytes ip))
    by (pose proof (f_equal (fun l => nth 7 l 0) Hip) as H7; by cbn [nth ipv4_fields] in H7).
  assert (Ev : v = ip_version (ipv4_of_bytes ip))
    by (pose proof (f_equal (fun l => nth 0 l 0) Hip) as H0; by cbn [nth ipv4_fields] in H0).
  rewrite <- ttl_of_bytes, <- Et in Ht by assumption. split; [exact Ht|]. split.
  - eexists. rewrite p4_extract_ipv4_to_bytes by assumption.
    rewrite (decrement_ttl_fields _ _ _ _ _ _ _ _ _ _ _ _ _ Hip).
    rewrite Z.mod_small; [done|]. apply wf_ipv4_iff in Hwf. lia.
  - rewrite Ev. intros Hv0 Hc. apply (decrement_ttl_checksum _ Hwf Hv0).
    by rewrite (ipv4_to_of_bytes _ Hl Hb).
Qed.

(** The packet on its path. *)
Lemma path_packet Rs macs ip payload data data' v ihl ds tl id fl fo ttl pr hc src dst :
  is_ipv4_frame macs ip payload data -> path Rs data data' ->
  p4_extract ipv4_widths ip = [v; ihl; ds; tl; id; fl; fo; ttl; pr; hc; src; dst] ->
  let n := Z.of_nat (length Rs) in
  (Rs <> [] -> n < ttl) /\
  exists macs' ip' hc',
    is_ipv4_frame macs' ip' payload data' /\
    p4_extract ipv4_widths ip' = [v; ihl; ds; tl; id; fl; fo; ttl - n; pr; hc'; src; dst] /\
    (0 < v -> internet_checksum_ok ip -> internet_checksum_ok ip').
Proof.
  intros Hf Hp. cbn zeta. revert macs ip ttl hc Hf.
  induction Hp as [data|R Rs data1 data2 data3 Hh _ IH]; intros macs ip ttl hc Hf Hip.
  - split; [done|]. exists macs, ip, hc. by rewrite Z.sub_0_r.
  - destruct (hop_frame _ _ _ _ _ _ Hf Hh) as (Hb & Ht & macs1 & Hf1).
    destruct (hop_header ip _ _ _ _ _ _ _ _ _ _ _ _ (proj2 (proj2 Hf)) Hb Ht Hip)
      as (Httl & (hc1 & Hip1) & Hc1).
    destruct (IH _ _ _ _ Hf1 Hip1) as (Hn & macs' & ip' & hc' & Hf' & Hip' & Hc').
    cbn [length]. split.
    + intros _. destruct Rs as [|R' Rs]; [cbn; lia|]. specialize (Hn ltac:(done)). cbn [length] in *. lia.
    + exists macs', ip', hc'. split; [exact Hf'|]. split; [|by auto].
      rewrite Hip'. do 7 f_equal. f_equal. lia.
Qed.

(** C6: an IPv4 packet does not circulate.  Through whatever routers it is
    sent, it gets over fewer of them than its TTL says; what leaves the last
    one is the packet that entered the first, with as much less TTL as there
    were routers, except for the addresses of the link, and its header
    checksum verifies if it did at the start. *)
Theorem routing_path Rs macs ip payload data data' v ihl ds tl id fl fo ttl pr hc src dst :
  is_ipv4_frame macs ip payload data -> path Rs data data' ->
  p4_extract ipv4_widths ip = [v; ihl; ds; tl; id; fl; fo; ttl; pr; hc; src; dst] ->
  let n := Z.of_nat (length Rs) in
  (Rs <> [] -> n < ttl) /\
  exists macs' ip' hc',
    is_ipv4_frame macs' ip' payload data' /\
    p4_extract ipv4_widths ip' = [v; ihl; ds; tl; id; fl; fo; ttl - n; pr; hc'; src; dst] /\
    (0 < v -> internet_checksum_ok ip -> internet_checksum_ok ip').
Proof. apply path_packet. Qed.
End Path.

(** ** The theorem at a concrete loop *)

Section Witnesses.
(** A router that sends everything for 10.0.0.2 back to itself. *)
Definition looping_router : router := mk_router sample_kernel _ sample_filter.
Definition looping_world (data : list Z) : world headers_t metadata_t :=
  routing_world [sample_fib; sample_nh] data.
Definition forwarded (data : list Z) : world headers_t metadata_t :=
  match routing sample_filter (looping_world data) with
  | Some (_, w) => w
  | None => looping_world data
  end.
Definition frame1 : list Z := skb_data (w_skb (forwarded sample_frame)).
Definition frame2 : list Z := skb_data (w_skb (forwarded frame1)).

Lemma looping_path : path [looping_router; looping_router] sample_frame frame2.
Proof.
  eapply (path_hop looping_router _ _ frame1); [|eapply (path_hop looping_router _ _ frame2)];
    [| |apply path_here].
  - apply (hop_forward looping_router (looping_world sample_frame) (forwarded sample_frame) 7);
      [sample_tac|vm_compute; reflexivity|done].
  - apply (hop_forward looping_router (looping_world frame1) (forwarded frame1) 7);
      [sample_tac|vm_compute; reflexivity|done].
Qed.

Lemma routing_path_witness :
  exists macs' ip' hc',
    is_ipv4_frame macs' ip' sample_payload frame2 /\
    p4_extract ipv4_widths ip' = [4; 5; 0; 28; 1; 0; 0; 62; 17; hc'; 167772161; 167772162] /\
    (0 < 4 -> internet_checksum_ok sample_ip -> internet_checksum_ok ip').
Proof.
  refine (proj2 (routing_path [looping_router; looping_router] sample_macs sample_ip sample_payload
    sample_frame frame2 4 5 0 28 1 0 0 64 17 26318 167772161 167772162 _ looping_path _)); sample_tac.
Defined.

(** After 63 rounds the packet is dropped. *)
Example loop_ends :
  let data := Nat.iter 63 (fun data => skb_data (w_skb (forwarded data))) sample_frame in
  nth 22 data 0 = 1 /\ option_map fst (routing sample_filter (looping_world data)) = Some TC_ACT_SHOT.
Proof. vm_compute. done. Qed.
End Witnesses.
