(* ===== verification/TunnelPath.v ===== *)
(** A tunnel through a network: the packets between the two endpoints of
    tunnels/ipip are forwarded by routers. *)

From S2P Require Import Prelude CInt Memory Pna P4Spec Pipeline Steps Headers Checksum Deparse.
From S2P Require Import Chain Samples Ipip Routing RoutingPath.

Section Tunnel.
Context `{BO : ByteOrder} {K K2 : P4tcKernel} `{!P4tcKernelOk K} `{!P4tcKernelOk K2}.
Context (filter filter2 : p4tc_filter_fields).

(** C3: a tunnel makes one hop of a network.  A packet that enters it leaves it
    through whatever routers its frames have come, which are fewer than 64:
    with the same payload behind the same IPv4 header, except for a TTL that is
    one less, however many routers there were, and a checksum that still
    verifies.  The packet is not of protocol 4, and the kernels at the two ends
    grant the change of length. *)
Theorem ipip_tunnel_path (w : @world K Ipip.headers_t Ipip.metadata_t)
    (w2 : @world K2 Ipip.headers_t Ipip.metadata_t) Rs macs ip payload src dst tport port
    v ihl ds tl id fl fo ttl pr hc sa da :
  arrives w -> is_ipv4_frame macs ip payload (skb_data (w_skb w)) ->
  p4_extract ipv4_widths ip = [v; ihl; ds; tl; id; fl; fo; ttl; pr; hc; sa; da] ->
  pr <> 4 -> 0 < v -> internet_checksum_ok ip ->
  Ipip.fwd_action (Ipip.fwd_lookup filter (w_kern w) (w_skb w)) = Ipip.SetIpip src dst tport ->
  room_available (H := K) (length (skb_data (w_skb w))) 20 ->
  arrives w2 ->
  (forall r w', Ipip.ipip filter w = Some (r, w') ->
     path Rs (skb_data (w_skb w')) (skb_data (w_skb w2))) ->
  let a := Ipip.fwd_action (Ipip.fwd_lookup filter2 (w_kern w2) (w_skb w2)) in
  Ipip.action_port a = Some port ->
  room_available (H := K2) (length (skb_data (w_skb w2))) (-20) ->
  (length Rs < 64)%nat /\
  exists macs' inner_ip inner_hc,
    delivered port (skb_ifindex (w_skb w2)) (ipv4_frame macs' inner_ip payload)
      (w_kern w2) (Ipip.ipip filter2 w2) /\
    p4_extract ipv4_widths inner_ip
    = [v; ihl; ds; tl; id; fl; fo; (ttl - 1) mod 2 ^ 8; pr; inner_hc; sa; da] /\
    internet_checksum_ok inner_ip.
Proof.
  intros Ha Hf Hip Hpr Hv0 Hc Hact Hroom Ha2 Hpath a Hport Hroom2.
  destruct (Ipip.tunnel_enter filter w macs ip payload _ _ _ _ _ _ _ _ _ _ _ _ _ _ _ Ha Hf Hip Hpr Hact Hroom)
    as (outer_ip & inner_ip & outer_hc & inner_hc & (Hlo & _ & Hli) & Hd & Ho & _ & Hi & Hci).
  destruct Hd as (r & w' & Er & Ed & _). specialize (Hpath r w' Er).
  assert (Hfo : is_ipv4_frame macs outer_ip (inner_ip ++ payload) (skb_data (w_skb w')))
    by (destruct Hf as (_ & Hm & _); by split_and!).
  destruct (path_packet Rs _ _ _ _ _ _ _ _ _ _ _ _ _ _ _ _ _ Hfo Hpath Ho)
    as (Hn & macs' & ip' & hc' & Hf' & Hip' & _).
  split; [destruct Rs; [cbn; lia|]; specialize (Hn ltac:(done)); lia|].
  exists (Ipip.next_macs a macs'), inner_ip, inner_hc. split; [|split; [exact Hi|by apply Hci]].
  apply (Ipip.tunnel_leave filter2 w2 macs' ip' inner_ip payload port); try assumption.
  destruct (frame_bytes w2 _ _ _ Ha2 Hf') as [Hl' Hb'].
  eapply (protocol_field ip'); [exact Hl'|exact Hb'|exact Hip'].
Qed.
End Tunnel.

(** ** The theorem at a concrete network *)

Section Witnesses.
(** Two routers between 192.168.0.1 and 192.168.0.2. *)
Definition transit_rows : list table_row :=
  [(2, Main_fib_table_key 32 0 (host_val [192; 168; 0; 2]), sample_value 3 [7; 0; 0; 0]); sample_nh].
Definition transit_router : router := mk_router sample_kernel _ sample_filter.
Definition transit (data : list Z) : option (Z * list Z) :=
  option_map (fun '(r, w) => (r, skb_data (w_skb w)))
    (routing sample_filter (routing_world transit_rows data)).

Lemma transit_hop data data' :
  is_bytes data && (14 <=? length data)%nat && (Z.of_nat (length data) <? 65536) = true ->
  transit data = Some (7, data') -> hop transit_router data data'.
Proof.
  intros Hd. unfold transit. destruct (routing _ _) as [[r w]|] eqn:E; [|done]. intros [= -> <-].
  exact (hop_forward transit_router (routing_world transit_rows data) w 7
    (sample_arrives _ _ _ _ Hd) E ltac:(done)).
Qed.

(** What the second router sends. *)
Definition transit_sent : list Z :=
  Eval vm_compute in
    match transit Ipip.sample_sent with
    | Some (_, data) => match transit data with Some (_, data) => data | None => [] end
    | None => []
    end.

Lemma transit_path : path [transit_router; transit_router] Ipip.sample_sent transit_sent.
Proof.
  rewrite Ipip.sample_sent_eq.
  eapply path_hop; [eapply transit_hop; vm_compute; reflexivity|].
  eapply path_hop; [eapply transit_hop; vm_compute; reflexivity|]. apply path_here.
Qed.

Lemma ipip_tunnel_path_witness :
  exists macs' inner_ip inner_hc,
    delivered 6 2 (ipv4_frame macs' inner_ip sample_payload) [Ipip.sample_pop]
      (Ipip.ipip sample_filter (Ipip.ipip_world [Ipip.sample_pop] transit_sent)) /\
    p4_extract ipv4_widths inner_ip
    = [4; 5; 0; 28; 1; 0; 0; 63; 17; inner_hc; 167772161; 167772162] /\
    internet_checksum_ok inner_ip.
Proof.
  refine (proj2 (ipip_tunnel_path sample_filter sample_filter
    (Ipip.ipip_world [Ipip.sample_push] sample_frame) (Ipip.ipip_world [Ipip.sample_pop] transit_sent)
    [transit_router; transit_router] sample_macs sample_ip sample_payload
    (host_val [192; 168; 0; 1]) (host_val [192; 168; 0; 2]) 5 6
    4 5 0 28 1 0 0 64 17 26318 167772161 167772162 _ _ _ _ _ _ _ _ _ _ _ _)).
  - sample_tac.
  - sample_tac.
  - vm_compute. reflexivity.
  - lia.
  - lia.
  - split; vm_compute; reflexivity.
  - vm_compute. reflexivity.
  - sample_tac.
  - sample_tac.
  - intros r w' E. pose proof transit_path as Hp. unfold Ipip.sample_sent in Hp. rewrite E in Hp. exact Hp.
  - vm_compute. reflexivity.
  - sample_tac.
Defined.
End Witnesses.
