(* ===== verification/Calc.v ===== *)
(** The calculator (calc/generated): the parser of calc_parser.c and the
    control block of calc_control_blocks.c.

    A frame of type 0x1234 carries an operation code and two operands; the
    program replies to the sender with the result.  Table
    [MainControlImpl.calculate] maps the operation code to the operation. *)

From S2P Require Import Prelude CInt Memory Pna P4Spec Pipeline Steps Headers Deparse Chain Samples.

(** ** Data (calc_parser.h) *)

Record metadata_t := {}.

Record p4calc_t := {
  calc_p : Z;          (* u8 *)
  calc_four : Z;       (* u8 *)
  calc_ver : Z;        (* u8 *)
  calc_op : Z;         (* u8 *)
  calc_operand_a : Z;  (* u32 *)
  calc_operand_b : Z;  (* u32 *)
  calc_res : Z;        (* u32 *)
  calc_valid : Z       (* u8 ebpf_valid *)
}.

Record headers_t := {
  ethernet : ethernet_t;
  p4calc : p4calc_t
}.

Definition set_ethernet (e : ethernet_t) (hdr : headers_t) := { hdr with ethernet := e }.
Definition set_p4calc (c : p4calc_t) (hdr : headers_t) := { hdr with p4calc := c }.

Definition p4calc0 : p4calc_t := Build_p4calc_t 0 0 0 0 0 0 0 0.
Definition headers0 : headers_t := Build_headers_t ethernet0 p4calc0.
Definition metadata0 : metadata_t := Build_metadata_t.

(** ** The parser (calc_parser.c) *)

Section Parser.
Context `{BO : ByteOrder}.

Definition extract_p4calc : P headers_t p4calc_t :=
  require 128 ;;
  p <- load_byte_at 0 ;;
  advance 8 ;;
  four <- load_byte_at 0 ;;
  advance 8 ;;
  ver <- load_byte_at 0 ;;
  advance 8 ;;
  op <- load_byte_at 0 ;;
  advance 8 ;;
  operand_a <- load_word_at 0 ;;
  advance 32 ;;
  operand_b <- load_word_at 0 ;;
  advance 32 ;;
  res <- load_word_at 0 ;;
  advance 32 ;;
  hdr_start_advance 128 ;;
  ret {| calc_p := u8 p; calc_four := u8 four; calc_ver := u8 ver; calc_op := u8 op;
         calc_operand_a := u32 operand_a; calc_operand_b := u32 operand_b;
         calc_res := u32 res; calc_valid := 1 |}.

Definition parse_p4calc : P headers_t unit :=
  hdr <- get_hdr ;;
  c <- extract_p4calc ;;
  set_hdr { hdr with p4calc := c } ;;
  accept.

(** The 24 bits of [p], [four] and [ver], as the expression computes them. *)
Definition select_0 (p four ver : Z) : Z :=
  Z.land
    (Z.lor
       (Z.land (u32 (Z.shiftl (Z.lor (Z.shiftl p 8) (Z.land four 0xff)) 8))
               (Z.shiftl 1 24 - 1))
       (Z.land (Z.land ver 0xff) (Z.shiftl 1 24 - 1)))
    (Z.shiftl 1 24 - 1).

Definition check_p4calc : P headers_t unit :=
  tmp_0 <- lookahead extract_p4calc ;;
  tmp_2 <- lookahead extract_p4calc ;;
  tmp_4 <- lookahead extract_p4calc ;;
  if select_0 (calc_p tmp_0) (calc_four tmp_2) (calc_ver tmp_4) =? 0x503401
  then parse_p4calc else accept.

Definition start : P headers_t unit :=
  hdr <- get_hdr ;;
  eth <- extract_ethernet (ethernet hdr) ;;
  set_hdr { hdr with ethernet := eth } ;;
  if eth_etherType eth =? 0x1234 then check_p4calc else accept.

Definition run_parser `{K : P4tcKernel} (w : world headers_t metadata_t) :=
  run_parser_frame headers0 metadata0 start w.

Definition tc_parse_func `{K : P4tcKernel} (w : world headers_t metadata_t) :=
  tc_parse_frame run_parser w.
End Parser.

(** ** The table (calc_control_blocks.c) *)

Definition MAINCONTROLIMPL_CALCULATE_ACT_MAINCONTROLIMPL_OPERATION_ADD : Z := 1.
Definition MAINCONTROLIMPL_CALCULATE_ACT_MAINCONTROLIMPL_OPERATION_SUB : Z := 2.
Definition MAINCONTROLIMPL_CALCULATE_ACT_MAINCONTROLIMPL_OPERATION_AND : Z := 3.
Definition MAINCONTROLIMPL_CALCULATE_ACT_MAINCONTROLIMPL_OPERATION_OR : Z := 4.
Definition MAINCONTROLIMPL_CALCULATE_ACT_MAINCONTROLIMPL_OPERATION_XOR : Z := 5.
Definition MAINCONTROLIMPL_CALCULATE_ACT_MAINCONTROLIMPL_OPERATION_DROP : Z := 6.
Definition MAINCONTROLIMPL_CALCULATE_ACT_NOACTION : Z := 0.

Section Control.
Context `{BO : ByteOrder} `{K : P4tcKernel} (filter : p4tc_filter_fields).

(** [struct MainControlImpl_calculate_key] *)
Definition MainControlImpl_calculate_key (keysz maskid field0 : Z) : list Z :=
  pad8 (host_bytes 4 keysz ++ host_bytes 4 maskid ++ host_bytes 1 field0).

Definition calculate_params : p4tc_table_entry_act_bpf_params__local :=
  {| params_pipeid := ff_pipeid filter; params_tblid := 1 |}.

(** What every operation does with its result: store it, exchange the MAC
    addresses and send the frame back. *)
Definition send_back (res : Z) : X headers_t metadata_t unit :=
  hdr <- get_headers ;;
  set_headers { hdr with p4calc -> calc_res := res } ;;
  hdr <- get_headers ;;
  let tmp_5 := bpf_be64_to_cpu (eth_dstAddr (ethernet hdr)) in
  set_headers { hdr with ethernet -> eth_dstAddr := eth_srcAddr (ethernet hdr) } ;;
  hdr <- get_headers ;;
  set_headers { hdr with ethernet -> eth_srcAddr := bpf_cpu_to_be64 tmp_5 } ;;
  skb <- get_skb ;;
  do_send_to_port (u32 (skb_ifindex skb)).

Definition operation_add : X headers_t metadata_t unit :=
  hdr <- get_headers ;;
  send_back (u32 (calc_operand_a (p4calc hdr) + calc_operand_b (p4calc hdr))).
Definition operation_sub : X headers_t metadata_t unit :=
  hdr <- get_headers ;;
  send_back (u32 (calc_operand_a (p4calc hdr) - calc_operand_b (p4calc hdr))).
Definition operation_and : X headers_t metadata_t unit :=
  hdr <- get_headers ;;
  send_back (Z.land (calc_operand_a (p4calc hdr)) (calc_operand_b (p4calc hdr))).
Definition operation_or : X headers_t metadata_t unit :=
  hdr <- get_headers ;;
  send_back (Z.lor (calc_operand_a (p4calc hdr)) (calc_operand_b (p4calc hdr))).
Definition operation_xor : X headers_t metadata_t unit :=
  hdr <- get_headers ;;
  send_back (Z.lxor (calc_operand_a (p4calc hdr)) (calc_operand_b (p4calc hdr))).

(** [calculate_0.apply()] *)
Definition calculate_apply : X headers_t metadata_t unit :=
  hdr <- get_headers ;;
  act_bpf <- tbl_read calculate_params
               (MainControlImpl_calculate_key 8 0 (calc_op (p4calc hdr))) ;;
  match act_bpf with
  | None => ret tt
  | Some value =>
    let a := act_id value in
    if a =? MAINCONTROLIMPL_CALCULATE_ACT_MAINCONTROLIMPL_OPERATION_ADD then operation_add
    else if a =? MAINCONTROLIMPL_CALCULATE_ACT_MAINCONTROLIMPL_OPERATION_SUB then operation_sub
    else if a =? MAINCONTROLIMPL_CALCULATE_ACT_MAINCONTROLIMPL_OPERATION_AND then operation_and
    else if a =? MAINCONTROLIMPL_CALCULATE_ACT_MAINCONTROLIMPL_OPERATION_OR then operation_or
    else if a =? MAINCONTROLIMPL_CALCULATE_ACT_MAINCONTROLIMPL_OPERATION_XOR then operation_xor
    else if a =? MAINCONTROLIMPL_CALCULATE_ACT_MAINCONTROLIMPL_OPERATION_DROP
    then do_drop_packet
    else ret tt
  end.

(** The control [MainControlImpl]. *)
Definition main_control : X headers_t metadata_t unit :=
  hdr <- get_headers ;;
  if is_valid (calc_valid (p4calc hdr)) then calculate_apply else do_drop_packet.

(** ** The deparser *)

Definition outHeaderLength (hdr : headers_t) : Z :=
  (if is_valid (eth_valid (ethernet hdr)) then 112 else 0)
  + (if is_valid (calc_valid (p4calc hdr)) then 128 else 0).

Definition emit_p4calc (c : p4calc_t) : X headers_t metadata_t p4calc_t :=
  require_out 128 ;;
  write_object 1 1 (calc_p c) ;;
  advance_out 8 ;;
  write_object 1 1 (calc_four c) ;;
  advance_out 8 ;;
  write_object 1 1 (calc_ver c) ;;
  advance_out 8 ;;
  write_object 1 1 (calc_op c) ;;
  advance_out 8 ;;
  let operand_a := bpf_htonl (calc_operand_a c) in
  write_object 4 4 operand_a ;;
  advance_out 32 ;;
  let operand_b := bpf_htonl (calc_operand_b c) in
  write_object 4 4 operand_b ;;
  advance_out 32 ;;
  let res := bpf_htonl (calc_res c) in
  write_object 4 4 res ;;
  advance_out 32 ;;
  ret { c with calc_operand_a := operand_a; calc_operand_b := operand_b; calc_res := res }.

Definition deparse_hdr_ethernet : X headers_t metadata_t unit :=
  emit_ethernet_block ethernet set_ethernet.

Definition deparse_hdr_p4calc : X headers_t metadata_t unit :=
  hdr <- get_headers ;;
  when (is_valid (calc_valid (p4calc hdr)))
    (c <- emit_p4calc (p4calc hdr) ;; set_headers (set_p4calc c hdr)).

Definition deparser (hdr_start : Z) : X headers_t metadata_t unit :=
  make_room outHeaderLength hdr_start ;;
  deparse_hdr_ethernet ;;
  deparse_hdr_p4calc.

Definition calc_body (hdr_start : Z) : X headers_t metadata_t unit :=
  main_control ;;
  deparser hdr_start.

Definition process (w : world headers_t metadata_t) := process_frame calc_body w.

Definition tc_ingress_func (w : world headers_t metadata_t) :=
  tc_ingress_frame process w.

(** The pipeline as the filter runs it. *)
Definition calc (w : world headers_t metadata_t) :=
  tc_chain tc_parse_func tc_ingress_func w.
End Control.

(** ** The P4 header type *)

Definition p4calc_widths : widths := [8; 8; 8; 8; 32; 32; 32]%nat.

Definition p4calc_fields (c : p4calc_t) : list Z :=
  [calc_p c; calc_four c; calc_ver c; calc_op c; calc_operand_a c; calc_operand_b c; calc_res c].

Definition p4calc_of_fields (vs : list Z) : p4calc_t :=
  match vs with
  | [p; four; ver; op; a; b; res] => Build_p4calc_t p four ver op a b res 1
  | _ => p4calc0
  end.

Definition p4calc_of_bytes (bs : list Z) : p4calc_t := p4calc_of_fields (p4_extract p4calc_widths bs).
Definition p4calc_to_bytes (c : p4calc_t) : list Z := p4_emit p4calc_widths (p4calc_fields c).

Definition wf_p4calc (c : p4calc_t) : Prop := Forall2 fits p4calc_widths (p4calc_fields c).

Section P4calc.
Context `{BO : ByteOrder}.

Lemma p4calc_of_bytes_explicit b0 b1 b2 b3 a0 a1 a2 a3 c0 c1 c2 c3 r0 r1 r2 r3 :
  bytes [b0; b1; b2; b3; a0; a1; a2; a3; c0; c1; c2; c3; r0; r1; r2; r3] ->
  p4calc_of_bytes [b0; b1; b2; b3; a0; a1; a2; a3; c0; c1; c2; c3; r0; r1; r2; r3]
  = Build_p4calc_t b0 b1 b2 b3 (be_val [a0; a1; a2; a3]) (be_val [c0; c1; c2; c3])
      (be_val [r0; r1; r2; r3]) 1.
Proof.
  intros Hb. split_bytes Hb. unfold p4calc_of_bytes, p4calc_widths.
  pose proof (p4_extract_cons 1 [8; 8; 8; 32; 32; 32]%nat [b0]
    [b1; b2; b3; a0; a1; a2; a3; c0; c1; c2; c3; r0; r1; r2; r3]
    eq_refl eq_refl ltac:(solve_bytes) ltac:(solve_bytes)) as E1.
  pose proof (p4_extract_cons 1 [8; 8; 32; 32; 32]%nat [b1]
    [b2; b3; a0; a1; a2; a3; c0; c1; c2; c3; r0; r1; r2; r3]
    eq_refl eq_refl ltac:(solve_bytes) ltac:(solve_bytes)) as E2.
  pose proof (p4_extract_cons 1 [8; 32; 32; 32]%nat [b2]
    [b3; a0; a1; a2; a3; c0; c1; c2; c3; r0; r1; r2; r3]
    eq_refl eq_refl ltac:(solve_bytes) ltac:(solve_bytes)) as E3.
  pose proof (p4_extract_cons 1 [32; 32; 32]%nat [b3]
    [a0; a1; a2; a3; c0; c1; c2; c3; r0; r1; r2; r3]
    eq_refl eq_refl ltac:(solve_bytes) ltac:(solve_bytes)) as E4.
  pose proof (p4_extract_cons 4 [32; 32]%nat [a0; a1; a2; a3] [c0; c1; c2; c3; r0; r1; r2; r3]
    eq_refl eq_refl ltac:(solve_bytes) ltac:(solve_bytes)) as E5.
  pose proof (p4_extract_cons 4 [32]%nat [c0; c1; c2; c3] [r0; r1; r2; r3]
    eq_refl eq_refl ltac:(solve_bytes) ltac:(solve_bytes)) as E6.
  rewrite p4_extract_1 in E6. cbn [app Nat.mul Nat.add] in *.
  by rewrite E1, E2, E3, E4, E5, E6, !be_val_1.
Qed.

Lemma p4calc_of_bytes_fields bs :
  length bs = 16%nat -> bytes bs -> p4calc_fields (p4calc_of_bytes bs) = p4_extract p4calc_widths bs.
Proof.
  intros Hl Hb. unfold p4calc_of_bytes.
  pose proof (p4_extract_fit p4calc_widths bs ltac:(by rewrite Hl) Hb) as Hf.
  pose proof (Forall2_length Hf) as Hlen. symmetry in Hlen.
  destruct (p4_extract p4calc_widths bs) as [|v vs]; [done|].
  injection Hlen as Hlen. destruct_length vs Hlen. reflexivity.
Qed.

Lemma p4calc_of_bytes_wf bs : length bs = 16%nat -> bytes bs -> wf_p4calc (p4calc_of_bytes bs).
Proof.
  intros Hl Hb. unfold wf_p4calc. rewrite p4calc_of_bytes_fields by done.
  apply p4_extract_fit; [by rewrite Hl|done].
Qed.

Lemma p4calc_of_bytes_valid bs :
  length bs = 16%nat -> bytes bs -> calc_valid (p4calc_of_bytes bs) = 1.
Proof. intros Hl Hb. destruct_length bs Hl. by rewrite p4calc_of_bytes_explicit. Qed.

Lemma length_p4calc_to_bytes c : length (p4calc_to_bytes c) = 16%nat.
Proof. apply length_p4_emit. Qed.

Lemma p4calc_to_bytes_explicit c :
  wf_p4calc c ->
  p4calc_to_bytes c
  = be_bytes 1 (calc_p c) ++ be_bytes 1 (calc_four c) ++ be_bytes 1 (calc_ver c)
    ++ be_bytes 1 (calc_op c) ++ be_bytes 4 (calc_operand_a c)
    ++ be_bytes 4 (calc_operand_b c) ++ be_bytes 4 (calc_res c).
Proof.
  unfold wf_p4calc, p4calc_to_bytes, p4calc_widths, p4calc_fields. intros Hf.
  rewrite !List.Forall2_cons_iff in Hf. destruct Hf as (H0 & H1 & H2 & H3 & H4 & H5 & H6 & _).
  rewrite !(p4_emit_cons 1), !(p4_emit_cons 4 [_; _]), !(p4_emit_cons 4 [_]), (p4_emit_1 4) by (done || solve_fits). done.
Qed.
End P4calc.

(** ** The parser implements the P4 parser *)

Section ParserSpec.
Context `{BO : ByteOrder}.
Implicit Types (h : headers_t) (data : list Z).

Lemma extract_p4calc_ok err h a b l :
  length b = 16%nat -> bytes b -> small a ->
  extract_p4calc (boundary err h a (b ++ l)) = Ret (p4calc_of_bytes b) (boundary err h (a ++ b) l).
Proof.
  intros Hl Hb Ha. rewrite <- (boundary_next err h a b l 16 128 (p4calc_of_bytes b)) by done.
  unfold extract_p4calc.
  erewrite bind_Ret by (apply (boundary_require _ _ _ _ 16); [done|rewrite length_app; lia]).
  destruct_length b Hl. rewrite p4calc_of_bytes_explicit by done. split_bytes Hb.
  cbn [app]. unfold boundary. repeat pstep.
  rewrite !u32_be_val, !u8_byte by assumption. reflexivity.
Qed.

Lemma extract_p4calc_short err h a l :
  (length l < 16)%nat ->
  extract_p4calc (boundary err h a l) = Exit reject (boundary PacketTooShort h a l).
Proof. intros Hl. apply bind_Exit. by apply (boundary_short _ _ _ _ 16). Qed.

Lemma extract_p4calc_at err h data n :
  bytes data -> small data ->
  extract_p4calc (at_pos err h data n)
  = if (length (drop n data) <? 16)%nat then Exit reject (at_pos PacketTooShort h data n)
    else Ret (p4calc_of_bytes (slice n 16 data)) (at_pos err h data (n + 16)).
Proof.
  intros Hb Hs. destruct (Nat.ltb_spec (length (drop n data)) 16) as [Hl|Hl].
  - by apply extract_p4calc_short.
  - rewrite length_drop in Hl. rewrite (at_pos_slice err h data n 16).
    rewrite extract_p4calc_ok; [|apply length_slice; lia|by apply slice_bytes
                                |by apply small_take].
    by rewrite at_pos_next.
Qed.

(** The selector is the concatenation of the three magic bytes. *)
Lemma select_0_spec p four ver :
  is_byte p -> is_byte four -> is_byte ver ->
  select_0 p four ver = p * 65536 + four * 256 + ver.
Proof.
  unfold is_byte, select_0. intros Hp Hf Hv.
  change (Z.shiftl 1 24 - 1) with (Z.ones 24). change 255 with (Z.ones 8).
  rewrite !Z.land_ones, !Z.shiftl_mul_pow2 by lia.
  change (2 ^ 8) with 256. change (2 ^ 24) with 16777216.
  rewrite (Z.mod_small four 256), (Z.mod_small ver 256) by lia.
  pose proof (lor_disjoint_add p four 8 ltac:(lia) ltac:(lia)) as E1.
  pose proof (lor_disjoint_add (p * 256 + four) ver 8 ltac:(lia) ltac:(lia)) as E2.
  change (2 ^ 8) with 256 in E1, E2. rewrite E1.
  rewrite (Z.mod_small ver) by lia. unfold u32.
  rewrite (Z.mod_small _ (2 ^ 32)) by lia. rewrite (Z.mod_small ((p * 256 + four) * 256)) by lia.
  rewrite E2, Z.mod_small by lia. lia.
Qed.

(** "P4" and version 1. *)
Definition is_p4calc (c : p4calc_t) : bool :=
  (calc_p c =? 0x50) && (calc_four c =? 0x34) && (calc_ver c =? 0x01).

Definition calc_parse data : verdict * headers_t * nat :=
  if (length data <? 14)%nat then (TooShort, headers0, 0%nat) else
  let hdr := { headers0 with ethernet := ethernet_of_bytes (slice 0 14 data) } in
  if negb (eth_etherType (ethernet hdr) =? 0x1234) then (Accepted, hdr, 14%nat) else
  if (length data <? 30)%nat then (TooShort, hdr, 14%nat) else
  let c := p4calc_of_bytes (slice 14 16 data) in
  if is_p4calc c then (Accepted, { hdr with p4calc := c }, 30%nat)
  else (Accepted, hdr, 14%nat).

Lemma select_0_magic c :
  wf_p4calc c ->
  (select_0 (calc_p c) (calc_four c) (calc_ver c) =? 0x503401) = is_p4calc c.
Proof.
  unfold wf_p4calc, p4calc_widths, p4calc_fields, fits. intros Hf.
  rewrite !List.Forall2_cons_iff in Hf. destruct Hf as (H0 & H1 & H2 & _).
  change (2 ^ Z.of_nat 8) with 256 in *. rewrite select_0_spec by assumption.
  unfold is_p4calc.
  destruct (Z.eqb_spec (calc_p c) 80), (Z.eqb_spec (calc_four c) 52),
    (Z.eqb_spec (calc_ver c) 1), (Z.eqb_spec (calc_p c * 65536 + calc_four c * 256 + calc_ver c) 5256193);
    try reflexivity; exfalso; lia.
Qed.

Lemma calc_start_spec data :
  bytes data -> small data ->
  start (at_pos NoError headers0 data 0)
  = let '(v, h, n) := calc_parse data in parser_outcome v h data n.
Proof.
  intros Hb Hs. unfold start, calc_parse.
  rewrite (bind_Ret _ _ _ _ _ (get_hdr_at _ _ _ _)). unfold bind at 1.
  cbn [ethernet headers0]. rewrite extract_ethernet_at, ltb_drop by (done || lia).
  cbn [Nat.add]. destruct (Nat.ltb_spec (length data) 14) as [|H14]; [done|].
  rewrite (bind_Ret _ _ _ _ _ (set_hdr_at _ _ _ _ _)).
  cbn [ethernet]. destruct (_ =? 0x1234); cbn [negb]; [|done].
  set (h := { headers0 with ethernet := _ }).
  pose proof (extract_p4calc_at NoError h data 14 Hb Hs) as He.
  rewrite ltb_drop in He by done. cbn [Nat.add] in He. unfold check_p4calc.
  destruct (Nat.ltb_spec (length data) 30) as [|H30].
  { apply bind_Exit. exact (lookahead_exit _ _ _ _ He). }
  pose proof (lookahead_at _ _ _ _ _ _ _ He) as Hla.
  rewrite !(bind_Ret _ _ _ _ _ Hla). cbv zeta.
  rewrite select_0_magic
    by (apply p4calc_of_bytes_wf; [apply length_slice; lia|by apply slice_bytes]).
  destruct (is_p4calc _); [|done].
  unfold parse_p4calc. rewrite (bind_Ret _ _ _ _ _ (get_hdr_at _ _ _ _)).
  by rewrite (bind_Ret _ _ _ _ _ He).
Qed.
End ParserSpec.

(** ** The control block *)

Inductive operation := Add | Sub | And | Or | Xor.

Inductive action := Reply (o : operation) | Drop | NoAction.

(** The 32-bit result of an operation. *)
Definition compute (o : operation) (a b : Z) : Z :=
  match o with
  | Add => (a + b) mod 2 ^ 32
  | Sub => (a - b) mod 2 ^ 32
  | And => Z.land a b
  | Or => Z.lor a b
  | Xor => Z.lxor a b
  end.

Section ControlSpec.
Context `{BO : ByteOrder} `{K : P4tcKernel} `{!P4tcKernelOk K} (filter : p4tc_filter_fields).
Implicit Types (h : headers_t) (u : metadata_t).

Definition calc_action (act_bpf : option p4tc_table_entry_act_bpf) : action :=
  match act_bpf with
  | None => NoAction
  | Some value =>
    let a := act_id value in
    if a =? 1 then Reply Add else if a =? 2 then Reply Sub else if a =? 3 then Reply And
    else if a =? 4 then Reply Or else if a =? 5 then Reply Xor
    else if a =? 6 then Drop else NoAction
  end.

Definition calc_lookup (k : kstate) (skb : sk_buff) (op : Z)
  : option p4tc_table_entry_act_bpf :=
  bpf_p4tc_tbl_read k skb (calculate_params filter) (MainControlImpl_calculate_key 8 0 op).

Definition swap_macs (e : ethernet_t) : ethernet_t :=
  { e with eth_dstAddr := eth_srcAddr e;
           eth_srcAddr := bpf_cpu_to_be64 (bpf_be64_to_cpu (eth_dstAddr e)) }.

Definition reply (o : operation) h : headers_t :=
  let c := p4calc h in
  Build_headers_t (swap_macs (ethernet h))
    { c with calc_res := compute o (calc_operand_a c) (calc_operand_b c) }.

Lemma calculate_apply_spec (s : xstate headers_t metadata_t) h u m :
  calculate_apply filter (put s h u m)
  = Ret tt (match calc_action (calc_lookup (x_kern s) (x_skb s) (calc_op (p4calc h))) with
            | Reply o => put s (reply o h) u (to_port (u32 (skb_ifindex (x_skb s))) m)
            | Drop => put s h u (drop_packet m)
            | NoAction => put s h u m
            end).
Proof.
  unfold calculate_apply, calc_lookup. xstep. rewrite tbl_read_put.
  destruct (bpf_p4tc_tbl_read _ _ _ _) as [value|]; [|done]. unfold calc_action.
  unfold MAINCONTROLIMPL_CALCULATE_ACT_MAINCONTROLIMPL_OPERATION_ADD,
    MAINCONTROLIMPL_CALCULATE_ACT_MAINCONTROLIMPL_OPERATION_SUB,
    MAINCONTROLIMPL_CALCULATE_ACT_MAINCONTROLIMPL_OPERATION_AND,
    MAINCONTROLIMPL_CALCULATE_ACT_MAINCONTROLIMPL_OPERATION_OR,
    MAINCONTROLIMPL_CALCULATE_ACT_MAINCONTROLIMPL_OPERATION_XOR,
    MAINCONTROLIMPL_CALCULATE_ACT_MAINCONTROLIMPL_OPERATION_DROP.
  destruct (act_id value =? 1); [by destruct h|].
  destruct (act_id value =? 2); [by destruct h|].
  destruct (act_id value =? 3); [by destruct h|].
  destruct (act_id value =? 4); [by destruct h|].
  destruct (act_id value =? 5); [by destruct h|].
  by destruct (act_id value =? 6).
Qed.
End ControlSpec.

(** ** The pipeline *)

Section Pipeline.
Context `{BO : ByteOrder} `{K : P4tcKernel} `{!P4tcKernelOk K} (filter : p4tc_filter_fields).
Implicit Types (h : headers_t) (w : world headers_t metadata_t).

Definition out_p4calc (c : p4calc_t) : list Z :=
  if is_valid (calc_valid c) then p4calc_to_bytes c else [].

Lemma length_out_p4calc c :
  length (out_p4calc c) = if is_valid (calc_valid c) then 16%nat else 0%nat.
Proof. unfold out_p4calc. case_match; [apply length_p4calc_to_bytes|done]. Qed.

Definition headers_bytes h : list Z := out_ethernet (ethernet h) ++ out_p4calc (p4calc h).

Lemma emit_p4calc_ok (s : xstate headers_t metadata_t) c a old l :
  wf_p4calc c -> length old = 16%nat -> tiny a ->
  emit_p4calc c (cursor_out s a (old ++ l) 0)
  = Ret { c with calc_operand_a := bpf_htonl (calc_operand_a c);
                 calc_operand_b := bpf_htonl (calc_operand_b c);
                 calc_res := bpf_htonl (calc_res c) }
      (cursor_out s (a ++ p4calc_to_bytes c) l 0).
Proof.
  intros Hc Ho Ha. rewrite p4calc_to_bytes_explicit by done. unfold emit_p4calc.
  erewrite bind_Ret
    by (apply (require_out_app _ _ _ 16); [done|solve_small|lia|rewrite length_app; lia]).
  destruct_length old Ho. cbn [app]. cbn zeta.
  do 7 (rewrite emit_object by (done || solve_small); cbn [drop]).
  unfold bpf_htonl. rewrite !take_host_bytes, !host_bytes_ntoh, !host_bytes_1, drop_0.
  by rewrite <- !app_assoc.
Qed.

Lemma emits_p4calc :
  emits (U := metadata_t) deparse_hdr_p4calc (fun h => wf_p4calc (p4calc h))
    (fun h => out_p4calc (p4calc h)) (updates set_p4calc).
Proof.
  intros s a l Hp Hb Ht Hl. rewrite length_out_p4calc in *.
  unfold deparse_hdr_p4calc. rewrite (bind_Ret _ _ _ _ _ (get_headers_out _ _ _ _)).
  unfold when, out_p4calc in *. destruct (is_valid (calc_valid (p4calc (x_hdr s)))).
  - eexists. split; [right; eexists; reflexivity|].
    rewrite <- (take_drop 16 l) at 1.
    rewrite (bind_Ret _ _ _ _ _ (emit_p4calc_ok s _ a (take 16 l) (drop 16 l) Hp
               ltac:(rewrite length_take; lia)
               ltac:(unfold tiny in *; rewrite length_app in Ht; lia))).
    apply set_headers_out.
  - exists (x_hdr s). split; [by left|]. rewrite app_nil_r, drop_0. by destruct s.
Qed.

Definition wf_headers h : Prop := wf_ethernet (ethernet h) /\ wf_p4calc (p4calc h).

Definition emit_headers : X headers_t metadata_t unit :=
  deparse_hdr_ethernet ;; deparse_hdr_p4calc.

Lemma calc_emits_headers : exists mods, emits emit_headers wf_headers headers_bytes mods.
Proof.
  eexists. exact (emits_seq (U := metadata_t) _ _ _ _ _ _ _ _
    (emits_ethernet ethernet set_ethernet) emits_p4calc ltac:(by intros h h' [->|[e ->]])).
Qed.

Lemma calc_BYTES_outHeaderLength h :
  BYTES (outHeaderLength h) = Z.of_nat (length (headers_bytes h)).
Proof.
  unfold headers_bytes, outHeaderLength.
  rewrite length_app, length_out_ethernet, length_out_p4calc. by repeat case_match.
Qed.

Lemma compute_fits o a b :
  0 <= a < 2 ^ 32 -> 0 <= b < 2 ^ 32 -> 0 <= compute o a b < 2 ^ 32.
Proof.
  intros Ha Hb. destruct o; cbn [compute]; try (apply Z.mod_pos_bound; lia).
  - by apply land_bound.
  - by apply lor_bound.
  - by apply lxor_bound.
Qed.

(** *** What becomes of a packet *)

Definition calc_spec (k : kstate) (skb : sk_buff) : behaviour :=
  let '(v, h, n) := calc_parse (skb_data skb) in
  let send port h' :=
    Send port (headers_bytes h' ++ drop n (skb_data skb))
      (Z.of_nat (length (headers_bytes h')) - Z.of_nat n) k in
  if is_valid (calc_valid (p4calc h)) then
    match calc_action (calc_lookup filter k skb (calc_op (p4calc h))) with
    | Reply o => send (u32 (skb_ifindex skb)) (reply o h)
    | Drop => Discard
    | NoAction => send 0 h
    end
  else Discard.

Lemma calc_parse_ok data :
  bytes data -> (14 <= length data)%nat ->
  let '(v, h, n) := calc_parse data in
  v <> Rejected /\ wf_headers h /\ eth_valid (ethernet h) = 1 /\ (14 <= n <= length data)%nat.
Proof.
  intros Hb H14. unfold calc_parse.
  assert (Hw0 : wf_p4calc p4calc0)
    by (repeat (apply List.Forall2_cons; [split; by vm_compute|]); apply List.Forall2_nil).
  assert (Hew : wf_ethernet (ethernet_of_bytes (slice 0 14 data)))
    by (apply ethernet_of_bytes_wf; [apply length_slice; lia|by apply slice_bytes]).
  assert (Hev : eth_valid (ethernet_of_bytes (slice 0 14 data)) = 1)
    by (apply ethernet_of_bytes_valid; [apply length_slice; lia|by apply slice_bytes]).
  assert (Hc : (30 <= length data)%nat -> wf_p4calc (p4calc_of_bytes (slice 14 16 data)))
    by (intros Hn; apply p4calc_of_bytes_wf; [by apply length_slice|by apply slice_bytes]).
  destruct (Nat.ltb_spec (length data) 14); [lia|].
  destruct (negb _); [split; [done|]; split; [by split|]; split; [done|lia]|].
  destruct (Nat.ltb_spec (length data) 30); [split; [done|]; split; [by split|]; split; [done|lia]|].
  specialize (Hc ltac:(lia)). cbv zeta.
  destruct (is_p4calc _); (split; [done|]; split; [by split|]; split; [done|lia]).
Qed.

Lemma wf_reply o h : wf_headers h -> wf_headers (reply o h).
Proof.
  intros [He Hc]. split; [exact He|]. unfold wf_p4calc, p4calc_widths, p4calc_fields in *.
  rewrite !List.Forall2_cons_iff in *. destruct Hc as (?&?&?&?&Ha&Hb&?&_).
  repeat (split; [assumption|]). split; [by apply compute_fits|constructor].
Qed.

(** The deparser in the state the control block leaves. *)
Lemma calc_deparse_send w s h0 h u m n p payload :
  enters metadata0 w s h0 p payload -> drop_flag m = false -> length p = n -> (14 <= n)%nat ->
  length (p ++ payload) = length (skb_data (w_skb w)) ->
  wf_headers h -> eth_valid (ethernet h) = 1 ->
  body_behaves
    (Send (egress_port m) (headers_bytes h ++ payload)
       (Z.of_nat (length (headers_bytes h)) - Z.of_nat n) (w_kern w)) w
    (deparser (Z.of_nat n) (put s h u m)).
Proof.
  intros Hent Hm <- Hn Hlen Hw Hv. destruct calc_emits_headers as [mods Hem].
  assert (Ho : (14 <= length (headers_bytes h) <= 30)%nat).
  { unfold headers_bytes. rewrite length_app, length_out_ethernet, length_out_p4calc, Hv.
    cbn. case_match; lia. }
  refine (deparser_behaves outHeaderLength emit_headers wf_headers headers_bytes mods Hem
           calc_BYTES_outHeaderLength metadata0 w s h0 h u m p payload Hent Hm Hw Hlen _ _).
  - lia.
  - right. split; [exact Hn|apply Ho].
Qed.

Lemma calc_deparse_drop w s h u m n :
  drop_flag m = true -> body_behaves Discard w (deparser n (put s h u m)).
Proof. intros Hm. exact (deparser_drops outHeaderLength emit_headers s h u m n Hm). Qed.

Lemma calc_run w : arrives w -> behaves (calc_spec (w_kern w) (w_skb w)) w (calc filter w).
Proof.
  intros Ha. unfold calc_spec.
  pose proof (calc_start_spec _ (arr_bytes w Ha) (arr_small w Ha)) as Hs.
  pose proof (calc_parse_ok _ (arr_bytes w Ha) (arr_eth w Ha)) as Hok.
  destruct (calc_parse (skb_data (w_skb w))) as [[v h] n].
  destruct Hok as (Hv & Hw & He & Hn).
  change (calc filter w) with (chain headers0 metadata0 start (calc_body filter) w).
  apply (chain_behaves headers0 metadata0 start (calc_body filter) _ w v h n Ha Hn Hv Hs).
  intros s p Hlp Hent. pose proof Hent as [Eh Eu Ed Eb Ei Edr Ept Ek].
  assert (Hlen : length (p ++ drop n (skb_data (w_skb w))) = length (skb_data (w_skb w)))
    by (rewrite length_app, Hlp, length_drop; lia).
  unfold calc_body, main_control. rewrite <- (put_id s), bind_assoc. xstep. rewrite Eh.
  destruct (is_valid (calc_valid (p4calc h)));
    [|rewrite (bind_Ret _ _ _ _ _ (do_drop_packet_put _ _ _ _)); by apply calc_deparse_drop].
  rewrite (bind_Ret _ _ _ _ _ (calculate_apply_spec filter s _ _ _)). unfold calc_lookup.
  rewrite Ek, (tbl_read_dev _ (x_skb s) (w_skb w)), Ei by exact Ei.
  destruct (calc_action _) as [o| |].
  - refine (calc_deparse_send w s h (reply o h) _ (to_port (u32 (skb_ifindex (w_skb w))) _) n p _ Hent
             eq_refl Hlp (proj1 Hn) Hlen (wf_reply o h Hw) He).
  - apply calc_deparse_drop. reflexivity.
  - rewrite <- Ept. exact (calc_deparse_send w s h h _ _ n p _ Hent Edr Hlp (proj1 Hn) Hlen Hw He).
Qed.

#[export] Instance calc_implements : Implements (calc filter) calc_spec := calc_run.
End Pipeline.

(** ** Requests and replies, end to end *)

(** A frame that carries a [p4calc] header. *)
Definition calc_frame (macs hd payload : list Z) : list Z := (macs ++ [0x12; 0x34]) ++ hd ++ payload.

(** The header: "P4", version 1, the code, two operands and the result. *)
Definition calc_header (op : Z) (a b res : list Z) : list Z :=
  [0x50; 0x34; 0x01; op] ++ a ++ b ++ res.

Section EndToEnd.
Context `{BO : ByteOrder} `{K : P4tcKernel} `{!P4tcKernelOk K} (filter : p4tc_filter_fields).
Implicit Types (w : world headers_t metadata_t) (macs hd payload a b res : list Z).

Lemma calc_parse_frame macs hd payload :
  length macs = 12%nat -> length hd = 16%nat -> bytes (calc_frame macs hd payload) ->
  calc_parse (calc_frame macs hd payload)
  = let h := { headers0 with ethernet := ethernet_of_bytes (macs ++ [0x12; 0x34]) } in
    if is_p4calc (p4calc_of_bytes hd)
    then (Accepted, { h with p4calc := p4calc_of_bytes hd }, 30%nat)
    else (Accepted, h, 14%nat).
Proof.
  intros Hm Hh Hb. assert (He : length (macs ++ [0x12; 0x34]) = 14%nat) by (by rewrite length_app, Hm).
  unfold calc_frame in *. apply bytes_app in Hb as [Hbe Hb].
  assert (Hlen : length ((macs ++ [18; 52]) ++ hd ++ payload) = (30 + length payload)%nat)
    by (rewrite !length_app, Hm, Hh; done).
  unfold calc_parse. rewrite Hlen, (slice_0 _ _ 14 He), (slice_app _ _ 14 14), (slice_0 _ _ 16 Hh)
    by (done || lia).
  destruct (Nat.ltb_spec (30 + length payload) 14); [lia|].
  destruct (Nat.ltb_spec (30 + length payload) 30); [lia|]. cbv zeta.
  change (eth_etherType (ethernet _)) with
    (eth_etherType (ethernet_of_bytes (macs ++ [0x12; 0x34]))).
  rewrite etherType_of_bytes by done. by rewrite be_val_2.
Qed.

Lemma p4calc_of_header op a b res :
  length a = 4%nat -> length b = 4%nat -> length res = 4%nat ->
  bytes (calc_header op a b res) ->
  p4calc_of_bytes (calc_header op a b res)
  = Build_p4calc_t 0x50 0x34 0x01 op (be_val a) (be_val b) (be_val res) 1.
Proof.
  intros Ha Hb Hr Hh. destruct_length a Ha. destruct_length b Hb. destruct_length res Hr.
  unfold calc_header in *. cbn [app] in *. by rewrite p4calc_of_bytes_explicit.
Qed.

Lemma p4calc_header_to_bytes op a b r :
  is_byte op -> length a = 4%nat -> length b = 4%nat -> bytes a -> bytes b -> 0 <= r < 2 ^ 32 ->
  p4calc_to_bytes (Build_p4calc_t 0x50 0x34 0x01 op (be_val a) (be_val b) r 1)
  = calc_header op a b (be_bytes 4 r).
Proof.
  intros Ho Hla Hlb Hba Hbb Hr. rewrite p4calc_to_bytes_explicit.
  - cbn [calc_p calc_four calc_ver calc_op calc_operand_a calc_operand_b calc_res].
    pose proof (be_bytes_be_val a Hba) as Ea. pose proof (be_bytes_be_val b Hbb) as Eb.
    rewrite Hla in Ea. rewrite Hlb in Eb. rewrite Ea, Eb.
    unfold calc_header, be_bytes at 1 2 3 4. cbn [le_bytes rev app].
    by rewrite (Z.mod_small op) by exact Ho.
  - pose proof (be_val_bound a Hba) as Ba. pose proof (be_val_bound b Hbb) as Bb.
    rewrite Hla in Ba. rewrite Hlb in Bb.
    unfold wf_p4calc, p4calc_widths, p4calc_fields. rewrite !List.Forall2_cons_iff.
    repeat (split; [first [exact Ho | exact Ba | exact Bb | exact Hr | by split]|]). constructor.
Qed.

Lemma out_swapped macs t0 t1 :
  length macs = 12%nat -> bytes (macs ++ [t0; t1]) ->
  out_ethernet (swap_macs (ethernet_of_bytes (macs ++ [t0; t1])))
  = (drop 6 macs ++ take 6 macs) ++ [t0; t1].
Proof.
  intros Hm Hb. destruct (ethernet_addrs macs t0 t1 Hm Hb) as (Ed & Es & Hd).
  unfold swap_macs.
  etransitivity; [exact (out_ethernet_addrs macs t0 t1 _ _ Hm Hb)|].
  unfold bpf_cpu_to_be64, bpf_be64_to_cpu. rewrite ntoh_involutive by exact Hd.
  by rewrite Ed, Es, <- app_assoc.
Qed.

(** C10: the calculator answers: a request whose code the table maps to an
    operation goes back through the port it came from, to the address it
    came from, with the operands' 32-bit result in the result field and
    everything else unchanged. *)
Theorem calc_computes w macs op a b res payload o :
  arrives w -> length macs = 12%nat -> length a = 4%nat -> length b = 4%nat ->
  length res = 4%nat ->
  skb_data (w_skb w) = calc_frame macs (calc_header op a b res) payload ->
  calc_action (calc_lookup filter (w_kern w) (w_skb w) op) = Reply o ->
  delivered (u32 (skb_ifindex (w_skb w))) (skb_ifindex (w_skb w))
    (calc_frame (drop 6 macs ++ take 6 macs)
       (calc_header op a b (be_bytes 4 (compute o (be_val a) (be_val b)))) payload)
    (w_kern w) (calc filter w).
Proof.
  intros Ha Hm Hla Hlb Hlr Hd Hact.
  pose proof (arr_bytes w Ha) as Hb. rewrite Hd in Hb.
  assert (Hh : length (calc_header op a b res) = 16%nat)
    by (unfold calc_header; rewrite !length_app, Hla, Hlb, Hlr; done).
  apply (implements_send (calc filter) (calc_spec filter) w _ _ 0); [exact Ha| |by left].
  unfold calc_spec. rewrite Hd, calc_parse_frame by assumption.
  unfold calc_frame in Hb. apply bytes_app in Hb as [Hbe Hb]. apply bytes_app in Hb as [Hbh _].
  rewrite p4calc_of_header by assumption. cbv zeta.
  change (is_p4calc _) with true. cbv iota.
  change (is_valid (calc_valid (p4calc _))) with true. cbv iota.
  change (calc_op (p4calc _)) with op. rewrite Hact. unfold headers_bytes, reply.
  cbn [ethernet p4calc headers0]. unfold calc_header in Hbh. cbn [app] in Hbh. split_bytes Hbh.
  apply bytes_app in Hbh as [Hba Hbb]. apply bytes_app in Hbb as [Hbb _].
  change (out_ethernet (swap_macs _)) with
    (out_ethernet (swap_macs (ethernet_of_bytes (macs ++ [0x12; 0x34])))).
  rewrite out_swapped by assumption.
  change (out_p4calc _) with (p4calc_to_bytes (Build_p4calc_t 0x50 0x34 0x01 op
    (be_val a) (be_val b) (compute o (be_val a) (be_val b)) 1)).
  pose proof (be_val_bound a Hba) as Ba. pose proof (be_val_bound b Hbb) as Bb.
  rewrite Hla in Ba. rewrite Hlb in Bb.
  rewrite p4calc_header_to_bytes by (first [assumption | by apply compute_fits]).
  f_equal.
  - unfold calc_frame. rewrite (drop_app_sub _ _ 14), (drop_app_sub _ _ 16)
      by (rewrite ?length_app, ?Hm, ?Hh; cbn; lia).
    change (30 - 14 - 16)%nat with 0%nat. by rewrite drop_0, <- !app_assoc.
  - unfold calc_header. rewrite !length_app, length_drop, length_take, Hm, Hla, Hlb, length_be_bytes.
    done.
Qed.

(** C34: everything that is not a request is dropped: frames of another type,
    short ones, those without the "P4" version 1 mark, and requests with a
    code the table drops. *)
Theorem calc_drops w :
  arrives w ->
  let data := skb_data (w_skb w) in
  nth 12 data 0 * 256 + nth 13 data 0 <> 0x1234 \/ (length data < 30)%nat \/
  slice 14 3 data <> [0x50; 0x34; 0x01] \/
  calc_action (calc_lookup filter (w_kern w) (w_skb w) (nth 17 data 0)) = Drop ->
  shot (calc filter w).
Proof.
  intros Ha data Hd. apply (implements_discard (calc filter) (calc_spec filter)); [exact Ha|].
  pose proof (arr_bytes w Ha) as Hb. pose proof (arr_eth w Ha) as H14.
  unfold calc_spec, calc_parse. fold data in Hb, H14 |- *.
  destruct (Nat.ltb_spec (length data) 14); [lia|]. cbv zeta.
  change (eth_etherType (ethernet _)) with (eth_etherType (ethernet_of_bytes (slice 0 14 data))).
  rewrite etherType_of_slice by assumption.
  destruct (Z.eqb_spec (nth 12 data 0 * 256 + nth 13 data 0) 4660) as [E|E]; [|done].
  cbn [negb]. destruct (Nat.ltb_spec (length data) 30); [done|].
  destruct Hd as [|[|Hd]]; [done|lia|].
  assert (Hs : slice 14 3 data = take 3 (slice 14 16 data) /\
               nth 17 data 0 = nth 3 (slice 14 16 data) 0).
  { unfold slice. rewrite take_take. split; [done|].
    rewrite <- (take_drop 14 data) at 1.
    rewrite app_nth2 by (rewrite length_take; lia).
    rewrite length_take, Nat.min_l by lia. change (17 - 14)%nat with 3%nat.
    rewrite <- (take_drop 16 (drop 14 data)) at 1.
    rewrite app_nth1; [done|]. rewrite length_take, length_drop. lia. }
  destruct Hs as [Hs Hop]. rewrite Hs, Hop in Hd.
  pose proof (length_slice 14 16 data ltac:(lia)) as Hl.
  pose proof (slice_bytes 14 16 data Hb) as Hbs. clear Hs Hop.
  generalize dependent (slice 14 16 data). intros hd Hd Hl Hbs.
  destruct_length hd Hl. rewrite p4calc_of_bytes_explicit by exact Hbs.
  unfold is_p4calc. cbn [calc_p calc_four calc_ver take nth] in *.
  destruct (Z.eqb_spec x 80), (Z.eqb_spec x0 52), (Z.eqb_spec x1 1); try done.
  destruct Hd as [Hd|Hd]; [by subst|]. subst. cbn [andb].
  change (is_valid (calc_valid (p4calc _))) with true. cbv iota.
  change (calc_op (p4calc _)) with x2. by rewrite Hd.
Qed.

(** Every access of the calculator is inside the packet. *)
Theorem calc_total w : arrives w -> exists r w', calc filter w = Some (r, w').
Proof. apply (implements_total (calc filter) (calc_spec filter)). Qed.
End EndToEnd.

(** ** The theorems at concrete packets *)

Section Witnesses.
Definition calc_world (rows : list table_row) (data : list Z) : world headers_t metadata_t :=
  sample_world headers0 metadata0 rows data.

(** The entries of the template: '+' is 43, '-' is 45. *)
Definition sample_minus : table_row := (1, MainControlImpl_calculate_key 8 0 45, sample_value 2 []).
Definition sample_reject : table_row := (1, MainControlImpl_calculate_key 8 0 43, sample_value 6 []).

Definition sample_request (op : Z) : list Z :=
  calc_frame sample_macs (calc_header op [0; 0; 0; 5] [0; 0; 0; 7] [0; 0; 0; 0]) [1; 2; 3].

Lemma calc_computes_witness :
  delivered 2 2
    (calc_frame [2; 0; 0; 0; 0; 2; 2; 0; 0; 0; 0; 1]
       (calc_header 45 [0; 0; 0; 5] [0; 0; 0; 7] [255; 255; 255; 254]) [1; 2; 3])
    [sample_minus] (calc sample_filter (calc_world [sample_minus] (sample_request 45))).
Proof.
  refine (calc_computes sample_filter (calc_world [sample_minus] (sample_request 45))
    sample_macs 45 [0; 0; 0; 5] [0; 0; 0; 7] [0; 0; 0; 0] [1; 2; 3] Sub _ _ _ _ _ _ _);
    [sample_tac|reflexivity..|vm_compute; reflexivity].
Defined.

Lemma calc_drops_witness :
  shot (calc sample_filter (calc_world [sample_reject] (sample_request 43))) /\
  shot (calc sample_filter (calc_world [] sample_frame)).
Proof.
  split.
  - apply calc_drops; [sample_tac|]. do 3 right. vm_compute. reflexivity.
  - apply calc_drops; [sample_tac|]. left. vm_compute. discriminate.
Defined.

Lemma calc_total_witness :
  exists r w', calc sample_filter (calc_world [] (replicate 30 18)) = Some (r, w').
Proof. apply calc_total. sample_tac. Defined.
End Witnesses.
