(* ===== verification/Ingress.v ===== *)
(** The headers of the two programs under simple/: [struct
    my_ingress_headers_t] of redirect_l2_parser.h and simple_l3_parser.h, an
    Ethernet and an IPv4 header, and the lemmas about them that both programs
    use. *)

From S2P Require Import Prelude CInt Memory Pna P4Spec Pipeline Steps Headers Deparse Chain Samples.

(** ** Data *)

Record my_ingress_metadata_t := {}.

Record my_ingress_headers_t := {
  ethernet : ethernet_t;
  ipv4 : ipv4_t
}.

Definition set_ethernet (e : ethernet_t) (hdr : my_ingress_headers_t) :=
  { hdr with ethernet := e }.
Definition set_ipv4 (ip : ipv4_t) (hdr : my_ingress_headers_t) := { hdr with ipv4 := ip }.

Definition headers0 : my_ingress_headers_t := Build_my_ingress_headers_t ethernet0 ipv4_0.
Definition metadata0 : my_ingress_metadata_t := Build_my_ingress_metadata_t.

(** A statement of [process] in either program. *)
Definition ingress_X `{K : P4tcKernel} (A : Type) : Type :=
  X my_ingress_headers_t my_ingress_metadata_t A.

(** ** Emission *)

Section Emission.
Context `{BO : ByteOrder} `{K : P4tcKernel}.
Implicit Types (h : my_ingress_headers_t).

Definition emit_both : X my_ingress_headers_t my_ingress_metadata_t unit :=
  emit_ethernet_block ethernet set_ethernet ;; emit_ipv4_block ipv4 set_ipv4.

Definition bits_of h : Z :=
  (if is_valid (eth_valid (ethernet h)) then 112 else 0)
  + (if is_valid (ip_valid (ipv4 h)) then 160 else 0).

Definition bytes_of h : list Z := out_ethernet (ethernet h) ++ out_ipv4 (ipv4 h).

Definition wf_both h : Prop := wf_ethernet (ethernet h) /\ wf_ipv4 (ipv4 h).

Definition mods_both h h' : Prop :=
  exists h1, updates set_ethernet h h1 /\ updates set_ipv4 h1 h'.

Lemma emits_both : emits emit_both wf_both bytes_of mods_both.
Proof.
  exact (emits_seq (U := my_ingress_metadata_t) _ _ _ _ _ _ _ _
    (emits_ethernet ethernet set_ethernet) (emits_ipv4 ipv4 set_ipv4)
    ltac:(by intros h h' [->|[e ->]])).
Qed.

Lemma BYTES_bits_of h : BYTES (bits_of h) = Z.of_nat (length (bytes_of h)).
Proof.
  unfold bits_of, bytes_of. rewrite length_app, length_out_ethernet, length_out_ipv4.
  by repeat case_match.
Qed.

Definition sendable_both : my_ingress_headers_t -> Prop := sendable wf_both bytes_of.

(** A header whose Ethernet part was extracted or rewritten can be sent. *)
Lemma sendable_both_intro h : wf_both h -> eth_valid (ethernet h) = 1 -> sendable_both h.
Proof.
  intros Hw Hv. unfold sendable_both, sendable, bytes_of.
  rewrite length_app, length_out_ethernet, length_out_ipv4, Hv.
  split; [exact Hw|]. cbn. case_match; lia.
Qed.

(** The three outcomes of the parsers: nothing, the Ethernet header, or both
    headers were extracted. *)
Lemma sendable_ethernet data :
  bytes data -> (14 <= length data)%nat ->
  sendable_both (Build_my_ingress_headers_t (ethernet_of_bytes (slice 0 14 data)) ipv4_0).
Proof.
  intros Hb Hl. assert (Hs : length (slice 0 14 data) = 14%nat) by (apply length_slice; lia).
  apply sendable_both_intro.
  - split; [apply ethernet_of_bytes_wf; [exact Hs|by apply slice_bytes]|].
    apply wf_ipv4_iff. cbn. lia.
  - apply ethernet_of_bytes_valid; [exact Hs|by apply slice_bytes].
Qed.

Lemma sendable_ipv4 data :
  bytes data -> (34 <= length data)%nat ->
  sendable_both (Build_my_ingress_headers_t (ethernet_of_bytes (slice 0 14 data))
                   (ipv4_of_bytes (slice 14 20 data))).
Proof.
  intros Hb Hl. assert (Hs : length (slice 0 14 data) = 14%nat) by (apply length_slice; lia).
  apply sendable_both_intro.
  - split; [apply ethernet_of_bytes_wf; [exact Hs|by apply slice_bytes]|].
    apply ipv4_of_bytes_wf; [apply length_slice; lia|by apply slice_bytes].
  - apply ethernet_of_bytes_valid; [exact Hs|by apply slice_bytes].
Qed.
End Emission.

(** ** Rewriting the addresses of an IPv4 frame *)

Section Frames.
Context `{BO : ByteOrder} `{K : P4tcKernel}.
Implicit Types (macs ip payload data : list Z).

Definition frame_headers macs ip : my_ingress_headers_t :=
  Build_my_ingress_headers_t (ethernet_of_bytes (macs ++ [8; 0])) (ipv4_of_bytes ip).

Definition with_macs (dst src : Z) (h : my_ingress_headers_t) : my_ingress_headers_t :=
  { h with ethernet -> eth_dstAddr := dst; ethernet -> eth_srcAddr := src }.

Lemma sendable_with_macs dst src h : sendable_both h -> sendable_both (with_macs dst src h).
Proof.
  intros ([He Hi] & Hl & Hn). split; [by split|].
  unfold bytes_of in *. rewrite !length_app, !length_out_ethernet in *. by split.
Qed.

(** What was extracted is emitted as it was. *)
Lemma bytes_of_data data n i :
  bytes data -> (14 <= n <= length data)%nat -> out_ipv4 i = slice 14 (n - 14) data ->
  bytes_of (Build_my_ingress_headers_t (ethernet_of_bytes (slice 0 14 data)) i) ++ drop n data = data.
Proof.
  intros Hb Hn Hi. unfold bytes_of. cbn [ethernet ipv4]. rewrite Hi.
  assert (Hs : length (slice 0 14 data) = 14%nat) by (apply length_slice; lia).
  assert (Hbs : bytes (slice 0 14 data)) by by apply slice_bytes.
  rewrite out_ethernet_valid, ethernet_to_of_bytes
    by first [done | by apply ethernet_of_bytes_valid].
  unfold slice. rewrite drop_0, <- app_assoc.
  replace n with (14 + (n - 14))%nat at 2 by lia. by rewrite <- drop_drop, !take_drop.
Qed.

Lemma bytes_of_frame macs ip payload data :
  is_ipv4_frame macs ip payload data -> bytes data ->
  bytes_of (frame_headers macs ip) ++ payload = data /\
  length (bytes_of (frame_headers macs ip)) = 34%nat.
Proof.
  intros Hf Hb. destruct (frame_parts _ _ _ _ Hf Hb) as (Hbe & Hbi & _).
  destruct Hf as (-> & Hm & Hi). unfold bytes_of, frame_headers. cbn [ethernet ipv4].
  rewrite out_ethernet_frame, out_ipv4_valid, ipv4_to_of_bytes
    by first [done | by apply ipv4_of_bytes_valid].
  split; [unfold ipv4_frame; by rewrite <- !app_assoc|]. by rewrite !length_app, Hm, Hi.
Qed.

(** The same for a packet that ends at will: only the addresses change. *)
Lemma bytes_of_with_macs_data data n i dst src :
  bytes data -> (14 <= n <= length data)%nat -> out_ipv4 i = slice 14 (n - 14) data ->
  bytes_of (with_macs dst src (Build_my_ingress_headers_t (ethernet_of_bytes (slice 0 14 data)) i))
    ++ drop n data
  = (take 6 (host_bytes 8 dst) ++ take 6 (host_bytes 8 src)) ++ drop 12 data.
Proof.
  intros Hb Hn Hi. unfold bytes_of, with_macs. rewrite slice_ethernet by lia.
  change (out_ethernet _) with (out_ethernet
    { (ethernet_of_bytes (take 12 data ++ [nth 12 data 0; nth 13 data 0]))
      with eth_dstAddr := dst; eth_srcAddr := src }).
  change (out_ipv4 _) with (out_ipv4 i). rewrite Hi.
  pose proof (slice_ethernet data ltac:(lia)) as E.
  assert (H12 : length (take 12 data) = 12%nat) by (rewrite length_take; lia).
  rewrite out_ethernet_addrs by (first [exact H12 | rewrite <- E; by apply slice_bytes]).
  rewrite <- !app_assoc. do 2 f_equal.
  transitivity (drop 12 (slice 0 14 data) ++ slice 14 (n - 14) data ++ drop n data).
  - rewrite E, drop_app_length' by (symmetry; exact H12). done.
  - unfold slice. rewrite drop_0.
    replace n with (14 + (n - 14))%nat at 2 by lia.
    rewrite <- drop_drop, take_drop, skipn_firstn_comm.
    change (14 - 12)%nat with 2%nat. change (drop 14 data) with (drop (12 + 2) data).
    by rewrite <- drop_drop, take_drop.
Qed.

Lemma bytes_of_with_macs macs ip payload data dst src :
  is_ipv4_frame macs ip payload data -> bytes data ->
  let h := with_macs dst src (frame_headers macs ip) in
  let macs' := take 6 (host_bytes 8 dst) ++ take 6 (host_bytes 8 src) in
  bytes_of h ++ payload = ipv4_frame macs' ip payload /\ length (bytes_of h) = 34%nat.
Proof.
  intros Hf Hb. destruct (frame_parts _ _ _ _ Hf Hb) as (Hbe & Hbi & _).
  destruct Hf as (-> & Hm & Hi). cbn zeta. unfold bytes_of, with_macs, frame_headers.
  change (out_ethernet _) with (out_ethernet
    { (ethernet_of_bytes (macs ++ [8; 0])) with eth_dstAddr := dst; eth_srcAddr := src }).
  change (out_ipv4 _) with (out_ipv4 (ipv4_of_bytes ip)).
  rewrite out_ethernet_addrs, out_ipv4_valid, ipv4_to_of_bytes
    by first [done | by apply ipv4_of_bytes_valid].
  split; [unfold ipv4_frame; by rewrite <- !app_assoc|].
  by rewrite !length_app, !length_take, !length_host_bytes, Hi.
Qed.
End Frames.
