(* ===== verification/SimpleL3.v ===== *)
(** The next-hop switch for TCP (simple/simple_l3/generated): the parser of
    simple_l3_parser.c and the control block of simple_l3_control_blocks.c.

    Frames of another type and IPv4 packets of another protocol are dropped by
    the parser; a frame that ends inside its IPv4 header is not, and goes to
    the kernel.  For TCP packets table [ingress.nh_table] gives the egress port and both MAC
    addresses by destination address. *)

From S2P Require Import Prelude CInt Memory Pna P4Spec Pipeline Steps Headers Deparse Chain Samples Ingress.

(** ** The parser (simple_l3_parser.c) *)

Section Parser.
Context `{BO : ByteOrder}.

Definition parse_ipv4 : P my_ingress_headers_t unit :=
  hdr <- get_hdr ;;
  ip <- extract_ipv4 (ipv4 hdr) ;;
  set_hdr { hdr with ipv4 := ip } ;;
  if ip_protocol ip =? 0x6 then accept else exit reject.

Definition start : P my_ingress_headers_t unit :=
  hdr <- get_hdr ;;
  eth <- extract_ethernet (ethernet hdr) ;;
  set_hdr { hdr with ethernet := eth } ;;
  if eth_etherType eth =? 0x800 then parse_ipv4 else exit reject.

Definition run_parser `{K : P4tcKernel} (w : world my_ingress_headers_t my_ingress_metadata_t) :=
  run_parser_frame headers0 metadata0 start w.

Definition tc_parse_func `{K : P4tcKernel} (w : world my_ingress_headers_t my_ingress_metadata_t) :=
  tc_parse_frame run_parser w.
End Parser.

(** ** The table (simple_l3_control_blocks.c) *)

Definition INGRESS_NH_TABLE_ACT_INGRESS_SEND_NH : Z := 1.
Definition INGRESS_NH_TABLE_ACT_INGRESS_DROP : Z := 2.
Definition INGRESS_NH_TABLE_ACT_NOACTION : Z := 0.

Section Control.
Context `{BO : ByteOrder} `{K : P4tcKernel} (filter : p4tc_filter_fields).

(** [struct ingress_nh_table_key] *)
Definition ingress_nh_table_key (keysz maskid field0 : Z) : list Z :=
  pad8 (host_bytes 4 keysz ++ host_bytes 4 maskid ++ host_bytes 4 field0).

Definition nh_table_params : p4tc_table_entry_act_bpf_params__local :=
  {| params_pipeid := ff_pipeid filter; params_tblid := 1 |}.

(** [value->u.ingress_send_nh] *)
Definition send_nh_port (value : p4tc_table_entry_act_bpf) : ingress_X Z := value_field value 0 4.
Definition send_nh_srcMac (value : p4tc_table_entry_act_bpf) : ingress_X Z := value_field value 4 8.
Definition send_nh_dstMac (value : p4tc_table_entry_act_bpf) : ingress_X Z := value_field value 12 8.

Definition ingress_send_nh (value : p4tc_table_entry_act_bpf) : ingress_X unit :=
  hdr <- get_headers ;;
  srcMac <- send_nh_srcMac value ;;
  set_headers { hdr with ethernet -> eth_srcAddr := srcMac } ;;
  hdr <- get_headers ;;
  dstMac <- send_nh_dstMac value ;;
  set_headers { hdr with ethernet -> eth_dstAddr := dstMac } ;;
  port <- send_nh_port value ;;
  do_send_to_port port.

(** [nh_table_0.apply()] *)
Definition nh_table_apply : ingress_X unit :=
  hdr <- get_headers ;;
  act_bpf <- tbl_read nh_table_params (ingress_nh_table_key 32 0 (ip_dstAddr (ipv4 hdr))) ;;
  match act_bpf with
  | None => ret tt
  | Some value =>
    if act_id value =? INGRESS_NH_TABLE_ACT_INGRESS_SEND_NH then ingress_send_nh value
    else if act_id value =? INGRESS_NH_TABLE_ACT_INGRESS_DROP then do_drop_packet
    else ret tt
  end.

(** The control [ingress]. *)
Definition ingress_control : ingress_X unit :=
  hdr <- get_headers ;;
  when (is_valid (ip_valid (ipv4 hdr)) && (ip_protocol (ipv4 hdr) =? 0x6)) nh_table_apply.

(** ** The deparser *)

Definition outHeaderLength (hdr : my_ingress_headers_t) : Z :=
  (if is_valid (eth_valid (ethernet hdr)) then 112 else 0)
  + (if is_valid (ip_valid (ipv4 hdr)) then 160 else 0).

Definition deparse_hdr_ethernet : ingress_X unit := emit_ethernet_block ethernet set_ethernet.
Definition deparse_hdr_ipv4 : ingress_X unit := emit_ipv4_block ipv4 set_ipv4.

Definition deparser (hdr_start : Z) : ingress_X unit :=
  make_room outHeaderLength hdr_start ;;
  deparse_hdr_ethernet ;;
  deparse_hdr_ipv4.

Definition simple_l3_body (hdr_start : Z) : ingress_X unit :=
  ingress_control ;;
  deparser hdr_start.

Definition process (w : world my_ingress_headers_t my_ingress_metadata_t) :=
  process_frame simple_l3_body w.

Definition tc_ingress_func (w : world my_ingress_headers_t my_ingress_metadata_t) :=
  tc_ingress_frame process w.

(** The pipeline as the filter runs it. *)
Definition simple_l3 (w : world my_ingress_headers_t my_ingress_metadata_t) :=
  tc_chain tc_parse_func tc_ingress_func w.
End Control.

(** ** What the program does *)

Section Spec.
Context `{BO : ByteOrder} `{K : P4tcKernel} `{!P4tcKernelOk K} (filter : p4tc_filter_fields).
Implicit Types (h : my_ingress_headers_t).

(** The P4 parser. *)
Definition simple_l3_parse (data : list Z) : verdict * my_ingress_headers_t * nat :=
  if (length data <? 14)%nat then (TooShort, headers0, 0%nat) else
  let eth := ethernet_of_bytes (slice 0 14 data) in
  if negb (eth_etherType eth =? 0x800)
  then (Rejected, Build_my_ingress_headers_t eth ipv4_0, 14%nat) else
  if (length data <? 34)%nat then (TooShort, Build_my_ingress_headers_t eth ipv4_0, 14%nat) else
  let ip := ipv4_of_bytes (slice 14 20 data) in
  (if ip_protocol ip =? 6 then Accepted else Rejected, Build_my_ingress_headers_t eth ip, 34%nat).

(** A row of the table. *)
Inductive action := SendNh (port srcMac dstMac : Z) | Drop | NoAction.

Definition nh_action (act_bpf : option p4tc_table_entry_act_bpf) : action :=
  match act_bpf with
  | None => NoAction
  | Some value =>
    if act_id value =? 1 then SendNh (param value 0 4) (param value 4 8) (param value 12 8)
    else if act_id value =? 2 then Drop else NoAction
  end.

Definition nh_lookup (k : kstate) (skb : sk_buff) (dst : Z) : option p4tc_table_entry_act_bpf :=
  bpf_p4tc_tbl_read k skb (nh_table_params filter) (ingress_nh_table_key 32 0 dst).

Definition simple_l3_control (k : kstate) (skb : sk_buff) h
  : option (my_ingress_headers_t * Z * kstate) :=
  if is_valid (ip_valid (ipv4 h)) && (ip_protocol (ipv4 h) =? 6) then
    match nh_action (nh_lookup k skb (ip_dstAddr (ipv4 h))) with
    | SendNh port srcMac dstMac => Some (with_macs dstMac srcMac h, port, k)
    | Drop => None
    | NoAction => Some (h, 0, k)
    end
  else Some (h, 0, k).

Lemma simple_l3_start data :
  bytes data -> small data ->
  start (at_pos NoError headers0 data 0)
  = let '(v, h, n) := simple_l3_parse data in parser_outcome v h data n.
Proof.
  intros Hb Hs. unfold start, simple_l3_parse.
  rewrite (bind_Ret _ _ _ _ _ (get_hdr_at _ _ _ _)). unfold bind at 1.
  cbn [ethernet headers0]. rewrite extract_ethernet_at, ltb_drop by (done || lia).
  cbn [Nat.add]. destruct (Nat.ltb_spec (length data) 14) as [|H14]; [done|].
  rewrite (bind_Ret _ _ _ _ _ (set_hdr_at _ _ _ _ _)). cbv zeta.
  destruct (_ =? 0x800); cbn [negb]; [|done].
  unfold parse_ipv4. rewrite (bind_Ret _ _ _ _ _ (get_hdr_at _ _ _ _)). unfold bind at 1.
  rewrite extract_ipv4_at, ltb_drop by done. cbn [Nat.add].
  destruct (length data <? 34)%nat; [done|].
  rewrite (bind_Ret _ _ _ _ _ (set_hdr_at _ _ _ _ _)). by destruct (_ =? 6).
Qed.

Lemma simple_l3_apply (s : xstate my_ingress_headers_t my_ingress_metadata_t) h u m :
  nh_table_apply filter (put s h u m)
  = Ret tt (match nh_action (nh_lookup (x_kern s) (x_skb s) (ip_dstAddr (ipv4 h))) with
            | SendNh port srcMac dstMac => put s (with_macs dstMac srcMac h) u (to_port port m)
            | Drop => put s h u (drop_packet m)
            | NoAction => put s h u m
            end).
Proof.
  unfold nh_table_apply, nh_lookup. xstep. rewrite tbl_read_put.
  destruct (bpf_p4tc_tbl_read _ _ _ _) as [value|] eqn:E; [|done].
  apply tbl_read_wf in E. unfold nh_action, INGRESS_NH_TABLE_ACT_INGRESS_SEND_NH,
    INGRESS_NH_TABLE_ACT_INGRESS_DROP.
  destruct (act_id value =? 1); [|destruct (act_id value =? 2)].
  - unfold ingress_send_nh, send_nh_srcMac, send_nh_dstMac, send_nh_port. by repeat xstep.
  - by xstep.
  - done.
Qed.

Lemma simple_l3_ok :
  program_ok headers0 metadata0 start (ingress_control filter) outHeaderLength
    (deparse_hdr_ethernet ;; deparse_hdr_ipv4) wf_both bytes_of mods_both
    simple_l3_parse simple_l3_control.
Proof.
  split.
  - exact simple_l3_start.
  - exact emits_both.
  - exact BYTES_bits_of.
  - intros data Hb H14. unfold simple_l3_parse.
    destruct (Nat.ltb_spec (length data) 14); [lia|]. cbv zeta.
    pose proof (sendable_ethernet data Hb H14) as Hse.
    destruct (negb _); [split; [exact Hse|lia]|].
    destruct (Nat.ltb_spec (length data) 34); [split; [exact Hse|lia]|].
    split; [exact (sendable_ipv4 data Hb ltac:(lia))|lia].
  - intros k skb h h' port k' Hh. unfold simple_l3_control.
    destruct (_ && _); [|by intros [= <- <- <-]].
    destruct (nh_action _); [|done|by intros [= <- <- <-]].
    intros [= <- <- <-]. exact (sendable_with_macs _ _ _ Hh).
  - intros k skb skb' h Hi. unfold simple_l3_control, nh_lookup.
    by rewrite (tbl_read_dev k skb skb').
  - intros s h m Hd Hp. unfold ingress_control, simple_l3_control, when. xstep.
    destruct (_ && _); [|by eexists _, _].
    rewrite simple_l3_apply. destruct (nh_action _); by eexists _, _ || eexists _.
Qed.

Definition simple_l3_spec : kstate -> sk_buff -> behaviour :=
  program_spec bytes_of simple_l3_parse simple_l3_control.

#[export] Instance simple_l3_implements : Implements (simple_l3 filter) simple_l3_spec.
Proof. intros w Ha. exact (program_run _ _ _ _ _ _ _ _ _ _ _ w simple_l3_ok Ha). Qed.
End Spec.

(** ** Forwarding, end to end *)

Section EndToEnd.
Context `{BO : ByteOrder} `{K : P4tcKernel} `{!P4tcKernelOk K} (filter : p4tc_filter_fields).
Implicit Types (w : world my_ingress_headers_t my_ingress_metadata_t) (macs ip payload : list Z).

Lemma simple_l3_parse_frame macs ip payload data :
  is_ipv4_frame macs ip payload data -> bytes data ->
  simple_l3_parse data
  = (if nth 9 ip 0 =? 6 then Accepted else Rejected, frame_headers macs ip, 34%nat).
Proof.
  intros Hf Hb. destruct (frame_slices _ _ _ _ Hf) as (Hl & He & Hi & _).
  destruct (frame_parts _ _ _ _ Hf Hb) as (Hbe & Hbi & _). destruct Hf as (_ & Hm & Hli).
  unfold simple_l3_parse. rewrite Hl, He, Hi, (etherType_frame macs Hm Hbe). cbn [negb]. cbv zeta.
  destruct (Nat.ltb_spec (34 + length payload) 14); [lia|].
  destruct (Nat.ltb_spec (34 + length payload) 34); [lia|].
  by rewrite protocol_of_bytes.
Qed.

Lemma simple_l3_spec_frame w macs ip payload :
  arrives w -> is_ipv4_frame macs ip payload (skb_data (w_skb w)) ->
  simple_l3_spec filter (w_kern w) (w_skb w)
  = if nth 9 ip 0 =? 6 then
      match nh_action (nh_lookup filter (w_kern w) (w_skb w) (host_val (slice 16 4 ip))) with
      | SendNh port srcMac dstMac =>
        Send port (ipv4_frame (take 6 (host_bytes 8 dstMac) ++ take 6 (host_bytes 8 srcMac)) ip payload)
          0 (w_kern w)
      | Drop => Discard
      | NoAction => Send 0 (skb_data (w_skb w)) 0 (w_kern w)
      end
    else Discard.
Proof.
  intros Ha Hf. pose proof (arr_bytes w Ha) as Hb.
  destruct (frame_bytes w _ _ _ Ha Hf) as [Hl Hbi]. destruct (frame_slices _ _ _ _ Hf) as (_ & _ & _ & Hd).
  unfold simple_l3_spec, program_spec. rewrite (simple_l3_parse_frame _ _ _ _ Hf Hb).
  destruct (nth 9 ip 0 =? 6) eqn:E6; [|done]. unfold simple_l3_control.
  change (ipv4 (frame_headers macs ip)) with (ipv4_of_bytes ip).
  rewrite ipv4_of_bytes_valid, protocol_of_bytes, E6, dstAddr_of_bytes by assumption.
  change (is_valid 1 && true) with true. cbv iota. rewrite Hd.
  destruct (nh_action _) as [port srcMac dstMac| |]; [|done|].
  - destruct (bytes_of_with_macs _ _ _ _ dstMac srcMac Hf Hb) as [-> ->]. done.
  - destruct (bytes_of_frame _ _ _ _ Hf Hb) as [-> ->]. done.
Qed.

(** C19: a TCP packet whose destination address has an entry leaves through
    the entry's port with the entry's two MAC addresses; from the EtherType on
    not a byte of it changes. *)
Theorem simple_l3_forwards w macs ip payload value :
  arrives w -> is_ipv4_frame macs ip payload (skb_data (w_skb w)) -> nth 9 ip 0 = 6 ->
  nh_lookup filter (w_kern w) (w_skb w) (host_val (slice 16 4 ip)) = Some value ->
  act_id value = INGRESS_NH_TABLE_ACT_INGRESS_SEND_NH ->
  delivered (param value 0 4) (skb_ifindex (w_skb w))
    (ipv4_frame (slice 12 6 (act_params value) ++ slice 4 6 (act_params value)) ip payload)
    (w_kern w) (simple_l3 filter w).
Proof.
  intros Ha Hf Hp El Ea. pose proof El as Hv. apply tbl_read_wf in Hv.
  rewrite <- !param_mac by (done || lia).
  apply (implements_send (simple_l3 filter) (simple_l3_spec filter) w _ _ 0); [exact Ha| |by left].
  rewrite (simple_l3_spec_frame w macs ip payload Ha Hf), Hp, El. unfold nh_action. by rewrite Ea.
Qed.

(** C35: frames of another type, frames with a complete IPv4 header of another
    protocol, and TCP packets to a destination for which the answer to the
    lookup is the drop action are dropped.  (Frames that end inside their IPv4
    header are not: see [simple_l3_passes].) *)
Theorem simple_l3_drops w :
  arrives w ->
  let data := skb_data (w_skb w) in
  nth 12 data 0 * 256 + nth 13 data 0 <> 0x800 \/
  (exists macs ip payload, is_ipv4_frame macs ip payload data /\
     (nth 9 ip 0 <> 6 \/
      nh_action (nh_lookup filter (w_kern w) (w_skb w) (host_val (slice 16 4 ip))) = Drop)) ->
  shot (simple_l3 filter w).
Proof.
  intros Ha data Hd.
  apply (implements_discard (simple_l3 filter) (simple_l3_spec filter)); [exact Ha|].
  destruct Hd as [Hd|(macs & ip & payload & Hf & Hd)].
  - pose proof (arr_eth w Ha) as H14. unfold simple_l3_spec, program_spec, simple_l3_parse.
    fold data in H14 |- *. destruct (Nat.ltb_spec (length data) 14); [lia|]. cbv zeta.
    rewrite etherType_of_slice by (done || apply (arr_bytes w Ha)).
    by destruct (Z.eqb_spec (nth 12 data 0 * 256 + nth 13 data 0) 0x800).
  - rewrite (simple_l3_spec_frame w macs ip payload Ha Hf).
    destruct (Z.eqb_spec (nth 9 ip 0) 6) as [E|E]; [|done].
    destruct Hd as [Hd|Hd]; [done|by rewrite Hd].
Qed.

(** C36: a TCP packet for whose destination the kernel's lookup returns no
    value, or one whose action is NoAction, is not dropped by the program, and
    neither is a frame of the IPv4 type that ends before its IPv4 header does,
    whatever the table: they reach the kernel's receive path byte for byte as
    they arrived.  (A default action of the table drops the packet only if the
    lookup answers with it, which is [simple_l3_drops].) *)
Theorem simple_l3_passes w :
  arrives w ->
  let data := skb_data (w_skb w) in
  nth 12 data 0 * 256 + nth 13 data 0 = 0x800 ->
  (length data < 34)%nat \/
  (exists macs ip payload, is_ipv4_frame macs ip payload data /\ nth 9 ip 0 = 6 /\
     nh_action (nh_lookup filter (w_kern w) (w_skb w) (host_val (slice 16 4 ip))) = NoAction) ->
  delivered 0 (skb_ifindex (w_skb w)) data (w_kern w) (simple_l3 filter w).
Proof.
  intros Ha data Ht Hd.
  apply (implements_send (simple_l3 filter) (simple_l3_spec filter) w _ _ 0); [exact Ha| |by left].
  destruct Hd as [Hd|(macs & ip & payload & Hf & Hp & El)].
  - pose proof (arr_eth w Ha) as H14. pose proof (arr_bytes w Ha) as Hb.
    unfold simple_l3_spec, program_spec, simple_l3_parse.
    fold data in H14, Hb |- *. destruct (Nat.ltb_spec (length data) 14); [lia|]. cbv zeta.
    rewrite etherType_of_slice, Ht by done. cbn [negb Z.eqb Pos.eqb].
    destruct (Nat.ltb_spec (length data) 34); [|lia]. unfold simple_l3_control.
    change (is_valid (ip_valid _)) with false. cbn [andb]. cbv iota.
    unfold bytes_of. cbn [ethernet ipv4]. rewrite out_ipv4_invalid, app_nil_r by done.
    destruct (out_ethernet_same data H14 Hb) as [Ed El]. by rewrite Ed, El.
  - by rewrite (simple_l3_spec_frame w macs ip payload Ha Hf), Hp, El.
Qed.

(** Every access of the switch is inside the packet. *)
Theorem simple_l3_total w : arrives w -> exists r w', simple_l3 filter w = Some (r, w').
Proof. apply (implements_total (simple_l3 filter) (simple_l3_spec filter)). Qed.
End EndToEnd.

(** ** The theorems at concrete packets *)

Section Witnesses.
Definition l3_world (rows : list table_row) (data : list Z)
  : world my_ingress_headers_t my_ingress_metadata_t :=
  sample_world headers0 metadata0 rows data.

(** A TCP packet to 10.0.0.2, and the row for that address. *)
Definition tcp_ip : list Z := [69; 0; 0; 28; 0; 1; 0; 0; 64; 6; 102; 217; 10; 0; 0; 1; 10; 0; 0; 2].
Definition tcp_frame : list Z := ipv4_frame sample_macs tcp_ip sample_payload.
Definition sample_nh : table_row :=
  (1, ingress_nh_table_key 32 0 (host_val [10; 0; 0; 2]),
   sample_value 1 [6; 0; 0; 0; 2; 0; 0; 0; 0; 8; 0; 0; 2; 0; 0; 0; 0; 9; 0; 0]).

Lemma simple_l3_forwards_witness :
  delivered 6 2
    (ipv4_frame [2; 0; 0; 0; 0; 9; 2; 0; 0; 0; 0; 8] tcp_ip sample_payload)
    [sample_nh] (simple_l3 sample_filter (l3_world [sample_nh] tcp_frame)).
Proof.
  refine (simple_l3_forwards sample_filter (l3_world [sample_nh] tcp_frame)
    sample_macs tcp_ip sample_payload sample_nh.2 _ _ _ _ _); sample_tac.
Defined.

Lemma simple_l3_drops_witness :
  shot (simple_l3 sample_filter (l3_world [sample_nh] sample_frame)) /\
  shot (simple_l3 sample_filter (l3_world [] (replicate 60 1))).
Proof.
  split.
  - apply simple_l3_drops; [sample_tac|]. right. exists sample_macs, sample_ip, sample_payload.
    split; [sample_tac|]. left. sample_tac.
  - apply simple_l3_drops; [sample_tac|]. left. sample_tac.
Defined.

Lemma simple_l3_passes_witness :
  delivered 0 2 tcp_frame [] (simple_l3 sample_filter (l3_world [] tcp_frame)) /\
  delivered 0 2 (take 20 tcp_frame) [] (simple_l3 sample_filter (l3_world [] (take 20 tcp_frame))).
Proof.
  split.
  - apply (simple_l3_passes sample_filter (l3_world [] tcp_frame)); [sample_tac|reflexivity|].
    right. exists sample_macs, tcp_ip, sample_payload.
    split; [sample_tac|]. split; [reflexivity|reflexivity].
  - apply (simple_l3_passes sample_filter (l3_world [] (take 20 tcp_frame)));
      [sample_tac|reflexivity|]. left. sample_tac.
Defined.

Lemma simple_l3_total_witness :
  exists r w', simple_l3 sample_filter (l3_world [] (replicate 30 8)) = Some (r, w').
Proof. apply simple_l3_total. sample_tac. Defined.
End Witnesses.
