(* ===== verification/RedirectL2.v ===== *)
(** The L2 redirector (simple/redirect_l2/generated): the parser of
    redirect_l2_parser.c and the control block of
    redirect_l2_control_blocks.c.

    Table [ingress.nh_table] gives the egress port and both MAC addresses of
    an IPv4 packet by its source address.  The table is applied to every
    packet the parser lets through; a packet whose IPv4 header was not
    extracted is looked up with the zero address of the cleared struct. *)

From S2P Require Import Prelude CInt Memory Pna P4Spec Pipeline Steps Headers Deparse Chain Samples Ingress.

(** ** The parser (redirect_l2_parser.c) *)

Section Parser.
Context `{BO : ByteOrder}.

Definition parse_ipv4 : P my_ingress_headers_t unit :=
  hdr <- get_hdr ;;
  ip <- extract_ipv4 (ipv4 hdr) ;;
  set_hdr { hdr with ipv4 := ip } ;;
  accept.

Definition start : P my_ingress_headers_t unit :=
  hdr <- get_hdr ;;
  eth <- extract_ethernet (ethernet hdr) ;;
  set_hdr { hdr with ethernet := eth } ;;
  if eth_etherType eth =? 0x800 then parse_ipv4 else exit reject.

Definition run_parser `{K : P4tcKernel} (w : world my_ingress_headers_t my_ingress_metadata_t) :=
  run_parser_frame headers0 metadata0 start w.

Definition tc_parse_func `{K : P4tcKernel} (w : world my_ingress_headers_t my_ingress_metadata_t) :=
  tc_parse_frame run_parser w.
End Parser.

(** ** The table (redirect_l2_control_blocks.c) *)

Definition INGRESS_NH_TABLE_ACT_INGRESS_SEND_NH : Z := 1.
Definition INGRESS_NH_TABLE_ACT__NOACTION : Z := 0.

Section Control.
Context `{BO : ByteOrder} `{K : P4tcKernel} (filter : p4tc_filter_fields).

(** [struct ingress_nh_table_key] *)
Definition ingress_nh_table_key (keysz maskid field0 : Z) : list Z :=
  pad8 (host_bytes 4 keysz ++ host_bytes 4 maskid ++ host_bytes 4 field0).

Definition nh_table_params : p4tc_table_entry_act_bpf_params__local :=
  {| params_pipeid := ff_pipeid filter; params_tblid := 1 |}.

(** [value->u.ingress_send_nh] *)
Definition send_nh_port_id (value : p4tc_table_entry_act_bpf) : ingress_X Z := value_field value 0 4.
Definition send_nh_dmac (value : p4tc_table_entry_act_bpf) : ingress_X Z := value_field value 4 8.
Definition send_nh_smac (value : p4tc_table_entry_act_bpf) : ingress_X Z := value_field value 12 8.

Definition ingress_send_nh (value : p4tc_table_entry_act_bpf) : ingress_X unit :=
  hdr <- get_headers ;;
  smac <- send_nh_smac value ;;
  set_headers { hdr with ethernet -> eth_srcAddr := smac } ;;
  hdr <- get_headers ;;
  dmac <- send_nh_dmac value ;;
  set_headers { hdr with ethernet -> eth_dstAddr := dmac } ;;
  port <- send_nh_port_id value ;;
  do_send_to_port port.

(** [nh_table_0.apply()], the whole control [ingress]. *)
Definition ingress_control : ingress_X unit :=
  hdr <- get_headers ;;
  act_bpf <- tbl_read nh_table_params (ingress_nh_table_key 32 0 (ip_srcAddr (ipv4 hdr))) ;;
  match act_bpf with
  | None => ret tt
  | Some value =>
    if act_id value =? INGRESS_NH_TABLE_ACT_INGRESS_SEND_NH then ingress_send_nh value else ret tt
  end.

(** ** The deparser *)

Definition outHeaderLength (hdr : my_ingress_headers_t) : Z :=
  (if is_valid (eth_valid (ethernet hdr)) then 112 else 0)
  + (if is_valid (ip_valid (ipv4 hdr)) then 160 else 0).

Definition deparse_hdr_ethernet : ingress_X unit := emit_ethernet_block ethernet set_ethernet.
Definition deparse_hdr_ipv4 : ingress_X unit := emit_ipv4_block ipv4 set_ipv4.

Definition deparser (hdr_start : Z) : ingress_X unit :=
  make_room outHeaderLength hdr_start ;;
  deparse_hdr_ethernet ;;
  deparse_hdr_ipv4.

Definition redirect_l2_body (hdr_start : Z) : ingress_X unit :=
  ingress_control ;;
  deparser hdr_start.

Definition process (w : world my_ingress_headers_t my_ingress_metadata_t) :=
  process_frame redirect_l2_body w.

Definition tc_ingress_func (w : world my_ingress_headers_t my_ingress_metadata_t) :=
  tc_ingress_frame process w.

(** The pipeline as the filter runs it. *)
Definition redirect_l2 (w : world my_ingress_headers_t my_ingress_metadata_t) :=
  tc_chain tc_parse_func tc_ingress_func w.
End Control.

(** ** What the program does *)

Section Spec.
Context `{BO : ByteOrder} `{K : P4tcKernel} `{!P4tcKernelOk K} (filter : p4tc_filter_fields).
Implicit Types (h : my_ingress_headers_t).

(** The P4 parser. *)
Definition redirect_l2_parse (data : list Z) : verdict * my_ingress_headers_t * nat :=
  if (length data <? 14)%nat then (TooShort, headers0, 0%nat) else
  let eth := ethernet_of_bytes (slice 0 14 data) in
  let h := Build_my_ingress_headers_t eth ipv4_0 in
  if negb (eth_etherType eth =? 0x800) then (Rejected, h, 14%nat) else
  if (length data <? 34)%nat then (TooShort, h, 14%nat) else
  (Accepted, { h with ipv4 := ipv4_of_bytes (slice 14 20 data) }, 34%nat).

(** A row of the table. *)
Inductive action := SendNh (port dmac smac : Z) | NoAction.

Definition nh_action (act_bpf : option p4tc_table_entry_act_bpf) : action :=
  match act_bpf with
  | None => NoAction
  | Some value =>
    if act_id value =? 1 then SendNh (param value 0 4) (param value 4 8) (param value 12 8)
    else NoAction
  end.

Definition nh_lookup (k : kstate) (skb : sk_buff) (src : Z) : option p4tc_table_entry_act_bpf :=
  bpf_p4tc_tbl_read k skb (nh_table_params filter) (ingress_nh_table_key 32 0 src).

Definition redirect_l2_control (k : kstate) (skb : sk_buff) h
  : option (my_ingress_headers_t * Z * kstate) :=
  match nh_action (nh_lookup k skb (ip_srcAddr (ipv4 h))) with
  | SendNh port dmac smac => Some (with_macs dmac smac h, port, k)
  | NoAction => Some (h, 0, k)
  end.

Lemma redirect_l2_start data :
  bytes data -> small data ->
  start (at_pos NoError headers0 data 0)
  = let '(v, h, n) := redirect_l2_parse data in parser_outcome v h data n.
Proof.
  intros Hb Hs. unfold start, redirect_l2_parse.
  rewrite (bind_Ret _ _ _ _ _ (get_hdr_at _ _ _ _)). unfold bind at 1.
  cbn [ethernet headers0]. rewrite extract_ethernet_at, ltb_drop by (done || lia).
  cbn [Nat.add]. destruct (Nat.ltb_spec (length data) 14) as [|H14]; [done|].
  rewrite (bind_Ret _ _ _ _ _ (set_hdr_at _ _ _ _ _)). cbv zeta.
  destruct (_ =? 0x800); cbn [negb]; [|done].
  unfold parse_ipv4. rewrite (bind_Ret _ _ _ _ _ (get_hdr_at _ _ _ _)). unfold bind at 1.
  rewrite extract_ipv4_at, ltb_drop by done. cbn [Nat.add].
  by destruct (length data <? 34)%nat.
Qed.

Lemma redirect_l2_apply (s : xstate my_ingress_headers_t my_ingress_metadata_t) h u m :
  ingress_control filter (put s h u m)
  = Ret tt (match nh_action (nh_lookup (x_kern s) (x_skb s) (ip_srcAddr (ipv4 h))) with
            | SendNh port dmac smac => put s (with_macs dmac smac h) u (to_port port m)
            | NoAction => put s h u m
            end).
Proof.
  unfold ingress_control, nh_lookup. xstep. rewrite tbl_read_put.
  destruct (bpf_p4tc_tbl_read _ _ _ _) as [value|] eqn:E; [|done].
  apply tbl_read_wf in E. unfold nh_action, INGRESS_NH_TABLE_ACT_INGRESS_SEND_NH.
  destruct (act_id value =? 1); [|done].
  unfold ingress_send_nh, send_nh_smac, send_nh_dmac, send_nh_port_id. by repeat xstep.
Qed.

Lemma redirect_l2_ok :
  program_ok headers0 metadata0 start (ingress_control filter) outHeaderLength
    (deparse_hdr_ethernet ;; deparse_hdr_ipv4) wf_both bytes_of mods_both
    redirect_l2_parse redirect_l2_control.
Proof.
  split.
  - exact redirect_l2_start.
  - exact emits_both.
  - exact BYTES_bits_of.
  - intros data Hb H14. unfold redirect_l2_parse.
    destruct (Nat.ltb_spec (length data) 14); [lia|]. cbv zeta.
    pose proof (sendable_ethernet data Hb H14) as Hse.
    destruct (negb _); [split; [exact Hse|lia]|].
    destruct (Nat.ltb_spec (length data) 34); [split; [exact Hse|lia]|].
    split; [exact (sendable_ipv4 data Hb ltac:(lia))|lia].
  - intros k skb h h' port k' Hh. unfold redirect_l2_control.
    destruct (nh_action _); intros [= <- <- <-]; [exact (sendable_with_macs _ _ _ Hh)|exact Hh].
  - intros k skb skb' h Hi. unfold redirect_l2_control, nh_lookup.
    by rewrite (tbl_read_dev k skb skb').
  - intros s h m Hd Hp. unfold redirect_l2_control. rewrite redirect_l2_apply.
    destruct (nh_action _); by eexists _, _.
Qed.

Definition redirect_l2_spec : kstate -> sk_buff -> behaviour :=
  program_spec bytes_of redirect_l2_parse redirect_l2_control.

#[export] Instance redirect_l2_implements : Implements (redirect_l2 filter) redirect_l2_spec.
Proof. intros w Ha. exact (program_run _ _ _ _ _ _ _ _ _ _ _ w redirect_l2_ok Ha). Qed.
End Spec.

(** ** Redirection, end to end *)

Section EndToEnd.
Context `{BO : ByteOrder} `{K : P4tcKernel} `{!P4tcKernelOk K} (filter : p4tc_filter_fields).
Implicit Types (w : world my_ingress_headers_t my_ingress_metadata_t) (macs ip payload : list Z).

Lemma redirect_l2_parse_frame macs ip payload data :
  is_ipv4_frame macs ip payload data -> bytes data ->
  redirect_l2_parse data = (Accepted, frame_headers macs ip, 34%nat).
Proof.
  intros Hf Hb. destruct (frame_slices _ _ _ _ Hf) as (Hl & He & Hi & _).
  destruct (frame_parts _ _ _ _ Hf Hb) as (Hbe & _). destruct Hf as (_ & Hm & _).
  unfold redirect_l2_parse. rewrite Hl, He, Hi, (etherType_frame macs Hm Hbe). cbn [negb]. cbv zeta.
  destruct (Nat.ltb_spec (34 + length payload) 14); [lia|].
  by destruct (Nat.ltb_spec (34 + length payload) 34); [lia|].
Qed.

Lemma redirect_l2_spec_frame w macs ip payload :
  arrives w -> is_ipv4_frame macs ip payload (skb_data (w_skb w)) ->
  redirect_l2_spec filter (w_kern w) (w_skb w)
  = match nh_action (nh_lookup filter (w_kern w) (w_skb w) (host_val (slice 12 4 ip))) with
    | SendNh port dmac smac =>
      Send port (ipv4_frame (take 6 (host_bytes 8 dmac) ++ take 6 (host_bytes 8 smac)) ip payload)
        0 (w_kern w)
    | NoAction => Send 0 (skb_data (w_skb w)) 0 (w_kern w)
    end.
Proof.
  intros Ha Hf. pose proof (arr_bytes w Ha) as Hb.
  destruct (frame_bytes w _ _ _ Ha Hf) as [Hl Hbi].
  destruct (frame_slices _ _ _ _ Hf) as (_ & _ & _ & Hd).
  unfold redirect_l2_spec, program_spec. rewrite (redirect_l2_parse_frame _ _ _ _ Hf Hb).
  unfold redirect_l2_control. change (ipv4 (frame_headers macs ip)) with (ipv4_of_bytes ip).
  rewrite srcAddr_of_bytes, Hd by assumption.
  destruct (nh_action _) as [port dmac smac|].
  - destruct (bytes_of_with_macs _ _ _ _ dmac smac Hf Hb) as [-> ->]. done.
  - destruct (bytes_of_frame _ _ _ _ Hf Hb) as [-> ->]. done.
Qed.

(** What becomes of a frame of type 0x800. *)
Lemma redirect_l2_send w :
  arrives w ->
  let data := skb_data (w_skb w) in
  nth 12 data 0 * 256 + nth 13 data 0 = 0x800 ->
  exists port macs, length macs = 12%nat /\
    redirect_l2_spec filter (w_kern w) (w_skb w) = Send port (macs ++ drop 12 data) 0 (w_kern w).
Proof.
  intros Ha data Ht. pose proof (arr_eth w Ha) as H14. pose proof (arr_bytes w Ha) as Hb.
  fold data in H14, Hb. pose proof (etherType_of_slice data H14 Hb) as He. rewrite Ht in He.
  assert (Hout : exists n i, (14 <= n <= length data)%nat /\ out_ipv4 i = slice 14 (n - 14) data /\
    exists v, v <> Rejected /\ redirect_l2_parse data
      = (v, Build_my_ingress_headers_t (ethernet_of_bytes (slice 0 14 data)) i, n)).
  { unfold redirect_l2_parse. destruct (Nat.ltb_spec (length data) 14); [lia|]. cbv zeta.
    rewrite He. destruct (Nat.ltb_spec (length data) 34).
    - exists 14%nat, ipv4_0. split; [lia|]. split; [done|]. by exists TooShort.
    - exists 34%nat, (ipv4_of_bytes (slice 14 20 data)). split; [lia|]. split; [|by exists Accepted].
      assert (Hl : length (slice 14 20 data) = 20%nat) by (by apply length_slice).
      assert (Hbs : bytes (slice 14 20 data)) by by apply slice_bytes.
      rewrite out_ipv4_valid, ipv4_to_of_bytes by first [done | by apply ipv4_of_bytes_valid]. done. }
  destruct Hout as (n & i & Hn & Hi & v & Hv & Ep).
  unfold redirect_l2_spec, program_spec. fold data. rewrite Ep.
  replace (match v with Rejected => _ | _ => _ end)
    with (match redirect_l2_control filter (w_kern w) (w_skb w)
            (Build_my_ingress_headers_t (ethernet_of_bytes (slice 0 14 data)) i) with
          | None => Discard
          | Some (h', port, k') => Send port (bytes_of h' ++ drop n data)
                                     (Z.of_nat (length (bytes_of h')) - Z.of_nat n) k'
          end) by by destruct v.
  unfold redirect_l2_control. destruct (nh_action _) as [port dmac smac|].
  - exists port, (take 6 (host_bytes 8 dmac) ++ take 6 (host_bytes 8 smac)).
    assert (Hm : length (take 6 (host_bytes 8 dmac) ++ take 6 (host_bytes 8 smac)) = 12%nat)
      by (by rewrite length_app, !length_take, !length_host_bytes).
    split; [exact Hm|]. pose proof (bytes_of_with_macs_data data n i dmac smac Hb Hn Hi) as E.
    rewrite E. f_equal. apply (f_equal length) in E.
    rewrite length_app, (length_app (_ ++ _)), Hm, !length_drop in E. lia.
  - exists 0, (take 12 data). split; [rewrite length_take; lia|].
    pose proof (bytes_of_data data n i Hb Hn Hi) as E. rewrite E, take_drop. f_equal.
    apply (f_equal length) in E. rewrite length_app, length_drop in E. lia.
Qed.

(** C23: an IPv4 packet whose source address has an entry leaves through the
    entry's port with the entry's destination and source MAC addresses; from
    the EtherType on not a byte of it changes. *)
Theorem redirect_l2_redirects w macs ip payload value :
  arrives w -> is_ipv4_frame macs ip payload (skb_data (w_skb w)) ->
  nh_lookup filter (w_kern w) (w_skb w) (host_val (slice 12 4 ip)) = Some value ->
  act_id value = INGRESS_NH_TABLE_ACT_INGRESS_SEND_NH ->
  delivered (param value 0 4) (skb_ifindex (w_skb w))
    (ipv4_frame (slice 4 6 (act_params value) ++ slice 12 6 (act_params value)) ip payload)
    (w_kern w) (redirect_l2 filter w).
Proof.
  intros Ha Hf El Ea. pose proof El as Hv. apply tbl_read_wf in Hv.
  rewrite <- !param_mac by (done || lia).
  apply (implements_send (redirect_l2 filter) (redirect_l2_spec filter) w _ _ 0);
    [exact Ha| |by left].
  rewrite (redirect_l2_spec_frame w macs ip payload Ha Hf), El. unfold nh_action. by rewrite Ea.
Qed.

(** C37: a packet whose source address has no entry is not dropped: it reaches
    the kernel's receive path byte for byte as it arrived. *)
Theorem redirect_l2_miss w macs ip payload :
  arrives w -> is_ipv4_frame macs ip payload (skb_data (w_skb w)) ->
  nh_lookup filter (w_kern w) (w_skb w) (host_val (slice 12 4 ip)) = None ->
  delivered 0 (skb_ifindex (w_skb w)) (skb_data (w_skb w)) (w_kern w) (redirect_l2 filter w).
Proof.
  intros Ha Hf El.
  apply (implements_send (redirect_l2 filter) (redirect_l2_spec filter) w _ _ 0);
    [exact Ha| |by left].
  by rewrite (redirect_l2_spec_frame w macs ip payload Ha Hf), El.
Qed.

(** C28: the program drops the frames that are not IPv4 and no others: every
    frame of type 0x800, however short, leaves with all its bytes from the
    EtherType on, whatever the table holds. *)
Theorem redirect_l2_drops w :
  arrives w ->
  let data := skb_data (w_skb w) in
  (nth 12 data 0 * 256 + nth 13 data 0 <> 0x800 -> shot (redirect_l2 filter w)) /\
  (nth 12 data 0 * 256 + nth 13 data 0 = 0x800 ->
   exists port macs,
     length macs = 12%nat /\
     delivered port (skb_ifindex (w_skb w)) (macs ++ drop 12 data) (w_kern w)
       (redirect_l2 filter w)).
Proof.
  intros Ha data. pose proof (arr_eth w Ha) as H14. pose proof (arr_bytes w Ha) as Hb.
  pose proof (etherType_of_slice data H14 Hb) as Ht. split; intros Hd.
  - apply (implements_discard (redirect_l2 filter) (redirect_l2_spec filter)); [exact Ha|].
    unfold redirect_l2_spec, program_spec, redirect_l2_parse. fold data in H14 |- *.
    destruct (Nat.ltb_spec (length data) 14); [lia|]. cbv zeta. rewrite Ht.
    by destruct (Z.eqb_spec (nth 12 data 0 * 256 + nth 13 data 0) 0x800).
  - destruct (redirect_l2_send w Ha Hd) as (port & macs & Hm & Es).
    exists port, macs. split; [exact Hm|].
    apply (implements_send (redirect_l2 filter) (redirect_l2_spec filter) w _ _ 0);
      [exact Ha|exact Es|by left].
Qed.

(** Every access of the redirector is inside the packet. *)
Theorem redirect_l2_total w : arrives w -> exists r w', redirect_l2 filter w = Some (r, w').
Proof. apply (implements_total (redirect_l2 filter) (redirect_l2_spec filter)). Qed.
End EndToEnd.

(** ** The theorems at concrete packets *)

Section Witnesses.
Definition l2_world (rows : list table_row) (data : list Z)
  : world my_ingress_headers_t my_ingress_metadata_t :=
  sample_world headers0 metadata0 rows data.

(** The row for packets from 10.0.0.1. *)
Definition sample_nh : table_row :=
  (1, ingress_nh_table_key 32 0 (host_val [10; 0; 0; 1]),
   sample_value 1 [6; 0; 0; 0; 2; 0; 0; 0; 0; 9; 0; 0; 2; 0; 0; 0; 0; 8; 0; 0]).

Lemma redirect_l2_redirects_witness :
  delivered 6 2
    (ipv4_frame [2; 0; 0; 0; 0; 9; 2; 0; 0; 0; 0; 8] sample_ip sample_payload)
    [sample_nh] (redirect_l2 sample_filter (l2_world [sample_nh] sample_frame)).
Proof.
  refine (redirect_l2_redirects sample_filter (l2_world [sample_nh] sample_frame)
    sample_macs sample_ip sample_payload sample_nh.2 _ _ _ _); sample_tac.
Defined.

Lemma redirect_l2_miss_witness :
  delivered 0 2 sample_frame [] (redirect_l2 sample_filter (l2_world [] sample_frame)).
Proof.
  apply (redirect_l2_miss sample_filter (l2_world [] sample_frame) sample_macs sample_ip
           sample_payload); [sample_tac|sample_tac|reflexivity].
Defined.

Lemma redirect_l2_drops_witness :
  shot (redirect_l2 sample_filter (l2_world [sample_nh] (replicate 60 1))) /\
  exists port macs,
    length macs = 12%nat /\
    delivered port 2 (macs ++ drop 12 sample_frame) [sample_nh]
      (redirect_l2 sample_filter (l2_world [sample_nh] sample_frame)).
Proof.
  split.
  - apply redirect_l2_drops; [sample_tac|]. sample_tac.
  - apply (redirect_l2_drops sample_filter (l2_world [sample_nh] sample_frame));
      [sample_tac|reflexivity].
Defined.

Lemma redirect_l2_total_witness :
  exists r w', redirect_l2 sample_filter (l2_world [] (replicate 30 8)) = Some (r, w').
Proof. apply redirect_l2_total. sample_tac. Defined.
End Witnesses.
