(* ===== verification/ArpRespond.v ===== *)
(** The ARP responder (arp_responder/generated): the parser of
    arp_respond_parser.c and the control block of
    arp_respond_control_blocks.c.

    ARP requests are answered from table [ingress.arp_table], which maps the
    requested address to a MAC address.  Frames of another type are accepted
    by the parser and meet the same table with a key of zero. *)

From S2P Require Import Prelude CInt Memory Pna P4Spec Pipeline Steps Headers Deparse Chain Samples.

(** ** Data (arp_respond_parser.h) *)

Record my_ingress_metadata_t := {}.

Record arp_t := {
  arp_htype : Z;      (* u16 *)
  arp_ptype : Z;      (* u16 *)
  arp_hlen : Z;       (* u8 *)
  arp_plen : Z;       (* u8 *)
  arp_oper : Z;       (* u16 *)
  arp_valid : Z       (* u8 ebpf_valid *)
}.

(** Kept in network order, MAC addresses in the first 6 bytes. *)
Record arp_ipv4_t := {
  arp_sha : Z;        (* u64 *)
  arp_spa : Z;        (* u32 *)
  arp_tha : Z;        (* u64 *)
  arp_tpa : Z;        (* u32 *)
  arp_ipv4_valid : Z  (* u8 ebpf_valid *)
}.

Record my_ingress_headers_t := {
  ethernet : ethernet_t;
  arp : arp_t;
  arp_ipv4 : arp_ipv4_t
}.

Definition set_ethernet (e : ethernet_t) (hdr : my_ingress_headers_t) :=
  { hdr with ethernet := e }.
Definition set_arp (a : arp_t) (hdr : my_ingress_headers_t) := { hdr with arp := a }.
Definition set_arp_ipv4 (a : arp_ipv4_t) (hdr : my_ingress_headers_t) :=
  { hdr with arp_ipv4 := a }.

Definition arp0 : arp_t := Build_arp_t 0 0 0 0 0 0.
Definition arp_ipv4_0 : arp_ipv4_t := Build_arp_ipv4_t 0 0 0 0 0.
Definition headers0 : my_ingress_headers_t := Build_my_ingress_headers_t ethernet0 arp0 arp_ipv4_0.
Definition metadata0 : my_ingress_metadata_t := Build_my_ingress_metadata_t.

(** ** The parser (arp_respond_parser.c) *)

Section Parser.
Context `{BO : ByteOrder}.

Definition extract_arp : P my_ingress_headers_t arp_t :=
  require 64 ;;
  htype <- load_half_at 0 ;;
  advance 16 ;;
  ptype <- load_half_at 0 ;;
  advance 16 ;;
  hlen <- load_byte_at 0 ;;
  advance 8 ;;
  plen <- load_byte_at 0 ;;
  advance 8 ;;
  oper <- load_half_at 0 ;;
  advance 16 ;;
  hdr_start_advance 64 ;;
  ret {| arp_htype := u16 htype; arp_ptype := u16 ptype; arp_hlen := u8 hlen;
         arp_plen := u8 plen; arp_oper := u16 oper; arp_valid := 1 |}.

Definition extract_arp_ipv4 (a : arp_ipv4_t) : P my_ingress_headers_t arp_ipv4_t :=
  require 160 ;;
  sha <- memcpy_at 8 6 (arp_sha a) ;;
  advance 48 ;;
  spa <- memcpy_at 4 4 (arp_spa a) ;;
  advance 32 ;;
  tha <- memcpy_at 8 6 (arp_tha a) ;;
  advance 48 ;;
  tpa <- memcpy_at 4 4 (arp_tpa a) ;;
  advance 32 ;;
  hdr_start_advance 160 ;;
  ret {| arp_sha := sha; arp_spa := spa; arp_tha := tha; arp_tpa := tpa; arp_ipv4_valid := 1 |}.

Definition parse_arp : P my_ingress_headers_t unit :=
  a <- extract_arp ;;
  hdr <- get_hdr ;;
  set_hdr { hdr with arp := a } ;;
  hdr <- get_hdr ;;
  ai <- extract_arp_ipv4 (arp_ipv4 hdr) ;;
  set_hdr { hdr with arp_ipv4 := ai } ;;
  if arp_oper a =? 1 then accept else exit reject.

Definition start : P my_ingress_headers_t unit :=
  hdr <- get_hdr ;;
  eth <- extract_ethernet (ethernet hdr) ;;
  set_hdr { hdr with ethernet := eth } ;;
  if eth_etherType eth =? 0x806 then parse_arp else accept.

Definition run_parser `{K : P4tcKernel} (w : world my_ingress_headers_t my_ingress_metadata_t) :=
  run_parser_frame headers0 metadata0 start w.

Definition tc_parse_func `{K : P4tcKernel} (w : world my_ingress_headers_t my_ingress_metadata_t) :=
  tc_parse_frame run_parser w.
End Parser.

(** ** The table (arp_respond_control_blocks.c) *)

Definition INGRESS_ARP_TABLE_ACT_INGRESS_ARP_REPLY : Z := 1.
Definition INGRESS_ARP_TABLE_ACT_INGRESS_DROP : Z := 2.
Definition INGRESS_ARP_TABLE_ACT_NOACTION : Z := 0.

(** A statement of [process]. *)
Definition ingress_X `{K : P4tcKernel} (A : Type) : Type :=
  X my_ingress_headers_t my_ingress_metadata_t A.

Section Control.
Context `{BO : ByteOrder} `{K : P4tcKernel} (filter : p4tc_filter_fields).

(** [struct ingress_arp_table_key] *)
Definition ingress_arp_table_key (keysz maskid field0 : Z) : list Z :=
  pad8 (host_bytes 4 keysz ++ host_bytes 4 maskid ++ host_bytes 4 field0).

Definition arp_table_params : p4tc_table_entry_act_bpf_params__local :=
  {| params_pipeid := ff_pipeid filter; params_tblid := 1 |}.

(** [value->u.ingress_arp_reply.rmac] *)
Definition arp_reply_rmac (value : p4tc_table_entry_act_bpf) : ingress_X Z :=
  value_field value 0 8.

Definition ingress_arp_reply (value : p4tc_table_entry_act_bpf) : ingress_X unit :=
  hdr <- get_headers ;;
  set_headers { hdr with arp -> arp_oper := 2 } ;;
  hdr <- get_headers ;;
  set_headers { hdr with arp_ipv4 -> arp_tha := arp_sha (arp_ipv4 hdr) } ;;
  hdr <- get_headers ;;
  rmac <- arp_reply_rmac value ;;
  set_headers { hdr with arp_ipv4 -> arp_sha := rmac } ;;
  hdr <- get_headers ;;
  set_headers { hdr with arp_ipv4 -> arp_spa := arp_tpa (arp_ipv4 hdr) } ;;
  hdr <- get_headers ;;
  set_headers { hdr with ethernet -> eth_dstAddr := eth_srcAddr (ethernet hdr) } ;;
  hdr <- get_headers ;;
  rmac <- arp_reply_rmac value ;;
  set_headers { hdr with ethernet -> eth_srcAddr := rmac } ;;
  skb <- get_skb ;;
  do_send_to_port (u32 (skb_ifindex skb)).

(** [arp_table_0.apply()], the whole control [ingress]. *)
Definition ingress_control : ingress_X unit :=
  hdr <- get_headers ;;
  act_bpf <- tbl_read arp_table_params (ingress_arp_table_key 32 0 (arp_tpa (arp_ipv4 hdr))) ;;
  match act_bpf with
  | None => ret tt
  | Some value =>
    if act_id value =? INGRESS_ARP_TABLE_ACT_INGRESS_ARP_REPLY then ingress_arp_reply value
    else if act_id value =? INGRESS_ARP_TABLE_ACT_INGRESS_DROP then do_drop_packet
    else ret tt
  end.

(** ** The deparser *)

Definition outHeaderLength (hdr : my_ingress_headers_t) : Z :=
  (if is_valid (eth_valid (ethernet hdr)) then 112 else 0)
  + (if is_valid (arp_valid (arp hdr)) then 64 else 0)
  + (if is_valid (arp_ipv4_valid (arp_ipv4 hdr)) then 160 else 0).

Definition emit_arp (a : arp_t) : ingress_X arp_t :=
  require_out 64 ;;
  let htype := bpf_htons (arp_htype a) in
  write_object 2 2 htype ;;
  advance_out 16 ;;
  let ptype := bpf_htons (arp_ptype a) in
  write_object 2 2 ptype ;;
  advance_out 16 ;;
  write_object 1 1 (arp_hlen a) ;;
  advance_out 8 ;;
  write_object 1 1 (arp_plen a) ;;
  advance_out 8 ;;
  let oper := bpf_htons (arp_oper a) in
  write_object 2 2 oper ;;
  advance_out 16 ;;
  ret { a with arp_htype := htype; arp_ptype := ptype; arp_oper := oper }.

Definition emit_arp_ipv4 (a : arp_ipv4_t) : ingress_X arp_ipv4_t :=
  require_out 160 ;;
  write_object 8 6 (arp_sha a) ;;
  advance_out 48 ;;
  write_object 4 4 (arp_spa a) ;;
  advance_out 32 ;;
  write_object 8 6 (arp_tha a) ;;
  advance_out 48 ;;
  write_object 4 4 (arp_tpa a) ;;
  advance_out 32 ;;
  ret a.

Definition deparse_hdr_ethernet : ingress_X unit := emit_ethernet_block ethernet set_ethernet.

Definition deparse_hdr_arp : ingress_X unit :=
  hdr <- get_headers ;;
  when (is_valid (arp_valid (arp hdr)))
    (a <- emit_arp (arp hdr) ;; set_headers (set_arp a hdr)).

Definition deparse_hdr_arp_ipv4 : ingress_X unit :=
  hdr <- get_headers ;;
  when (is_valid (arp_ipv4_valid (arp_ipv4 hdr)))
    (a <- emit_arp_ipv4 (arp_ipv4 hdr) ;; set_headers (set_arp_ipv4 a hdr)).

Definition deparser (hdr_start : Z) : ingress_X unit :=
  make_room outHeaderLength hdr_start ;;
  deparse_hdr_ethernet ;;
  deparse_hdr_arp ;;
  deparse_hdr_arp_ipv4.

Definition arp_respond_body (hdr_start : Z) : ingress_X unit :=
  ingress_control ;;
  deparser hdr_start.

Definition process (w : world my_ingress_headers_t my_ingress_metadata_t) :=
  process_frame arp_respond_body w.

Definition tc_ingress_func (w : world my_ingress_headers_t my_ingress_metadata_t) :=
  tc_ingress_frame process w.

(** The pipeline as the filter runs it. *)
Definition arp_respond (w : world my_ingress_headers_t my_ingress_metadata_t) :=
  tc_chain tc_parse_func tc_ingress_func w.
End Control.

(** ** The P4 header types *)

Definition arp_widths : widths := [16; 16; 8; 8; 16]%nat.
Definition arp_ipv4_widths : widths := [48; 32; 48; 32]%nat.

Definition arp_fields (a : arp_t) : list Z :=
  [arp_htype a; arp_ptype a; arp_hlen a; arp_plen a; arp_oper a].

Definition arp_of_fields (vs : list Z) : arp_t :=
  match vs with
  | [ht; pt; hl; pl; op] => Build_arp_t ht pt hl pl op 1
  | _ => arp0
  end.

Definition arp_of_bytes (bs : list Z) : arp_t := arp_of_fields (p4_extract arp_widths bs).
Definition arp_to_bytes (a : arp_t) : list Z := p4_emit arp_widths (arp_fields a).

Definition wf_arp (a : arp_t) : Prop := Forall2 fits arp_widths (arp_fields a).

Section HeaderTypes.
Context `{BO : ByteOrder}.

Definition arp_ipv4_fields (a : arp_ipv4_t) : list Z :=
  [mac_value (arp_sha a); bpf_ntohl (arp_spa a); mac_value (arp_tha a); bpf_ntohl (arp_tpa a)].

Definition arp_ipv4_of_fields (vs : list Z) : arp_ipv4_t :=
  match vs with
  | [sha; spa; tha; tpa] =>
    Build_arp_ipv4_t (mac_object sha) (bpf_htonl spa) (mac_object tha) (bpf_htonl tpa) 1
  | _ => arp_ipv4_0
  end.

Definition arp_ipv4_of_bytes (bs : list Z) : arp_ipv4_t :=
  arp_ipv4_of_fields (p4_extract arp_ipv4_widths bs).
Definition arp_ipv4_to_bytes (a : arp_ipv4_t) : list Z := p4_emit arp_ipv4_widths (arp_ipv4_fields a).

Definition wf_arp_ipv4 (a : arp_ipv4_t) : Prop :=
  0 <= arp_spa a < 2 ^ 32 /\ 0 <= arp_tpa a < 2 ^ 32.

Lemma arp_of_bytes_explicit b0 b1 b2 b3 b4 b5 b6 b7 :
  bytes [b0; b1; b2; b3; b4; b5; b6; b7] ->
  arp_of_bytes [b0; b1; b2; b3; b4; b5; b6; b7]
  = Build_arp_t (be_val [b0; b1]) (be_val [b2; b3]) b4 b5 (be_val [b6; b7]) 1.
Proof.
  intros Hb. split_bytes Hb. unfold arp_of_bytes, arp_widths.
  pose proof (p4_extract_cons 2 [16; 8; 8; 16]%nat [b0; b1] [b2; b3; b4; b5; b6; b7]
    eq_refl eq_refl ltac:(solve_bytes) ltac:(solve_bytes)) as E1.
  pose proof (p4_extract_cons 2 [8; 8; 16]%nat [b2; b3] [b4; b5; b6; b7]
    eq_refl eq_refl ltac:(solve_bytes) ltac:(solve_bytes)) as E2.
  pose proof (p4_extract_cons 1 [8; 16]%nat [b4] [b5; b6; b7]
    eq_refl eq_refl ltac:(solve_bytes) ltac:(solve_bytes)) as E3.
  pose proof (p4_extract_cons 1 [16]%nat [b5] [b6; b7]
    eq_refl eq_refl ltac:(solve_bytes) ltac:(solve_bytes)) as E4.
  rewrite p4_extract_1 in E4. cbn [app Nat.mul Nat.add] in *.
  by rewrite E1, E2, E3, E4, !be_val_1.
Qed.

(** The four addresses of an ARP packet for IPv4. *)
Lemma arp_ipv4_of_bytes_parts sha spa tha tpa :
  length sha = 6%nat -> length spa = 4%nat -> length tha = 6%nat -> length tpa = 4%nat ->
  bytes (sha ++ spa ++ tha ++ tpa) ->
  arp_ipv4_of_bytes (sha ++ spa ++ tha ++ tpa)
  = Build_arp_ipv4_t (mac_object (be_val sha)) (bpf_htonl (be_val spa))
      (mac_object (be_val tha)) (bpf_htonl (be_val tpa)) 1.
Proof.
  intros H1 H2 H3 H4 Hb. rewrite !bytes_app in Hb. destruct Hb as (B1 & B2 & B3 & B4).
  unfold arp_ipv4_of_bytes, arp_ipv4_widths.
  assert (B34 : bytes (tha ++ tpa)) by by apply bytes_app.
  assert (B234 : bytes (spa ++ tha ++ tpa)) by by apply bytes_app.
  pose proof (p4_extract_cons 6 [32; 48; 32]%nat sha (spa ++ tha ++ tpa) H1
    ltac:(rewrite !length_app, H2, H3, H4; done) B1 B234) as E1.
  pose proof (p4_extract_cons 4 [48; 32]%nat spa (tha ++ tpa) H2
    ltac:(rewrite !length_app, H3, H4; done) B2 B34) as E2.
  pose proof (p4_extract_cons 6 [32]%nat tha tpa H3 ltac:(rewrite H4; done) B3 B4) as E3.
  rewrite p4_extract_1 in E3. cbn [Nat.mul Nat.add] in *. by rewrite E1, E2, E3.
Qed.

Lemma arp_to_bytes_explicit a :
  wf_arp a ->
  arp_to_bytes a = be_bytes 2 (arp_htype a) ++ be_bytes 2 (arp_ptype a)
    ++ be_bytes 1 (arp_hlen a) ++ be_bytes 1 (arp_plen a) ++ be_bytes 2 (arp_oper a).
Proof.
  unfold wf_arp, arp_to_bytes, arp_widths, arp_fields. intros Hf.
  rewrite !List.Forall2_cons_iff in Hf. destruct Hf as (H0 & H1 & H2 & H3 & H4 & _).
  rewrite (p4_emit_cons 2 [_; _; _; _]), (p4_emit_cons 2 [_; _; _]), !(p4_emit_cons 1), (p4_emit_1 2)
    by (done || solve_fits). done.
Qed.

Lemma arp_ipv4_to_bytes_explicit a :
  wf_arp_ipv4 a ->
  arp_ipv4_to_bytes a = take 6 (host_bytes 8 (arp_sha a)) ++ host_bytes 4 (arp_spa a)
    ++ take 6 (host_bytes 8 (arp_tha a)) ++ host_bytes 4 (arp_tpa a).
Proof.
  intros [Hs Ht]. unfold arp_ipv4_to_bytes, arp_ipv4_widths, arp_ipv4_fields.
  pose proof (mac_value_bound (arp_sha a)) as Hm. pose proof (mac_value_bound (arp_tha a)) as Hm'.
  pose proof (ntoh_bound 4 (arp_spa a)) as Hn. pose proof (ntoh_bound 4 (arp_tpa a)) as Hn'.
  rewrite (p4_emit_cons 6 [_; _; _]), (p4_emit_cons 4), (p4_emit_cons 6), (p4_emit_1 4)
    by (done || solve_fits).
  by rewrite !be_bytes_mac_value, !be_bytes_ntohl.
Qed.

Lemma length_arp_to_bytes a : length (arp_to_bytes a) = 8%nat.
Proof. apply length_p4_emit. Qed.

Lemma length_arp_ipv4_to_bytes a : length (arp_ipv4_to_bytes a) = 20%nat.
Proof. apply length_p4_emit. Qed.

Lemma arp_of_bytes_wf bs :
  length bs = 8%nat -> bytes bs -> wf_arp (arp_of_bytes bs) /\ arp_valid (arp_of_bytes bs) = 1.
Proof.
  intros Hl Hb. assert (Hf : arp_fields (arp_of_bytes bs) = p4_extract arp_widths bs
                              /\ arp_valid (arp_of_bytes bs) = 1).
  { unfold arp_of_bytes.
    pose proof (p4_extract_fit arp_widths bs ltac:(by rewrite Hl) Hb) as Hf.
    pose proof (Forall2_length Hf) as Hlen. symmetry in Hlen.
    destruct (p4_extract arp_widths bs) as [|v vs]; [done|].
    injection Hlen as Hlen. destruct_length vs Hlen. done. }
  destruct Hf as [Hf Hv]. split; [|exact Hv]. unfold wf_arp. rewrite Hf.
  apply p4_extract_fit; [by rewrite Hl|exact Hb].
Qed.

Lemma arp_ipv4_of_bytes_wf bs :
  length bs = 20%nat -> bytes bs ->
  wf_arp_ipv4 (arp_ipv4_of_bytes bs) /\ arp_ipv4_valid (arp_ipv4_of_bytes bs) = 1.
Proof.
  intros Hl Hb. pose proof (p4_extract_fit arp_ipv4_widths bs ltac:(by rewrite Hl) Hb) as Hf.
  unfold arp_ipv4_of_bytes. pose proof (Forall2_length Hf) as Hlen. symmetry in Hlen.
  destruct (p4_extract arp_ipv4_widths bs) as [|v vs]; [done|].
  injection Hlen as Hlen. destruct_length vs Hlen. split; [|done].
  split; apply (ntoh_bound 4).
Qed.
End HeaderTypes.

(** ** The parser implements the P4 parser *)

Section ParserSpec.
Context `{BO : ByteOrder}.
Implicit Types (h : my_ingress_headers_t) (data : list Z).

Lemma extract_arp_ok err h a b l :
  length b = 8%nat -> bytes b -> small a ->
  extract_arp (boundary err h a (b ++ l)) = Ret (arp_of_bytes b) (boundary err h (a ++ b) l).
Proof.
  intros Hl Hb Ha. rewrite <- (boundary_next err h a b l 8 64 (arp_of_bytes b)) by done.
  unfold extract_arp.
  erewrite bind_Ret by (apply (boundary_require _ _ _ _ 8); [done|rewrite length_app; lia]).
  destruct_length b Hl. rewrite arp_of_bytes_explicit by done. split_bytes Hb.
  cbn [app]. unfold boundary. repeat pstep.
  rewrite !u16_be_val, !u8_byte by assumption. reflexivity.
Qed.

Lemma extract_arp_ipv4_ok err h a b l :
  length b = 20%nat -> bytes b -> small a ->
  extract_arp_ipv4 arp_ipv4_0 (boundary err h a (b ++ l))
  = Ret (arp_ipv4_of_bytes b) (boundary err h (a ++ b) l).
Proof.
  intros Hl Hb Ha. rewrite <- (boundary_next err h a b l 20 160 (arp_ipv4_of_bytes b)) by done.
  unfold extract_arp_ipv4.
  erewrite bind_Ret by (apply (boundary_require _ _ _ _ 20); [done|rewrite length_app; lia]).
  destruct_length b Hl.
  pose proof (arp_ipv4_of_bytes_parts [x; x0; x1; x2; x3; x4] [x5; x6; x7; x8]
    [x9; x10; x11; x12; x13; x14] [x15; x16; x17; x18] eq_refl eq_refl eq_refl eq_refl Hb) as E.
  cbn [app] in E. rewrite E. split_bytes Hb.
  cbn [app]. unfold boundary. repeat pstep.
  unfold arp_ipv4_0; cbn [arp_sha arp_spa arp_tha arp_tpa].
  rewrite !memcpy_mac, !memcpy_word by (reflexivity || solve_bytes). reflexivity.
Qed.

Lemma extract_arp_at err h data n :
  bytes data -> small data ->
  extract_arp (at_pos err h data n)
  = if (length (drop n data) <? 8)%nat then Exit reject (at_pos PacketTooShort h data n)
    else Ret (arp_of_bytes (slice n 8 data)) (at_pos err h data (n + 8)).
Proof.
  intros Hb Hs. destruct (Nat.ltb_spec (length (drop n data)) 8) as [Hl|Hl].
  - apply bind_Exit. by apply (boundary_short _ _ _ _ 8).
  - rewrite length_drop in Hl. rewrite (at_pos_slice err h data n 8).
    rewrite extract_arp_ok; [|apply length_slice; lia|by apply slice_bytes|by apply small_take].
    by rewrite at_pos_next.
Qed.

Lemma extract_arp_ipv4_at err h data n :
  bytes data -> small data ->
  extract_arp_ipv4 arp_ipv4_0 (at_pos err h data n)
  = if (length (drop n data) <? 20)%nat then Exit reject (at_pos PacketTooShort h data n)
    else Ret (arp_ipv4_of_bytes (slice n 20 data)) (at_pos err h data (n + 20)).
Proof.
  intros Hb Hs. destruct (Nat.ltb_spec (length (drop n data)) 20) as [Hl|Hl].
  - apply bind_Exit. by apply (boundary_short _ _ _ _ 20).
  - rewrite length_drop in Hl. rewrite (at_pos_slice err h data n 20).
    rewrite extract_arp_ipv4_ok;
      [|apply length_slice; lia|by apply slice_bytes|by apply small_take].
    by rewrite at_pos_next.
Qed.

Definition arp_parse data : verdict * my_ingress_headers_t * nat :=
  if (length data <? 14)%nat then (TooShort, headers0, 0%nat) else
  let eth := ethernet_of_bytes (slice 0 14 data) in
  let h := Build_my_ingress_headers_t eth arp0 arp_ipv4_0 in
  if negb (eth_etherType eth =? 0x806) then (Accepted, h, 14%nat) else
  if (length data <? 22)%nat then (TooShort, h, 14%nat) else
  let a := arp_of_bytes (slice 14 8 data) in
  let h := Build_my_ingress_headers_t eth a arp_ipv4_0 in
  if (length data <? 42)%nat then (TooShort, h, 22%nat) else
  let h := Build_my_ingress_headers_t eth a (arp_ipv4_of_bytes (slice 22 20 data)) in
  (if arp_oper a =? 1 then Accepted else Rejected, h, 42%nat).

Lemma arp_respond_start data :
  bytes data -> small data ->
  start (at_pos NoError headers0 data 0)
  = let '(v, h, n) := arp_parse data in parser_outcome v h data n.
Proof.
  intros Hb Hs. unfold start, arp_parse.
  rewrite (bind_Ret _ _ _ _ _ (get_hdr_at _ _ _ _)). unfold bind at 1.
  cbn [ethernet headers0]. rewrite extract_ethernet_at, ltb_drop by (done || lia).
  cbn [Nat.add]. destruct (Nat.ltb_spec (length data) 14) as [|H14]; [done|].
  rewrite (bind_Ret _ _ _ _ _ (set_hdr_at _ _ _ _ _)). cbv zeta.
  destruct (_ =? 0x806); cbn [negb]; [|done].
  unfold parse_arp. unfold bind at 1. rewrite extract_arp_at, ltb_drop by done. cbn [Nat.add].
  destruct (Nat.ltb_spec (length data) 22) as [|H22]; [done|].
  rewrite (bind_Ret _ _ _ _ _ (get_hdr_at _ _ _ _)), (bind_Ret _ _ _ _ _ (set_hdr_at _ _ _ _ _)).
  rewrite (bind_Ret _ _ _ _ _ (get_hdr_at _ _ _ _)). unfold bind at 1.
  change (arp_ipv4 _) with arp_ipv4_0. rewrite extract_arp_ipv4_at, ltb_drop by done.
  cbn [Nat.add]. destruct (length data <? 42)%nat; [done|].
  rewrite (bind_Ret _ _ _ _ _ (set_hdr_at _ _ _ _ _)). by destruct (_ =? 1).
Qed.
End ParserSpec.

(** ** The control block and the deparser *)

Section Spec.
Context `{BO : ByteOrder} `{K : P4tcKernel} `{!P4tcKernelOk K} (filter : p4tc_filter_fields).
Implicit Types (h : my_ingress_headers_t).

(** A row of the table. *)
Inductive action := ArpReply (rmac : Z) | Drop | NoAction.

Definition arp_action (act_bpf : option p4tc_table_entry_act_bpf) : action :=
  match act_bpf with
  | None => NoAction
  | Some value =>
    if act_id value =? 1 then ArpReply (param value 0 8)
    else if act_id value =? 2 then Drop else NoAction
  end.

Definition arp_lookup (k : kstate) (skb : sk_buff) (tpa : Z) : option p4tc_table_entry_act_bpf :=
  bpf_p4tc_tbl_read k skb (arp_table_params filter) (ingress_arp_table_key 32 0 tpa).

(** The reply: sender and target exchange their roles, except that the target
    protocol address stays the requested one. *)
Definition answer (rmac : Z) h : my_ingress_headers_t :=
  let e := ethernet h in
  let a := arp_ipv4 h in
  Build_my_ingress_headers_t
    { e with eth_dstAddr := eth_srcAddr e; eth_srcAddr := rmac }
    { (arp h) with arp_oper := 2 }
    (Build_arp_ipv4_t rmac (arp_tpa a) (arp_sha a) (arp_tpa a) (arp_ipv4_valid a)).

Definition arp_control (k : kstate) (skb : sk_buff) h
  : option (my_ingress_headers_t * Z * kstate) :=
  match arp_action (arp_lookup k skb (arp_tpa (arp_ipv4 h))) with
  | ArpReply rmac => Some (answer rmac h, u32 (skb_ifindex skb), k)
  | Drop => None
  | NoAction => Some (h, 0, k)
  end.

Lemma arp_respond_apply (s : xstate my_ingress_headers_t my_ingress_metadata_t) h u m :
  ingress_control filter (put s h u m)
  = Ret tt (match arp_action (arp_lookup (x_kern s) (x_skb s) (arp_tpa (arp_ipv4 h))) with
            | ArpReply rmac => put s (answer rmac h) u (to_port (u32 (skb_ifindex (x_skb s))) m)
            | Drop => put s h u (drop_packet m)
            | NoAction => put s h u m
            end).
Proof.
  unfold ingress_control, arp_lookup. xstep. rewrite tbl_read_put.
  destruct (bpf_p4tc_tbl_read _ _ _ _) as [value|] eqn:E; [|done].
  apply tbl_read_wf in E. unfold arp_action, INGRESS_ARP_TABLE_ACT_INGRESS_ARP_REPLY,
    INGRESS_ARP_TABLE_ACT_INGRESS_DROP.
  destruct (act_id value =? 1); [|by destruct (act_id value =? 2)].
  unfold ingress_arp_reply, arp_reply_rmac. repeat xstep. by destruct h as [? ? []].
Qed.

Definition out_arp (a : arp_t) : list Z := if is_valid (arp_valid a) then arp_to_bytes a else [].
Definition out_arp_ipv4 (a : arp_ipv4_t) : list Z :=
  if is_valid (arp_ipv4_valid a) then arp_ipv4_to_bytes a else [].

Definition headers_bytes h : list Z :=
  out_ethernet (ethernet h) ++ out_arp (arp h) ++ out_arp_ipv4 (arp_ipv4 h).

Definition wf_headers h : Prop :=
  wf_ethernet (ethernet h) /\ wf_arp (arp h) /\ wf_arp_ipv4 (arp_ipv4 h).

Lemma length_out_arp a : length (out_arp a) = if is_valid (arp_valid a) then 8%nat else 0%nat.
Proof. unfold out_arp. case_match; [apply length_arp_to_bytes|done]. Qed.

Lemma length_out_arp_ipv4 a :
  length (out_arp_ipv4 a) = if is_valid (arp_ipv4_valid a) then 20%nat else 0%nat.
Proof. unfold out_arp_ipv4. case_match; [apply length_arp_ipv4_to_bytes|done]. Qed.

Lemma arp_respond_length h : BYTES (outHeaderLength h) = Z.of_nat (length (headers_bytes h)).
Proof.
  unfold headers_bytes, outHeaderLength.
  rewrite !length_app, length_out_ethernet, length_out_arp, length_out_arp_ipv4.
  by repeat case_match.
Qed.

Lemma emit_arp_ok (s : xstate my_ingress_headers_t my_ingress_metadata_t) a l old r :
  wf_arp a -> length old = 8%nat -> tiny l ->
  emit_arp a (cursor_out s l (old ++ r) 0)
  = Ret { a with arp_htype := bpf_htons (arp_htype a); arp_ptype := bpf_htons (arp_ptype a);
                 arp_oper := bpf_htons (arp_oper a) }
      (cursor_out s (l ++ arp_to_bytes a) r 0).
Proof.
  intros Hw Ho Hl. rewrite arp_to_bytes_explicit by done. unfold emit_arp.
  erewrite bind_Ret
    by (apply (require_out_app _ _ _ 8); [done|solve_small|lia|rewrite length_app; lia]).
  destruct_length old Ho. cbn [app]. cbn zeta.
  do 5 (rewrite emit_object by (done || solve_small); cbn [drop]).
  unfold bpf_htons. rewrite !take_host_bytes, !host_bytes_ntoh, !host_bytes_1, drop_0.
  by rewrite <- !app_assoc.
Qed.

Lemma emit_arp_ipv4_ok (s : xstate my_ingress_headers_t my_ingress_metadata_t) a l old r :
  wf_arp_ipv4 a -> length old = 20%nat -> tiny l ->
  emit_arp_ipv4 a (cursor_out s l (old ++ r) 0)
  = Ret a (cursor_out s (l ++ arp_ipv4_to_bytes a) r 0).
Proof.
  intros Hw Ho Hl. rewrite arp_ipv4_to_bytes_explicit by done. unfold emit_arp_ipv4.
  erewrite bind_Ret
    by (apply (require_out_app _ _ _ 20); [done|solve_small|lia|rewrite length_app; lia]).
  destruct_length old Ho. cbn [app].
  do 4 (rewrite emit_object by (done || solve_small); cbn [drop]).
  rewrite !(take_host_bytes 4), drop_0. by rewrite <- !app_assoc.
Qed.

Lemma emits_arp :
  emits (U := my_ingress_metadata_t) deparse_hdr_arp (fun h => wf_arp (arp h))
    (fun h => out_arp (arp h)) (updates set_arp).
Proof.
  intros s a l Hp Hb Ht Hl. rewrite length_out_arp in *. unfold deparse_hdr_arp.
  rewrite (bind_Ret _ _ _ _ _ (get_headers_out _ _ _ _)). unfold when, out_arp in *.
  destruct (is_valid (arp_valid (arp (x_hdr s)))).
  - eexists. split; [right; eexists; reflexivity|]. rewrite <- (take_drop 8 l) at 1.
    rewrite (bind_Ret _ _ _ _ _ (emit_arp_ok s _ a (take 8 l) (drop 8 l) Hp
               ltac:(rewrite length_take; lia)
               ltac:(unfold tiny in *; rewrite length_app in Ht; lia))).
    apply set_headers_out.
  - exists (x_hdr s). split; [by left|]. rewrite app_nil_r, drop_0. by destruct s.
Qed.

Lemma emits_arp_ipv4 :
  emits (U := my_ingress_metadata_t) deparse_hdr_arp_ipv4 (fun h => wf_arp_ipv4 (arp_ipv4 h))
    (fun h => out_arp_ipv4 (arp_ipv4 h)) (updates set_arp_ipv4).
Proof.
  intros s a l Hp Hb Ht Hl. rewrite length_out_arp_ipv4 in *. unfold deparse_hdr_arp_ipv4.
  rewrite (bind_Ret _ _ _ _ _ (get_headers_out _ _ _ _)). unfold when, out_arp_ipv4 in *.
  destruct (is_valid (arp_ipv4_valid (arp_ipv4 (x_hdr s)))).
  - eexists. split; [right; eexists; reflexivity|]. rewrite <- (take_drop 20 l) at 1.
    rewrite (bind_Ret _ _ _ _ _ (emit_arp_ipv4_ok s _ a (take 20 l) (drop 20 l) Hp
               ltac:(rewrite length_take; lia)
               ltac:(unfold tiny in *; rewrite length_app in Ht; lia))).
    apply set_headers_out.
  - exists (x_hdr s). split; [by left|]. rewrite app_nil_r, drop_0. by destruct s.
Qed.

Definition emit_headers : ingress_X unit :=
  deparse_hdr_ethernet ;; deparse_hdr_arp ;; deparse_hdr_arp_ipv4.

Lemma arp_respond_emits : exists mods, emits emit_headers wf_headers headers_bytes mods.
Proof.
  assert (H2 := emits_seq (U := my_ingress_metadata_t) _ _ _ _ _ _ _ _ emits_arp emits_arp_ipv4
                  ltac:(by intros h h' [->|[a ->]])).
  assert (H1 := emits_seq (U := my_ingress_metadata_t) _ _ _ _ _ _ _ _
                  (emits_ethernet ethernet set_ethernet) H2 ltac:(by intros h h' [->|[e ->]])).
  eexists. exact H1.
Qed.

Lemma arp_sendable h :
  wf_headers h -> eth_valid (ethernet h) = 1 -> sendable wf_headers headers_bytes h.
Proof.
  intros Hw Hv. split; [exact Hw|]. unfold headers_bytes.
  rewrite !length_app, length_out_ethernet, length_out_arp, length_out_arp_ipv4, Hv.
  cbn. repeat case_match; lia.
Qed.

Lemma arp_parse_ok data :
  bytes data -> (14 <= length data)%nat ->
  let '(v, h, n) := arp_parse data in
  (wf_headers h /\ eth_valid (ethernet h) = 1) /\ (14 <= n <= length data)%nat.
Proof.
  intros Hb H14. unfold arp_parse.
  assert (Hw0 : wf_arp arp0)
    by (repeat (apply List.Forall2_cons; [split; by vm_compute|]); apply List.Forall2_nil).
  assert (Hi0 : wf_arp_ipv4 arp_ipv4_0) by (split; split; by vm_compute).
  assert (Hew : wf_ethernet (ethernet_of_bytes (slice 0 14 data)))
    by (apply ethernet_of_bytes_wf; [apply length_slice; lia|by apply slice_bytes]).
  assert (Hev : eth_valid (ethernet_of_bytes (slice 0 14 data)) = 1)
    by (apply ethernet_of_bytes_valid; [apply length_slice; lia|by apply slice_bytes]).
  assert (Ha : (22 <= length data)%nat -> wf_arp (arp_of_bytes (slice 14 8 data)))
    by (intros Hn; apply arp_of_bytes_wf; [apply length_slice; lia|by apply slice_bytes]).
  assert (Hi : (42 <= length data)%nat -> wf_arp_ipv4 (arp_ipv4_of_bytes (slice 22 20 data)))
    by (intros Hn; apply arp_ipv4_of_bytes_wf; [apply length_slice; lia|by apply slice_bytes]).
  destruct (Nat.ltb_spec (length data) 14); [lia|]. cbv zeta.
  destruct (negb _); [split; [split; [by split|exact Hev]|lia]|].
  destruct (Nat.ltb_spec (length data) 22); [split; [split; [by split|exact Hev]|lia]|].
  specialize (Ha ltac:(lia)).
  destruct (Nat.ltb_spec (length data) 42); [split; [split; [by split|exact Hev]|lia]|].
  specialize (Hi ltac:(lia)). split; [split; [by split|exact Hev]|lia].
Qed.

Lemma wf_arp_reply a : wf_arp a -> wf_arp { a with arp_oper := 2 }.
Proof.
  unfold wf_arp, arp_widths, arp_fields. rewrite !List.Forall2_cons_iff.
  intros (?&?&?&?&_&_). repeat (split; [assumption|]). split; [by split|]. apply List.Forall2_nil.
Qed.

Lemma sendable_answer rmac h :
  sendable wf_headers headers_bytes h -> sendable wf_headers headers_bytes (answer rmac h).
Proof.
  intros ((He & Ha & Hs & Ht) & Hl & Hn). split.
  - split; [exact He|]. split; [by apply wf_arp_reply|by split].
  - unfold headers_bytes in *.
    rewrite !length_app, length_out_ethernet, length_out_arp, length_out_arp_ipv4 in *. by split.
Qed.

Lemma arp_respond_ok : exists mods,
  program_ok headers0 metadata0 start (ingress_control filter) outHeaderLength emit_headers
    wf_headers headers_bytes mods arp_parse arp_control.
Proof.
  destruct arp_respond_emits as [mods Hem]. exists mods. split.
  - exact arp_respond_start.
  - exact Hem.
  - exact arp_respond_length.
  - intros data Hb H14. pose proof (arp_parse_ok data Hb H14) as Hp.
    destruct (arp_parse data) as [[v h] n]. destruct Hp as [[Hw Hv] Hn].
    split; [by apply arp_sendable|exact Hn].
  - intros k skb h h' port k' Hh. unfold arp_control.
    destruct (arp_action _); [|done|by intros [= <- <- <-]].
    intros [= <- <- <-]. by apply sendable_answer.
  - intros k skb skb' h Hi. unfold arp_control, arp_lookup.
    by rewrite (tbl_read_dev k skb skb'), Hi.
  - intros s h m Hd Hp. unfold arp_control. rewrite arp_respond_apply.
    destruct (arp_action _); by eexists _, _ || eexists _.
Qed.

Definition arp_respond_spec : kstate -> sk_buff -> behaviour :=
  program_spec headers_bytes arp_parse arp_control.

#[export] Instance arp_respond_implements : Implements (arp_respond filter) arp_respond_spec.
Proof.
  intros w Ha. destruct arp_respond_ok as [mods Hok].
  exact (program_run _ _ _ _ _ _ _ _ _ _ _ w Hok Ha).
Qed.
End Spec.

(** ** Requests and replies, end to end *)

(** An Ethernet frame that carries ARP for IPv4: [hd] are the first six bytes
    (the address types), then come the operation and the four addresses. *)
Definition arp_frame (macs hd oper sha spa tha tpa payload : list Z) : list Z :=
  (macs ++ [0x08; 0x06]) ++ (hd ++ oper) ++ (sha ++ spa ++ tha ++ tpa) ++ payload.

Record is_arp_frame (macs hd oper sha spa tha tpa payload data : list Z) : Prop := {
  af_data : data = arp_frame macs hd oper sha spa tha tpa payload;
  af_macs : length macs = 12%nat;
  af_hd : length hd = 6%nat;
  af_oper : length oper = 2%nat;
  af_sha : length sha = 6%nat;
  af_spa : length spa = 4%nat;
  af_tha : length tha = 6%nat;
  af_tpa : length tpa = 4%nat
}.

Section EndToEnd.
Context `{BO : ByteOrder} `{K : P4tcKernel} `{!P4tcKernelOk K} (filter : p4tc_filter_fields).
Implicit Types (w : world my_ingress_headers_t my_ingress_metadata_t).
Implicit Types (macs hd oper sha spa tha tpa payload data : list Z).

Lemma arp_frame_bytes macs hd oper sha spa tha tpa payload data :
  is_arp_frame macs hd oper sha spa tha tpa payload data -> bytes data ->
  bytes (macs ++ [0x08; 0x06]) /\ bytes (hd ++ oper) /\ bytes (sha ++ spa ++ tha ++ tpa).
Proof.
  intros [-> _ _ _ _ _ _ _] Hb. unfold arp_frame in Hb.
  by apply bytes_app in Hb as [? [? [? _]%bytes_app]%bytes_app].
Qed.

Lemma arp_parse_frame macs hd oper sha spa tha tpa payload data :
  is_arp_frame macs hd oper sha spa tha tpa payload data -> bytes data ->
  arp_parse data
  = (if be_val oper =? 1 then Accepted else Rejected,
     Build_my_ingress_headers_t (ethernet_of_bytes (macs ++ [0x08; 0x06]))
       (arp_of_bytes (hd ++ oper)) (arp_ipv4_of_bytes (sha ++ spa ++ tha ++ tpa)), 42%nat).
Proof.
  intros Hf Hb. pose proof (arp_frame_bytes _ _ _ _ _ _ _ _ _ Hf Hb) as (Be & Ba & Bi).
  destruct Hf as [-> Hm Hh Ho H1 H2 H3 H4]. unfold arp_frame.
  assert (He : length (macs ++ [8; 6]) = 14%nat) by (by rewrite length_app, Hm).
  assert (Hlh : length (hd ++ oper) = 8%nat) by (by rewrite length_app, Hh, Ho).
  assert (Hla : length (sha ++ spa ++ tha ++ tpa) = 20%nat) by (by rewrite !length_app, H1, H2, H3, H4).
  assert (Hlen : length ((macs ++ [8; 6]) ++ (hd ++ oper) ++ (sha ++ spa ++ tha ++ tpa) ++ payload)
                 = (42 + length payload)%nat).
  { rewrite length_app, He, length_app, Hlh, length_app, Hla. lia. }
  unfold arp_parse. rewrite Hlen, (slice_0 _ _ 14 He).
  rewrite (slice_app _ _ 14 14), (slice_0 _ _ 8 Hlh) by (done || lia).
  rewrite (slice_app _ _ 14 22), (slice_app _ _ 8 (22 - 14)), (slice_0 _ _ 20 Hla) by (done || lia).
  destruct (Nat.ltb_spec (42 + length payload) 14); [lia|].
  destruct (Nat.ltb_spec (42 + length payload) 22); [lia|].
  destruct (Nat.ltb_spec (42 + length payload) 42); [lia|]. cbv zeta.
  rewrite etherType_of_bytes, be_val_2 by done. change (negb (8 * 256 + 6 =? 2054)) with false.
  cbv iota. do 2 f_equal.
  destruct_length hd Hh. destruct_length oper Ho. cbn [app] in *. by rewrite arp_of_bytes_explicit.
Qed.

Lemma tpa_of_bytes sha spa tha tpa :
  length sha = 6%nat -> length spa = 4%nat -> length tha = 6%nat -> length tpa = 4%nat ->
  bytes (sha ++ spa ++ tha ++ tpa) ->
  arp_tpa (arp_ipv4_of_bytes (sha ++ spa ++ tha ++ tpa)) = host_val tpa.
Proof.
  intros H1 H2 H3 H4 Hb. rewrite arp_ipv4_of_bytes_parts by assumption. cbn [arp_tpa].
  rewrite !bytes_app in Hb. destruct Hb as (_ & _ & _ & B4). unfold bpf_htonl.
  rewrite <- H4, <- ntoh_host_val by exact B4. apply ntoh_involutive, host_val_bound, B4.
Qed.

(** What the reply consists of. *)
(** The three headers of a reply. *)
Lemma out_ethernet_answer macs b0 b1 a ip rmac :
  length macs = 12%nat -> bytes (macs ++ [b0; b1]) ->
  out_ethernet (ethernet (answer rmac (Build_my_ingress_headers_t
    (ethernet_of_bytes (macs ++ [b0; b1])) a ip)))
  = drop 6 macs ++ take 6 (host_bytes 8 rmac) ++ [b0; b1].
Proof.
  intros Hm Hb. destruct (ethernet_addrs macs b0 b1 Hm Hb) as (_ & Es & _). rewrite <- Es.
  exact (out_ethernet_addrs macs b0 b1
    (eth_srcAddr (ethernet_of_bytes (macs ++ [b0; b1]))) rmac Hm Hb).
Qed.

Lemma out_arp_answer e hd oper ip rmac :
  length hd = 6%nat -> length oper = 2%nat -> bytes (hd ++ oper) ->
  out_arp (arp (answer rmac (Build_my_ingress_headers_t e (arp_of_bytes (hd ++ oper)) ip)))
  = hd ++ [0; 2].
Proof.
  intros Hh Ho Ba.
  pose proof (arp_of_bytes_wf (hd ++ oper) ltac:(by rewrite length_app, Hh, Ho) Ba) as [Wa Va].
  unfold answer, out_arp. cbn [arp].
  change (arp_valid { _ with arp_oper := 2 }) with (arp_valid (arp_of_bytes (hd ++ oper))).
  rewrite Va. change (is_valid 1) with true. cbv iota.
  rewrite arp_to_bytes_explicit by by apply wf_arp_reply.
  destruct_length hd Hh. destruct_length oper Ho. cbn [app] in *.
  rewrite arp_of_bytes_explicit by done. cbn [arp_htype arp_ptype arp_hlen arp_plen arp_oper].
  split_bytes Ba.
  pose proof (be_bytes_be_val [x; x0] ltac:(solve_bytes)) as E1.
  pose proof (be_bytes_be_val [x1; x2] ltac:(solve_bytes)) as E2.
  cbn [length] in E1, E2.
  change (arp_htype _) with (be_val [x; x0]). change (arp_ptype _) with (be_val [x1; x2]).
  rewrite E1, E2.
  unfold be_bytes at 1 2. cbn [le_bytes rev app].
  by rewrite (Z.mod_small x3), (Z.mod_small x4) by (unfold is_byte in *; lia).
Qed.

Lemma out_arp_ipv4_answer e a sha spa tha tpa rmac :
  length sha = 6%nat -> length spa = 4%nat -> length tha = 6%nat -> length tpa = 4%nat ->
  bytes (sha ++ spa ++ tha ++ tpa) ->
  out_arp_ipv4 (arp_ipv4 (answer rmac (Build_my_ingress_headers_t e a
    (arp_ipv4_of_bytes (sha ++ spa ++ tha ++ tpa)))))
  = take 6 (host_bytes 8 rmac) ++ tpa ++ sha ++ tpa.
Proof.
  intros H1 H2 H3 H4 Bi. pose proof Bi as Bi'. rewrite !bytes_app in Bi'.
  destruct Bi' as (B1 & B2 & B3 & B4).
  unfold answer, out_arp_ipv4. cbn [arp_ipv4 arp_ipv4_valid arp_tpa arp_sha].
  rewrite tpa_of_bytes, arp_ipv4_of_bytes_parts by assumption.
  cbn [arp_ipv4_valid arp_sha]. change (is_valid 1) with true. cbv iota.
  pose proof (host_val_bound tpa B4) as Hv. rewrite H4 in Hv.
  rewrite arp_ipv4_to_bytes_explicit by by split.
  cbn [arp_sha arp_spa arp_tha arp_tpa]. rewrite mac_object_bytes by assumption.
  pose proof (host_bytes_host_val tpa B4) as Et. rewrite H4 in Et. by rewrite Et.
Qed.

Lemma answer_bytes macs hd oper sha spa tha tpa payload data rmac :
  is_arp_frame macs hd oper sha spa tha tpa payload data -> bytes data ->
  let h := Build_my_ingress_headers_t (ethernet_of_bytes (macs ++ [0x08; 0x06]))
             (arp_of_bytes (hd ++ oper)) (arp_ipv4_of_bytes (sha ++ spa ++ tha ++ tpa)) in
  let rm := take 6 (host_bytes 8 rmac) in
  headers_bytes (answer rmac h) ++ payload
  = arp_frame (drop 6 macs ++ rm) hd [0; 2] rm tpa sha tpa payload /\
  length (headers_bytes (answer rmac h)) = 42%nat.
Proof.
  intros Hf Hb. pose proof (arp_frame_bytes _ _ _ _ _ _ _ _ _ Hf Hb) as (Be & Ba & Bi).
  destruct Hf as [-> Hm Hh Ho H1 H2 H3 H4]. cbn zeta. unfold headers_bytes.
  rewrite out_ethernet_answer, out_arp_answer, out_arp_ipv4_answer by assumption. split.
  - unfold arp_frame. by rewrite <- !app_assoc.
  - rewrite !length_app, length_drop, !length_take, length_host_bytes, Hm, Hh, H1, H4. done.
Qed.

Lemma arp_spec_frame w macs hd sha spa tha tpa payload :
  arrives w -> is_arp_frame macs hd [0; 1] sha spa tha tpa payload (skb_data (w_skb w)) ->
  arp_respond_spec filter (w_kern w) (w_skb w)
  = match arp_action (arp_lookup filter (w_kern w) (w_skb w) (host_val tpa)) with
    | ArpReply rmac =>
      let rm := take 6 (host_bytes 8 rmac) in
      Send (u32 (skb_ifindex (w_skb w)))
        (arp_frame (drop 6 macs ++ rm) hd [0; 2] rm tpa sha tpa payload) 0 (w_kern w)
    | Drop => Discard
    | NoAction =>
      let h := Build_my_ingress_headers_t (ethernet_of_bytes (macs ++ [0x08; 0x06]))
                 (arp_of_bytes (hd ++ [0; 1])) (arp_ipv4_of_bytes (sha ++ spa ++ tha ++ tpa)) in
      Send 0 (headers_bytes h ++ payload) (Z.of_nat (length (headers_bytes h)) - 42) (w_kern w)
    end.
Proof.
  intros Ha Hf. pose proof (arr_bytes w Ha) as Hb.
  pose proof (arp_frame_bytes _ _ _ _ _ _ _ _ _ Hf Hb) as (_ & _ & Bi).
  unfold arp_respond_spec, program_spec. rewrite (arp_parse_frame _ _ _ _ _ _ _ _ _ Hf Hb).
  change (be_val [0; 1] =? 1) with true. cbv iota. unfold arp_control. cbn [arp_ipv4].
  rewrite tpa_of_bytes by (first [apply Hf | exact Bi]).
  assert (Hd : drop 42 (skb_data (w_skb w)) = payload).
  { destruct Hf as [-> Hm Hh Ho H1 H2 H3 H4]. unfold arp_frame.
    rewrite (drop_app_sub _ _ 14), (drop_app_sub _ _ 8), (drop_app_sub _ _ 20)
      by (rewrite ?length_app, ?Hm, ?Hh, ?H1, ?H2, ?H3, ?H4; cbn; lia).
    change (42 - 14 - 8 - 20)%nat with 0%nat. apply drop_0. }
  rewrite Hd. destruct (arp_action _) as [rmac| |]; [|done|done].
  destruct (answer_bytes _ _ _ _ _ _ _ _ _ rmac Hf Hb) as [-> ->]. done.
Qed.

(** C12: a request for an address that has an entry is answered on the port it
    came from: the frame goes back to its sender, as operation 2, with the
    entry's MAC address as sender, the requested address as sender protocol
    address, the requester as target; the address types and what follows the
    ARP header stay as they are, and so does the target protocol address. *)
Theorem arp_replies w macs hd sha spa tha tpa payload value :
  arrives w -> is_arp_frame macs hd [0; 1] sha spa tha tpa payload (skb_data (w_skb w)) ->
  arp_lookup filter (w_kern w) (w_skb w) (host_val tpa) = Some value ->
  act_id value = INGRESS_ARP_TABLE_ACT_INGRESS_ARP_REPLY ->
  let rmac := slice 0 6 (act_params value) in
  delivered (u32 (skb_ifindex (w_skb w))) (skb_ifindex (w_skb w))
    (arp_frame (drop 6 macs ++ rmac) hd [0; 2] rmac tpa sha tpa payload) (w_kern w)
    (arp_respond filter w).
Proof.
  intros Ha Hf El Ea rmac. pose proof El as Hv. apply tbl_read_wf in Hv. unfold rmac.
  rewrite <- !param_mac by (done || lia).
  apply (implements_send (arp_respond filter) (arp_respond_spec filter) w _ _ 0);
    [exact Ha| |by left].
  rewrite (arp_spec_frame w _ _ _ _ _ _ _ Ha Hf), El. unfold arp_action. by rewrite Ea.
Qed.

(** The parser accepts no operation but a request. *)
Lemma arp_spec_not_request w macs hd oper sha spa tha tpa payload :
  arrives w -> is_arp_frame macs hd oper sha spa tha tpa payload (skb_data (w_skb w)) ->
  oper <> [0; 1] -> arp_respond_spec filter (w_kern w) (w_skb w) = Discard.
Proof.
  intros Ha Hf Hn. pose proof (arr_bytes w Ha) as Hb.
  pose proof (arp_frame_bytes _ _ _ _ _ _ _ _ _ Hf Hb) as (_ & Ba & _).
  unfold arp_respond_spec, program_spec. rewrite (arp_parse_frame _ _ _ _ _ _ _ _ _ Hf Hb).
  destruct (Z.eqb_spec (be_val oper) 1) as [E|E]; [|done]. destruct Hn.
  pose proof (af_oper _ _ _ _ _ _ _ _ _ Hf) as Ho. apply bytes_app in Ba as [_ Bo].
  pose proof (be_bytes_be_val oper Bo) as Eo. rewrite Ho, E in Eo. by rewrite <- Eo.
Qed.

(** C38: an ARP packet that is not a request, and a request for an address that
    the table drops, are dropped. *)
Theorem arp_drops w macs hd oper sha spa tha tpa payload :
  arrives w -> is_arp_frame macs hd oper sha spa tha tpa payload (skb_data (w_skb w)) ->
  oper <> [0; 1] \/
  arp_action (arp_lookup filter (w_kern w) (w_skb w) (host_val tpa)) = Drop ->
  shot (arp_respond filter w).
Proof.
  intros Ha Hf Hd.
  apply (implements_discard (arp_respond filter) (arp_respond_spec filter)); [exact Ha|].
  destruct (decide (oper = [0; 1])) as [->|Hn]; [|by eapply arp_spec_not_request].
  destruct Hd as [Hd|Hd]; [done|]. by rewrite (arp_spec_frame w _ _ _ _ _ _ _ Ha Hf), Hd.
Qed.

(** A frame of another type has an Ethernet header only. *)
Lemma arp_spec_other w :
  arrives w ->
  let data := skb_data (w_skb w) in
  nth 12 data 0 * 256 + nth 13 data 0 <> 0x806 ->
  arp_respond_spec filter (w_kern w) (w_skb w)
  = match arp_control filter (w_kern w) (w_skb w)
            (Build_my_ingress_headers_t (ethernet_of_bytes (slice 0 14 data)) arp0 arp_ipv4_0) with
    | None => Discard
    | Some (h', port, k') => Send port (headers_bytes h' ++ drop 14 data)
                               (Z.of_nat (length (headers_bytes h')) - 14) k'
    end.
Proof.
  intros Ha data Ht. pose proof (arr_eth w Ha) as H14.
  pose proof (arr_bytes w Ha) as Hb. fold data in H14, Hb.
  unfold arp_respond_spec, program_spec. fold data. unfold arp_parse.
  destruct (Nat.ltb_spec (length data) 14); [lia|]. cbv zeta.
  rewrite etherType_of_slice by done.
  by destruct (Z.eqb_spec (nth 12 data 0 * 256 + nth 13 data 0) 0x806).
Qed.

(** The reply made of such a frame. *)
Lemma answer_other_bytes data rmac :
  (14 <= length data)%nat -> bytes data ->
  let h := Build_my_ingress_headers_t (ethernet_of_bytes (slice 0 14 data)) arp0 arp_ipv4_0 in
  headers_bytes (answer rmac h) ++ drop 14 data
  = slice 6 6 data ++ take 6 (host_bytes 8 rmac) ++ drop 12 data /\
  length (headers_bytes (answer rmac h)) = 14%nat.
Proof.
  intros H14 Hb. cbn zeta. set (macs := take 12 data).
  assert (Hm : length macs = 12%nat) by (unfold macs; rewrite length_take; lia).
  assert (Hbs : bytes (slice 0 14 data)) by by apply slice_bytes.
  pose proof (slice_ethernet data H14) as Esl. fold macs in Esl.
  unfold headers_bytes. change (out_arp _) with (@nil Z). change (out_arp_ipv4 _) with (@nil Z).
  rewrite !app_nil_r. rewrite Esl in Hbs |- *. rewrite out_ethernet_answer by assumption. split.
  - rewrite <- !app_assoc. f_equal; [|f_equal].
    + unfold macs, slice. by rewrite skipn_firstn_comm.
    + change (drop 14 data) with (drop (12 + 2) data). rewrite <- drop_drop.
      pose proof (f_equal (drop 12) Esl) as E2. rewrite drop_app_length' in E2 by (symmetry; exact Hm).
      rewrite <- E2. unfold slice. rewrite drop_0, skipn_firstn_comm. apply take_drop.
  - rewrite !length_app, length_drop, length_take, length_host_bytes, Hm. done.
Qed.

(** C24: frames of another type are not exempt from the table: they meet it with
    a key of zero.  They are dropped when the table's answer to that key (its
    default action, say) is to drop; they reach the kernel unchanged when there
    is no answer or the answer is NoAction; and if the answer is a reply, the
    frame goes back out of the device it came from, to its sender and with the
    entry's MAC address as its source, and nothing else of it changed. *)
Theorem arp_other w :
  arrives w ->
  let data := skb_data (w_skb w) in
  nth 12 data 0 * 256 + nth 13 data 0 <> 0x806 ->
  match arp_action (arp_lookup filter (w_kern w) (w_skb w) 0) with
  | Drop => shot (arp_respond filter w)
  | NoAction => delivered 0 (skb_ifindex (w_skb w)) data (w_kern w) (arp_respond filter w)
  | ArpReply rmac =>
    delivered (u32 (skb_ifindex (w_skb w))) (skb_ifindex (w_skb w))
      (slice 6 6 data ++ take 6 (host_bytes 8 rmac) ++ drop 12 data) (w_kern w)
      (arp_respond filter w)
  end.
Proof.
  intros Ha data Ht. pose proof (arr_bytes w Ha) as Hb. pose proof (arr_eth w Ha) as H14.
  pose proof (arp_spec_other w Ha Ht) as Es. fold data in Hb, H14, Es.
  unfold arp_control in Es. change (arp_tpa (arp_ipv4 _)) with 0 in Es.
  destruct (arp_action _) as [rmac| |].
  - apply (implements_send (arp_respond filter) (arp_respond_spec filter) w _ _ 0);
      [exact Ha| |by left].
    destruct (answer_other_bytes data rmac H14 Hb) as [Eb El]. by rewrite Es, Eb, El.
  - apply (implements_discard (arp_respond filter) (arp_respond_spec filter)); [exact Ha|exact Es].
  - apply (implements_send (arp_respond filter) (arp_respond_spec filter) w _ _ 0);
      [exact Ha| |by left].
    rewrite Es. unfold headers_bytes. change (out_arp _) with (@nil Z).
    change (out_arp_ipv4 _) with (@nil Z). rewrite !app_nil_r. cbn [ethernet].
    destruct (out_ethernet_same data H14 Hb) as [Ed El]. by rewrite Ed, El.
Qed.

(** Every access of the responder is inside the packet. *)
Theorem arp_total w : arrives w -> exists r w', arp_respond filter w = Some (r, w').
Proof. apply (implements_total (arp_respond filter) (arp_respond_spec filter)). Qed.
End EndToEnd.

(** ** The theorems at concrete packets *)

Section Witnesses.
Definition arp_world (rows : list table_row) (data : list Z)
  : world my_ingress_headers_t my_ingress_metadata_t :=
  sample_world headers0 metadata0 rows data.

(** 10.0.0.2 is at 02:00:00:00:00:09. *)
Definition sample_entry : table_row :=
  (1, ingress_arp_table_key 32 0 (host_val [10; 0; 0; 2]), sample_value 1 [2; 0; 0; 0; 0; 9; 0; 0]).
Definition sample_default : table_row :=
  (1, ingress_arp_table_key 32 0 0, sample_value 2 []).
(** An entry for the key zero. *)
Definition sample_zero : table_row :=
  (1, ingress_arp_table_key 32 0 0, sample_value 1 [2; 0; 0; 0; 0; 9; 0; 0]).

(** "Who has 10.0.0.2?  Tell 10.0.0.1." *)
Definition sample_arp (oper : list Z) : list Z :=
  arp_frame [255; 255; 255; 255; 255; 255; 2; 0; 0; 0; 0; 1] [0; 1; 8; 0; 6; 4] oper
    [2; 0; 0; 0; 0; 1] [10; 0; 0; 1] [0; 0; 0; 0; 0; 0] [10; 0; 0; 2] [0; 0].

Lemma arp_replies_witness :
  delivered 2 2
    (arp_frame [2; 0; 0; 0; 0; 1; 2; 0; 0; 0; 0; 9] [0; 1; 8; 0; 6; 4] [0; 2]
       [2; 0; 0; 0; 0; 9] [10; 0; 0; 2] [2; 0; 0; 0; 0; 1] [10; 0; 0; 2] [0; 0])
    [sample_entry] (arp_respond sample_filter (arp_world [sample_entry] (sample_arp [0; 1]))).
Proof.
  refine (arp_replies sample_filter (arp_world [sample_entry] (sample_arp [0; 1]))
    [255; 255; 255; 255; 255; 255; 2; 0; 0; 0; 0; 1] [0; 1; 8; 0; 6; 4]
    [2; 0; 0; 0; 0; 1] [10; 0; 0; 1] [0; 0; 0; 0; 0; 0] [10; 0; 0; 2] [0; 0]
    sample_entry.2 _ _ _ _).
  - sample_tac.
  - split; reflexivity.
  - reflexivity.
  - reflexivity.
Defined.

Lemma arp_drops_witness :
  shot (arp_respond sample_filter (arp_world [sample_entry] (sample_arp [0; 2]))).
Proof.
  apply (arp_drops sample_filter (arp_world [sample_entry] (sample_arp [0; 2]))
    [255; 255; 255; 255; 255; 255; 2; 0; 0; 0; 0; 1] [0; 1; 8; 0; 6; 4] [0; 2]
    [2; 0; 0; 0; 0; 1] [10; 0; 0; 1] [0; 0; 0; 0; 0; 0] [10; 0; 0; 2] [0; 0]).
  - sample_tac.
  - split; reflexivity.
  - left. discriminate.
Defined.

Lemma arp_other_witness :
  shot (arp_respond sample_filter (arp_world [sample_default] sample_frame)) /\
  delivered 0 2 sample_frame [sample_entry]
    (arp_respond sample_filter (arp_world [sample_entry] sample_frame)) /\
  delivered 2 2 (slice 6 6 sample_frame ++ [2; 0; 0; 0; 0; 9] ++ drop 12 sample_frame) [sample_zero]
    (arp_respond sample_filter (arp_world [sample_zero] sample_frame)).
Proof.
  split; [|split].
  - refine (arp_other sample_filter (arp_world [sample_default] sample_frame) _ _); sample_tac.
  - refine (arp_other sample_filter (arp_world [sample_entry] sample_frame) _ _); sample_tac.
  - refine (arp_other sample_filter (arp_world [sample_zero] sample_frame) _ _); sample_tac.
Defined.

Lemma arp_total_witness :
  exists r w', arp_respond sample_filter (arp_world [] (replicate 30 8)) = Some (r, w').
Proof. apply arp_total. sample_tac. Defined.
End Witnesses.
