(* ===== verification/ArpNetwork.v ===== *)
(** ARP responders that hear each other. *)

From S2P Require Import Prelude CInt Memory Pna P4Spec Pipeline Steps Headers Deparse Chain.
From S2P Require Import Samples ArpRespond.

Section Network.
Context `{BO : ByteOrder}.

(** What a responder sends out of a port is a reply. *)
Lemma arp_sends_replies `{K : P4tcKernel} `{!P4tcKernelOk K} filter
    (w w' : world my_ingress_headers_t my_ingress_metadata_t) r port
    macs hd oper sha spa tha tpa payload :
  arrives w -> is_arp_frame macs hd oper sha spa tha tpa payload (skb_data (w_skb w)) ->
  arp_respond filter w = Some (r, w') -> r <> TC_ACT_SHOT -> w_redirect w' = Some (port, 0) ->
  oper = [0; 1] /\ port = u32 (skb_ifindex (w_skb w)) /\
  exists rmac, is_arp_frame (drop 6 macs ++ rmac) hd [0; 2] rmac tpa sha tpa payload
                 (skb_data (w_skb w')).
Proof.
  intros Ha Hf E Hr Hw.
  pose proof (implements w Ha : behaves _ w (arp_respond filter w)) as Hb.
  assert (Hno : ~ shot (arp_respond filter w)) by (intros (w1 & E1); congruence).
  destruct (decide (oper = [0; 1])) as [->|Hn].
  2: { rewrite (arp_spec_not_request filter w _ _ _ _ _ _ _ _ Ha Hf Hn) in Hb. done. }
  split; [done|]. rewrite (arp_spec_frame filter w _ _ _ _ _ _ _ Ha Hf) in Hb.
  destruct (arp_action _) as [rmac| |]; [|done|].
  - destruct Hb as [[Hs _]|(r1 & w1 & E1 & Hd & _ & Hp)]; [done|].
    rewrite E in E1. injection E1 as <- <-. rewrite Hw in Hp.
    destruct (u32 _ =? 0); [by destruct Hp as (_ & [= ?] & _)|].
    destruct Hp as (_ & [= Hp]). split; [exact Hp|]. exists (take 6 (host_bytes 8 rmac)).
    destruct Hf as [_ Hm Hh _ H1 H2 H3 H4]. split; try assumption; try reflexivity.
    + rewrite length_app, length_drop, length_take, length_host_bytes. lia.
    + by rewrite length_take, length_host_bytes.
  - destruct Hb as [[Hs _]|(r1 & w1 & E1 & _ & _ & Hp)]; [done|].
    rewrite E in E1. injection E1 as <- <-. rewrite Hw in Hp. by destruct Hp as (_ & [= ?] & _).
Qed.

(** C16: responders do not answer each other.  What a responder sends out of a
    device for an ARP packet leaves through the device it came from, and is
    dropped by every responder that hears it, the same one included, whatever
    the tables of either are. *)
Theorem arp_no_storm {K1 K2 : P4tcKernel} `{!P4tcKernelOk K1} `{!P4tcKernelOk K2} filter1 filter2
    (w1 w1' : @world K1 my_ingress_headers_t my_ingress_metadata_t) r port
    (w2 : @world K2 my_ingress_headers_t my_ingress_metadata_t)
    macs hd oper sha spa tha tpa payload :
  arrives w1 -> is_arp_frame macs hd oper sha spa tha tpa payload (skb_data (w_skb w1)) ->
  arp_respond filter1 w1 = Some (r, w1') -> r <> TC_ACT_SHOT -> w_redirect w1' = Some (port, 0) ->
  arrives w2 -> skb_data (w_skb w2) = skb_data (w_skb w1') ->
  port = u32 (skb_ifindex (w_skb w1)) /\ shot (arp_respond filter2 w2).
Proof.
  intros Ha1 Hf E Hr Hw Ha2 Hd.
  destruct (arp_sends_replies filter1 w1 w1' r port _ _ _ _ _ _ _ _ Ha1 Hf E Hr Hw)
    as (_ & Hp & rmac & Hf'). split; [exact Hp|]. rewrite <- Hd in Hf'.
  apply (implements_discard (arp_respond filter2) (arp_respond_spec filter2)); [exact Ha2|].
  by apply (arp_spec_not_request filter2 w2 _ _ _ _ _ _ _ _ Ha2 Hf').
Qed.
End Network.

(** ** The theorem at a concrete request *)

Section Witnesses.
Definition asked : world my_ingress_headers_t my_ingress_metadata_t :=
  arp_world [sample_entry] (sample_arp [0; 1]).
Definition answered : world my_ingress_headers_t my_ingress_metadata_t :=
  match arp_respond sample_filter asked with Some (_, w) => w | None => asked end.

Lemma arp_no_storm_witness :
  2 = u32 (skb_ifindex (w_skb asked)) /\
  shot (arp_respond sample_filter (arp_world [sample_entry] (skb_data (w_skb answered)))).
Proof.
  refine (arp_no_storm sample_filter sample_filter asked answered 7 2 _
    [255; 255; 255; 255; 255; 255; 2; 0; 0; 0; 0; 1] [0; 1; 8; 0; 6; 4] [0; 1]
    [2; 0; 0; 0; 0; 1] [10; 0; 0; 1] [0; 0; 0; 0; 0; 0] [10; 0; 0; 2] [0; 0] _ _ _ _ _ _ _).
  - sample_tac.
  - split; reflexivity.
  - vm_compute. reflexivity.
  - discriminate.
  - vm_compute. reflexivity.
  - sample_tac.
  - reflexivity.
Defined.
End Witnesses.
