(* ===== verification/Ipv6.v ===== *)
(** The IPv6 header of flowtracker_ipv6_parser.h: the struct, its extraction
    and its emission, and that they implement the P4 header type.

    Unlike the other headers its addresses are arrays, which are moved byte
    by byte, and three fields share its first four bytes. *)

From S2P Require Import Prelude CInt Memory Pna P4Spec Pipeline Steps Headers Deparse Samples.

(** ** Data *)

Record ipv6_t := {
  ip6_version : Z;          (* u8 *)
  ip6_traffiClass : Z;      (* u8 *)
  ip6_flowLabel : Z;        (* u32 *)
  ip6_payloadLen : Z;       (* u16 *)
  ip6_nextHdr : Z;          (* u8 *)
  ip6_hopLimit : Z;         (* u8 *)
  ip6_srcAddr : list Z;     (* u8[16] *)
  ip6_dstAddr : list Z;     (* u8[16] *)
  ip6_valid : Z             (* u8 ebpf_valid *)
}.

Definition ipv6_0 : ipv6_t := Build_ipv6_t 0 0 0 0 0 0 (replicate 16 0) (replicate 16 0) 0.

(** ** Extraction *)

Section Extract.
Context `{BO : ByteOrder} {H : Type}.

(** [x[i] = (u8)((load_byte(pkt, BYTES(ebpf_packetOffsetInBits) + i) >> 0));]
    for the elements [i .. i + n - 1] of an array. *)
Fixpoint load_array_from (i n : nat) : P H (list Z) :=
  match n with
  | O => ret []
  | S n =>
    b <- load_byte_at (Z.of_nat i) ;;
    bs <- load_array_from (S i) n ;;
    ret (u8 (Z.shiftr b 0) :: bs)
  end.

Definition extract_ipv6 : P H ipv6_t :=
  require 320 ;;
  version <- load_byte_at 0 ;;
  advance 4 ;;
  traffiClass <- load_half_at 0 ;;
  advance 8 ;;
  flowLabel <- load_word_at 0 ;;
  advance 20 ;;
  payloadLen <- load_half_at 0 ;;
  advance 16 ;;
  nextHdr <- load_byte_at 0 ;;
  advance 8 ;;
  hopLimit <- load_byte_at 0 ;;
  advance 8 ;;
  srcAddr <- load_array_from 0 16 ;;
  advance 128 ;;
  dstAddr <- load_array_from 0 16 ;;
  advance 128 ;;
  hdr_start_advance 320 ;;
  ret {| ip6_version := u8 (Z.land (Z.shiftr version 4) (EBPF_MASK 4));
         ip6_traffiClass := u8 (Z.land (Z.shiftr traffiClass 4) (EBPF_MASK 8));
         ip6_flowLabel := u32 (Z.land (Z.shiftr flowLabel 8) (EBPF_MASK 20));
         ip6_payloadLen := u16 payloadLen;
         ip6_nextHdr := u8 nextHdr;
         ip6_hopLimit := u8 hopLimit;
         ip6_srcAddr := srcAddr;
         ip6_dstAddr := dstAddr;
         ip6_valid := 1 |}.
End Extract.

(** ** Emission *)

Section Emit.
Context `{BO : ByteOrder} `{K : P4tcKernel} {H U : Type}.

(** [ebpf_byte = ((char* )(&x))[i]; write_byte(pkt, BYTES(...) + i, ebpf_byte);]
    for the elements [i .. i + n - 1] of an array. *)
Fixpoint write_array_from (x : list Z) (i n : nat) : X H U unit :=
  match n with
  | O => ret tt
  | S n => write_byte_at (Z.of_nat i) (nth i x 0) ;; write_array_from x (S i) n
  end.

Definition emit_ipv6 (ip : ipv6_t) : X H U ipv6_t :=
  require_out 320 ;;
  write_partial_at 0 4 4 (Z.shiftr (byte_of 1 (ip6_version ip) 0) 0) ;;
  advance_out 4 ;;
  write_partial_at 0 4 0 (Z.shiftr (byte_of 1 (ip6_traffiClass ip) 0) 4) ;;
  write_partial_at 1 4 4 (byte_of 1 (ip6_traffiClass ip) 0) ;;
  advance_out 8 ;;
  let flowLabel := bpf_htonl (u32 (Z.shiftl (ip6_flowLabel ip) 12)) in
  write_partial_at 0 4 0 (Z.shiftr (byte_of 4 flowLabel 0) 4) ;;
  write_partial_at 1 4 4 (byte_of 4 flowLabel 0) ;;
  write_partial_at 1 4 0 (Z.shiftr (byte_of 4 flowLabel 1) 4) ;;
  write_partial_at 2 4 4 (byte_of 4 flowLabel 1) ;;
  write_partial_at 2 4 0 (Z.shiftr (byte_of 4 flowLabel 2) 4) ;;
  advance_out 20 ;;
  let payloadLen := bpf_htons (ip6_payloadLen ip) in
  write_object 2 2 payloadLen ;;
  advance_out 16 ;;
  write_object 1 1 (ip6_nextHdr ip) ;;
  advance_out 8 ;;
  write_object 1 1 (ip6_hopLimit ip) ;;
  advance_out 8 ;;
  write_array_from (ip6_srcAddr ip) 0 16 ;;
  advance_out 128 ;;
  write_array_from (ip6_dstAddr ip) 0 16 ;;
  advance_out 128 ;;
  ret { ip with ip6_flowLabel := flowLabel; ip6_payloadLen := payloadLen }.

(** The block [if (hdr->ipv6.ebpf_valid) { ... }]. *)
Definition emit_ipv6_block (get : H -> ipv6_t) (set : ipv6_t -> H -> H) : X H U unit :=
  hdr <- get_headers ;;
  when (is_valid (ip6_valid (get hdr)))
    (ip <- emit_ipv6 (get hdr) ;; set_headers (set ip hdr)).
End Emit.

(** ** The P4 header type *)

Definition ipv6_widths : widths := [4; 8; 20; 16; 8; 8; 128; 128]%nat.

Definition ipv6_fields (ip : ipv6_t) : list Z :=
  [ip6_version ip; ip6_traffiClass ip; ip6_flowLabel ip; ip6_payloadLen ip;
   ip6_nextHdr ip; ip6_hopLimit ip; be_val (ip6_srcAddr ip); be_val (ip6_dstAddr ip)].

Definition ipv6_of_fields (vs : list Z) : ipv6_t :=
  match vs with
  | [v; tc; fl; pl; nh; hl; src; dst] =>
    Build_ipv6_t v tc fl pl nh hl (be_bytes 16 src) (be_bytes 16 dst) 1
  | _ => ipv6_0
  end.

Definition ipv6_of_bytes (bs : list Z) : ipv6_t := ipv6_of_fields (p4_extract ipv6_widths bs).
Definition ipv6_to_bytes (ip : ipv6_t) : list Z := p4_emit ipv6_widths (ipv6_fields ip).

(** Every field holds a value of its width, every array its 16 bytes. *)
Definition is_addr (l : list Z) : Prop := length l = 16%nat /\ bytes l.
Definition wf_ipv6 (ip : ipv6_t) : Prop :=
  Forall2 fits ipv6_widths (ipv6_fields ip) /\
  is_addr (ip6_srcAddr ip) /\ is_addr (ip6_dstAddr ip).

(** ** The three fields of the first word *)

Lemma be_val_4 b0 b1 b2 b3 :
  be_val [b0; b1; b2; b3] = b0 * 16777216 + b1 * 65536 + b2 * 256 + b3.
Proof. unfold be_val. cbn. lia. Qed.

Lemma p4_extract_4_8_20 b0 b1 b2 b3 :
  bytes [b0; b1; b2; b3] ->
  p4_extract [4; 8; 20]%nat [b0; b1; b2; b3]
  = [b0 / 16; b0 mod 16 * 16 + b1 / 16; b1 mod 16 * 65536 + b2 * 256 + b3].
Proof.
  intros Hb. split_bytes Hb. unfold p4_extract. rewrite be_val_4. cbn [p4_fields].
  change (2 ^ Z.of_nat (total [8; 20]%nat)) with 268435456.
  change (2 ^ Z.of_nat (total [20]%nat)) with 1048576.
  change (2 ^ Z.of_nat (total [])) with 1. rewrite Z.div_1_r.
  unfold is_byte in *.
  f_equal; [|f_equal; [|f_equal]]; Z.to_euclidean_division_equations; lia.
Qed.

Lemma p4_emit_4_8_20 v t f :
  0 <= v < 16 -> 0 <= t < 256 -> 0 <= f < 2 ^ 20 ->
  p4_emit [4; 8; 20]%nat [v; t; f]
  = [v * 16 + t / 16; t mod 16 * 16 + f / 65536; f / 256 mod 256; f mod 256].
Proof.
  intros Hv Ht Hf. change (2 ^ 20) with 1048576 in Hf. unfold p4_emit. cbn [p4_pack].
  change (be_bytes (total [4; 8; 20]%nat / 8)) with (be_bytes 4).
  change (2 ^ Z.of_nat (total [8; 20]%nat)) with 268435456.
  change (2 ^ Z.of_nat (total [20]%nat)) with 1048576.
  change (2 ^ Z.of_nat (total [])) with 1.
  unfold be_bytes. cbn [le_bytes rev app].
  f_equal; [|f_equal; [|f_equal; [|f_equal]]]; Z.to_euclidean_division_equations; lia.
Qed.

(** ** Extraction implements the header type *)

Section ExtractSpec.
Context `{BO : ByteOrder} {H : Type}.
Implicit Types (h : H) (a l : list Z).

Lemma load_nat_1 l i b : l !! i = Some b -> load_nat l i 1 = Some [b].
Proof. intros E. cbn [load_nat]. by rewrite E. Qed.

Lemma load_array_from_app (s : pstate H) a l c i n :
  0 <= c -> bytes l -> (Z.to_nat (c / 8) + i + n <= length l)%nat ->
  load_array_from i n (cursor_in s a l c)
  = Ret (slice (Z.to_nat (c / 8) + i) n l) (cursor_in s a l c).
Proof.
  intros Hc Hb. assert (Hc8 : 0 <= c / 8) by (apply Z.div_pos; lia).
  revert i; induction n as [|n IH]; intros i Hl; [done|]. cbn [load_array_from].
  destruct (lookup_lt_is_Some_2 l (Z.to_nat (c / 8) + i)) as [b Eb]; [lia|].
  rewrite (bind_Ret _ _ _ b _ (load_byte_at_app s a l c (Z.of_nat i) b Hc ltac:(lia)
    ltac:(apply load_nat_1; rewrite <- Eb; f_equal; lia))).
  rewrite (bind_Ret _ _ _ _ _ (IH (S i) ltac:(lia))). unfold ret.
  rewrite Z.shiftr_0_r, u8_byte by (by eapply bytes_lookup).
  unfold slice. rewrite (drop_S _ _ _ Eb). cbn [take]. by rewrite <- Nat.add_succ_r.
Qed.

Lemma ipv6_of_bytes_parts b0 b1 b2 b3 b4 b5 b6 b7 src dst :
  length src = 16%nat -> length dst = 16%nat ->
  bytes ([b0; b1; b2; b3; b4; b5; b6; b7] ++ src ++ dst) ->
  ipv6_of_bytes ([b0; b1; b2; b3; b4; b5; b6; b7] ++ src ++ dst)
  = Build_ipv6_t (b0 / 16) (b0 mod 16 * 16 + b1 / 16) (b1 mod 16 * 65536 + b2 * 256 + b3)
      (be_val [b4; b5]) b6 b7 src dst 1.
Proof.
  intros Hs Hd Hb. rewrite !bytes_app in Hb. destruct Hb as (Hb & Bs & Bd). split_bytes Hb.
  unfold ipv6_of_bytes.
  assert (Bsd : bytes (src ++ dst)) by by apply bytes_app.
  assert (Lsd : length (src ++ dst) = 32%nat) by (by rewrite length_app, Hs, Hd).
  pose proof (p4_extract_app [4; 8; 20]%nat [16; 8; 8; 128; 128]%nat [b0; b1; b2; b3]
    ([b4; b5; b6; b7] ++ src ++ dst) eq_refl ltac:(by rewrite length_app, Lsd)
    ltac:(solve_bytes) ltac:(apply bytes_app; split; [solve_bytes|done])) as E1.
  pose proof (p4_extract_cons 2 [8; 8; 128; 128]%nat [b4; b5] ([b6; b7] ++ src ++ dst)
    eq_refl ltac:(by rewrite length_app, Lsd)
    ltac:(solve_bytes) ltac:(apply bytes_app; split; [solve_bytes|done])) as E2.
  pose proof (p4_extract_cons 1 [8; 128; 128]%nat [b6] ([b7] ++ src ++ dst)
    eq_refl ltac:(by rewrite length_app, Lsd)
    ltac:(solve_bytes) ltac:(apply bytes_app; split; [solve_bytes|done])) as E3.
  pose proof (p4_extract_cons 1 [128; 128]%nat [b7] (src ++ dst) eq_refl ltac:(by rewrite Lsd)
    ltac:(solve_bytes) Bsd) as E4.
  pose proof (p4_extract_cons 16 [128]%nat src dst Hs ltac:(by rewrite Hd) Bs Bd) as E5.
  rewrite p4_extract_1 in E5. cbn [app Nat.mul Nat.add] in E1, E2, E3, E4, E5 |- *.
  unfold ipv6_widths. rewrite E1, E2, E3, E4, E5, p4_extract_4_8_20 by solve_bytes.
  cbn [app ipv6_of_fields]. rewrite !be_val_1.
  pose proof (be_bytes_be_val src Bs) as Es. pose proof (be_bytes_be_val dst Bd) as Ed.
  rewrite Hs in Es. rewrite Hd in Ed. by rewrite Es, Ed.
Qed.

Lemma traffiClass_of_half b0 b1 :
  is_byte b0 -> is_byte b1 ->
  u8 (Z.land (Z.shiftr (be_val [b0; b1]) 4) (EBPF_MASK 8)) = b0 mod 16 * 16 + b1 / 16.
Proof.
  intros H0 H1. rewrite EBPF_MASK_ones, Z.land_ones, Z.shiftr_div_pow2, be_val_2 by lia.
  unfold u8, is_byte in *. change (2 ^ 4) with 16. change (2 ^ 8) with 256.
  Z.to_euclidean_division_equations. lia.
Qed.

Lemma flowLabel_of_word b1 b2 b3 b4 :
  bytes [b1; b2; b3; b4] ->
  u32 (Z.land (Z.shiftr (be_val [b1; b2; b3; b4]) 8) (EBPF_MASK 20))
  = b1 mod 16 * 65536 + b2 * 256 + b3.
Proof.
  intros Hb. split_bytes Hb.
  rewrite EBPF_MASK_ones, Z.land_ones, Z.shiftr_div_pow2, be_val_4 by lia.
  unfold u32, is_byte in *. change (2 ^ 8) with 256. change (2 ^ 20) with 1048576.
  change (2 ^ 32) with 4294967296.
  Z.to_euclidean_division_equations. lia.
Qed.

(** The parts of 40 bytes. *)
Lemma ipv6_split (b : list Z) :
  length b = 40%nat ->
  exists hd src dst, b = hd ++ src ++ dst /\
    length hd = 8%nat /\ length src = 16%nat /\ length dst = 16%nat.
Proof.
  intros Hl. exists (take 8 b), (slice 8 16 b), (drop 24 b).
  unfold slice. change 24%nat with (8 + 16)%nat. rewrite <- drop_drop, !take_drop.
  rewrite length_drop, !length_take, !length_drop. repeat split; lia.
Qed.

Lemma extract_ipv6_ok err h a b l :
  length b = 40%nat -> bytes b -> bytes l -> small a ->
  extract_ipv6 (boundary err h a (b ++ l)) = Ret (ipv6_of_bytes b) (boundary err h (a ++ b) l).
Proof.
  intros Hl Hb Hbl Ha. rewrite <- (boundary_next err h a b l 40 320 (ipv6_of_bytes b)) by done.
  unfold extract_ipv6.
  erewrite bind_Ret by (apply (boundary_require _ _ _ _ 40); [done|rewrite length_app; lia]).
  assert (Hbb : bytes (b ++ l)) by by apply bytes_app.
  assert (Hlen : (40 <= length (b ++ l))%nat) by (rewrite length_app; lia).
  assert (Hlen' : (24 <= length (b ++ l))%nat) by lia.
  destruct (ipv6_split b Hl) as (hd & src & dst & Eb & H8 & Hs & Hd).
  assert (Esrc : slice 8 16 (b ++ l) = src).
  { rewrite Eb, <- !app_assoc. rewrite (slice_app _ _ 8 8) by (done || lia). by apply slice_0. }
  assert (Edst : slice 24 16 (b ++ l) = dst).
  { rewrite Eb, <- !app_assoc. rewrite (slice_app _ _ 8 24), (slice_app _ _ 16 (24 - 8)) by (done || lia).
    by apply slice_0. }
  destruct_length hd H8. rewrite Eb in Hb |- *. rewrite ipv6_of_bytes_parts by done.
  apply bytes_app in Hb as [Hh _]. split_bytes Hh.
  revert Esrc Edst Hbb Hlen Hlen'. rewrite Eb. cbn [app]. generalize ((src ++ dst) ++ l). intros r E1 E2 Hbb Hlen Hlen'.
  unfold boundary. repeat pstep.
  rewrite (bind_Ret _ _ _ _ _ (load_array_from_app _ a _ 64 0 16 ltac:(lia) Hbb Hlen')).
  change (Z.to_nat (64 / 8) + 0)%nat with 8%nat. rewrite E1. pstep.
  rewrite (bind_Ret _ _ _ _ _ (load_array_from_app _ a _ 192 0 16 ltac:(lia) Hbb Hlen)).
  change (Z.to_nat (192 / 8) + 0)%nat with 24%nat. rewrite E2. pstep.
  rewrite u8_high, traffiClass_of_half, flowLabel_of_word, u16_be_val, !u8_byte
    by (assumption || lia || solve_bytes). reflexivity.
Qed.

Lemma extract_ipv6_short err h a l :
  (length l < 40)%nat ->
  extract_ipv6 (boundary err h a l) = Exit reject (boundary PacketTooShort h a l).
Proof. intros Hl. apply bind_Exit. by apply (boundary_short _ _ _ _ 40). Qed.

Lemma extract_ipv6_at err h data n :
  bytes data -> small data ->
  extract_ipv6 (at_pos err h data n)
  = if (length (drop n data) <? 40)%nat then Exit reject (at_pos PacketTooShort h data n)
    else Ret (ipv6_of_bytes (slice n 40 data)) (at_pos err h data (n + 40)).
Proof.
  intros Hb Hs. destruct (Nat.ltb_spec (length (drop n data)) 40) as [Hl|Hl].
  - by apply extract_ipv6_short.
  - rewrite length_drop in Hl. rewrite (at_pos_slice err h data n 40).
    rewrite extract_ipv6_ok; [|apply length_slice; lia|by apply slice_bytes
                              |by apply Forall_drop|by apply small_take].
    by rewrite at_pos_next.
Qed.
End ExtractSpec.

(** ** Emission implements the header type *)

Section EmitSpec.
Context `{BO : ByteOrder} `{K : P4tcKernel} {H U : Type}.
Implicit Types (s : xstate H U) (a l : list Z).

(** An array is written like an object with the same bytes. *)
Lemma write_array_object (x : list Z) i n (s : xstate H U) :
  bytes x ->
  write_array_from x i n s = write_object_from (length x) (host_val x) i n s.
Proof.
  intros Hb. revert i s; induction n as [|n IH]; intros i s; [done|].
  cbn [write_array_from write_object_from]. unfold byte_of. rewrite host_bytes_host_val by done.
  unfold bind. destruct (write_byte_at _ _ s); auto.
Qed.

Lemma emit_addr {A} x s a l (k : unit -> X H U A) :
  is_addr x -> (16 <= length l)%nat -> small a ->
  bind (write_array_from x 0 16) (fun _ => bind (advance_out 128) k) (cursor_out s a l 0)
  = k tt (cursor_out s (a ++ x) (drop 16 l) 0).
Proof.
  intros [Hl Hb] Hll Ha.
  transitivity (bind (write_object 16 16 (host_val x))
    (fun _ => bind (advance_out 128) k) (cursor_out s a l 0)).
  - unfold bind at 1 3. rewrite write_array_object by exact Hb. by rewrite Hl.
  - rewrite emit_object by (done || lia). rewrite <- Hl at 2. rewrite host_bytes_host_val by exact Hb.
    by rewrite take_ge by lia.
Qed.

(** Writing both halves of a byte leaves nothing of what was there. *)
Lemma partial_nibbles old x y :
  is_byte old -> is_byte x -> 0 <= y < 16 ->
  partial_byte (partial_byte old 4 4 x) 4 0 y = x mod 16 * 16 + y.
Proof.
  intros Ho Hx Hy. rewrite partial_4_4 by done. unfold is_byte in *.
  rewrite partial_4_0; [|unfold is_byte; Z.to_euclidean_division_equations; lia|done].
  Z.to_euclidean_division_equations. lia.
Qed.

(** The two kinds of step, on a buffer whose first bytes are given. *)
Ltac partial_step :=
  erewrite bind_Ret by (eapply write_partial_at_app; [lia|lia|reflexivity]);
  match goal with
  | |- context [Z.to_nat (?c / 8 + ?k)] =>
    let n := eval vm_compute in (Z.to_nat (c / 8 + k)) in
    change (Z.to_nat (c / 8 + k)) with n
  end; cbn [insert list_insert].

Ltac advance_step :=
  match goal with
  | |- bind (advance_out ?k) _ (cursor_out ?s ?a ?l ?c) = _ =>
    let c' := eval vm_compute in (c + k) in
    rewrite (bind_Ret _ _ _ _ _ (advance_out_app s a l c k c' eq_refl ltac:(assumption) ltac:(lia)))
  end.

(** The 4-bit, the 8-bit and the 20-bit field. *)
Lemma emit_version_class_label {A} v t f s a o0 o1 o2 o3 l (k : unit -> X H U A) :
  bytes [o0; o1; o2; o3] -> 0 <= v < 16 -> 0 <= t < 256 -> 0 <= f < 2 ^ 20 -> small a ->
  let fl := bpf_htonl (u32 (Z.shiftl f 12)) in
  bind (write_partial_at 0 4 4 (Z.shiftr (byte_of 1 v 0) 0)) (fun _ =>
  bind (advance_out 4) (fun _ =>
  bind (write_partial_at 0 4 0 (Z.shiftr (byte_of 1 t 0) 4)) (fun _ =>
  bind (write_partial_at 1 4 4 (byte_of 1 t 0)) (fun _ =>
  bind (advance_out 8) (fun _ =>
  bind (write_partial_at 0 4 0 (Z.shiftr (byte_of 4 fl 0) 4)) (fun _ =>
  bind (write_partial_at 1 4 4 (byte_of 4 fl 0)) (fun _ =>
  bind (write_partial_at 1 4 0 (Z.shiftr (byte_of 4 fl 1) 4)) (fun _ =>
  bind (write_partial_at 2 4 4 (byte_of 4 fl 1)) (fun _ =>
  bind (write_partial_at 2 4 0 (Z.shiftr (byte_of 4 fl 2) 4)) (fun _ =>
  bind (advance_out 20) k)))))))))) (cursor_out s a (o0 :: o1 :: o2 :: o3 :: l) 0)
  = k tt (cursor_out s (a ++ [v * 16 + t / 16; t mod 16 * 16 + f / 65536; f / 256 mod 256; f mod 256])
            l 0).
Proof.
  intros Hb Hv Ht Hf Ha. split_bytes Hb. cbn zeta. unfold bpf_htonl. rewrite !byte_of_ntoh.
  rewrite !byte_of_1 by (unfold is_byte; lia). rewrite Z.shiftr_0_r.
  change (2 ^ 20) with 1048576 in Hf.
  assert (Hfl : be_bytes 4 (u32 (Z.shiftl f 12)) = [f / 4096; f / 16 mod 256; f mod 16 * 16; 0]).
  { rewrite Z.shiftl_mul_pow2 by lia. unfold u32, be_bytes. cbn [le_bytes rev app].
    change (2 ^ 12) with 4096. change (2 ^ 32) with 4294967296.
    f_equal; [|f_equal; [|f_equal; [|f_equal]]]; Z.to_euclidean_division_equations; lia. }
  rewrite Hfl. cbn [nth].
  assert (Hf0 : 0 <= f / 4096 < 256) by (Z.to_euclidean_division_equations; lia).
  assert (Hf1 : 0 <= f / 16 mod 256 < 256) by (Z.to_euclidean_division_equations; lia).
  rewrite !Z.shiftr_div_pow2 by lia. change (2 ^ 4) with 16.
  assert (Ht0 : 0 <= t / 16 < 16) by (Z.to_euclidean_division_equations; lia).
  partial_step; advance_step. do 2 partial_step; advance_step. do 5 partial_step; advance_step.
  rewrite !partial_nibbles by (unfold is_byte in *; try assumption; Z.to_euclidean_division_equations; lia).
  rewrite (Z.mod_small v 16) by lia.
  etransitivity; [exact (f_equal (k tt) (cursor_out_shift s a [_; _; _; _] l 4 32 eq_refl eq_refl))|].
  do 3 f_equal. repeat match goal with |- _ :: _ = _ :: _ => f_equal end;
    Z.to_euclidean_division_equations; lia.
Qed.

Lemma ipv6_to_bytes_explicit ip :
  wf_ipv6 ip ->
  ipv6_to_bytes ip
  = [ip6_version ip * 16 + ip6_traffiClass ip / 16;
     ip6_traffiClass ip mod 16 * 16 + ip6_flowLabel ip / 65536;
     ip6_flowLabel ip / 256 mod 256; ip6_flowLabel ip mod 256]
    ++ be_bytes 2 (ip6_payloadLen ip) ++ be_bytes 1 (ip6_nextHdr ip)
    ++ be_bytes 1 (ip6_hopLimit ip) ++ ip6_srcAddr ip ++ ip6_dstAddr ip.
Proof.
  intros (Hf & [Ls Bs] & [Ld Bd]). unfold ipv6_to_bytes, ipv6_widths, ipv6_fields in *.
  rewrite !List.Forall2_cons_iff in Hf. destruct Hf as (Hv & Ht & Hl & Hp & Hn & Hh & Hs & Hd & _).
  pose proof (p4_emit_app [4; 8; 20]%nat [16; 8; 8; 128; 128]%nat
    [ip6_version ip; ip6_traffiClass ip; ip6_flowLabel ip]
    [ip6_payloadLen ip; ip6_nextHdr ip; ip6_hopLimit ip; be_val (ip6_srcAddr ip); be_val (ip6_dstAddr ip)]
    eq_refl eq_refl ltac:(solve_fits) ltac:(solve_fits)) as E. cbn [app] in E. rewrite E.
  rewrite p4_emit_4_8_20 by done.
  rewrite (p4_emit_cons 2), !(p4_emit_cons 1), (p4_emit_cons 16), (p4_emit_1 16)
    by (done || solve_fits).
  pose proof (be_bytes_be_val _ Bs) as Es. pose proof (be_bytes_be_val _ Bd) as Ed.
  rewrite Ls in Es. rewrite Ld in Ed. by rewrite Es, Ed.
Qed.

Lemma emit_ipv6_ok s ip a old l :
  wf_ipv6 ip -> length old = 40%nat -> bytes old -> tiny a ->
  emit_ipv6 ip (cursor_out s a (old ++ l) 0)
  = Ret { ip with ip6_flowLabel := bpf_htonl (u32 (Z.shiftl (ip6_flowLabel ip) 12));
                  ip6_payloadLen := bpf_htons (ip6_payloadLen ip) }
      (cursor_out s (a ++ ipv6_to_bytes ip) l 0).
Proof.
  intros Hip Ho Hb Ha. rewrite ipv6_to_bytes_explicit by done. unfold emit_ipv6.
  erewrite bind_Ret
    by (apply (require_out_app _ _ _ 40); [done|solve_small|lia|rewrite length_app; lia]).
  destruct Hip as (Hf & Hs & Hd). unfold ipv6_widths, ipv6_fields in Hf.
  rewrite !List.Forall2_cons_iff in Hf. destruct Hf as (Hv & Ht & Hl & Hp & Hn & Hh & _).
  destruct (ipv6_split old Ho) as (hd & src & dst & -> & H8 & Ls & Ld).
  apply bytes_app in Hb as [Hb _]. destruct_length hd H8. split_bytes Hb.
  rewrite <- app_assoc. cbn [app]. cbn zeta.
  rewrite emit_version_class_label by (done || solve_small || solve_bytes).
  do 3 (rewrite emit_object by (done || solve_small); cbn [drop]).
  rewrite drop_0, <- !app_assoc. pose proof (proj1 Hs) as Hs1. pose proof (proj1 Hd) as Hd1.
  rewrite emit_addr by (done || solve_small). rewrite (drop_app_length' src) by done.
  rewrite emit_addr by (done || solve_small). rewrite (drop_app_length' dst) by done.
  unfold bpf_htons. rewrite !take_host_bytes, !host_bytes_ntoh, !host_bytes_1.
  by rewrite <- !app_assoc.
Qed.

Lemma length_ipv6_to_bytes ip : length (ipv6_to_bytes ip) = 40%nat.
Proof. apply length_p4_emit. Qed.
End EmitSpec.

(** ** Emission restores the bytes *)

Lemma ipv6_of_bytes_ok bs :
  length bs = 40%nat -> bytes bs ->
  wf_ipv6 (ipv6_of_bytes bs) /\ ipv6_to_bytes (ipv6_of_bytes bs) = bs /\
  ip6_valid (ipv6_of_bytes bs) = 1.
Proof.
  intros Hl Hb. pose proof (p4_extract_fit ipv6_widths bs ltac:(by rewrite Hl) Hb) as Hf.
  destruct (ipv6_split bs Hl) as (hd & src & dst & Eb & H8 & Hs & Hd).
  assert (Eip : ipv6_fields (ipv6_of_bytes bs) = p4_extract ipv6_widths bs /\
                is_addr (ip6_srcAddr (ipv6_of_bytes bs)) /\
                is_addr (ip6_dstAddr (ipv6_of_bytes bs)) /\ ip6_valid (ipv6_of_bytes bs) = 1).
  { unfold ipv6_of_bytes. pose proof (Forall2_length Hf) as Hlen. symmetry in Hlen.
    destruct (p4_extract ipv6_widths bs) as [|v vs]; [done|].
    injection Hlen as Hlen. destruct_length vs Hlen.
    unfold ipv6_widths in Hf. rewrite !List.Forall2_cons_iff in Hf.
    destruct Hf as (_&_&_&_&_&_&Hsr&Hds&_).
    unfold ipv6_of_fields, ipv6_fields, is_addr.
    cbn [ip6_version ip6_traffiClass ip6_flowLabel ip6_payloadLen ip6_nextHdr ip6_hopLimit
         ip6_srcAddr ip6_dstAddr ip6_valid].
    rewrite !be_val_be_bytes, !length_be_bytes.
    rewrite (Z.mod_small x4), (Z.mod_small x5) by assumption.
    split_and!; try reflexivity; apply bytes_rev, bytes_le_bytes. }
  destruct Eip as (Ef & Hsa & Hda & Hv). split; [|split; [|done]].
  - split; [by rewrite Ef|by split].
  - unfold ipv6_to_bytes. rewrite Ef. apply p4_emit_extract; [by rewrite Hl|done].
Qed.

Lemma wf_ipv6_0 : wf_ipv6 ipv6_0.
Proof.
  assert (Ha : is_addr (replicate 16 0))
    by (split; [done|apply Forall_replicate; unfold is_byte; lia]).
  split; [|by split]. unfold ipv6_widths, ipv6_fields.
  repeat (apply List.Forall2_cons; [unfold fits; vm_compute; split; [discriminate|reflexivity]|]).
  apply List.Forall2_nil.
Qed.

(** ** The emission block *)

Section Block.
Context `{BO : ByteOrder} `{K : P4tcKernel} {H U : Type}.

Definition out_ipv6 (ip : ipv6_t) : list Z :=
  if is_valid (ip6_valid ip) then ipv6_to_bytes ip else [].

Lemma length_out_ipv6 ip :
  length (out_ipv6 ip) = if is_valid (ip6_valid ip) then 40%nat else 0%nat.
Proof. unfold out_ipv6. case_match; [apply length_ipv6_to_bytes|done]. Qed.

Lemma emits_ipv6 (get : H -> ipv6_t) set :
  emits (U := U) (emit_ipv6_block get set) (fun h => wf_ipv6 (get h))
    (fun h => out_ipv6 (get h)) (updates set).
Proof.
  intros s a l Hp Hb Ht Hl. unfold emit_ipv6_block.
  rewrite (bind_Ret _ _ _ _ _ (get_headers_out _ _ _ _)).
  rewrite length_out_ipv6 in *. unfold out_ipv6, when in *.
  destruct (is_valid (ip6_valid (get (x_hdr s)))).
  - eexists. split; [right; eexists; reflexivity|].
    rewrite <- (take_drop 40 l) at 1.
    rewrite (bind_Ret _ _ _ _ _ (emit_ipv6_ok s _ a (take 40 l) (drop 40 l) Hp
      ltac:(rewrite length_take; lia) (Forall_take _ _ _ Hb)
      ltac:(unfold tiny in *; rewrite length_app in Ht; lia))).
    apply set_headers_out.
  - exists (x_hdr s). split; [by left|]. rewrite app_nil_r, drop_0. by destruct s.
Qed.
End Block.

(** ** The header round trip *)

(** C21: the IPv6 header survives the program: [extract_ipv6] reads any forty
    bytes of a packet into a header whose fields fit their P4 widths, and
    [emit_ipv6] of that header writes the same forty bytes, without touching
    what is around them; neither reads or writes outside of its buffer. *)
Theorem ipv6_roundtrip `{BO : ByteOrder} `{K : P4tcKernel} {H U : Type}
    err (h : H) a b l (s : xstate H U) a' old l' :
  length b = 40%nat -> bytes b -> bytes l -> small a ->
  length old = 40%nat -> bytes old -> tiny a' ->
  exists ip ip',
    extract_ipv6 (boundary err h a (b ++ l)) = Ret ip (boundary err h (a ++ b) l) /\
    wf_ipv6 ip /\
    emit_ipv6 ip (cursor_out s a' (old ++ l') 0) = Ret ip' (cursor_out s (a' ++ b) l' 0).
Proof.
  intros Lb Hb Hl Ha Lo Ho Ha'. destruct (ipv6_of_bytes_ok b Lb Hb) as (Hw & E & _).
  exists (ipv6_of_bytes b). eexists. split; [by apply extract_ipv6_ok|]. split; [exact Hw|].
  rewrite emit_ipv6_ok by assumption. by rewrite E.
Qed.

Lemma ipv6_roundtrip_witness :
  exists ip ip' : ipv6_t,
    extract_ipv6 (boundary NoError tt [1] (seqZ 96 40 ++ [2]))
    = Ret ip (boundary NoError tt ([1] ++ seqZ 96 40) [2]) /\
    wf_ipv6 ip /\
    emit_ipv6 ip (cursor_out (mk_xstate _ unit unit (sample_skb []) tt tt 0 []) [9] (replicate 40 0 ++ [3]) 0)
    = Ret ip' (cursor_out (mk_xstate _ unit unit (sample_skb []) tt tt 0 []) ([9] ++ seqZ 96 40) [3] 0).
Proof.
  refine (ipv6_roundtrip NoError tt [1] (seqZ 96 40) [2] _ [9] (replicate 40 0) [3] _ _ _ _ _ _ _);
    try reflexivity; repeat constructor; discriminate.
Defined.
