(* ===== verification/Flow.v ===== *)
(** What the two flow trackers share.  flowtracker.p4 and flowtracker_ipv6.p4
    differ in the network header only; the class [Network] is what the rest of
    a tracker uses of it, and [NetworkOk] what it promises.

    The components of a tracker are given here over an arbitrary network
    header, with the theorems about them; Flowtracker and FlowtrackerIpv6 hold
    the two programs themselves, which are instances. *)

From stdpp Require Import gmap.
From S2P Require Import Prelude CInt Memory Pna P4Spec Pipeline Steps Headers Deparse Chain Samples.

(** ** Data *)

Record my_ingress_metadata_t := {
  meta_srcPort : Z;      (* u16 *)
  meta_dstPort : Z       (* u16 *)
}.

Definition metadata0 : my_ingress_metadata_t := Build_my_ingress_metadata_t 0 0.

(** [struct headers_t] over the struct [I] of the network header. *)
Record flow_headers {I : Type} := mk_flow_headers {
  eth : ethernet_t;
  net : I;
  tcp : ports_t;
  udp : ports_t
}.
Arguments flow_headers : clear implicits.

Definition set_eth {I} (e : ethernet_t) (h : flow_headers I) : flow_headers I :=
  mk_flow_headers I e (net h) (tcp h) (udp h).
Definition set_net {I} (i : I) (h : flow_headers I) : flow_headers I :=
  mk_flow_headers I (eth h) i (tcp h) (udp h).
Definition set_tcp {I} (p : ports_t) (h : flow_headers I) : flow_headers I :=
  mk_flow_headers I (eth h) (net h) p (udp h).
Definition set_udp {I} (p : ports_t) (h : flow_headers I) : flow_headers I :=
  mk_flow_headers I (eth h) (net h) (tcp h) p.

(** ** The network header *)

Class Network `{BO : ByteOrder} (I : Type) := {
  net_0 : I;                       (* the zeroed struct *)
  net_type : Z;                    (* its EtherType *)
  net_size : nat;                  (* its length in bytes *)
  net_valid : I -> Z;
  net_protocol : I -> Z;
  net_extract : forall H, I -> P H I;
  net_emit : forall (K : P4tcKernel) H U, (H -> I) -> (I -> H -> H) -> X H U unit;
  (** the key of a flow, from the device, the header and both ports *)
  net_key : Z -> I -> Z -> Z -> list Z;
  (** the header as a P4 header type *)
  net_of_bytes : list Z -> I;
  net_to_bytes : I -> list Z;
  wf_net : I -> Prop
}.

Section Network.
Context `{BO : ByteOrder} {I : Type} `{N : !Network I}.

Definition out_net (i : I) : list Z := if is_valid (net_valid i) then net_to_bytes i else [].

Class NetworkOk : Prop := {
  net_size_range : (0 < net_size < 2 ^ 10)%nat;
  net_0_valid : net_valid net_0 = 0;
  net_0_wf : wf_net net_0;
  net_extract_at : forall H err (h : H) data n i,
    bytes data -> small data ->
    net_extract H i (at_pos err h data n)
    = if (length (drop n data) <? net_size)%nat then Exit reject (at_pos PacketTooShort h data n)
      else Ret (net_of_bytes (slice n net_size data)) (at_pos err h data (n + net_size));
  net_emits : forall (K : P4tcKernel) H U (get : H -> I) set,
    emits (net_emit K H U get set) (fun h => wf_net (get h)) (fun h => out_net (get h))
      (updates set);
  net_of_bytes_ok : forall bs, length bs = net_size -> bytes bs ->
    wf_net (net_of_bytes bs) /\ net_to_bytes (net_of_bytes bs) = bs /\
    net_valid (net_of_bytes bs) = 1;
  length_net_to_bytes : forall i, length (net_to_bytes i) = net_size
}.
End Network.

(** ** A tracker over a network header *)

Section Tracker.
Context `{BO : ByteOrder} {I : Type} `{N : !Network I}.

Definition flow_headers0 : flow_headers I := mk_flow_headers I ethernet0 net_0 ports0 ports0.

Definition flow_parse_tcp : P (flow_headers I) unit :=
  hdr <- get_hdr ;;
  p <- extract_ports ;;
  set_hdr (set_tcp p hdr) ;;
  accept.

Definition flow_parse_udp : P (flow_headers I) unit :=
  hdr <- get_hdr ;;
  p <- extract_ports ;;
  set_hdr (set_udp p hdr) ;;
  accept.

Definition flow_parse_net : P (flow_headers I) unit :=
  hdr <- get_hdr ;;
  i <- net_extract _ (net hdr) ;;
  set_hdr (set_net i hdr) ;;
  if net_protocol i =? 0x6 then flow_parse_tcp
  else if net_protocol i =? 0x11 then flow_parse_udp
  else exit reject.

Definition flow_start : P (flow_headers I) unit :=
  hdr <- get_hdr ;;
  e <- extract_ethernet (eth hdr) ;;
  set_hdr (set_eth e hdr) ;;
  if eth_etherType e =? net_type then flow_parse_net else exit reject.

Section Control.
Context `{K : P4tcKernel} (filter : p4tc_filter_fields).

Definition flow_X (A : Type) : Type := X (flow_headers I) my_ingress_metadata_t A.

Definition table_params : p4tc_table_entry_act_bpf_params__local :=
  {| params_pipeid := ff_pipeid filter; params_tblid := 1 |}.

(** The entry that [add_entry("NoAction", {}, 0)] asks for. *)
Definition update_params : p4tc_table_entry_create_bpf_params__local := {|
  create_act_bpf_act_id := 0;
  create_profile_id := 0;
  create_pipeid := ff_pipeid filter;
  create_tblid := 1;
  create_handle := ff_handle filter;
  create_classid := ff_classid filter;
  create_chain := ff_chain filter;
  create_proto := ff_proto filter;
  create_prio := ff_prio filter |}.

Definition flow_ports_to_meta : flow_X unit :=
  hdr <- get_headers ;;
  if is_valid (ports_valid (tcp hdr)) then
    meta <- get_meta ;;
    set_meta { meta with meta_srcPort := srcPort (tcp hdr) } ;;
    meta <- get_meta ;;
    set_meta { meta with meta_dstPort := dstPort (tcp hdr) }
  else if is_valid (ports_valid (udp hdr)) then
    meta <- get_meta ;;
    set_meta { meta with meta_srcPort := srcPort (udp hdr) } ;;
    meta <- get_meta ;;
    set_meta { meta with meta_dstPort := dstPort (udp hdr) }
  else ret tt.

(** [add_entry]: the result of the creation is not used. *)
Definition flow_miss (key : list Z) : flow_X unit :=
  _ <- entry_create_on_miss update_params key ;;
  ret tt.

Definition flow_apply : flow_X unit :=
  skb <- get_skb ;;
  hdr <- get_headers ;;
  meta <- get_meta ;;
  let key := net_key (skb_ifindex skb) (net hdr)
               (bpf_htons (meta_srcPort meta)) (bpf_htons (meta_dstPort meta)) in
  act_bpf <- tbl_read table_params key ;;
  match act_bpf with
  | None => ret tt
  | Some value =>
    if act_id value =? 0 then ret tt
    else if act_id value =? 1 then flow_miss key
    else ret tt
  end.

Definition flow_main : flow_X unit := flow_ports_to_meta ;; flow_apply.

Definition flow_outHeaderLength (hdr : flow_headers I) : Z :=
  (if is_valid (eth_valid (eth hdr)) then 112 else 0)
  + (if is_valid (net_valid (net hdr)) then 8 * Z.of_nat net_size else 0)
  + (if is_valid (ports_valid (tcp hdr)) then 32 else 0)
  + (if is_valid (ports_valid (udp hdr)) then 32 else 0).

Definition flow_emit : flow_X unit :=
  emit_ethernet_block eth set_eth ;;
  net_emit K _ _ net set_net ;;
  emit_ports_block tcp set_tcp ;;
  emit_ports_block udp set_udp.
End Control.
End Tracker.

(** ** What a tracker does *)

Section Spec.
Context `{BO : ByteOrder} {I : Type} `{N : !Network I} `{NO : !NetworkOk}.
Context `{K : P4tcKernel} `{!P4tcKernelOk K} (filter : p4tc_filter_fields).
Implicit Types (h : flow_headers I) (data : list Z).

(** The P4 parser. *)
Definition flow_parse_ports (data : list Z) (h : flow_headers I)
    (set : ports_t -> flow_headers I -> flow_headers I)
  : verdict * flow_headers I * nat :=
  let n := (14 + net_size)%nat in
  if (length data <? n + 4)%nat then (TooShort, h, n)
  else (Accepted, set (ports_of_bytes (slice n 4 data)) h, (n + 4)%nat).

Definition flow_parse (data : list Z) : verdict * flow_headers I * nat :=
  if (length data <? 14)%nat then (TooShort, flow_headers0, 0%nat) else
  let h1 := set_eth (ethernet_of_bytes (slice 0 14 data)) flow_headers0 in
  if negb (eth_etherType (eth h1) =? net_type) then (Rejected, h1, 14%nat) else
  if (length data <? 14 + net_size)%nat then (TooShort, h1, 14%nat) else
  let h2 := set_net (net_of_bytes (slice 14 net_size data)) h1 in
  if net_protocol (net h2) =? 6 then flow_parse_ports data h2 set_tcp
  else if net_protocol (net h2) =? 17 then flow_parse_ports data h2 set_udp
  else (Rejected, h2, (14 + net_size)%nat).

(** The ports that are in the key. *)
Definition flow_ports (h : flow_headers I) : Z * Z :=
  if is_valid (ports_valid (tcp h)) then (srcPort (tcp h), dstPort (tcp h))
  else if is_valid (ports_valid (udp h)) then (srcPort (udp h), dstPort (udp h))
  else (0, 0).

Definition flow_key (ifindex : Z) (h : flow_headers I) : list Z :=
  net_key ifindex (net h) (bpf_htons (flow_ports h).1) (bpf_htons (flow_ports h).2).

(** The tables after a packet whose flow has the given key. *)
Definition track (k : kstate) (skb : sk_buff) (key : list Z) : kstate :=
  match bpf_p4tc_tbl_read k skb (table_params filter) key with
  | Some value =>
    if act_id value =? 1
    then (bpf_p4tc_entry_create_on_miss k skb (update_params filter) key).2 else k
  | None => k
  end.

Definition flow_control (k : kstate) (skb : sk_buff) (h : flow_headers I)
  : option (flow_headers I * Z * kstate) :=
  Some (h, 0, track k skb (flow_key (skb_ifindex skb) h)).

Lemma flow_parse_ports_at err h data (m : P (flow_headers I) unit) set :
  (m = flow_parse_tcp /\ set = set_tcp) \/ (m = flow_parse_udp /\ set = set_udp) ->
  bytes data -> small data -> (14 + net_size <= length data)%nat -> err = NoError ->
  m (at_pos err h data (14 + net_size))
  = let '(v, h', n) := flow_parse_ports data h set in parser_outcome v h' data n.
Proof.
  intros Hm Hb Hs Hn ->. unfold flow_parse_ports. cbv zeta.
  assert (E : forall (f : ports_t -> flow_headers I -> flow_headers I),
    (hdr <- get_hdr ;; p <- extract_ports ;; set_hdr (f p hdr) ;; accept)
      (at_pos NoError h data (14 + net_size))
    = let '(v, h', n) := (if (length data <? 14 + net_size + 4)%nat
                          then (TooShort, h, (14 + net_size)%nat)
                          else (Accepted, f (ports_of_bytes (slice (14 + net_size) 4 data)) h,
                                (14 + net_size + 4)%nat)) in
      parser_outcome v h' data n).
  { intros f. rewrite (bind_Ret _ _ _ _ _ (get_hdr_at _ _ _ _)). unfold bind at 1.
    rewrite extract_ports_at, ltb_drop by done.
    destruct (length data <? 14 + net_size + 4)%nat; [done|].
    by rewrite (bind_Ret _ _ _ _ _ (set_hdr_at _ _ _ _ _)). }
  destruct Hm as [[-> ->]|[-> ->]]; apply E.
Qed.

Lemma flow_start_spec data :
  bytes data -> small data ->
  flow_start (at_pos NoError flow_headers0 data 0)
  = let '(v, h, n) := flow_parse data in parser_outcome v h data n.
Proof.
  intros Hb Hs. unfold flow_start, flow_parse.
  rewrite (bind_Ret _ _ _ _ _ (get_hdr_at _ _ _ _)). unfold bind at 1.
  change (eth flow_headers0) with ethernet0. rewrite extract_ethernet_at, ltb_drop by (done || lia).
  change (0 + 14)%nat with 14%nat. destruct (Nat.ltb_spec (length data) 14) as [|H14]; [done|].
  rewrite (bind_Ret _ _ _ _ _ (set_hdr_at _ _ _ _ _)). cbv zeta. cbn [eth set_eth].
  destruct (_ =? net_type); cbn [negb]; [|done].
  unfold flow_parse_net. rewrite (bind_Ret _ _ _ _ _ (get_hdr_at _ _ _ _)). unfold bind at 1.
  rewrite net_extract_at, ltb_drop by done.
  destruct (Nat.ltb_spec (length data) (14 + net_size)) as [|Hn]; [done|].
  rewrite (bind_Ret _ _ _ _ _ (set_hdr_at _ _ _ _ _)). cbn [net set_net].
  destruct (_ =? 6); [apply flow_parse_ports_at; [by left|done..]|].
  destruct (_ =? 17); [apply flow_parse_ports_at; [by right|done..]|]. done.
Qed.

(** The deparser. *)
Definition flow_out (h : flow_headers I) : list Z :=
  out_ethernet (eth h) ++ out_net (net h) ++ out_ports (tcp h) ++ out_ports (udp h).

Definition flow_wf (h : flow_headers I) : Prop :=
  wf_ethernet (eth h) /\ wf_net (net h) /\ wf_ports (tcp h) /\ wf_ports (udp h).

Definition flow_mods (h h' : flow_headers I) : Prop :=
  exists h1, updates set_eth h h1 /\
  exists h2, updates set_net h1 h2 /\ exists h3, updates set_tcp h2 h3 /\ updates set_udp h3 h'.

Lemma flow_emits : emits flow_emit flow_wf flow_out flow_mods.
Proof.
  unfold flow_emit.
  eapply (emits_seq (U := my_ingress_metadata_t));
    [apply emits_ethernet| |by intros h h' [->|[e ->]]].
  eapply (emits_seq (U := my_ingress_metadata_t));
    [apply net_emits| |by intros h h' [->|[e ->]]].
  eapply (emits_seq (U := my_ingress_metadata_t));
    [apply emits_ports|apply emits_ports|by intros h h' [->|[e ->]]].
Qed.

Lemma length_out_net i :
  length (out_net i) = if is_valid (net_valid i) then net_size else 0%nat.
Proof. unfold out_net. case_match; [apply length_net_to_bytes|done]. Qed.

Lemma flow_length h : BYTES (flow_outHeaderLength h) = Z.of_nat (length (flow_out h)).
Proof.
  unfold flow_outHeaderLength, flow_out, BYTES.
  rewrite !length_app, length_out_ethernet, length_out_net, !length_out_ports.
  repeat case_match; symmetry; apply Z.div_unique_exact; lia.
Qed.

(** What the parser extracts is what the deparser puts back. *)
Lemma flow_out_eth data :
  bytes data -> (14 <= length data)%nat ->
  wf_ethernet (ethernet_of_bytes (slice 0 14 data)) /\
  out_ethernet (ethernet_of_bytes (slice 0 14 data)) = take 14 data.
Proof.
  intros Hb Hl. assert (Hs : length (slice 0 14 data) = 14%nat) by (apply length_slice; lia).
  pose proof (slice_bytes 0 14 data Hb) as Hbs. split; [by apply ethernet_of_bytes_wf|].
  rewrite out_ethernet_valid, ethernet_to_of_bytes by (done || by apply ethernet_of_bytes_valid).
  unfold slice. by rewrite drop_0.
Qed.

Lemma flow_out_net data :
  bytes data -> (14 + net_size <= length data)%nat ->
  wf_net (net_of_bytes (slice 14 net_size data)) /\
  out_net (net_of_bytes (slice 14 net_size data)) = slice 14 net_size data.
Proof.
  intros Hb Hl. destruct (net_of_bytes_ok (slice 14 net_size data)) as (Hw & Ht & Hv);
    [by apply length_slice|by apply slice_bytes|].
  split; [exact Hw|]. unfold out_net. by rewrite Hv.
Qed.

Lemma ports_of_bytes_valid bs :
  length bs = 4%nat -> bytes bs -> ports_valid (ports_of_bytes bs) = 1.
Proof. intros Hl Hb. destruct_length bs Hl. by rewrite ports_of_bytes_explicit. Qed.

Lemma flow_out_ports data n :
  bytes data -> (n + 4 <= length data)%nat ->
  wf_ports (ports_of_bytes (slice n 4 data)) /\
  out_ports (ports_of_bytes (slice n 4 data)) = slice n 4 data.
Proof.
  intros Hb Hl. assert (Hs : length (slice n 4 data) = 4%nat) by by apply length_slice.
  pose proof (slice_bytes n 4 data Hb) as Hbs. split; [by apply ports_of_bytes_wf|].
  unfold out_ports. rewrite ports_of_bytes_valid by done. by apply ports_to_of_bytes.
Qed.

Lemma slice_slice_drop data n k :
  slice n k data ++ drop (n + k) data = drop n data.
Proof. unfold slice. by rewrite <- drop_drop, take_drop. Qed.

(** Every packet that is not rejected is restored, and its headers can be
    sent. *)
Definition restores data (o : verdict * flow_headers I * nat) : Prop :=
  let '(v, h, n) := o in
  sendable flow_wf flow_out h /\ (14 <= n <= length data)%nat /\
  length (flow_out h) = n /\ flow_out h ++ drop n data = data.

Lemma restores_intro data v h n :
  flow_wf h -> flow_out h = take n data ->
  (14 <= n <= length data)%nat -> (n <= 14 + net_size + 4)%nat -> restores data (v, h, n).
Proof.
  intros Hw Ho Hn Hsm. pose proof net_size_range as Hns. change (2 ^ 10)%nat with 1024%nat in Hns.
  assert (Hl : length (flow_out h) = n) by (rewrite Ho, length_take; lia).
  unfold restores, sendable. rewrite Hl. split_and!; try assumption; try lia.
  rewrite Ho. apply take_drop.
Qed.

Lemma wf_ports0 : wf_ports ports0.
Proof. by split. Qed.

Lemma flow_restores_eth data :
  bytes data -> (14 <= length data)%nat ->
  let h := set_eth (ethernet_of_bytes (slice 0 14 data)) flow_headers0 in
  flow_wf h /\ flow_out h = take 14 data.
Proof.
  intros Hb H14. cbn zeta. destruct (flow_out_eth data Hb H14) as [We Oe].
  split; [split_and!; [exact We|exact net_0_wf|exact wf_ports0|exact wf_ports0]|].
  unfold flow_out, out_net. cbn [eth net tcp udp set_eth flow_headers0].
  by rewrite Oe, net_0_valid, app_nil_r.
Qed.

Lemma flow_restores_net data :
  bytes data -> (14 + net_size <= length data)%nat ->
  let h := set_net (net_of_bytes (slice 14 net_size data))
             (set_eth (ethernet_of_bytes (slice 0 14 data)) flow_headers0) in
  flow_wf h /\ flow_out h = take (14 + net_size) data.
Proof.
  intros Hb Hn. cbn zeta. destruct (flow_out_eth data Hb ltac:(lia)) as [We Oe].
  destruct (flow_out_net data Hb Hn) as [Wn On].
  split; [split_and!; [exact We|exact Wn|exact wf_ports0|exact wf_ports0]|].
  unfold flow_out. cbn [eth net tcp udp set_eth set_net flow_headers0].
  change (out_ports ports0) with (@nil Z). rewrite Oe, On, !app_nil_r. apply take_take_drop.
Qed.

Lemma flow_restores_ports data set :
  bytes data -> (14 + net_size <= length data)%nat -> set = set_tcp \/ set = set_udp ->
  restores data (flow_parse_ports data
    (set_net (net_of_bytes (slice 14 net_size data))
       (set_eth (ethernet_of_bytes (slice 0 14 data)) flow_headers0)) set).
Proof.
  intros Hb Hn Hset. destruct (flow_restores_net data Hb Hn) as [Wh Oh]. unfold flow_parse_ports.
  destruct (Nat.ltb_spec (length data) (14 + net_size + 4)) as [|Hp];
    [apply restores_intro; [exact Wh|exact Oh|lia|lia]|].
  destruct (flow_out_ports data (14 + net_size) Hb Hp) as [Wp Op]. destruct Wh as (We & Wn & W0 & _).
  apply restores_intro; [by destruct Hset as [-> | ->]| |lia|lia].
  rewrite <- (take_take_drop _ (14 + net_size) 4), <- Oh.
  unfold flow_out, slice in *.
  destruct Hset as [-> | ->]; cbn [eth net tcp udp set_tcp set_udp set_eth set_net flow_headers0];
    change (out_ports ports0) with (@nil Z); by rewrite Op, !app_nil_r, <- ?app_assoc.
Qed.

Lemma flow_parse_restores data :
  bytes data -> (14 <= length data)%nat -> restores data (flow_parse data).
Proof.
  intros Hb H14. unfold flow_parse. destruct (Nat.ltb_spec (length data) 14); [lia|]. cbv zeta.
  destruct (flow_restores_eth data Hb H14) as [Wh Oh].
  destruct (negb _); [apply restores_intro; [exact Wh|exact Oh|lia|lia]|].
  destruct (Nat.ltb_spec (length data) (14 + net_size)) as [|Hn];
    [apply restores_intro; [exact Wh|exact Oh|lia|lia]|].
  destruct (_ =? 6); [by apply flow_restores_ports; [| |left]|].
  destruct (_ =? 17); [by apply flow_restores_ports; [| |right]|].
  destruct (flow_restores_net data Hb Hn) as [Wh2 Oh2].
  apply restores_intro; [exact Wh2|exact Oh2|lia|lia].
Qed.

(** The control block. *)
Lemma flow_ports_to_meta_spec (s : xstate (flow_headers I) my_ingress_metadata_t) h m :
  flow_ports_to_meta (put s h metadata0 m)
  = Ret tt (put s h (Build_my_ingress_metadata_t (flow_ports h).1 (flow_ports h).2) m).
Proof.
  unfold flow_ports_to_meta, flow_ports. xstep.
  destruct (is_valid (ports_valid (tcp h))); [by repeat xstep|].
  destruct (is_valid (ports_valid (udp h))); by repeat xstep.
Qed.

Lemma entry_create_put {A} (k : Z -> X (flow_headers I) my_ingress_metadata_t A) s h u m params key :
  bind (entry_create_on_miss params key) k (put s h u m)
  = let '(r, k') := bpf_p4tc_entry_create_on_miss (x_kern s) (x_skb s) params key in
    k r (put { s with x_kern := k' } h u m).
Proof.
  unfold bind, entry_create_on_miss. cbn [x_kern x_skb put].
  rewrite (entry_create_dev _ _ (x_skb s)) by done.
  by destruct (bpf_p4tc_entry_create_on_miss _ _ _ _).
Qed.

Lemma flow_main_spec (s : xstate (flow_headers I) my_ingress_metadata_t) h m :
  exists u',
    flow_main filter (put s h metadata0 m)
    = Ret tt (put { s with x_kern := track (x_kern s) (x_skb s)
                                       (flow_key (skb_ifindex (x_skb s)) h) } h u' m).
Proof.
  eexists. unfold flow_main. rewrite (bind_Ret _ _ _ _ _ (flow_ports_to_meta_spec s h m)).
  unfold flow_apply. do 3 xstep. cbn [meta_srcPort meta_dstPort]. cbv zeta.
  change (skb_ifindex { (x_skb s) with skb_cb := m }) with (skb_ifindex (x_skb s)).
  change (net_key _ _ _ _) with (flow_key (skb_ifindex (x_skb s)) h).
  rewrite tbl_read_put. unfold track.
  destruct (bpf_p4tc_tbl_read _ _ _ _) as [value|]; [|by destruct s].
  destruct (Z.eqb_spec (act_id value) 0) as [E|]; [rewrite E; by destruct s|].
  destruct (act_id value =? 1); [|by destruct s].
  unfold flow_miss. rewrite entry_create_put. by destruct (bpf_p4tc_entry_create_on_miss _ _ _ _).
Qed.

Lemma track_dev k skb skb' key :
  skb_ifindex skb = skb_ifindex skb' -> track k skb key = track k skb' key.
Proof.
  intros Hi. unfold track. by rewrite (tbl_read_dev k skb skb'), (entry_create_dev k skb skb').
Qed.

Lemma flow_ok :
  program_ok flow_headers0 metadata0 flow_start (flow_main filter) flow_outHeaderLength
    flow_emit flow_wf flow_out flow_mods flow_parse flow_control.
Proof.
  split.
  - exact flow_start_spec.
  - exact flow_emits.
  - exact flow_length.
  - intros data Hb H14. pose proof (flow_parse_restores data Hb H14) as Hr. unfold restores in Hr.
    destruct (flow_parse data) as [[v h] n]. destruct Hr as (Hs & Hn & _). by split.
  - intros k skb h h' port k' Hh. unfold flow_control. by intros [= <- <- <-].
  - intros k skb skb' h Hi. unfold flow_control. by rewrite (track_dev k skb skb'), Hi.
  - intros s h m Hd Hp. unfold flow_control. destruct (flow_main_spec s h m) as [u' E].
    exists u', m. by rewrite E.
Qed.

(** The tracker as a whole: it forwards what it accepts unchanged to the
    kernel, and the only trace it leaves is in the table. *)
Definition tracker (w : world (flow_headers I) my_ingress_metadata_t) :=
  chain flow_headers0 metadata0 flow_start
    (program_body (flow_main filter) flow_outHeaderLength flow_emit) w.

(** The flow of a packet: its key, unless the parser rejects the packet. *)
Definition flow_of (ifindex : Z) (data : list Z) : option (list Z) :=
  match flow_parse data with
  | (Rejected, _, _) => None
  | (_, h, _) => Some (flow_key ifindex h)
  end.

Lemma tracker_spec w :
  arrives w ->
  match flow_of (skb_ifindex (w_skb w)) (skb_data (w_skb w)) with
  | None => exists w', tracker w = Some (TC_ACT_SHOT, w') /\ w_kern w' = w_kern w
  | Some key =>
    delivered 0 (skb_ifindex (w_skb w)) (skb_data (w_skb w)) (track (w_kern w) (w_skb w) key)
      (tracker w)
  end.
Proof.
  intros Ha. pose proof (arr_bytes w Ha) as Hbs.
  pose proof (program_run _ _ _ _ _ _ _ _ _ _ _ w flow_ok Ha) as Hb.
  change (chain _ _ _ _ w) with (tracker w) in Hb.
  pose proof (flow_parse_restores _ Hbs (arr_eth w Ha)) as Hr.
  pose proof (flow_start_spec _ Hbs (arr_small w Ha)) as Hst.
  unfold program_spec, flow_control, flow_of, restores in *.
  destruct (flow_parse (skb_data (w_skb w))) as [[v h] n]. destruct Hr as (_ & Hn & Hl & Ho).
  rewrite Hl, Ho, Z.sub_diag in Hb.
  destruct v; [|exact (chain_rejected_kern _ _ _ _ w h n Ha (proj2 Hn) Hst)|];
    (destruct Hb as [[_ Hno]|Hd]; [by destruct Hno; left|exact Hd]).
Qed.
End Spec.

(** ** The flows of frames *)

Lemma host_bytes_inj `{ByteOrder} n x y :
  fits (8 * n) x -> fits (8 * n) y -> host_bytes n x = host_bytes n y -> x = y.
Proof.
  unfold fits. rewrite pow2_bytes. intros Hx Hy E. apply (f_equal host_val) in E.
  rewrite !host_val_host_bytes in E. by rewrite !Z.mod_small in E.
Qed.

Section Frames.
Context `{BO : ByteOrder} {I : Type} `{N : !Network I} `{NO : !NetworkOk}.
Implicit Types (macs ip ports payload data : list Z).

(** The key's fields, taken from packet bytes. *)
Lemma host_bytes_slice n k l :
  bytes l -> (n + k <= length l)%nat -> host_bytes k (host_val (slice n k l)) = slice n k l.
Proof.
  intros Hb Hl. pose proof (host_bytes_host_val _ (slice_bytes n k l Hb)) as E.
  by rewrite length_slice in E.
Qed.

Lemma host_bytes_byte b : is_byte b -> host_bytes 1 b = [b].
Proof.
  intros Hb. pose proof (host_bytes_host_val [b] ltac:(by constructor)) as E. cbn [length] in E.
  rewrite <- E. f_equal. unfold host_val, be_val. destruct byte_order; cbn; lia.
Qed.

Lemma host_bytes_ports ports :
  length ports = 4%nat -> bytes ports ->
  host_bytes 2 (host_val (take 2 ports)) ++ host_bytes 2 (host_val (drop 2 ports)) = ports.
Proof.
  intros Hp Bp. pose proof (host_bytes_slice 0 2 ports Bp ltac:(lia)) as E1.
  pose proof (host_bytes_slice 2 2 ports Bp ltac:(lia)) as E2. unfold slice in E1, E2.
  rewrite drop_0 in E1. rewrite take_ge in E2 by (rewrite length_drop; lia).
  by rewrite E1, E2, take_drop.
Qed.

Lemma nth_byte n l : bytes l -> (n < length l)%nat -> is_byte (nth n l 0).
Proof. intros Hb Hn. unfold bytes in Hb. rewrite List.Forall_forall in Hb. by apply Hb, nth_In. Qed.

(** An Ethernet frame that carries TCP or UDP over the network header. *)
Record is_flow_frame macs ip ports payload data : Prop := {
  ff_data : data = (macs ++ be_bytes 2 net_type) ++ ip ++ ports ++ payload;
  ff_macs : length macs = 12%nat;
  ff_ip : length ip = net_size;
  ff_ports : length ports = 4%nat;
  ff_protocol : net_protocol (net_of_bytes ip) = 6 \/ net_protocol (net_of_bytes ip) = 17
}.

Lemma htons_be_val b c : bytes [b; c] -> bpf_htons (be_val [b; c]) = host_val [b; c].
Proof.
  intros Hb. unfold bpf_htons. rewrite <- (ntoh_host_val [b; c] Hb). cbn [length].
  apply ntoh_involutive. apply (host_val_bound [b; c] Hb).
Qed.

Lemma flow_ports_host ports :
  length ports = 4%nat -> bytes ports ->
  bpf_htons (srcPort (ports_of_bytes ports)) = host_val (take 2 ports) /\
  bpf_htons (dstPort (ports_of_bytes ports)) = host_val (drop 2 ports).
Proof.
  intros Hl Hb. destruct_length ports Hl. rewrite ports_of_bytes_explicit by done.
  split_bytes Hb. cbn [srcPort dstPort take drop].
  split; apply htons_be_val; solve_bytes.
Qed.

Lemma etherType_of_net macs :
  length macs = 12%nat -> bytes macs -> 0 <= net_type < 2 ^ 16 ->
  eth_etherType (ethernet_of_bytes (macs ++ be_bytes 2 net_type)) = net_type.
Proof.
  intros Hm Hb Ht. assert (Hbt : bytes (be_bytes 2 net_type)) by apply bytes_rev, bytes_le_bytes.
  pose proof (length_be_bytes 2 net_type) as Hl.
  pose proof (be_val_be_bytes 2 net_type) as Hv. rewrite Z.mod_small in Hv by exact Ht.
  revert Hbt Hl Hv. generalize (be_bytes 2 net_type). intros t Hbt Hl Hv. destruct_length t Hl.
  rewrite etherType_of_bytes by (done || by apply bytes_app). exact Hv.
Qed.

Lemma flow_of_frame ifindex macs ip ports payload data :
  0 <= net_type < 2 ^ 16 ->
  is_flow_frame macs ip ports payload data -> bytes data ->
  flow_of ifindex data
  = Some (net_key ifindex (net_of_bytes ip) (host_val (take 2 ports)) (host_val (drop 2 ports))).
Proof.
  intros Ht [-> Hm Hi Hp Hpr] Hb. set (ty := be_bytes 2 net_type).
  assert (Hty : length ty = 2%nat) by apply length_be_bytes.
  assert (Hmt : length (macs ++ ty) = 14%nat) by (by rewrite length_app, Hm, Hty).
  pose proof Hb as Hb'. rewrite !bytes_app in Hb'. destruct Hb' as ([Bm Bt] & Bi & Bp & Bl).
  assert (Hlen : length ((macs ++ ty) ++ ip ++ ports ++ payload)
                 = (14 + net_size + 4 + length payload)%nat)
    by (rewrite !length_app, Hm, Hty, Hi, Hp; lia).
  unfold flow_of, flow_parse, flow_parse_ports. rewrite Hlen.
  rewrite (slice_0 (macs ++ ty)), (slice_app _ _ 14 14), (slice_app _ _ 14 (14 + net_size)) by (done || lia).
  replace (14 + net_size - 14)%nat with net_size by lia. rewrite Nat.sub_diag.
  rewrite (slice_0 ip), (slice_app ip _ net_size net_size), Nat.sub_diag, (slice_0 ports) by (done || lia).
  destruct (Nat.ltb_spec (14 + net_size + 4 + length payload) 14); [lia|]. cbv zeta.
  cbn [eth net set_eth set_net]. unfold ty at 1. rewrite etherType_of_net, Z.eqb_refl by done. cbn [negb].
  destruct (Nat.ltb_spec (14 + net_size + 4 + length payload) (14 + net_size)); [lia|].
  destruct (Nat.ltb_spec (14 + net_size + 4 + length payload) (14 + net_size + 4)); [lia|].
  destruct (flow_ports_host ports Hp Bp) as [<- <-].
  pose proof (ports_of_bytes_valid ports Hp Bp) as Hv.
  destruct Hpr as [-> | ->]; unfold flow_key, flow_ports;
    cbn [Z.eqb Pos.eqb set_tcp set_udp tcp udp net set_net set_eth]; rewrite Hv; reflexivity.
Qed.

(** A frame of another type carries no flow. *)
Lemma flow_of_other ifindex data :
  bytes data -> (14 <= length data)%nat ->
  nth 12 data 0 * 256 + nth 13 data 0 <> net_type -> flow_of ifindex data = None.
Proof.
  intros Hb Hl Ht. unfold flow_of, flow_parse.
  destruct (Nat.ltb_spec (length data) 14); [lia|]. cbv zeta. cbn [eth set_eth].
  rewrite etherType_of_slice by done. by destruct (Z.eqb_spec (nth 12 data 0 * 256 + nth 13 data 0) net_type).
Qed.

(** Neither does another protocol. *)
Lemma flow_of_protocol ifindex data :
  bytes data -> (14 + net_size <= length data)%nat ->
  net_protocol (net_of_bytes (slice 14 net_size data)) <> 6 ->
  net_protocol (net_of_bytes (slice 14 net_size data)) <> 17 ->
  flow_of ifindex data = None.
Proof.
  intros Hb Hl H6 H17. unfold flow_of, flow_parse.
  destruct (Nat.ltb_spec (length data) 14); [lia|]. cbv zeta. destruct (negb _); [done|].
  destruct (Nat.ltb_spec (length data) (14 + net_size)); [lia|]. cbn [net set_net].
  by rewrite (proj2 (Z.eqb_neq _ _) H6), (proj2 (Z.eqb_neq _ _) H17).
Qed.

(** A frame that ends before its network header does is not rejected: the
    lookup is made with the zeroed header. *)
Lemma flow_of_truncated ifindex data :
  bytes data -> (14 <= length data < 14 + net_size)%nat ->
  nth 12 data 0 * 256 + nth 13 data 0 = net_type ->
  flow_of ifindex data = Some (net_key ifindex net_0 0 0).
Proof.
  intros Hb Hl Ht. unfold flow_of, flow_parse.
  destruct (Nat.ltb_spec (length data) 14); [lia|]. cbv zeta. cbn [eth set_eth].
  rewrite etherType_of_slice, Ht, Z.eqb_refl by (done || lia). cbn [negb].
  destruct (Nat.ltb_spec (length data) (14 + net_size)); [|lia].
  unfold flow_key, flow_ports. cbn [tcp udp net set_eth flow_headers0].
  change (ports_valid ports0) with 0. cbn [fst snd is_valid Z.eqb negb].
  assert (E0 : bpf_htons 0 = 0) by (unfold bpf_htons, ntoh; by destruct byte_order). by rewrite E0.
Qed.
End Frames.

(** ** The table as a set of flows

    The template declares [ct_flow_miss] as the default miss action and the
    table as one whose entries the data path creates.  Such a table is the set
    of the keys it has entries for: a lookup answers a key in the set with the
    entry's action [NoAction] and any other key with the default miss action;
    creation adds the key, or fails and changes nothing. *)

Class FlowTable (K : P4tcKernel) (filter : p4tc_filter_fields) := {
  tracked : kstate -> gset (list Z)
}.

Class FlowTableOk (K : P4tcKernel) (filter : p4tc_filter_fields) `{T : !FlowTable K filter}
  : Prop := {
  read_tracked : forall k skb key, key ∈ tracked k ->
    exists value, bpf_p4tc_tbl_read k skb (table_params filter) key = Some value /\
                  act_id value = 0;
  read_untracked : forall k skb key, key ∉ tracked k ->
    exists value, bpf_p4tc_tbl_read k skb (table_params filter) key = Some value /\
                  act_id value = 1;
  create_tracked : forall k skb key r k',
    bpf_p4tc_entry_create_on_miss k skb (update_params filter) key = (r, k') ->
    tracked k' = if r =? 0 then {[key]} ∪ tracked k else tracked k
}.

(** A table of [n] entries: the creation of a new one succeeds as long as there
    are fewer. *)
Definition room_for_entries (K : P4tcKernel) (filter : p4tc_filter_fields)
    `{T : !FlowTable K filter} (n : nat) : Prop :=
  forall k skb key, key ∉ tracked k -> (size (tracked k) < n)%nat ->
    (bpf_p4tc_entry_create_on_miss k skb (update_params filter) key).1 = 0.

(** The table is large enough for these flows. *)
Definition room_for (K : P4tcKernel) (filter : p4tc_filter_fields)
    `{T : !FlowTable K filter} (flows : gset (list Z)) : Prop :=
  exists n, room_for_entries K filter n /\ (size flows <= n)%nat.

(** A sequence of packets: each meets the tables its predecessors left. *)
Fixpoint run_packets `{K : P4tcKernel} {H U} (program : world H U -> option (Z * world H U))
    (ws : list (world H U)) (k : kstate) : option kstate :=
  match ws with
  | [] => Some k
  | w :: ws =>
    match program { w with w_kern := k } with
    | Some (_, w') => run_packets program ws (w_kern w')
    | None => None
    end
  end.

Section Flows.
Context `{BO : ByteOrder} {I : Type} `{N : !Network I} `{NO : !NetworkOk}.
Context `{K : P4tcKernel} `{!P4tcKernelOk K} (filter : p4tc_filter_fields).
Context `{T : !FlowTable K filter} `{!FlowTableOk K filter}.
Implicit Types (w : world (flow_headers I) my_ingress_metadata_t).

Lemma room_for_sub flows flows' :
  flows ⊆ flows' -> room_for K filter flows' -> room_for K filter flows.
Proof. intros Hs (n & Hn & Hl). exists n. split; [exact Hn|]. apply subseteq_size in Hs. lia. Qed.

Lemma room_for_key k skb key :
  room_for K filter ({[key]} ∪ tracked k) -> key ∉ tracked k ->
  (bpf_p4tc_entry_create_on_miss k skb (update_params filter) key).1 = 0.
Proof.
  intros (n & Hn & Hl) Hni. apply Hn; [exact Hni|].
  rewrite size_union, size_singleton in Hl; [lia|]. by apply disjoint_singleton_l.
Qed.

Lemma track_tracked k skb key :
  tracked k ⊆ tracked (track filter k skb key) ⊆ {[key]} ∪ tracked k /\
  (room_for K filter ({[key]} ∪ tracked k) ->
   tracked (track filter k skb key) = {[key]} ∪ tracked k).
Proof.
  unfold track. destruct (decide (key ∈ tracked k)) as [Hin|Hni].
  - destruct (read_tracked k skb key Hin) as (v & -> & ->). cbn [Z.eqb].
    assert (E : {[key]} ∪ tracked k = tracked k)
      by (by apply subseteq_union_L, singleton_subseteq_l).
    by rewrite E.
  - destruct (read_untracked k skb key Hni) as (v & -> & ->). cbn [Z.eqb Pos.eqb].
    destruct (bpf_p4tc_entry_create_on_miss k skb (update_params filter) key) as [r k'] eqn:E.
    pose proof (create_tracked _ _ _ _ _ E) as Hc. cbn [snd]. rewrite Hc. split.
    + case_match; (split; [|done]) || (split; [done|]); apply union_subseteq_r.
    + intros Hr. apply (room_for_key k skb key) in Hr; [|exact Hni]. rewrite E in Hr. cbn [fst] in Hr. by rewrite Hr.
Qed.

(** The flows of a sequence of packets. *)
Definition flow_of_world w : option (list Z) :=
  flow_of (skb_ifindex (w_skb w)) (skb_data (w_skb w)).
Definition flows_of (ws : list (world (flow_headers I) my_ingress_metadata_t)) : gset (list Z) :=
  list_to_set (omap flow_of_world ws).

Lemma arrives_kern w k : arrives w -> arrives { w with w_kern := k }.
Proof. by intros []. Qed.

Lemma tracker_step w k :
  arrives w ->
  exists r w', tracker filter { w with w_kern := k } = Some (r, w') /\
    tracked k ⊆ tracked (w_kern w') ⊆ flows_of [w] ∪ tracked k /\
    (room_for K filter (flows_of [w] ∪ tracked k) -> tracked (w_kern w') = flows_of [w] ∪ tracked k).
Proof.
  intros Ha. pose proof (tracker_spec filter _ (arrives_kern w k Ha)) as Hs.
  change (skb_ifindex (w_skb { w with w_kern := k })) with (skb_ifindex (w_skb w)) in Hs.
  change (skb_data (w_skb { w with w_kern := k })) with (skb_data (w_skb w)) in Hs.
  change (w_kern { w with w_kern := k }) with k in Hs.
  change (w_skb { w with w_kern := k }) with (w_skb w) in Hs.
  unfold flows_of. cbn [omap list_omap]. unfold flow_of_world.
  destruct (flow_of _ _) as [key|].
  - destruct Hs as (r & w' & E & _ & Ek & _). exists r, w'. split; [exact E|]. rewrite Ek.
    destruct (track_tracked k (w_skb w) key) as [[H1 H2] H3]. clear E Ek Ha.
    cbn [list_to_set foldr]. rewrite (right_id_L ∅ (∪)). by split_and!.
  - destruct Hs as (w' & E & Ek). exists TC_ACT_SHOT, w'. split; [exact E|]. rewrite Ek.
    cbn [list_to_set foldr]. rewrite (left_id_L ∅ (∪)). split_and!; done.
Qed.

(** Whatever the packets are, afterwards the table holds the flows it held
    before and, space permitting, those of the packets, and no other. *)
Lemma tracker_flows ws k :
  Forall arrives ws ->
  exists k', run_packets (tracker filter) ws k = Some k' /\
    tracked k ⊆ tracked k' ⊆ flows_of ws ∪ tracked k /\
    (room_for K filter (flows_of ws ∪ tracked k) -> tracked k' = flows_of ws ∪ tracked k).
Proof.
  intros Hws. revert k; induction Hws as [|w ws Ha Hws IH]; intros k.
  - exists k. split; [done|]. unfold flows_of. cbn [omap list_omap list_to_set foldr].
    rewrite (left_id_L ∅ (∪)). by split_and!.
  - cbn [run_packets]. destruct (tracker_step w k Ha) as (r & w' & -> & [H1 H2] & H3).
    destruct (IH (w_kern w')) as (k' & E & [H1' H2'] & H3'). exists k'. split; [exact E|].
    assert (Ef : flows_of (w :: ws) = flows_of [w] ∪ flows_of ws).
    { unfold flows_of. rewrite <- list_to_set_app_L. f_equal. by apply (omap_app _ [w] ws). }
    rewrite Ef. clear Ef E IH Hws Ha. split_and!.
    + by transitivity (tracked (w_kern w')).
    + etransitivity; [exact H2'|]. rewrite (comm_L (∪) (flows_of [w])), <- (assoc_L (∪)).
      by apply union_mono_l.
    + rewrite <- (assoc_L (∪)), (comm_L (∪) (flows_of [w])), <- (assoc_L (∪)), (comm_L (∪) _ (flows_of [w])).
      intros Hr. pose proof (H3 (room_for_sub _ _ (union_subseteq_r _ _) Hr)) as E1. rewrite E1 in H3'.
      exact (H3' Hr).
Qed.
End Flows.

(** ** A kernel whose table is a set of flows *)

Section SampleFlows.

Definition flow_value (id : Z) : p4tc_table_entry_act_bpf :=
  Build_p4tc_table_entry_act_bpf id (id =? 0) (id =? 1) false (replicate 124 0).

(** The table is kept as a list of keys; up to [n] entries fit. *)
Definition flow_kernel (n : nat) : P4tcKernel := {|
  kstate := list (list Z);
  bpf_p4tc_tbl_read keys skb params key :=
    Some (flow_value (if bool_decide (key ∈ keys) then 0 else 1));
  bpf_p4tc_entry_create_on_miss keys skb params key :=
    if bool_decide (key ∈ keys) then (-17, keys)
    else if (size (list_to_set keys : gset (list Z)) <? n)%nat then (0, key :: keys) else (-28, keys);
  bpf_skb_adjust_room skb len_diff mode flags := sample_adjust skb len_diff;
  bpf_redirect ifindex flags := 7 |}.

#[export] Instance flow_kernel_ok n : P4tcKernelOk (flow_kernel n).
Proof.
  split.
  - done.
  - done.
  - intros keys skb params key value. cbn. intros [= <-]. split; [done|].
    apply Forall_replicate. unfold is_byte. lia.
  - intros skb d skb' E. exact (adjust_room_ok (K := sample_kernel) skb d skb' E).
Qed.

#[export] Instance flow_kernel_table n filter : FlowTable (flow_kernel n) filter :=
  @Build_FlowTable (flow_kernel n) filter (fun keys : list (list Z) => list_to_set keys).

#[export] Instance flow_kernel_table_ok n filter : FlowTableOk (flow_kernel n) filter.
Proof.
  split.
  - intros keys skb key Hin. eexists. split; [done|]. apply elem_of_list_to_set in Hin.
    by rewrite bool_decide_true.
  - intros keys skb key Hni. eexists. split; [done|].
    rewrite bool_decide_false; [done|]. intros Hin. apply Hni. by apply elem_of_list_to_set.
  - intros keys skb key r keys'. cbn [bpf_p4tc_entry_create_on_miss flow_kernel].
    case_bool_decide; [by intros [= <- <-]|]. by case_match; intros [= <- <-].
Qed.

Lemma flow_kernel_room n filter : room_for_entries (flow_kernel n) filter n.
Proof.
  intros keys skb key Hni Hs. cbn [bpf_p4tc_entry_create_on_miss flow_kernel tracked flow_kernel_table] in *.
  rewrite bool_decide_false by (intros Hin; apply Hni; by apply elem_of_list_to_set).
  by rewrite (proj2 (Nat.ltb_lt _ _) Hs).
Qed.

Definition flow_world {H U} (h : H) (u : U) n (ifindex : Z) (data : list Z)
  : @world (flow_kernel n) H U :=
  @mk_world (flow_kernel n) H U
    {| skb_data := data; skb_data_meta := []; skb_ifindex := ifindex; skb_cb := sample_metadata |}
    (Some (mk_hdr_md H U h u 0 0)) [] None.

Lemma flow_world_arrives {H U} (h : H) (u : U) n ifindex data :
  is_bytes data && (14 <=? length data)%nat && (Z.of_nat (length data) <? 65536) = true ->
  @arrives (flow_kernel n) H U (flow_world h u n ifindex data).
Proof.
  intros Hd. apply andb_prop in Hd as [Hd Hs]. apply andb_prop in Hd as [Hb Hl].
  apply Nat.leb_le in Hl. apply Z.ltb_lt in Hs.
  split; try done; cbn [flow_world w_skb skb_data].
  - by apply is_bytes_ok.
  - unfold small. lia.
  - apply bytes_nil.
Qed.
End SampleFlows.
