(* ===== verification/Flowtracker.v ===== *)
(** The flow tracker for IPv4 (stateful-progs/flowtracker/generated): the
    parser of flowtracker_parser.c and the control block of
    flowtracker_control_blocks.c.

    Frames that do not carry TCP or UDP over IPv4 are dropped by the parser.
    The others look their flow up in table [Main.ct_flow_table]; on a miss the
    data path creates an entry for it.  Every packet goes on to the kernel. *)

From stdpp Require Import gmap.
From S2P Require Import Prelude CInt Memory Pna P4Spec Pipeline Steps Headers Deparse Chain Samples Flow.

(** ** Data (flowtracker_parser.h) *)

(** [ipv4] is the field [net]. *)
Definition headers_t : Type := flow_headers ipv4_t.

Definition headers0 : headers_t := mk_flow_headers ipv4_t ethernet0 ipv4_0 ports0 ports0.

(** ** The parser (flowtracker_parser.c) *)

Section Parser.
Context `{BO : ByteOrder}.

Definition parse_tcp : P headers_t unit :=
  hdr <- get_hdr ;;
  p <- extract_ports ;;
  set_hdr (set_tcp p hdr) ;;
  accept.

Definition parse_udp : P headers_t unit :=
  hdr <- get_hdr ;;
  p <- extract_ports ;;
  set_hdr (set_udp p hdr) ;;
  accept.

Definition parse_ipv4 : P headers_t unit :=
  hdr <- get_hdr ;;
  ip <- extract_ipv4 (net hdr) ;;
  set_hdr (set_net ip hdr) ;;
  if ip_protocol ip =? 0x6 then parse_tcp
  else if ip_protocol ip =? 0x11 then parse_udp
  else exit reject.

Definition start : P headers_t unit :=
  hdr <- get_hdr ;;
  e <- extract_ethernet (eth hdr) ;;
  set_hdr (set_eth e hdr) ;;
  if eth_etherType e =? 0x800 then parse_ipv4 else exit reject.

Definition run_parser `{K : P4tcKernel} (w : world headers_t my_ingress_metadata_t) :=
  run_parser_frame headers0 metadata0 start w.

Definition tc_parse_func `{K : P4tcKernel} (w : world headers_t my_ingress_metadata_t) :=
  tc_parse_frame run_parser w.
End Parser.

(** ** The table (flowtracker_control_blocks.c) *)

Definition MAIN_CT_FLOW_TABLE_ACT__NOACTION : Z := 0.
Definition MAIN_CT_FLOW_TABLE_ACT_MAIN_CT_FLOW_MISS : Z := 1.

Definition flow_tracker_X `{K : P4tcKernel} (A : Type) : Type :=
  X headers_t my_ingress_metadata_t A.

Section Control.
Context `{BO : ByteOrder} `{K : P4tcKernel} (filter : p4tc_filter_fields).

(** [struct Main_ct_flow_table_key] *)
Definition Main_ct_flow_table_key (keysz maskid field0 field1 field2 field3 field4 field5 : Z)
  : list Z :=
  pad8 (host_bytes 4 keysz ++ host_bytes 4 maskid ++ host_bytes 4 field0
        ++ host_bytes 4 field1 ++ host_bytes 4 field2 ++ host_bytes 1 field3
        ++ host_bytes 2 field4 ++ host_bytes 2 field5).

Definition ct_flow_table_params : p4tc_table_entry_act_bpf_params__local :=
  {| params_pipeid := ff_pipeid filter; params_tblid := 1 |}.

Definition ct_flow_update_params : p4tc_table_entry_create_bpf_params__local := {|
  create_act_bpf_act_id := MAIN_CT_FLOW_TABLE_ACT__NOACTION;
  create_profile_id := 0;
  create_pipeid := ff_pipeid filter;
  create_tblid := 1;
  create_handle := ff_handle filter;
  create_classid := ff_classid filter;
  create_chain := ff_chain filter;
  create_proto := ff_proto filter;
  create_prio := ff_prio filter |}.

(** The first statement of the control [Main]. *)
Definition ports_to_meta : flow_tracker_X unit :=
  hdr <- get_headers ;;
  if is_valid (ports_valid (tcp hdr)) then
    meta <- get_meta ;;
    set_meta { meta with meta_srcPort := srcPort (tcp hdr) } ;;
    meta <- get_meta ;;
    set_meta { meta with meta_dstPort := dstPort (tcp hdr) }
  else if is_valid (ports_valid (udp hdr)) then
    meta <- get_meta ;;
    set_meta { meta with meta_srcPort := srcPort (udp hdr) } ;;
    meta <- get_meta ;;
    set_meta { meta with meta_dstPort := dstPort (udp hdr) }
  else ret tt.

(** [add_entry("NoAction", {}, 0)]; the result is not used. *)
Definition ct_flow_miss (key : list Z) : flow_tracker_X unit :=
  _ <- entry_create_on_miss ct_flow_update_params key ;;
  ret tt.

(** [ct_flow_table_0.apply()] *)
Definition ct_flow_table_apply : flow_tracker_X unit :=
  skb <- get_skb ;;
  hdr <- get_headers ;;
  meta <- get_meta ;;
  let key := Main_ct_flow_table_key 136 0 (skb_ifindex skb)
               (ip_srcAddr (net hdr)) (ip_dstAddr (net hdr)) (ip_protocol (net hdr))
               (bpf_htons (meta_srcPort meta)) (bpf_htons (meta_dstPort meta)) in
  act_bpf <- tbl_read ct_flow_table_params key ;;
  match act_bpf with
  | None => ret tt
  | Some value =>
    if act_id value =? MAIN_CT_FLOW_TABLE_ACT__NOACTION then ret tt
    else if act_id value =? MAIN_CT_FLOW_TABLE_ACT_MAIN_CT_FLOW_MISS then ct_flow_miss key
    else ret tt
  end.

(** The control [Main]. *)
Definition main_control : flow_tracker_X unit := ports_to_meta ;; ct_flow_table_apply.

(** ** The deparser *)

Definition outHeaderLength (hdr : headers_t) : Z :=
  (if is_valid (eth_valid (eth hdr)) then 112 else 0)
  + (if is_valid (ip_valid (net hdr)) then 160 else 0)
  + (if is_valid (ports_valid (tcp hdr)) then 32 else 0)
  + (if is_valid (ports_valid (udp hdr)) then 32 else 0).

Definition deparse_hdr_eth : flow_tracker_X unit := emit_ethernet_block eth set_eth.
Definition deparse_hdr_ipv4 : flow_tracker_X unit := emit_ipv4_block net set_net.
Definition deparse_hdr_tcp : flow_tracker_X unit := emit_ports_block tcp set_tcp.
Definition deparse_hdr_udp : flow_tracker_X unit := emit_ports_block udp set_udp.

Definition deparser (hdr_start : Z) : flow_tracker_X unit :=
  make_room outHeaderLength hdr_start ;;
  deparse_hdr_eth ;;
  deparse_hdr_ipv4 ;;
  deparse_hdr_tcp ;;
  deparse_hdr_udp.

Definition flowtracker_body (hdr_start : Z) : flow_tracker_X unit :=
  main_control ;;
  deparser hdr_start.

Definition process (w : world headers_t my_ingress_metadata_t) :=
  process_frame flowtracker_body w.

Definition tc_ingress_func (w : world headers_t my_ingress_metadata_t) :=
  tc_ingress_frame process w.

(** The pipeline as the filter runs it. *)
Definition flowtracker (w : world headers_t my_ingress_metadata_t) :=
  tc_chain tc_parse_func tc_ingress_func w.
End Control.

(** ** The program is a tracker over the IPv4 header *)

#[export] Instance ipv4_network `{BO : ByteOrder} : Network ipv4_t := {
  net_0 := ipv4_0;
  net_type := 0x800;
  net_size := 20;
  net_valid := ip_valid;
  net_protocol := ip_protocol;
  net_extract H := extract_ipv4;
  net_emit K H U := emit_ipv4_block;
  net_key ifindex ip sp dp :=
    Main_ct_flow_table_key 136 0 ifindex (ip_srcAddr ip) (ip_dstAddr ip) (ip_protocol ip) sp dp;
  net_of_bytes := ipv4_of_bytes;
  net_to_bytes := ipv4_to_bytes;
  wf_net := wf_ipv4
}.

#[export] Instance ipv4_network_ok `{BO : ByteOrder} : NetworkOk (I := ipv4_t).
Proof.
  split.
  - cbn [net_size ipv4_network]. change (2 ^ 10)%nat with 1024%nat. lia.
  - done.
  - apply wf_ipv4_iff. cbn. lia.
  - intros. by apply extract_ipv4_at.
  - intros. apply emits_ipv4.
  - intros bs Hl Hb. split_and!;
      [by apply ipv4_of_bytes_wf|by apply ipv4_to_of_bytes|by apply ipv4_of_bytes_valid].
  - apply length_ipv4_to_bytes.
Qed.

Section Refinement.
Context `{BO : ByteOrder} `{K : P4tcKernel} `{!P4tcKernelOk K} (filter : p4tc_filter_fields).
Implicit Types (w : world headers_t my_ingress_metadata_t).

Lemma flowtracker_spec w :
  arrives w ->
  match flow_of (I := ipv4_t) (skb_ifindex (w_skb w)) (skb_data (w_skb w)) with
  | None => exists w', flowtracker filter w = Some (TC_ACT_SHOT, w') /\ w_kern w' = w_kern w
  | Some key =>
    delivered 0 (skb_ifindex (w_skb w)) (skb_data (w_skb w)) (track filter (w_kern w) (w_skb w) key)
      (flowtracker filter w)
  end.
Proof. exact (tracker_spec (I := ipv4_t) filter w). Qed.

(** ** Flows of IPv4 *)

(** The key of a flow: key size and mask, the device, and the packet's bytes
    of both addresses, the protocol and both ports, padded to 8 bytes. *)
Definition flow_tuple (ifindex : Z) (ip ports : list Z) : list Z :=
  pad8 (host_bytes 4 136 ++ host_bytes 4 0 ++ host_bytes 4 ifindex
        ++ slice 12 8 ip ++ [nth 9 ip 0] ++ ports).

(** A frame that carries TCP or UDP over IPv4. *)
Definition is_ipv4_flow (macs ip ports payload data : list Z) : Prop :=
  is_ipv4_frame macs ip (ports ++ payload) data /\ length ports = 4%nat /\
  (nth 9 ip 0 = 6 \/ nth 9 ip 0 = 17).

Lemma slice_split (l : list Z) n k m : slice n (k + m) l = slice n k l ++ slice (n + k) m l.
Proof. unfold slice. rewrite <- drop_drop. symmetry. apply take_take_drop. Qed.

Lemma flow_key_tuple ifindex ip ports :
  length ip = 20%nat -> length ports = 4%nat -> bytes ip -> bytes ports ->
  net_key ifindex (ipv4_of_bytes ip) (host_val (take 2 ports)) (host_val (drop 2 ports))
  = flow_tuple ifindex ip ports.
Proof.
  intros Hi Hp Bi Bp. cbn [net_key ipv4_network]. unfold Main_ct_flow_table_key, flow_tuple.
  rewrite srcAddr_of_bytes, dstAddr_of_bytes, protocol_of_bytes by done.
  rewrite !host_bytes_slice, host_bytes_byte, host_bytes_ports
    by (done || lia || (apply nth_byte; [done|lia])).
  change 8%nat with (4 + 4)%nat. by rewrite slice_split, <- app_assoc.
Qed.

Lemma flow_of_ipv4 ifindex macs ip ports payload data :
  is_ipv4_flow macs ip ports payload data -> bytes data ->
  flow_of ifindex data = Some (flow_tuple ifindex ip ports).
Proof.
  intros (Hf & Hp & Hpr) Hb. destruct (frame_parts _ _ _ _ Hf Hb) as (_ & Bi & Bp).
  destruct Hf as (-> & Hm & Hi). apply bytes_app in Bp as [Bp _].
  rewrite (flow_of_frame ifindex macs ip ports payload); [|cbn; lia| |exact Hb].
  - by rewrite <- flow_key_tuple.
  - split; try done. cbn [net_protocol net_of_bytes ipv4_network]. by rewrite protocol_of_bytes.
Qed.
End Refinement.

(** ** Tracking, end to end *)

Section EndToEnd.
Context `{BO : ByteOrder} `{K : P4tcKernel} `{!P4tcKernelOk K} (filter : p4tc_filter_fields).
Implicit Types (w : world headers_t my_ingress_metadata_t) (macs ip ports payload : list Z).

Definition flow_lookup (k : kstate) (skb : sk_buff) (key : list Z) :=
  bpf_p4tc_tbl_read k skb (ct_flow_table_params filter) key.

Lemma flowtracker_frame w macs ip ports payload :
  arrives w -> is_ipv4_flow macs ip ports payload (skb_data (w_skb w)) ->
  delivered 0 (skb_ifindex (w_skb w)) (skb_data (w_skb w))
    (track filter (w_kern w) (w_skb w) (flow_tuple (skb_ifindex (w_skb w)) ip ports))
    (flowtracker filter w).
Proof.
  intros Ha Hf. pose proof (flowtracker_spec filter w Ha) as Hs.
  by rewrite (flow_of_ipv4 _ _ _ _ _ _ Hf (arr_bytes w Ha)) in Hs.
Qed.

(** C22: a packet of a flow the table does not know (its answer is the default
    miss action) makes the data path create an entry, under the key of exactly
    this flow and with action [NoAction], in the table of this pipeline; the
    packet goes on to the kernel as it came. *)
Theorem flowtracker_miss w macs ip ports payload value :
  arrives w -> is_ipv4_flow macs ip ports payload (skb_data (w_skb w)) ->
  let key := flow_tuple (skb_ifindex (w_skb w)) ip ports in
  flow_lookup (w_kern w) (w_skb w) key = Some value ->
  act_id value = MAIN_CT_FLOW_TABLE_ACT_MAIN_CT_FLOW_MISS ->
  delivered 0 (skb_ifindex (w_skb w)) (skb_data (w_skb w))
    (bpf_p4tc_entry_create_on_miss (w_kern w) (w_skb w) (ct_flow_update_params filter) key).2
    (flowtracker filter w).
Proof.
  intros Ha Hf key El Ea. pose proof (flowtracker_frame w _ _ _ _ Ha Hf) as Hd.
  fold key in Hd. unfold track in Hd. unfold flow_lookup in El.
  change (table_params filter) with (ct_flow_table_params filter) in Hd.
  by rewrite El, Ea in Hd.
Qed.

(** C25: a packet of a known flow changes neither the tables nor itself. *)
Theorem flowtracker_hit w macs ip ports payload :
  arrives w -> is_ipv4_flow macs ip ports payload (skb_data (w_skb w)) ->
  (forall value,
     flow_lookup (w_kern w) (w_skb w) (flow_tuple (skb_ifindex (w_skb w)) ip ports) = Some value ->
     act_id value <> MAIN_CT_FLOW_TABLE_ACT_MAIN_CT_FLOW_MISS) ->
  delivered 0 (skb_ifindex (w_skb w)) (skb_data (w_skb w)) (w_kern w) (flowtracker filter w).
Proof.
  intros Ha Hf Hv. pose proof (flowtracker_frame w _ _ _ _ Ha Hf) as Hd.
  unfold track in Hd. unfold flow_lookup in Hv.
  change (table_params filter) with (ct_flow_table_params filter) in Hd.
  destruct (bpf_p4tc_tbl_read _ _ _ _) as [value|]; [|exact Hd].
  specialize (Hv value eq_refl). unfold MAIN_CT_FLOW_TABLE_ACT_MAIN_CT_FLOW_MISS in Hv.
  by rewrite (proj2 (Z.eqb_neq _ _) Hv) in Hd.
Qed.

(** C39: frames of another type, and IPv4 packets with another protocol, are
    dropped without a trace in the tables. *)
Theorem flowtracker_drops w :
  arrives w ->
  let data := skb_data (w_skb w) in
  nth 12 data 0 * 256 + nth 13 data 0 <> 0x800 \/
  (34 <= length data)%nat /\ nth 23 data 0 <> 6 /\ nth 23 data 0 <> 17 ->
  exists w', flowtracker filter w = Some (TC_ACT_SHOT, w') /\ w_kern w' = w_kern w.
Proof.
  intros Ha data Hd. pose proof (arr_bytes w Ha) as Hb. pose proof (arr_eth w Ha) as H14.
  pose proof (flowtracker_spec filter w Ha) as Hs. fold data in Hs, Hb, H14.
  assert (E : flow_of (I := ipv4_t) (skb_ifindex (w_skb w)) data = None).
  { destruct Hd as [Hd|(Hl & H6 & H17)]; [by apply flow_of_other|].
    assert (Ep : ip_protocol (ipv4_of_bytes (slice 14 20 data)) = nth 23 data 0).
    { rewrite protocol_of_bytes by (by apply length_slice || by apply slice_bytes).
      unfold slice. by rewrite nth_firstn, nth_skipn. }
    apply flow_of_protocol; cbn [net_size net_protocol net_of_bytes ipv4_network];
      [exact Hb|lia|by rewrite Ep|by rewrite Ep]. }
  by rewrite E in Hs.
Qed.

(** C26: a frame of the IPv4 type that ends inside its IPv4 header is not
    dropped: it is tracked as the flow of the zeroed header, which all such
    frames of a device share. *)
Theorem flowtracker_truncated w :
  arrives w ->
  let data := skb_data (w_skb w) in
  (length data < 34)%nat -> nth 12 data 0 * 256 + nth 13 data 0 = 0x800 ->
  delivered 0 (skb_ifindex (w_skb w)) data
    (track filter (w_kern w) (w_skb w)
       (Main_ct_flow_table_key 136 0 (skb_ifindex (w_skb w)) 0 0 0 0 0))
    (flowtracker filter w).
Proof.
  intros Ha data Hl Ht. pose proof (flowtracker_spec filter w Ha) as Hs. fold data in Hs.
  assert (E : flow_of (I := ipv4_t) (skb_ifindex (w_skb w)) data
    = Some (Main_ct_flow_table_key 136 0 (skb_ifindex (w_skb w)) 0 0 0 0 0)).
  { pose proof (arr_eth w Ha) as H14. fold data in H14.
    exact (flow_of_truncated (I := ipv4_t) (skb_ifindex (w_skb w)) data (arr_bytes w Ha)
      (conj H14 Hl) Ht). }
  by rewrite E in Hs.
Qed.

(** The tracker refines a set of flows.  Whatever packets arrive, in any
    order, every access is inside of its packet; afterwards the table holds
    the flows it held before and, if entries can be created, those of the
    packets, and no others. *)
Theorem flowtracker_flows `{T : !FlowTable K filter} `{!FlowTableOk K filter} ws k :
  Forall arrives ws ->
  exists k', run_packets (flowtracker filter) ws k = Some k' /\
    tracked k ⊆ tracked k' ⊆ flows_of (I := ipv4_t) ws ∪ tracked k /\
    (room_for K filter (flows_of (I := ipv4_t) ws ∪ tracked k) ->
     tracked k' = flows_of (I := ipv4_t) ws ∪ tracked k).
Proof. exact (tracker_flows (I := ipv4_t) filter ws k). Qed.

(** C29: two flows share an entry only if they are the same: the key determines
    the device, both addresses, the protocol and both ports. *)
Theorem flowtracker_key_inj d s t p sp dp d' s' t' p' sp' dp' :
  Forall2 fits [32; 32; 32; 8; 16; 16]%nat [d; s; t; p; sp; dp] ->
  Forall2 fits [32; 32; 32; 8; 16; 16]%nat [d'; s'; t'; p'; sp'; dp'] ->
  Main_ct_flow_table_key 136 0 d s t p sp dp = Main_ct_flow_table_key 136 0 d' s' t' p' sp' dp' ->
  [d; s; t; p; sp; dp] = [d'; s'; t'; p'; sp'; dp'].
Proof.
  intros Hf Hf' E. unfold Main_ct_flow_table_key, pad8 in E.
  rewrite !List.Forall2_cons_iff in Hf, Hf'. destruct Hf as (?&?&?&?&?&?&_), Hf' as (?&?&?&?&?&?&_).
  apply app_inj_1 in E as [E _]; [|by rewrite !length_app, !length_host_bytes].
  do 7 (apply app_inj_1 in E as [? E]; [|by rewrite !length_host_bytes]).
  repeat match goal with
  | Hb : host_bytes ?n _ = host_bytes ?n _ |- _ => apply (host_bytes_inj n) in Hb; [|assumption..]
  end.
  by subst.
Qed.

(** Every access of the tracker is inside the packet. *)
Theorem flowtracker_total w : arrives w -> exists r w', flowtracker filter w = Some (r, w').
Proof.
  intros Ha. pose proof (flowtracker_spec filter w Ha) as Hs.
  destruct (flow_of _ _).
  - destruct Hs as (r & w' & E & _). by exists r, w'.
  - destruct Hs as (w' & E & _). by eexists _, w'.
Qed.
End EndToEnd.

(** ** The theorems at concrete packets *)

Section Witnesses.
(** A UDP packet from port 7 to port 7, and its reply. *)
Definition tracked_rows (id : Z) : list table_row :=
  [(1, flow_tuple 2 sample_ip [0; 7; 0; 7], sample_value id [])].
Definition tracked_world (id : Z) (data : list Z) : world headers_t my_ingress_metadata_t :=
  sample_world headers0 metadata0 (tracked_rows id) data.

Lemma sample_flow id :
  is_ipv4_flow sample_macs sample_ip [0; 7; 0; 7] [0; 8; 0; 0]
    (skb_data (w_skb (tracked_world id sample_frame))).
Proof. split; [by split|]. split; [reflexivity|]. by right. Qed.

Lemma flowtracker_miss_witness :
  delivered 0 2 sample_frame
    ((1, flow_tuple 2 sample_ip [0; 7; 0; 7], sample_value 0 []) :: tracked_rows 1)
    (flowtracker sample_filter (tracked_world 1 sample_frame)).
Proof.
  refine (flowtracker_miss sample_filter (tracked_world 1 sample_frame)
    sample_macs sample_ip [0; 7; 0; 7] [0; 8; 0; 0] (sample_value 1 []) _ (sample_flow 1) _ _).
  - sample_tac.
  - vm_compute. reflexivity.
  - reflexivity.
Defined.

Lemma flowtracker_hit_witness :
  delivered 0 2 sample_frame (tracked_rows 0)
    (flowtracker sample_filter (tracked_world 0 sample_frame)).
Proof.
  refine (flowtracker_hit sample_filter (tracked_world 0 sample_frame)
    sample_macs sample_ip [0; 7; 0; 7] [0; 8; 0; 0] _ (sample_flow 0) _).
  - sample_tac.
  - intros value E.
    assert (Ev : flow_lookup sample_filter (tracked_rows 0)
      (w_skb (tracked_world 0 sample_frame)) (flow_tuple 2 sample_ip [0; 7; 0; 7])
      = Some (sample_value 0 [])) by (vm_compute; reflexivity).
    pose proof (eq_trans (eq_sym E) Ev) as Ee. injection Ee as ->. discriminate.
Defined.

Lemma flowtracker_drops_witness :
  exists w', flowtracker sample_filter (tracked_world 0 (replicate 30 8)) = Some (TC_ACT_SHOT, w') /\
             w_kern w' = tracked_rows 0.
Proof.
  apply (flowtracker_drops sample_filter (tracked_world 0 (replicate 30 8))); [sample_tac|].
  left. discriminate.
Defined.

Lemma flowtracker_truncated_witness :
  delivered 0 2 (take 30 sample_frame) (tracked_rows 0)
    (flowtracker sample_filter (tracked_world 0 (take 30 sample_frame))).
Proof.
  refine (flowtracker_truncated sample_filter (tracked_world 0 (take 30 sample_frame)) _ _ _).
  - sample_tac.
  - vm_compute. lia.
  - reflexivity.
Defined.

Lemma flowtracker_flows_witness :
  let ws := [flow_world headers0 metadata0 1 2 sample_frame;
             flow_world headers0 metadata0 1 2 (replicate 30 8);
             flow_world headers0 metadata0 1 3 sample_frame] in
  exists k', run_packets (K := flow_kernel 1) (flowtracker (K := flow_kernel 1) sample_filter) ws []
             = Some k' /\
    tracked (K := flow_kernel 1) (filter := sample_filter) k'
    ⊆ flows_of (I := ipv4_t) (K := flow_kernel 1) ws ∪ ∅.
Proof.
  intros ws. destruct (flowtracker_flows (K := flow_kernel 1) sample_filter ws [])
    as (k' & E & [_ H] & _).
  - repeat (constructor; [apply flow_world_arrives; vm_compute; reflexivity|]). constructor.
  - exists k'. split; [exact E|exact H].
Defined.

Lemma flowtracker_key_inj_witness : [2; 1; 2; 6; 7; 7] = [2; 1; 2; 6; 7; 7].
Proof.
  apply (flowtracker_key_inj 2 1 2 6 7 7 2 1 2 6 7 7); [..|reflexivity];
    repeat (constructor; [unfold fits; vm_compute; split; [discriminate|reflexivity]|]); constructor.
Defined.

Lemma flowtracker_total_witness :
  exists r w', flowtracker sample_filter (tracked_world 0 (replicate 30 8)) = Some (r, w').
Proof. apply flowtracker_total. sample_tac. Defined.
End Witnesses.
