(* ===== verification/FlowtrackerIpv6.v ===== *)
(** The flow tracker for IPv6 (stateful-progs/flowtracker_ipv6/generated): the
    parser of flowtracker_ipv6_parser.c and the control block of
    flowtracker_ipv6_control_blocks.c.

    It differs from the tracker for IPv4 in the network header, and so in the
    key: the addresses are arrays of 16 bytes. *)

From stdpp Require Import gmap.
From S2P Require Import Prelude CInt Memory Pna P4Spec Pipeline Steps Headers Deparse Chain Samples Ipv6 Flow.

(** ** Data (flowtracker_ipv6_parser.h) *)

(** [ipv6] is the field [net]. *)
Definition headers_t : Type := flow_headers ipv6_t.

Definition headers0 : headers_t := mk_flow_headers ipv6_t ethernet0 ipv6_0 ports0 ports0.

(** ** The parser (flowtracker_ipv6_parser.c) *)

Section Parser.
Context `{BO : ByteOrder}.

Definition parse_tcp : P headers_t unit :=
  hdr <- get_hdr ;;
  p <- extract_ports ;;
  set_hdr (set_tcp p hdr) ;;
  accept.

Definition parse_udp : P headers_t unit :=
  hdr <- get_hdr ;;
  p <- extract_ports ;;
  set_hdr (set_udp p hdr) ;;
  accept.

Definition parse_ipv6 : P headers_t unit :=
  hdr <- get_hdr ;;
  ip <- extract_ipv6 ;;
  set_hdr (set_net ip hdr) ;;
  if ip6_nextHdr ip =? 0x6 then parse_tcp
  else if ip6_nextHdr ip =? 0x11 then parse_udp
  else exit reject.

Definition start : P headers_t unit :=
  hdr <- get_hdr ;;
  e <- extract_ethernet (eth hdr) ;;
  set_hdr (set_eth e hdr) ;;
  if eth_etherType e =? 0x86dd then parse_ipv6 else exit reject.

Definition run_parser `{K : P4tcKernel} (w : world headers_t my_ingress_metadata_t) :=
  run_parser_frame headers0 metadata0 start w.

Definition tc_parse_func `{K : P4tcKernel} (w : world headers_t my_ingress_metadata_t) :=
  tc_parse_frame run_parser w.
End Parser.

(** ** The table (flowtracker_ipv6_control_blocks.c) *)

Definition MAIN_CT_FLOW_TABLE_ACT__NOACTION : Z := 0.
Definition MAIN_CT_FLOW_TABLE_ACT_MAIN_CT_FLOW_MISS : Z := 1.

Definition flow_tracker_X `{K : P4tcKernel} (A : Type) : Type :=
  X headers_t my_ingress_metadata_t A.

Section Control.
Context `{BO : ByteOrder} `{K : P4tcKernel} (filter : p4tc_filter_fields).

(** [struct Main_ct_flow_table_key] *)
Definition Main_ct_flow_table_key (keysz maskid field0 : Z) (field1 field2 : list Z)
    (field3 field4 field5 : Z) : list Z :=
  pad8 (host_bytes 4 keysz ++ host_bytes 4 maskid ++ host_bytes 4 field0
        ++ field1 ++ field2 ++ host_bytes 1 field3
        ++ host_bytes 2 field4 ++ host_bytes 2 field5).

Definition ct_flow_table_params : p4tc_table_entry_act_bpf_params__local :=
  {| params_pipeid := ff_pipeid filter; params_tblid := 1 |}.

Definition ct_flow_update_params : p4tc_table_entry_create_bpf_params__local := {|
  create_act_bpf_act_id := MAIN_CT_FLOW_TABLE_ACT__NOACTION;
  create_profile_id := 0;
  create_pipeid := ff_pipeid filter;
  create_tblid := 1;
  create_handle := ff_handle filter;
  create_classid := ff_classid filter;
  create_chain := ff_chain filter;
  create_proto := ff_proto filter;
  create_prio := ff_prio filter |}.

(** The first statement of the control [Main]. *)
Definition ports_to_meta : flow_tracker_X unit :=
  hdr <- get_headers ;;
  if is_valid (ports_valid (tcp hdr)) then
    meta <- get_meta ;;
    set_meta { meta with meta_srcPort := srcPort (tcp hdr) } ;;
    meta <- get_meta ;;
    set_meta { meta with meta_dstPort := dstPort (tcp hdr) }
  else if is_valid (ports_valid (udp hdr)) then
    meta <- get_meta ;;
    set_meta { meta with meta_srcPort := srcPort (udp hdr) } ;;
    meta <- get_meta ;;
    set_meta { meta with meta_dstPort := dstPort (udp hdr) }
  else ret tt.

(** [add_entry("NoAction", {}, 0)]; the result is not used. *)
Definition ct_flow_miss (key : list Z) : flow_tracker_X unit :=
  _ <- entry_create_on_miss ct_flow_update_params key ;;
  ret tt.

(** [ct_flow_table_0.apply()] *)
Definition ct_flow_table_apply : flow_tracker_X unit :=
  skb <- get_skb ;;
  hdr <- get_headers ;;
  meta <- get_meta ;;
  let key := Main_ct_flow_table_key 328 0 (skb_ifindex skb)
               (ip6_srcAddr (net hdr)) (ip6_dstAddr (net hdr)) (ip6_nextHdr (net hdr))
               (bpf_htons (meta_srcPort meta)) (bpf_htons (meta_dstPort meta)) in
  act_bpf <- tbl_read ct_flow_table_params key ;;
  match act_bpf with
  | None => ret tt
  | Some value =>
    if act_id value =? MAIN_CT_FLOW_TABLE_ACT__NOACTION then ret tt
    else if act_id value =? MAIN_CT_FLOW_TABLE_ACT_MAIN_CT_FLOW_MISS then ct_flow_miss key
    else ret tt
  end.

(** The control [Main]. *)
Definition main_control : flow_tracker_X unit := ports_to_meta ;; ct_flow_table_apply.

(** ** The deparser *)

Definition outHeaderLength (hdr : headers_t) : Z :=
  (if is_valid (eth_valid (eth hdr)) then 112 else 0)
  + (if is_valid (ip6_valid (net hdr)) then 320 else 0)
  + (if is_valid (ports_valid (tcp hdr)) then 32 else 0)
  + (if is_valid (ports_valid (udp hdr)) then 32 else 0).

Definition deparse_hdr_eth : flow_tracker_X unit := emit_ethernet_block eth set_eth.
Definition deparse_hdr_ipv6 : flow_tracker_X unit := emit_ipv6_block net set_net.
Definition deparse_hdr_tcp : flow_tracker_X unit := emit_ports_block tcp set_tcp.
Definition deparse_hdr_udp : flow_tracker_X unit := emit_ports_block udp set_udp.

Definition deparser (hdr_start : Z) : flow_tracker_X unit :=
  make_room outHeaderLength hdr_start ;;
  deparse_hdr_eth ;;
  deparse_hdr_ipv6 ;;
  deparse_hdr_tcp ;;
  deparse_hdr_udp.

Definition flowtracker_ipv6_body (hdr_start : Z) : flow_tracker_X unit :=
  main_control ;;
  deparser hdr_start.

Definition process (w : world headers_t my_ingress_metadata_t) :=
  process_frame flowtracker_ipv6_body w.

Definition tc_ingress_func (w : world headers_t my_ingress_metadata_t) :=
  tc_ingress_frame process w.

(** The pipeline as the filter runs it. *)
Definition flowtracker_ipv6 (w : world headers_t my_ingress_metadata_t) :=
  tc_chain tc_parse_func tc_ingress_func w.
End Control.

(** ** The program is a tracker over the IPv6 header *)

#[export] Instance ipv6_network `{BO : ByteOrder} : Network ipv6_t := {
  net_0 := ipv6_0;
  net_type := 0x86dd;
  net_size := 40;
  net_valid := ip6_valid;
  net_protocol := ip6_nextHdr;
  net_extract H ip := extract_ipv6;
  net_emit K H U := emit_ipv6_block;
  net_key ifindex ip sp dp :=
    Main_ct_flow_table_key 328 0 ifindex (ip6_srcAddr ip) (ip6_dstAddr ip) (ip6_nextHdr ip) sp dp;
  net_of_bytes := ipv6_of_bytes;
  net_to_bytes := ipv6_to_bytes;
  wf_net := wf_ipv6
}.

#[export] Instance ipv6_network_ok `{BO : ByteOrder} : NetworkOk (I := ipv6_t).
Proof.
  split.
  - cbn [net_size ipv6_network]. change (2 ^ 10)%nat with 1024%nat. lia.
  - done.
  - exact wf_ipv6_0.
  - intros. by apply extract_ipv6_at.
  - intros. apply emits_ipv6.
  - intros bs Hl Hb. by apply ipv6_of_bytes_ok.
  - apply length_ipv6_to_bytes.
Qed.

Section Refinement.
Context `{BO : ByteOrder} `{K : P4tcKernel} `{!P4tcKernelOk K} (filter : p4tc_filter_fields).
Implicit Types (w : world headers_t my_ingress_metadata_t).

Lemma flowtracker_ipv6_spec w :
  arrives w ->
  match flow_of (I := ipv6_t) (skb_ifindex (w_skb w)) (skb_data (w_skb w)) with
  | None => exists w', flowtracker_ipv6 filter w = Some (TC_ACT_SHOT, w') /\ w_kern w' = w_kern w
  | Some key =>
    delivered 0 (skb_ifindex (w_skb w)) (skb_data (w_skb w)) (track filter (w_kern w) (w_skb w) key)
      (flowtracker_ipv6 filter w)
  end.
Proof. exact (tracker_spec (I := ipv6_t) filter w). Qed.

(** ** Flows of IPv6 *)

(** The key of a flow: key size and mask, the device, and the packet's bytes
    of both addresses, the next header and both ports, padded to 8 bytes. *)
Definition flow6_tuple (ifindex : Z) (ip ports : list Z) : list Z :=
  pad8 (host_bytes 4 328 ++ host_bytes 4 0 ++ host_bytes 4 ifindex
        ++ slice 8 16 ip ++ slice 24 16 ip ++ [nth 6 ip 0] ++ ports).

(** A frame that carries TCP or UDP directly over IPv6. *)
Definition ipv6_frame (macs ip payload : list Z) : list Z := (macs ++ [0x86; 0xdd]) ++ ip ++ payload.

Record is_ipv6_flow (macs ip ports payload data : list Z) : Prop := {
  if_data : data = ipv6_frame macs ip (ports ++ payload);
  if_macs : length macs = 12%nat;
  if_ip : length ip = 40%nat;
  if_ports : length ports = 4%nat;
  if_next : nth 6 ip 0 = 6 \/ nth 6 ip 0 = 17
}.

(** The fields of an extracted header that the key has. *)
Lemma ipv6_key_fields ip :
  length ip = 40%nat -> bytes ip ->
  ip6_srcAddr (ipv6_of_bytes ip) = slice 8 16 ip /\
  ip6_dstAddr (ipv6_of_bytes ip) = slice 24 16 ip /\
  ip6_nextHdr (ipv6_of_bytes ip) = nth 6 ip 0.
Proof.
  intros Hl Hb. destruct (ipv6_split ip Hl) as (hd & src & dst & -> & H8 & Hs & Hd).
  destruct_length hd H8. rewrite ipv6_of_bytes_parts by done.
  cbn [ip6_srcAddr ip6_dstAddr ip6_nextHdr].
  rewrite (slice_app _ _ 8 8), (slice_app _ _ 8 24), (slice_app _ _ 16 (24 - 8)) by (done || lia).
  change (8 - 8)%nat with 0%nat. change (24 - 8 - 16)%nat with 0%nat.
  rewrite (slice_0 src) by done. split_and!; [done| |done].
  rewrite <- (app_nil_r dst) at 2. by rewrite (slice_0 dst).
Qed.

Lemma flow_of_ipv6 ifindex macs ip ports payload data :
  is_ipv6_flow macs ip ports payload data -> bytes data ->
  flow_of ifindex data = Some (flow6_tuple ifindex ip ports).
Proof.
  intros [-> Hm Hi Hp Hpr] Hb. pose proof Hb as Hb'. unfold ipv6_frame in Hb'.
  rewrite !bytes_app in Hb'. destruct Hb' as (_ & Bi & Bp & _).
  destruct (ipv6_key_fields ip Hi Bi) as (Es & Ed & En).
  rewrite (flow_of_frame ifindex macs ip ports payload); [|cbn; lia| |exact Hb].
  - f_equal. cbn [net_key net_of_bytes ipv6_network]. unfold Main_ct_flow_table_key, flow6_tuple.
    rewrite Es, Ed, En, host_bytes_byte, host_bytes_ports
      by (done || (apply nth_byte; [done|lia])). done.
  - split; try done. cbn [net_protocol net_of_bytes ipv6_network]. by rewrite En.
Qed.
End Refinement.

(** ** Tracking, end to end *)

Section EndToEnd.
Context `{BO : ByteOrder} `{K : P4tcKernel} `{!P4tcKernelOk K} (filter : p4tc_filter_fields).
Implicit Types (w : world headers_t my_ingress_metadata_t) (macs ip ports payload : list Z).

(** C27: a packet of a flow looks up the key of exactly this flow.  If the
    answer is the default miss action an entry is created for it, otherwise
    the tables stay as they are; the packet goes on to the kernel as it came. *)
Theorem flowtracker_ipv6_tracks w macs ip ports payload :
  arrives w -> is_ipv6_flow macs ip ports payload (skb_data (w_skb w)) ->
  let key := flow6_tuple (skb_ifindex (w_skb w)) ip ports in
  let k := w_kern w in
  delivered 0 (skb_ifindex (w_skb w)) (skb_data (w_skb w))
    (match bpf_p4tc_tbl_read k (w_skb w) (ct_flow_table_params filter) key with
     | Some value =>
       if act_id value =? MAIN_CT_FLOW_TABLE_ACT_MAIN_CT_FLOW_MISS
       then (bpf_p4tc_entry_create_on_miss k (w_skb w) (ct_flow_update_params filter) key).2
       else k
     | None => k
     end) (flowtracker_ipv6 filter w).
Proof.
  intros Ha Hf key k. pose proof (flowtracker_ipv6_spec filter w Ha) as Hs.
  by rewrite (flow_of_ipv6 _ _ _ _ _ _ Hf (arr_bytes w Ha)) in Hs.
Qed.

(** C40: frames of another type, and IPv6 packets whose next header is neither
    TCP nor UDP (extension headers among them), are dropped without a trace in
    the tables. *)
Theorem flowtracker_ipv6_drops w :
  arrives w ->
  let data := skb_data (w_skb w) in
  nth 12 data 0 * 256 + nth 13 data 0 <> 0x86dd \/
  (54 <= length data)%nat /\ nth 20 data 0 <> 6 /\ nth 20 data 0 <> 17 ->
  exists w', flowtracker_ipv6 filter w = Some (TC_ACT_SHOT, w') /\ w_kern w' = w_kern w.
Proof.
  intros Ha data Hd. pose proof (arr_bytes w Ha) as Hb. pose proof (arr_eth w Ha) as H14.
  pose proof (flowtracker_ipv6_spec filter w Ha) as Hs. fold data in Hs, Hb, H14.
  assert (E : flow_of (I := ipv6_t) (skb_ifindex (w_skb w)) data = None).
  { destruct Hd as [Hd|(Hl & H6 & H17)]; [by apply flow_of_other|].
    destruct (ipv6_key_fields (slice 14 40 data)) as (_ & _ & En);
      [by apply length_slice|by apply slice_bytes|].
    assert (E6 : nth 6 (slice 14 40 data) 0 = nth 20 data 0)
      by (unfold slice; by rewrite nth_firstn, nth_skipn).
    rewrite E6 in En.
    apply flow_of_protocol; cbn [net_size net_protocol net_of_bytes ipv6_network];
      [exact Hb|lia|by rewrite En|by rewrite En]. }
  by rewrite E in Hs.
Qed.

(** The tracker refines a set of flows, as the one for IPv4 does. *)
Theorem flowtracker_ipv6_flows `{T : !FlowTable K filter} `{!FlowTableOk K filter} ws k :
  Forall arrives ws ->
  exists k', run_packets (flowtracker_ipv6 filter) ws k = Some k' /\
    tracked k ⊆ tracked k' ⊆ flows_of (I := ipv6_t) ws ∪ tracked k /\
    (room_for K filter (flows_of (I := ipv6_t) ws ∪ tracked k) ->
     tracked k' = flows_of (I := ipv6_t) ws ∪ tracked k).
Proof. exact (tracker_flows (I := ipv6_t) filter ws k). Qed.

(** Every access of the tracker is inside the packet. *)
Theorem flowtracker_ipv6_total w :
  arrives w -> exists r w', flowtracker_ipv6 filter w = Some (r, w').
Proof.
  intros Ha. pose proof (flowtracker_ipv6_spec filter w Ha) as Hs.
  destruct (flow_of _ _).
  - destruct Hs as (r & w' & E & _). by exists r, w'.
  - destruct Hs as (w' & E & _). by eexists _, w'.
Qed.
End EndToEnd.

(** ** The theorems at concrete packets *)

Section Witnesses.
(** TCP from 2001:db8::1 to 2001:db8::2, port 1025 to 80. *)
Definition sample_ip6 : list Z :=
  [96; 0; 0; 0; 0; 4; 6; 64; 32; 1; 13; 184; 0; 0; 0; 0; 0; 0; 0; 0; 0; 0; 0; 1;
   32; 1; 13; 184; 0; 0; 0; 0; 0; 0; 0; 0; 0; 0; 0; 2].
Definition sample_frame6 : list Z := ipv6_frame sample_macs sample_ip6 [4; 1; 0; 80].
Definition tracked6_rows (id : Z) : list table_row :=
  [(1, flow6_tuple 2 sample_ip6 [4; 1; 0; 80], sample_value id [])].
Definition tracked6_world (id : Z) (data : list Z) : world headers_t my_ingress_metadata_t :=
  sample_world headers0 metadata0 (tracked6_rows id) data.

Lemma flowtracker_ipv6_tracks_witness :
  delivered 0 2 sample_frame6
    ((1, flow6_tuple 2 sample_ip6 [4; 1; 0; 80], sample_value 0 []) :: tracked6_rows 1)
    (flowtracker_ipv6 sample_filter (tracked6_world 1 sample_frame6)).
Proof.
  refine (flowtracker_ipv6_tracks sample_filter (tracked6_world 1 sample_frame6)
    sample_macs sample_ip6 [4; 1; 0; 80] [] _ _).
  - sample_tac.
  - split; try reflexivity. by left.
Defined.

Lemma flowtracker_ipv6_drops_witness :
  exists w', flowtracker_ipv6 sample_filter (tracked6_world 0 sample_frame)
             = Some (TC_ACT_SHOT, w') /\ w_kern w' = tracked6_rows 0.
Proof.
  apply (flowtracker_ipv6_drops sample_filter (tracked6_world 0 sample_frame)); [sample_tac|].
  left. discriminate.
Defined.

Lemma flowtracker_ipv6_flows_witness :
  let ws := [flow_world headers0 metadata0 1 2 sample_frame6;
             flow_world headers0 metadata0 1 3 sample_frame6] in
  exists k', run_packets (K := flow_kernel 1) (flowtracker_ipv6 (K := flow_kernel 1) sample_filter)
               ws [] = Some k' /\
    tracked (K := flow_kernel 1) (filter := sample_filter) k'
    ⊆ flows_of (I := ipv6_t) (K := flow_kernel 1) ws ∪ ∅.
Proof.
  intros ws. destruct (flowtracker_ipv6_flows (K := flow_kernel 1) sample_filter ws [])
    as (k' & E & [_ H] & _).
  - repeat (constructor; [apply flow_world_arrives; vm_compute; reflexivity|]). constructor.
  - exists k'. split; [exact E|exact H].
Defined.

Lemma flowtracker_ipv6_total_witness :
  exists r w', flowtracker_ipv6 sample_filter (tracked6_world 0 (replicate 30 8)) = Some (r, w').
Proof. apply flowtracker_ipv6_total. sample_tac. Defined.
End Witnesses.
