(* ===== verification/Cpus.v ===== *)
(** Packets on several CPUs at a time.

    Every CPU has a scratch area of its own, but the tables are shared: between
    the lookup of a packet and the creation of its entry other CPUs may change
    them, and create the same entry.  A lookup and a creation are atomic, as
    the kernel has them.  The program of a packet is run as it is, on a kernel
    that answers its lookups from the tables of one moment and makes its
    creations on those of a later one.  A tracker makes one lookup, and at most
    one creation after it, so that two moments for a packet are enough. *)

From stdpp Require Import gmap relations.
From S2P Require Import Prelude CInt Memory Pna P4Spec Pipeline Steps Headers Deparse Chain Host.
From S2P Require Import Samples Ipv6 Flow Flowtracker FlowtrackerIpv6.

(** ** The tables as one CPU sees them *)

Section Split.
Context {K : P4tcKernel} (now : kstate).

(** The tables as they were when the program looked them up, until it creates
    an entry: that is added to the tables as they are [now]. *)
Definition split_kernel : P4tcKernel := {|
  kstate := kstate (P4tcKernel := K) * bool;
  bpf_p4tc_tbl_read k skb params key := bpf_p4tc_tbl_read k.1 skb params key;
  bpf_p4tc_entry_create_on_miss k skb params key :=
    let '(r, k') := bpf_p4tc_entry_create_on_miss (if k.2 then k.1 else now) skb params key in
    (r, (k', true));
  bpf_skb_adjust_room := bpf_skb_adjust_room;
  bpf_redirect := bpf_redirect |}.

#[export] Instance split_kernel_ok `{!P4tcKernelOk K} : P4tcKernelOk split_kernel.
Proof.
  split; cbn.
  - intros k skb skb' params key Hi. by apply tbl_read_dev.
  - intros k skb skb' params key Hi. by rewrite (entry_create_dev _ skb skb').
  - intros k skb params key value. apply tbl_read_wf.
  - intros skb d skb'. apply (adjust_room_ok (K := K)).
Qed.

(** A packet on its CPU, when the tables were [k]. *)
Definition on_split {H U} (w : world H U) (k : kstate) : @world split_kernel H U :=
  @mk_world split_kernel H U (w_skb w) (w_cpumap w) (k, false) (w_redirect w).
End Split.

(** ** The CPUs together *)

Section Cpus.
Context {K : P4tcKernel} {H U : Type}.
Variable program : forall now : kstate,
  @world (split_kernel now) H U -> option (Z * @world (split_kernel now) H U).

Record cpus := mk_cpus {
  c_kern : kstate;                           (* the tables *)
  c_waiting : list (world H U);              (* packets that no CPU has begun, each with
                                                the scratch area of its CPU *)
  c_looked : list (world H U * kstate);      (* begun, when the tables were so *)
  c_done : list (world H U * (Z * sk_buff))  (* with their verdict, and as they are then *)
}.

(** A CPU begins some packet; the lookups see the tables as they are now. *)
Inductive cpu_begin : cpus -> cpus -> Prop :=
| begin_packet st q1 q2 w :
  c_waiting st = q1 ++ w :: q2 ->
  cpu_begin st (mk_cpus (c_kern st) (q1 ++ q2) ((w, c_kern st) :: c_looked st) (c_done st)).

(** Some CPU is done with its packet; if its program created an entry, it did
    so now. *)
Inductive cpu_end : cpus -> cpus -> Prop :=
| end_packet st l1 l2 w k r w' :
  c_looked st = l1 ++ (w, k) :: l2 ->
  program (c_kern st) (on_split (c_kern st) w k) = Some (r, w') ->
  cpu_end st (mk_cpus (if (w_kern w').2 then (w_kern w').1 else c_kern st) (c_waiting st) (l1 ++ l2)
                ((w, (r, w_skb w')) :: c_done st)).

Definition cpu_step (st st' : cpus) : Prop := cpu_begin st st' \/ cpu_end st st'.

Definition cpus_start (k : kstate) (ws : list (world H U)) : cpus := mk_cpus k ws [] [].

Definition cpus_idle (st : cpus) : Prop := c_waiting st = [] /\ c_looked st = [].

(** Every packet takes two steps. *)
Definition cpus_work (st : cpus) : nat := 2 * length (c_waiting st) + length (c_looked st).

Lemma cpu_step_work st st' : cpu_step st st' -> (cpus_work st' < cpus_work st)%nat.
Proof.
  unfold cpus_work. intros [Hb|He].
  - destruct Hb as [st q1 q2 w Eq]. cbn. rewrite Eq, !length_app. cbn. lia.
  - destruct He as [st l1 l2 w k r w' Eq _]. cbn. rewrite Eq, !length_app. cbn. lia.
Qed.

Lemma cpu_steps_work n st st' : nsteps cpu_step n st st' -> (n + cpus_work st' <= cpus_work st)%nat.
Proof.
  induction 1 as [st|n st st1 st' H1 _ IH]; [lia|]. pose proof (cpu_step_work _ _ H1). lia.
Qed.

(** The packets, in every stage. *)
Definition cpus_packets (st : cpus) : list (world H U) :=
  c_waiting st ++ map fst (c_looked st) ++ map fst (c_done st).

Lemma cpu_step_packets st st' : cpu_step st st' -> cpus_packets st ≡ₚ cpus_packets st'.
Proof.
  unfold cpus_packets. intros [Hb|He].
  - destruct Hb as [st q1 q2 w Eq]. cbn. rewrite Eq, <- !app_assoc. cbn.
    apply Permutation_app_head. by rewrite Permutation_middle.
  - destruct He as [st l1 l2 w k r w' Eq _]. cbn. rewrite Eq, !map_app. cbn.
    apply Permutation_app_head. rewrite <- !app_assoc. cbn. apply Permutation_app_head.
    by rewrite Permutation_middle.
Qed.
End Cpus.

(** ** The trackers *)

Section Trackers.
Context `{BO : ByteOrder} {I : Type} `{N : !Network I} `{NO : !NetworkOk}.
Context `{K : P4tcKernel} `{!P4tcKernelOk K} (filter : p4tc_filter_fields).
Context `{T : !FlowTable K filter} `{!FlowTableOk K filter}.
Implicit Types (w : world (flow_headers I) my_ingress_metadata_t).

Definition tracker_on (now : kstate) (w : @world (split_kernel now) (flow_headers I) my_ingress_metadata_t) :=
  tracker (K := split_kernel now) filter w.

Local Notation "'step'" := (cpu_step tracker_on).

(** What is due to a packet: a flow's packet goes on to the kernel as it is,
    any other packet is dropped. *)
Definition served w (r : Z) (skb : sk_buff) : Prop :=
  match flow_of_world w with
  | None => r = TC_ACT_SHOT
  | Some _ =>
    r = bpf_redirect (skb_ifindex (w_skb w)) BPF_F_INGRESS /\
    skb_data skb = skb_data (w_skb w) /\ pass_to_kernel (skb_cb skb) = true
  end.

Lemma on_split_arrives now w k : arrives w -> @arrives (split_kernel now) _ _ (on_split now w k).
Proof. intros []. by split. Qed.

(** A run of which the lookup finds [k] and the creation [now]. *)
Lemma tracker_split now w k :
  arrives w -> tracked k ⊆ tracked now ->
  exists r (w' : @world (split_kernel now) (flow_headers I) my_ingress_metadata_t),
    tracker_on now (on_split now w k) = Some (r, w') /\ served w r (w_skb w') /\
    let after := if (w_kern w').2 then (w_kern w').1 else now in
    tracked now ⊆ tracked after ⊆ flows_of [w] ∪ tracked now /\
    (room_for K filter (flows_of [w] ∪ tracked now) -> flows_of [w] ⊆ tracked after).
Proof.
  intros Ha Hk.
  pose proof (tracker_spec (K := split_kernel now) filter _ (on_split_arrives now w k Ha)) as Hs.
  change (skb_ifindex (w_skb (on_split now w k))) with (skb_ifindex (w_skb w)) in Hs.
  change (skb_data (w_skb (on_split now w k))) with (skb_data (w_skb w)) in Hs.
  unfold served, flows_of. cbn [omap list_omap]. change (flow_of (skb_ifindex (w_skb w)) _) with (flow_of_world w) in Hs.
  destruct (flow_of_world w) as [key|].
  - destruct Hs as (r & w' & E & Ed & Ek & Er & _ & Ep). exists r, w'. split; [exact E|].
    split; [by split_and!|]. cbn [list_to_set foldr]. rewrite (right_id_L ∅ (∪)). cbv zeta. rewrite Ek.
    unfold track. cbn [bpf_p4tc_tbl_read bpf_p4tc_entry_create_on_miss split_kernel on_split w_kern w_skb fst snd].
    destruct (decide (key ∈ tracked k)) as [Hin|Hni].
    + destruct (read_tracked k (w_skb w) key Hin) as (v & -> & ->). cbn [Z.eqb fst snd].
      split; [split; [done|apply union_subseteq_r]|]. intros _. by apply singleton_subseteq_l, Hk.
    + destruct (read_untracked k (w_skb w) key Hni) as (v & -> & ->). cbn [Z.eqb Pos.eqb].
      destruct (bpf_p4tc_entry_create_on_miss now (w_skb w) (update_params filter) key) as [r' k'] eqn:Ec.
      cbn [fst snd]. pose proof (create_tracked _ _ _ _ _ Ec) as Hc. rewrite Hc.
      split; [case_match; (split; [|done]) || (split; [done|]); apply union_subseteq_r|].
      intros Hroom. destruct (decide (key ∈ tracked now)) as [Hin|Hni'].
      * apply singleton_subseteq_l. case_match; [by apply elem_of_union_r|exact Hin].
      * apply (room_for_key filter now (w_skb w) key) in Hroom; [|exact Hni']. rewrite Ec in Hroom. cbn [fst] in Hroom.
        rewrite Hroom. apply union_subseteq_l.
  - destruct Hs as (w' & E & Ek). exists TC_ACT_SHOT, w'. split; [exact E|]. split; [done|].
    cbv zeta. rewrite Ek. cbn [on_split w_kern snd fst list_to_set foldr]. rewrite (left_id_L ∅ (∪)).
    split; [done|]. intros _. apply empty_subseteq.
Qed.
(** The flows of packets that are among others. *)
Lemma flows_of_sub ws ws' : ws ⊆ ws' -> flows_of (I := I) (K := K) ws ⊆ flows_of ws'.
Proof.
  intros Hs key. unfold flows_of. rewrite !elem_of_list_to_set, !list_elem_of_omap.
  intros (w & Hin & E). exists w. split; [by apply Hs|exact E].
Qed.

Section Run.
Context (ws : list (world (flow_headers I) my_ingress_metadata_t)) (k0 : kstate).
Hypothesis Hws : Forall arrives ws.

Record cpus_inv (st : cpus (H := flow_headers I) (U := my_ingress_metadata_t)) : Prop := {
  ci_packets : cpus_packets st ≡ₚ ws;
  ci_old : tracked k0 ⊆ tracked (c_kern st);
  ci_new : tracked (c_kern st) ⊆ flows_of ws ∪ tracked k0;
  ci_looked : forall w k, (w, k) ∈ c_looked st -> tracked k ⊆ tracked (c_kern st);
  ci_done : forall w r skb, (w, (r, skb)) ∈ c_done st ->
    served w r skb /\
    (room_for K filter (flows_of ws ∪ tracked k0) -> flows_of [w] ⊆ tracked (c_kern st))
}.

Lemma cpus_inv_start : cpus_inv (cpus_start k0 ws).
Proof.
  split; cbn; try done.
  - unfold cpus_packets. cbn. by rewrite app_nil_r.
  - apply union_subseteq_r.
  - intros w k Hin. by apply not_elem_of_nil in Hin.
  - intros w r skb Hin. by apply not_elem_of_nil in Hin.
Qed.

Lemma begin_inv st st' : cpus_inv st -> cpu_begin st st' -> cpus_inv st'.
Proof.
  intros [Hp Ho Hn Hl Hd] Hb.
  assert (Hp' : cpus_packets st' ≡ₚ ws)
    by (rewrite <- Hp; symmetry; apply (cpu_step_packets tracker_on); by left).
  destruct Hb as [st q1 q2 w Eq]. split; cbn; try done.
  intros w' k [[= -> ->]|Hin]%elem_of_cons; [done|by eapply Hl].
Qed.

(** A packet that a CPU is at. *)
Lemma looked_run st l1 w k l2 :
  cpus_inv st -> c_looked st = l1 ++ (w, k) :: l2 ->
  arrives w /\ w ∈ ws /\ tracked k ⊆ tracked (c_kern st).
Proof.
  intros [Hp _ _ Hl _] Eq.
  assert (Hin : w ∈ ws).
  { rewrite <- Hp. unfold cpus_packets. rewrite Eq, map_app, !elem_of_app. cbn. rewrite elem_of_cons. tauto. }
  split; [exact (proj1 (List.Forall_forall _ _) Hws _ (proj1 (list_elem_of_In _ _) Hin))|].
  split; [exact Hin|]. apply (Hl w). rewrite Eq, elem_of_app, elem_of_cons. tauto.
Qed.

Lemma end_inv st st' : cpus_inv st -> cpu_end tracker_on st st' -> cpus_inv st'.
Proof.
  intros Hi He.
  assert (Hp' : cpus_packets st' ≡ₚ ws)
    by (rewrite <- (ci_packets _ Hi); symmetry; apply (cpu_step_packets tracker_on); by right).
  destruct He as [st l1 l2 w k r w' Eq E].
  destruct (looked_run _ _ _ _ _ Hi Eq) as (Ha & Hin & Hk).
  destruct (tracker_split (c_kern st) w k Ha Hk) as (r' & w'' & E' & Hv & [H1 H2] & H3).
  rewrite E in E'. injection E' as <- <-. cbv zeta in H1, H2, H3.
  destruct Hi as [_ Ho Hn Hl Hd].
  assert (Hsub : flows_of [w] ∪ tracked (c_kern st) ⊆ flows_of ws ∪ tracked k0).
  { apply union_least; [|exact Hn]. apply union_subseteq_l', flows_of_sub.
    intros x ->%list_elem_of_singleton. exact Hin. }
  split; cbn [c_kern c_looked c_done]; [exact Hp'| | | |].
  - by transitivity (tracked (c_kern st)).
  - etransitivity; [exact H2|exact Hsub].
  - intros x kx Hx. transitivity (tracked (c_kern st)); [|exact H1]. apply (Hl x).
    rewrite Eq. rewrite elem_of_app in *. rewrite elem_of_cons. tauto.
  - intros x rx sx [[= -> -> ->]|Hx]%elem_of_cons.
    { split; [exact Hv|]. intros Hroom. exact (H3 (room_for_sub filter _ _ Hsub Hroom)). }
    destruct (Hd x rx sx Hx) as [Hsx Hfx]. split; [exact Hsx|]. intros Hroom.
    transitivity (tracked (c_kern st)); [by apply Hfx|exact H1].
Qed.

Lemma cpus_inv_steps n st : nsteps step n (cpus_start k0 ws) st -> cpus_inv st.
Proof.
  generalize cpus_inv_start. generalize (cpus_start k0 ws). intros st0 Hi Hn.
  induction Hn as [|n st0 st1 st [Hb|He] _ IH]; [exact Hi| |]; apply IH;
    [by eapply begin_inv|by eapply end_inv].
Qed.

(** No CPU gets stuck. *)
Lemma cpus_progress st : cpus_inv st -> (forall st', ~ step st st') -> cpus_idle st.
Proof.
  intros Hi Hno. split.
  - destruct (c_waiting st) as [|w q] eqn:Eq; [done|]. exfalso. eapply Hno. left.
    exact (begin_packet st [] q w Eq).
  - destruct (c_looked st) as [|[w k] l] eqn:Eq; [done|]. exfalso.
    destruct (looked_run st [] w k l Hi Eq) as (Ha & _ & Hk).
    destruct (tracker_split (c_kern st) w k Ha Hk) as (r & w' & E & _).
    eapply Hno. right. exact (end_packet tracker_on st [] l w k r w' Eq E).
Qed.

Lemma tracker_cpus n st :
  nsteps step n (cpus_start k0 ws) st ->
  (n <= 2 * length ws)%nat /\
  ((forall st', ~ step st st') ->
   map fst (c_done st) ≡ₚ ws /\
   (forall w r skb, (w, (r, skb)) ∈ c_done st -> served w r skb) /\
   tracked k0 ⊆ tracked (c_kern st) ⊆ flows_of ws ∪ tracked k0 /\
   (room_for K filter (flows_of ws ∪ tracked k0) -> tracked (c_kern st) = flows_of ws ∪ tracked k0)).
Proof.
  intros Hn. pose proof (cpus_inv_steps n st Hn) as Hi. split.
  - pose proof (cpu_steps_work _ _ _ _ Hn) as Hw. unfold cpus_work in Hw. cbn in Hw. lia.
  - intros Hno. destruct (cpus_progress st Hi Hno) as [Ew El]. destruct Hi as [Hp Ho Hnew _ Hd].
    unfold cpus_packets in Hp. rewrite Ew, El in Hp. cbn in Hp.
    split_and!; [exact Hp|intros w r skb Hin; exact (proj1 (Hd w r skb Hin))|exact Ho|exact Hnew|].
    intros Hroom. apply (anti_symm (⊆)); [exact Hnew|]. apply union_least; [|exact Ho].
    intros key. unfold flows_of at 1. rewrite elem_of_list_to_set, list_elem_of_omap.
    intros (w & Hin & E). rewrite <- Hp in Hin. apply list_elem_of_fmap in Hin as ([w' [r skb]] & -> & Hin).
    apply (proj2 (Hd _ r skb Hin) Hroom). unfold flows_of. cbn [omap list_omap fst].
    cbn [fst] in E. rewrite E. apply elem_of_list_to_set, list_elem_of_here.
Qed.
End Run.
End Trackers.

(** ** The two programs *)

Section Programs.
Context `{BO : ByteOrder} `{K : P4tcKernel} `{!P4tcKernelOk K} (filter : p4tc_filter_fields).
Context `{T : !FlowTable K filter} `{!FlowTableOk K filter}.

Definition flowtracker_on (now : kstate) :=
  flowtracker (K := split_kernel now) filter.
Definition flowtracker_ipv6_on (now : kstate) :=
  flowtracker_ipv6 (K := split_kernel now) filter.

(** C4: the tracker is correct on any number of CPUs.  Whatever packets arrive,
    and however their lookups and creations are interleaved, they take two steps
    each; when no CPU can go on all of them have been served, every packet of a
    flow unchanged and every other dropped, and the table holds the flows it
    held before, possibly flows of the packets, and no others.  If the table is
    large enough for all of these flows it holds them all: what it would hold if
    the packets had come one after the other.  That two CPUs miss the same flow
    at the same time is part of this. *)
Theorem flowtracker_cpus ws k0 n st :
  Forall arrives ws -> nsteps (cpu_step flowtracker_on) n (cpus_start k0 ws) st ->
  (n <= 2 * length ws)%nat /\
  ((forall st', ~ cpu_step flowtracker_on st st') ->
   map fst (c_done st) ≡ₚ ws /\
   (forall w r skb, (w, (r, skb)) ∈ c_done st -> served (I := ipv4_t) w r skb) /\
   tracked k0 ⊆ tracked (c_kern st) ⊆ flows_of (I := ipv4_t) ws ∪ tracked k0 /\
   (room_for K filter (flows_of (I := ipv4_t) ws ∪ tracked k0) ->
    tracked (c_kern st) = flows_of (I := ipv4_t) ws ∪ tracked k0)).
Proof. exact (fun Hws => tracker_cpus (I := ipv4_t) filter ws k0 Hws n st). Qed.

(** C17: the same holds of the IPv6 tracker, with its own keys and headers: on any
    number of CPUs every packet is served, and a table that is large enough ends
    up with the flows it held and those of the packets, and no others. *)
Theorem flowtracker_ipv6_cpus ws k0 n st :
  Forall arrives ws -> nsteps (cpu_step flowtracker_ipv6_on) n (cpus_start k0 ws) st ->
  (n <= 2 * length ws)%nat /\
  ((forall st', ~ cpu_step flowtracker_ipv6_on st st') ->
   map fst (c_done st) ≡ₚ ws /\
   (forall w r skb, (w, (r, skb)) ∈ c_done st -> served (I := ipv6_t) w r skb) /\
   tracked k0 ⊆ tracked (c_kern st) ⊆ flows_of (I := ipv6_t) ws ∪ tracked k0 /\
   (room_for K filter (flows_of (I := ipv6_t) ws ∪ tracked k0) ->
    tracked (c_kern st) = flows_of (I := ipv6_t) ws ∪ tracked k0)).
Proof. exact (fun Hws => tracker_cpus (I := ipv6_t) filter ws k0 Hws n st). Qed.
End Programs.

(** ** The theorems at a concrete race *)

(** Two packets of one flow, and a table with room for one entry: both are
    looked up before either entry is created, so that the second creation
    fails. *)
Section Race.
Context {H U : Type} (program : forall now : kstate (P4tcKernel := flow_kernel 1),
  @world (split_kernel (K := flow_kernel 1) now) H U
  -> option (Z * @world (split_kernel (K := flow_kernel 1) now) H U)).
Context (w : @world (flow_kernel 1) H U) (key : list Z) (skb : sk_buff).

Definition race_start : cpus (K := flow_kernel 1) := cpus_start (K := flow_kernel 1) [] [w; w].
Definition race_end : cpus (K := flow_kernel 1) :=
  mk_cpus (K := flow_kernel 1) [key] [] [] [(w, (7, skb)); (w, (7, skb))].

(** The packet's run, when its creation finds the tables [now]. *)
Definition races (now : list (list Z)) : Prop :=
  option_map (fun '(r, w') => (r, w_skb w', w_kern w'))
    (program now (on_split (K := flow_kernel 1) now w []))
  = Some (7, skb, ([key], true)).

Lemma race_step now l d :
  races now ->
  cpu_step program (mk_cpus (K := flow_kernel 1) now [] ((w, []) :: l) d)
    (mk_cpus (K := flow_kernel 1) [key] [] l ((w, (7, skb)) :: d)).
Proof.
  unfold races. destruct (program now _) as [[r w']|] eqn:E; [|done]. intros [= -> Es Ek].
  pose proof (end_packet program (mk_cpus (K := flow_kernel 1) now [] ((w, []) :: l) d) [] l w [] 7 w'
    eq_refl E) as Hs.
  cbn [c_kern c_waiting c_done app] in Hs. rewrite Ek, Es in Hs. right. exact Hs.
Qed.

Lemma race_run : races [] -> races [key] -> nsteps (cpu_step program) 4 race_start race_end.
Proof.
  intros H1 H2.
  eapply nsteps_l; [left; exact (begin_packet (K := flow_kernel 1) race_start [] [w] w eq_refl)|].
  eapply nsteps_l; [left; eapply (begin_packet (K := flow_kernel 1) _ [] [] w); reflexivity|].
  eapply nsteps_l; [exact (race_step [] _ _ H1)|].
  eapply nsteps_l; [exact (race_step [key] _ _ H2)|]. apply nsteps_O.
Qed.

Lemma race_over st : ~ cpu_step program race_end st.
Proof.
  intros [Hb|He]; [inversion Hb as [? q1 ? ? Eq]|inversion He as [? l1 ? ? ? ? ? Eq]]; subst.
  - by destruct q1.
  - by destruct l1.
Qed.
End Race.

Section Witnesses.
Definition race_program := flowtracker_on (K := flow_kernel 1) sample_filter.
Definition race6_program := flowtracker_ipv6_on (K := flow_kernel 1) sample_filter.
Definition racer : @world (flow_kernel 1) (flow_headers ipv4_t) my_ingress_metadata_t :=
  flow_world flow_headers0 metadata0 1 2 sample_frame.
Definition racer6 : @world (flow_kernel 1) (flow_headers ipv6_t) my_ingress_metadata_t :=
  flow_world flow_headers0 metadata0 1 2 sample_frame6.
Definition race_skb : sk_buff :=
  match race_program [] (on_split (K := flow_kernel 1) [] racer []) with
  | Some (_, w) => w_skb w | None => w_skb racer end.
Definition race6_skb : sk_buff :=
  match race6_program [] (on_split (K := flow_kernel 1) [] racer6 []) with
  | Some (_, w) => w_skb w | None => w_skb racer6 end.

Lemma racers_arrive : Forall arrives [racer; racer].
Proof. repeat (constructor; [apply flow_world_arrives; vm_compute; reflexivity|]). constructor. Qed.

Lemma racers6_arrive : Forall arrives [racer6; racer6].
Proof. repeat (constructor; [apply flow_world_arrives; vm_compute; reflexivity|]). constructor. Qed.

Lemma flowtracker_cpus_witness :
  let st := race_end racer (flow_tuple 2 sample_ip [0; 7; 0; 7]) race_skb in
  map fst (c_done st) ≡ₚ [racer; racer] /\
  tracked (K := flow_kernel 1) (filter := sample_filter) (c_kern st)
  = flows_of (I := ipv4_t) (K := flow_kernel 1) [racer; racer] ∪ ∅.
Proof.
  intros st. destruct (flowtracker_cpus (K := flow_kernel 1) sample_filter [racer; racer] [] 4 st racers_arrive)
    as (_ & Hend).
  - apply race_run; vm_compute; reflexivity.
  - destruct Hend as (Hp & _ & _ & Hs); [apply race_over|split; [exact Hp|]].
    apply Hs. exists 1%nat. split; [apply flow_kernel_room|]. vm_compute. lia.
Defined.

Lemma flowtracker_ipv6_cpus_witness :
  let st := race_end racer6 (flow6_tuple 2 sample_ip6 [4; 1; 0; 80]) race6_skb in
  map fst (c_done st) ≡ₚ [racer6; racer6] /\
  tracked (K := flow_kernel 1) (filter := sample_filter) (c_kern st)
  = flows_of (I := ipv6_t) (K := flow_kernel 1) [racer6; racer6] ∪ ∅.
Proof.
  intros st. destruct (flowtracker_ipv6_cpus (K := flow_kernel 1) sample_filter [racer6; racer6] [] 4 st racers6_arrive)
    as (_ & Hend).
  - apply race_run; vm_compute; reflexivity.
  - destruct Hend as (Hp & _ & _ & Hs); [apply race_over|split; [exact Hp|]].
    apply Hs. exists 1%nat. split; [apply flow_kernel_room|]. vm_compute. lia.
Defined.
End Witnesses.
