(* ===== verification/Pipelines.v ===== *)
(** The eight programs as pipelines of a host, and what holds of all of
    them. *)

From stdpp Require Import gmap relations.
From S2P Require Import Prelude CInt Memory Pna P4Spec Pipeline Steps Headers Checksum Deparse.
From S2P Require Import Chain Host Samples Ipip Routing Calc Ingress SimpleL3 RedirectL2.
From S2P Require Import ArpRespond Ipv6 Flow Flowtracker FlowtrackerIpv6.

(** ** What a second parser finds *)

Section Resend.
Context `{BO : ByteOrder}.

(** The EtherType of a frame whose first header was emitted. *)
Lemma type_of_sent e rest :
  wf_ethernet e -> eth_valid e = 1 ->
  eth_etherType (ethernet_of_bytes (slice 0 14 (out_ethernet e ++ rest))) = eth_etherType e.
Proof.
  intros Hw Hv. rewrite out_ethernet_valid by exact Hv.
  rewrite slice_0 by apply length_ethernet_to_bytes.
  unfold ethernet_of_bytes, ethernet_to_bytes. rewrite p4_extract_emit; [reflexivity|done|].
  pose proof (mac_value_bound (eth_dstAddr e)). pose proof (mac_value_bound (eth_srcAddr e)).
  unfold ethernet_widths, ethernet_fields. solve_fits.
Qed.

(** Ethernet and IPv4, one after the other. *)
Lemma slice_of_sent e ip rest :
  eth_valid e = 1 -> ip_valid ip = 1 ->
  slice 14 20 (out_ethernet e ++ out_ipv4 ip ++ rest) = ipv4_to_bytes ip.
Proof.
  intros Hv Hi. rewrite out_ethernet_valid, out_ipv4_valid by assumption.
  rewrite (slice_app _ _ 14 14) by (try apply length_ethernet_to_bytes; lia).
  by apply slice_0, length_ipv4_to_bytes.
Qed.
End Resend.

(** ** The programs *)

Section Pipelines.
Context `{BO : ByteOrder} `{K : P4tcKernel} (filter : p4tc_filter_fields).

Definition ipip_pipeline : pipeline :=
  mk_pipeline _ Ipip.headers_t Ipip.metadata_t (Ipip.ipip filter) (Ipip.ipip_spec filter)
    (fun data => (Ipip.ipip_parse data).1.1).

Definition routing_pipeline : pipeline :=
  mk_pipeline _ Routing.headers_t Routing.metadata_t (Routing.routing filter)
    (Routing.routing_spec filter) (fun data => (Routing.routing_parse data).1.1).

Definition calc_pipeline : pipeline :=
  mk_pipeline _ Calc.headers_t Calc.metadata_t (Calc.calc filter) (Calc.calc_spec filter)
    (fun data => (Calc.calc_parse data).1.1).

Definition simple_l3_pipeline : pipeline :=
  mk_pipeline _ Ingress.my_ingress_headers_t Ingress.my_ingress_metadata_t
    (SimpleL3.simple_l3 filter) (SimpleL3.simple_l3_spec filter)
    (fun data => (SimpleL3.simple_l3_parse data).1.1).

Definition redirect_l2_pipeline : pipeline :=
  mk_pipeline _ Ingress.my_ingress_headers_t Ingress.my_ingress_metadata_t
    (RedirectL2.redirect_l2 filter) (RedirectL2.redirect_l2_spec filter)
    (fun data => (RedirectL2.redirect_l2_parse data).1.1).

Definition arp_respond_pipeline : pipeline :=
  mk_pipeline _ ArpRespond.my_ingress_headers_t ArpRespond.my_ingress_metadata_t
    (ArpRespond.arp_respond filter) (ArpRespond.arp_respond_spec filter)
    (fun data => (ArpRespond.arp_parse data).1.1).

Definition flowtracker_pipeline : pipeline :=
  mk_pipeline _ Flowtracker.headers_t Flow.my_ingress_metadata_t (Flowtracker.flowtracker filter)
    (program_spec flow_out (flow_parse (I := ipv4_t)) (flow_control filter))
    (fun data => (flow_parse (I := ipv4_t) data).1.1).

Definition flowtracker_ipv6_pipeline : pipeline :=
  mk_pipeline _ FlowtrackerIpv6.headers_t Flow.my_ingress_metadata_t
    (FlowtrackerIpv6.flowtracker_ipv6 filter)
    (program_spec flow_out (flow_parse (I := ipv6_t)) (flow_control filter))
    (fun data => (flow_parse (I := ipv6_t) data).1.1).

Definition pipelines : list pipeline :=
  [ipip_pipeline; routing_pipeline; calc_pipeline; simple_l3_pipeline; redirect_l2_pipeline;
   arp_respond_pipeline; flowtracker_pipeline; flowtracker_ipv6_pipeline].

Context `{!P4tcKernelOk K}.

(** What the tunnel and the router send are frames of the IPv4 type. *)
Definition sends_ipv4 (out : list Z) : Prop :=
  exists e rest, out = out_ethernet e ++ rest /\ wf_ethernet e /\ eth_valid e = 1 /\
                 eth_etherType e = 0x800.

Lemma ipip_sends_ipv4 k skb port out grow k' :
  frame_data (skb_data skb) -> Ipip.ipip_spec filter k skb = Send port out grow k' -> sends_ipv4 out.
Proof.
  intros (H14 & Hb & _). unfold Ipip.ipip_spec, sends_ipv4.
  pose proof (Ipip.ipip_parse_ok _ Hb H14) as Hp.
  assert (Ht : (Ipip.ipip_parse (skb_data skb)).1.1 <> Rejected ->
    eth_etherType (Ipip.ethernet (Ipip.ipip_parse (skb_data skb)).1.2) = 0x800).
  { unfold Ipip.ipip_parse. destruct (Nat.ltb_spec (length (skb_data skb)) 14); [lia|].
    destruct (Z.eqb_spec (eth_etherType (Ipip.ethernet { Ipip.headers0 with Ipip.ethernet :=
      ethernet_of_bytes (slice 0 14 (skb_data skb)) })) 0x800) as [Et|]; [|done].
    cbn [negb]. intros _. by repeat case_match. }
  destruct (Ipip.ipip_parse (skb_data skb)) as [[v h] n]. destruct Hp as (Hw & Hy & He & _).
  cbn [fst snd] in Ht. set (a := Ipip.fwd_action _).
  assert (He' : eth_etherType (Ipip.ethernet (Ipip.ipip_headers a h)) = eth_etherType (Ipip.ethernet h)).
  { unfold Ipip.ipip_headers. destruct (is_valid _); [|done].
    destruct a; rewrite ?Ipip.encap_ethernet, ?Ipip.decap_ethernet; done. }
  destruct (Ipip.ipip_headers_wf filter k skb h Hw Hy He) as ((Hwe & _) & _ & Hv'). fold a in Hwe, Hv'.
  destruct v; [|done|]; (destruct (Ipip.ipip_port _ h); [|done]); intros [= _ <- _ _];
    (exists (Ipip.ethernet (Ipip.ipip_headers a h)); eexists; unfold Ipip.headers_bytes;
     rewrite <- app_assoc; split; [reflexivity|]; split; [exact Hwe|]; split; [exact Hv'|];
     rewrite He'; by apply Ht).
Qed.

#[export] Instance ipip_pipeline_ok : PipelineOk ipip_pipeline.
Proof.
  refine (chain_pipeline_ok Ipip.headers0 Ipip.metadata0 Ipip.start (Ipip.ipip_body filter) _
    Ipip.ipip_parse (Ipip.ipip_implements filter) Ipip.ipip_start_spec _ _ _).
  - intros data Hb Hl. pose proof (Ipip.ipip_parse_ok data Hb Hl) as Hp.
    destruct (Ipip.ipip_parse data) as [[v h] n]. lia.
  - intros k skb port out grow k' Hd. unfold Ipip.ipip_spec.
    pose proof (Ipip.ipip_parse_ok _ (proj1 (proj2 Hd)) (proj1 Hd)) as Hp.
    destruct (Ipip.ipip_parse (skb_data skb)) as [[v h] n]. destruct Hp as (Hw & Hy & He & _).
    destruct (Ipip.ipip_headers_wf filter k skb h Hw Hy He) as (_ & Hy' & He').
    destruct (Ipip.length_headers_bytes _ Hy') as [Hl Hu]. rewrite He' in Hl.
    set (h' := Ipip.ipip_headers _ h) in *.
    assert (Hb : bytes (Ipip.headers_bytes h')).
    { unfold Ipip.headers_bytes. apply bytes_app.
      split; [apply bytes_out_ethernet|]. apply bytes_app. split; apply bytes_out_ipv4. }
    assert (Hr : (14 <= length (Ipip.headers_bytes h') < 1024)%nat) by (cbn in Hl; lia).
    destruct v; [|done|]; (destruct (Ipip.ipip_port _ h); [|done]); intros E;
      apply (bytes_sent _ _ _ _ _ _ _ _ _ _ _ Hd Hb Hr E eq_refl).
  - intros k skb out grow k' Hd _ Es. destruct (ipip_sends_ipv4 _ _ _ _ _ _ Hd Es) as (e & rest & -> & Hw & Hv & Ht).
    unfold Ipip.ipip_parse.
    change (eth_etherType (Ipip.ethernet _)) with (eth_etherType (ethernet_of_bytes (slice 0 14 (out_ethernet e ++ rest)))).
    rewrite (type_of_sent e rest Hw Hv), Ht. cbn [negb Z.eqb Pos.eqb]. by repeat case_match.
Qed.

Lemma routing_sends_ipv4 k skb port out grow k' :
  frame_data (skb_data skb) -> Routing.routing_spec filter k skb = Send port out grow k' ->
  sends_ipv4 out.
Proof.
  intros (H14 & Hb & _). unfold Routing.routing_spec, sends_ipv4.
  pose proof (Routing.routing_parse_ok _ Hb H14) as Hp.
  assert (Ht : (Routing.routing_parse (skb_data skb)).1.1 <> Rejected ->
    eth_etherType (Routing.ethernet (Routing.routing_parse (skb_data skb)).1.2) = 0x800).
  { unfold Routing.routing_parse. destruct (Nat.ltb_spec (length (skb_data skb)) 14); [lia|].
    destruct (Z.eqb_spec (eth_etherType (Routing.ethernet { Routing.headers0 with Routing.ethernet :=
      ethernet_of_bytes (slice 0 14 (skb_data skb)) })) 0x800) as [Et|]; [|done].
    cbn [negb]. intros _. by repeat case_match. }
  destruct (Routing.routing_parse (skb_data skb)) as [[v h] n]. destruct Hp as (Hwe & _ & He & _).
  cbn [fst snd] in Ht. set (r := Routing.route filter k skb _).
  assert (Hn : wf_ethernet (Routing.next_ethernet r (Routing.ethernet h)) /\
    eth_valid (Routing.next_ethernet r (Routing.ethernet h)) = 1 /\
    eth_etherType (Routing.next_ethernet r (Routing.ethernet h)) = eth_etherType (Routing.ethernet h))
    by (by destruct r).
  destruct Hn as (Hw' & Hv' & Ht').
  destruct v; [|done|]; (destruct (Routing.forwardable _); [|done]);
    (destruct (Routing.next_port r); [|done]); intros [= _ <- _ _];
    (exists (Routing.next_ethernet r (Routing.ethernet h)); eexists; unfold Routing.routing_bytes;
     rewrite <- app_assoc; split; [reflexivity|]; split; [exact Hw'|]; split; [exact Hv'|];
     rewrite Ht'; by apply Ht).
Qed.

#[export] Instance routing_pipeline_ok : PipelineOk routing_pipeline.
Proof.
  refine (chain_pipeline_ok Routing.headers0 Routing.metadata0 Routing.start (Routing.routing_body filter) _
    Routing.routing_parse (Routing.routing_implements filter) Routing.routing_start_spec _ _ _).
  - intros data Hb Hl. pose proof (Routing.routing_parse_ok data Hb Hl) as Hp.
    destruct (Routing.routing_parse data) as [[v h] n]. lia.
  - intros k skb port out grow k' Hd. unfold Routing.routing_spec.
    pose proof (Routing.routing_parse_ok _ (proj1 (proj2 Hd)) (proj1 Hd)) as Hp.
    destruct (Routing.routing_parse (skb_data skb)) as [[v h] n]. destruct Hp as (_ & _ & He & _).
    set (r := Routing.route filter k skb _).
    assert (Hb : bytes (Routing.routing_bytes r h)).
    { unfold Routing.routing_bytes. apply bytes_app. split; [apply bytes_out_ethernet|apply bytes_out_ipv4]. }
    assert (Hr : (14 <= length (Routing.routing_bytes r h) < 1024)%nat).
    { unfold Routing.routing_bytes. rewrite length_app, length_out_ethernet, length_out_ipv4.
      replace (eth_valid (Routing.next_ethernet r _)) with 1 by (by destruct r). cbn. case_match; lia. }
    destruct v; [|done|]; (destruct (Routing.forwardable _); [|done]);
      (destruct (Routing.next_port r); [|done]); intros E;
      apply (bytes_sent _ _ _ _ _ _ _ _ _ _ _ Hd Hb Hr E eq_refl).
  - intros k skb out grow k' Hd _ Es.
    destruct (routing_sends_ipv4 _ _ _ _ _ _ Hd Es) as (e & rest & -> & Hw & Hv & Ht).
    unfold Routing.routing_parse.
    change (eth_etherType (Routing.ethernet _))
      with (eth_etherType (ethernet_of_bytes (slice 0 14 (out_ethernet e ++ rest)))).
    rewrite (type_of_sent e rest Hw Hv), Ht. cbn [negb Z.eqb Pos.eqb]. by repeat case_match.
Qed.

#[export] Instance calc_pipeline_ok : PipelineOk calc_pipeline.
Proof.
  refine (chain_pipeline_ok Calc.headers0 Calc.metadata0 Calc.start (Calc.calc_body filter) _
    Calc.calc_parse (Calc.calc_implements filter) Calc.calc_start_spec _ _ _).
  - intros data Hb Hl. pose proof (Calc.calc_parse_ok data Hb Hl) as Hp.
    destruct (Calc.calc_parse data) as [[v h] n]. lia.
  - intros k skb port out grow k' Hd. unfold Calc.calc_spec.
    pose proof (Calc.calc_parse_ok _ (proj1 (proj2 Hd)) (proj1 Hd)) as Hp.
    destruct (Calc.calc_parse (skb_data skb)) as [[v h] n]. destruct Hp as (_ & _ & He & _).
    assert (Hh : forall h', eth_valid (Calc.ethernet h') = 1 ->
      bytes (Calc.headers_bytes h') /\ (14 <= length (Calc.headers_bytes h') < 1024)%nat).
    { intros h' He'. unfold Calc.headers_bytes. split.
      - apply bytes_app. split; [apply bytes_out_ethernet|].
        unfold Calc.out_p4calc. case_match; [apply bytes_p4_emit|constructor].
      - rewrite length_app, length_out_ethernet, Calc.length_out_p4calc, He'. cbn. case_match; lia. }
    destruct (is_valid _); [|done]. destruct (Calc.calc_action _) as [o| |]; [|done|]; intros E.
    + destruct (Hh (Calc.reply o h) He) as [Hb Hr].
      apply (bytes_sent _ _ _ _ _ _ _ _ _ _ _ Hd Hb Hr E eq_refl).
    + destruct (Hh h He) as [Hb Hr]. apply (bytes_sent _ _ _ _ _ _ _ _ _ _ _ Hd Hb Hr E eq_refl).
  - intros k skb out grow k' _ _ _. unfold Calc.calc_parse. by repeat case_match.
Qed.

(** The programs under simple/ have the same headers. *)
Lemma bytes_bytes_of h : bytes (Ingress.bytes_of h) /\ (length (Ingress.bytes_of h) < 1024)%nat.
Proof.
  unfold Ingress.bytes_of. split.
  - apply bytes_app. split; [apply bytes_out_ethernet|apply bytes_out_ipv4].
  - rewrite length_app, length_out_ethernet, length_out_ipv4. repeat case_match; lia.
Qed.

(** What the two programs make of the headers, and what is left of them. *)
Lemma sent_both data e ip n h' :
  frame_data data -> eth_etherType e = 0x800 -> wf_ethernet e -> eth_valid e = 1 ->
  h' = Ingress.Build_my_ingress_headers_t e ip \/
  (exists d s, h' = Ingress.with_macs d s (Ingress.Build_my_ingress_headers_t e ip)) ->
  let out := Ingress.bytes_of h' ++ drop n data in
  eth_etherType (ethernet_of_bytes (slice 0 14 out)) = 0x800 /\
  (ip_valid ip = 1 -> slice 14 20 out = ipv4_to_bytes ip) /\
  (ip_valid ip = 0 -> (14 <= n <= length data)%nat -> length out = (14 + (length data - n))%nat).
Proof.
  intros Hd Ht Hw Hv Hh. cbn zeta. unfold Ingress.bytes_of.
  assert (E : exists e', Ingress.ethernet h' = e' /\ Ingress.ipv4 h' = ip /\ eth_etherType e' = 0x800 /\
                         wf_ethernet e' /\ eth_valid e' = 1).
  { destruct Hh as [-> | (d & s & ->)]; eexists; by split_and!. }
  destruct E as (e' & -> & -> & Ht' & Hw' & Hv'). rewrite <- app_assoc. split; [|split].
  - by rewrite type_of_sent.
  - intros Hi. by apply slice_of_sent.
  - intros Hi Hn. rewrite out_ipv4_invalid by exact Hi.
    by rewrite length_app, length_out_ethernet, Hv', app_nil_l, length_drop.
Qed.

Section Resends.
Context (k : kstate) (skb : sk_buff).
Let data := skb_data skb.
Hypothesis Hd : frame_data data.

Lemma wf_first : wf_ethernet (ethernet_of_bytes (slice 0 14 data)) /\
                 eth_valid (ethernet_of_bytes (slice 0 14 data)) = 1.
Proof.
  destruct Hd as (H14 & Hb & _).
  split; [apply ethernet_of_bytes_wf|apply ethernet_of_bytes_valid];
    (apply length_slice; lia) || by apply slice_bytes.
Qed.

Definition keeps (effect : kstate -> sk_buff -> Ingress.my_ingress_headers_t ->
    option (Ingress.my_ingress_headers_t * Z * kstate)) : Prop :=
  forall h h' port k', effect k skb h = Some (h', port, k') ->
    h' = h \/ exists d s, h' = Ingress.with_macs d s h.

Lemma simple_l3_resends effect out grow k' :
  keeps effect -> program_spec Ingress.bytes_of SimpleL3.simple_l3_parse effect k skb = Send 0 out grow k' ->
  (SimpleL3.simple_l3_parse out).1.1 <> Rejected.
Proof.
  intros Hc. destruct wf_first as [Hw Hv]. destruct Hd as (H14 & Hb & _).
  unfold program_spec, SimpleL3.simple_l3_parse at 1. fold data.
  destruct (Nat.ltb_spec (length data) 14); [lia|]. cbv zeta.
  destruct (Z.eqb_spec (eth_etherType (ethernet_of_bytes (slice 0 14 data))) 0x800) as [Ht|]; [|done].
  cbn [negb]. destruct (Nat.ltb_spec (length data) 34) as [Hs|Hs].
  - destruct (effect k skb _) as [[[h' port] k1]|] eqn:Ee; [|done]. intros [= _ <- _ _].
    destruct (sent_both data _ ipv4_0 14 h' Hd Ht Hw Hv (Hc _ _ _ _ Ee)) as (Ht' & _ & Hl).
    specialize (Hl eq_refl ltac:(lia)). unfold SimpleL3.simple_l3_parse. rewrite Hl, Ht'. cbn [negb Z.eqb Pos.eqb].
    destruct (Nat.ltb_spec (14 + (length data - 14)) 14); [lia|].
    by destruct (Nat.ltb_spec (14 + (length data - 14)) 34); [|lia].
  - set (ip := ipv4_of_bytes (slice 14 20 data)).
    assert (Hi : length (slice 14 20 data) = 20%nat) by (apply length_slice; lia).
    assert (Hbi : bytes (slice 14 20 data)) by by apply slice_bytes.
    destruct (Z.eqb_spec (ip_protocol ip) 6) as [Hp|]; [|done].
    destruct (effect k skb _) as [[[h' port] k1]|] eqn:Ee; [|done]. intros [= _ <- _ _].
    destruct (sent_both data _ ip 34 h' Hd Ht Hw Hv (Hc _ _ _ _ Ee)) as (Ht' & Hsl & _).
    specialize (Hsl (ipv4_of_bytes_valid _ Hi Hbi)). unfold SimpleL3.simple_l3_parse.
    rewrite Ht', Hsl. cbn [negb Z.eqb Pos.eqb]. unfold ip. rewrite ipv4_to_of_bytes by assumption.
    fold ip. rewrite Hp. by repeat case_match.
Qed.

Lemma redirect_l2_resends effect out grow k' :
  keeps effect -> program_spec Ingress.bytes_of RedirectL2.redirect_l2_parse effect k skb = Send 0 out grow k' ->
  (RedirectL2.redirect_l2_parse out).1.1 <> Rejected.
Proof.
  intros Hc. destruct wf_first as [Hw Hv]. destruct Hd as (H14 & Hb & _).
  unfold program_spec, RedirectL2.redirect_l2_parse at 1. fold data.
  destruct (Nat.ltb_spec (length data) 14); [lia|]. cbv zeta.
  destruct (Z.eqb_spec (eth_etherType (ethernet_of_bytes (slice 0 14 data))) 0x800) as [Ht|]; [|done].
  cbn [negb]. intros Es.
  assert (Ht' : eth_etherType (ethernet_of_bytes (slice 0 14 out)) = 0x800).
  { destruct (length data <? 34)%nat;
      (destruct (effect k skb _) as [[[h' port] k1]|] eqn:Ee; [|done]); injection Es as _ <- _ _;
      exact (proj1 (sent_both data _ _ _ h' Hd Ht Hw Hv (Hc _ _ _ _ Ee))). }
  unfold RedirectL2.redirect_l2_parse. rewrite Ht'. cbn [negb Z.eqb Pos.eqb]. by repeat case_match.
Qed.
End Resends.

#[export] Instance simple_l3_pipeline_ok : PipelineOk simple_l3_pipeline.
Proof.
  pose proof (SimpleL3.simple_l3_ok filter) as Hok.
  refine (chain_pipeline_ok Ingress.headers0 Ingress.metadata0 SimpleL3.start (SimpleL3.simple_l3_body filter) _
    SimpleL3.simple_l3_parse (SimpleL3.simple_l3_implements filter) SimpleL3.simple_l3_start _ _ _).
  - intros data Hb Hl. pose proof (ok_parse _ _ _ _ _ _ _ _ _ _ _ Hok data Hb Hl) as Hp.
    destruct (SimpleL3.simple_l3_parse data) as [[v h] n]. lia.
  - intros k skb port out grow k'. exact (program_sends _ _ _ _ _ _ _ _ _ _ _ _ _ _ _ _ _ Hok bytes_bytes_of).
  - intros k skb out grow k' Hd _ Es.
    assert (Hc : forall h h' port k', SimpleL3.simple_l3_control filter k skb h = Some (h', port, k') ->
      h' = h \/ exists d s, h' = Ingress.with_macs d s h).
    { intros h h' port k1. unfold SimpleL3.simple_l3_control. destruct (_ && _); [|intros [= <- _ _]; by left].
      destruct (SimpleL3.nh_action _); [|done|intros [= <- _ _]; by left]. intros [= <- _ _]. right. by eexists _, _. }
    exact (simple_l3_resends k skb Hd _ out grow k' Hc Es).
Qed.

#[export] Instance redirect_l2_pipeline_ok : PipelineOk redirect_l2_pipeline.
Proof.
  pose proof (RedirectL2.redirect_l2_ok filter) as Hok.
  refine (chain_pipeline_ok Ingress.headers0 Ingress.metadata0 RedirectL2.start (RedirectL2.redirect_l2_body filter) _
    RedirectL2.redirect_l2_parse (RedirectL2.redirect_l2_implements filter) RedirectL2.redirect_l2_start _ _ _).
  - intros data Hb Hl. pose proof (ok_parse _ _ _ _ _ _ _ _ _ _ _ Hok data Hb Hl) as Hp.
    destruct (RedirectL2.redirect_l2_parse data) as [[v h] n]. lia.
  - intros k skb port out grow k'. exact (program_sends _ _ _ _ _ _ _ _ _ _ _ _ _ _ _ _ _ Hok bytes_bytes_of).
  - intros k skb out grow k' Hd _ Es.
    assert (Hc : forall h h' port k', RedirectL2.redirect_l2_control filter k skb h = Some (h', port, k') ->
      h' = h \/ exists d s, h' = Ingress.with_macs d s h).
    { intros h h' port k1. unfold RedirectL2.redirect_l2_control.
      destruct (RedirectL2.nh_action _); intros [= <- _ _]; [right; by eexists _, _|by left]. }
    exact (redirect_l2_resends k skb Hd _ out grow k' Hc Es).
Qed.

(** The operation of an ARP header that was emitted. *)
Lemma oper_of_sent e a rest :
  eth_valid e = 1 -> ArpRespond.wf_arp a -> ArpRespond.arp_valid a = 1 ->
  ArpRespond.arp_oper (ArpRespond.arp_of_bytes (slice 14 8 (out_ethernet e ++ ArpRespond.out_arp a ++ rest)))
  = ArpRespond.arp_oper a.
Proof.
  intros Hv Hw Ha. rewrite out_ethernet_valid by exact Hv. unfold ArpRespond.out_arp. rewrite Ha.
  change (is_valid 1) with true. cbv iota.
  rewrite (slice_app _ _ 14 14) by (try apply length_ethernet_to_bytes; lia).
  rewrite slice_0 by apply ArpRespond.length_arp_to_bytes.
  unfold ArpRespond.arp_of_bytes, ArpRespond.arp_to_bytes. by rewrite p4_extract_emit.
Qed.

(** The parser drops nothing but complete ARP headers that are no requests. *)
Lemma arp_not_rejected out :
  (eth_etherType (ethernet_of_bytes (slice 0 14 out)) = 0x806 -> (42 <= length out)%nat ->
   ArpRespond.arp_oper (ArpRespond.arp_of_bytes (slice 14 8 out)) = 1) ->
  (ArpRespond.arp_parse out).1.1 <> Rejected.
Proof.
  intros Ho. unfold ArpRespond.arp_parse. destruct (Nat.ltb_spec (length out) 14); [done|]. cbv zeta.
  destruct (Z.eqb_spec (eth_etherType (ethernet_of_bytes (slice 0 14 out))) 0x806) as [Ht|]; [|done].
  cbn [negb]. destruct (Nat.ltb_spec (length out) 22); [done|].
  destruct (Nat.ltb_spec (length out) 42) as [|Hl]; [done|]. by rewrite (Ho Ht Hl).
Qed.

(** What the responder hands to the kernel is what it parsed. *)
Lemma arp_handed_over k skb out grow k' :
  on_wire skb -> ArpRespond.arp_respond_spec filter k skb = Send 0 out grow k' ->
  exists v h n, ArpRespond.arp_parse (skb_data skb) = (v, h, n) /\ v <> Rejected /\
    out = out_ethernet (ArpRespond.ethernet h) ++ ArpRespond.out_arp (ArpRespond.arp h)
            ++ ArpRespond.out_arp_ipv4 (ArpRespond.arp_ipv4 h) ++ drop n (skb_data skb).
Proof.
  intros Hi. unfold ArpRespond.arp_respond_spec, program_spec.
  assert (Hc : forall h h' k', ArpRespond.arp_control filter k skb h = Some (h', 0, k') -> h' = h).
  { intros h h' k1. unfold ArpRespond.arp_control. destruct (ArpRespond.arp_action _); [|done|by intros [= -> _]].
    intros [= _ Hu _]. unfold on_wire in Hi. unfold u32 in Hu. rewrite Z.mod_small in Hu by lia. lia. }
  destruct (ArpRespond.arp_parse (skb_data skb)) as [[v h] n]. intros Es.
  exists v, h, n. split; [done|]. split; [by destruct v|].
  destruct v; [|done|]; (destruct (ArpRespond.arp_control filter k skb h) as [[[h' port] k1]|] eqn:Ee; [|done]);
    injection Es as -> <- _ _; rewrite (Hc _ _ _ Ee); unfold ArpRespond.headers_bytes; by rewrite <- !app_assoc.
Qed.

Lemma arp_resends k skb out grow k' :
  frame_data (skb_data skb) -> on_wire skb ->
  ArpRespond.arp_respond_spec filter k skb = Send 0 out grow k' ->
  (ArpRespond.arp_parse out).1.1 <> Rejected.
Proof.
  intros Hd Hi Es. apply arp_not_rejected. intros Ht Hl.
  destruct (arp_handed_over _ _ _ _ _ Hi Es) as (v & h & n & Ep & Hnr & ->). clear Es Hi.
  set (data := skb_data skb) in *. destruct (wf_first skb Hd) as [Hw Hv]. fold data in Hw, Hv.
  destruct Hd as (H14 & Hb & _).
  unfold ArpRespond.arp_parse in Ep. destruct (Nat.ltb_spec (length data) 14); [lia|]. cbv zeta in Ep.
  set (e := ethernet_of_bytes (slice 0 14 data)) in *.
  destruct (Z.eqb_spec (eth_etherType e) 0x806) as [Ht'|Ht']; cbn [negb] in Ep.
  2: { injection Ep as <- <- <-. cbn [ArpRespond.ethernet] in Ht. by rewrite type_of_sent in Ht. }
  assert (Hlo : forall l, length (out_ethernet e ++ l) = (14 + length l)%nat)
    by (intros l; rewrite length_app, length_out_ethernet, Hv; done).
  destruct (Nat.ltb_spec (length data) 22).
  { injection Ep as <- <- <-. cbn [ArpRespond.ethernet] in Hl. rewrite Hlo in Hl.
    cbn [ArpRespond.arp ArpRespond.arp_ipv4] in Hl.
    change (ArpRespond.out_arp ArpRespond.arp0) with (@nil Z) in Hl.
    change (ArpRespond.out_arp_ipv4 ArpRespond.arp_ipv4_0) with (@nil Z) in Hl.
    rewrite !app_nil_l, length_drop in Hl. lia. }
  destruct (ArpRespond.arp_of_bytes_wf (slice 14 8 data)) as [Wa Va];
    [apply length_slice; lia|by apply slice_bytes|].
  set (a := ArpRespond.arp_of_bytes (slice 14 8 data)) in *.
  destruct (Nat.ltb_spec (length data) 42).
  { injection Ep as <- <- <-. cbn [ArpRespond.ethernet] in Hl. rewrite Hlo in Hl.
    cbn [ArpRespond.arp ArpRespond.arp_ipv4] in Hl.
    change (ArpRespond.out_arp_ipv4 ArpRespond.arp_ipv4_0) with (@nil Z) in Hl.
    rewrite app_nil_l, length_app, ArpRespond.length_out_arp, Va, length_drop in Hl. cbn in Hl. lia. }
  destruct (Z.eqb_spec (ArpRespond.arp_oper a) 1) as [Ho|]; injection Ep as <- <- <-; [|done].
  cbn [ArpRespond.ethernet ArpRespond.arp]. by rewrite oper_of_sent.
Qed.

#[export] Instance arp_respond_pipeline_ok : PipelineOk arp_respond_pipeline.
Proof.
  destruct (ArpRespond.arp_respond_ok filter) as [mods Hok].
  refine (chain_pipeline_ok ArpRespond.headers0 ArpRespond.metadata0 ArpRespond.start
    (ArpRespond.arp_respond_body filter) _ ArpRespond.arp_parse
    (ArpRespond.arp_respond_implements filter) ArpRespond.arp_respond_start _ _ _).
  - intros data Hb Hl. pose proof (ok_parse _ _ _ _ _ _ _ _ _ _ _ Hok data Hb Hl) as Hp.
    destruct (ArpRespond.arp_parse data) as [[v h] n]. lia.
  - intros k skb port out grow k'. refine (program_sends _ _ _ _ _ _ _ _ _ _ _ _ _ _ _ _ _ Hok _).
    intros h. unfold ArpRespond.headers_bytes. split.
    + apply bytes_app. split; [apply bytes_out_ethernet|]. apply bytes_app.
      unfold ArpRespond.out_arp, ArpRespond.out_arp_ipv4.
      split; case_match; (apply bytes_p4_emit || constructor).
    + rewrite !length_app, length_out_ethernet, ArpRespond.length_out_arp, ArpRespond.length_out_arp_ipv4.
      repeat case_match; lia.
  - intros k skb out grow k'. apply arp_resends.
Qed.

(** A tracker sends every packet as it came. *)
Section Trackers.
Context {I : Type} `{N : !Network I} `{NO : !NetworkOk}.

Lemma tracker_implements :
  Implements (tracker (I := I) filter) (program_spec flow_out flow_parse (flow_control filter)).
Proof. intros w Ha. exact (program_run _ _ _ _ _ _ _ _ _ _ _ w (flow_ok filter) Ha). Qed.

Lemma tracker_sends k skb port out grow k' :
  frame_data (skb_data skb) ->
  program_spec flow_out flow_parse (flow_control filter) k skb = Send port out grow k' ->
  out = skb_data skb /\ port = 0.
Proof.
  intros (Hl & Hb & _). pose proof (flow_parse_restores (skb_data skb) Hb Hl) as Hr.
  unfold program_spec, flow_control, restores in *.
  destruct (flow_parse (skb_data skb)) as [[v h] n]. destruct Hr as (_ & _ & _ & Ho).
  destruct v; [|done|]; by intros [= <- <- <- <-].
Qed.

Definition tracker_pipeline : pipeline :=
  mk_pipeline _ (flow_headers I) Flow.my_ingress_metadata_t (tracker filter)
    (program_spec flow_out flow_parse (flow_control filter)) (fun data => (flow_parse data).1.1).

#[export] Instance tracker_pipeline_ok : PipelineOk tracker_pipeline.
Proof.
  refine (chain_pipeline_ok flow_headers0 Flow.metadata0 flow_start
    (program_body (flow_main filter) flow_outHeaderLength flow_emit) _ flow_parse
    tracker_implements flow_start_spec _ _ _).
  - intros data Hb Hl. pose proof (flow_parse_restores data Hb Hl) as Hr. unfold restores in Hr.
    destruct (flow_parse data) as [[v h] n]. lia.
  - intros k skb port out grow k' Hd E. destruct (tracker_sends _ _ _ _ _ _ Hd E) as [-> _].
    destruct Hd as (Hl & Hb & _). split; [exact Hb|]. split; [exact Hl|]. lia.
  - intros k skb out grow k' Hd _ E. destruct (tracker_sends _ _ _ _ _ _ Hd E) as [-> _].
    unfold program_spec in E. by destruct (flow_parse (skb_data skb)) as [[[] h] n].
Qed.
End Trackers.

#[export] Instance flowtracker_pipeline_ok : PipelineOk flowtracker_pipeline.
Proof. exact (tracker_pipeline_ok (I := ipv4_t)). Qed.

#[export] Instance flowtracker_ipv6_pipeline_ok : PipelineOk flowtracker_ipv6_pipeline.
Proof. exact (tracker_pipeline_ok (I := ipv6_t)). Qed.

Lemma pipelines_ok : Forall PipelineOk pipelines.
Proof. repeat (apply List.Forall_cons; [exact _|]). apply List.Forall_nil. Qed.
End Pipelines.
