(* ===== verification/Hosts.v ===== *)
(** What holds of a host that runs one of the eight programs, in every state
    it can reach, and of a host that tracks flows. *)

From stdpp Require Import gmap relations.
From S2P Require Import Prelude CInt Memory Pna P4Spec Pipeline Steps Headers Deparse Chain Host.
From S2P Require Import Samples Ipip Routing Calc Ingress SimpleL3 RedirectL2 ArpRespond Ipv6.
From S2P Require Import Flow Flowtracker FlowtrackerIpv6 Pipelines.

(** ** Every program *)

Section Hosts.
Context `{BO : ByteOrder} `{K : P4tcKernel} `{!P4tcKernelOk K} `{!RedirectOk K}.
Context (filter : p4tc_filter_fields).

Lemma in_pipelines_ok p : In p (pipelines filter) -> PipelineOk p.
Proof. intros Hin. exact (proj1 (List.Forall_forall _ _) (pipelines_ok filter) p Hin). Qed.

(** C7: whatever packets arrive at a host that runs one of the programs, and
    in whatever order they are handled, the packets at the hook stay well
    formed and none of them gets stuck: the program comes to one of the
    verdicts of the hook for every one of them, without an access outside of
    the packet. *)
Theorem pipelines_progress p st q1 skb0 skb q2 :
  In p (pipelines filter) -> reachable p st -> h_queue p st = q1 ++ (skb0, skb) :: q2 ->
  host_ok p st /\ exists st' q3, handle p st st' /\ h_queue p st' = q1 ++ q2 ++ q3.
Proof.
  intros Hin Hr Eq. pose proof (in_pipelines_ok p Hin) as Hok. pose proof (reachable_ok p st Hr) as Ho.
  split; [exact Ho|]. destruct (handle_progress p st q1 skb0 skb q2 Ho Eq) as (st' & Hh & q3 & E). eauto.
Qed.

(** C5: a host is done with what has arrived after two passes for every packet
    at most, whatever it handles first, and can always go on until it is.  When
    it can do no more, the packets that ever arrived are, each of them once,
    those that were dropped, those that the kernel's stack has received and
    those that were sent; what the stack has received of a packet are the bytes
    that the program's specification says for it in some state of the tables,
    with port 0, and what was sent are the bytes it says, on the port it says. *)
Theorem pipelines_settle p st n st' :
  In p (pipelines filter) -> reachable p st -> nsteps (handle p) n st st' ->
  (n <= 2 * length (h_queue p st))%nat /\
  (exists m st'', nsteps (handle p) m st' st'' /\ h_queue p st'' = []) /\
  ((forall st'', ~ handle p st' st'') ->
   h_queue p st' = [] /\
   h_arrived p st' ≡ₚ h_dropped p st' ++ map fst (h_stack p st') ++ map fst (h_sent p st') /\
   Forall (fun pkt => exists k, makes p k pkt.1 0 (skb_data pkt.2)) (h_stack p st') /\
   Forall (fun pkt => pkt.2.1 <> 0 /\ exists k, makes p k pkt.1 pkt.2.1 (skb_data pkt.2.2))
     (h_sent p st')).
Proof.
  intros Hin Hr Hn. pose proof (in_pipelines_ok p Hin) as Hok.
  destruct (handle_bound p n st st' (reachable_ok p st Hr) Hn) as [Hb Ho'].
  pose proof (reachable_handles p n st st' Hr Hn) as Hr'.
  split; [pose proof (work_queue p st); lia|]. split; [by apply handle_drains|]. intros Hidle.
  pose proof (idle_empty p st' Ho' Hidle) as Eq. split; [exact Eq|].
  pose proof (reachable_accounted p st' Hr') as Ha. unfold accounted in Ha. rewrite Eq in Ha.
  split; [exact Ha|]. by destruct (reachable_fated p st' Hr') as (_ & Hk & Hs).
Qed.

(** C13: a packet that a program has handed to the kernel is not processed
    again: on its second pass, whatever happened to the host in between, it is
    accepted for the stack with the bytes the first pass gave it, and leaves the
    tables as they are. *)
Theorem pipelines_second_pass p st q1 skb0 skb q2 :
  In p (pipelines filter) -> reachable p st -> h_queue p st = q1 ++ (skb0, skb) :: q2 ->
  pass_to_kernel (skb_cb skb) = true ->
  exists w, pl_run p (packet_world p st skb) = Some (TC_ACT_OK, w) /\
    skb_data (w_skb w) = skb_data skb /\ w_kern w = h_kern p st.
Proof.
  intros Hin Hr Eq Hp. pose proof (in_pipelines_ok p Hin) as Hok.
  destruct (queued_in p st q1 skb0 skb q2 (reachable_ok p st Hr) Eq) as [[Hf|Hre] _].
  - destruct Hf as (Hf & _). congruence.
  - by apply run_returning.
Qed.
End Hosts.

(** ** A host that tracks flows *)

Section Trackers.
Context `{BO : ByteOrder} {I : Type} `{N : !Network I} `{NO : !NetworkOk}.
Context `{K : P4tcKernel} `{!P4tcKernelOk K} `{!RedirectOk K} (filter : p4tc_filter_fields).
Context `{T : !FlowTable K filter} `{!FlowTableOk K filter}.

(** The flow of a packet, and the flows of a list of packets. *)
Definition skb_flow (skb : sk_buff) : option (list Z) :=
  flow_of (I := I) (skb_ifindex skb) (skb_data skb).
Definition skb_flows (l : list sk_buff) : gset (list Z) := list_to_set (omap skb_flow l).
Arguments skb_flow : simpl never.
Arguments skb_flows : simpl never.

Lemma elem_of_flows key l : key ∈ skb_flows l <-> exists skb, skb ∈ l /\ skb_flow skb = Some key.
Proof. unfold skb_flows. by rewrite elem_of_list_to_set, list_elem_of_omap. Qed.

Local Notation "'program'" := (tracker_pipeline (I := I) filter).

(** The first pass of a packet. *)
Lemma tracker_pass (st : host program) skb r w :
  fresh skb -> pl_run program (packet_world program st skb) = Some (r, w) ->
  (r = TC_ACT_SHOT \/ w_redirect w = Some (skb_ifindex skb, BPF_F_INGRESS) /\
                      skb_data (w_skb w) = skb_data skb) /\
  tracked (h_kern program st) ⊆ tracked (w_kern w) ⊆ skb_flows [skb] ∪ tracked (h_kern program st) /\
  (room_for K filter (skb_flows [skb] ∪ tracked (h_kern program st)) ->
   skb_flows [skb] ⊆ tracked (w_kern w)).
Proof.
  intros Hf E. pose proof (fresh_arrives program st skb Hf) as Ha.
  change (tracker filter (packet_world program st skb) = Some (r, w)) in E. split.
  - pose proof (tracker_spec filter _ Ha) as Hs. destruct (flow_of _ _).
    + destruct Hs as (r' & w' & E' & Hd & _ & Hr). rewrite E in E'. injection E' as <- <-.
      destruct Hr as (_ & Hr & _). by right.
    + destruct Hs as (w' & E' & _). rewrite E in E'. injection E' as <- _. by left.
  - destruct (tracker_step filter _ (h_kern program st) Ha) as (r' & w' & E' & Hs & Hr).
    change (tracker filter (packet_world program st skb) = Some (r', w')) in E'.
    rewrite E in E'. injection E' as <- <-. split; [exact Hs|].
    intros Hroom. exact (eq_ind_r (fun s => skb_flows [skb] ⊆ s) (union_subseteq_l _ _) (Hr Hroom)).
Qed.

(** What holds of a host that started with the tables [k0]. *)
Record tracking (k0 : kstate) (st : host program) : Prop := {
  tr_ok : host_ok program st;
  tr_sent : h_sent program st = [];
  tr_fresh : Forall fresh (h_arrived program st);
  tr_queue : forall skb0 skb, (skb0, skb) ∈ h_queue program st ->
    skb0 ∈ h_arrived program st /\ skb_data skb = skb_data skb0 /\ (fresh skb -> skb = skb0);
  tr_stack : forall skb0 skb, (skb0, skb) ∈ h_stack program st ->
    skb0 ∈ h_arrived program st /\ skb_data skb = skb_data skb0;
  tr_old : tracked k0 ⊆ tracked (h_kern program st);
  tr_new : tracked (h_kern program st) ⊆ skb_flows (h_arrived program st) ∪ tracked k0;
  tr_all : room_for K filter (skb_flows (h_arrived program st) ∪ tracked k0) ->
    forall skb, skb ∈ h_arrived program st ->
    (skb, skb) ∈ h_queue program st \/ skb_flows [skb] ⊆ tracked (h_kern program st)
}.

Lemma tracking_initial st : initial program st -> tracking (h_kern program st) st.
Proof.
  intros (Hq & Ha & _ & Hs & Ho).
  split; rewrite ?Hq, ?Ha, ?Hs; try done; try (intros skb0 skb Hin; by apply not_elem_of_nil in Hin).
  - unfold host_ok. by rewrite Hq.
  - apply union_subseteq_r.
Qed.

Lemma flows_mono l l' : l ⊆ l' -> skb_flows l ⊆ skb_flows l'.
Proof.
  intros Hl key (skb & Hin & E)%elem_of_flows. apply elem_of_flows. exists skb. split; [by apply Hl|done].
Qed.

Lemma tracking_receive k0 st st' :
  tracking k0 st -> receive program st st' -> tracking k0 st'.
Proof.
  intros [Hok Hs Hf Hq Hk Ho Hn Ha] Hr.
  assert (Hok' : host_ok program st') by (eapply (host_ok_step program); [exact Hok|by left]).
  destruct Hr as [[] skb Hfr]; cbn in *. split; cbn; try done.
  - by constructor.
  - intros x0 x [Hin|[= -> ->]%list_elem_of_singleton]%elem_of_app.
    + destruct (Hq x0 x Hin) as (H1 & H2). split; [by apply list_elem_of_further|exact H2].
    + split_and!; [apply list_elem_of_here|done|done].
  - intros x0 x Hin. destruct (Hk x0 x Hin) as [H1 H2]. split; [by apply list_elem_of_further|exact H2].
  - etransitivity; [exact Hn|]. apply union_mono_r, flows_mono. intros x. by apply list_elem_of_further.
  - intros Hroom x [->|Hin]%elem_of_cons; [left; apply elem_of_app; right; apply list_elem_of_here|].
    assert (Hroom' : room_for K filter (skb_flows h_arrived ∪ tracked k0)).
    { eapply room_for_sub; [|exact Hroom]. apply union_mono_r, flows_mono.
      intros y. by apply list_elem_of_further. }
    destruct (Ha Hroom' x Hin) as [Hl|Hr]; [left; apply elem_of_app; by left|by right].
Qed.

(** What a run comes to, on whichever pass. *)
Lemma tracking_run k0 st q1 skb0 skb q2 r w :
  tracking k0 st -> h_queue program st = q1 ++ (skb0, skb) :: q2 ->
  pl_run program (packet_world program st skb) = Some (r, w) ->
  (r = TC_ACT_SHOT \/ skb_data (w_skb w) = skb_data skb /\
     (r = TC_ACT_OK \/ w_redirect w = Some (skb_ifindex skb, BPF_F_INGRESS))) /\
  tracked (h_kern program st) ⊆ tracked (w_kern w)
  ⊆ skb_flows (h_arrived program st) ∪ tracked k0 /\
  (room_for K filter (skb_flows (h_arrived program st) ∪ tracked k0) -> fresh skb ->
   skb_flows [skb] ⊆ tracked (w_kern w)).
Proof.
  intros Ht Eq E. destruct (queued_in program _ _ _ _ _ (tr_ok _ _ Ht) Eq) as [[Hf|Hr] _].
  - destruct (tracker_pass st skb r w Hf E) as (Hv & [H1 H2] & H3).
    assert (Hsub : skb_flows [skb] ∪ tracked (h_kern program st)
                   ⊆ skb_flows (h_arrived program st) ∪ tracked k0).
    { apply union_least; [|exact (tr_new _ _ Ht)]. apply union_subseteq_l', flows_mono.
      intros x ->%list_elem_of_singleton.
      destruct (tr_queue _ _ Ht skb0 skb) as (Hin & _ & Hs); [|by rewrite (Hs Hf)].
      rewrite Eq. apply elem_of_app. right. apply list_elem_of_here. }
    split_and!; [|exact H1|by etransitivity|].
    + destruct Hv as [Hv|[Hr Hd]]; [by left|]. right. split; [exact Hd|by right].
    + intros Hroom _. exact (H3 (room_for_sub filter _ _ Hsub Hroom)).
  - destruct (run_returning program st skb Hr) as (w' & E' & Hd & Hk). rewrite E in E'. injection E' as -> <-.
    rewrite Hk. split_and!; [right; by split; [|left]|done|exact (tr_new _ _ Ht)|].
    intros _ (Hp & _). destruct Hr as (Hp' & _). congruence.
Qed.

(** Taking a packet out of the queue. *)
Lemma tracking_left k0 st q1 skb0 skb q2 r w :
  tracking k0 st -> h_queue program st = q1 ++ (skb0, skb) :: q2 ->
  pl_run program (packet_world program st skb) = Some (r, w) ->
  tracking k0 (left_by program st (q1 ++ q2) w).
Proof.
  intros Ht Eq E. destruct (tracking_run k0 st q1 skb0 skb q2 r w Ht Eq E) as (_ & [H1 H2] & H3).
  destruct (queued_in program _ _ _ _ _ (tr_ok _ _ Ht) Eq) as [_ Hq].
  destruct Ht as [Hok Hs Hf Hq0 Hk Ho Hn Ha]. rewrite Eq in *.
  assert (Hin : forall x, x ∈ q1 ++ q2 -> x ∈ q1 ++ (skb0, skb) :: q2)
    by (intros x; rewrite !elem_of_app, elem_of_cons; tauto).
  split; cbn; try done.
  - intros x0 x Hx. by apply Hq0, Hin.
  - by transitivity (tracked (h_kern program st)).
  - intros Hroom x Hx. destruct (Ha Hroom x Hx) as [Hl|Hr].
    + rewrite elem_of_app, elem_of_cons in Hl. destruct Hl as [Hl|[[= <- <-]|Hl]].
      * left. apply elem_of_app. by left.
      * right. apply H3; [exact Hroom|].
        exact (proj1 (List.Forall_forall _ _) Hf _ (proj1 (list_elem_of_In _ _) Hx)).
      * left. apply elem_of_app. by right.
    + right. by transitivity (tracked (h_kern program st)).
Qed.

Lemma tracking_step k0 st st' : tracking k0 st -> step program st st' -> tracking k0 st'.
Proof.
  intros Ht [Hr|Hh]; [by eapply tracking_receive|].
  assert (Hok : host_ok program st') by (eapply (host_ok_step program); [exact (tr_ok _ _ Ht)|by right]).
  destruct Hh as [st q1 q2 skb0 skb w Eq E|st q1 q2 skb0 skb w Eq E|st q1 q2 skb0 skb w i Eq E Hw|st q1 q2 skb0 skb w port Eq E Hw];
    destruct (tracking_run _ _ _ _ _ _ _ _ Ht Eq E) as (Hv & _);
    destruct (tracking_left _ _ _ _ _ _ _ _ Ht Eq E) as [_ Hs Hf Hq Hk Ho Hn Ha];
    (destruct (tr_queue _ _ Ht skb0 skb) as (Hin & Hd0 & _);
      [rewrite Eq; apply elem_of_app; right; apply list_elem_of_here|]);
    (destruct Hv as [Hv|[Hdata Hv]]; [done|]) || idtac.
  - by split.
  - split; cbn in *; try done. intros x0 x [[= -> ->]|Hx]%elem_of_cons; [|by apply Hk].
    split; [exact Hin|by rewrite Hdata].
  - destruct (ingress_run program st skb w i (proj1 (queued_in program _ _ _ _ _ (tr_ok _ _ Ht) Eq)) E Hw)
      as (_ & _ & Hre & _).
    split; cbn in *; try done.
    + intros x0 x Hx. rewrite app_assoc, elem_of_app in Hx.
      destruct Hx as [Hx|[= -> ->]%list_elem_of_singleton]; [by apply Hq|].
      split_and!; [exact Hin|cbn; by rewrite Hdata|].
      intros (Hp & _). destruct Hre as (Hp' & _). congruence.
    + intros Hroom x Hx. destruct (Ha Hroom x Hx) as [Hl|Hr]; [left|by right].
      rewrite app_assoc. apply elem_of_app. by left.
  - destruct Hv as [Hv|Hv]; [done|]. rewrite Hw in Hv. done.
Qed.

Lemma tracking_steps st0 st :
  initial program st0 -> rtc (step program) st0 st -> tracking (h_kern program st0) st.
Proof.
  intros Hi Hs. pose proof (tracking_initial _ Hi) as Ht. revert Ht. generalize (h_kern program st0).
  clear Hi. intros k0. induction Hs as [|st0 st1 st H1 _ IH]; intros Ht; [exact Ht|].
  apply IH. by eapply tracking_step.
Qed.

(** What a host has done when nothing is left at the hook. *)
Lemma tracker_host st0 st :
  initial program st0 -> rtc (step program) st0 st -> h_queue program st = [] ->
  h_sent program st = [] /\
  (forall skb0 skb, (skb0, skb) ∈ h_stack program st ->
     skb0 ∈ h_arrived program st /\ skb_data skb = skb_data skb0) /\
  tracked (h_kern program st0) ⊆ tracked (h_kern program st)
  ⊆ skb_flows (h_arrived program st) ∪ tracked (h_kern program st0) /\
  (room_for K filter (skb_flows (h_arrived program st) ∪ tracked (h_kern program st0)) ->
   tracked (h_kern program st) = skb_flows (h_arrived program st) ∪ tracked (h_kern program st0)).
Proof.
  intros Hi Hs Eq. destruct (tracking_steps _ _ Hi Hs) as [_ Hsent _ _ Hk Ho Hn Ha].
  rewrite Eq in Ha. split_and!; [done|exact Hk|done|done|].
  intros Hroom. apply (anti_symm (⊆)); [exact Hn|]. apply union_least; [|exact Ho].
  intros key (skb & Hin & E)%elem_of_flows. destruct (Ha Hroom skb Hin) as [Hq|Hsub]; [by apply not_elem_of_nil in Hq|].
  apply Hsub, elem_of_flows. exists skb. split; [apply list_elem_of_here|exact E].
Qed.
End Trackers.

(** ** The two trackers *)

Section TrackerHosts.
Context `{BO : ByteOrder} `{K : P4tcKernel} `{!P4tcKernelOk K} `{!RedirectOk K}.
Context (filter : p4tc_filter_fields) `{T : !FlowTable K filter} `{!FlowTableOk K filter}.

(** C8: a host that runs the IPv4 tracker, whatever arrives and in whatever
    order the packets of both passes are handled.  Once nothing is left at the
    hook it has sent nothing out, its stack has received nothing but packets
    that arrived, byte for byte, and its table holds the flows it started with
    and those of packets that arrived, and no others; if the table is large
    enough for all of these flows, it holds every one of them. *)
Theorem flowtracker_host st0 st :
  let p := flowtracker_pipeline filter in
  initial p st0 -> rtc (step p) st0 st -> h_queue p st = [] ->
  h_sent p st = [] /\
  (forall skb0 skb, (skb0, skb) ∈ h_stack p st ->
     skb0 ∈ h_arrived p st /\ skb_data skb = skb_data skb0) /\
  tracked (h_kern p st0) ⊆ tracked (h_kern p st)
  ⊆ skb_flows (I := ipv4_t) (h_arrived p st) ∪ tracked (h_kern p st0) /\
  (room_for K filter (skb_flows (I := ipv4_t) (h_arrived p st) ∪ tracked (h_kern p st0)) ->
   tracked (h_kern p st) = skb_flows (I := ipv4_t) (h_arrived p st) ∪ tracked (h_kern p st0)).
Proof. exact (tracker_host (I := ipv4_t) filter st0 st). Qed.

(** C20: a host that runs the IPv6 tracker, whatever arrives and in whatever
    order the packets of both passes are handled, has sent nothing out once
    nothing is left at the hook, its stack has received nothing but packets
    that arrived, byte for byte, and its table holds the flows it started with
    and those of packets that arrived, and no others; if the table is large
    enough for all of these flows, it holds every one of them. *)
Theorem flowtracker_ipv6_host st0 st :
  let p := flowtracker_ipv6_pipeline filter in
  initial p st0 -> rtc (step p) st0 st -> h_queue p st = [] ->
  h_sent p st = [] /\
  (forall skb0 skb, (skb0, skb) ∈ h_stack p st ->
     skb0 ∈ h_arrived p st /\ skb_data skb = skb_data skb0) /\
  tracked (h_kern p st0) ⊆ tracked (h_kern p st)
  ⊆ skb_flows (I := ipv6_t) (h_arrived p st) ∪ tracked (h_kern p st0) /\
  (room_for K filter (skb_flows (I := ipv6_t) (h_arrived p st) ∪ tracked (h_kern p st0)) ->
   tracked (h_kern p st) = skb_flows (I := ipv6_t) (h_arrived p st) ∪ tracked (h_kern p st0)).
Proof. exact (tracker_host (I := ipv6_t) filter st0 st). Qed.
End TrackerHosts.

(** ** The theorems at concrete hosts *)

#[export] Instance flow_kernel_redirect n : RedirectOk (flow_kernel n).
Proof. intros ifindex flags. by left. Qed.

(** A packet arrives, is processed, and its second pass takes it to the stack. *)
Section Journey.
Context `{K : P4tcKernel} (p : pipeline) (k0 : kstate) (scratch : hdr_md (pl_H p) (pl_U p)).
Context (skb : sk_buff).

Definition world_after (st : host p) (skb : sk_buff) : world (pl_H p) (pl_U p) :=
  match pl_run p (packet_world p st skb) with Some (_, w) => w | None => packet_world p st skb end.
Definition host0 : host p := mk_host p k0 scratch [] [] [] [] [].
Definition host1 : host p := mk_host p k0 scratch [(skb, skb)] [skb] [] [] [].
Definition world1 : world (pl_H p) (pl_U p) := world_after host1 skb.
Definition again : sk_buff := on_device (w_skb world1) (skb_ifindex skb).
Definition host2 : host p := left_by p host1 [(skb, again)] world1.
Definition world2 : world (pl_H p) (pl_U p) := world_after host2 again.
Definition host3 : host p :=
  mk_host p (w_kern world2) (scratch_of p host2 world2) [] [skb] [] [(skb, w_skb world2)] [].

(** The two verdicts. *)
Definition passes_on : Prop :=
  pl_run p (packet_world p host1 skb) = Some (TC_ACT_REDIRECT, world1) /\
  w_redirect world1 = Some (skb_ifindex skb, BPF_F_INGRESS) /\
  pl_run p (packet_world p host2 again) = Some (TC_ACT_OK, world2).

Hypotheses (Hfresh : fresh skb) (Hpass : passes_on).

Lemma host0_initial : initial p host0.
Proof. by split_and!. Qed.

Lemma host0_receives : step p host0 host1.
Proof. left. exact (receive_packet p host0 skb Hfresh). Qed.

Lemma host1_handles : handle p host1 host2.
Proof.
  exact (handle_ingress p host1 [] [] skb skb world1 _ eq_refl (proj1 Hpass) (proj1 (proj2 Hpass))).
Qed.

Lemma host2_handles : handle p host2 host3.
Proof. exact (handle_ok p host2 [] [] skb again world2 eq_refl (proj2 (proj2 Hpass))). Qed.

Lemma host2_run : rtc (step p) host0 host2.
Proof.
  eapply rtc_l; [exact host0_receives|]. eapply rtc_l; [right; exact host1_handles|]. apply rtc_refl.
Qed.

Lemma host2_reachable : reachable p host2.
Proof. exists host0. split; [exact host0_initial|exact host2_run]. Qed.

Lemma host3_run : rtc (step p) host0 host3.
Proof. eapply rtc_r; [exact host2_run|]. right. exact host2_handles. Qed.

Lemma empty_idle (st st' : host p) : h_queue p st = [] -> ~ handle p st st'.
Proof.
  intros Eq Hh.
  destruct Hh as [st q1 q2 x0 x w E|st q1 q2 x0 x w E|st q1 q2 x0 x w i E|st q1 q2 x0 x w port E];
    rewrite Eq in E; by destruct q1.
Qed.
End Journey.

Section Witnesses.
Definition track_kernel : P4tcKernel := flow_kernel 1.
Definition track_p : pipeline (K := track_kernel) :=
  flowtracker_pipeline (K := track_kernel) sample_filter.
Definition track6_p : pipeline (K := track_kernel) :=
  flowtracker_ipv6_pipeline (K := track_kernel) sample_filter.
Definition track_scratch : hdr_md (pl_H track_p) (pl_U track_p) :=
  mk_hdr_md _ _ flow_headers0 Flow.metadata0 0 0.
Definition track6_scratch : hdr_md (pl_H track6_p) (pl_U track6_p) :=
  mk_hdr_md _ _ flow_headers0 Flow.metadata0 0 0.

Local Notation "'on4' x" := (x track_kernel track_p [] track_scratch (sample_skb sample_frame)) (at level 9).
Local Notation "'on6' x" := (x track_kernel track6_p [] track6_scratch (sample_skb sample_frame6)) (at level 9).

Lemma sample_fresh data :
  is_bytes data && (14 <=? length data)%nat && (Z.of_nat (length data) <? 2 ^ 16) = true ->
  fresh (sample_skb data).
Proof.
  intros Hd. apply andb_prop in Hd as [Hd Hs]. apply andb_prop in Hd as [Hb Hl].
  apply Nat.leb_le in Hl. apply Z.ltb_lt in Hs. apply is_bytes_ok in Hb.
  unfold fresh, frame_data, on_wire, small. 
  split_and!; try done; try apply bytes_nil; cbn [sample_skb skb_data skb_ifindex]; lia.
Qed.

Lemma frame_fresh : fresh (sample_skb sample_frame).
Proof. apply sample_fresh. vm_compute. reflexivity. Qed.

Lemma frame6_fresh : fresh (sample_skb sample_frame6).
Proof. apply sample_fresh. vm_compute. reflexivity. Qed.

Lemma frame_passes : on4 (@passes_on).
Proof. split_and!; vm_compute; reflexivity. Qed.

Lemma frame6_passes : on6 (@passes_on).
Proof. split_and!; vm_compute; reflexivity. Qed.

Lemma in_pipelines : In track_p (pipelines (K := track_kernel) sample_filter).
Proof. do 6 right. by left. Qed.

Lemma pipelines_progress_witness :
  host_ok track_p (on4 (@host2)) /\
  exists st' q3, handle track_p (on4 (@host2)) st' /\ h_queue track_p st' = [] ++ [] ++ q3.
Proof.
  refine (pipelines_progress sample_filter track_p (on4 (@host2)) [] (sample_skb sample_frame) (on4 (@again)) []
    in_pipelines
    (host2_reachable _ _ _ _ frame_fresh frame_passes) eq_refl).
Defined.

Lemma pipelines_settle_witness :
  h_arrived track_p (on4 (@host3))
  ≡ₚ h_dropped track_p (on4 (@host3)) ++ map fst (h_stack track_p (on4 (@host3)))
     ++ map fst (h_sent track_p (on4 (@host3))).
Proof.
  refine (proj1 (proj2 (proj2 (proj2 (pipelines_settle sample_filter track_p (on4 (@host2)) 1 (on4 (@host3))
    in_pipelines (host2_reachable _ _ _ _ frame_fresh frame_passes) _)) _))).
  - eapply nsteps_l; [exact (host2_handles _ _ _ _ frame_passes)|]. apply nsteps_O.
  - intros st. by apply empty_idle.
Defined.

Lemma pipelines_second_pass_witness :
  exists w, pl_run track_p (packet_world track_p (on4 (@host2)) (on4 (@again))) = Some (TC_ACT_OK, w) /\
    skb_data (w_skb w) = skb_data (on4 (@again)) /\ w_kern w = h_kern track_p (on4 (@host2)).
Proof.
  refine (pipelines_second_pass sample_filter track_p (on4 (@host2)) [] (sample_skb sample_frame) (on4 (@again)) []
    in_pipelines
    (host2_reachable _ _ _ _ frame_fresh frame_passes) eq_refl _).
  vm_compute. reflexivity.
Defined.

(** After one packet the table holds its flow. *)
Lemma flowtracker_host_witness :
  h_sent track_p (on4 (@host3)) = [] /\
  tracked (K := track_kernel) (filter := sample_filter) (h_kern track_p (on4 (@host3)))
  = skb_flows (I := ipv4_t) [sample_skb sample_frame] ∪ ∅.
Proof.
  destruct (flowtracker_host (K := track_kernel) sample_filter (host0 track_p [] track_scratch) (on4 (@host3))
    (host0_initial _ _ _) (host3_run _ _ _ _ frame_fresh frame_passes) eq_refl) as (H1 & _ & _ & H2).
  split; [exact H1|]. apply H2. exists 1%nat. split; [apply flow_kernel_room|]. vm_compute. lia.
Defined.

Lemma flowtracker_ipv6_host_witness :
  h_sent track6_p (on6 (@host3)) = [] /\
  tracked (K := track_kernel) (filter := sample_filter) (h_kern track6_p (on6 (@host3)))
  = skb_flows (I := ipv6_t) [sample_skb sample_frame6] ∪ ∅.
Proof.
  destruct (flowtracker_ipv6_host (K := track_kernel) sample_filter (host0 track6_p [] track6_scratch) (on6 (@host3))
    (host0_initial _ _ _) (host3_run _ _ _ _ frame6_fresh frame6_passes) eq_refl) as (H1 & _ & _ & H2).
  split; [exact H1|]. apply H2. exists 1%nat. split; [apply flow_kernel_room|]. vm_compute. lia.
Defined.

Example one_packet_tracked :
  h_kern track_p (on4 (@host3)) = [flow_tuple 2 sample_ip [0; 7; 0; 7]] /\
  map (fun pkt => skb_data pkt.2) (h_stack track_p (on4 (@host3))) = [sample_frame].
Proof. split; vm_compute; reflexivity. Qed.
End Witnesses.
